(* ===== verification/_CoqProject ===== *)
-Q . S2P
Prelude.v
Memory.v
CList.v
Libc.v
Console.v
Frames.v
Types.v
Loader.v
Bootsect.v
Kernel.v
Task.v
Paging.v
Utils.v
Switch.v
Sched.v
Policy.v
Space.v
Process.v
Init.v
Sys.v
Tick.v
Block.v
Fork.v
ForkInv.v
Exit.v
Write.v
Entry.v
Calls.v
Interrupt.v
System.v
Irq.v
Reach.v
Keyboard.v
Build.v
Disk.v
Debug.v
Fault.v
Wrappers.v
Spawn.v
Leave.v
Cdecl.v
User.v
Run.v
Idle.v
Witnesses.v
