(* ===== verification/Prelude.v ===== *)
(** * ZeOS: a verification of the kernel of a teaching operating system

    ZeOS (src/) is a small i386 kernel: ten task unions (a task structure and
    its kernel stack), one page directory and one page table for each, a round
    robin scheduler driven by the clock, a handful of system calls entered
    with [int $0x80] and a text console.  A host tool (build.c) makes the disk
    image; the boot sector (bootsect.S) reads it from the disk to memory, sets
    the devices up and enters it in protected mode; main (system.c) sets the processor up, creates the idle task and process 1, copies the user program
    to its pages and goes to user mode.  From then on the kernel runs only
    when a process makes a system call or the clock or the keyboard interrupt
    it.  The program in the image (user.c) greets, forks, stores its
    identifier and loops, in the parent and in the child.

    ** The model

    A C function is a function of the monad [M S A] of this file: it takes a
    state to a result and a new state, or to a fault.  The state of the kernel
    is the record [kstate] (Kernel.v): physical memory as bytes, the
    registers, the control registers and descriptor tables, and the global
    variables of the C files that do not need an address.  What the code
    links by pointers (queues, task structures, kernel stacks, page tables)
    lives in the memory, at the addresses of the class [Layout], which stands
    for the linker; [LayoutOk] states what the linker script gives: alignment
    and no overlap.  Pointers to user memory, and the copies of the kernel,
    go through the page tables (Utils.v), so a wrong mapping is a fault.
    Words are numbers of [Z] reduced where the hardware reduces them.  The
    translation of addresses reads the bits of the words as the processor
    does, not the program's bit fields.  [wp] is total correctness: no fault,
    and the postcondition; [wp_or] says when a function ends and with which
    fault it stops otherwise.  A write past the end of a local array, an array
    that does not fit the kernel stack and an access to an unmapped page are
    faults: what the machine does after the first two is not defined by C.

    ** Files

    - Prelude: integers, the monad, [wp], tactics, generic lemmas.
    - Memory: bytes and little-endian words, frames (footprints).
    - CList: list.c and list.h.  The lists of the kernel are a {e list
      system}, a map from heads to sequences; each operation implements an
      operation on sequences.
    - Libc: itoa and strlen of libc.c, itoa_hex of utils.c, on bounded arrays.
    - Console: io.c and devices.c.
    - Frames: the frame allocator of mm.c.
    - Types: types.h and segment.h, with the bit fields of page table entries,
      and what the processor reads of such an entry.
    - Loader: the routines of bootsect.S that read the system from the disk,
      on 16-bit registers, with the BIOS as a parameter; its descriptor table.
    - Bootsect: bootsect.S as a whole, from 0x7c00 to the jump into the kernel;
      the BIOS, the keyboard controller's answers and the A20 line are
      parameters, the bytes sent to the ports a list, which the interrupt
      controllers interpret.
    - Kernel, Task: the state, with the master interrupt controller's mask and
      the commands sent to it, the task structure of sched.h, current().
    - Paging: directories, tables and user pages of mm.c, and the translation
      the processor makes of them.
    - Utils: copy_data, copy_from_user, copy_to_user, access_ok, get_ticks.
    - Switch: task_switch (entry.S) and inner_task_switch (sched.c).
    - Sched: the queues, the initial tasks and round robin of sched.c.
    - Policy, Space, Process: the abstract process table and the invariants
      that tie it to the state: scheduling ([sched_inv]), ownership of frames
      ([mm_inv]), families and identifiers, and their sum [kernel_inv].
    - Init: init_mm, init_sched, init_idle and init_task1 establish it.
    - Sys: the services of sys.c.  Tick, Block, Fork, ForkInv, Exit, Write:
      the proofs about the clock tick and each service.
    - Entry, Calls: entry.S and sys_call_table.S; the calls as the user
      program sees them.  Interrupt: interrupt.c.  Irq and Keyboard: the
      clock's and the keyboard's interrupts as a process sees them.
    - System: system.c and hardware.c, main as a whole.
    - Reach: the kernel as a transition system and its refinement of the
      process table machine.
    - Build: build.c, over system calls each of which may fail or, for a read
      or a write, stop early.  Disk: the path from the files through the disk and the
      boot sector to the first process.
    - Debug: the reports print_queue, print_stack and debug_stack.  Fault: the
      page fault handler and the text of its report.
    - Wrappers: wrappers.S on the memory the user program sees ([view]).
      Spawn: fork, in the parent and in the child.  Leave: exit and block,
      after which another task has the processor.
    - Cdecl: calls of C functions through the user stack, itoa, strlen and
      perror of libc.c on user memory.  User: main of user.c.
    - Run: the whole system, from the image to the two processes in their
      loops.  Idle: cpu_idle, the clock interrupts it waits through, and what
      happens when the last process leaves.
    - Witnesses: each theorem about the running kernel applied to a concrete
      state, made by booting a sample image.

    ** What is proved

    - Data structures: list operations refine operations on sequences; the
      frame allocator returns the lowest free frame; itoa and itoa_hex write
      numerals that read back; the console stays on the screen and shows the
      text; copies agree with a reference definition; page table entries mean
      to the processor what mm.c intends.
    - Boot: whatever its system calls do, build makes an image of the files or
      exits with an error; the boot sector ends whatever the
      devices answer, has put the sectors of the disk at their place, loaded
      its tables and programmed the interrupt controllers; main runs from the
      image to the first user instruction, and establishes [kernel_inv].
    - Services: fork, exit, block, unblock, write, getpid and gettime, on
      every branch, do what the process table says and preserve [kernel_inv];
      exactly when they stop with a fault is proved as well: a switch to a
      task with an identifier from 100 on overruns the array of sched_next_rr,
      and write overruns the stack with its array, or faults past the user
      region.  fork returns twice; an interrupt of the clock or the
      keyboard is transparent to the process it interrupts, but for three keys
      that switch tasks behind the scheduler, after which the invariant is
      lost.
    - Scheduling: a tick refines round robin; a ready task waits at most for
      what is left of the quantum and one tick for each task before it,
      whatever the others do; a context
      switch gives a task its registers back.
    - System: every state reached from boot by any sequence of steps ([kstep]
      of Reach: process activity, interrupts and calls with any arguments)
      implements a state of the process table machine (refinement by forward
      simulation); processes are isolated from each other and from the kernel.
      A call that stops with one of the faults above has no next state, and
      the three task keys are not steps.
    - Programs: write, getpid, gettime, fork and block of the user library,
      called through the user stack, give the C caller the result or -1 and
      errno, and everything else back, fork in both processes; exit never
      returns; unblock loses its argument; perror prints errno.  user.c runs
      from its first call to its loop, in the parent and in the child, and the
      whole system from the image in memory until the child has run.
    - Exceptions and idling: a page fault shows its report and stops the
      machine, or overruns the service's array, and exactly when; when the last
      process that can run exits or blocks, the idle task waits through any
      number of clock interrupts.
    - Errors and bounds: what access_ok and the range test of the call number
      really accept, which buffers overflow and when; these are listed as
      findings where the code means something else.

    ** Fuel

    Loops that are not counted take fuel, and the theorems show that it
    suffices: digits take 32 steps (an int has at most 31 significant bits),
    a walk over a list one step more than the ten tasks there are, block
    copies one more than the number of bytes, alloc_frame one per frame,
    strlen one per byte of the array, the copy loop of build one more than
    the size of the file, the loader 1025 accesses to the disk (one sector at
    least in each, 512 KB in all), the wait for the keyboard controller the
    0xFFFFFF turns it counts itself, the wait for the A20 line two turns more
    than the line takes.  [OutOfFuel] is never the result of a
    verified call.

    ** Not modelled

    - The translation look-aside buffer: a store to a page table takes effect
      at once.  sys_fork reloads CR3 after changing it (del_ss_pag and
      set_cr3), which the model executes.
    - The frames of C functions called by a service: each service runs on one
      frame, and what the compiler keeps in it is not part of the state.
      The pushes of the handlers, of task_switch and of fork are modelled word
      by word, and so is the array of sys_write, which lowers the stack
      pointer (by its size: the compiler's rounding is left out).  The depth of the C calls below a service is not bounded here.
    - Interrupts inside the kernel: handlers run with interrupts off; only the
      few instructions of main between sti and the jump to user mode could be
      interrupted, and they are taken to be atomic.
    - libzeos.a and libauxjp.a: set_handlers and zeos_show_clock are
      parameters, with hypotheses on what they leave alone.
    - Endless loops: cpu_idle, the page fault service and main of user.c end,
      in the model, where their loop starts; what the interrupts do in it is
      modelled by further steps (Run, Idle).  Between the calls of user.c the
      clock does not tick in Run; that a tick there would be invisible is what
      Irq shows.
    - The registers compiled user code uses between its calls: the programs of
      Cdecl and User are their calls, arguments and results, on the memory and
      the stack of the process.
    - In bootsect.S, what call and pusha leave on the stack (push and pop are
      modelled), the places of its labels before [.org] (the message's is a
      parameter) and what the BIOS keeps for itself in memory.
    - The task keys of the keyboard service in the transition system of Reach,
      whose runs do without them: Keyboard shows that they break the invariant,
      unless the task is the running one.  The release of c while task 2 is
      free is not described: it depends on what is left on that task's stack.
    - Of the interrupt controllers, the kernel's part sees the bytes it sends to
      the master's two ports; when an interrupt is raised is up to the theorem.
    - In build.c, close and the text of errno in the messages.
    - Headers: prototypes, [extern] declarations, struct stats, which nothing
      uses, and the code under [#if 0]. *)

From Stdlib Require Export ZArith Lia.
From Stdlib Require Import Strings.Byte.
From stdpp Require Export base tactics list gmap.
From stdpp Require strings.

#[global] Open Scope Z_scope.

(** ** Machine integers

    Registers, pointers and C scalars are integers of [Z].  An [unsigned] C
    type of [w] bits is a number in [0, 2^w); [u32] is the reduction the
    hardware applies.  An [int] is a number in [-2^31, 2^31); [s32] reads a
    32-bit pattern as an [int]. *)

Definition u8 (z : Z) : Z := z mod 2 ^ 8.
Definition u16 (z : Z) : Z := z mod 2 ^ 16.
Definition u32 (z : Z) : Z := z mod 2 ^ 32.

Definition s32 (z : Z) : Z :=
  let w := z mod 2 ^ 32 in if w <? 2 ^ 31 then w else w - 2 ^ 32.

(** ** Faults

    Everything the kernel does on a run either completes or stops with one of
    these: a write outside a local C array (undefined behaviour), a read
    outside a static array, an access the MMU refuses, a division trap, the
    exhaustion of the fuel of a loop (never reached: every loop is proved to
    return), and, for the host tool, a call of exit with the message printed
    before it. *)

Inductive fault : Type :=
  | BufferOverflow (capacity : Z)
  | OutOfBounds (index : Z)
  | PageFault (va : Z)
  | StackOverflow (size : Z)
  | DivideError
  | OutOfFuel
  | Exit (code : Z) (message : String.string).

#[export] Instance fault_eq_dec : EqDecision fault.
Proof. solve_decision. Defined.

(** ** A state and fault monad *)

Inductive outcome (S A : Type) : Type :=
  | Ret (a : A) (s : S)
  | Fault (f : fault).
Arguments Ret {S A} a s.
Arguments Fault {S A} f.

Definition M (S A : Type) : Type := S → outcome S A.

Definition ret {S A} (a : A) : M S A := λ s, Ret a s.

Definition fail {S A} (f : fault) : M S A := λ _, Fault f.

Definition bind {S A B} (m : M S A) (k : A → M S B) : M S B := λ s,
  match m s with
  | Ret a s' => k a s'
  | Fault f => Fault f
  end.

Definition gets {S A} (f : S → A) : M S A := λ s, Ret (f s) s.

Definition modify {S} (f : S → S) : M S unit := λ s, Ret tt (f s).

Declare Scope kernel_scope.
Delimit Scope kernel_scope with kernel.

Notation "'let!' x ':=' m 'in' k" := (bind m (λ x, k))
  (at level 10, x name, m at level 100, k at level 200,
   format "'[v' 'let!'  x  ':='  m  'in' '/' k ']'") : kernel_scope.
Notation "m ';!' k" := (bind m (λ _, k))
  (at level 199, right associativity, format "'[v' m ';!' '/' k ']'") : kernel_scope.

#[global] Open Scope kernel_scope.

(** [when b m] is [if (b) m]. *)
Definition when {S} (b : bool) (m : M S unit) : M S unit := if b then m else ret tt.

(** [for_range n i body] is [for (i = i; i < i + n; i++) body]. *)
Fixpoint for_range {S} (n : nat) (i : Z) (body : Z → M S unit) : M S unit :=
  match n with
  | O => ret tt
  | Datatypes.S n' => body i ;! for_range n' (i + 1) body
  end.

(** ** Total correctness

    [wp m s Q]: [m] run in [s] does not fault, and its result and final state
    satisfy [Q]. *)

Definition wp {S A} (m : M S A) (s : S) (Q : A → S → Prop) : Prop :=
  match m s with
  | Ret a s' => Q a s'
  | Fault _ => False
  end.

Section Wp.
Context {S : Type}.
Implicit Types s : S.

Lemma wp_intro {A} (m : M S A) s a s' (Q : A → S → Prop) :
  m s = Ret a s' → Q a s' → wp m s Q.
Proof. unfold wp. by intros ->. Qed.

Lemma wp_elim {A} (m : M S A) s (Q : A → S → Prop) :
  wp m s Q → ∃ a s', m s = Ret a s' ∧ Q a s'.
Proof. unfold wp. destruct (m s); [eauto | done]. Qed.

Lemma wp_ret {A} (a : A) s Q : Q a s → wp (ret a) s Q.
Proof. done. Qed.

Lemma wp_gets {A} (f : S → A) s Q : Q (f s) s → wp (gets f) s Q.
Proof. done. Qed.

Lemma wp_modify (f : S → S) s Q : Q tt (f s) → wp (modify f) s Q.
Proof. done. Qed.

Lemma wp_bind {A B} (m : M S A) (k : A → M S B) s Q :
  wp m s (λ a s', wp (k a) s' Q) → wp (bind m k) s Q.
Proof. unfold wp, bind. by destruct (m s). Qed.

Lemma wp_mono {A} (m : M S A) s (Q Q' : A → S → Prop) :
  wp m s Q → (∀ a s', Q a s' → Q' a s') → wp m s Q'.
Proof. unfold wp. destruct (m s); auto. Qed.

Lemma wp_when (b : bool) (m : M S unit) s Q :
  (b = true → wp m s Q) → (b = false → Q tt s) → wp (when b m) s Q.
Proof. intros Ht Hf. destruct b; [apply Ht|apply wp_ret, Hf]; done. Qed.

(** A counted loop keeps an invariant indexed by its counter. *)
Lemma wp_for_range (body : Z → M S unit) (I : Z → S → Prop) n i s :
  I i s →
  (∀ j s, i ≤ j < i + Z.of_nat n → I j s → wp (body j) s (λ _ s', I (j + 1) s')) →
  wp (for_range n i body) s (λ _ s', I (i + Z.of_nat n) s').
Proof.
  revert i s. induction n as [|n IH]; intros i s HI Hbody.
  - apply wp_ret. by replace (i + Z.of_nat 0) with i by lia.
  - cbn [for_range]. apply wp_bind. eapply wp_mono; [apply Hbody; [lia|done]|].
    intros [] s' HI'. eapply wp_mono; [apply IH; [done|]|].
    + intros j s'' Hj HIj. apply Hbody; [lia|done].
    + intros [] s''. by replace (i + 1 + Z.of_nat n) with (i + Z.of_nat (Datatypes.S n)) by lia.
Qed.

(** [m] ends in [Q], or stops with the fault [e]. *)
Definition ends {A} (e : fault) (m : M S A) (s : S) (Q : A → S → Prop) : Prop :=
  match m s with
  | Ret a s' => Q a s'
  | Fault f => f = e
  end.

Lemma ends_wp {A} e (m : M S A) s (Q : A → S → Prop) : wp m s Q → ends e m s Q.
Proof. unfold wp, ends. by destruct (m s). Qed.

Lemma ends_bind {A B} e (m : M S A) (k : A → M S B) s Q :
  ends e m s (λ a s', ends e (k a) s' Q) → ends e (bind m k) s Q.
Proof. unfold ends, bind. by destruct (m s). Qed.

Lemma ends_mono {A} e (m : M S A) s (Q Q' : A → S → Prop) :
  ends e m s Q → (∀ a s', Q a s' → Q' a s') → ends e m s Q'.
Proof. unfold ends. destruct (m s); auto. Qed.

Lemma ends_assoc {A B C} e (m : M S A) (k : A → M S B) (l : B → M S C) s Q :
  ends e (bind (bind m k) l) s Q → ends e (bind m (λ a, bind (k a) l)) s Q.
Proof. unfold ends, bind. by destruct (m s). Qed.

Lemma ends_fault {A} e (m : M S A) s : ends e m s (λ _ _, False) ↔ m s = Fault e.
Proof. unfold ends. destruct (m s); split; (done || congruence). Qed.

(** [m] ends in [Q] when [ok] holds, and stops with the fault [e] when it does
    not. *)
Definition wp_or {A} (e : fault) (ok : bool) (m : M S A) (s : S) (Q : A → S → Prop) : Prop :=
  match m s with
  | Ret a s' => ok = true ∧ Q a s'
  | Fault f => ok = false ∧ f = e
  end.

Lemma wp_or_bind {A B} e ok (m : M S A) (k : A → M S B) s Q :
  wp m s (λ a s', wp_or e ok (k a) s' Q) → wp_or e ok (bind m k) s Q.
Proof. unfold wp, wp_or, bind. by destruct (m s). Qed.

Lemma wp_or_mono {A} e ok (m : M S A) s (Q Q' : A → S → Prop) :
  wp_or e ok m s Q → (∀ a s', Q a s' → Q' a s') → wp_or e ok m s Q'.
Proof. unfold wp_or. destruct (m s); naive_solver. Qed.

Lemma wp_or_intro {A} e ok (m : M S A) s Q :
  (ok = true → wp m s Q) → (ok = false → m s = Fault e) → wp_or e ok m s Q.
Proof. unfold wp, wp_or. destruct ok; intros H1 H2; [specialize (H1 eq_refl); by destruct (m s)|by rewrite H2]. Qed.

Lemma wp_or_elim {A} e ok (m : M S A) s Q :
  wp_or e ok m s Q → (ok = true → wp m s Q) ∧ (ok = false → m s = Fault e).
Proof. unfold wp, wp_or. by destruct (m s); intros [-> ?]; split; [|done| |]; try congruence. Qed.

Lemma wp_or_true {A} e ok (m : M S A) s Q : ok = true → wp m s Q → wp_or e ok m s Q.
Proof. unfold wp, wp_or. by destruct (m s). Qed.

Lemma wp_or_seq {A B} e ok ok' (m : M S A) (k : A → M S B) s Q :
  wp_or e ok m s (λ a s', wp_or e ok' (k a) s' Q) → wp_or e (ok && ok') (bind m k) s Q.
Proof. unfold wp_or, bind. by destruct (m s); intros [-> ?]. Qed.

Lemma wp_or_ret {A} e ok (m : M S A) s Q a s' :
  wp_or e ok m s Q → m s = Ret a s' → ok = true ∧ Q a s'.
Proof. unfold wp_or. by intros H E; rewrite E in H. Qed.
End Wp.

(** ** Bytes *)

Definition Z_of_byte (b : byte) : Z := Z.of_N (Byte.to_N b).

Definition byte_of_Z (z : Z) : byte :=
  default x00 (Byte.of_N (Z.to_N (u8 z))).

Lemma Z_of_byte_range b : 0 ≤ Z_of_byte b < 2 ^ 8.
Proof.
  unfold Z_of_byte. pose proof (Byte.to_N_bounded b). lia.
Qed.

Lemma Z_of_byte_of_Z z : Z_of_byte (byte_of_Z z) = u8 z.
Proof.
  unfold Z_of_byte, byte_of_Z, u8.
  pose proof (Z.mod_pos_bound z (2 ^ 8) ltac:(lia)) as Hz.
  destruct (Byte.of_N (Z.to_N (z mod 2 ^ 8))) as [b|] eqn:Hb; cbn.
  - apply Byte.to_of_N in Hb. rewrite Hb. lia.
  - apply Byte.of_N_None_iff in Hb. lia.
Qed.

Lemma byte_of_Z_of_byte b : byte_of_Z (Z_of_byte b) = b.
Proof.
  unfold Z_of_byte, byte_of_Z, u8.
  pose proof (Byte.to_N_bounded b) as Hb.
  rewrite Z.mod_small, N2Z.id, Byte.of_to_N by lia. done.
Qed.

(** ** Ranges of the integer types *)

Lemma u32_small z : 0 ≤ z < 2 ^ 32 → u32 z = z.
Proof. apply Z.mod_small. Qed.

Lemma u32_range z : 0 ≤ u32 z < 2 ^ 32.
Proof. by apply Z.mod_pos_bound. Qed.

Lemma s32_range z : - 2 ^ 31 ≤ s32 z < 2 ^ 31.
Proof.
  unfold s32. pose proof (Z.mod_pos_bound z (2 ^ 32) ltac:(lia)).
  destruct (Z.ltb_spec (z mod 2 ^ 32) (2 ^ 31)); lia.
Qed.

Lemma s32_small z : - 2 ^ 31 ≤ z < 2 ^ 31 → s32 z = z.
Proof.
  intros Hz. unfold s32. destruct (decide (0 ≤ z)).
  - rewrite Z.mod_small by lia. destruct (Z.ltb_spec z (2 ^ 31)); lia.
  - replace (z mod 2 ^ 32) with (z + 2 ^ 32)
      by (apply (Z.mod_unique_pos _ _ (-1)); lia).
    destruct (Z.ltb_spec (z + 2 ^ 32) (2 ^ 31)); lia.
Qed.

Lemma s32_u32 z : s32 (u32 z) = s32 z.
Proof. unfold s32, u32. by rewrite Z.mod_mod by lia. Qed.

Lemma s32_add a b : s32 (s32 a + b) = s32 (a + b).
Proof. rewrite <- (s32_u32 (s32 a + b)), <- (s32_u32 (a + b)). f_equal. unfold u32, s32. destruct (_ <? _); Z.div_mod_to_equations; lia. Qed.

Lemma u32_s32 z : u32 (s32 z) = u32 z.
Proof.
  unfold s32, u32. pose proof (Z.mod_pos_bound z (2 ^ 32) ltac:(lia)).
  destruct (Z.ltb_spec (z mod 2 ^ 32) (2 ^ 31)).
  - by rewrite Z.mod_mod by lia.
  - symmetry. apply (Z.mod_unique_pos _ _ (-1)); lia.
Qed.

(** ** Lists without an element *)

Lemma filter_absent (l : list Z) i : i ∉ l → filter (λ j, j ≠ i) l = l.
Proof.
  induction l as [|j l IH]; [done|]. rewrite not_elem_of_cons. intros [Hj Hl].
  rewrite filter_cons, decide_True by congruence. by rewrite IH.
Qed.

Lemma filter_remove (l1 l2 : list Z) i :
  NoDup (l1 ++ i :: l2) → filter (λ j, j ≠ i) (l1 ++ i :: l2) = l1 ++ l2.
Proof.
  intros (_ & Hx & [Hy _]%NoDup_cons)%NoDup_app. rewrite filter_app, filter_cons, decide_False by tauto.
  rewrite !filter_absent; [done|done|]. intros Hi. apply (Hx i Hi). apply list_elem_of_here.
Qed.

(** ** Tactics *)

(** One step through a monadic program. *)
Ltac wp_step :=
  lazymatch goal with
  | |- wp (bind _ _) _ _ => apply wp_bind
  | |- wp (ret _) _ _ => apply wp_ret
  | |- wp (gets _) _ _ => apply wp_gets
  | |- wp (modify _) _ _ => apply wp_modify
  end; cbn beta.

Ltac wp_steps := repeat wp_step.

(** Split every boolean comparison on [Z] that guards the goal. *)
Ltac zcase :=
  match goal with
  | |- context [Z.ltb ?a ?b] => destruct (Z.ltb_spec a b)
  | |- context [Z.leb ?a ?b] => destruct (Z.leb_spec a b)
  | |- context [Z.eqb ?a ?b] => destruct (Z.eqb_spec a b)
  | |- context [Z.gtb ?a ?b] => rewrite (Z.gtb_ltb a b)
  | |- context [Z.geb ?a ?b] => rewrite (Z.geb_leb a b)
  end.
