(* ===== verification/Memory.v ===== *)
(** Physical memory: bytes at 32-bit addresses, read and written as bytes and
    as little-endian 32-bit words, with the framing relation every component
    states its footprint with. *)

From S2P Require Import Prelude.
From Stdlib Require Import Strings.Byte.

(** Bytes never written read as zero: the loader clears them. *)
Abbreviation memory := (gmap Z byte).

Definition load8 (m : memory) (a : Z) : Z := Z_of_byte (default x00 (m !! a)).

Definition store8 (m : memory) (a v : Z) : memory := <[a := byte_of_Z v]> m.

Definition load32 (m : memory) (a : Z) : Z :=
  load8 m a + Z.shiftl (load8 m (a + 1)) 8
  + Z.shiftl (load8 m (a + 2)) 16 + Z.shiftl (load8 m (a + 3)) 24.

Definition store32 (m : memory) (a v : Z) : memory :=
  store8 (store8 (store8 (store8 m a v) (a + 1) (Z.shiftr v 8))
                 (a + 2) (Z.shiftr v 16)) (a + 3) (Z.shiftr v 24).

(** [int] fields are read back as signed numbers. *)
Definition load_int (m : memory) (a : Z) : Z := s32 (load32 m a).

(** ** Reading what was written *)

Lemma load8_range m a : 0 ≤ load8 m a < 2 ^ 8.
Proof. apply Z_of_byte_range. Qed.

Lemma load8_store8_eq m a v : load8 (store8 m a v) a = u8 v.
Proof. unfold load8, store8. rewrite lookup_insert_eq. apply Z_of_byte_of_Z. Qed.

Lemma load8_store8_ne m a b v : a ≠ b → load8 (store8 m a v) b = load8 m b.
Proof. intros. unfold load8, store8. by rewrite lookup_insert_ne. Qed.

Lemma load8_ext m m' a : load8 m a = load8 m' a → default x00 (m !! a) = default x00 (m' !! a).
Proof.
  unfold load8. intros H. rewrite <- (byte_of_Z_of_byte (default x00 (m !! a))), H.
  apply byte_of_Z_of_byte.
Qed.

Lemma load32_unfold m a :
  load32 m a = load8 m a + 2 ^ 8 * load8 m (a + 1)
               + 2 ^ 16 * load8 m (a + 2) + 2 ^ 24 * load8 m (a + 3).
Proof. unfold load32. rewrite !Z.shiftl_mul_pow2 by lia. lia. Qed.

Lemma load32_range m a : 0 ≤ load32 m a < 2 ^ 32.
Proof.
  rewrite load32_unfold.
  pose proof (load8_range m a). pose proof (load8_range m (a + 1)).
  pose proof (load8_range m (a + 2)). pose proof (load8_range m (a + 3)). lia.
Qed.

Lemma load8_store32_out m a v b :
  b < a ∨ a + 4 ≤ b → load8 (store32 m a v) b = load8 m b.
Proof. intros. unfold store32. rewrite !load8_store8_ne by lia. done. Qed.

(** The bytes of a stored word, in memory order. *)
Lemma load8_store32_in m a v i :
  0 ≤ i < 4 → load8 (store32 m a v) (a + i) = u8 (Z.shiftr v (8 * i)).
Proof.
  intros Hi. unfold store32.
  assert (i = 0 ∨ i = 1 ∨ i = 2 ∨ i = 3) as [-> | [-> | [-> | ->]]] by lia;
    rewrite ?Z.add_0_r;
    repeat (rewrite load8_store8_ne by lia); rewrite load8_store8_eq; done.
Qed.

Lemma load32_store32_eq m a v : load32 (store32 m a v) a = u32 v.
Proof.
  rewrite load32_unfold. rewrite <- (Z.add_0_r a) at 2.
  rewrite !load8_store32_in by lia.
  rewrite !Z.shiftr_div_pow2 by lia. unfold u8, u32.
  change (8 * 0) with 0. change (8 * 1) with 8. change (8 * 2) with 16.
  change (8 * 3) with 24. rewrite Z.div_1_r.
  Z.div_mod_to_equations. lia.
Qed.

Lemma load32_store32_same m a v :
  0 ≤ v < 2 ^ 32 → load32 (store32 m a v) a = v.
Proof. intros. rewrite load32_store32_eq. by apply u32_small. Qed.

Lemma load32_store32_ne m a b v :
  a + 4 ≤ b ∨ b + 4 ≤ a → load32 (store32 m a v) b = load32 m b.
Proof. intros. rewrite !load32_unfold, !load8_store32_out by lia. done. Qed.

Lemma load32_bytes m m' a a' :
  (∀ i, 0 ≤ i < 4 → load8 m (a + i) = load8 m' (a' + i)) →
  load32 m a = load32 m' a'.
Proof.
  intros H. rewrite !load32_unfold, !H by lia.
  specialize (H 0 ltac:(lia)). rewrite !Z.add_0_r in H. by rewrite H.
Qed.

(** A word copied as a word carries its four bytes. *)
Lemma load32_split m a i :
  0 ≤ i < 4 → u8 (Z.shiftr (load32 m a) (8 * i)) = load8 m (a + i).
Proof.
  intros Hi. rewrite load32_unfold, Z.shiftr_div_pow2 by lia. unfold u8.
  pose proof (load8_range m a). pose proof (load8_range m (a + 1)).
  pose proof (load8_range m (a + 2)). pose proof (load8_range m (a + 3)).
  assert (i = 0 ∨ i = 1 ∨ i = 2 ∨ i = 3) as [-> | [-> | [-> | ->]]] by lia;
    rewrite ?Z.add_0_r; cbn [Z.mul Pos.mul]; Z.div_mod_to_equations; lia.
Qed.

(** ** Framing

    [frame P m m']: [m'] differs from [m] only at bytes that satisfy [P]. *)

Definition frame (P : Z → Prop) (m m' : memory) : Prop :=
  ∀ a, ¬ P a → load8 m' a = load8 m a.

Definition in_range (a n b : Z) : Prop := a ≤ b < a + n.

Section Frame.
Implicit Types (P Q : Z → Prop) (m : memory).

Lemma frame_refl P m : frame P m m.
Proof. done. Qed.

Lemma frame_trans P m1 m2 m3 : frame P m1 m2 → frame P m2 m3 → frame P m1 m3.
Proof. intros H1 H2 a Ha. by rewrite H2, H1. Qed.

Lemma frame_weaken P Q m m' : (∀ a, P a → Q a) → frame P m m' → frame Q m m'.
Proof. intros HPQ H a Ha. apply H. auto. Qed.

Lemma frame_store32 P m a v :
  (∀ b, in_range a 4 b → P b) → frame P m (store32 m a v).
Proof.
  intros HP b Hb. apply load8_store32_out.
  destruct (decide (b < a)); [by left|]. right.
  destruct (decide (a + 4 ≤ b)); [done|].
  exfalso. apply Hb, HP. unfold in_range. lia.
Qed.

Lemma frame_store8 P m a v : P a → frame P m (store8 m a v).
Proof. intros HP b Hb. apply load8_store8_ne. by intros ->. Qed.

Lemma frame_load32 P m m' a :
  frame P m m' → (∀ b, in_range a 4 b → ¬ P b) → load32 m' a = load32 m a.
Proof.
  intros H Ha. apply load32_bytes. intros i Hi. apply H, Ha. unfold in_range. lia.
Qed.
End Frame.

(** Two memories are equivalent when no load tells them apart; the loads and
    stores respect it. *)
#[export] Instance memory_equiv : Equiv memory := λ m m', ∀ a, load8 m a = load8 m' a.

#[export] Instance memory_equivalence : Equivalence (≡@{memory}).
Proof.
  split.
  - by intros m a.
  - intros m m' H a. by rewrite H.
  - intros m1 m2 m3 H1 H2 a. by rewrite H1, H2.
Qed.

#[export] Instance load8_proper : Proper ((≡) ==> (=) ==> (=)) load8.
Proof. intros m m' H a a' <-. apply H. Qed.

#[export] Instance load32_proper : Proper ((≡) ==> (=) ==> (=)) load32.
Proof. intros m m' H a a' <-. apply load32_bytes. intros i _. apply H. Qed.

#[export] Instance store8_proper : Proper ((≡) ==> (=) ==> (=) ==> (≡)) store8.
Proof.
  intros m m' H a a' <- v v' <- b. destruct (decide (a = b)) as [<-|Hb].
  - by rewrite !load8_store8_eq.
  - rewrite !load8_store8_ne by done. apply H.
Qed.

#[export] Instance store32_proper : Proper ((≡) ==> (=) ==> (=) ==> (≡)) store32.
Proof. intros m m' H a a' <- v v' <-. unfold store32. by rewrite H. Qed.

(** Writing back the value a word already holds changes nothing. *)
Lemma store32_load32 m a v : load32 m a = v → store32 m a v ≡ m.
Proof.
  intros <- b. destruct (decide (b < a ∨ a + 4 ≤ b)) as [Hb|Hb].
  - by apply load8_store32_out.
  - replace b with (a + (b - a)) by lia.
    rewrite load8_store32_in, load32_split by lia. done.
Qed.

(** ** Kernel accesses

    With paging on, page 0 is unmapped in every table, pages 1 to 255 are
    mapped onto themselves and nothing else belongs to the kernel (proved of
    the tables in [Paging]); so a kernel load or store through a pointer goes
    to the same physical address, and faults outside that window. *)

Definition KERNEL_LO : Z := 0x1000.
Definition KERNEL_HI : Z := 0x100000.

Definition kernel_ptr (a n : Z) : bool := (KERNEL_LO <=? a) && (a + n <=? KERNEL_HI).

Definition kload32 (a : Z) : M memory Z := λ m,
  if kernel_ptr a 4 then Ret (load32 m a) m else Fault (PageFault a).

Definition kstore32 (a v : Z) : M memory unit := λ m,
  if kernel_ptr a 4 then Ret tt (store32 m a v) else Fault (PageFault a).

Lemma kernel_ptr_true a n :
  KERNEL_LO ≤ a → a + n ≤ KERNEL_HI → kernel_ptr a n = true.
Proof. unfold kernel_ptr. intros. apply andb_true_iff. lia. Qed.

Lemma wp_kload32 a m Q :
  KERNEL_LO ≤ a → a + 4 ≤ KERNEL_HI → Q (load32 m a) m → wp (kload32 a) m Q.
Proof. intros. unfold wp, kload32. by rewrite kernel_ptr_true by lia. Qed.

Lemma wp_kstore32 a v m Q :
  KERNEL_LO ≤ a → a + 4 ≤ KERNEL_HI → Q tt (store32 m a v) → wp (kstore32 a v) m Q.
Proof. intros. unfold wp, kstore32. by rewrite kernel_ptr_true by lia. Qed.

Create Rewrite HintDb zmem.
#[export] Hint Rewrite load32_store32_same using lia : zmem.
#[export] Hint Rewrite load32_store32_ne using lia : zmem.
