(* ===== verification/CList.v ===== *)
(** list.c and include/list.h: the intrusive circular doubly linked lists the
    kernel keeps its queues and process families in.

    The operations are the C functions, one store per assignment, over the
    kernel's memory.  The abstract view of the memory is a {e list system}: a
    finite map from list heads to the sequence of entries threaded through
    each head.  Every operation is proved to implement the corresponding
    change of the system and to write nothing but the cells of the lists
    involved. *)

From S2P Require Import Prelude Memory.

(** ** struct list_head *)

Definition NULL : Z := 0.

(** Offsets of the two fields and the size of the structure. *)
Definition off_next : Z := 0.
Definition off_prev : Z := 4.
Definition sizeof_list_head : Z := 8.

Definition get_next (l : Z) : M memory Z := kload32 (l + off_next).
Definition get_prev (l : Z) : M memory Z := kload32 (l + off_prev).
Definition set_next (l v : Z) : M memory unit := kstore32 (l + off_next) v.
Definition set_prev (l v : Z) : M memory unit := kstore32 (l + off_prev) v.

(** ** Operations *)

Definition INIT_LIST_HEAD (list : Z) : M memory unit :=
  set_next list list ;!
  set_prev list list.

Definition __list_add (new prev next : Z) : M memory unit :=
  set_prev next new ;!
  set_next new next ;!
  set_prev new prev ;!
  set_next prev new.

Definition list_add (new head : Z) : M memory unit :=
  let! n := get_next head in
  __list_add new head n.

Definition list_add_tail (new head : Z) : M memory unit :=
  let! p := get_prev head in
  __list_add new p head.

Definition __list_del (prev next : Z) : M memory unit :=
  set_prev next prev ;!
  set_next prev next.

Definition list_del (entry : Z) : M memory unit :=
  let! p := get_prev entry in
  let! n := get_next entry in
  __list_del p n ;!
  set_next entry NULL ;!
  set_prev entry NULL.

Definition list_is_last (list head : Z) : M memory bool :=
  let! n := get_next list in
  ret (n =? head).

Definition list_empty (head : Z) : M memory bool :=
  let! n := get_next head in
  ret (n =? head).

Definition list_first (head : Z) : M memory Z := get_next head.

(** [list_entry ptr member]: the structure that holds the list_head [ptr] at
    the offset [member]. *)
Definition list_entry (ptr member : Z) : Z := ptr - member.

(** The loop macros.  The body says [Some a] to leave the loop with [a]
    ([break]).  [rd] reads a [next] field in the state the body runs in. *)
Fixpoint list_for_each_loop {S A} (rd : Z → M S Z) (fuel : nat) (pos head : Z)
    (body : Z → M S (option A)) : M S (option A) :=
  match fuel with
  | O => fail OutOfFuel
  | Datatypes.S fuel' =>
      if pos =? head then ret None
      else let! r := body pos in
           match r with
           | Some a => ret (Some a)
           | None => let! n := rd pos in list_for_each_loop rd fuel' n head body
           end
  end.

Definition list_for_each {S A} (rd : Z → M S Z) (fuel : nat) (head : Z)
    (body : Z → M S (option A)) : M S (option A) :=
  let! pos := rd head in
  list_for_each_loop rd fuel pos head body.

Fixpoint list_for_each_safe_loop {S} (rd : Z → M S Z) (fuel : nat) (pos n head : Z)
    (body : Z → M S unit) : M S unit :=
  match fuel with
  | O => fail OutOfFuel
  | Datatypes.S fuel' =>
      if pos =? head then ret tt
      else body pos ;!
           let! n' := rd n in
           list_for_each_safe_loop rd fuel' n n' head body
  end.

Definition list_for_each_safe {S} (rd : Z → M S Z) (fuel : nat) (head : Z)
    (body : Z → M S unit) : M S unit :=
  let! pos := rd head in
  let! n := rd pos in
  list_for_each_safe_loop rd fuel pos n head body.

(** ** The abstract view *)

(** [links m l]: consecutive members of [l] point at each other. *)
Fixpoint links (m : memory) (l : list Z) : Prop :=
  match l with
  | a :: (b :: _) as l' => (load32 m a = b ∧ load32 m (b + 4) = a) ∧ links m l'
  | _ => True
  end.

(** The circular list of head [h] holds the entries [xs]. *)
Definition dlist (m : memory) (h : Z) (xs : list Z) : Prop :=
  links m (h :: xs ++ [h]).

(** What a list may be made of: list_head structures inside the kernel's
    window that do not overlap. *)
Class Cells (cell : Z → Prop) : Prop := {
  cell_range : ∀ a, cell a → KERNEL_LO ≤ a ∧ a + 8 ≤ KERNEL_HI;
  cell_sep : ∀ a b, cell a → cell b → a ≠ b → a + 8 ≤ b ∨ b + 8 ≤ a;
}.

Abbreviation lists := (gmap Z (list Z)).

Record lists_ok (cell : Z → Prop) (m : memory) (Q : lists) : Prop := {
  lists_dlist : ∀ h xs, Q !! h = Some xs → dlist m h xs;
  lists_cell : ∀ h xs c, Q !! h = Some xs → c ∈ h :: xs → cell c;
  lists_nodup : ∀ h xs, Q !! h = Some xs → NoDup (h :: xs);
  lists_disj : ∀ h1 xs1 h2 xs2 c,
    Q !! h1 = Some xs1 → Q !! h2 = Some xs2 →
    c ∈ h1 :: xs1 → c ∈ h2 :: xs2 → h1 = h2;
}.

(** [c] is a head or an entry of some list of the system. *)
Definition in_lists (Q : lists) (c : Z) : Prop :=
  ∃ h xs, Q !! h = Some xs ∧ c ∈ h :: xs.

(** The bytes of the cells in [C]. *)
Definition cell_bytes (C : Z → Prop) (a : Z) : Prop := ∃ c, C c ∧ in_range c 8 a.

(** ** Links *)

Lemma links_app m l1 a l2 :
  links m (l1 ++ a :: l2) ↔ links m (l1 ++ [a]) ∧ links m (a :: l2).
Proof.
  induction l1 as [|b l1 IH]; cbn [app].
  - split; [intros H; split; [done|exact H] | by intros [_ H]].
  - destruct l1 as [|c l1]; cbn [app links] in *; tauto.
Qed.

Lemma links_cons m a b l :
  links m (a :: b :: l) ↔ (load32 m a = b ∧ load32 m (b + 4) = a) ∧ links m (b :: l).
Proof. done. Qed.

Lemma links_frame m m' l :
  (∀ l1 a b l2, l = l1 ++ a :: b :: l2 →
     load32 m' a = load32 m a ∧ load32 m' (b + 4) = load32 m (b + 4)) →
  links m l → links m' l.
Proof.
  induction l as [|a [|b l] IH]; [done..|]. intros H [[Hn Hp] Hl].
  destruct (H [] a b l eq_refl) as [E1 E2].
  split; [by rewrite E1, E2|]. apply IH; [|done].
  intros l1 c d l2 E. apply (H (a :: l1) c d l2). by rewrite E.
Qed.

Lemma dlist_next m h xs : dlist m h xs → load32 m h = default h (head xs).
Proof. unfold dlist. destruct xs; cbn; tauto. Qed.

(** The memory determines the entries. *)
Lemma links_unique m h a xs ys :
  links m (a :: xs ++ [h]) → links m (a :: ys ++ [h]) → h ∉ xs → h ∉ ys → xs = ys.
Proof.
  revert a ys. induction xs as [|x xs IH]; intros a [|y ys] Hx Hy Hnx Hny; cbn in Hx, Hy.
  - done.
  - destruct Hx as [[Ex _] _], Hy as [[Ey _] _]. destruct Hny. rewrite <- Ex, Ey. apply list_elem_of_here.
  - destruct Hx as [[Ex _] _], Hy as [[Ey _] _]. destruct Hnx. rewrite <- Ey, Ex. apply list_elem_of_here.
  - destruct Hx as [[Ex _] Hx], Hy as [[Ey _] Hy]. assert (x = y) as <- by congruence.
    apply not_elem_of_cons in Hnx as [_ Hnx], Hny as [_ Hny]. f_equal. by apply (IH x).
Qed.

Lemma dlist_next_entry m h xs1 x xs2 :
  dlist m h (xs1 ++ x :: xs2) → load32 m x = default h (head xs2).
Proof.
  unfold dlist. rewrite <- app_assoc. cbn [app].
  change (h :: xs1 ++ x :: xs2 ++ [h]) with ((h :: xs1) ++ x :: xs2 ++ [h]).
  rewrite links_app. destruct xs2; cbn; tauto.
Qed.

Lemma dlist_prev m h xs : dlist m h xs → load32 m (h + 4) = default h (last xs).
Proof.
  unfold dlist. destruct xs as [|x xs'] using rev_ind.
  - cbn. tauto.
  - rewrite last_snoc. cbn [from_option]. rewrite <- app_assoc. cbn [app].
    change (h :: xs' ++ [x; h]) with ((h :: xs') ++ x :: [h]).
    rewrite links_app. cbn. tauto.
Qed.

Lemma dlist_empty m h xs :
  dlist m h xs → h ∉ xs → load32 m h = h ↔ xs = [].
Proof.
  intros Hd Hh. apply dlist_next in Hd. rewrite Hd. destruct xs as [|x xs]; cbn.
  - done.
  - set_solver.
Qed.

(** ** The operations on a list system *)

Section Ops.
Context (cell : Z → Prop) `{!Cells cell}.
Implicit Types (m : memory) (Q : lists).

Lemma cell_load_ne m c d v :
  cell c → cell d → c ≠ d → load32 (store32 m c v) d = load32 m d.
Proof. intros Hc Hd Hne. apply load32_store32_ne. pose proof (cell_sep c d Hc Hd Hne). lia. Qed.

Lemma cell_load_prev_ne m c d v :
  cell c → cell d → c ≠ d → load32 (store32 m (c + 4) v) (d + 4) = load32 m (d + 4).
Proof. intros Hc Hd Hne. apply load32_store32_ne. pose proof (cell_sep c d Hc Hd Hne). lia. Qed.

Lemma cell_load_np m c d v :
  cell c → cell d → load32 (store32 m (c + 4) v) d = load32 m d.
Proof.
  intros Hc Hd. apply load32_store32_ne. destruct (decide (c = d)) as [|Hne]; [lia|].
  pose proof (cell_sep c d Hc Hd Hne). lia.
Qed.

Lemma cell_load_pn m c d v :
  cell c → cell d → load32 (store32 m c v) (d + 4) = load32 m (d + 4).
Proof.
  intros Hc Hd. apply load32_store32_ne. destruct (decide (c = d)) as [|Hne]; [lia|].
  pose proof (cell_sep c d Hc Hd Hne). lia.
Qed.

Lemma cell_u32 c : cell c → 0 ≤ c < 2 ^ 32.
Proof. intros H%cell_range. unfold KERNEL_LO, KERNEL_HI in H. lia. Qed.

Lemma cell_load_eq m a c : cell c → load32 (store32 m a c) a = c.
Proof. intros. by apply load32_store32_same, cell_u32. Qed.

Lemma wp_get_next c m R : cell c → R (load32 m c) m → wp (get_next c) m R.
Proof.
  intros Hc%cell_range HR. unfold get_next, off_next. rewrite Z.add_0_r.
  apply wp_kload32; [lia..|done].
Qed.

Lemma wp_get_prev c m R : cell c → R (load32 m (c + 4)) m → wp (get_prev c) m R.
Proof. intros Hc%cell_range HR. apply wp_kload32; [unfold off_prev; lia..|done]. Qed.

Lemma wp_set_next c v m R : cell c → R tt (store32 m c v) → wp (set_next c v) m R.
Proof.
  intros Hc%cell_range HR. unfold set_next, off_next. rewrite Z.add_0_r.
  apply wp_kstore32; [lia..|done].
Qed.

Lemma wp_set_prev c v m R : cell c → R tt (store32 m (c + 4) v) → wp (set_prev c v) m R.
Proof. intros Hc%cell_range HR. apply wp_kstore32; [unfold off_prev; lia..|done]. Qed.

(** In a circular list without repetitions, a pair of neighbours is found by
    either of its members. *)
Lemma ring_pair_unique (h : Z) xs i a b j a' b' :
  NoDup (h :: xs) →
  (h :: xs ++ [h]) !! i = Some a → (h :: xs ++ [h]) !! S i = Some b →
  (h :: xs ++ [h]) !! j = Some a' → (h :: xs ++ [h]) !! S j = Some b' →
  a = a' ∨ b = b' → i = j.
Proof.
  intros Hnd Hia Hib Hja Hjb Hab.
  pose proof (lookup_lt_Some _ _ _ Hib) as Hi. pose proof (lookup_lt_Some _ _ _ Hjb) as Hj.
  cbn in Hi, Hj. rewrite length_app in Hi, Hj. cbn in Hi, Hj.
  destruct Hab as [<-|<-].
  - change (h :: xs ++ [h]) with ((h :: xs) ++ [h]) in Hia, Hja.
    rewrite lookup_app_l in Hia, Hja by (cbn; lia).
    eapply NoDup_lookup; eauto.
  - cbn in Hib, Hjb. eapply (NoDup_lookup (xs ++ [h])); eauto.
    by rewrite <- Permutation_cons_append.
Qed.

Lemma links_frame_idx m m' l :
  (∀ i a b, l !! i = Some a → l !! S i = Some b →
     load32 m' a = load32 m a ∧ load32 m' (b + 4) = load32 m (b + 4)) →
  links m l → links m' l.
Proof.
  intros H. apply links_frame. intros l1 a b l2 ->.
  apply (H (length l1) a b).
  - by rewrite list_lookup_middle.
  - rewrite lookup_app_r by lia. by replace (S (length l1) - length l1)%nat with 1%nat by lia.
Qed.

Lemma ring_elem (h : Z) xs i a : (h :: xs ++ [h]) !! i = Some a → a ∈ h :: xs.
Proof.
  intros Ha%list_elem_of_lookup_2.
  change (h :: xs ++ [h]) with ((h :: xs) ++ [h]) in Ha.
  apply elem_of_app in Ha as [?| ->%list_elem_of_singleton]; [done|apply list_elem_of_here].
Qed.

(** Both halves of a ring cut inside the pair at index [length l1] survive
    any change of memory that keeps the other neighbour pairs. *)
Lemma ring_cut m m' (C : list Z) l1 p l2 :
  C = l1 ++ p ++ l2 → (0 < length p)%nat →
  (∀ i a b, C !! i = Some a → C !! S i = Some b →
     (i < length l1 ∨ length l1 + length p - 1 ≤ i)%nat →
     load32 m' a = load32 m a ∧ load32 m' (b + 4) = load32 m (b + 4)) →
  (∀ a, head p = Some a → links m (l1 ++ [a]) → links m' (l1 ++ [a])) ∧
  (∀ b, last p = Some b → links m (b :: l2) → links m' (b :: l2)).
Proof.
  intros -> Hp H. split.
  - intros a Ha. apply links_frame_idx. intros i c d Hc Hd.
    pose proof (lookup_lt_Some _ _ _ Hd) as Hi. rewrite length_app in Hi. cbn in Hi.
    destruct p as [|a' p]; [done|]. injection Ha as ->.
    apply (H i); [| |left; lia].
    + change (l1 ++ (a :: p) ++ l2) with (l1 ++ [a] ++ (p ++ l2)).
      rewrite app_assoc. by apply lookup_app_l_Some.
    + change (l1 ++ (a :: p) ++ l2) with (l1 ++ [a] ++ (p ++ l2)).
      rewrite app_assoc. by apply lookup_app_l_Some.
  - intros b Hb. apply links_frame_idx. intros i c d Hc Hd.
    apply last_Some in Hb as [p' ->]. rewrite length_app in H. cbn in H.
    rewrite <- !app_assoc, !(app_assoc l1 p') in H. cbn in H.
    apply (H (length (l1 ++ p') + i)%nat).
    + rewrite lookup_app_r by lia. by replace (_ + i - _)%nat with i by lia.
    + rewrite lookup_app_r by lia.
      by replace (S (_ + i) - _)%nat with (S i) by lia.
    + right. rewrite length_app. lia.
Qed.

Definition relink_add (m : memory) (new p n : Z) : memory :=
  store32 (store32 (store32 (store32 m (n + 4) new) new n) (new + 4) p) p new.

Lemma links_add m h xs l1 p n l2 new :
  NoDup (h :: xs) → (∀ c, c ∈ h :: xs → cell c) → cell new → new ∉ h :: xs →
  h :: xs ++ [h] = l1 ++ [p; n] ++ l2 →
  dlist m h xs →
  links (relink_add m new p n) (l1 ++ p :: new :: n :: l2).
Proof.
  intros Hnd Hc Hnew Hfresh HC Hd.
  assert (Hkp : (h :: xs ++ [h]) !! length l1 = Some p) by (rewrite HC; cbn [app]; by apply list_lookup_middle).
  assert (Hkn : (h :: xs ++ [h]) !! S (length l1) = Some n).
  { rewrite HC. change (l1 ++ [p; n] ++ l2) with (l1 ++ [p] ++ n :: l2).
    rewrite app_assoc. apply list_lookup_middle. rewrite length_app. cbn. lia. }
  pose proof (ring_elem _ _ _ _ Hkp) as Hp. pose proof (ring_elem _ _ _ _ Hkn) as Hn.
  assert (p ≠ new ∧ n ≠ new) as [] by (split; intros ->; done).
  destruct (ring_cut m (relink_add m new p n) (h :: xs ++ [h]) l1 [p; n] l2) as [HL HR];
    [done|cbn; lia| |].
  { intros i a b Ha Hb Hi. cbn in Hi.
    assert (a ≠ p ∧ b ≠ n) as [].
    { split; intros ->; enough (i = length l1) by lia;
        eapply (ring_pair_unique h xs i _ _ (length l1)); eauto. }
    pose proof (ring_elem _ _ _ _ Ha) as Hae. pose proof (ring_elem _ _ _ _ Hb) as Hbe.
    assert (a ≠ new ∧ b ≠ new) as [] by (split; intros ->; done).
    unfold relink_add. split.
    - rewrite cell_load_ne, cell_load_np, cell_load_ne, cell_load_np by auto. done.
    - rewrite cell_load_pn, cell_load_prev_ne, cell_load_pn, cell_load_prev_ne by auto. done. }
  unfold dlist in Hd. rewrite HC in Hd. cbn [app] in Hd.
  rewrite links_app, links_cons in Hd. destruct Hd as (Hl & _ & Hr).
  rewrite links_app, !links_cons. split; [by apply HL|]. split_and!; [..|by apply HR];
    unfold relink_add.
  - apply cell_load_eq; auto.
  - rewrite cell_load_pn by auto. apply cell_load_eq; auto.
  - rewrite cell_load_ne, cell_load_np, cell_load_eq by auto. done.
  - rewrite cell_load_pn, cell_load_prev_ne, cell_load_pn, cell_load_eq by auto. done.
Qed.

Definition relink_del (m : memory) (e p n : Z) : memory :=
  store32 (store32 (store32 (store32 m (n + 4) p) p n) e NULL) (e + 4) NULL.

Lemma links_del m h xs l1 p e n l2 :
  NoDup (h :: xs) → (∀ c, c ∈ h :: xs → cell c) →
  h :: xs ++ [h] = l1 ++ [p; e; n] ++ l2 → e ≠ p → e ≠ n →
  dlist m h xs →
  links (relink_del m e p n) (l1 ++ p :: n :: l2).
Proof.
  intros Hnd Hc HC Hep Hen Hd.
  assert (Hkp : (h :: xs ++ [h]) !! length l1 = Some p) by (rewrite HC; cbn [app]; by apply list_lookup_middle).
  assert (Hke : (h :: xs ++ [h]) !! S (length l1) = Some e).
  { rewrite HC. change (l1 ++ [p; e; n] ++ l2) with (l1 ++ [p] ++ e :: n :: l2).
    rewrite app_assoc. apply list_lookup_middle. rewrite length_app. cbn. lia. }
  assert (Hkn : (h :: xs ++ [h]) !! S (S (length l1)) = Some n).
  { rewrite HC. change (l1 ++ [p; e; n] ++ l2) with (l1 ++ [p; e] ++ n :: l2).
    rewrite app_assoc. apply list_lookup_middle. rewrite length_app. cbn. lia. }
  pose proof (ring_elem _ _ _ _ Hkp) as Hp. pose proof (ring_elem _ _ _ _ Hkn) as Hn.
  pose proof (ring_elem _ _ _ _ Hke) as He.
  destruct (ring_cut m (relink_del m e p n) (h :: xs ++ [h]) l1 [p; e; n] l2) as [HL HR];
    [done|cbn; lia| |].
  { intros i a b Ha Hb Hi. cbn in Hi.
    assert (a ≠ p ∧ b ≠ e) as [].
    { split; intros ->; enough (i = length l1) by lia;
        eapply (ring_pair_unique h xs i _ _ (length l1)); eauto. }
    assert (a ≠ e ∧ b ≠ n) as [].
    { split; intros ->; enough (i = S (length l1)) by lia;
        eapply (ring_pair_unique h xs i _ _ (S (length l1))); eauto. }
    pose proof (ring_elem _ _ _ _ Ha) as Hae. pose proof (ring_elem _ _ _ _ Hb) as Hbe.
    unfold relink_del. split.
    - rewrite cell_load_np, cell_load_ne, cell_load_ne, cell_load_np by auto. done.
    - rewrite cell_load_prev_ne, cell_load_pn, cell_load_pn, cell_load_prev_ne by auto. done. }
  unfold dlist in Hd. rewrite HC in Hd. cbn [app] in Hd.
  rewrite links_app, !links_cons in Hd. destruct Hd as (Hl & _ & _ & Hr).
  rewrite links_app, !links_cons. split; [by apply HL|]. split_and!; [..|by apply HR];
    unfold relink_del.
  - rewrite cell_load_np, cell_load_ne, cell_load_eq by auto. done.
  - rewrite cell_load_prev_ne, cell_load_pn, cell_load_pn, cell_load_eq by auto. done.
Qed.

(** *** Framing list systems *)

(** A cell outside the written ones keeps both its words. *)
Lemma frame_cell (C : Z → Prop) m m' c :
  frame (cell_bytes C) m m' → (∀ d, C d → cell d) → cell c → ¬ C c →
  load32 m' c = load32 m c ∧ load32 m' (c + 4) = load32 m (c + 4).
Proof.
  intros Hf HC Hc Hn.
  assert (∀ b, in_range c 8 b → ¬ cell_bytes C b).
  { intros b Hb (d & Hd & Hr). destruct (decide (c = d)) as [->|Hne]; [done|].
    unfold in_range in *. pose proof (cell_sep c d Hc (HC d Hd) Hne). lia. }
  split; (eapply frame_load32; [done|]); intros b Hb; auto;
    match goal with H : ∀ b, _ → _ |- _ => apply H end; unfold in_range in *; lia.
Qed.

Lemma dlist_same m m' h xs :
  (∀ c, c ∈ h :: xs → load32 m' c = load32 m c ∧ load32 m' (c + 4) = load32 m (c + 4)) →
  dlist m h xs → dlist m' h xs.
Proof.
  intros H. apply links_frame_idx. intros i a b Ha%ring_elem Hb%ring_elem.
  split; by apply H.
Qed.

Lemma lists_same m m' Q :
  lists_ok cell m Q →
  (∀ c, in_lists Q c → load32 m' c = load32 m c ∧ load32 m' (c + 4) = load32 m (c + 4)) →
  lists_ok cell m' Q.
Proof.
  intros [Hd Hc Hn Hdj] H. split; [|done..]. intros h xs Hq.
  eapply dlist_same; [|by apply Hd]. intros c Hcx. apply H. by exists h, xs.
Qed.

(** Writing outside every cell keeps the system. *)
Lemma lists_frame P m m' Q :
  lists_ok cell m Q → frame P m m' →
  (∀ c a, cell c → in_range c 8 a → ¬ P a) →
  lists_ok cell m' Q.
Proof.
  intros Hok Hf HP. eapply lists_same; [done|]. intros c (h & xs & Hq & Hc).
  pose proof (lists_cell _ _ _ Hok _ _ _ Hq Hc).
  split; (eapply frame_load32; [done|]); intros b Hb; eapply HP; eauto;
    unfold in_range in *; lia.
Qed.

(** Replacing the contents of one list. *)
Lemma lists_set (C : Z → Prop) m m' Q h xs :
  lists_ok cell m Q →
  (∀ h' xs' c, h' ≠ h → Q !! h' = Some xs' → c ∈ h' :: xs' → (c ∉ h :: xs) ∧ (¬ C c)) →
  frame (cell_bytes C) m m' → (∀ c, C c → cell c) →
  dlist m' h xs → NoDup (h :: xs) → (∀ c, c ∈ h :: xs → cell c) →
  lists_ok cell m' (<[h := xs]> Q).
Proof.
  intros [Hd Hc Hn Hdj] Ho Hf HC Hd' Hn' Hc'. split.
  - intros h' xs'. destruct (decide (h = h')) as [<-|Hne]; intros Hq.
    + rewrite lookup_insert_eq in Hq. by simplify_eq.
    + rewrite lookup_insert_ne in Hq by done. eapply dlist_same; [|by apply Hd].
      intros c Hcx. eapply frame_cell; eauto. by destruct (Ho h' xs' c).
  - intros h' xs' c. destruct (decide (h = h')) as [<-|Hne]; intros Hq.
    + rewrite lookup_insert_eq in Hq. simplify_eq. auto.
    + rewrite lookup_insert_ne in Hq by done. eauto.
  - intros h' xs'. destruct (decide (h = h')) as [<-|Hne]; intros Hq.
    + rewrite lookup_insert_eq in Hq. by simplify_eq.
    + rewrite lookup_insert_ne in Hq by done. eauto.
  - intros h1 xs1 h2 xs2 c. rewrite !lookup_insert.
    repeat case_decide; intros Hq1 Hq2 Hc1 Hc2; simplify_eq; try done.
    + exfalso. destruct (Ho h2 xs2 c); auto.
    + exfalso. destruct (Ho h1 xs1 c); auto.
    + eauto.
Qed.

Lemma lists_delete m Q h : lists_ok cell m Q → lists_ok cell m (delete h Q).
Proof.
  intros [Hd Hc Hn Hdj].
  split; intros *; rewrite ?lookup_delete_Some; naive_solver.
Qed.

Lemma relink_add_frame m new p n :
  frame (cell_bytes (λ c, c = new ∨ c = p ∨ c = n)) m (relink_add m new p n).
Proof.
  unfold relink_add.
  repeat (eapply frame_trans; [|apply frame_store32]); [apply frame_refl|..];
    intros b Hb; unfold cell_bytes, in_range in *;
    [exists n|exists new|exists new|exists p]; (split; [tauto|lia]).
Qed.

Lemma relink_del_frame m e p n :
  frame (cell_bytes (λ c, c = e ∨ c = p ∨ c = n)) m (relink_del m e p n).
Proof.
  unfold relink_del.
  repeat (eapply frame_trans; [|apply frame_store32]); [apply frame_refl|..];
    intros b Hb; unfold cell_bytes, in_range in *;
    [exists n|exists p|exists e|exists e]; (split; [tauto|lia]).
Qed.

Lemma cell_bytes_mono (C D : Z → Prop) m m' :
  (∀ c, C c → D c) → frame (cell_bytes C) m m' → frame (cell_bytes D) m m'.
Proof. intros H. apply frame_weaken. intros a (c & Hc & Ha). exists c. auto. Qed.

(** *** Specifications of the C functions *)

Lemma wp_list_add_raw new p n m R :
  cell new → cell p → cell n →
  R tt (relink_add m new p n) → wp (__list_add new p n) m R.
Proof.
  intros. unfold __list_add.
  apply wp_bind, wp_set_prev; [done|]. apply wp_bind, wp_set_next; [done|].
  apply wp_bind, wp_set_prev; [done|]. by apply wp_set_next.
Qed.

Lemma ring_snoc (h : Z) xs : ∃ l1 p, h :: xs = l1 ++ [p] ∧ default h (last xs) = p.
Proof.
  destruct xs as [|x xs _] using rev_ind.
  - by exists [], h.
  - exists (h :: xs), x. by rewrite last_snoc.
Qed.

(** Adding [new] between two neighbours of the list [h]. *)
Lemma list_add_between m Q h xs l1 p n l2 xs' new :
  lists_ok cell m Q → Q !! h = Some xs → cell new → ¬ in_lists Q new →
  h :: xs ++ [h] = l1 ++ [p; n] ++ l2 →
  l1 ++ p :: new :: n :: l2 = h :: xs' ++ [h] →
  xs' ≡ₚ new :: xs →
  lists_ok cell (relink_add m new p n) (<[h := xs']> Q) ∧
  frame (cell_bytes (λ c, c = new ∨ c ∈ h :: xs)) m (relink_add m new p n) ∧
  cell p ∧ cell n.
Proof.
  intros Hok Hq Hnew Hfresh HC HC' Hperm.
  assert (Hfr : new ∉ h :: xs) by (intros ?; apply Hfresh; by exists h, xs).
  assert (Hc : ∀ c, c ∈ h :: xs → cell c) by (intros; by eapply lists_cell).
  assert (Hp : p ∈ h :: xs).
  { apply (ring_elem _ _ (length l1)). rewrite HC. by apply list_lookup_middle. }
  assert (Hn : n ∈ h :: xs).
  { apply (ring_elem _ _ (S (length l1))). rewrite HC.
    change (l1 ++ [p; n] ++ l2) with (l1 ++ [p] ++ n :: l2).
    rewrite app_assoc. apply list_lookup_middle. rewrite length_app. cbn. lia. }
  assert (Hf : frame (cell_bytes (λ c, c = new ∨ c ∈ h :: xs)) m (relink_add m new p n)).
  { eapply cell_bytes_mono; [|apply relink_add_frame]. intros c [-> | [-> | ->]]; auto. }
  assert (Hm : ∀ c, c ∈ h :: xs' ↔ c = new ∨ c ∈ h :: xs).
  { intros c. rewrite Hperm, !elem_of_cons. tauto. }
  split_and!; [|done|by apply Hc..].
  eapply lists_set; [done| |exact Hf|..].
  - intros h' ys c Hne Hq' Hcy. rewrite Hm.
    enough (c ≠ new ∧ c ∉ h :: xs) by tauto. split.
    + intros ->. apply Hfresh. by exists h', ys.
    + intros Hcx. apply Hne. by eapply lists_disj.
  - intros c [-> | ?]; auto.
  - unfold dlist. rewrite <- HC'. eapply (links_add m h xs); eauto using lists_nodup, lists_dlist.
  - rewrite Hperm, Permutation_swap. apply NoDup_cons. split; [done|]. by eapply lists_nodup.
  - intros c [-> | ?]%Hm; auto.
Qed.

Lemma wp_list_add_tail m Q h xs new R :
  lists_ok cell m Q → Q !! h = Some xs → cell new → ¬ in_lists Q new →
  (∀ m', lists_ok cell m' (<[h := xs ++ [new]]> Q) →
         frame (cell_bytes (λ c, c = new ∨ c ∈ h :: xs)) m m' → R tt m') →
  wp (list_add_tail new h) m R.
Proof.
  intros Hok Hq Hnew Hfresh HR. destruct (ring_snoc h xs) as (l1 & p & E & Hp).
  destruct (list_add_between m Q h xs l1 p h [] (xs ++ [new]) new) as (Hl & Hf & Hcp & Hch);
    [done..| | | |].
  { change (h :: xs ++ [h]) with ((h :: xs) ++ [h]). rewrite E, <- app_assoc. done. }
  { cbn. rewrite <- app_assoc. change (h :: xs ++ ([new] ++ [h])) with ((h :: xs) ++ [new; h]).
    rewrite E, <- app_assoc. done. }
  { by rewrite <- Permutation_cons_append. }
  unfold list_add_tail. apply wp_bind, wp_get_prev; [done|].
  rewrite (dlist_prev m h xs) by (by eapply lists_dlist). rewrite Hp.
  apply wp_list_add_raw; auto.
Qed.

Lemma wp_list_add m Q h xs new R :
  lists_ok cell m Q → Q !! h = Some xs → cell new → ¬ in_lists Q new →
  (∀ m', lists_ok cell m' (<[h := new :: xs]> Q) →
         frame (cell_bytes (λ c, c = new ∨ c ∈ h :: xs)) m m' → R tt m') →
  wp (list_add new h) m R.
Proof.
  intros Hok Hq Hnew Hfresh HR.
  assert (∃ n l2, xs ++ [h] = n :: l2 ∧ default h (head xs) = n) as (n & l2 & E & Hn).
  { destruct xs; cbn; eauto. }
  destruct (list_add_between m Q h xs [] h n l2 (new :: xs) new) as (Hl & Hf & Hch & Hcn);
    [done..| | |done|].
  { cbn. by rewrite E. }
  { cbn. by rewrite E. }
  unfold list_add. apply wp_bind, wp_get_next; [done|].
  rewrite (dlist_next m h xs) by (by eapply lists_dlist). rewrite Hn.
  apply wp_list_add_raw; auto.
Qed.

(** The neighbours of an entry in the ring. *)
Lemma ring_around (h : Z) xs1 e xs2 :
  ∃ l1 p n l2, h :: (xs1 ++ e :: xs2) ++ [h] = l1 ++ [p; e; n] ++ l2 ∧
               l1 ++ p :: n :: l2 = h :: (xs1 ++ xs2) ++ [h].
Proof.
  destruct (ring_snoc h xs1) as (l1 & p & E & _).
  assert (∃ n l2, xs2 ++ [h] = n :: l2) as (n & l2 & E2) by (destruct xs2; cbn; eauto).
  exists l1, p, n, l2. rewrite <- !app_assoc. cbn. rewrite E2.
  change (h :: xs1 ++ ?l) with ((h :: xs1) ++ l). rewrite E, <- !app_assoc. done.
Qed.

(** An entry of a ring without repetitions is none of its neighbours, and
    its links name them. *)
Lemma ring_neighbours m h xs l1 p e n l2 :
  NoDup (h :: xs) → dlist m h xs → h :: xs ++ [h] = l1 ++ [p; e; n] ++ l2 →
  (p ∈ h :: xs ∧ e ∈ h :: xs ∧ n ∈ h :: xs) ∧ (e ≠ p ∧ e ≠ n) ∧
  load32 m (e + 4) = p ∧ load32 m e = n.
Proof.
  intros Hnd Hd HC.
  assert (Hkp : (h :: xs ++ [h]) !! length l1 = Some p).
  { rewrite HC. by apply list_lookup_middle. }
  assert (Hke : (h :: xs ++ [h]) !! S (length l1) = Some e).
  { rewrite HC. change (l1 ++ [p; e; n] ++ l2) with (l1 ++ [p] ++ e :: n :: l2).
    rewrite app_assoc. apply list_lookup_middle. rewrite length_app. cbn. lia. }
  assert (Hkn : (h :: xs ++ [h]) !! S (S (length l1)) = Some n).
  { rewrite HC. change (l1 ++ [p; e; n] ++ l2) with (l1 ++ [p; e] ++ n :: l2).
    rewrite app_assoc. apply list_lookup_middle. rewrite length_app. cbn. lia. }
  split_and!; [by eapply ring_elem..| | | |].
  - intros <-. enough (length l1 = S (length l1)) by lia. eapply (ring_pair_unique h xs); eauto.
  - intros <-. enough (length l1 = S (length l1)) by lia. eapply (ring_pair_unique h xs); eauto.
  - unfold dlist in Hd. rewrite HC in Hd. cbn [app] in Hd.
    rewrite links_app, !links_cons in Hd. tauto.
  - unfold dlist in Hd. rewrite HC in Hd. cbn [app] in Hd.
    rewrite links_app, !links_cons in Hd. tauto.
Qed.

Lemma wp_list_del m Q h xs1 e xs2 R :
  lists_ok cell m Q → Q !! h = Some (xs1 ++ e :: xs2) →
  (∀ m', lists_ok cell m' (<[h := xs1 ++ xs2]> Q) →
         frame (cell_bytes (λ c, c ∈ h :: xs1 ++ e :: xs2)) m m' →
         load32 m' e = NULL → load32 m' (e + 4) = NULL → R tt m') →
  wp (list_del e) m R.
Proof.
  intros Hok Hq HR. destruct (ring_around h xs1 e xs2) as (l1 & p & n & l2 & HC & HC').
  set (xs := xs1 ++ e :: xs2) in *.
  assert (Hnd : NoDup (h :: xs)) by (by eapply lists_nodup).
  assert (Hc : ∀ c, c ∈ h :: xs → cell c) by (intros; by eapply lists_cell).
  assert (Hd : dlist m h xs) by (by eapply lists_dlist).
  destruct (ring_neighbours m h xs l1 p e n l2 Hnd Hd HC)
    as ((Hp & He & Hn) & (Hep & Hen) & Epe & Een).
  assert (Hf : frame (cell_bytes (λ c, c ∈ h :: xs)) m (relink_del m e p n)).
  { eapply cell_bytes_mono; [|apply relink_del_frame]. intros c [-> | [-> | ->]]; done. }
  unfold list_del, __list_del.
  apply wp_bind, wp_get_prev; [auto|]. rewrite Epe.
  apply wp_bind, wp_get_next; [auto|]. rewrite Een.
  apply wp_bind, wp_bind, wp_set_prev; [auto|]. apply wp_set_next; [auto|].
  apply wp_bind, wp_set_next; [auto|]. apply wp_set_prev; [auto|].
  apply HR; [|done|..].
  - assert (Hsub : ∀ c, c ∈ h :: xs1 ++ xs2 → c ∈ h :: xs).
    { intros c. unfold xs. rewrite !elem_of_cons, !elem_of_app, elem_of_cons. tauto. }
    eapply lists_set; [done| |exact Hf|done|..].
    + intros h' ys c Hne Hq' Hcy.
      enough (c ∉ h :: xs) by auto. intros Hcx. apply Hne. by eapply lists_disj.
    + unfold dlist. rewrite <- HC'. eapply (links_del m h xs); eauto.
    + eapply sublist_NoDup; [exact Hnd|]. unfold xs.
      apply sublist_skip, sublist_app; [done|]. by apply sublist_cons.
    + auto.
  - rewrite cell_load_np by auto. by rewrite load32_store32_eq.
  - by rewrite load32_store32_eq.
Qed.

Lemma wp_INIT_LIST_HEAD m Q h R :
  lists_ok cell m Q → cell h → ¬ in_lists Q h →
  (∀ m', lists_ok cell m' (<[h := []]> Q) → frame (cell_bytes (λ c, c = h)) m m' → R tt m') →
  wp (INIT_LIST_HEAD h) m R.
Proof.
  intros Hok Hc Hfresh HR. unfold INIT_LIST_HEAD.
  apply wp_bind, wp_set_next; [done|]. apply wp_set_prev; [done|].
  assert (Hf : frame (cell_bytes (λ c, c = h)) m (store32 (store32 m h h) (h + 4) h)).
  { repeat (eapply frame_trans; [|apply frame_store32]); [apply frame_refl|..];
      intros b Hb; exists h; unfold in_range in *; (split; [done|lia]). }
  apply HR; [|done]. eapply lists_set; [done| |exact Hf|..].
  - intros h' xs' c Hne Hq Hcx. enough (c ≠ h) by (rewrite list_elem_of_singleton; done).
    intros ->. apply Hfresh. by exists h', xs'.
  - by intros c ->.
  - unfold dlist. cbn. rewrite cell_load_np, !cell_load_eq by done. done.
  - apply NoDup_singleton.
  - intros c ->%list_elem_of_singleton. done.
Qed.

Lemma wp_list_empty m Q h xs R :
  lists_ok cell m Q → Q !! h = Some xs →
  R (bool_decide (xs = [])) m → wp (list_empty h) m R.
Proof.
  intros Hok Hq HR. unfold list_empty. apply wp_bind, wp_get_next.
  { eapply lists_cell; eauto. apply list_elem_of_here. }
  apply wp_ret. pose proof (lists_nodup _ _ _ Hok _ _ Hq) as [Hh _]%NoDup_cons.
  pose proof (dlist_empty m h xs (lists_dlist _ _ _ Hok _ _ Hq) Hh) as He.
  replace (load32 m h =? h) with (bool_decide (xs = [])); [done|].
  apply eq_true_iff_eq. rewrite Z.eqb_eq, bool_decide_eq_true. by rewrite He.
Qed.

Lemma wp_list_first m Q h x xs R :
  lists_ok cell m Q → Q !! h = Some (x :: xs) → R x m → wp (list_first h) m R.
Proof.
  intros Hok Hq HR. apply wp_get_next.
  { eapply lists_cell; eauto. apply list_elem_of_here. }
  by rewrite (dlist_next m h (x :: xs)) by (by eapply lists_dlist).
Qed.

Lemma wp_list_is_last m Q h xs x R :
  lists_ok cell m Q → Q !! h = Some xs → x ∈ xs →
  R (bool_decide (last xs = Some x)) m → wp (list_is_last x h) m R.
Proof.
  intros Hok Hq (xs1 & xs2 & ->)%list_elem_of_split HR.
  pose proof (lists_dlist _ _ _ Hok _ _ Hq) as Hd.
  pose proof (lists_nodup _ _ _ Hok _ _ Hq) as Hnd.
  unfold list_is_last. apply wp_bind, wp_get_next.
  { eapply lists_cell; eauto. rewrite elem_of_cons, elem_of_app, elem_of_cons. auto. }
  apply wp_ret. rewrite (dlist_next_entry _ _ _ _ _ Hd).
  apply NoDup_cons in Hnd as [Hh Hnd].
  apply NoDup_app in Hnd as (_ & _ & [Hx _]%NoDup_cons).
  replace (_ =? h) with (bool_decide (last (xs1 ++ x :: xs2) = Some x)); [done|].
  rewrite last_app_cons. destruct xs2 as [|y ys]; cbn.
  - by rewrite Z.eqb_refl, bool_decide_eq_true_2.
  - transitivity false; [apply bool_decide_eq_false_2|symmetry; apply Z.eqb_neq].
    + intros Hl%last_Some_elem_of. done.
    + intros Hy. apply Hh. rewrite elem_of_app, !elem_of_cons. auto.
Qed.
End Ops.

(** ** The loop macros

    Each terminates on a well-formed list with one unit of fuel more than the
    list has entries. *)

Section Loops.
Context {S : Type} (rd : Z → M S Z).

(** A search: the body neither changes the state nor faults. *)
Lemma wp_list_for_each {A} (f : Z → option A) (body : Z → M S (option A)) h xs fuel s
    (R : option A → S → Prop) :
  h ∉ xs → (length xs < fuel)%nat →
  (∀ xs1 c xs2, h :: xs = xs1 ++ c :: xs2 → rd c s = Ret (default h (head xs2)) s) →
  (∀ x, x ∈ xs → body x s = Ret (f x) s) →
  R (head (omap f xs)) s →
  wp (list_for_each rd fuel h body) s R.
Proof.
  intros Hh Hfuel Hrd Hbody HR. unfold list_for_each.
  apply wp_bind. eapply wp_intro; [by apply (Hrd [] h xs)|].
  assert (Hrd' : ∀ xs1 c xs2, xs = xs1 ++ c :: xs2 → rd c s = Ret (default h (head xs2)) s).
  { intros xs1 c xs2 ->. by apply (Hrd (h :: xs1)). }
  clear Hrd. revert fuel Hfuel. induction xs as [|x xs IH]; intros [|fuel] Hfuel; cbn in Hfuel;
    [lia| |lia|]; cbn [head from_option id list_for_each_loop].
  - rewrite Z.eqb_refl. by apply wp_ret.
  - apply not_elem_of_cons in Hh as [Hx Hh].
    destruct (Z.eqb_spec x h) as [->|_]; [done|].
    apply wp_bind. eapply wp_intro; [apply Hbody, list_elem_of_here|].
    cbn in HR. destruct (f x) as [a|]; [by apply wp_ret|].
    apply wp_bind. eapply wp_intro; [by apply (Hrd' [] x xs)|]. apply IH; [done|..|lia].
    + intros y Hy. apply Hbody. by apply list_elem_of_further.
    + done.
    + intros xs1 c xs2 ->. by apply (Hrd' (x :: xs1)).
Qed.

(** The removal loop: every pass takes the first entry off the list. *)
Lemma wp_list_for_each_safe (I : list Z → S → Prop) (body : Z → M S unit) h fuel xs s :
  (length xs < fuel)%nat →
  (∀ xs s, I xs s → (h ∉ xs) ∧ rd h s = Ret (default h (head xs)) s ∧
     ∀ x xs', xs = x :: xs' → rd x s = Ret (default h (head xs')) s) →
  (∀ x xs s, I (x :: xs) s → wp (body x) s (λ _ s', I xs s')) →
  I xs s →
  wp (list_for_each_safe rd fuel h body) s (λ _ s', I [] s').
Proof.
  intros Hfuel Hrd Hbody HI.
  assert (Hnext : ∀ xs s, I xs s →
    rd (default h (head xs)) s = Ret (default h (head (tail xs))) s).
  { intros ys s' Hys. destruct (Hrd _ _ Hys) as (_ & Hh & Hx).
    destruct ys as [|y ys]; cbn; [done|]. by apply Hx. }
  unfold list_for_each_safe. destruct (Hrd _ _ HI) as (_ & Hh & _).
  apply wp_bind. eapply wp_intro; [exact Hh|]. clear Hh. apply wp_bind. eapply wp_intro; [by apply Hnext|].
  revert xs s Hfuel HI. induction fuel as [|fuel IH]; intros xs s Hfuel HI; [lia|].
  cbn [list_for_each_safe_loop]. destruct xs as [|x xs]; cbn [head from_option id tail].
  - rewrite Z.eqb_refl. by apply wp_ret.
  - destruct (Hrd _ _ HI) as ([Hx _]%not_elem_of_cons & _).
    destruct (Z.eqb_spec x h) as [->|_]; [done|].
    apply wp_bind. eapply wp_mono; [by apply Hbody|]. intros [] s' HI'.
    apply wp_bind. eapply wp_intro; [by apply Hnext|].
    apply IH; [cbn in Hfuel; lia|done].
Qed.
End Loops.

(** A system of one list. *)
Lemma lists_singleton cell m h xs :
  dlist m h xs → NoDup (h :: xs) → (∀ c, c ∈ h :: xs → cell c) → lists_ok cell m {[h := xs]}.
Proof.
  intros Hd Hn Hc. split.
  - by intros h' xs' [<- <-]%lookup_singleton_Some.
  - intros h' xs' c [<- <-]%lookup_singleton_Some. auto.
  - by intros h' xs' [<- <-]%lookup_singleton_Some.
  - by intros h1 xs1 h2 xs2 c [<- _]%lookup_singleton_Some [<- _]%lookup_singleton_Some.
Qed.

(** ** What the list module guarantees *)

(** C37. list_add_tail implements "append to one list of the system": on any
    memory that holds the lists [Q], adding a cell that is on no list to the
    list of head [h] returns, the memory then holds [Q] with that cell after
    the last entry of [h], every other list is untouched, and no byte outside
    the cells of that list and the new one is written. *)
Theorem list_add_tail_appends cell `{!Cells cell} m Q h xs new :
  lists_ok cell m Q → Q !! h = Some xs → cell new → ¬ in_lists Q new →
  ∃ m', list_add_tail new h m = Ret tt m' ∧ lists_ok cell m' (<[h := xs ++ [new]]> Q) ∧
        frame (cell_bytes (λ c, c = new ∨ c ∈ h :: xs)) m m'.
Proof.
  intros Hok Hq Hnew Hfresh.
  destruct (wp_elim (list_add_tail new h) m (λ _ m', lists_ok cell m' (<[h := xs ++ [new]]> Q) ∧
        frame (cell_bytes (λ c, c = new ∨ c ∈ h :: xs)) m m')) as ([] & m' & E & H).
  - by eapply wp_list_add_tail.
  - exists m'. tauto.
Qed.

(** C38. list_del implements "remove this entry": whatever the entry's place in
    its list, the memory afterwards holds the same lists without it, its own
    two links are NULL (what update_process_state_rr tests to know that a
    task is on no queue), and only the cells of that list are written. *)
Theorem list_del_removes cell `{!Cells cell} m Q h xs1 e xs2 :
  lists_ok cell m Q → Q !! h = Some (xs1 ++ e :: xs2) →
  ∃ m', list_del e m = Ret tt m' ∧ lists_ok cell m' (<[h := xs1 ++ xs2]> Q) ∧
        load32 m' e = NULL ∧ load32 m' (e + 4) = NULL ∧
        frame (cell_bytes (λ c, c ∈ h :: xs1 ++ e :: xs2)) m m'.
Proof.
  intros Hok Hq.
  destruct (wp_elim (list_del e) m (λ _ m', lists_ok cell m' (<[h := xs1 ++ xs2]> Q) ∧
        load32 m' e = NULL ∧ load32 m' (e + 4) = NULL ∧
        frame (cell_bytes (λ c, c ∈ h :: xs1 ++ e :: xs2)) m m')) as ([] & m' & E & H).
  - by eapply wp_list_del; [done..|].
  - exists m'. tauto.
Qed.

(** A list is a first-in first-out queue: taking list_first of a
    non-empty list and deleting it yields the entry that was there longest,
    and the entry just added by list_add_tail comes out after all the ones
    already queued. *)
Theorem list_fifo cell `{!Cells cell} m Q h x xs new :
  lists_ok cell m Q → Q !! h = Some (x :: xs) → cell new → ¬ in_lists Q new →
  ∃ m', (list_add_tail new h ;!
         let! first := list_first h in
         list_del first ;!
         ret first) m = Ret x m' ∧
        lists_ok cell m' (<[h := xs ++ [new]]> Q).
Proof.
  intros Hok Hq Hnew Hfresh.
  destruct (wp_elim (list_add_tail new h ;!
         let! first := list_first h in list_del first ;! ret first) m
    (λ a m', a = x ∧ lists_ok cell m' (<[h := xs ++ [new]]> Q))) as (a & m' & E & -> & H).
  - apply wp_bind. eapply wp_list_add_tail; [done..|]. intros m1 Hok1 _. cbn in Hok1.
    apply wp_bind. eapply (wp_list_first cell m1 _ h x (xs ++ [new])); [exact Hok1|by rewrite lookup_insert_eq|].
    apply wp_bind. eapply (wp_list_del _ _ _ h []); [done|by rewrite lookup_insert_eq|].
    intros m2 Hok2 _ _ _. cbn in Hok2. rewrite insert_insert_eq in Hok2. by apply wp_ret.
  - by exists m'.
Qed.

(** Three cells at 0x16000, 0x16010 and 0x16020, the first a list head. *)
Definition sample_cell (a : Z) : Prop := a ∈ [0x16000; 0x16010; 0x16020].

#[export] Instance sample_cells : Cells sample_cell.
Proof.
  unfold sample_cell, KERNEL_LO, KERNEL_HI.
  split.
  - intros a Ha. set_unfold in Ha. destruct_or?; subst; (done || lia).
  - intros a b Ha Hb Hne. set_unfold in Ha. set_unfold in Hb.
    destruct_or?; subst; (done || lia).
Qed.

Definition sample_memory : memory :=
  store32 (store32 (store32 (store32 ∅ 0x16000 0x16010) 0x16004 0x16010)
    0x16010 0x16000) 0x16014 0x16000.

Lemma sample_lists : lists_ok sample_cell sample_memory {[0x16000 := [0x16010]]}.
Proof.
  apply lists_singleton.
  - vm_compute. tauto.
  - by apply (bool_decide_unpack _).
  - unfold sample_cell. set_solver.
Qed.

Lemma sample_fresh : ¬ in_lists {[0x16000 := [0x16010]]} 0x16020.
Proof. intros (h & xs & [<- <-]%lookup_singleton_Some & Hc). set_solver. Qed.

Lemma list_add_tail_appends_witness :
  ∃ m', list_add_tail 0x16020 0x16000 sample_memory = Ret tt m' ∧
        lists_ok sample_cell m' (<[0x16000 := [0x16010; 0x16020]]> {[0x16000 := [0x16010]]}) ∧
        frame (cell_bytes (λ c, c = 0x16020 ∨ c ∈ [0x16000; 0x16010])) sample_memory m'.
Proof.
  apply (list_add_tail_appends sample_cell sample_memory {[0x16000 := [0x16010]]} 0x16000 [0x16010]).
  - exact sample_lists.
  - reflexivity.
  - unfold sample_cell. set_solver.
  - exact sample_fresh.
Defined.

Lemma list_del_removes_witness :
  ∃ m', list_del 0x16010 sample_memory = Ret tt m' ∧
        lists_ok sample_cell m' (<[0x16000 := []]> {[0x16000 := [0x16010]]}) ∧
        load32 m' 0x16010 = NULL ∧ load32 m' (0x16010 + 4) = NULL ∧
        frame (cell_bytes (λ c, c ∈ [0x16000; 0x16010])) sample_memory m'.
Proof.
  apply (list_del_removes sample_cell sample_memory {[0x16000 := [0x16010]]} 0x16000 [] 0x16010 []).
  - exact sample_lists.
  - reflexivity.
Defined.

Lemma list_fifo_witness :
  ∃ m', (list_add_tail 0x16020 0x16000 ;!
         let! first := list_first 0x16000 in
         list_del first ;!
         ret first) sample_memory = Ret 0x16010 m' ∧
        lists_ok sample_cell m' (<[0x16000 := [0x16020]]> {[0x16000 := [0x16010]]}).
Proof.
  apply (list_fifo sample_cell sample_memory {[0x16000 := [0x16010]]} 0x16000 0x16010 []).
  - exact sample_lists.
  - reflexivity.
  - unfold sample_cell. set_solver.
  - exact sample_fresh.
Defined.
