(* ===== verification/Libc.v ===== *)
(** libc.c (itoa, strlen) and itoa_hex of utils.c: the conversions the kernel
    and the user library print numbers with, on C character arrays whose
    bounds are checked. *)

From S2P Require Import Prelude.

(** ** Character arrays

    A C array is a list of its length; a write outside it is undefined
    behaviour and stops the run. *)

Abbreviation cbuf := (list Z).

Definition buf_set (i v : Z) : M cbuf unit := λ b,
  if (0 <=? i) && (i <? Z.of_nat (length b))
  then Ret tt (<[Z.to_nat i := u8 v]> b)
  else Fault (BufferOverflow (Z.of_nat (length b))).

Definition buf_get (i : Z) : M cbuf Z := λ b,
  if (0 <=? i) && (i <? Z.of_nat (length b))
  then Ret (nth (Z.to_nat i) b 0) b
  else Fault (OutOfBounds i).

(** The string a buffer holds: what precedes its first NUL. *)
Fixpoint cstr (b : cbuf) : list Z :=
  match b with
  | [] => []
  | c :: b' => if c =? 0 then [] else c :: cstr b'
  end.

(** ** itoa and itoa_hex *)

(** [while (a>0) { b[i]=digit(a%base); a=a/base; i++; }], which leaves [i].
    An [int] has at most 31 digits in any base. *)
Fixpoint digits_loop (fuel : nat) (base : Z) (digit : Z → Z) (a i : Z) : M cbuf Z :=
  match fuel with
  | O => fail OutOfFuel
  | Datatypes.S fuel' =>
      if 0 <? a then
        buf_set i (digit (Z.rem a base)) ;!
        digits_loop fuel' base digit (Z.quot a base) (i + 1)
      else ret i
  end.

(** [for (i1=0; i1<i/2; i1++) { c=b[i1]; b[i1]=b[i-i1-1]; b[i-i1-1]=c; }] *)
Definition reverse_loop (i : Z) : M cbuf unit :=
  for_range (Z.to_nat (Z.quot i 2)) 0 (λ i1,
    let! c := buf_get i1 in
    let! d := buf_get (i - i1 - 1) in
    buf_set i1 d ;!
    buf_set (i - i1 - 1) c).

Definition itoa (a : Z) : M cbuf unit :=
  if a =? 0 then buf_set 0 48 ;! buf_set 1 0
  else
    let! i := digits_loop 32 10 (λ d, d + 48) a 0 in
    reverse_loop i ;!
    buf_set i 0.

(** [char hex[17] = "0123456789ABCDEF"] *)
Definition hex : list Z :=
  [48; 49; 50; 51; 52; 53; 54; 55; 56; 57; 65; 66; 67; 68; 69; 70; 0].

Definition itoa_hex (a : Z) : M cbuf unit :=
  if a =? 0 then buf_set 0 48 ;! buf_set 1 0
  else
    let! i := digits_loop 32 16 (λ d, nth (Z.to_nat d) hex 0) a 0 in
    reverse_loop i ;!
    buf_set i 0.

(** ** strlen *)

Fixpoint strlen_loop (fuel : nat) (i : Z) : M cbuf Z :=
  match fuel with
  | O => fail OutOfFuel
  | Datatypes.S fuel' =>
      let! c := buf_get i in
      if c =? 0 then ret i else strlen_loop fuel' (i + 1)
  end.

Definition strlen : M cbuf Z := λ b, strlen_loop (S (length b)) 0 b.

(** ** Reference: positional notation *)

(** The digits of [a], least significant first. *)
Fixpoint digits_lsb (fuel : nat) (base a : Z) : list Z :=
  match fuel with
  | O => []
  | Datatypes.S fuel' => if 0 <? a then a mod base :: digits_lsb fuel' base (a / base) else []
  end.

(** The number a digit string denotes, most significant digit first. *)
Definition value_of (base : Z) (ds : list Z) : Z := fold_left (λ acc d, acc * base + d) ds 0.

(** The digits of [a], most significant first; zero is written with one. *)
Definition numeral (base a : Z) : list Z :=
  if a =? 0 then [0] else rev (digits_lsb 31 base a).

Example itoa_407 : itoa 407 (replicate 6 0) = Ret tt [52; 48; 55; 0; 0; 0].
Proof. reflexivity. Qed.

Example itoa_hex_beef : itoa_hex 48879 (replicate 6 0) = Ret tt [66; 69; 69; 70; 0; 0].
Proof. reflexivity. Qed.

(** ** Buffers *)

Lemma buf_set_in b i v :
  0 ≤ i < Z.of_nat (length b) → buf_set i v b = Ret tt (<[Z.to_nat i := u8 v]> b).
Proof. intros. unfold buf_set. destruct (Z.leb_spec 0 i), (Z.ltb_spec i (Z.of_nat (length b))); done || lia. Qed.

Lemma buf_set_out b i v :
  Z.of_nat (length b) ≤ i → buf_set i v b = Fault (BufferOverflow (Z.of_nat (length b))).
Proof. intros. unfold buf_set. destruct (Z.leb_spec 0 i), (Z.ltb_spec i (Z.of_nat (length b))); done || lia. Qed.

Lemma buf_get_in b i :
  0 ≤ i < Z.of_nat (length b) → buf_get i b = Ret (nth (Z.to_nat i) b 0) b.
Proof. intros. unfold buf_get. destruct (Z.leb_spec 0 i), (Z.ltb_spec i (Z.of_nat (length b))); done || lia. Qed.

Lemma cstr_app s b : Forall (λ c, c ≠ 0) s → cstr (s ++ 0 :: b) = s.
Proof.
  induction 1 as [|c s Hc _ IH]; [done|]. cbn [app cstr].
  destruct (Z.eqb_spec c 0); [done|]. by rewrite IH.
Qed.

(** ** Digits *)

Section Digits.
Context (base : Z) (Hbase : 2 ≤ base).

Lemma digits_lsb_bound fuel a : Forall (λ d, 0 ≤ d < base) (digits_lsb fuel base a).
Proof.
  revert a. induction fuel as [|fuel IH]; intros a; cbn; [done|].
  destruct (0 <? a); [|done]. constructor; [|apply IH]. apply Z.mod_pos_bound. lia.
Qed.

Lemma digits_lsb_length fuel a : (length (digits_lsb fuel base a) ≤ fuel)%nat.
Proof.
  revert a. induction fuel as [|fuel IH]; intros a; cbn; [lia|].
  destruct (0 <? a); cbn; [|lia]. specialize (IH (a / base)). lia.
Qed.

(** With fuel for every bit, the digits are all there. *)
Lemma digits_lsb_value fuel a :
  0 ≤ a < 2 ^ Z.of_nat fuel → value_of base (rev (digits_lsb fuel base a)) = a.
Proof.
  unfold value_of. rewrite <- (List.fold_left_rev_right (λ d acc, acc * base + d)), List.rev_involutive.
  revert a. induction fuel as [|fuel IH]; intros a Ha.
  - cbn in *. lia.
  - cbn [digits_lsb]. destruct (Z.ltb_spec 0 a); cbn [fold_right]; [|lia].
    rewrite IH.
    + pose proof (Z.div_mod a base). lia.
    + rewrite Nat2Z.inj_succ, Z.pow_succ_r in Ha by lia. split.
      * apply Z.div_pos; lia.
      * apply Z.div_lt_upper_bound; nia.
Qed.

(** No leading zero. *)
Lemma digits_lsb_last fuel a d :
  0 ≤ a < 2 ^ Z.of_nat fuel → last (digits_lsb fuel base a) = Some d → 0 < d.
Proof.
  revert a. induction fuel as [|fuel IH]; intros a Ha; [done|]. cbn [digits_lsb].
  destruct (Z.ltb_spec 0 a); [|done]. intros Hl.
  assert (0 ≤ a / base < 2 ^ Z.of_nat fuel) as Hq.
  { rewrite Nat2Z.inj_succ, Z.pow_succ_r in Ha by lia. split.
    - apply Z.div_pos; lia.
    - apply Z.div_lt_upper_bound; nia. }
  destruct (digits_lsb fuel base (a / base)) as [|e ds] eqn:E.
  - cbn in Hl. injection Hl as <-.
    assert (a / base = 0) as Hz.
    { pose proof (digits_lsb_value fuel (a / base) Hq) as Hv. rewrite E in Hv. cbn in Hv. lia. }
    pose proof (Z.div_mod a base). lia.
  - rewrite last_cons_cons in Hl. apply (IH (a / base)); [done|]. by rewrite E.
Qed.
End Digits.

(** ** The loops *)

Section Loops.
Context (base : Z) (digit : Z → Z) (Hbase : 2 ≤ base).

Lemma digits_loop_spec n a i b :
  0 ≤ a < 2 ^ Z.of_nat n → 0 ≤ i ≤ Z.of_nat (length b) →
  digits_loop (S n) base digit a i b =
    let ds := digits_lsb n base a in
    if decide (Z.to_nat i + length ds ≤ length b)%nat
    then Ret (i + Z.of_nat (length ds))
           (take (Z.to_nat i) b ++ map (u8 ∘ digit) ds ++ drop (Z.to_nat i + length ds) b)
    else Fault (BufferOverflow (Z.of_nat (length b))).
Proof.
  revert a i b. induction n as [|n IH]; intros a i b Ha Hi.
  - cbn in Ha. assert (a = 0) as -> by lia. cbn. rewrite decide_True by lia.
    rewrite Nat.add_0_r, Z.add_0_r, take_drop. done.
  - remember (S n) as fuel. cbn [digits_loop digits_lsb]. subst fuel. cbn [digits_lsb].
    destruct (Z.ltb_spec 0 a).
    2:{ cbn. rewrite decide_True by lia. by rewrite Nat.add_0_r, Z.add_0_r, take_drop. }
    rewrite Z.rem_mod_nonneg, Z.quot_div_nonneg by lia. unfold bind.
    set (ds := digits_lsb n base (a / base)). cbn [length].
    destruct (decide (i < Z.of_nat (length b))) as [Hlt|Hge].
    2:{ rewrite buf_set_out by lia. cbn zeta. by rewrite decide_False by lia. }
    rewrite buf_set_in by lia.
    assert (0 ≤ a / base < 2 ^ Z.of_nat n).
    { rewrite Nat2Z.inj_succ, Z.pow_succ_r in Ha by lia. split.
      - apply Z.div_pos; lia.
      - apply Z.div_lt_upper_bound; nia. }
    rewrite IH by (rewrite ?length_insert; lia). fold ds. rewrite length_insert. cbn zeta.
    replace (Z.to_nat (i + 1)) with (S (Z.to_nat i)) by lia.
    destruct (decide (S (Z.to_nat i) + length ds ≤ length b)%nat);
      [rewrite decide_True by lia|by rewrite decide_False by lia].
    f_equal; [lia|]. rewrite insert_take_drop by lia.
    rewrite take_app, drop_app, length_take_le by lia.
    rewrite take_take, Nat.min_r by lia.
    replace (S (Z.to_nat i) - Z.to_nat i)%nat with 1%nat by lia.
    replace (S (Z.to_nat i) + length ds - Z.to_nat i)%nat with (S (length ds)) by lia.
    rewrite (drop_ge (take _ _)) by (rewrite length_take; lia).
    cbn. rewrite take_0, <- app_assoc, drop_drop. cbn.
    do 4 f_equal. lia.
Qed.
End Loops.

Lemma nth_insert (b : cbuf) i j x :
  (j < length b)%nat → nth j (<[i := x]> b) 0 = if decide (i = j) then x else nth j b 0.
Proof.
  intros Hj. rewrite !nth_lookup. case_decide as E; [subst i|].
  - by rewrite list_lookup_insert_eq.
  - by rewrite list_lookup_insert_ne.
Qed.

(** The swaps reverse the first [i] characters. *)
Lemma reverse_loop_spec n b :
  (n ≤ length b)%nat → Forall (λ c, 0 ≤ c < 2 ^ 8) (take n b) →
  reverse_loop (Z.of_nat n) b = Ret tt (rev (take n b) ++ drop n b).
Proof.
  intros Hn Hbytes. unfold reverse_loop.
  assert (Hu8 : ∀ j, (j < n)%nat → u8 (nth j b 0) = nth j b 0).
  { intros j Hj. apply Z.mod_small. rewrite nth_lookup.
    destruct (b !! j) as [c|] eqn:E; cbn; [|lia].
    eapply (Forall_lookup_1 (λ c, 0 ≤ c < 2 ^ 8)); [exact Hbytes|]. by rewrite lookup_take_lt. }
  set (body := λ i1, _).
  set (I := λ (k : Z) (b' : cbuf), length b' = length b ∧
    ∀ j, (j < length b)%nat →
      nth j b' 0 = if decide ((Z.of_nat j < k ∨ Z.of_nat n - k ≤ Z.of_nat j) ∧ (j < n)%nat)
                   then nth (n - 1 - j) b 0 else nth j b 0).
  set (h := Z.quot (Z.of_nat n) 2).
  assert (0 ≤ h ∧ 2 * h ≤ Z.of_nat n ≤ 2 * h + 1).
  { unfold h. rewrite Z.quot_div_nonneg by lia. Z.div_mod_to_equations. lia. }
  destruct (wp_elim (for_range (Z.to_nat h) 0 body) b
              (λ _ b', I (0 + Z.of_nat (Z.to_nat h)) b')) as ([] & b' & -> & [Hlen HI]).
  { apply (wp_for_range body I).
    - split; [done|]. intros j Hj. by rewrite decide_False by lia.
    - intros k b' Hk [Hlen HI]. unfold body.
      eapply wp_bind, wp_intro; [apply buf_get_in; lia|].
      eapply wp_bind, wp_intro; [apply buf_get_in; lia|].
      eapply wp_bind, wp_intro; [apply buf_set_in; lia|].
      eapply wp_intro; [apply buf_set_in; rewrite length_insert; lia|].
      split; [by rewrite !length_insert|]. intros j Hj.
      rewrite !nth_insert by (rewrite ?length_insert; lia). rewrite !HI by lia.
      repeat case_decide; try lia; rewrite ?Hu8 by lia; f_equal; lia. }
  f_equal. apply list_eq. intros j. destruct (decide (j < length b)%nat) as [Hj|Hj].
  2:{ rewrite !lookup_ge_None_2; [done|..];
        rewrite ?length_app, ?length_rev, ?length_take, ?length_drop; lia. }
  assert (∀ l, length l = length b → l !! j = Some (nth j l 0)) as Hnth.
  { intros l Hl. destruct (nth_lookup_or_length l j 0); [done|lia]. }
  rewrite Hnth by done.
  rewrite Hnth by (rewrite length_app, length_rev, length_take, length_drop; lia).
  f_equal. rewrite HI by done. destruct (decide (j < n)%nat).
  - rewrite app_nth1 by (rewrite length_rev, length_take; lia).
    rewrite rev_nth, length_take by (rewrite length_take; lia).
    replace (n `min` length b - S j)%nat with (n - 1 - j)%nat by lia.
    rewrite (nth_lookup (take n b)), lookup_take_lt, <- nth_lookup by lia.
    case_decide; [done|]. f_equal. lia.
  - rewrite decide_False by lia.
    rewrite app_nth2, length_rev, length_take by (rewrite length_rev, length_take; lia).
    rewrite (nth_lookup (drop n b)), lookup_drop, <- nth_lookup. f_equal. lia.
Qed.

(** ** Conversion to a string *)

Section ToString.
Context (base : Z) (digit : Z → Z) (Hbase : 2 ≤ base).
Context (Hdigit : ∀ d, 0 ≤ d < base → 0 < digit d < 2 ^ 8) (Hzero : digit 0 = 48).

Lemma numeral_digits a : Forall (λ d, 0 ≤ d < base) (numeral base a).
Proof.
  unfold numeral. destruct (a =? 0).
  - constructor; [lia|done].
  - apply Forall_rev, digits_lsb_bound; lia.
Qed.

Lemma numeral_value a : 0 ≤ a < 2 ^ 31 → value_of base (numeral base a) = a.
Proof.
  intros Ha. unfold numeral. destruct (Z.eqb_spec a 0) as [->|]; [done|].
  by apply digits_lsb_value.
Qed.

Lemma digits_lsb_length_le fuel a k :
  0 ≤ a < base ^ Z.of_nat k → (length (digits_lsb fuel base a) ≤ k)%nat.
Proof.
  revert a k. induction fuel as [|fuel IH]; intros a k Ha; cbn; [lia|].
  destruct (Z.ltb_spec 0 a); cbn; [|lia]. destruct k as [|k]; [cbn in Ha; lia|].
  enough (length (digits_lsb fuel base (a / base)) ≤ k)%nat by lia. apply IH.
  rewrite Nat2Z.inj_succ, Z.pow_succ_r in Ha by lia. split.
  - apply Z.div_pos; lia.
  - apply Z.div_lt_upper_bound; lia.
Qed.

Lemma value_of_bound ds :
  Forall (λ d, 0 ≤ d < base) ds → 0 ≤ value_of base ds < base ^ Z.of_nat (length ds).
Proof.
  unfold value_of. induction ds as [|d ds IH] using rev_ind; intros Hds; [cbn; lia|].
  apply Forall_app in Hds as [Hds [Hd _]%Forall_cons].
  rewrite fold_left_app, length_app, Nat2Z.inj_add, Z.pow_add_r by lia.
  cbn [fold_left length]. rewrite Z.pow_1_r. specialize (IH Hds).
  generalize dependent (base ^ Z.of_nat (length ds)). intros P ?. nia.
Qed.

(** The length of a numeral is the number of digits it needs. *)
Lemma numeral_length a (k : nat) :
  0 ≤ a < 2 ^ 31 → (0 < k)%nat →
  (length (numeral base a) ≤ k)%nat ↔ a < base ^ Z.of_nat k.
Proof.
  intros Ha Hk. split.
  - intros Hl. pose proof (value_of_bound _ (numeral_digits a)) as Hv.
    rewrite numeral_value in Hv by done.
    enough (base ^ Z.of_nat (length (numeral base a)) ≤ base ^ Z.of_nat k) by lia.
    apply Z.pow_le_mono_r; lia.
  - intros Hlt. unfold numeral. destruct (a =? 0); [cbn; lia|].
    rewrite length_rev. apply digits_lsb_length_le. lia.
Qed.

Lemma numeral_chars a :
  Forall (λ c, 0 < c < 2 ^ 8) (map digit (numeral base a)).
Proof. apply Forall_map. eapply Forall_impl; [apply numeral_digits|]. cbn. auto. Qed.

Lemma map_u8_digit ds :
  Forall (λ d, 0 ≤ d < base) ds → map (u8 ∘ digit) ds = map digit ds.
Proof.
  induction 1 as [|d ds Hd _ IH]; [done|]. cbn. rewrite IH. f_equal.
  unfold u8. apply Z.mod_small. specialize (Hdigit d Hd). lia.
Qed.

Lemma to_string_spec a b :
  0 ≤ a < 2 ^ 31 →
  (if a =? 0 then buf_set 0 48 ;! buf_set 1 0
   else let! i := digits_loop 32 base digit a 0 in reverse_loop i ;! buf_set i 0) b =
  if decide (length (numeral base a) < length b)%nat
  then Ret tt (map digit (numeral base a) ++ 0 :: drop (S (length (numeral base a))) b)
  else Fault (BufferOverflow (Z.of_nat (length b))).
Proof.
  intros Ha. unfold numeral. destruct (Z.eqb_spec a 0) as [->|Hne].
  - unfold bind. cbn [map length]. rewrite Hzero.
    destruct b as [|x [|y b]]; [done..|].
    rewrite decide_True by (cbn; lia). rewrite buf_set_in by (cbn [length]; lia).
    by rewrite buf_set_in by (rewrite length_insert; cbn [length]; lia).
  - unfold bind. rewrite digits_loop_spec by (cbn; lia). cbn zeta.
    pose proof (digits_lsb_bound base Hbase 31 a) as Hds.
    generalize dependent (digits_lsb 31 base a). intros ds Hds.
    rewrite length_rev, (map_u8_digit ds Hds). change (Z.to_nat 0) with 0%nat.
    rewrite Nat.add_0_l, take_0, Z.add_0_l. cbn [app].
    destruct (decide (length ds ≤ length b)%nat); [|by rewrite decide_False by lia].
    assert (Hlen : length (map digit ds) = length ds) by apply length_map.
    rewrite reverse_loop_spec.
    2:{ rewrite length_app, Hlen, length_drop. lia. }
    2:{ rewrite take_app_length' by done. apply Forall_map. eapply Forall_impl; [exact Hds|].
        cbn. intros d Hd%Hdigit. lia. }
    rewrite take_app_length', drop_app_length' by done.
    destruct (decide (length ds < length b)%nat).
    + rewrite buf_set_in by (rewrite length_app, length_rev, Hlen, length_drop; lia).
      f_equal. rewrite insert_app_r_alt by (rewrite length_rev, Hlen; lia).
      rewrite length_rev, Hlen. replace (Z.to_nat (Z.of_nat (length ds)) - length ds)%nat with 0%nat by lia.
      rewrite List.map_rev. f_equal.
      rewrite <- (Nat.add_1_r (length ds)), <- drop_drop.
      destruct (drop (length ds) b) as [|x r] eqn:E; [|done].
      apply (f_equal length) in E. rewrite length_drop in E. change (length []) with 0%nat in E. lia.
    + rewrite buf_set_out by (rewrite length_app, length_rev, Hlen, length_drop; lia).
      rewrite length_app, length_rev, Hlen, length_drop. do 2 f_equal. lia.
Qed.
End ToString.

Lemma itoa_spec a b :
  0 ≤ a < 2 ^ 31 →
  itoa a b =
    if decide (length (numeral 10 a) < length b)%nat
    then Ret tt (map (λ d, d + 48) (numeral 10 a) ++ 0 :: drop (S (length (numeral 10 a))) b)
    else Fault (BufferOverflow (Z.of_nat (length b))).
Proof. intros Ha. apply (to_string_spec 10 (λ d, d + 48)); [lia|intros; lia|done|done]. Qed.

Definition hex_digit (d : Z) : Z := nth (Z.to_nat d) hex 0.

Lemma hex_digit_range d : 0 ≤ d < 16 → 0 < hex_digit d < 2 ^ 8.
Proof.
  intros Hd. unfold hex_digit.
  replace d with (Z.of_nat (Z.to_nat d)) in * by lia. generalize dependent (Z.to_nat d).
  intros n Hn. rewrite Nat2Z.id. do 16 (destruct n as [|n]; [cbn; lia|]). lia.
Qed.

Lemma itoa_hex_spec a b :
  0 ≤ a < 2 ^ 31 →
  itoa_hex a b =
    if decide (length (numeral 16 a) < length b)%nat
    then Ret tt (map hex_digit (numeral 16 a) ++ 0 :: drop (S (length (numeral 16 a))) b)
    else Fault (BufferOverflow (Z.of_nat (length b))).
Proof. intros Ha. apply (to_string_spec 16 hex_digit); [lia|apply hex_digit_range|done|done]. Qed.

(** strlen finds the first NUL. *)
Lemma strlen_loop_spec b fuel (i : nat) :
  0 ∈ drop i b → (length b - i < fuel)%nat →
  strlen_loop fuel (Z.of_nat i) b = Ret (Z.of_nat i + Z.of_nat (length (cstr (drop i b)))) b.
Proof.
  revert i. induction fuel as [|fuel IH]; intros i Hin Hfuel; [lia|].
  cbn [strlen_loop]. unfold bind.
  destruct (drop i b) as [|c r] eqn:E; [by apply not_elem_of_nil in Hin|].
  pose proof (f_equal length E) as Hl. rewrite length_drop in Hl. cbn in Hl.
  rewrite buf_get_in by lia. rewrite Nat2Z.id.
  assert (nth i b 0 = c) as ->.
  { rewrite nth_lookup. replace i with (i + 0)%nat by lia. rewrite <- lookup_drop, E. done. }
  cbn [cstr]. destruct (Z.eqb_spec c 0) as [->|Hc].
  - cbn. by rewrite Z.add_0_r.
  - replace (Z.of_nat i + 1) with (Z.of_nat (S i)) by lia.
    assert (Er : drop (S i) b = r) by (rewrite <- (Nat.add_1_r i), <- drop_drop, E; done).
    rewrite IH, Er.
    + f_equal. cbn [length]. lia.
    + rewrite Er. apply elem_of_cons in Hin as [|]; [lia|done].
    + lia.
Qed.

(** ** What the conversions guarantee *)

Lemma cstr_numeral base digit a b n :
  2 ≤ base → (∀ d, 0 ≤ d < base → 0 < digit d < 2 ^ 8) →
  cstr (map digit (numeral base a) ++ 0 :: drop n b) = map digit (numeral base a).
Proof.
  intros Hb Hd. apply cstr_app. eapply Forall_impl; [by apply numeral_chars|].
  cbn. intros c. lia.
Qed.

(** C40. Printing then reading back: for every non-negative [int], itoa leaves in
    a large enough array a NUL-terminated string of decimal digits, with no
    leading zero, that denotes the number, and touches nothing past it. *)
Theorem itoa_roundtrip a b :
  0 ≤ a < 2 ^ 31 → (length (numeral 10 a) < length b)%nat →
  ∃ b', itoa a b = Ret tt b' ∧
    Forall (λ c, 48 ≤ c ≤ 57) (cstr b') ∧
    value_of 10 (map (λ c, c - 48) (cstr b')) = a ∧
    (head (cstr b') = Some 48 → a = 0) ∧
    drop (S (length (cstr b'))) b' = drop (S (length (cstr b'))) b.
Proof.
  intros Ha Hlen. eexists. split; [by rewrite itoa_spec, decide_True|].
  rewrite cstr_numeral by lia. rewrite map_map.
  rewrite (map_ext (λ x, x + 48 - 48) (λ d, d)), map_id by (intros; lia).
  split_and!.
  - apply Forall_map. eapply Forall_impl; [by apply (numeral_digits 10)|]. cbn. lia.
  - by apply numeral_value.
  - unfold numeral. destruct (Z.eqb_spec a 0) as [|Hne]; [done|]. intros Hh. exfalso.
    rewrite List.map_rev, rev_alt in Hh.
    change (head (reverse (map (λ d, d + 48) (digits_lsb 31 10 a))) = Some 48) in Hh.
    rewrite head_reverse in Hh.
    change (last ((λ d, d + 48) <$> digits_lsb 31 10 a) = Some 48) in Hh. rewrite fmap_last in Hh.
    destruct (last (digits_lsb 31 10 a)) as [d|] eqn:E; [|done].
    cbn in Hh. injection Hh as Hh. apply digits_lsb_last in E; lia.
  - rewrite length_map. set (n := length (numeral 10 a)).
    rewrite cons_middle, app_assoc, drop_app_length'; [done|].
    rewrite length_app, length_map. cbn. lia.
Qed.

Lemma itoa_roundtrip_witness :
  ∃ b', itoa 407 (replicate 4 0) = Ret tt b' ∧
    Forall (λ c, 48 ≤ c ≤ 57) (cstr b') ∧
    value_of 10 (map (λ c, c - 48) (cstr b')) = 407 ∧
    (head (cstr b') = Some 48 → 407 = 0) ∧
    drop (S (length (cstr b'))) b' = drop (S (length (cstr b'))) (replicate 4 0).
Proof. apply itoa_roundtrip; [lia|vm_compute; lia]. Defined.

(** The array itoa needs: one place per decimal digit and one for the NUL.
    A number of more digits than the array has room for is written past its
    end: with [char buff[n]], exactly the numbers from [10^(n-1)] up. *)
Theorem itoa_overflow a b :
  0 ≤ a < 2 ^ 31 → (2 ≤ length b)%nat →
  itoa a b = Fault (BufferOverflow (Z.of_nat (length b))) ↔
  10 ^ (Z.of_nat (length b) - 1) ≤ a.
Proof.
  intros Ha Hb. rewrite itoa_spec by done.
  pose proof (numeral_length 10 ltac:(lia) a (length b - 1) Ha ltac:(lia)) as Hn.
  rewrite Nat2Z.inj_sub in Hn by lia.
  case_decide; split; try done; intros; [|f_equal]; lia.
Qed.

Lemma itoa_overflow_witness :
  itoa 100 [0; 0; 0] = Fault (BufferOverflow 3) ∧ 10 ^ (3 - 1) ≤ 100.
Proof. split; [apply (itoa_overflow 100 [0; 0; 0]); cbn; lia|lia]. Defined.

(** itoa_hex prints the hexadecimal numeral of every non-negative [int]
    that fits the array, and [strlen] measures it. *)
Theorem itoa_hex_correct a b :
  0 ≤ a < 2 ^ 31 → (length (numeral 16 a) < length b)%nat →
  ∃ b', itoa_hex a b = Ret tt b' ∧
    cstr b' = map hex_digit (numeral 16 a) ∧ value_of 16 (numeral 16 a) = a ∧
    strlen b' = Ret (Z.of_nat (length (numeral 16 a))) b'.
Proof.
  intros Ha Hlen. eexists. split; [by rewrite itoa_hex_spec, decide_True|].
  rewrite cstr_numeral by (lia || apply hex_digit_range).
  split_and!; [done|by apply numeral_value|].
  unfold strlen. rewrite (strlen_loop_spec _ _ 0).
  - change (drop 0 ?l) with l. rewrite cstr_numeral by (lia || apply hex_digit_range).
    by rewrite length_map.
  - change (drop 0 ?l) with l. rewrite elem_of_app, elem_of_cons. auto.
  - lia.
Qed.

Lemma itoa_hex_correct_witness :
  ∃ b', itoa_hex 48879 (replicate 5 0) = Ret tt b' ∧
    cstr b' = map hex_digit (numeral 16 48879) ∧ value_of 16 (numeral 16 48879) = 48879 ∧
    strlen b' = Ret (Z.of_nat (length (numeral 16 48879))) b'.
Proof. apply itoa_hex_correct; [lia|vm_compute; lia]. Defined.

(** Negative numbers leave the empty string: no sign, no digits. *)
Lemma itoa_negative a b : a < 0 → (0 < length b)%nat → itoa a b = Ret tt (<[0%nat := 0]> b).
Proof.
  intros Ha Hb. unfold itoa. destruct (Z.eqb_spec a 0); [lia|]. unfold bind.
  cbn [digits_loop]. destruct (Z.ltb_spec 0 a); [lia|].
  change (buf_set 0 0 b = Ret tt (<[0%nat := 0]> b)). by rewrite buf_set_in by lia.
Qed.
