(* ===== verification/Console.v ===== *)
(** io.c and devices.c: the text screen, the cursor, and the writes to them. *)

From S2P Require Import Prelude.
From Stdlib Require Import Strings.Ascii.
From stdpp Require Import strings.

#[local] Open Scope Z_scope.

Definition NUM_COLUMNS : Z := 80.
Definition NUM_ROWS : Z := 25.

(** The cursor ([Byte x, y]), the words of the video memory at 0xb8000, and
    the characters sent to the debug port 0xe9. *)
Record console : Type := Console {
  cur_x : Z;
  cur_y : Z;
  screen : gmap Z Z;
  port_e9 : list Z;
}.

(** [Byte x, y=19;] *)
Definition console_init : console := Console 0 19 ∅ [].

Definition newline (k : console) : console :=
  Console 0 (u8 (Z.rem (cur_y k + 1) NUM_ROWS)) (screen k) (port_e9 k).

Definition printc (c : Z) (k : console) : console :=
  let k := Console (cur_x k) (cur_y k) (screen k) (port_e9 k ++ [c]) in
  if c =? 10 then newline k
  else
    let ch := Z.lor (u16 (Z.land c 0x00FF)) 0x0200 in
    let screen' := <[cur_y k * NUM_COLUMNS + cur_x k := ch]> (screen k) in
    let x' := u8 (cur_x k + 1) in
    let k' := Console x' (cur_y k) screen' (port_e9 k) in
    if NUM_COLUMNS <=? x' then newline k' else k'.

Definition printc_xy (mx my c : Z) (k : console) : console :=
  let k' := printc c (Console mx my (screen k) (port_e9 k)) in
  Console (cur_x k) (cur_y k) (screen k') (port_e9 k').

(** [for (i = 0; string[i]; i++) printc(string[i]);] on the array the string
    starts; an array without a NUL is read past its end. *)
Fixpoint printk (string : list Z) : M console unit :=
  match string with
  | [] => fail (OutOfBounds 0)
  | c :: rest => if c =? 0 then ret tt else modify (printc c) ;! printk rest
  end.

(** A string literal, with its NUL. *)
Definition literal (s : string) : list Z :=
  List.map (λ a, Z.of_N (N_of_ascii a)) (String.list_ascii_of_string s) ++ [0].

(** [for (i=0; i<size; i++) printc(buffer[i]);] *)
Fixpoint write_loop (n : nat) (i : nat) (buffer : list Z) : M console unit :=
  match n with
  | O => ret tt
  | Datatypes.S n' =>
      match buffer !! i with
      | Some c => modify (printc c) ;! write_loop n' (S i) buffer
      | None => fail (OutOfBounds (Z.of_nat i))
      end
  end.

Definition sys_write_console (buffer : list Z) (size : Z) : M console Z :=
  write_loop (Z.to_nat size) 0 buffer ;! ret size.

Example printk_hi :
  wp (printk (literal "hi")) console_init
    (λ _ k, cur_x k = 2 ∧ screen k !! 1521 = Some 0x269).
Proof. vm_compute. done. Qed.

(** ** The cursor stays on the screen *)

Definition cursor_ok (k : console) : Prop :=
  0 ≤ cur_x k < NUM_COLUMNS ∧ 0 ≤ cur_y k < NUM_ROWS.

Definition on_screen (i : Z) : Prop := 0 ≤ i < NUM_COLUMNS * NUM_ROWS.

(** [k'] is what printing leaves of [k]: a cursor on the screen, and nothing
    written outside the video memory. *)
Definition prints (k k' : console) : Prop :=
  cursor_ok k' ∧ (∀ i, ¬ on_screen i → screen k' !! i = screen k !! i).

Definition position (k : console) : Z := cur_y k * NUM_COLUMNS + cur_x k.

Lemma rem_rows y : 0 ≤ y < NUM_ROWS →
  u8 (Z.rem (y + 1) NUM_ROWS) = if y =? 24 then 0 else y + 1.
Proof.
  unfold NUM_ROWS, u8. intros Hy. destruct (Z.eqb_spec y 24) as [->|]; [done|].
  rewrite Z.rem_small, Z.mod_small by lia. done.
Qed.

(** One character: a newline starts the next row, anything else is written
    green on black at the cursor, which moves on; the last row is followed by
    the first. *)
Lemma printc_spec c k :
  cursor_ok k →
  cursor_ok (printc c k) ∧
  (if c =? 10
   then screen (printc c k) = screen k ∧
        position (printc c k) = ((cur_y k + 1) mod NUM_ROWS) * NUM_COLUMNS
   else screen (printc c k) = <[position k := Z.lor (u8 c) 0x200]> (screen k) ∧
        position (printc c k) = (position k + 1) mod (NUM_COLUMNS * NUM_ROWS)).
Proof.
  intros [Hx Hy]. unfold printc. cbn [cur_x cur_y screen port_e9].
  assert (Hrow : (if cur_y k =? 24 then 0 else cur_y k + 1) = (cur_y k + 1) mod NUM_ROWS).
  { unfold NUM_ROWS in *. destruct (Z.eqb_spec (cur_y k) 24) as [->|]; [done|].
    by rewrite Z.mod_small by lia. }
  destruct (Z.eqb_spec c 10).
  - unfold newline, cursor_ok, position. cbn [cur_x cur_y screen]. rewrite rem_rows, Hrow by done.
    unfold NUM_COLUMNS, NUM_ROWS in *.
    split_and!; try done; try lia; Z.div_mod_to_equations; lia.
  - assert (u8 (cur_x k + 1) = cur_x k + 1) as ->
      by (unfold u8, NUM_COLUMNS in *; apply Z.mod_small; lia).
    assert (u16 (Z.land c 255) = u8 c) as ->.
    { unfold u16, u8. change 255 with (Z.ones 8). rewrite Z.land_ones by lia.
      apply Z.mod_small. pose proof (Z.mod_pos_bound c (2 ^ 8)). lia. }
    destruct (Z.leb_spec NUM_COLUMNS (cur_x k + 1)).
    + unfold newline, cursor_ok, position. cbn [cur_x cur_y screen].
      rewrite rem_rows, Hrow by done.
      unfold NUM_COLUMNS, NUM_ROWS in *.
      split_and!; try done; try lia; Z.div_mod_to_equations; lia.
    + unfold cursor_ok, position. cbn [cur_x cur_y screen].
      unfold NUM_COLUMNS, NUM_ROWS in *. rewrite Z.mod_small by lia.
      split_and!; try done; lia.
Qed.

Lemma position_on_screen k : cursor_ok k → on_screen (position k).
Proof. unfold cursor_ok, on_screen, position, NUM_COLUMNS, NUM_ROWS. lia. Qed.

Lemma printc_prints c k : cursor_ok k → prints k (printc c k).
Proof.
  intros Hk. destruct (printc_spec c k Hk) as [Hok Hs]. split; [done|]. intros i Hi.
  destruct (c =? 10); destruct Hs as [-> _]; [done|].
  rewrite lookup_insert_ne; [done|]. intros <-. by apply Hi, position_on_screen.
Qed.

Lemma prints_trans k1 k2 k3 : prints k1 k2 → prints k2 k3 → prints k1 k3.
Proof. intros [_ H1] [Hok H2]. split; [done|]. intros i Hi. by rewrite H2, H1. Qed.

Lemma printc_xy_prints mx my c k :
  cursor_ok k → 0 ≤ mx < NUM_COLUMNS → 0 ≤ my < NUM_ROWS → prints k (printc_xy mx my c k).
Proof.
  intros Hk Hx Hy.
  destruct (printc_prints c (Console mx my (screen k) (port_e9 k))) as [_ Hs]; [done|].
  split; [exact Hk|]. exact Hs.
Qed.

Lemma wp_printk s k :
  cursor_ok k → 0 ∈ s → wp (printk s) k (λ _ k', prints k k').
Proof.
  revert k. induction s as [|c s IH]; intros k Hk Hin; [by apply not_elem_of_nil in Hin|].
  cbn [printk]. destruct (Z.eqb_spec c 0).
  - apply wp_ret. split; [done|]. auto.
  - apply elem_of_cons in Hin as [|Hin]; [lia|]. apply wp_bind, wp_modify.
    pose proof (printc_prints c k Hk) as Hp.
    eapply wp_mono; [apply IH; [apply Hp|done]|]. intros [] k' Hk'. by eapply prints_trans.
Qed.

Lemma wp_write_loop n i buffer k :
  cursor_ok k → (i + n ≤ length buffer)%nat →
  wp (write_loop n i buffer) k (λ _ k', prints k k').
Proof.
  revert i k. induction n as [|n IH]; intros i k Hk Hlen; cbn [write_loop].
  - apply wp_ret. split; [done|]. auto.
  - destruct (lookup_lt_is_Some_2 buffer i ltac:(lia)) as [c ->].
    apply wp_bind, wp_modify. pose proof (printc_prints c k Hk) as Hp.
    eapply wp_mono; [apply IH; [apply Hp|lia]|]. intros [] k' Hk'. by eapply prints_trans.
Qed.

Lemma literal_nul s : 0 ∈ literal s.
Proof. unfold literal. rewrite elem_of_app, list_elem_of_singleton. auto. Qed.

(** ** What reaches the screen *)

(** The console after a text. *)
Definition show (t : list Z) (k : console) : console := foldl (λ k c, printc c k) k t.

Lemma write_loop_show n i buffer k :
  (i + n ≤ length buffer)%nat → write_loop n i buffer k = Ret tt (show (take n (drop i buffer)) k).
Proof.
  revert i k. induction n as [|n IH]; intros i k Hlen; cbn [write_loop]; [done|].
  destruct (lookup_lt_is_Some_2 buffer i ltac:(lia)) as [c Hc]. rewrite Hc. rewrite (drop_S _ _ _ Hc).
  unfold bind, modify. rewrite IH by lia. done.
Qed.

Lemma show_cursor t k : cursor_ok k → cursor_ok (show t k).
Proof.
  revert k. induction t as [|c t IH]; intros k Hk; [done|]. apply (IH (printc c k)). by apply printc_spec.
Qed.

(** The cells a run of printable characters fills, from position [p] on. *)
Fixpoint put_chars (p : Z) (cs : list Z) (scr : gmap Z Z) : gmap Z Z :=
  match cs with
  | [] => scr
  | c :: cs' =>
      put_chars ((p + 1) mod (NUM_COLUMNS * NUM_ROWS)) cs' (<[p := Z.lor (u8 c) 0x200]> scr)
  end.

Lemma write_loop_puts buffer n i cs k :
  cursor_ok k → take n (drop i buffer) = cs → length cs = n → Forall (λ c, c ≠ 10) cs →
  wp (write_loop n i buffer) k (λ _ k',
    screen k' = put_chars (position k) cs (screen k) ∧
    port_e9 k' = port_e9 k ++ cs ∧ cursor_ok k' ∧
    position k' = (position k + Z.of_nat n) mod (NUM_COLUMNS * NUM_ROWS)).
Proof.
  revert i cs k. induction n as [|n IH]; intros i cs k Hk Hcs Hlen Hnl.
  - destruct cs; [|done]. apply wp_ret. cbn. rewrite app_nil_r, Z.add_0_r.
    split_and!; [done..|]. symmetry. apply Z.mod_small. by apply position_on_screen.
  - destruct cs as [|c cs]; [done|]. cbn [write_loop].
    assert (Hc : buffer !! i = Some c).
    { rewrite <- (Nat.add_0_r i), <- lookup_drop.
      destruct (drop i buffer); [done|]. cbn in Hcs. by injection Hcs as ->. }
    rewrite Hc. apply wp_bind, wp_modify. apply Forall_cons in Hnl as [Hc10 Hnl].
    destruct (printc_spec c k Hk) as [Hok Hs].
    destruct (Z.eqb_spec c 10) as [|_]; [done|]. destruct Hs as [Hscr Hpos].
    eapply wp_mono; [apply (IH (S i) cs); [done| |by injection Hlen|done]|].
    { rewrite <- (Nat.add_1_r i), <- drop_drop. destruct (drop i buffer); [done|].
      cbn in *. by injection Hcs. }
    intros [] k' (Hscr' & He9 & Hok' & Hpos'). rewrite Hscr', He9, Hpos', Hscr, Hpos.
    split_and!; [done| |done|].
    + unfold printc. destruct (Z.eqb_spec c 10); [done|].
      destruct (NUM_COLUMNS <=? _); cbn; by rewrite <- app_assoc.
    + rewrite Zplus_mod_idemp_l. f_equal. lia.
Qed.

(** Whatever a process writes, the kernel prints every byte of it, returns
    the size, keeps the cursor on the 80x25 screen and writes no word outside
    the video memory. *)
Theorem write_console_on_screen buffer size k :
  cursor_ok k → 0 ≤ size ≤ Z.of_nat (length buffer) →
  ∃ k', sys_write_console buffer size k = Ret size k' ∧ prints k k'.
Proof.
  intros Hk Hs.
  destruct (wp_elim _ _ _ (wp_write_loop (Z.to_nat size) 0 buffer k Hk ltac:(lia)))
    as ([] & k' & E & Hp).
  exists k'. split; [|done]. unfold sys_write_console, bind. by rewrite E.
Qed.

Lemma write_console_on_screen_witness :
  ∃ k', sys_write_console [72; 10; 105] 3 console_init = Ret 3 k' ∧ prints console_init k'.
Proof.
  apply write_console_on_screen; [|cbn; lia].
  unfold cursor_ok, NUM_COLUMNS, NUM_ROWS. cbn. lia.
Defined.

(** A text without newlines lands on consecutive cells from the cursor on,
    wrapping from the last cell of the screen to the first, and the cursor
    ends right after it. *)
Theorem write_console_text buffer size k :
  cursor_ok k → 0 ≤ size ≤ Z.of_nat (length buffer) →
  Forall (λ c, c ≠ 10) (take (Z.to_nat size) buffer) →
  ∃ k', sys_write_console buffer size k = Ret size k' ∧
    screen k' = put_chars (position k) (take (Z.to_nat size) buffer) (screen k) ∧
    port_e9 k' = port_e9 k ++ take (Z.to_nat size) buffer ∧
    position k' = (position k + size) mod (NUM_COLUMNS * NUM_ROWS).
Proof.
  intros Hk Hs Hnl.
  destruct (wp_elim _ _ _ (write_loop_puts buffer (Z.to_nat size) 0 _ k Hk eq_refl
              ltac:(rewrite length_take, length_drop; lia) Hnl))
    as ([] & k' & E & Hscr & He9 & _ & Hpos).
  exists k'. split; [unfold sys_write_console, bind; by rewrite E|].
  rewrite Z2Nat.id in Hpos by lia. done.
Qed.

Lemma write_console_text_witness :
  ∃ k', sys_write_console [72; 105] 2 console_init = Ret 2 k' ∧
    screen k' = put_chars (position console_init) (take (Z.to_nat 2) [72; 105]) (screen console_init) ∧
    port_e9 k' = port_e9 console_init ++ take (Z.to_nat 2) [72; 105] ∧
    position k' = (position console_init + 2) mod (NUM_COLUMNS * NUM_ROWS).
Proof.
  apply write_console_text; [|cbn; lia|repeat constructor; done].
  unfold cursor_ok, NUM_COLUMNS, NUM_ROWS. cbn. lia.
Defined.
