(* ===== verification/Frames.v ===== *)
(** The physical frames of mm.c: the byte map [phys_mem] and its allocator. *)

From S2P Require Import Prelude.

Definition TOTAL_PAGES : Z := 1024.
Definition NUM_PAG_KERNEL : Z := 256.
Definition FREE_FRAME : Z := 0.
Definition USED_FRAME : Z := 1.

(** [Byte phys_mem[TOTAL_PAGES]] *)
Abbreviation frame_map := (list Z).

Definition pm_get (pm : frame_map) (i : Z) : Z := nth (Z.to_nat i) pm FREE_FRAME.
Definition pm_set (pm : frame_map) (i v : Z) : frame_map := <[Z.to_nat i := v]> pm.

(** [for (i=lo; i<hi; i++) phys_mem[i] = v;] *)
Fixpoint fill (n : nat) (i v : Z) (pm : frame_map) : frame_map :=
  match n with
  | O => pm
  | Datatypes.S n' => fill n' (i + 1) v (pm_set pm i v)
  end.

Definition init_frames (pm : frame_map) : frame_map :=
  let pm := fill (Z.to_nat TOTAL_PAGES) 0 FREE_FRAME pm in
  fill (Z.to_nat NUM_PAG_KERNEL) 0 USED_FRAME pm.

(** The search of alloc_frame; every second frame is looked at. *)
Fixpoint alloc_loop (fuel : nat) (i : Z) (pm : frame_map) : Z * frame_map :=
  match fuel with
  | O => (-1, pm)
  | Datatypes.S fuel' =>
      if i <? TOTAL_PAGES then
        if pm_get pm i =? FREE_FRAME then (i, pm_set pm i USED_FRAME)
        else alloc_loop fuel' (i + 2) pm
      else (-1, pm)
  end.

Definition alloc_frame (pm : frame_map) : Z * frame_map :=
  alloc_loop (Z.to_nat TOTAL_PAGES) NUM_PAG_KERNEL pm.

Definition free_frame (frame : Z) (pm : frame_map) : frame_map :=
  if (NUM_PAG_KERNEL <? frame) && (frame <? TOTAL_PAGES)
  then pm_set pm frame FREE_FRAME
  else pm.

(** ** The map *)

Definition pm_ok (pm : frame_map) : Prop := length pm = Z.to_nat TOTAL_PAGES.

(** The frames alloc_frame hands out. *)
Definition allocatable (f : Z) : Prop :=
  NUM_PAG_KERNEL ≤ f < TOTAL_PAGES ∧ Z.even f = true.

#[export] Instance allocatable_dec f : Decision (allocatable f).
Proof. unfold allocatable. apply _. Defined.

Lemma pm_get_set pm i j v :
  0 ≤ i < Z.of_nat (length pm) → 0 ≤ j →
  pm_get (pm_set pm i v) j = if decide (i = j) then v else pm_get pm j.
Proof.
  intros Hi Hj. unfold pm_get, pm_set. rewrite !nth_lookup. case_decide as E.
  - subst j. by rewrite list_lookup_insert_eq by lia.
  - by rewrite list_lookup_insert_ne by lia.
Qed.

Lemma pm_set_ok pm i v : pm_ok pm → pm_ok (pm_set pm i v).
Proof. unfold pm_ok, pm_set. by rewrite length_insert. Qed.

Lemma pm_ok_length pm : pm_ok pm → Z.of_nat (length pm) = TOTAL_PAGES.
Proof. unfold pm_ok. intros ->. done. Qed.

Lemma fill_ok n i v pm : pm_ok pm → pm_ok (fill n i v pm).
Proof. revert i pm. induction n as [|n IH]; intros i pm H; cbn; [done|]. by apply IH, pm_set_ok. Qed.

Lemma fill_get n i v pm j :
  pm_ok pm → 0 ≤ i → i + Z.of_nat n ≤ TOTAL_PAGES → 0 ≤ j →
  pm_get (fill n i v pm) j = if decide (i ≤ j < i + Z.of_nat n) then v else pm_get pm j.
Proof.
  revert i pm. induction n as [|n IH]; intros i pm Hok Hi Hn Hj; cbn [fill].
  - by rewrite decide_False by lia.
  - pose proof (pm_ok_length pm Hok). rewrite IH by (try apply pm_set_ok; done || lia).
    rewrite pm_get_set by lia. repeat case_decide; done || lia.
Qed.

Lemma init_frames_get pm f :
  pm_ok pm → 0 ≤ f < TOTAL_PAGES →
  pm_get (init_frames pm) f = if decide (f < NUM_PAG_KERNEL) then USED_FRAME else FREE_FRAME.
Proof.
  intros Hok Hf. unfold init_frames, TOTAL_PAGES, NUM_PAG_KERNEL in *.
  rewrite fill_get by (try apply fill_ok; done || lia). rewrite Z2Nat.id by lia.
  destruct (decide (f < 256)); [by rewrite decide_True by lia|].
  rewrite decide_False, fill_get, decide_True by (done || lia). done.
Qed.

(** ** The allocator *)

(** The first free frame at or after [i], two by two. *)
Lemma alloc_loop_spec fuel i pm :
  pm_ok pm → 0 ≤ i → TOTAL_PAGES - i ≤ 2 * Z.of_nat fuel →
  (alloc_loop fuel i pm = (-1, pm) ∧
     ∀ f, i ≤ f < TOTAL_PAGES → Z.even (f - i) = true → pm_get pm f ≠ FREE_FRAME) ∨
  (∃ f, alloc_loop fuel i pm = (f, pm_set pm f USED_FRAME) ∧
     i ≤ f < TOTAL_PAGES ∧ Z.even (f - i) = true ∧ pm_get pm f = FREE_FRAME ∧
     ∀ g, i ≤ g < f → Z.even (g - i) = true → pm_get pm g ≠ FREE_FRAME).
Proof.
  revert i. induction fuel as [|fuel IH]; intros i Hok Hi Hfuel.
  { left. split; [done|]. intros. lia. }
  cbn [alloc_loop]. destruct (Z.ltb_spec i TOTAL_PAGES) as [Hlt|Hge].
  2:{ left. split; [done|]. intros; lia. }
  assert (Hskip : pm_get pm i ≠ FREE_FRAME → ∀ g, i ≤ g → Z.even (g - i) = true →
            (i + 2 ≤ g → Z.even (g - (i + 2)) = true → pm_get pm g ≠ FREE_FRAME) →
            pm_get pm g ≠ FREE_FRAME).
  { intros Hu g Hg Hev Hrec. destruct (decide (g = i)) as [->|]; [done|]. apply Hrec.
    - apply Z.even_spec in Hev as [k Hk]. lia.
    - apply Z.even_spec in Hev as [k Hk]. apply Z.even_spec. exists (k - 1). lia. }
  destruct (Z.eqb_spec (pm_get pm i) FREE_FRAME) as [Hfree|Hused].
  - right. exists i. rewrite Z.sub_diag. split_and!; try done; intros; lia.
  - destruct (IH (i + 2) Hok ltac:(lia) ltac:(lia)) as [[E H]|(f & E & Hf & Hev & Hfr & H)].
    + left. split; [done|]. intros g Hg Hev. apply Hskip; [done|lia|done|].
      intros. apply H; [lia|done].
    + right. exists f. split_and!; try done; try lia.
      * apply Z.even_spec in Hev as [k Hk]. apply Z.even_spec. exists (k + 1). lia.
      * intros g Hg Hev'. apply Hskip; [done|lia|done|]. intros. apply H; [lia|done].
Qed.

Lemma allocatable_even f : Z.even (f - NUM_PAG_KERNEL) = Z.even f.
Proof. unfold NUM_PAG_KERNEL. rewrite Z.even_sub. by destruct (Z.even f). Qed.

Lemma alloc_frame_cases pm :
  pm_ok pm →
  (alloc_frame pm = (-1, pm) ∧ ∀ f, allocatable f → pm_get pm f ≠ FREE_FRAME) ∨
  (∃ f, alloc_frame pm = (f, pm_set pm f USED_FRAME) ∧ allocatable f ∧
     pm_get pm f = FREE_FRAME ∧ ∀ g, allocatable g → g < f → pm_get pm g ≠ FREE_FRAME).
Proof.
  intros Hok. unfold alloc_frame, allocatable.
  destruct (alloc_loop_spec (Z.to_nat TOTAL_PAGES) NUM_PAG_KERNEL pm Hok) as
    [[E H]|(f & E & Hf & Hev & Hfr & H)].
  - unfold NUM_PAG_KERNEL. lia.
  - unfold TOTAL_PAGES, NUM_PAG_KERNEL. lia.
  - left. split; [done|]. intros f [Hf Hev]. apply H; [done|]. by rewrite allocatable_even.
  - right. exists f. rewrite allocatable_even in Hev. split_and!; try done; try lia.
    intros g [Hg Hge] Hlt. apply H; [lia|]. by rewrite allocatable_even.
Qed.

(** The 384 frames the allocator can ever hand out. *)
Definition all_allocatable : list Z :=
  List.map (λ k, NUM_PAG_KERNEL + 2 * Z.of_nat k) (seq 0 384).

Lemma all_allocatable_spec f : f ∈ all_allocatable ↔ allocatable f.
Proof.
  unfold all_allocatable, allocatable, NUM_PAG_KERNEL, TOTAL_PAGES.
  rewrite list_elem_of_In, in_map_iff. split.
  - intros (k & <- & Hk%in_seq). split; [lia|].
    apply Z.even_spec. exists (128 + Z.of_nat k). lia.
  - intros [Hf [k Hk]%Z.even_spec]. exists (Z.to_nat (k - 128)). split; [lia|].
    apply in_seq. lia.
Qed.

Lemma all_allocatable_nodup : NoDup all_allocatable.
Proof.
  assert (Inj (=) (=) (λ k : nat, NUM_PAG_KERNEL + 2 * Z.of_nat k)) by (intros a b; lia).
  by apply (NoDup_fmap_2 (λ k : nat, NUM_PAG_KERNEL + 2 * Z.of_nat k)), NoDup_seq.
Qed.

(** A map in which fewer than 384 frames are in use has one to give. *)
Lemma alloc_frame_succeeds pm (used : list Z) :
  pm_ok pm → (∀ f, allocatable f → pm_get pm f ≠ FREE_FRAME → f ∈ used) →
  (length used < 384)%nat →
  ∃ f, alloc_frame pm = (f, pm_set pm f USED_FRAME) ∧ allocatable f ∧ pm_get pm f = FREE_FRAME ∧
    ∀ g, allocatable g → g < f → pm_get pm g ≠ FREE_FRAME.
Proof.
  intros Hok Hused Hlen. destruct (alloc_frame_cases pm Hok) as [[_ H]|(f & E & Hf & Hfr & H)].
  - exfalso. enough (length all_allocatable ≤ length used)%nat as Hle.
    { unfold all_allocatable in Hle. rewrite length_map, length_seq in Hle. lia. }
    apply submseteq_length, NoDup_submseteq; [apply all_allocatable_nodup|].
    intros f Hf%all_allocatable_spec. by apply Hused, H.
  - eauto.
Qed.

Lemma free_frame_get f pm g :
  pm_ok pm → 0 ≤ g →
  pm_get (free_frame f pm) g =
    if decide (f = g ∧ NUM_PAG_KERNEL < f < TOTAL_PAGES) then FREE_FRAME else pm_get pm g.
Proof.
  intros Hok Hg. unfold free_frame. pose proof (pm_ok_length pm Hok).
  destruct (Z.ltb_spec NUM_PAG_KERNEL f), (Z.ltb_spec f TOTAL_PAGES); cbn [andb];
    try (by rewrite decide_False by lia).
  rewrite pm_get_set by (unfold NUM_PAG_KERNEL in *; lia).
  repeat case_decide; done || lia.
Qed.

Lemma free_frame_ok f pm : pm_ok pm → pm_ok (free_frame f pm).
Proof. unfold free_frame. destruct (_ && _); [apply pm_set_ok|done]. Qed.

Lemma alloc_frame_ok pm : pm_ok pm → pm_ok (alloc_frame pm).2.
Proof.
  intros Hok. destruct (alloc_frame_cases pm Hok) as [[-> _]|(f & -> & _)]; [done|].
  by apply pm_set_ok.
Qed.

(** alloc_frame returns the lowest free frame among the even ones from 256
    to 1022 and marks it used; it returns -1, and changes nothing, exactly when
    all 384 of them are in use. *)
Theorem alloc_frame_lowest pm :
  pm_ok pm →
  ((∃ f, allocatable f ∧ pm_get pm f = FREE_FRAME) ↔ (alloc_frame pm).1 ≠ -1) ∧
  (∀ f pm', alloc_frame pm = (f, pm') → f = -1 → pm' = pm) ∧
  (∀ f pm', alloc_frame pm = (f, pm') → f ≠ -1 →
     allocatable f ∧ pm_get pm f = FREE_FRAME ∧ pm_get pm' f = USED_FRAME ∧
     (∀ g, 0 ≤ g → g ≠ f → pm_get pm' g = pm_get pm g) ∧
     (∀ g, allocatable g → g < f → pm_get pm g ≠ FREE_FRAME)).
Proof.
  intros Hok. pose proof (pm_ok_length pm Hok) as Hlen.
  destruct (alloc_frame_cases pm Hok) as [[-> H]|(f & -> & [Hf Hev] & Hfr & H)].
  - split_and!; [|naive_solver..]. split; [|done]. intros (f & Hf & Hfr). by destruct (H f Hf).
  - unfold NUM_PAG_KERNEL in Hf. split_and!.
    + split; intros _; [cbn; lia|]. by exists f.
    + intros f' pm' [= <- <-]. lia.
    + intros f' pm' [= <- <-] _. split_and!; try done.
      * rewrite pm_get_set by lia. by rewrite decide_True.
      * intros g Hg Hne. rewrite pm_get_set by lia. by rewrite decide_False.
Qed.

Lemma alloc_frame_lowest_witness :
  let pm := init_frames (replicate 1024 0) in
  alloc_frame pm = (256, pm_set pm 256 USED_FRAME) ∧
  allocatable 256 ∧ pm_get pm 256 = FREE_FRAME.
Proof.
  cbv zeta. split; [vm_compute; reflexivity|].
  destruct (alloc_frame_lowest (init_frames (replicate 1024 0))) as (_ & _ & H).
  - vm_compute. reflexivity.
  - destruct (H 256 (pm_set (init_frames (replicate 1024 0)) 256 USED_FRAME)) as (H1 & H2 & _).
    + vm_compute. reflexivity.
    + discriminate.
    + split; [exact H1|exact H2].
Defined.

(** C39. Giving a frame back makes it available again, for every frame the
    allocator hands out but the first: frame 256 passes alloc_frame and is
    refused by free_frame, which accepts only frames above it. *)
Theorem alloc_free_roundtrip pm f pm' :
  pm_ok pm → alloc_frame pm = (f, pm') → f ≠ -1 →
  (f ≠ NUM_PAG_KERNEL → free_frame f pm' = pm) ∧
  (f = NUM_PAG_KERNEL → free_frame f pm' = pm').
Proof.
  intros Hok E Hne. destruct (alloc_frame_cases pm Hok) as [[E' _]|(g & E' & [Hg _] & Hfr & _)];
    rewrite E' in E; injection E as <- <-; [done|].
  unfold free_frame, NUM_PAG_KERNEL in *. split; intros Hk.
  - destruct (Z.ltb_spec 256 g), (Z.ltb_spec g TOTAL_PAGES); try lia. cbn.
    unfold pm_set. rewrite list_insert_insert_eq. apply list_insert_id.
    unfold pm_get in Hfr. rewrite nth_lookup in Hfr.
    destruct (lookup_lt_is_Some_2 pm (Z.to_nat g)) as [v Hv].
    { rewrite Hok. lia. }
    rewrite Hv in *. cbn in Hfr. by rewrite Hfr.
  - subst g. by destruct (Z.ltb_spec 256 256); [lia|].
Qed.

Lemma alloc_free_roundtrip_witness :
  let pm := pm_set (init_frames (replicate 1024 0)) 256 USED_FRAME in
  (258 ≠ NUM_PAG_KERNEL → free_frame 258 (pm_set pm 258 USED_FRAME) = pm) ∧
  (258 = NUM_PAG_KERNEL → free_frame 258 (pm_set pm 258 USED_FRAME) = pm_set pm 258 USED_FRAME).
Proof.
  cbv zeta. apply alloc_free_roundtrip; [vm_compute; reflexivity|vm_compute; reflexivity|done].
Defined.
