(* ===== verification/Types.v ===== *)
(** include/types.h and include/segment.h: the address macros, the descriptor
    tables' entries, the task state segment and the page table entry, whose
    bit fields are read and assigned on the 32-bit word they share with
    [entry]; and what the processor reads of that word. *)

From S2P Require Import Prelude.

(** ** Address macros *)

Definition highWord (address : Z) : Z := u16 (Z.land (Z.shiftr address 16) 0xFFFF).
Definition lowWord (address : Z) : Z := u16 (Z.land address 0xFFFF).
Definition midByte (address : Z) : Z := u8 (Z.land (Z.shiftr address 16) 0xFF).
Definition highByte (address : Z) : Z := u8 (Z.land (Z.shiftr address (16 + 8)) 0xFF).
Definition high4Bits (limit : Z) : Z := u8 (Z.land (Z.shiftr limit 16) 0x0F).

(** ** Segment selectors *)

Definition KERNEL_CS : Z := 0x10.
Definition KERNEL_DS : Z := 0x18.
Definition USER_CS : Z := 0x23.
Definition USER_DS : Z := 0x2B.
Definition KERNEL_TSS : Z := 0x30.
Definition GDT_START : Z := 0x901b3.
Definition INITIAL_EFLAGS : Z := 0x00000200.

(** ** Descriptor tables *)

Record Descriptor : Type := MkDescriptor {
  limit : Z; lowBase : Z; midBase : Z; flags1 : Z; flags2 : Z; highBase : Z;
}.

Record Gate : Type := MkGate {
  lowOffset : Z; segmentSelector : Z; gate_flags : Z; highOffset : Z;
}.

Record Register : Type := MkRegister { reg_limit : Z; reg_base : Z }.

(** ** Task state segment (the padding words are never read or written) *)

Record TSS : Type := MkTSS {
  PreviousTaskLink : Z;
  esp0 : Z; ss0 : Z; esp1 : Z; ss1 : Z; esp2 : Z; ss2 : Z;
  tss_cr3 : Z; tss_eip : Z; tss_eFlags : Z;
  tss_eax : Z; tss_ecx : Z; tss_edx : Z; tss_ebx : Z;
  tss_esp : Z; tss_ebp : Z; tss_esi : Z; tss_edi : Z;
  tss_es : Z; tss_cs : Z; tss_ss : Z; tss_ds : Z; tss_fs : Z; tss_gs : Z;
  LDTSegmentSelector : Z; debugTrap : Z; IOMapBaseAddress : Z;
}.

Definition tss_zero : TSS :=
  MkTSS 0 0 0 0 0 0 0 0 0 0 0 0 0 0 0 0 0 0 0 0 0 0 0 0 0 0 0.

Definition set_esp0 (v : Z) (t : TSS) : TSS :=
  MkTSS (PreviousTaskLink t) v (ss0 t) (esp1 t) (ss1 t) (esp2 t) (ss2 t)
    (tss_cr3 t) (tss_eip t) (tss_eFlags t)
    (tss_eax t) (tss_ecx t) (tss_edx t) (tss_ebx t)
    (tss_esp t) (tss_ebp t) (tss_esi t) (tss_edi t)
    (tss_es t) (tss_cs t) (tss_ss t) (tss_ds t) (tss_fs t) (tss_gs t)
    (LDTSegmentSelector t) (debugTrap t) (IOMapBaseAddress t).

(** ** Page table entries *)

(** A bit field of [page_table_entry.bits]: first bit and width. *)
Record bitfield : Type := Field { bf_pos : Z; bf_width : Z }.

Definition present : bitfield := Field 0 1.
Definition rw : bitfield := Field 1 1.
Definition user : bitfield := Field 2 1.
Definition write_t : bitfield := Field 3 1.
Definition cache_d : bitfield := Field 4 1.
Definition accessed : bitfield := Field 5 1.
Definition dirty : bitfield := Field 6 1.
Definition ps_pat : bitfield := Field 7 1.
Definition global : bitfield := Field 8 1.
Definition avail : bitfield := Field 9 3.
Definition pbase_addr : bitfield := Field 12 20.

(** [x = e.bits.f] and [e.bits.f = v]. *)
Definition get_bits (f : bitfield) (e : Z) : Z :=
  Z.land (Z.shiftr e (bf_pos f)) (Z.ones (bf_width f)).

Definition set_bits (f : bitfield) (e v : Z) : Z :=
  Z.lor (Z.ldiff e (Z.shiftl (Z.ones (bf_width f)) (bf_pos f)))
        (Z.shiftl (Z.land v (Z.ones (bf_width f))) (bf_pos f)).

(** What the processor reads of an entry: bit 0 is set if the page is present,
    bit 1 if it may be written, bit 2 if it may be used at privilege level 3,
    and the upper twenty bits are the address of the frame. *)
Definition hw_present (e : Z) : bool := Z.testbit e 0.
Definition hw_writable (e : Z) : bool := Z.testbit e 1.
Definition hw_user (e : Z) : bool := Z.testbit e 2.
Definition hw_base (e : Z) : Z := Z.land e 0xFFFFF000.

(** The word of an entry with base [frame] and low bits [flags]. *)
Definition pte (frame flags : Z) : Z := frame * 2 ^ 12 + flags.

(** ** The entries the kernel builds *)

Lemma pte_lor f c : 0 ≤ c < 2 ^ 12 → pte f c = Z.lor (Z.shiftl f 12) c.
Proof.
  intros Hc. unfold pte. rewrite <- Z.shiftl_mul_pow2, <- Z.add_lor_land by lia.
  enough (Z.land (Z.shiftl f 12) c = 0) by lia.
  apply Z.bits_inj'. intros n Hn. rewrite Z.land_spec, Z.shiftl_spec, Z.bits_0 by lia.
  destruct (decide (n < 12)).
  - by rewrite Z.testbit_neg_r by lia.
  - rewrite <- (Z.mod_small c (2 ^ 12)) by done.
    by rewrite Z.mod_pow2_bits_high, andb_false_r by lia.
Qed.

Lemma pte_testbit f c n :
  0 ≤ c < 2 ^ 12 → 0 ≤ n →
  Z.testbit (pte f c) n = if n <? 12 then Z.testbit c n else Z.testbit f (n - 12).
Proof.
  intros Hc Hn. rewrite pte_lor, Z.lor_spec, Z.shiftl_spec by lia.
  destruct (Z.ltb_spec n 12).
  - by rewrite Z.testbit_neg_r by lia.
  - rewrite <- (Z.mod_small c (2 ^ 12)) by done.
    by rewrite Z.mod_pow2_bits_high, orb_false_r by lia.
Qed.

(** Assigning a flag changes the low bits only. *)
Lemma set_flag f c b :
  0 ≤ c < 2 ^ 12 → 0 ≤ b < 12 →
  set_bits (Field b 1) (pte f c) 1 = pte f (Z.lor c (2 ^ b)).
Proof.
  intros Hc Hb.
  assert (0 ≤ Z.lor c (2 ^ b) < 2 ^ 12).
  { pose proof (Z.lor_nonneg c (2 ^ b)). split; [lia|].
    assert (2 ^ b < 2 ^ 12) by (apply Z.pow_lt_mono_r; lia).
    destruct (decide (Z.lor c (2 ^ b) = 0)); [lia|].
    apply Z.log2_lt_pow2; [lia|]. rewrite Z.log2_lor, Z.log2_pow2 by lia.
    destruct (decide (c = 0)) as [->|]; [cbn; lia|].
    assert (Z.log2 c < 12) by (apply Z.log2_lt_pow2; lia). lia. }
  apply Z.bits_inj'. intros n Hn. unfold set_bits. cbn [bf_pos bf_width].
  change (Z.land 1 (Z.ones 1)) with 1. change (Z.ones 1) with 1.
  rewrite Z.lor_spec, Z.ldiff_spec, Z.shiftl_1_l, Z.pow2_bits_eqb by lia.
  rewrite !pte_testbit, Z.lor_spec, Z.pow2_bits_eqb by lia.
  destruct (Z.eqb_spec b n) as [->|]; destruct (Z.ltb_spec n 12); try lia; cbn;
    rewrite ?andb_true_r, ?andb_false_r, ?orb_false_r, ?orb_true_r; done.
Qed.

(** Assigning the base keeps the flags. *)
Lemma set_pbase f c v :
  0 ≤ f < 2 ^ 20 → 0 ≤ c < 2 ^ 12 → 0 ≤ v < 2 ^ 20 →
  set_bits pbase_addr (pte f c) v = pte v c.
Proof.
  intros Hf Hc Hv. apply Z.bits_inj'. intros n Hn. unfold set_bits, pbase_addr.
  cbn [bf_pos bf_width].
  rewrite Z.lor_spec, Z.ldiff_spec, !Z.shiftl_spec, !pte_testbit by lia.
  rewrite Z.land_ones, (Z.mod_small v) by lia.
  destruct (Z.ltb_spec n 12).
  - rewrite !(Z.testbit_neg_r _ (n - 12)) by lia. by rewrite andb_true_r, orb_false_r.
  - rewrite Z.testbit_ones_nonneg by lia. destruct (Z.ltb_spec (n - 12) 20); cbn.
    + by rewrite andb_false_r.
    + rewrite <- (Z.mod_small f (2 ^ 20)), <- (Z.mod_small v (2 ^ 20)) by lia.
      by rewrite !Z.mod_pow2_bits_high by lia.
Qed.

Lemma get_pbase f c : 0 ≤ f < 2 ^ 20 → 0 ≤ c < 2 ^ 12 → get_bits pbase_addr (pte f c) = f.
Proof.
  intros Hf Hc. unfold get_bits, pbase_addr, pte. cbn [bf_pos bf_width].
  rewrite Z.shiftr_div_pow2, Z.div_add_l, (Z.div_small c), Z.add_0_r, Z.land_ones by lia.
  by apply Z.mod_small.
Qed.

(** The processor finds in it what the fields were assigned. *)
Lemma hw_flags_pte f c :
  0 ≤ c < 2 ^ 12 →
  hw_present (pte f c) = Z.testbit c 0 ∧ hw_writable (pte f c) = Z.testbit c 1 ∧ hw_user (pte f c) = Z.testbit c 2.
Proof. intros Hc. unfold hw_present, hw_writable, hw_user. by rewrite !pte_testbit by lia. Qed.

Lemma hw_base_pte f c : 0 ≤ f < 2 ^ 20 → 0 ≤ c < 2 ^ 12 → hw_base (pte f c) = f * 2 ^ 12.
Proof.
  intros Hf Hc. unfold hw_base. change 0xFFFFF000 with (Z.shiftl (Z.ones 20) 12).
  apply Z.bits_inj'. intros n Hn. rewrite Z.land_spec, Z.shiftl_spec, pte_testbit by lia.
  rewrite <- Z.shiftl_mul_pow2, Z.shiftl_spec by lia. destruct (Z.ltb_spec n 12).
  - rewrite !(Z.testbit_neg_r _ (n - 12)) by lia. by rewrite andb_false_r.
  - rewrite Z.testbit_ones_nonneg by lia. destruct (Z.ltb_spec (n - 12) 20); [by rewrite andb_true_r|].
    rewrite <- (Z.mod_small f (2 ^ 20)) by lia. by rewrite Z.mod_pow2_bits_high by lia.
Qed.

Lemma pte_range f c : 0 ≤ f < 2 ^ 20 → 0 ≤ c < 2 ^ 12 → 0 ≤ pte f c < 2 ^ 32.
Proof. unfold pte. lia. Qed.
