(* ===== verification/Loader.v ===== *)
(** bootsect.S: the routine of the boot sector that reads the system from the
    floppy disk to 0x10000, whole tracks at a time and never across a 64 KB
    boundary, and the descriptor table the sector carries.  Registers are
    16 bits wide; the BIOS is a parameter. *)

From S2P Require Import Prelude Memory Types.
#[local] Open Scope Z_scope.

(** ** The boot sector's data *)

Definition SYSSEG : Z := 0x1000.
Definition SETUPSECS : Z := 0.
Definition SEC_PISTA : Z := 18.

(** The table at [.org 435] of the sector, which lies at 0x90000. *)
Definition boot_gdt : list Descriptor := [
  MkDescriptor 0 0 0 0 0 0;
  MkDescriptor 0 0 0 0 0 0;
  MkDescriptor 0xFFFF 0x0000 0x00 0x9a 0xcf 0x00;
  MkDescriptor 0xFFFF 0x0000 0x00 0x92 0xcf 0x00;
  MkDescriptor 0xFFFF 0x0000 0x00 0xfa 0xcf 0x00;
  MkDescriptor 0xFFFF 0x0000 0x00 0xf2 0xcf 0x00;
  MkDescriptor 104 0 0 0x89 0 0
].

(** ** The state of the routine *)

Record lstate : Type := LState {
  l_ax : Z; l_bx : Z; l_cx : Z; l_es : Z;
  l_sread : Z;  (** sectors read of the current track *)
  l_head : Z;  (** current head *)
  l_track : Z;  (** current track *)
  l_mem : memory;
  l_screen : list Z;  (** what the BIOS has printed *)
}.

Definition lset_ax (v : Z) (s : lstate) : lstate :=
  LState v (l_bx s) (l_cx s) (l_es s) (l_sread s) (l_head s) (l_track s) (l_mem s) (l_screen s).
Definition lset_bx (v : Z) (s : lstate) : lstate :=
  LState (l_ax s) v (l_cx s) (l_es s) (l_sread s) (l_head s) (l_track s) (l_mem s) (l_screen s).
Definition lset_cx (v : Z) (s : lstate) : lstate :=
  LState (l_ax s) (l_bx s) v (l_es s) (l_sread s) (l_head s) (l_track s) (l_mem s) (l_screen s).
Definition lset_es (v : Z) (s : lstate) : lstate :=
  LState (l_ax s) (l_bx s) (l_cx s) v (l_sread s) (l_head s) (l_track s) (l_mem s) (l_screen s).
Definition lset_sread (v : Z) (s : lstate) : lstate :=
  LState (l_ax s) (l_bx s) (l_cx s) (l_es s) v (l_head s) (l_track s) (l_mem s) (l_screen s).
Definition lset_head (v : Z) (s : lstate) : lstate :=
  LState (l_ax s) (l_bx s) (l_cx s) (l_es s) (l_sread s) v (l_track s) (l_mem s) (l_screen s).
Definition lset_track (v : Z) (s : lstate) : lstate :=
  LState (l_ax s) (l_bx s) (l_cx s) (l_es s) (l_sread s) (l_head s) v (l_mem s) (l_screen s).

(** The low and high byte of a 16-bit register, and the register of two. *)
Definition lo8 (v : Z) : Z := u8 v.
Definition hi8 (v : Z) : Z := u8 (Z.shiftr v 8).
Definition word (h l : Z) : Z := Z.lor (Z.shiftl h 8) l.

Section Loader.

(** [int 0x13]: the registers ax, cx, dx, es and bx and the memory before,
    and the memory after. *)
Context (int_0x13 : Z → Z → Z → Z → Z → memory → memory).
(** The words [sectors], [setup_sects] and [syssize] of the sector in memory;
    the last is written by build. *)
Context (sectors setup_sects syssize : Z).

(** [pusha] and [popa] give the caller its registers back. *)
Definition read_track (s : lstate) : lstate :=
  let screen := l_screen s ++ [0x2e] in
  let dx := l_track s in
  let cx := l_sread s in
  let cx := u16 (cx + 1) in
  let cx := word (lo8 dx) (lo8 cx) in
  let dx := l_head s in
  let dx := word (lo8 dx) (lo8 dx) in
  let dx := Z.land dx 0x0100 in
  let ax := word 2 (lo8 (l_ax s)) in
  LState (l_ax s) (l_bx s) (l_cx s) (l_es s) (l_sread s) (l_head s) (l_track s)
    (int_0x13 ax cx dx (l_es s) (l_bx s) (l_mem s)) screen.

(** How many sectors to read: the rest of the track, or what fits before the
    64 KB boundary. *)
Definition ok1_read (s : lstate) : lstate :=
  let ax := u16 (sectors - l_sread s) in
  let cx := u16 (Z.shiftl ax 9) in
  let carry := 2 ^ 16 <=? cx + l_bx s in
  let cx := u16 (cx + l_bx s) in
  let ax := if negb carry then ax else if cx =? 0 then ax else Z.shiftr (u16 (0 - l_bx s)) 9 in
  lset_ax ax (lset_cx cx s).

(** The next place on the disk. *)
Definition ok2_read (s : lstate) : lstate :=
  let s := read_track s in
  let s := lset_cx (l_ax s) s in
  let s := lset_ax (u16 (l_ax s + l_sread s)) s in
  let s :=
    if negb (l_ax s =? sectors) then s else
    let s := lset_ax (u16 (1 - l_head s)) s in
    let s := if negb (l_ax s =? 0) then s else lset_track (u16 (l_track s + 1)) s in
    let s := lset_head (l_ax s) s in
    lset_ax 0 s in
  lset_sread (l_ax s) s.

(** The next place in memory. *)
Definition ok3_read (s : lstate) : lstate :=
  let s := lset_cx (u16 (Z.shiftl (l_cx s) 9)) s in
  let carry := 2 ^ 16 <=? l_bx s + l_cx s in
  let s := lset_bx (u16 (l_bx s + l_cx s)) s in
  if negb carry then s else
  let s := lset_ax (l_es s) s in
  let s := lset_ax (word (u8 (hi8 (l_ax s) + 0x10)) (lo8 (l_ax s))) s in
  let s := lset_es (l_ax s) s in
  lset_bx 0 s.

Fixpoint rp_read (fuel : nat) (s : lstate) : option lstate :=
  match fuel with
  | O => None
  | S fuel =>
      let s := lset_ax (u16 (l_es s - SYSSEG)) s in
      if negb (l_ax s <=? syssize) then Some s else rp_read fuel (ok3_read (ok2_read (ok1_read s)))
  end.

(** [die: jne die] never ends. *)
Definition read_it (fuel : nat) (s : lstate) : option lstate :=
  let s := lset_sread (word (hi8 (l_sread s)) (u8 (setup_sects + 1))) s in
  let s := lset_ax (l_es s) s in
  if negb (Z.land (l_ax s) 0x0fff =? 0) then None else
  rp_read fuel (lset_bx 0 s).

(** ** The disk *)

(** Function 2 of [int 0x13], as the BIOS documents it: al sectors of one
    track, from sector cl of cylinder ch, head dh of drive dl on, are put at
    es:bx, and nothing else is written.  The block may not cross the end of
    the segment. *)
Definition reads_disk (disk : Z → Z) : Prop :=
  ∀ n cyl head sec es bx m a,
  1 ≤ n → 0 ≤ cyl < 80 → 0 ≤ head < 2 → 1 ≤ sec → sec - 1 + n ≤ SEC_PISTA →
  0 ≤ es < 2 ^ 16 → 0 ≤ bx → bx + 512 * n ≤ 2 ^ 16 →
  load8 (int_0x13 (word 2 n) (word cyl sec) (word head 0) es bx m) a =
    if bool_decide (16 * es + bx ≤ a < 16 * es + bx + 512 * n)
    then disk (512 * ((2 * cyl + head) * SEC_PISTA + (sec - 1)) + (a - (16 * es + bx))) else load8 m a.

Context (disk : Z → Z) (Hdisk : reads_disk disk).
Context (Hsectors : sectors = SEC_PISTA) (Hsetup : setup_sects = SETUPSECS) (Hsys : 0 ≤ syssize < 0x8000).
Context (m0 : memory).

(** The first [d] sectors after the boot sector have been read. *)
Record read_so_far (d : Z) (s : lstate) : Prop := {
  rd_es : l_es s = 0x1000 * (1 + d / 128);
  rd_bx : l_bx s = 512 * (d mod 128);
  rd_sread : l_sread s = (d + 1) mod 18;
  rd_head : l_head s = ((d + 1) / 18) mod 2;
  rd_track : l_track s = (d + 1) / 36;
  rd_mem : ∀ a, load8 (l_mem s) a =
    if bool_decide (0x10000 ≤ a < 0x10000 + 512 * d) then disk (512 + (a - 0x10000)) else load8 m0 a;
}.

(** What the next access reads. *)
Definition portion (d : Z) : Z := Z.min (18 - (d + 1) mod 18) (128 - d mod 128).

Lemma portion_bounds d : 1 ≤ portion d ∧ portion d ≤ 18 - (d + 1) mod 18 ∧ portion d ≤ 128 - d mod 128.
Proof.
  unfold portion. pose proof (Z.mod_pos_bound (d + 1) 18 ltac:(lia)). pose proof (Z.mod_pos_bound d 128 ltac:(lia)). lia.
Qed.

Lemma u16_small z : 0 ≤ z < 2 ^ 16 → u16 z = z.
Proof. apply Z.mod_small. Qed.

Lemma word_add h l : 0 ≤ h → 0 ≤ l < 256 → word h l = 256 * h + l.
Proof.
  intros Hh Hl. unfold word. assert (H0 : Z.land (Z.shiftl h 8) l = 0).
  { apply Z.bits_inj'. intros n Hn. rewrite Z.land_spec, Z.shiftl_spec, Z.bits_0 by lia.
    destruct (decide (n < 8)); [by rewrite Z.testbit_neg_r by lia|].
    rewrite <- (Z.mod_small l (2 ^ 8)) by lia. by rewrite Z.mod_pow2_bits_high, andb_false_r by lia. }
  pose proof (Z.add_lor_land (Z.shiftl h 8) l) as H. rewrite H0 in H. rewrite Z.shiftl_mul_pow2 in H at 2 by lia. lia.
Qed.

Lemma ok1_read_spec d s :
  0 ≤ d → read_so_far d s → ∃ c, ok1_read s = lset_ax (portion d) (lset_cx c s).
Proof.
  intros Hd [_ Hb Hs _ _ _]. unfold ok1_read. rewrite Hb, Hs, Hsectors. unfold SEC_PISTA.
  set (r := 18 - (d + 1) mod 18). set (q := d mod 128).
  assert (Hr : 1 ≤ r ≤ 18) by (unfold r; pose proof (Z.mod_pos_bound (d + 1) 18 ltac:(lia)); lia).
  assert (Hq : 0 ≤ q < 128) by (unfold q; apply Z.mod_pos_bound; lia).
  change (portion d) with (Z.min r (128 - q)). rewrite (u16_small r), Z.shiftl_mul_pow2 by lia. rewrite (u16_small (r * 2 ^ 9)) by lia.
  eexists. f_equal. destruct (Z.leb_spec (2 ^ 16) (r * 2 ^ 9 + 512 * q)) as [Hc|Hc]; cbn [negb]; [|lia].
  replace (u16 (r * 2 ^ 9 + 512 * q)) with (512 * (r + q - 128)) by (unfold u16; Z.div_mod_to_equations; lia).
  destruct (Z.eqb_spec (512 * (r + q - 128)) 0) as [H0|H0]; [lia|].
  replace (u16 (0 - 512 * q)) with (512 * (128 - q)) by (unfold u16; Z.div_mod_to_equations; lia).
  rewrite Z.shiftr_div_pow2 by lia. Z.div_mod_to_equations. lia.
Qed.

(** The place on the disk and in memory that [d] stands for. *)
Lemma sector_number d :
  0 ≤ d → (2 * ((d + 1) / 36) + ((d + 1) / 18) mod 2) * 18 + (d + 1) mod 18 = d + 1.
Proof. intros Hd. Z.div_mod_to_equations. lia. Qed.

Lemma memory_place d : 0 ≤ d → 16 * (0x1000 * (1 + d / 128)) + 512 * (d mod 128) = 0x10000 + 512 * d.
Proof. intros Hd. Z.div_mod_to_equations. lia. Qed.

Lemma head_only h : 0 ≤ h < 2 → Z.land (word h h) 0x0100 = word h 0.
Proof. intros Hh. assert (h = 0 ∨ h = 1) as [-> | ->] by lia; reflexivity. Qed.

Lemma read_track_mem d s c a :
  0 ≤ d < 1024 → read_so_far d s →
  load8 (l_mem (read_track (lset_ax (portion d) (lset_cx c s)))) a =
    if bool_decide (0x10000 ≤ a < 0x10000 + 512 * (d + portion d)) then disk (512 + (a - 0x10000)) else load8 m0 a.
Proof.
  intros Hd [He Hb Hs Hh Ht Hm]. destruct (portion_bounds d) as (P1 & P2 & P3).
  pose proof (Z.mod_pos_bound (d + 1) 18 ltac:(lia)) as Bs. pose proof (Z.mod_pos_bound d 128 ltac:(lia)) as Bq.
  pose proof (Z.mod_pos_bound ((d + 1) / 18) 2 ltac:(lia)) as Bh.
  assert (Bt : 0 ≤ (d + 1) / 36 < 80) by (Z.div_mod_to_equations; lia).
  assert (Be : 0 ≤ d / 128 < 8) by (Z.div_mod_to_equations; lia).
  unfold read_track. cbn [l_mem l_ax l_bx l_cx l_es l_sread l_head l_track lset_ax lset_cx]. rewrite He, Hb, Hs, Hh, Ht.
  rewrite (u16_small ((d + 1) mod 18 + 1)) by lia. unfold lo8, u8. rewrite !(Z.mod_small _ (2 ^ 8)) by lia.
  rewrite head_only by done. unfold reads_disk, SEC_PISTA in Hdisk. rewrite Hdisk by lia.
  replace ((d + 1) mod 18 + 1 - 1) with ((d + 1) mod 18) by lia. rewrite sector_number, memory_place, Hm by lia.
  repeat case_bool_decide; (lia || done || (f_equal; lia)).
Qed.

(** One access moves [d] on. *)
Lemma ok2_read_spec d s c :
  0 ≤ d < 1024 → read_so_far d s →
  let s' := ok2_read (lset_ax (portion d) (lset_cx c s)) in
  l_cx s' = portion d ∧ l_bx s' = l_bx s ∧ l_es s' = l_es s ∧
  l_sread s' = (d + portion d + 1) mod 18 ∧ l_head s' = ((d + portion d + 1) / 18) mod 2 ∧
  l_track s' = (d + portion d + 1) / 36 ∧
  l_mem s' = l_mem (read_track (lset_ax (portion d) (lset_cx c s))).
Proof.
  intros Hd [_ _ Hs Hh Ht _]. destruct (portion_bounds d) as (P1 & P2 & _). set (k := portion d) in *.
  pose proof (Z.mod_pos_bound (d + 1) 18 ltac:(lia)) as Bs. pose proof (Z.mod_pos_bound ((d + 1) / 18) 2 ltac:(lia)) as Bh.
  unfold ok2_read, read_track. cbn [l_mem l_ax l_bx l_cx l_es l_sread l_head l_track lset_ax lset_cx lset_sread].
  rewrite Hs, Hh, Ht, Hsectors. unfold SEC_PISTA. rewrite (u16_small (k + _)) by lia.
  destruct (Z.eqb_spec (k + (d + 1) mod 18) 18) as [E|E]; cbn [negb].
  2:{ cbn [l_mem l_ax l_bx l_cx l_es l_sread l_head l_track lset_sread lset_ax lset_cx]. split_and!; try done; Z.div_mod_to_equations; lia. }
  assert (((d + 1) / 18) mod 2 = 0 ∨ ((d + 1) / 18) mod 2 = 1) as [H|H] by lia; rewrite H;
    [change (u16 (1 - 0)) with 1; change (1 =? 0) with false|change (u16 (1 - 1)) with 0; change (0 =? 0) with true]; cbn [negb];
    cbn [l_mem l_ax l_bx l_cx l_es l_sread l_head l_track lset_sread lset_ax lset_cx lset_head lset_track];
    split_and!; try done; rewrite ?u16_small; Z.div_mod_to_equations; lia.
Qed.

Lemma next_segment e : 0 ≤ e < 8 →
  word (u8 (hi8 (0x1000 * (1 + e)) + 0x10)) (lo8 (0x1000 * (1 + e))) = 0x1000 * (1 + (e + 1)).
Proof.
  intros He. unfold hi8, lo8, u8. rewrite Z.shiftr_div_pow2 by lia. rewrite word_add by (Z.div_mod_to_equations; lia).
  Z.div_mod_to_equations. lia.
Qed.

Lemma ok3_read_spec t q k e :
  0 ≤ q < 128 → 1 ≤ k ≤ 18 → q + k ≤ 128 → 0 ≤ e < 8 → l_cx t = k → l_bx t = 512 * q → l_es t = 0x1000 * (1 + e) →
  ∃ a c, ok3_read t = LState a (512 * ((q + k) mod 128)) c (0x1000 * (1 + (e + (q + k) / 128)))
    (l_sread t) (l_head t) (l_track t) (l_mem t) (l_screen t).
Proof.
  intros Hq Hk Hqk He Ec Eb Ee. unfold ok3_read. cbn [l_cx l_bx lset_cx]. rewrite Ec, Eb.
  assert (Es : u16 (Z.shiftl k 9) = 512 * k) by (rewrite Z.shiftl_mul_pow2, u16_small by lia; lia). rewrite Es. clear Es.
  destruct (Z.leb_spec (2 ^ 16) (512 * q + 512 * k)) as [Hc|Hc]; cbn [negb].
  - assert (E1 : (q + k) mod 128 = 0 ∧ (q + k) / 128 = 1) by (Z.div_mod_to_equations; lia). destruct E1 as [-> ->].
    cbn [l_es l_ax lset_cx lset_bx lset_es lset_ax]. rewrite Ee, next_segment by done. do 2 eexists. reflexivity.
  - assert (E1 : (q + k) mod 128 = q + k ∧ (q + k) / 128 = 0) by (Z.div_mod_to_equations; lia). destruct E1 as [-> ->].
    rewrite u16_small, <- Z.mul_add_distr_l, Z.add_0_r, <- Ee by lia. do 2 eexists. reflexivity.
Qed.

Lemma read_step d s :
  0 ≤ d < 1024 → read_so_far d s → read_so_far (d + portion d) (ok3_read (ok2_read (ok1_read s))).
Proof.
  intros Hd Hs. destruct (ok1_read_spec d s) as [c ->]; [lia|done|].
  destruct (ok2_read_spec d s c Hd Hs) as (Ec & Eb & Ee & E1 & E2 & E3 & Em). pose proof (λ a, read_track_mem d s c a Hd Hs) as Hm.
  rewrite <- Em in Hm. clear Em. revert Ec Eb Ee E1 E2 E3 Hm. generalize (ok2_read (lset_ax (portion d) (lset_cx c s))).
  intros t Ec Eb Ee E1 E2 E3 Hm. rewrite (rd_es _ _ Hs) in Ee. rewrite (rd_bx _ _ Hs) in Eb.
  destruct (portion_bounds d) as (P1 & P2 & P3). pose proof (Z.mod_pos_bound (d + 1) 18 ltac:(lia)) as Bs.
  pose proof (Z.mod_pos_bound d 128 ltac:(lia)) as Bq.
  destruct (ok3_read_spec t (d mod 128) (portion d) (d / 128)) as (x & y & ->);
    [lia|lia|lia|Z.div_mod_to_equations; lia|exact Ec|exact Eb|exact Ee|].
  split; cbn [l_mem l_bx l_es l_sread l_head l_track]; [| |exact E1|exact E2|exact E3|exact Hm];
    revert P1 P2 P3 Bq; generalize (portion d); intros; Z.div_mod_to_equations; lia.
Qed.

(** What is left of [n] segments: the loop stops exactly at their end. *)
Lemma rp_read_loads s d fuel :
  let n := syssize / 0x1000 + 1 in
  0 ≤ d ≤ 128 * n → read_so_far d s → (Z.to_nat (128 * n - d) < fuel)%nat →
  ∃ s', rp_read fuel s = Some s' ∧ read_so_far (128 * n) s'.
Proof.
  intros n. assert (Hn : 1 ≤ n ≤ 8) by (unfold n; Z.div_mod_to_equations; lia).
  revert s d. induction fuel as [|fuel IH]; intros s d Hd Hs Hf; [lia|]. cbn [rp_read].
  set (s1 := lset_ax _ s). assert (H1 : read_so_far d s1) by (by destruct Hs).
  assert (Ea : l_ax s1 = 0x1000 * (d / 128)).
  { unfold s1. cbn [l_ax lset_ax]. rewrite (rd_es _ _ Hs). unfold SYSSEG. rewrite u16_small; Z.div_mod_to_equations; lia. }
  rewrite Ea. destruct (Z.leb_spec (0x1000 * (d / 128)) syssize) as [Hle|Hgt]; cbn [negb].
  - assert (Hd' : d < 128 * n) by (unfold n; Z.div_mod_to_equations; lia).
    destruct (portion_bounds d) as (P1 & _ & P3). apply (IH _ (d + portion d)); [|apply read_step; [lia|done]|lia].
    split; [lia|]. Z.div_mod_to_equations. lia.
  - exists s1. split; [done|]. assert (128 * n = d) as -> by (unfold n in *; Z.div_mod_to_equations; lia). done.
Qed.

(** From the start of the routine. *)
Lemma read_it_reads fuel s :
  (1025 ≤ fuel)%nat → l_es s = SYSSEG → l_sread s = 0 → l_head s = 0 → l_track s = 0 → l_mem s = m0 →
  ∃ s', read_it fuel s = Some s' ∧ read_so_far (128 * (syssize / 0x1000 + 1)) s'.
Proof.
  intros Hfu He Hsr Hh Ht Hm. unfold read_it. rewrite Hsr, Hsetup. cbn [l_ax l_es lset_ax lset_sread]. rewrite He.
  change (negb (Z.land SYSSEG 0x0fff =? 0)) with false. cbv iota. set (s1 := lset_bx 0 _).
  assert (H1 : read_so_far 0 s1).
  { split; unfold s1; cbn [l_mem l_bx l_es l_sread l_head l_track lset_ax lset_bx lset_sread]; [by rewrite He|done|done|by rewrite Hh|by rewrite Ht|].
    intros a. rewrite Hm. by rewrite bool_decide_false by lia. }
  apply (rp_read_loads s1 0 fuel); [Z.div_mod_to_equations; lia|done|Z.div_mod_to_equations; lia].
Qed.

(** The loader.  For every image size build can write for a system of less
    than 512 KB, read_it ends, and it has put the disk, from the second sector
    on, at 0x10000 and the following addresses: at least the [16 * syssize]
    bytes of the image, up to the end of the 64 KB segment they end in, and
    nothing else in memory is changed; in particular not the boot sector at
    0x90000, which is running. *)
Theorem read_it_loads s :
  l_es s = SYSSEG → l_sread s = 0 → l_head s = 0 → l_track s = 0 → l_mem s = m0 →
  let n := 0x10000 * (syssize / 0x1000 + 1) in
  ∃ s', read_it 1025 s = Some s' ∧ 16 * syssize < n ≤ 0x80000 ∧
    (∀ i, 0 ≤ i < n → load8 (l_mem s') (0x10000 + i) = disk (512 + i)) ∧
    (∀ a, a < 0x10000 ∨ 0x10000 + n ≤ a → load8 (l_mem s') a = load8 m0 a).
Proof.
  intros He Hsr Hh Ht Hm n. destruct (read_it_reads 1025 s) as (s' & E & Hr); [done..|].
  exists s'. split; [done|]. split; [unfold n; Z.div_mod_to_equations; lia|].
  split; intros a Ha; rewrite (rd_mem _ _ Hr); [rewrite bool_decide_true by (unfold n in *; lia); f_equal; lia|].
  by rewrite bool_decide_false by (unfold n in *; lia).
Qed.
End Loader.

(** ** A BIOS that behaves so *)

Fixpoint copy_disk (disk : Z → Z) (n : nat) (from to : Z) (m : memory) : memory :=
  match n with
  | O => m
  | S n' => store8 (copy_disk disk n' from to m) (to + Z.of_nat n') (disk (from + Z.of_nat n'))
  end.

Definition bios_of (disk : Z → Z) (ax cx dx es bx : Z) (m : memory) : memory :=
  copy_disk disk (Z.to_nat (512 * lo8 ax)) (512 * ((2 * hi8 cx + hi8 dx) * SEC_PISTA + (lo8 cx - 1))) (16 * es + bx) m.

Lemma load8_copy_disk disk n from to m a :
  (∀ x, 0 ≤ disk x < 2 ^ 8) →
  load8 (copy_disk disk n from to m) a =
    if bool_decide (to ≤ a < to + Z.of_nat n) then disk (from + (a - to)) else load8 m a.
Proof.
  intros Hb. induction n as [|n IH]; cbn [copy_disk]; [by rewrite bool_decide_false by lia|].
  destruct (decide (a = to + Z.of_nat n)) as [->|Hne].
  - rewrite load8_store8_eq, bool_decide_true by lia. unfold u8. rewrite Z.mod_small by apply Hb. f_equal. lia.
  - rewrite load8_store8_ne, IH by done. repeat case_bool_decide; (done || lia).
Qed.

Lemma word_bytes h l : 0 ≤ h < 2 ^ 8 → 0 ≤ l < 2 ^ 8 → hi8 (word h l) = h ∧ lo8 (word h l) = l.
Proof.
  intros Hh Hl. rewrite word_add by lia. unfold hi8, lo8, u8. rewrite Z.shiftr_div_pow2 by lia. Z.div_mod_to_equations. lia.
Qed.

Lemma bios_of_reads disk : (∀ x, 0 ≤ disk x < 2 ^ 8) → reads_disk (bios_of disk) disk.
Proof.
  intros Hb n cyl head sec es bx m a Hn Hc Hh Hs Ht He Hx Hf. unfold bios_of, SEC_PISTA in *.
  destruct (word_bytes 2 n) as [_ ->]; [lia..|]. destruct (word_bytes cyl sec) as [-> ->]; [lia..|].
  destruct (word_bytes head 0) as [-> _]; [lia..|]. rewrite load8_copy_disk, Z2Nat.id by (done || lia). done.
Qed.

(** ** The descriptor table *)

(** Base, last byte and privilege of the segment a descriptor describes. *)
Definition seg_base (d : Descriptor) : Z := lowBase d + 2 ^ 16 * midBase d + 2 ^ 24 * highBase d.
Definition seg_last (d : Descriptor) : Z :=
  let n := limit d + 2 ^ 16 * Z.land (flags2 d) 0xf in
  if Z.testbit (flags2 d) 7 then n * 2 ^ 12 + 0xfff else n.
Definition seg_dpl (d : Descriptor) : Z := Z.land (Z.shiftr (flags1 d) 5) 3.

(** The selectors of segment.h select flat segments of all 4 GB, code or data,
    with the privilege they ask for; that of the task state segment selects a
    free descriptor of one. *)
Lemma boot_gdt_selectors :
  Forall (λ '(sel, is_code), ∃ d, boot_gdt !! Z.to_nat (Z.shiftr sel 3) = Some d ∧ seg_base d = 0 ∧
      seg_last d = 2 ^ 32 - 1 ∧ seg_dpl d = Z.land sel 3 ∧ Z.testbit (flags1 d) 3 = is_code)
    [(KERNEL_CS, true); (KERNEL_DS, false); (USER_CS, true); (USER_DS, false)] ∧
  ∃ d, boot_gdt !! Z.to_nat (Z.shiftr KERNEL_TSS 3) = Some d ∧ Z.land (flags1 d) 0x1f = 9.
Proof. split; [repeat constructor; eexists; split_and!; vm_compute; reflexivity|eexists; split; vm_compute; reflexivity]. Qed.
