(* ===== verification/Bootsect.v ===== *)
(** bootsect.S from its first instruction to the jump into the kernel: the
    sector moves itself to 0x90000, prints its message, reads the system with
    the routine of [Loader], turns the A20 gate on, programs the interrupt
    controllers and enters protected mode.  The BIOS, the keyboard controller
    and the A20 line are parameters; what is written to the ports is recorded
    in order. *)

From S2P Require Import Prelude Memory Types Loader.
#[local] Open Scope Z_scope.

Definition BOOTSEG : Z := 0x07C0.
Definition INITSEG : Z := 0x9000.
Definition SYSSIZE : Z := 0x7F00.
Definition TEST_ADDR : Z := 0x7c.

(** ** The machine in real mode *)

(** The registers the sector uses: 16 bits wide, with the high halves of eax
    and ecx apart. *)
Record rregs : Type := RRegs {
  r_ax : Z; r_eaxh : Z; r_bx : Z; r_cx : Z; r_ecxh : Z; r_dx : Z; r_si : Z; r_di : Z; r_bp : Z; r_sp : Z;
  r_cs : Z; r_ds : Z; r_es : Z; r_ss : Z; r_gs : Z;
}.

Definition s_ax v r := RRegs v (r_eaxh r) (r_bx r) (r_cx r) (r_ecxh r) (r_dx r) (r_si r) (r_di r) (r_bp r) (r_sp r) (r_cs r) (r_ds r) (r_es r) (r_ss r) (r_gs r).
Definition s_eax v r := RRegs (u16 v) (u16 (Z.shiftr v 16)) (r_bx r) (r_cx r) (r_ecxh r) (r_dx r) (r_si r) (r_di r) (r_bp r) (r_sp r) (r_cs r) (r_ds r) (r_es r) (r_ss r) (r_gs r).
Definition s_bx v r := RRegs (r_ax r) (r_eaxh r) v (r_cx r) (r_ecxh r) (r_dx r) (r_si r) (r_di r) (r_bp r) (r_sp r) (r_cs r) (r_ds r) (r_es r) (r_ss r) (r_gs r).
Definition s_cx v r := RRegs (r_ax r) (r_eaxh r) (r_bx r) v (r_ecxh r) (r_dx r) (r_si r) (r_di r) (r_bp r) (r_sp r) (r_cs r) (r_ds r) (r_es r) (r_ss r) (r_gs r).
Definition s_ecx v r := RRegs (r_ax r) (r_eaxh r) (r_bx r) (u16 v) (u16 (Z.shiftr v 16)) (r_dx r) (r_si r) (r_di r) (r_bp r) (r_sp r) (r_cs r) (r_ds r) (r_es r) (r_ss r) (r_gs r).
Definition s_dx v r := RRegs (r_ax r) (r_eaxh r) (r_bx r) (r_cx r) (r_ecxh r) v (r_si r) (r_di r) (r_bp r) (r_sp r) (r_cs r) (r_ds r) (r_es r) (r_ss r) (r_gs r).
Definition s_si v r := RRegs (r_ax r) (r_eaxh r) (r_bx r) (r_cx r) (r_ecxh r) (r_dx r) v (r_di r) (r_bp r) (r_sp r) (r_cs r) (r_ds r) (r_es r) (r_ss r) (r_gs r).
Definition s_di v r := RRegs (r_ax r) (r_eaxh r) (r_bx r) (r_cx r) (r_ecxh r) (r_dx r) (r_si r) v (r_bp r) (r_sp r) (r_cs r) (r_ds r) (r_es r) (r_ss r) (r_gs r).
Definition s_bp v r := RRegs (r_ax r) (r_eaxh r) (r_bx r) (r_cx r) (r_ecxh r) (r_dx r) (r_si r) (r_di r) v (r_sp r) (r_cs r) (r_ds r) (r_es r) (r_ss r) (r_gs r).
Definition s_sp v r := RRegs (r_ax r) (r_eaxh r) (r_bx r) (r_cx r) (r_ecxh r) (r_dx r) (r_si r) (r_di r) (r_bp r) v (r_cs r) (r_ds r) (r_es r) (r_ss r) (r_gs r).
Definition s_cs v r := RRegs (r_ax r) (r_eaxh r) (r_bx r) (r_cx r) (r_ecxh r) (r_dx r) (r_si r) (r_di r) (r_bp r) (r_sp r) v (r_ds r) (r_es r) (r_ss r) (r_gs r).
Definition s_ds v r := RRegs (r_ax r) (r_eaxh r) (r_bx r) (r_cx r) (r_ecxh r) (r_dx r) (r_si r) (r_di r) (r_bp r) (r_sp r) (r_cs r) v (r_es r) (r_ss r) (r_gs r).
Definition s_es v r := RRegs (r_ax r) (r_eaxh r) (r_bx r) (r_cx r) (r_ecxh r) (r_dx r) (r_si r) (r_di r) (r_bp r) (r_sp r) (r_cs r) (r_ds r) v (r_ss r) (r_gs r).
Definition s_ss v r := RRegs (r_ax r) (r_eaxh r) (r_bx r) (r_cx r) (r_ecxh r) (r_dx r) (r_si r) (r_di r) (r_bp r) (r_sp r) (r_cs r) (r_ds r) (r_es r) v (r_gs r).
Definition s_gs v r := RRegs (r_ax r) (r_eaxh r) (r_bx r) (r_cx r) (r_ecxh r) (r_dx r) (r_si r) (r_di r) (r_bp r) (r_sp r) (r_cs r) (r_ds r) (r_es r) (r_ss r) v.

Definition r_ecx (r : rregs) : Z := 2 ^ 16 * r_ecxh r + r_cx r.
Definition r_eax (r : rregs) : Z := 2 ^ 16 * r_eaxh r + r_ax r.
Definition s_al v r := s_ax (word (hi8 (r_ax r)) v) r.
Definition s_ah v r := s_ax (word v (lo8 (r_ax r))) r.
Definition s_bh v r := s_bx (word v (lo8 (r_bx r))) r.
Definition s_ch v r := s_cx (word v (lo8 (r_cx r))) r.

Record rstate : Type := RState {
  bs_regs : rregs;
  bs_mem : memory;
  bs_if : bool;  (** the interrupt flag *)
  bs_cr0 : Z;
  bs_gdtr : Register;
  bs_idtr : Register;
  bs_eip : Z;  (** set by the jump out of the sector *)
  bs_out : list (Z * Z);  (** the bytes sent to the ports, in order *)
  bs_ins : nat;  (** how many bytes were read from the ports *)
  bs_video : list rregs;  (** the calls of the video BIOS *)
  bs_dots : list Z;  (** what read_track printed *)
}.

Definition put_regs v s := RState v (bs_mem s) (bs_if s) (bs_cr0 s) (bs_gdtr s) (bs_idtr s) (bs_eip s) (bs_out s) (bs_ins s) (bs_video s) (bs_dots s).
Definition put_mem v s := RState (bs_regs s) v (bs_if s) (bs_cr0 s) (bs_gdtr s) (bs_idtr s) (bs_eip s) (bs_out s) (bs_ins s) (bs_video s) (bs_dots s).
Definition put_if v s := RState (bs_regs s) (bs_mem s) v (bs_cr0 s) (bs_gdtr s) (bs_idtr s) (bs_eip s) (bs_out s) (bs_ins s) (bs_video s) (bs_dots s).
Definition put_cr0 v s := RState (bs_regs s) (bs_mem s) (bs_if s) v (bs_gdtr s) (bs_idtr s) (bs_eip s) (bs_out s) (bs_ins s) (bs_video s) (bs_dots s).
Definition put_gdtr v s := RState (bs_regs s) (bs_mem s) (bs_if s) (bs_cr0 s) v (bs_idtr s) (bs_eip s) (bs_out s) (bs_ins s) (bs_video s) (bs_dots s).
Definition put_idtr v s := RState (bs_regs s) (bs_mem s) (bs_if s) (bs_cr0 s) (bs_gdtr s) v (bs_eip s) (bs_out s) (bs_ins s) (bs_video s) (bs_dots s).
Definition put_eip v s := RState (bs_regs s) (bs_mem s) (bs_if s) (bs_cr0 s) (bs_gdtr s) (bs_idtr s) v (bs_out s) (bs_ins s) (bs_video s) (bs_dots s).
Definition put_out v s := RState (bs_regs s) (bs_mem s) (bs_if s) (bs_cr0 s) (bs_gdtr s) (bs_idtr s) (bs_eip s) v (bs_ins s) (bs_video s) (bs_dots s).
Definition put_ins v s := RState (bs_regs s) (bs_mem s) (bs_if s) (bs_cr0 s) (bs_gdtr s) (bs_idtr s) (bs_eip s) (bs_out s) v (bs_video s) (bs_dots s).
Definition put_video v s := RState (bs_regs s) (bs_mem s) (bs_if s) (bs_cr0 s) (bs_gdtr s) (bs_idtr s) (bs_eip s) (bs_out s) (bs_ins s) v (bs_dots s).
Definition put_dots v s := RState (bs_regs s) (bs_mem s) (bs_if s) (bs_cr0 s) (bs_gdtr s) (bs_idtr s) (bs_eip s) (bs_out s) (bs_ins s) (bs_video s) v.

Abbreviation B := (M rstate).

Ltac bred := cbn [r_ax r_eaxh r_bx r_cx r_ecxh r_dx r_si r_di r_bp r_sp r_cs r_ds r_es r_ss r_gs
  s_ax s_eax s_bx s_cx s_ecx s_dx s_si s_di s_bp s_sp s_cs s_ds s_es s_ss s_gs
  bs_regs bs_mem bs_if bs_cr0 bs_gdtr bs_idtr bs_eip bs_out bs_ins bs_video bs_dots
  put_regs put_mem put_if put_cr0 put_gdtr put_idtr put_eip put_out put_ins put_video put_dots].

Definition reg (r : rregs → Z) : B Z := gets (λ s, r (bs_regs s)).
Definition upd (f : rregs → rregs) : B unit := modify (λ s, put_regs (f (bs_regs s)) s).

(** Words in memory; segment and offset. *)
Definition load16 (m : memory) (a : Z) : Z := load8 m a + 2 ^ 8 * load8 m (a + 1).
Definition store16 (m : memory) (a v : Z) : memory := store8 (store8 m a v) (a + 1) (Z.shiftr v 8).
Definition seg (sel off : Z) : Z := 16 * sel + off.

Definition read16 (sel : rregs → Z) (off : Z) : B Z := gets (λ s, load16 (bs_mem s) (seg (sel (bs_regs s)) off)).
Definition write16 (sel : rregs → Z) (off v : Z) : B unit := modify (λ s, put_mem (store16 (bs_mem s) (seg (sel (bs_regs s)) off) v) s).

Definition push16 (v : Z) : B unit := upd (λ r, s_sp (u16 (r_sp r - 2)) r) ;! let! sp := reg r_sp in write16 r_ss sp v.
Definition pop16 : B Z := let! sp := reg r_sp in let! v := read16 r_ss sp in upd (s_sp (u16 (sp + 2))) ;! ret v.
Definition push32 (v : Z) : B unit := push16 (u16 (Z.shiftr v 16)) ;! push16 (u16 v).
Definition pop32 : B Z := let! l := pop16 in let! h := pop16 in ret (2 ^ 16 * h + l).

Definition out (port : Z) : B unit := modify (λ s, put_out (bs_out s ++ [(port, lo8 (r_ax (bs_regs s)))]) s).

(** The bytes from offset 435 of the sector on, where the source says [.org]:
    the descriptor table, [idt_48], [setup_sects], [syssize], [gdt_48] and
    the signature. *)
Definition gdt_bytes (d : Descriptor) : list Z :=
  [lo8 (limit d); hi8 (limit d); lo8 (lowBase d); hi8 (lowBase d); midBase d; flags1 d; flags2 d; highBase d].

Definition o_gdt : Z := 435.
Definition o_idt_48 : Z := o_gdt + 8 * 7.
Definition o_setup_sects : Z := o_idt_48 + 6.
Definition o_syssize : Z := o_setup_sects + 3.
Definition o_gdt_48 : Z := o_syssize + 2.

Definition sector_end (syssize : Z) : list Z :=
  concat (gdt_bytes <$> boot_gdt) ++ [0; 0; 0; 0; 0; 0] ++ [SETUPSECS; 0; 0] ++ [lo8 syssize; hi8 syssize] ++
  [lo8 0x8000; hi8 0x8000; lo8 o_gdt; hi8 o_gdt; 0x9; 0] ++ [0; 0] ++ [0x55; 0xAA].

(** ** The code *)

Section Bootsect.

(** The disk and video services of the BIOS; the bytes the ports answer, by
    port and number of the access; whether the A20 line is on at each test;
    the place of the message in the sector. *)
Context (int_0x13 : Z → Z → Z → Z → Z → memory → memory) (int_0x10_bios : rregs → rregs).
Context (ports : Z → nat → Z) (a20 : nat → bool) (msg1 : Z).
Context (fuel : nat).

Definition in_al (port : Z) : B unit :=
  let! n := gets bs_ins in
  upd (s_al (u8 (ports port n))) ;!
  modify (put_ins (S n)).

Definition int_0x10 : B unit :=
  modify (λ s, put_video (bs_video s ++ [bs_regs s]) (put_regs (int_0x10_bios (bs_regs s)) s)).

Definition movsw : B unit :=
  let! si := reg r_si in
  let! di := reg r_di in
  let! v := read16 r_ds si in
  write16 r_es di v ;!
  upd (s_si (u16 (si + 2))) ;!
  upd (s_di (u16 (di + 2))).

(** [rep], with the direction flag clear. *)
Definition rep_movsw : B unit :=
  let! n := reg r_cx in
  for_range (Z.to_nat n) 0 (λ _, movsw ;! upd (λ r, s_cx (u16 (r_cx r - 1)) r)).

Definition move_sector : B unit :=
  upd (s_ax BOOTSEG) ;!
  upd (λ r, s_ds (r_ax r) r) ;!
  upd (s_ax INITSEG) ;!
  upd (λ r, s_es (r_ax r) r) ;!
  upd (s_cx 256) ;!
  upd (λ r, s_si (u16 (r_si r - r_si r)) r) ;!
  upd (λ r, s_di (u16 (r_di r - r_di r)) r) ;!
  rep_movsw ;!
  upd (s_cs INITSEG).

Definition go : B unit :=
  upd (s_di (0x4000 - 12)) ;!
  upd (λ r, s_ds (r_ax r) r) ;!
  upd (λ r, s_ss (r_ax r) r) ;!
  upd (λ r, s_sp (r_di r) r).

Definition message : B unit :=
  upd (s_ah 0x03) ;!
  upd (s_bh 0) ;!
  int_0x10 ;!
  upd (s_cx 0xB) ;!
  upd (s_bx 0x0007) ;!
  upd (s_bp msg1) ;!
  upd (s_ax 0x1301) ;!
  int_0x10 ;!
  upd (s_ah 0x01) ;!
  upd (s_ch 0x30) ;!
  int_0x10.

(** [sread], [head] and [track] are words of the sector that start at zero. *)
Definition call_read_it : B unit := λ s,
  let r := bs_regs s in
  let m := bs_mem s in
  let setup_sects := load8 m (seg (r_ds r) o_setup_sects) in
  let syssize := load16 m (seg (r_ds r) o_syssize) in
  match read_it int_0x13 SEC_PISTA setup_sects syssize fuel (LState (r_ax r) (r_bx r) (r_cx r) (r_es r) 0 0 0 m (bs_dots s)) with
  | None => Fault OutOfFuel
  | Some l => Ret tt (put_dots (l_screen l) (put_mem (l_mem l)
      (put_regs (s_ax (l_ax l) (s_bx (l_bx l) (s_cx (l_cx l) (s_es (l_es l) r)))) s)))
  end.

Definition kill_motor : B unit :=
  let! dx := reg r_dx in
  push16 dx ;!
  upd (s_dx 0x3f2) ;!
  upd (s_al 0) ;!
  let! port := reg r_dx in
  out port ;!
  let! dx := pop16 in
  upd (s_dx dx).

Definition load_system : B unit :=
  upd (s_ax SYSSEG) ;!
  upd (λ r, s_es (r_ax r) r) ;!
  call_read_it ;!
  kill_motor.

Fixpoint empty_8042_loop (fuel : nat) : B unit :=
  match fuel with
  | O => fail OutOfFuel
  | S fuel =>
      upd (λ r, s_ecx (u32 (r_ecx r - 1)) r) ;!
      let! ecx := reg r_ecx in
      if ecx =? 0 then ret tt else
      in_al 0x64 ;!
      let! ax := reg r_ax in
      if Z.testbit ax 0 then in_al 0x60 ;! empty_8042_loop fuel
      else if Z.testbit ax 1 then empty_8042_loop fuel else ret tt
  end.

Definition empty_8042 : B unit :=
  let! ecx := reg r_ecx in
  push32 ecx ;!
  upd (s_ecx 0xFFFFFF) ;!
  empty_8042_loop fuel ;!
  let! ecx := pop32 in
  upd (s_ecx ecx).

(** No interrupts, no NMI, A20 on. *)
Definition enable_a20 : B unit :=
  modify (put_if false) ;!
  upd (s_al 0x80) ;!
  out 0x70 ;!
  empty_8042 ;!
  upd (s_al 0xD1) ;!
  out 0x64 ;!
  empty_8042 ;!
  upd (s_al 0xDF) ;!
  out 0x60 ;!
  empty_8042.

(** With the line off bit 20 of an address is zero. *)
Definition a20_line (on : bool) (a : Z) : Z := if on then a else Z.clearbit a 20.

Fixpoint a20_wait (fuel i : nat) : B unit :=
  match fuel with
  | O => fail OutOfFuel
  | S fuel =>
      upd (λ r, s_ax (u16 (r_ax r + 1)) r) ;!
      let! ax := reg r_ax in
      write16 r_ds TEST_ADDR ax ;!
      let! v := gets (λ s, load16 (bs_mem s) (a20_line (a20 i) (seg (r_gs (bs_regs s)) (TEST_ADDR + 0x10)))) in
      if ax =? v then a20_wait fuel (S i) else ret tt
  end.

Definition test_a20 : B unit :=
  let! ds := reg r_ds in
  push16 ds ;!
  upd (s_ax 0) ;!
  upd (λ r, s_ds (r_ax r) r) ;!
  upd (λ r, s_ax (u16 (r_ax r - 1)) r) ;!
  upd (λ r, s_gs (r_ax r) r) ;!
  let! v := read16 r_ds TEST_ADDR in
  upd (s_bx v) ;!
  a20_wait fuel 0 ;!
  let! bx := reg r_bx in
  write16 r_ds TEST_ADDR bx ;!
  let! ds := pop16 in
  upd (s_ds ds).

Definition program_pics : B unit :=
  upd (s_al 0x11) ;!
  out 0x20 ;!
  out 0xA0 ;!
  upd (s_al 0x20) ;!
  out 0x21 ;!
  upd (s_al 0x28) ;!
  out 0xA1 ;!
  upd (s_al 0x04) ;!
  out 0x21 ;!
  upd (s_al 0x02) ;!
  out 0xA1 ;!
  upd (s_al 0x01) ;!
  out 0x21 ;!
  out 0xA1 ;!
  upd (s_al 0xFF) ;!
  out 0xA1 ;!
  upd (s_al 0xFB) ;!
  out 0x21.

(** lidt and lgdt with 16-bit operands load 24 bits of the base. *)
Definition read48 (m : memory) (a : Z) : Register :=
  MkRegister (load16 m a) (Z.land (load32 m (a + 2)) 0xffffff).

Definition protected_mode : B unit :=
  upd (λ r, s_ax (r_cs r) r) ;!
  upd (λ r, s_ds (r_ax r) r) ;!
  modify (λ s, put_idtr (read48 (bs_mem s) (seg (r_ds (bs_regs s)) o_idt_48)) s) ;!
  modify (λ s, put_gdtr (read48 (bs_mem s) (seg (r_ds (bs_regs s)) o_gdt_48)) s) ;!
  upd (s_eax 1) ;!
  modify (λ s, put_cr0 (r_eax (bs_regs s)) s) ;!
  upd (s_cs KERNEL_CS) ;!
  modify (put_eip 0x10010).

Definition bootsect : B unit :=
  move_sector ;!
  go ;!
  message ;!
  load_system ;!
  enable_a20 ;!
  test_a20 ;!
  program_pics ;!
  protected_mode.

(** ** The sector moves *)

Lemma load16_range m a : 0 ≤ load16 m a < 2 ^ 16.
Proof. unfold load16. pose proof (load8_range m a). pose proof (load8_range m (a + 1)). lia. Qed.

Lemma frame_store16 (P : Z → Prop) m a v : P a → P (a + 1) → frame P m (store16 m a v).
Proof. intros H0 H1. unfold store16. eapply frame_trans; by apply frame_store8. Qed.

Lemma load8_store16 m a v b :
  load8 (store16 m a v) b = if decide (b = a) then lo8 v else if decide (b = a + 1) then hi8 v else load8 m b.
Proof.
  unfold store16, lo8, hi8.
  destruct (decide (b = a + 1)) as [->|H1]; [rewrite decide_False by lia; by rewrite load8_store8_eq|].
  rewrite load8_store8_ne by done. destruct (decide (b = a)) as [->|H0]; [by rewrite load8_store8_eq|by rewrite load8_store8_ne].
Qed.

Lemma load16_bytes m a : lo8 (load16 m a) = load8 m a ∧ hi8 (load16 m a) = load8 m (a + 1).
Proof.
  pose proof (load8_range m a). pose proof (load8_range m (a + 1)). unfold load16, lo8, hi8, u8.
  rewrite Z.shiftr_div_pow2 by lia. Z.div_mod_to_equations. lia.
Qed.

Lemma load16_store16 m a v : load16 (store16 m a v) a = u16 v.
Proof.
  unfold load16. rewrite !load8_store16, !decide_True, decide_False, decide_True by (done || lia).
  unfold lo8, hi8, u8, u16. rewrite Z.shiftr_div_pow2 by lia. Z.div_mod_to_equations. lia.
Qed.

(** After [i] words. *)
Definition moved (m0 : memory) (i : Z) (m : memory) : Prop :=
  ∀ a, load8 m a = if bool_decide (0x90000 ≤ a < 0x90000 + 2 * i) then load8 m0 (a - 0x90000 + 0x7c00) else load8 m0 a.

Lemma moved_step m0 i m : 0 ≤ i < 256 → moved m0 i m →
  moved m0 (i + 1) (store16 m (seg INITSEG (2 * i)) (load16 m (seg BOOTSEG (2 * i)))).
Proof.
  intros Hi Hm a. rewrite load8_store16. destruct (load16_bytes m (seg BOOTSEG (2 * i))) as [-> ->].
  unfold seg, INITSEG, BOOTSEG. rewrite !Hm. repeat case_decide; repeat case_bool_decide; subst; try lia; try done; f_equal; lia.
Qed.

Lemma wp_move_sector s R :
  let r := bs_regs s in
  (∀ m, moved (bs_mem s) 256 m →
     R tt (put_mem m (put_regs (RRegs INITSEG (r_eaxh r) (r_bx r) 0 (r_ecxh r) (r_dx r) 512 512 (r_bp r) (r_sp r)
       INITSEG BOOTSEG INITSEG (r_ss r) (r_gs r)) s))) →
  wp move_sector s R.
Proof.
  intros r HR. unfold move_sector. do 7 apply wp_bind, wp_modify. bred. rewrite !Z.sub_diag. change (u16 0) with 0.
  apply wp_bind. unfold rep_movsw. apply wp_bind, wp_gets. bred.
  set (I := λ i (t : rstate), ∃ m, moved (bs_mem s) i m ∧
    t = put_mem m (put_regs (RRegs INITSEG (r_eaxh r) (r_bx r) (256 - i) (r_ecxh r) (r_dx r) (2 * i) (2 * i) (r_bp r) (r_sp r)
       (r_cs r) BOOTSEG INITSEG (r_ss r) (r_gs r)) s)).
  eapply wp_mono; [apply (wp_for_range _ I)|].
  - exists (bs_mem s). split; [intros a; by rewrite bool_decide_false by lia|by destruct s as [[]]].
  - intros i t Hi (m & Hm & ->). change (Z.of_nat (Z.to_nat 256)) with 256 in Hi.
    unfold movsw, reg, read16, write16, upd. unfold wp, bind, gets, modify. bred. unfold I.
    eexists. split; [apply moved_step; [lia|exact Hm]|]. bred. rewrite !u16_small by lia.
    replace (256 - i - 1) with (256 - (i + 1)) by lia. by replace (2 * i + 2) with (2 * (i + 1)) by lia.
  - intros [] t (m & Hm & ->). change (0 + Z.of_nat (Z.to_nat 256)) with 256 in *. apply wp_modify. bred. by apply HR.
Qed.

(** ** Steps on the sector's stack *)

Definition stack_area (a : Z) : Prop := 0x93f00 ≤ a < 0x93ff4.

(** The sector runs at 0x90000 with [n] bytes on its stack. *)
Record in_sector (n : Z) (s : rstate) : Prop := {
  is_cs : r_cs (bs_regs s) = INITSEG;
  is_ss : r_ss (bs_regs s) = INITSEG;
  is_sp : r_sp (bs_regs s) = 0x3ff4 - n;
}.

(** From [s] to [s'] the bytes [o] were sent and the video calls [v] made;
    only the stack was written. *)
Record stepped (o : list (Z * Z)) (v : list rregs) (s s' : rstate) : Prop := {
  st_cs : r_cs (bs_regs s') = r_cs (bs_regs s);
  st_ss : r_ss (bs_regs s') = r_ss (bs_regs s);
  st_ds : r_ds (bs_regs s') = r_ds (bs_regs s);
  st_mem : frame stack_area (bs_mem s) (bs_mem s');
  st_if : bs_if s' = bs_if s;
  st_out : bs_out s' = bs_out s ++ o;
  st_video : bs_video s' = bs_video s ++ v;
}.

Lemma stepped_refl s : stepped [] [] s s.
Proof. split; try done; by rewrite app_nil_r. Qed.

Lemma stepped_trans o1 o2 v1 v2 s s1 s2 :
  stepped o1 v1 s s1 → stepped o2 v2 s1 s2 → stepped (o1 ++ o2) (v1 ++ v2) s s2.
Proof.
  intros [] []. split; try congruence; [by eapply frame_trans|..]; rewrite app_assoc; congruence.
Qed.

Lemma wp_upd f s (R : unit → rstate → Prop) : R tt (put_regs (f (bs_regs s)) s) → wp (upd f) s R.
Proof. done. Qed.

(** [v] is on the stack. *)
Definition top_word (n v : Z) (m : memory) : Prop := load16 m (seg INITSEG (0x3ff4 - n)) = v.

Lemma wp_push16 n v s R :
  in_sector n s → 0 ≤ n < 0xf0 →
  (∀ s', in_sector (n + 2) s' → stepped [] [] s s' → top_word (n + 2) (u16 v) (bs_mem s') →
     frame (in_range (seg INITSEG (0x3ff4 - n - 2)) 2) (bs_mem s) (bs_mem s') →
     bs_regs s' = s_sp (0x3ff4 - n - 2) (bs_regs s) → R tt s') →
  wp (push16 v) s R.
Proof.
  intros [Hc Hs Hp] Hn HR. unfold push16. apply wp_bind, wp_upd, wp_bind, wp_gets. unfold write16. apply wp_modify. bred.
  rewrite Hs, Hp, u16_small by lia. apply HR; bred.
  - split; bred; [done|done|lia].
  - split; bred; try done; [|by rewrite app_nil_r..]. apply frame_store16; unfold stack_area, seg, INITSEG; lia.
  - unfold top_word. replace (0x3ff4 - (n + 2)) with (0x3ff4 - n - 2) by lia. apply load16_store16.
  - apply frame_store16; unfold in_range; lia.
  - done.
Qed.

Lemma wp_pop16 n s R :
  in_sector n s → 2 ≤ n < 0xf0 →
  (let v := load16 (bs_mem s) (seg INITSEG (0x3ff4 - n)) in
   ∀ s', in_sector (n - 2) s' → stepped [] [] s s' → bs_mem s' = bs_mem s →
     bs_regs s' = s_sp (0x3ff4 - n + 2) (bs_regs s) → R v s') →
  wp pop16 s R.
Proof.
  intros [Hc Hs Hp] Hn HR. unfold pop16. apply wp_bind, wp_gets. unfold read16. apply wp_bind, wp_gets, wp_bind, wp_upd, wp_ret. bred.
  rewrite Hs, Hp, u16_small by lia. apply HR; bred; [split; bred; [done|done|lia]| |done|done].
  split; bred; try done; by rewrite app_nil_r.
Qed.

Lemma lo8_al v r : 0 ≤ v < 2 ^ 8 → lo8 (r_ax (s_al v r)) = v.
Proof.
  intros Hv. unfold s_al. bred. apply (word_bytes (hi8 (r_ax r)) v); [|done]. unfold hi8, u8. apply Z.mod_pos_bound. lia.
Qed.

(** A register that is neither cs, ss nor ds. *)
Lemma wp_general f n s R :
  in_sector n s → (∀ r, r_cs (f r) = r_cs r ∧ r_ss (f r) = r_ss r ∧ r_ds (f r) = r_ds r ∧ r_sp (f r) = r_sp r) →
  (∀ s', in_sector n s' → stepped [] [] s s' → bs_regs s' = f (bs_regs s) → bs_mem s' = bs_mem s → R tt s') → wp (upd f) s R.
Proof.
  intros [Hc Hs Hp] Hf HR. destruct (Hf (bs_regs s)) as (F1 & F2 & F3 & F4). apply wp_upd, HR; [| |done|done].
  - split; bred; congruence.
  - split; bred; try done; by rewrite app_nil_r.
Qed.

Lemma wp_out {A} port n v (k : B A) s R :
  in_sector n s → lo8 (r_ax (bs_regs s)) = v →
  (∀ s', in_sector n s' → stepped [(port, v)] [] s s' → lo8 (r_ax (bs_regs s')) = v → wp k s' R) →
  wp (out port ;! k) s R.
Proof.
  intros [Hc Hs Hp] Hv HR. unfold out. apply wp_bind, wp_modify. rewrite Hv. apply HR; [by split| |done].
  split; bred; try done. by rewrite app_nil_r.
Qed.

Lemma wp_al_out {A} v port n (k : B A) s R :
  in_sector n s → 0 ≤ v < 2 ^ 8 →
  (∀ s', in_sector n s' → stepped [(port, v)] [] s s' → lo8 (r_ax (bs_regs s')) = v → wp k s' R) →
  wp (upd (s_al v) ;! out port ;! k) s R.
Proof.
  intros Hi Hv HR. apply wp_bind. eapply (wp_general _ n); [done|done|]. intros s1 H1 S1 E1 _.
  apply (wp_out port n v); [done|by rewrite E1, lo8_al|]. intros s2 H2 S2 Hl. apply HR; [done| |done].
  exact (stepped_trans _ _ _ _ _ _ _ S1 S2).
Qed.

Lemma wp_kill_motor s R :
  in_sector 0 s → (∀ s', in_sector 0 s' → stepped [(0x3f2, 0)] [] s s' → R tt s') → wp kill_motor s R.
Proof.
  intros Hi HR. unfold kill_motor. apply wp_bind, wp_gets, wp_bind, (wp_push16 0); [done|lia|]. intros s1 H1 S1 _ _ _.
  apply wp_bind. eapply (wp_general _ 2); [done|done|]. intros s2 H2 S2 E2 _.
  apply wp_bind. eapply (wp_general _ 2); [done|done|]. intros s3 H3 S3 E3 _. apply wp_bind, wp_gets.
  assert (Ed : r_dx (bs_regs s3) = 0x3f2) by (rewrite E3; unfold s_al; bred; rewrite E2; done). rewrite Ed.
  apply (wp_out _ 2 0); [done|by rewrite E3, lo8_al by lia|]. intros s4 H4 S4 _.
  apply wp_bind, (wp_pop16 2); [done|lia|]. intros v s5 H5 S5 _ _.
  eapply (wp_general _ 0); [done|done|]. intros s6 H6 S6 _ _. apply HR; [done|].
  exact (stepped_trans _ _ _ _ _ _ _ S1 (stepped_trans _ _ _ _ _ _ _ S2 (stepped_trans _ _ _ _ _ _ _ S3
    (stepped_trans _ _ _ _ _ _ _ S4 (stepped_trans _ _ _ _ _ _ _ S5 S6))))).
Qed.

(** ** The keyboard controller *)

Lemma wp_in_al port n s R :
  in_sector n s → (∀ s', in_sector n s' → stepped [] [] s s' → r_ecx (bs_regs s') = r_ecx (bs_regs s) → bs_mem s' = bs_mem s → R tt s') →
  wp (in_al port) s R.
Proof.
  intros Hi HR. unfold in_al. apply wp_bind, wp_gets, wp_bind. eapply (wp_general _ n); [done|done|]. intros s1 [] [] E1 Em.
  apply wp_modify, HR; [by split|by split|bred; rewrite E1; by destruct (bs_regs s)|done].
Qed.

(** Whatever the controller answers, the loop ends: the counter runs out. *)
Lemma wp_empty_8042_loop fl n s R :
  in_sector n s → 0 < r_ecx (bs_regs s) < 2 ^ 32 → r_ecx (bs_regs s) ≤ Z.of_nat fl →
  (∀ s', in_sector n s' → stepped [] [] s s' → bs_mem s' = bs_mem s → R tt s') → wp (empty_8042_loop fl) s R.
Proof.
  revert s. induction fl as [|fl IH]; intros s Hi Hc Hf HR; [lia|]. cbn [empty_8042_loop].
  apply wp_bind. eapply (wp_general _ n); [done|done|]. intros s1 H1 S1 E1 M1. apply wp_bind, wp_gets.
  assert (Ec : r_ecx (bs_regs s1) = r_ecx (bs_regs s) - 1).
  { rewrite E1. unfold s_ecx at 1, r_ecx at 1. bred. rewrite u32_small by lia. unfold u16. rewrite Z.shiftr_div_pow2 by lia. Z.div_mod_to_equations. lia. }
  destruct (Z.eqb_spec (r_ecx (bs_regs s1)) 0) as [E0|E0]; [by apply wp_ret, HR|].
  assert (Hgo : ∀ s', in_sector n s' → stepped [] [] s s' → bs_mem s' = bs_mem s → r_ecx (bs_regs s') = r_ecx (bs_regs s) - 1 → wp (empty_8042_loop fl) s' R).
  { intros s' H' S' M' E'. apply IH; [done|lia|lia|]. intros s2 H2 S2 M2. apply HR; [done| |congruence]. exact (stepped_trans _ _ _ _ _ _ _ S' S2). }
  apply wp_bind, (wp_in_al _ n); [done|]. intros s2 H2 S2 E2 M2. apply wp_bind, wp_gets.
  pose proof (stepped_trans _ _ _ _ _ _ _ S1 S2) as S12.
  destruct (Z.testbit _ 0); [|destruct (Z.testbit _ 1)].
  - apply wp_bind, (wp_in_al _ n); [done|]. intros s3 H3 S3 E3 M3. apply Hgo; [done|exact (stepped_trans _ _ _ _ _ _ _ S12 S3)|congruence|congruence].
  - apply Hgo; [done|exact S12|congruence|congruence].
  - apply wp_ret, HR; [done|exact S12|congruence].
Qed.

Lemma wp_empty_8042 s R :
  in_sector 0 s → 0xFFFFFF ≤ Z.of_nat fuel → (∀ s', in_sector 0 s' → stepped [] [] s s' → R tt s') → wp empty_8042 s R.
Proof.
  intros Hi Hf HR. unfold empty_8042. apply wp_bind, wp_gets, wp_bind. unfold push32.
  apply wp_bind, (wp_push16 0); [done|lia|]. intros s1 H1 S1 _ _ _. apply (wp_push16 2); [done|lia|]. intros s2 H2 S2 _ _ _.
  apply wp_bind. eapply (wp_general _ 4); [done|done|]. intros s3 H3 S3 E3 _.
  apply wp_bind, (wp_empty_8042_loop _ 4); [done|rewrite E3; vm_compute; done|rewrite E3; exact Hf|]. intros s4 H4 S4 _.
  apply wp_bind. unfold pop32. apply wp_bind, (wp_pop16 4); [done|lia|]. intros l s5 H5 S5 _ _.
  apply wp_bind, (wp_pop16 2); [done|lia|]. intros h s6 H6 S6 _ _. apply wp_ret.
  eapply (wp_general _ 0); [done|done|]. intros s7 H7 S7 _ _. apply HR; [done|].
  exact (stepped_trans _ _ _ _ _ _ _ S1 (stepped_trans _ _ _ _ _ _ _ S2 (stepped_trans _ _ _ _ _ _ _ S3
    (stepped_trans _ _ _ _ _ _ _ S4 (stepped_trans _ _ _ _ _ _ _ S5 (stepped_trans _ _ _ _ _ _ _ S6 S7)))))).
Qed.

Definition a20_ports : list (Z * Z) := [(0x70, 0x80); (0x64, 0xD1); (0x60, 0xDF)].

Lemma wp_enable_a20 s R :
  in_sector 0 s → 0xFFFFFF ≤ Z.of_nat fuel →
  (∀ s', in_sector 0 s' → stepped a20_ports [] (put_if false s) s' → R tt s') → wp enable_a20 s R.
Proof.
  intros Hi Hf HR. unfold enable_a20. apply wp_bind, wp_modify.
  assert (H0 : in_sector 0 (put_if false s)) by (by destruct Hi).
  apply (wp_al_out 0x80 _ 0); [done|lia|]. intros s1 H1 S1 _. apply wp_bind, wp_empty_8042; [done|done|]. intros s2 H2 S2.
  apply (wp_al_out 0xD1 _ 0); [done|lia|]. intros s3 H3 S3 _. apply wp_bind, wp_empty_8042; [done|done|]. intros s4 H4 S4.
  apply (wp_al_out 0xDF _ 0); [done|lia|]. intros s5 H5 S5 _.
  apply wp_empty_8042; [done|done|]. intros s' H' S'. apply HR; [done|].
  exact (stepped_trans _ _ _ _ _ _ _ S1 (stepped_trans _ _ _ _ _ _ _ S2 (stepped_trans _ _ _ _ _ _ _ S3
    (stepped_trans _ _ _ _ _ _ _ S4 (stepped_trans _ _ _ _ _ _ _ S5 S'))))).
Qed.

(** ** The A20 line *)

(** From the test [k] on the line is on. *)
Context (k : nat) (Ha20 : ∀ i, (k ≤ i)%nat → a20 i = true).

(** With the line off the two addresses are the same and the loop goes on;
    with it on, the word above 1 MB does not change and ax does. *)
Lemma wp_a20_wait fl i t R :
  let r := bs_regs t in let w := load16 (bs_mem t) 0x10007c in
  r_ds r = 0 → r_gs r = 0xffff → 
  (k - i + (if decide (i < k)%nat then 2 else if decide (u16 (r_ax r + 1) = w) then 2 else 1) ≤ fl)%nat →
  (∀ m v, frame (in_range TEST_ADDR 2) (bs_mem t) m → R tt (put_mem m (put_regs (s_ax v r) t))) →
  wp (a20_wait fl i) t R.
Proof.
  revert i t. induction fl as [|fl IH]; intros i t r w Hds Hgs Hfl HR; [repeat case_decide; lia|]. cbn [a20_wait].
  apply wp_bind, wp_upd, wp_bind, wp_gets. unfold write16. apply wp_bind, wp_modify, wp_bind, wp_gets. bred. fold r. rewrite Hds, Hgs.
  change (seg 0 TEST_ADDR) with TEST_ADDR. change (seg 0xffff (TEST_ADDR + 0x10)) with 0x10007c. set (v := u16 (r_ax r + 1)).
  set (m := store16 (bs_mem t) TEST_ADDR v).
  assert (Hf : frame (in_range TEST_ADDR 2) (bs_mem t) m) by (apply frame_store16; unfold in_range; lia).
  assert (Hw : load16 m 0x10007c = w).
  { unfold load16. rewrite !Hf; [done|unfold in_range, TEST_ADDR; lia..]. }
  assert (Hv : 0 ≤ v < 2 ^ 16) by (by apply Z.mod_pos_bound).
  assert (Hgo : (k - S i + (if decide (S i < k)%nat then 2 else if decide (u16 (v + 1) = w) then 2 else 1) ≤ fl)%nat →
    wp (a20_wait fl (S i)) (put_mem m (put_regs (s_ax v r) t)) R).
  { intros Hfl'. apply IH; bred; [done|done|rewrite Hw; exact Hfl'|]. intros m' v' Hf'. specialize (HR m' v').
    bred. apply HR. by eapply frame_trans. }
  assert (Hn : u16 (v + 1) ≠ v) by (unfold u16; Z.div_mod_to_equations; lia).
  destruct (a20 i) eqn:Ea; cbn [a20_line].
  - rewrite Hw. destruct (Z.eqb_spec v w) as [Ev|Ev]; [|by apply wp_ret, HR].
    apply Hgo. rewrite <- Ev. clear Hgo. fold v in Hfl. rewrite <- Ev in Hfl. clear - Hfl Hn. repeat case_decide; (congruence || lia).
  - assert (Hik : (i < k)%nat) by (destruct (decide (i < k)%nat); [done|rewrite Ha20 in Ea by lia; done]).
    change (Z.clearbit 0x10007c 20) with TEST_ADDR. unfold m at 1. rewrite load16_store16. unfold u16. rewrite (Z.mod_small v) by done.
    rewrite Z.eqb_refl. apply Hgo. clear - Hfl Hik. repeat case_decide; lia.
Qed.

(** Putting back the two bytes that were tested. *)
Lemma restore_word m0 m a :
  frame (in_range a 2) m0 m → ∀ b, load8 (store16 m a (load16 m0 a)) b = load8 m0 b.
Proof.
  intros Hf b. rewrite load8_store16. destruct (load16_bytes m0 a) as [-> ->].
  repeat case_decide; subst; [done..|]. apply Hf. unfold in_range. lia.
Qed.

Lemma wp_test_a20 s R :
  in_sector 0 s → r_ds (bs_regs s) = INITSEG → (k + 2 ≤ fuel)%nat →
  (∀ s', in_sector 0 s' → stepped [] [] s s' → R tt s') → wp test_a20 s R.
Proof.
  intros Hi Hds Hfl HR. unfold test_a20. apply wp_bind, wp_gets, wp_bind, (wp_push16 0); [done|lia|].
  intros s1 [C1 X1 P1] S1 T1 _ _. do 4 apply wp_bind, wp_upd. bred. unfold read16. apply wp_bind, wp_gets, wp_bind, wp_upd. bred.
  change (seg 0 TEST_ADDR) with TEST_ADDR. change (u16 (0 - 1)) with 0xffff.
  apply wp_bind, wp_a20_wait; bred; [done|done|repeat case_decide; lia|]. intros m v Hf. apply wp_bind, wp_gets. bred.
  unfold write16. apply wp_bind, wp_modify. bred. change (seg 0 TEST_ADDR) with TEST_ADDR.
  pose proof (restore_word _ _ _ Hf) as Hm. set (m' := store16 m _ _) in *. clearbody m'.
  apply wp_bind, (wp_pop16 2); [by split|lia|]. bred. intros s2 [C2 X2 P2] S2 M2 E2. apply wp_upd.
  unfold top_word in T1. rewrite Hds in T1. cbn [Z.add] in T1. change (u16 INITSEG) with INITSEG in T1.
  assert (Ev : load16 m' (seg INITSEG (0x3ff4 - 2)) = INITSEG) by (etrans; [|exact T1]; unfold load16; by rewrite !Hm).
  rewrite Ev. bred. apply HR; [by split|]. destruct S1 as [A1 A2 A3 A4 A5 A6 A7], S2 as [B1 B2 B3 B4 B5 B6 B7].
  revert B1 B2 B5 B6 B7. bred. intros B1 B2 B5 B6 B7. split; bred; try congruence.
  - rewrite M2. bred. intros a Ha. rewrite Hm. by apply A4.
  - rewrite app_nil_r in *. congruence.
  - rewrite app_nil_r in *. congruence.
Qed.

(** ** The interrupt controllers *)

Definition pic_ports : list (Z * Z) :=
  [(0x20, 0x11); (0xA0, 0x11); (0x21, 0x20); (0xA1, 0x28); (0x21, 0x04); (0xA1, 0x02); (0x21, 0x01); (0xA1, 0x01);
   (0xA1, 0xFF); (0x21, 0xFB)].

Lemma wp_program_pics s R :
  in_sector 0 s → (∀ s', in_sector 0 s' → stepped pic_ports [] s s' → R tt s') → wp program_pics s R.
Proof.
  intros Hi HR. unfold program_pics.
  apply (wp_al_out 0x11 _ 0); [done|lia|]. intros s1 H1 S1 L1. apply (wp_out _ 0 0x11); [done|done|]. intros s2 H2 S2 _.
  apply (wp_al_out 0x20 _ 0); [done|lia|]. intros s3 H3 S3 _. apply (wp_al_out 0x28 _ 0); [done|lia|]. intros s4 H4 S4 _.
  apply (wp_al_out 0x04 _ 0); [done|lia|]. intros s5 H5 S5 _. apply (wp_al_out 0x02 _ 0); [done|lia|]. intros s6 H6 S6 _.
  apply (wp_al_out 0x01 _ 0); [done|lia|]. intros s7 H7 S7 L7. apply (wp_out _ 0 0x01); [done|done|]. intros s8 H8 S8 _.
  apply (wp_al_out 0xFF _ 0); [done|lia|]. intros s9 H9 S9 _.
  apply wp_bind. eapply (wp_general _ 0); [done|done|]. intros s10 [C X P] S10 E10 _. unfold out. apply wp_modify.
  rewrite E10, lo8_al by lia.
  assert (S11 : stepped [(0x21, 0xFB)] [] s10 (put_out (bs_out s10 ++ [(0x21, 0xFB)]) s10)) by (split; bred; rewrite ?app_nil_r; done).
  apply HR; [by split|].
  exact (stepped_trans _ _ _ _ _ _ _ S1 (stepped_trans _ _ _ _ _ _ _ S2 (stepped_trans _ _ _ _ _ _ _ S3 (stepped_trans _ _ _ _ _ _ _ S4
    (stepped_trans _ _ _ _ _ _ _ S5 (stepped_trans _ _ _ _ _ _ _ S6 (stepped_trans _ _ _ _ _ _ _ S7 (stepped_trans _ _ _ _ _ _ _ S8
    (stepped_trans _ _ _ _ _ _ _ S9 (stepped_trans _ _ _ _ _ _ _ S10 S11)))))))))).
Qed.

(** ** The message *)

(** The video BIOS keeps the segment registers and the stack pointer. *)
Context (Hvideo : ∀ r, let r' := int_0x10_bios r in
  r_cs r' = r_cs r ∧ r_ss r' = r_ss r ∧ r_ds r' = r_ds r ∧ r_sp r' = r_sp r ∧ r_es r' = r_es r).

Lemma wp_int_0x10 n s R :
  in_sector n s → (∀ s', in_sector n s' → stepped [] [bs_regs s] s s' → r_es (bs_regs s') = r_es (bs_regs s) → R tt s') →
  wp int_0x10 s R.
Proof.
  intros [Hc Hs Hp] HR. destruct (Hvideo (bs_regs s)) as (V1 & V2 & V3 & V4 & V5). apply wp_modify, HR; bred; [| |done].
  - split; bred; congruence.
  - split; bred; try done. by rewrite app_nil_r.
Qed.

(** A call to print [n] characters at es:bp, page 0, attribute 7. *)
Definition prints (n : Z) (es bp : Z) (r : rregs) : Prop :=
  r_ax r = 0x1301 ∧ r_bx r = 7 ∧ r_cx r = n ∧ r_es r = es ∧ r_bp r = bp.

Lemma wp_message s R :
  in_sector 0 s →
  (∀ s' r1 r2 r3, in_sector 0 s' → stepped [] [r1; r2; r3] s s' → prints 11 (r_es (bs_regs s)) msg1 r2 → R tt s') →
  wp message s R.
Proof.
  intros Hi HR. unfold message. do 2 apply wp_bind, wp_upd. set (s1 := put_regs _ _).
  assert (H1 : in_sector 0 s1) by (by destruct Hi). assert (S1 : stepped [] [] s s1) by (split; bred; rewrite ?app_nil_r; done).
  apply wp_bind, (wp_int_0x10 0); [done|]. intros s2 H2 S2 E2. do 4 apply wp_bind, wp_upd. set (s3 := put_regs _ _).
  assert (H3 : in_sector 0 s3) by (by destruct H2). assert (S3 : stepped [] [] s2 s3) by (split; bred; rewrite ?app_nil_r; done).
  apply wp_bind, (wp_int_0x10 0); [done|]. intros s4 H4 S4 E4. do 2 apply wp_bind, wp_upd. set (s5 := put_regs _ _).
  assert (H5 : in_sector 0 s5) by (by destruct H4). assert (S5 : stepped [] [] s4 s5) by (split; bred; rewrite ?app_nil_r; done).
  apply (wp_int_0x10 0); [done|]. intros s6 H6 S6 _.
  apply (HR s6 (bs_regs s1) (bs_regs s3) (bs_regs s5)); [done| |].
  - exact (stepped_trans _ _ _ _ _ _ _ S1 (stepped_trans _ _ _ _ _ _ _ S2 (stepped_trans _ _ _ _ _ _ _ S3
      (stepped_trans _ _ _ _ _ _ _ S4 (stepped_trans _ _ _ _ _ _ _ S5 S6))))).
  - unfold prints, s3. bred. split_and!; [done..| |done]. rewrite E2. done.
Qed.

(** ** The system *)

Definition boot_ports : list (Z * Z) := (0x3f2, 0) :: a20_ports ++ pic_ports.

Section Run.
Context (disk : Z → Z) (Hdisk : reads_disk int_0x13 disk) (syssize : Z) (Hsys : 0 ≤ syssize < 0x8000).
Context (s0 : rstate) (Hfuel : 0xFFFFFF ≤ Z.of_nat fuel) (Hk : (k + 2 ≤ fuel)%nat).
Context (Hend : ∀ i, (i < 77)%nat → load8 (bs_mem s0) (0x7c00 + o_gdt + Z.of_nat i) = nth i (sector_end syssize) 0).
Let n : Z := 0x10000 * (syssize / 0x1000 + 1).

(** The memory once the system has been read. *)
Record system_read (m : memory) : Prop := {
  sr_system : ∀ i, 0 ≤ i < n → load8 m (0x10000 + i) = disk (512 + i);
  sr_sector : ∀ i, 0 ≤ i < 512 → load8 m (0x90000 + i) = load8 (bs_mem s0) (0x7c00 + i);
  sr_rest : frame (λ a, in_range 0x10000 n a ∨ in_range 0x90000 512 a ∨ stack_area a) (bs_mem s0) m;
}.

Lemma system_read_stack m m' : system_read m → frame stack_area m m' → system_read m'.
Proof.
  assert (Hn : n ≤ 0x80000) by (unfold n; Z.div_mod_to_equations; lia).
  intros [H1 H2 H3] Hf. split.
  - intros i Hi. rewrite Hf by (unfold stack_area; lia). by apply H1.
  - intros i Hi. rewrite Hf by (unfold stack_area; lia). by apply H2.
  - eapply frame_trans; [exact H3|]. eapply frame_weaken; [|exact Hf]. auto.
Qed.

(** The bytes of the end of the sector. *)
Definition sector_in (m : memory) : Prop := ∀ i, 0 ≤ i < 512 → load8 m (0x90000 + i) = load8 (bs_mem s0) (0x7c00 + i).

Lemma sector_byte m i v : sector_in m → sector_end syssize !! i = Some v → load8 m (0x90000 + o_gdt + Z.of_nat i) = v.
Proof.
  intros Hm Hi. assert (Hl : (i < 77)%nat) by (apply lookup_lt_Some in Hi; exact Hi).
  rewrite <- (nth_lookup_Some _ _ 0 _ Hi), <- Hend by done. unfold o_gdt in *. rewrite <- !Z.add_assoc. apply Hm. lia.
Qed.

Lemma sector_moved m m1 : moved (bs_mem s0) 256 m → frame stack_area m m1 → sector_in m1.
Proof.
  intros Hm Hf i Hi. rewrite Hf by (unfold stack_area; lia). rewrite Hm, bool_decide_true by lia. f_equal. lia.
Qed.

Lemma wp_start R :
  (∀ s, in_sector 0 s → r_ds (bs_regs s) = INITSEG → r_es (bs_regs s) = INITSEG → moved (bs_mem s0) 256 (bs_mem s) →
     bs_out s = bs_out s0 → bs_video s = bs_video s0 → wp (message ;! load_system ;! enable_a20 ;! test_a20 ;! program_pics ;! protected_mode) s R) →
  wp bootsect s0 R.
Proof.
  intros HR. unfold bootsect. apply wp_bind, wp_move_sector. intros m Hm. apply wp_bind. unfold go.
  do 3 apply wp_bind, wp_upd. apply wp_upd. bred. by apply HR.
Qed.

Lemma sector_words m : sector_in m →
  load8 m (seg INITSEG o_setup_sects) = SETUPSECS ∧ load16 m (seg INITSEG o_syssize) = syssize ∧
  read48 m (seg INITSEG o_idt_48) = MkRegister 0 0 ∧ read48 m (seg INITSEG o_gdt_48) = MkRegister 0x8000 GDT_START.
Proof.
  intros Hm. pose proof (λ i v, sector_byte m i v Hm) as Hb.
  assert (E : seg INITSEG o_syssize = 0x90000 + o_gdt + Z.of_nat 65) by reflexivity. split_and!.
  - exact (Hb 62%nat 0 eq_refl).
  - unfold load16. rewrite E, (Hb 65%nat (lo8 syssize) eq_refl).
    replace (0x90000 + o_gdt + Z.of_nat 65 + 1) with (0x90000 + o_gdt + Z.of_nat 66) by lia.
    rewrite (Hb 66%nat (hi8 syssize) eq_refl). unfold lo8, hi8, u8. rewrite Z.shiftr_div_pow2 by lia. Z.div_mod_to_equations. lia.
  - unfold read48, load16, load32.
    rewrite (Hb 56%nat 0 eq_refl : load8 m (seg INITSEG o_idt_48) = 0), (Hb 57%nat 0 eq_refl : load8 m (seg INITSEG o_idt_48 + 1) = 0),
      (Hb 58%nat 0 eq_refl : load8 m (seg INITSEG o_idt_48 + 2) = 0), (Hb 59%nat 0 eq_refl : load8 m (seg INITSEG o_idt_48 + 2 + 1) = 0),
      (Hb 60%nat 0 eq_refl : load8 m (seg INITSEG o_idt_48 + 2 + 2) = 0), (Hb 61%nat 0 eq_refl : load8 m (seg INITSEG o_idt_48 + 2 + 3) = 0).
    reflexivity.
  - unfold read48, load16, load32.
    rewrite (Hb 67%nat 0 eq_refl : load8 m (seg INITSEG o_gdt_48) = 0), (Hb 68%nat 0x80 eq_refl : load8 m (seg INITSEG o_gdt_48 + 1) = 0x80),
      (Hb 69%nat 0xb3 eq_refl : load8 m (seg INITSEG o_gdt_48 + 2) = 0xb3), (Hb 70%nat 1 eq_refl : load8 m (seg INITSEG o_gdt_48 + 2 + 1) = 1),
      (Hb 71%nat 9 eq_refl : load8 m (seg INITSEG o_gdt_48 + 2 + 2) = 9), (Hb 72%nat 0 eq_refl : load8 m (seg INITSEG o_gdt_48 + 2 + 3) = 0).
    reflexivity.
Qed.

Lemma wp_load_system m s R :
  in_sector 0 s → r_ds (bs_regs s) = INITSEG → moved (bs_mem s0) 256 m → frame stack_area m (bs_mem s) →
  (∀ s', in_sector 0 s' → r_ds (bs_regs s') = INITSEG → system_read (bs_mem s') →
     bs_out s' = bs_out s ++ [(0x3f2, 0)] → bs_video s' = bs_video s → R tt s') →
  wp load_system s R.
Proof.
  intros [Hc Hs Hp] Hd Hm Hf HR. destruct (sector_words _ (sector_moved _ _ Hm Hf)) as (E1 & E2 & _).
  assert (Hn : n ≤ 0x80000) by (unfold n; Z.div_mod_to_equations; lia).
  unfold load_system. do 2 apply wp_bind, wp_upd. apply wp_bind. unfold wp at 1, call_read_it. bred. rewrite Hd, E1, E2.
  destruct (read_it_reads int_0x13 SEC_PISTA SETUPSECS syssize disk Hdisk eq_refl eq_refl Hsys (bs_mem s) fuel
    (LState SYSSEG (r_bx (bs_regs s)) (r_cx (bs_regs s)) SYSSEG 0 0 0 (bs_mem s) (bs_dots s))) as (l & El & Hr); [lia|done..|].
  rewrite El. set (s1 := put_dots _ _). assert (Hm1 : bs_mem s1 = l_mem l) by done.
  assert (Hsys1 : system_read (bs_mem s1)).
  { rewrite Hm1. pose proof (rd_mem _ _ _ _ Hr) as Hrd. split.
    - intros i Hi. rewrite Hrd, bool_decide_true by (unfold n in *; lia). f_equal. lia.
    - intros i Hi. rewrite Hrd, bool_decide_false by (unfold n in *; lia). by apply (sector_moved _ _ Hm Hf).
    - intros a Ha. rewrite Hrd, bool_decide_false by (unfold in_range, n in *; lia). rewrite Hf by tauto.
      rewrite Hm, bool_decide_false; [done|]. unfold in_range in Ha. lia. }
  apply wp_kill_motor; [by split|]. intros s2 H2 S2. destruct S2 as [A1 A2 A3 A4 A5 A6 A7]. apply HR; [done| |by eapply system_read_stack|exact A6|].
  - by rewrite A3.
  - by rewrite A7, app_nil_r.
Qed.

(** ** The 8259A *)

(** What the data sheet says of the words a controller takes: a byte with bit
    4 set on the first port starts the initialisation; the second port then
    takes the vector base, the wiring of the two controllers (unless there is
    one only) and, if bit 0 asked for it, the mode; after that, the mask. *)
Record pic : Type := Pic { icw_left : list nat; pic_base : Z; pic_wire : Z; pic_mode : Z; pic_imr : Z }.

Definition pic_command (v : Z) (p : pic) : pic :=
  if Z.testbit v 4
  then Pic ([2%nat] ++ (if Z.testbit v 1 then [] else [3%nat]) ++ (if Z.testbit v 0 then [4%nat] else [])) 0 0 0 0
  else p.

Definition pic_data (v : Z) (p : pic) : pic :=
  match icw_left p with
  | 2%nat :: l => Pic l (Z.land v 0xf8) (pic_wire p) (pic_mode p) (pic_imr p)
  | 3%nat :: l => Pic l (pic_base p) v (pic_mode p) (pic_imr p)
  | 4%nat :: l => Pic l (pic_base p) (pic_wire p) v (pic_imr p)
  | _ => Pic [] (pic_base p) (pic_wire p) (pic_mode p) v
  end.

(** A controller at [port] and [port + 1] sees the bytes sent there. *)
Definition pic_sees (port : Z) (o : list (Z * Z)) (p : pic) : pic :=
  foldl (λ p '(q, v), if q =? port then pic_command v p else if q =? port + 1 then pic_data v p else p) p o.

(** ** In protected mode *)

Definition descriptor_at (m : memory) (a : Z) : Descriptor :=
  MkDescriptor (load16 m a) (load16 m (a + 2)) (load8 m (a + 4)) (load8 m (a + 5)) (load8 m (a + 6)) (load8 m (a + 7)).

(** Where the boot sector leaves the machine. *)
Record kernel_entered (s' : rstate) : Prop := {
  ke_cs : r_cs (bs_regs s') = KERNEL_CS;
  ke_eip : bs_eip s' = 0x10010;
  ke_cr0 : bs_cr0 s' = 1;
  ke_if : bs_if s' = false;
  ke_idtr : bs_idtr s' = MkRegister 0 0;
  ke_gdtr : bs_gdtr s' = MkRegister 0x8000 GDT_START;
  ke_gdt : ∀ i d, boot_gdt !! i = Some d → descriptor_at (bs_mem s') (GDT_START + 8 * Z.of_nat i) = d;
  ke_out : bs_out s' = bs_out s0 ++ boot_ports;
  ke_pics : ∀ p, pic_sees 0x20 (bs_out s') p = Pic [] 0x20 4 1 0xFB ∧ pic_sees 0xA0 (bs_out s') p = Pic [] 0x28 2 1 0xFF;
  ke_message : ∃ r1 r2 r3, bs_video s' = bs_video s0 ++ [r1; r2; r3] ∧ prints 11 INITSEG msg1 r2;
  ke_system : system_read (bs_mem s');
}.

(** The clock, line 0 of the first controller, will be interrupt 32 and the
    keyboard interrupt 33; all lines but the second controller's are masked. *)
Lemma pics_programmed o p :
  pic_sees 0x20 (o ++ boot_ports) p = Pic [] 0x20 4 1 0xFB ∧ pic_sees 0xA0 (o ++ boot_ports) p = Pic [] 0x28 2 1 0xFF.
Proof. unfold pic_sees. rewrite !foldl_app. split; reflexivity. Qed.

Lemma gdt_loaded m i d :
  sector_in m → boot_gdt !! i = Some d → descriptor_at m (GDT_START + 8 * Z.of_nat i) = d.
Proof.
  intros Hm Hi. pose proof (λ j v, sector_byte m j v Hm) as Hb.
  assert (H8 : ∀ j v, gdt_bytes d !! j = Some v → load8 m (GDT_START + 8 * Z.of_nat i + Z.of_nat j) = v).
  { intros j v Hj. rewrite <- (Hb (8 * i + j)%nat v).
    - f_equal. unfold GDT_START, o_gdt. lia.
    - assert (Hj8 : (j < 8)%nat) by (apply lookup_lt_Some in Hj; exact Hj).
      assert (Hi7 : (i < 7)%nat) by (apply lookup_lt_Some in Hi; exact Hi). clear Hb.
      do 7 (destruct i as [|i]; [injection Hi as <-; do 8 (destruct j as [|j]; [exact Hj|]); lia|]). lia. }
  set (a := GDT_START + 8 * Z.of_nat i) in *. unfold descriptor_at, load16.
  replace (a + 2 + 1) with (a + 3) by lia. pose proof (H8 0%nat _ eq_refl : load8 m (a + 0) = _) as H0. rewrite Z.add_0_r in H0.
  rewrite H0, (H8 1%nat _ eq_refl : load8 m (a + 1) = _), (H8 2%nat _ eq_refl : load8 m (a + 2) = _),
    (H8 3%nat _ eq_refl : load8 m (a + 3) = _), (H8 4%nat _ eq_refl : load8 m (a + 4) = _),
    (H8 5%nat _ eq_refl : load8 m (a + 5) = _), (H8 6%nat _ eq_refl : load8 m (a + 6) = _), (H8 7%nat _ eq_refl : load8 m (a + 7) = _).
  clear - Hi. do 7 (destruct i as [|i]; [injection Hi as <-; reflexivity|]). done.
Qed.

Lemma wp_protected_mode s R :
  in_sector 0 s → sector_in (bs_mem s) →
  (∀ s', r_cs (bs_regs s') = KERNEL_CS → bs_eip s' = 0x10010 → bs_cr0 s' = 1 → bs_if s' = bs_if s →
     bs_idtr s' = MkRegister 0 0 → bs_gdtr s' = MkRegister 0x8000 GDT_START → bs_mem s' = bs_mem s →
     bs_out s' = bs_out s → bs_video s' = bs_video s → R tt s') →
  wp protected_mode s R.
Proof.
  intros [Hc Hs Hp] Hm HR. destruct (sector_words _ Hm) as (_ & _ & E3 & E4). unfold protected_mode.
  do 2 apply wp_bind, wp_upd. do 2 apply wp_bind, wp_modify. apply wp_bind, wp_upd, wp_bind, wp_modify, wp_bind, wp_upd, wp_modify. bred.
  apply HR; bred; rewrite ?Hc; done.
Qed.

Lemma wp_bootsect R : (∀ s', kernel_entered s' → R tt s') → wp bootsect s0 R.
Proof.
  intros HR. apply wp_start. intros s Hi Hd He Hm Ho Hv. apply wp_bind, wp_message; [done|].
  intros s1 r1 r2 r3 H1 S1 Hpr. rewrite He in Hpr. apply wp_bind, (wp_load_system (bs_mem s)); [done|by rewrite (st_ds _ _ _ _ S1)|done|apply S1|].
  intros s2 H2 D2 Y2 O2 V2. apply wp_bind, wp_enable_a20; [done|done|]. intros s3 H3 S3.
  apply wp_bind, wp_test_a20; [done|by rewrite (st_ds _ _ _ _ S3)|done|]. intros s4 H4 S4.
  apply wp_bind, wp_program_pics; [done|]. intros s5 H5 S5.
  pose proof (stepped_trans _ _ _ _ _ _ _ S3 (stepped_trans _ _ _ _ _ _ _ S4 S5)) as S.
  assert (Y5 : system_read (bs_mem s5)) by (eapply system_read_stack; [exact Y2|exact (st_mem _ _ _ _ S)]).
  pose proof (sr_sector _ Y5 : sector_in (bs_mem s5)) as N5.
  assert (Eo : bs_out s5 = bs_out s0 ++ boot_ports).
  { rewrite (st_out _ _ _ _ S). bred. by rewrite O2, (st_out _ _ _ _ S1), app_nil_r, Ho, <- app_assoc. }
  apply wp_protected_mode; [done|done|]. intros s' C' I' R0 F' T' G' M' O' V'. rewrite Eo in O'. apply HR. split; rewrite ?M', ?O'; try done.
  - by rewrite F', (st_if _ _ _ _ S).
  - intros i d. by apply gdt_loaded.
  - apply pics_programmed.
  - exists r1, r2, r3. split; [|done]. rewrite V', (st_video _ _ _ _ S). bred.
    by rewrite app_nil_r, V2, (st_video _ _ _ _ S1), Hv.
Qed.
End Run.
End Bootsect.

(** C31. The boot sector.  Loaded by the BIOS at 0x7c00 it moves to 0x90000,
    asks the BIOS to print its message, reads the system from the disk to
    0x10000 and stops the motor; then, whatever the keyboard controller
    answers and however long the A20 line takes, it programs the two
    interrupt controllers (interrupts 32 to 47, all masked but the cascade),
    loads the descriptor table registers with the tables it carries and jumps
    to 0x10010 in protected mode with interrupts off.  Of the memory only the
    system's segments, the sector's new place and its stack have changed. *)
Theorem bootsect_enters_kernel int_0x13 int_0x10_bios ports a20 msg1 fuel k disk syssize s :
  (∀ i, (k ≤ i)%nat → a20 i = true) →
  (∀ r, let r' := int_0x10_bios r in
     r_cs r' = r_cs r ∧ r_ss r' = r_ss r ∧ r_ds r' = r_ds r ∧ r_sp r' = r_sp r ∧ r_es r' = r_es r) →
  reads_disk int_0x13 disk → 0 ≤ syssize < 0x8000 → 0xFFFFFF ≤ Z.of_nat fuel → (k + 2 ≤ fuel)%nat →
  (∀ i, (i < 77)%nat → load8 (bs_mem s) (0x7c00 + o_gdt + Z.of_nat i) = nth i (sector_end syssize) 0) →
  ∃ s', bootsect int_0x13 int_0x10_bios ports a20 msg1 fuel s = Ret tt s' ∧ kernel_entered msg1 disk syssize s s'.
Proof.
  intros H1 H2 H3 H4 H5 H6 H7.
  destruct (wp_elim _ _ _ (wp_bootsect int_0x13 int_0x10_bios ports a20 msg1 fuel k H1 H2 disk H3 syssize H4 s H5 H6 H7
    (λ _ s', kernel_entered msg1 disk syssize s s') (λ _ H, H))) as ([] & s' & E & H). exists s'. exact (conj E H).
Qed.

(** A sector in memory, a controller that is always ready and a line that is
    on from the third test. *)
Definition sector_sample : memory := copy_disk (λ x, nth (Z.to_nat x) (sector_end 0x3000) 0) 77 0 (0x7c00 + o_gdt) ∅.

Lemma bootsect_enters_kernel_witness :
  ∃ s', bootsect (bios_of (λ x, x mod 2 ^ 8)) id (λ _ _, 0) (λ i, 2 <=? i)%nat 0x180 (Z.to_nat 0xFFFFFF)
      (RState (RRegs 0 0 0 0 0 0 0 0 0 0 BOOTSEG 0 0 0 0) sector_sample true 0 (MkRegister 0 0) (MkRegister 0 0) 0 [] 0 [] []) = Ret tt s' ∧
    bs_eip s' = 0x10010 ∧ load8 (bs_mem s') 0x3ffff = 0xff.
Proof.
  destruct (bootsect_enters_kernel (bios_of (λ x, x mod 2 ^ 8)) id (λ _ _, 0) (λ i, 2 <=? i)%nat 0x180 (Z.to_nat 0xFFFFFF) 2
    (λ x, x mod 2 ^ 8) 0x3000 (RState (RRegs 0 0 0 0 0 0 0 0 0 0 BOOTSEG 0 0 0 0) sector_sample true 0 (MkRegister 0 0) (MkRegister 0 0) 0 [] 0 [] []))
    as (s' & E & H).
  - intros i Hi. apply Nat.leb_le. exact Hi.
  - intros r. repeat split.
  - apply bios_of_reads. intros x. apply Z.mod_pos_bound. lia.
  - lia.
  - rewrite Z2Nat.id by lia. lia.
  - lia.
  - intros i Hi. unfold sector_sample. bred. rewrite load8_copy_disk.
    + rewrite bool_decide_true by lia. f_equal. lia.
    + intros x. assert (Hall : Forall (λ b, 0 ≤ b < 2 ^ 8) (sector_end 0x3000)) by (apply (bool_decide_unpack _); vm_compute; exact I).
      destruct (decide (Z.to_nat x < length (sector_end 0x3000))%nat) as [Hx|Hx].
      * rewrite Forall_forall in Hall. apply Hall, list_elem_of_In, nth_In. exact Hx.
      * rewrite nth_overflow by lia. lia.
  - exists s'. split; [exact E|]. split; [exact (ke_eip _ _ _ _ _ H)|].
    apply (sr_system _ _ _ _ (ke_system _ _ _ _ _ H) 0x2ffff). split; [discriminate|reflexivity].
Defined.
