(* ===== verification/Kernel.v ===== *)
(** The kernel's state: the linker's addresses, the processor, the global
    variables of the C files and the memory that holds the task unions, the
    queues and the page tables. *)

From S2P Require Import Prelude Memory CList Libc Console Frames Types.

(** ** Addresses chosen by the linker

    system.lds places the kernel from 0x10000 on; the three queue heads are
    ordinary data; the section .data.task, aligned to a page, holds the task
    unions, the page directories and the page tables, a page each.  The last
    six are code addresses that the kernel stores in stacks: two functions,
    and the instructions after the calls of inner_task_switch, of task_switch
    (in sched_next_rr and in keyboard_service) and of a service routine (in
    system_call_handler). *)

Class Layout : Type := {
  readyq : Z;
  freeq : Z;
  blocked : Z;
  task : Z;
  dir_pages : Z;
  pagusr_table : Z;
  addr_cpu_idle : Z;
  addr_ret_from_fork : Z;
  addr_task_switch_ret : Z;
  addr_sched_next_ret : Z;
  addr_keyboard_ret : Z;
  addr_service_ret : Z;
}.

Definition NR_TASKS : Z := 10.
Definition PAGE_SIZE : Z := 0x1000.
Definition KERNEL_START : Z := 0x10000.
Definition KERNEL_STACK_SIZE : Z := 1024.
Definition sizeof_task_union : Z := 4 * KERNEL_STACK_SIZE.

(** Two address ranges that share no byte. *)
Definition apart (a n b k : Z) : Prop := a + n ≤ b ∨ b + k ≤ a.

Class LayoutOk (L : Layout) : Prop := {
  task_aligned : task mod PAGE_SIZE = 0;
  dir_aligned : dir_pages mod PAGE_SIZE = 0;
  pt_aligned : pagusr_table mod PAGE_SIZE = 0;
  task_window : KERNEL_START ≤ task ∧ task + NR_TASKS * PAGE_SIZE ≤ KERNEL_HI;
  dir_window : KERNEL_START ≤ dir_pages ∧ dir_pages + NR_TASKS * PAGE_SIZE ≤ KERNEL_HI;
  pt_window : KERNEL_START ≤ pagusr_table ∧ pagusr_table + NR_TASKS * PAGE_SIZE ≤ KERNEL_HI;
  task_dir_apart : apart task (NR_TASKS * PAGE_SIZE) dir_pages (NR_TASKS * PAGE_SIZE);
  task_pt_apart : apart task (NR_TASKS * PAGE_SIZE) pagusr_table (NR_TASKS * PAGE_SIZE);
  dir_pt_apart : apart dir_pages (NR_TASKS * PAGE_SIZE) pagusr_table (NR_TASKS * PAGE_SIZE);
  heads_window : ∀ q, q = readyq ∨ q = freeq ∨ q = blocked →
    KERNEL_START ≤ q ∧ q + 8 ≤ task ∧ q + 8 ≤ dir_pages ∧ q + 8 ≤ pagusr_table;
  heads_apart : apart readyq 8 freeq 8 ∧ apart readyq 8 blocked 8 ∧ apart freeq 8 blocked 8;
  code_window : ∀ a, a ∈ [addr_cpu_idle; addr_ret_from_fork; addr_task_switch_ret;
    addr_sched_next_ret; addr_keyboard_ret; addr_service_ret] → 0 ≤ a < 2 ^ 32;
  code_distinct : NoDup [addr_cpu_idle; addr_ret_from_fork; addr_task_switch_ret;
    addr_sched_next_ret; addr_keyboard_ret; addr_service_ret];
}.

(** A layout the linker script allows. *)
Definition zeos_layout : Layout := {|
  readyq := 0x16000; freeq := 0x16008; blocked := 0x16010;
  task := 0x18000; dir_pages := 0x22000; pagusr_table := 0x2c000;
  addr_cpu_idle := 0x11200; addr_ret_from_fork := 0x11700; addr_task_switch_ret := 0x10a3c;
  addr_sched_next_ret := 0x11580; addr_keyboard_ret := 0x10540; addr_service_ret := 0x10a18;
|}.

Lemma zeos_layout_ok : LayoutOk zeos_layout.
Proof.
  split; cbn; unfold apart, PAGE_SIZE, KERNEL_START, NR_TASKS, KERNEL_HI; try done; try lia.
  - intros a Ha. set_unfold in Ha. destruct_or?; subst; (done || lia).
  - by apply (bool_decide_unpack _).
Qed.

(** ** The processor and the globals *)

Record regs : Type := MkRegs {
  eax : Z; ebx : Z; ecx : Z; edx : Z; esi : Z; edi : Z; ebp : Z; esp : Z; eip : Z; eflags : Z; cs : Z; ss : Z; ds : Z; es : Z; fs : Z; gs : Z;
}.

Definition w_eax (v : Z) (r : regs) : regs :=
  MkRegs v (ebx r) (ecx r) (edx r) (esi r) (edi r) (ebp r) (esp r) (eip r) (eflags r) (cs r) (ss r) (ds r) (es r) (fs r) (gs r).
Definition w_ebx (v : Z) (r : regs) : regs :=
  MkRegs (eax r) v (ecx r) (edx r) (esi r) (edi r) (ebp r) (esp r) (eip r) (eflags r) (cs r) (ss r) (ds r) (es r) (fs r) (gs r).
Definition w_ecx (v : Z) (r : regs) : regs :=
  MkRegs (eax r) (ebx r) v (edx r) (esi r) (edi r) (ebp r) (esp r) (eip r) (eflags r) (cs r) (ss r) (ds r) (es r) (fs r) (gs r).
Definition w_edx (v : Z) (r : regs) : regs :=
  MkRegs (eax r) (ebx r) (ecx r) v (esi r) (edi r) (ebp r) (esp r) (eip r) (eflags r) (cs r) (ss r) (ds r) (es r) (fs r) (gs r).
Definition w_esi (v : Z) (r : regs) : regs :=
  MkRegs (eax r) (ebx r) (ecx r) (edx r) v (edi r) (ebp r) (esp r) (eip r) (eflags r) (cs r) (ss r) (ds r) (es r) (fs r) (gs r).
Definition w_edi (v : Z) (r : regs) : regs :=
  MkRegs (eax r) (ebx r) (ecx r) (edx r) (esi r) v (ebp r) (esp r) (eip r) (eflags r) (cs r) (ss r) (ds r) (es r) (fs r) (gs r).
Definition w_ebp (v : Z) (r : regs) : regs :=
  MkRegs (eax r) (ebx r) (ecx r) (edx r) (esi r) (edi r) v (esp r) (eip r) (eflags r) (cs r) (ss r) (ds r) (es r) (fs r) (gs r).
Definition w_esp (v : Z) (r : regs) : regs :=
  MkRegs (eax r) (ebx r) (ecx r) (edx r) (esi r) (edi r) (ebp r) v (eip r) (eflags r) (cs r) (ss r) (ds r) (es r) (fs r) (gs r).
Definition w_eip (v : Z) (r : regs) : regs :=
  MkRegs (eax r) (ebx r) (ecx r) (edx r) (esi r) (edi r) (ebp r) (esp r) v (eflags r) (cs r) (ss r) (ds r) (es r) (fs r) (gs r).
Definition w_eflags (v : Z) (r : regs) : regs :=
  MkRegs (eax r) (ebx r) (ecx r) (edx r) (esi r) (edi r) (ebp r) (esp r) (eip r) v (cs r) (ss r) (ds r) (es r) (fs r) (gs r).
Definition w_cs (v : Z) (r : regs) : regs :=
  MkRegs (eax r) (ebx r) (ecx r) (edx r) (esi r) (edi r) (ebp r) (esp r) (eip r) (eflags r) v (ss r) (ds r) (es r) (fs r) (gs r).
Definition w_ss (v : Z) (r : regs) : regs :=
  MkRegs (eax r) (ebx r) (ecx r) (edx r) (esi r) (edi r) (ebp r) (esp r) (eip r) (eflags r) (cs r) v (ds r) (es r) (fs r) (gs r).
Definition w_ds (v : Z) (r : regs) : regs :=
  MkRegs (eax r) (ebx r) (ecx r) (edx r) (esi r) (edi r) (ebp r) (esp r) (eip r) (eflags r) (cs r) (ss r) v (es r) (fs r) (gs r).
Definition w_es (v : Z) (r : regs) : regs :=
  MkRegs (eax r) (ebx r) (ecx r) (edx r) (esi r) (edi r) (ebp r) (esp r) (eip r) (eflags r) (cs r) (ss r) (ds r) v (fs r) (gs r).
Definition w_fs (v : Z) (r : regs) : regs :=
  MkRegs (eax r) (ebx r) (ecx r) (edx r) (esi r) (edi r) (ebp r) (esp r) (eip r) (eflags r) (cs r) (ss r) (ds r) (es r) v (gs r).
Definition w_gs (v : Z) (r : regs) : regs :=
  MkRegs (eax r) (ebx r) (ecx r) (edx r) (esi r) (edi r) (ebp r) (esp r) (eip r) (eflags r) (cs r) (ss r) (ds r) (es r) (fs r) v.

(** What lgdt, lidt, ltr and the interrupt controller hold. *)
Record hw_regs : Type := MkHw {
  gdtr : Register;
  idtr : Register;
  tr : Z;
  ldtr : Z;
  pic_mask : Z;  (** the mask of the master 8259A *)
  pic_cmds : list Z;  (** the commands it was given, the last one first *)
}.

Record kstate : Type := KState {
  k_mem : memory;  (** physical memory *)
  k_regs : regs;  (** the processor's registers *)
  k_cr3 : Z;  (** page directory base register *)
  k_cr0 : Z;  (** control register 0 *)
  k_hw : hw_regs;  (** descriptor table registers and interrupt mask *)
  k_gdt : list Descriptor;  (** [Descriptor *gdt] *)
  k_gdtR : Register;  (** [Register gdtR] *)
  k_idt : list Gate;  (** [Gate idt[IDT_ENTRIES]] *)
  k_idtR : Register;  (** [Register idtR] *)
  k_tss : TSS;  (** [TSS tss] *)
  k_phys_mem : frame_map;  (** [Byte phys_mem[TOTAL_PAGES]] *)
  k_idle_task : Z;  (** [struct task_struct* idle_task] *)
  k_quantum_ticks : Z;  (** [int quantum_ticks] *)
  k_last_pid : Z;  (** [int last_pid] *)
  k_zeos_ticks : Z;  (** [int zeos_ticks] *)
  k_console : console;  (** screen and cursor *)
}.

Definition with_mem (v : memory) (s : kstate) : kstate :=
  KState v (k_regs s) (k_cr3 s) (k_cr0 s) (k_hw s) (k_gdt s) (k_gdtR s) (k_idt s) (k_idtR s) (k_tss s) (k_phys_mem s) (k_idle_task s) (k_quantum_ticks s) (k_last_pid s) (k_zeos_ticks s) (k_console s).
Definition with_regs (v : regs) (s : kstate) : kstate :=
  KState (k_mem s) v (k_cr3 s) (k_cr0 s) (k_hw s) (k_gdt s) (k_gdtR s) (k_idt s) (k_idtR s) (k_tss s) (k_phys_mem s) (k_idle_task s) (k_quantum_ticks s) (k_last_pid s) (k_zeos_ticks s) (k_console s).
Definition with_cr3 (v : Z) (s : kstate) : kstate :=
  KState (k_mem s) (k_regs s) v (k_cr0 s) (k_hw s) (k_gdt s) (k_gdtR s) (k_idt s) (k_idtR s) (k_tss s) (k_phys_mem s) (k_idle_task s) (k_quantum_ticks s) (k_last_pid s) (k_zeos_ticks s) (k_console s).
Definition with_cr0 (v : Z) (s : kstate) : kstate :=
  KState (k_mem s) (k_regs s) (k_cr3 s) v (k_hw s) (k_gdt s) (k_gdtR s) (k_idt s) (k_idtR s) (k_tss s) (k_phys_mem s) (k_idle_task s) (k_quantum_ticks s) (k_last_pid s) (k_zeos_ticks s) (k_console s).
Definition with_hw (v : hw_regs) (s : kstate) : kstate :=
  KState (k_mem s) (k_regs s) (k_cr3 s) (k_cr0 s) v (k_gdt s) (k_gdtR s) (k_idt s) (k_idtR s) (k_tss s) (k_phys_mem s) (k_idle_task s) (k_quantum_ticks s) (k_last_pid s) (k_zeos_ticks s) (k_console s).
Definition with_gdt (v : list Descriptor) (s : kstate) : kstate :=
  KState (k_mem s) (k_regs s) (k_cr3 s) (k_cr0 s) (k_hw s) v (k_gdtR s) (k_idt s) (k_idtR s) (k_tss s) (k_phys_mem s) (k_idle_task s) (k_quantum_ticks s) (k_last_pid s) (k_zeos_ticks s) (k_console s).
Definition with_gdtR (v : Register) (s : kstate) : kstate :=
  KState (k_mem s) (k_regs s) (k_cr3 s) (k_cr0 s) (k_hw s) (k_gdt s) v (k_idt s) (k_idtR s) (k_tss s) (k_phys_mem s) (k_idle_task s) (k_quantum_ticks s) (k_last_pid s) (k_zeos_ticks s) (k_console s).
Definition with_idt (v : list Gate) (s : kstate) : kstate :=
  KState (k_mem s) (k_regs s) (k_cr3 s) (k_cr0 s) (k_hw s) (k_gdt s) (k_gdtR s) v (k_idtR s) (k_tss s) (k_phys_mem s) (k_idle_task s) (k_quantum_ticks s) (k_last_pid s) (k_zeos_ticks s) (k_console s).
Definition with_idtR (v : Register) (s : kstate) : kstate :=
  KState (k_mem s) (k_regs s) (k_cr3 s) (k_cr0 s) (k_hw s) (k_gdt s) (k_gdtR s) (k_idt s) v (k_tss s) (k_phys_mem s) (k_idle_task s) (k_quantum_ticks s) (k_last_pid s) (k_zeos_ticks s) (k_console s).
Definition with_tss (v : TSS) (s : kstate) : kstate :=
  KState (k_mem s) (k_regs s) (k_cr3 s) (k_cr0 s) (k_hw s) (k_gdt s) (k_gdtR s) (k_idt s) (k_idtR s) v (k_phys_mem s) (k_idle_task s) (k_quantum_ticks s) (k_last_pid s) (k_zeos_ticks s) (k_console s).
Definition with_phys_mem (v : frame_map) (s : kstate) : kstate :=
  KState (k_mem s) (k_regs s) (k_cr3 s) (k_cr0 s) (k_hw s) (k_gdt s) (k_gdtR s) (k_idt s) (k_idtR s) (k_tss s) v (k_idle_task s) (k_quantum_ticks s) (k_last_pid s) (k_zeos_ticks s) (k_console s).
Definition with_idle_task (v : Z) (s : kstate) : kstate :=
  KState (k_mem s) (k_regs s) (k_cr3 s) (k_cr0 s) (k_hw s) (k_gdt s) (k_gdtR s) (k_idt s) (k_idtR s) (k_tss s) (k_phys_mem s) v (k_quantum_ticks s) (k_last_pid s) (k_zeos_ticks s) (k_console s).
Definition with_quantum_ticks (v : Z) (s : kstate) : kstate :=
  KState (k_mem s) (k_regs s) (k_cr3 s) (k_cr0 s) (k_hw s) (k_gdt s) (k_gdtR s) (k_idt s) (k_idtR s) (k_tss s) (k_phys_mem s) (k_idle_task s) v (k_last_pid s) (k_zeos_ticks s) (k_console s).
Definition with_last_pid (v : Z) (s : kstate) : kstate :=
  KState (k_mem s) (k_regs s) (k_cr3 s) (k_cr0 s) (k_hw s) (k_gdt s) (k_gdtR s) (k_idt s) (k_idtR s) (k_tss s) (k_phys_mem s) (k_idle_task s) (k_quantum_ticks s) v (k_zeos_ticks s) (k_console s).
Definition with_zeos_ticks (v : Z) (s : kstate) : kstate :=
  KState (k_mem s) (k_regs s) (k_cr3 s) (k_cr0 s) (k_hw s) (k_gdt s) (k_gdtR s) (k_idt s) (k_idtR s) (k_tss s) (k_phys_mem s) (k_idle_task s) (k_quantum_ticks s) (k_last_pid s) v (k_console s).
Definition with_console (v : console) (s : kstate) : kstate :=
  KState (k_mem s) (k_regs s) (k_cr3 s) (k_cr0 s) (k_hw s) (k_gdt s) (k_gdtR s) (k_idt s) (k_idtR s) (k_tss s) (k_phys_mem s) (k_idle_task s) (k_quantum_ticks s) (k_last_pid s) (k_zeos_ticks s) v.

(** The values the image starts with: C's initial values for the globals
    ([int last_pid = 1], [int zeos_ticks = 0], [Byte x, y=19]), zero elsewhere. *)
Definition regs_zero : regs := MkRegs 0 0 0 0 0 0 0 0 0 0 0 0 0 0 0 0.

Definition kstate_image : kstate :=
  KState ∅ regs_zero 0 0 (MkHw (MkRegister 0 0) (MkRegister 0 0) 0 0 0 [])
    (replicate 7 (MkDescriptor 0 0 0 0 0 0)) (MkRegister 0 0)
    (replicate 256 (MkGate 0 0 0 0)) (MkRegister 0 0) tss_zero
    (replicate (Z.to_nat TOTAL_PAGES) 0) 0 0 1 0 console_init.

Abbreviation K := (M kstate).

(** Compute the fields of an updated state. *)
Ltac kred :=
  cbn [k_mem k_regs k_cr3 k_cr0 k_hw k_gdt k_gdtR k_idt k_idtR k_tss k_phys_mem k_idle_task
       k_quantum_ticks k_last_pid k_zeos_ticks k_console
       with_mem with_regs with_cr3 with_cr0 with_hw with_gdt with_gdtR with_idt with_idtR with_tss
       with_phys_mem with_idle_task with_quantum_ticks with_last_pid with_zeos_ticks with_console
       eax ebx ecx edx esi edi ebp esp eip eflags cs ss ds es fs gs
       w_eax w_ebx w_ecx w_edx w_esi w_edi w_ebp w_esp w_eip w_eflags w_cs w_ss w_ds w_es w_fs w_gs].

(** The same in the hypotheses too. *)
Ltac kred_all :=
  cbn [k_mem k_regs k_cr3 k_cr0 k_hw k_gdt k_gdtR k_idt k_idtR k_tss k_phys_mem k_idle_task
       k_quantum_ticks k_last_pid k_zeos_ticks k_console
       with_mem with_regs with_cr3 with_cr0 with_hw with_gdt with_gdtR with_idt with_idtR with_tss
       with_phys_mem with_idle_task with_quantum_ticks with_last_pid with_zeos_ticks with_console
       eax ebx ecx edx esi edi ebp esp eip eflags cs ss ds es fs gs
       w_eax w_ebx w_ecx w_edx w_esi w_edi w_ebp w_esp w_eip w_eflags w_cs w_ss w_ds w_es w_fs w_gs] in *.

(** Write an updated state out as a record: for states given by constructor. *)
Ltac kflat :=
  cbv beta iota delta
    [k_mem k_regs k_cr3 k_cr0 k_hw k_gdt k_gdtR k_idt k_idtR k_tss k_phys_mem k_idle_task
     k_quantum_ticks k_last_pid k_zeos_ticks k_console
     with_mem with_regs with_cr3 with_cr0 with_hw with_gdt with_gdtR with_idt with_idtR with_tss
     with_phys_mem with_idle_task with_quantum_ticks with_last_pid with_zeos_ticks with_console
     eax ebx ecx edx esi edi ebp esp eip eflags cs ss ds es fs gs
     w_eax w_ebx w_ecx w_edx w_esi w_edi w_ebp w_esp w_eip w_eflags w_cs w_ss w_ds w_es w_fs w_gs].

(** ** Running the components inside the kernel *)

Definition on_mem {A} (f : M memory A) : K A := λ s,
  match f (k_mem s) with
  | Ret a m => Ret a (with_mem m s)
  | Fault e => Fault e
  end.

Definition on_console (f : M console unit) : K unit := λ s,
  match f (k_console s) with
  | Ret a k => Ret a (with_console k s)
  | Fault e => Fault e
  end.

(** [char buff[n]; f(buff)]: the contents of a local array after [f]. *)
Definition local_buf (n : nat) (f : M cbuf unit) : K cbuf := λ s,
  match f (replicate n 0) with
  | Ret _ b => Ret b s
  | Fault e => Fault e
  end.

Definition get_reg (r : regs → Z) : K Z := gets (λ s, r (k_regs s)).
Definition upd_regs (f : regs → regs) : K unit := modify (λ s, with_regs (f (k_regs s)) s).

(** [outb v, port] on the two ports of the master 8259A. *)
Definition pic_write (port v : Z) (h : hw_regs) : hw_regs :=
  if port =? 0x21 then MkHw (gdtr h) (idtr h) (tr h) (ldtr h) v (pic_cmds h)
  else if port =? 0x20 then MkHw (gdtr h) (idtr h) (tr h) (ldtr h) (pic_mask h) (v :: pic_cmds h)
  else h.

(** [movb $v, %al; outb %al, $port] *)
Definition out_al (v port : Z) : K unit :=
  upd_regs (λ r, w_eax (Z.lor (Z.ldiff (eax r) 0xff) v) r) ;!
  let! a := get_reg eax in
  modify (λ s, with_hw (pic_write port (Z.land a 0xff) (k_hw s)) s).

Lemma low_byte a v : 0 ≤ v < 2 ^ 8 → Z.land (Z.lor (Z.ldiff a 0xff) v) 0xff = v.
Proof.
  intros Hv. rewrite Z.land_lor_distr_l, Z.land_ldiff. change 0xff with (Z.ones 8).
  rewrite Z.land_ones, Z.mod_small by lia. done.
Qed.

Lemma wp_out_al v port s R :
  0 ≤ v < 2 ^ 8 →
  R tt (with_hw (pic_write port v (k_hw s)) (with_regs (w_eax (Z.lor (Z.ldiff (eax (k_regs s)) 0xff) v) (k_regs s)) s)) →
  wp (out_al v port) s R.
Proof.
  intros Hv HR. apply wp_bind, wp_modify, wp_bind, wp_gets, wp_modify.
  cbn [k_regs k_hw with_regs eax w_eax]. by rewrite low_byte.
Qed.

Lemma with_mem_same s : with_mem (k_mem s) s = s.
Proof. by destruct s. Qed.

Lemma with_mem_mem m m' s : with_mem m (with_mem m' s) = with_mem m s.
Proof. done. Qed.

Lemma with_console_same s : with_console (k_console s) s = s.
Proof. by destruct s. Qed.

Section KernelWp.
Context {A : Type}.

Lemma wp_on_mem (f : M memory A) s R :
  wp f (k_mem s) (λ a m, R a (with_mem m s)) → wp (on_mem f) s R.
Proof. unfold wp, on_mem. by destruct (f (k_mem s)). Qed.

Lemma wp_on_console (f : M console unit) s R :
  wp f (k_console s) (λ a k, R a (with_console k s)) → wp (on_console f) s R.
Proof. unfold wp, on_console. by destruct (f (k_console s)). Qed.

Lemma wp_local_buf n (f : M cbuf unit) s b R :
  f (replicate n 0) = Ret tt b → R b s → wp (local_buf n f) s R.
Proof. unfold wp, local_buf. by intros ->. Qed.
End KernelWp.
