(* ===== verification/Task.v ===== *)
(** include/sched.h and the accessors of sched.c: the task structure inside
    its union with the kernel stack, and where its list heads lie. *)

From S2P Require Import Prelude Memory CList Libc Console Frames Types Kernel.

Section Task.
Context {L : Layout}.

(** ** struct task_struct *)

(** Offsets of the fields, in bytes. *)
Definition f_PID : Z := 0.
Definition f_anchor : Z := 4.
Definition f_kernel_esp : Z := 12.
Definition f_state : Z := 16.
Definition f_quantum : Z := 20.
Definition f_dir_pages_baseAddr : Z := 24.
Definition f_parent : Z := 28.
Definition f_child_anchor : Z := 32.
Definition f_childs : Z := 40.
Definition f_pending_unblocks : Z := 48.
Definition sizeof_task_struct : Z := 52.

(** [&task[i]] *)
Definition task_addr (i : Z) : Z := task + i * sizeof_task_union.

(** [&t->stack[k]] *)
Definition stack_addr (t k : Z) : Z := t + 4 * k.

Definition anchor_of (i : Z) : Z := task_addr i + f_anchor.
Definition child_anchor_of (i : Z) : Z := task_addr i + f_child_anchor.
Definition childs_of (i : Z) : Z := task_addr i + f_childs.

(** [t->f] and [t->f = v] *)
Definition get_field (t f : Z) : K Z := on_mem (kload32 (t + f)).
Definition set_field (t f v : Z) : K unit := on_mem (kstore32 (t + f) v).

(** An [int] field. *)
Definition get_int_field (t f : Z) : K Z :=
  let! v := get_field t f in ret (s32 v).

(** ** current, get_DIR, get_PT, allocate_DIR *)

Definition current : K Z :=
  let! esp := get_reg esp in
  ret (Z.land esp 0xfffff000).

Definition get_DIR (t : Z) : K Z := get_field t f_dir_pages_baseAddr.

Definition get_PT (t : Z) : K Z :=
  let! dir := get_field t f_dir_pages_baseAddr in
  let! e := on_mem (kload32 dir) in
  ret (u32 (Z.shiftl (get_bits pbase_addr e) 12)).

(** [((int)t-(int)task)/sizeof(union task_union)]: the [int] difference is
    converted to the unsigned type of sizeof before the division. *)
Definition task_index (t : Z) : Z := s32 (u32 (t - task) / sizeof_task_union).

Definition allocate_DIR (t : Z) : K Z :=
  let pos := task_index t in
  set_field t f_dir_pages_baseAddr (dir_pages + pos * PAGE_SIZE) ;!
  ret 1.

(** ** Addresses *)

Context {LO : LayoutOk L}.

Definition valid_task (i : Z) : Prop := 0 ≤ i < NR_TASKS.

Lemma task_addr_window i :
  valid_task i → KERNEL_START ≤ task_addr i ∧ task_addr i + PAGE_SIZE ≤ KERNEL_HI.
Proof.
  unfold valid_task, task_addr, sizeof_task_union, KERNEL_STACK_SIZE.
  pose proof task_window. unfold NR_TASKS, PAGE_SIZE in *. lia.
Qed.

Lemma task_addr_apart i j :
  valid_task i → valid_task j → i ≠ j → apart (task_addr i) PAGE_SIZE (task_addr j) PAGE_SIZE.
Proof.
  unfold valid_task, task_addr, sizeof_task_union, KERNEL_STACK_SIZE, apart, PAGE_SIZE, NR_TASKS.
  lia.
Qed.

Lemma task_addr_inj i j : task_addr i = task_addr j → i = j.
Proof. unfold task_addr, sizeof_task_union, KERNEL_STACK_SIZE. lia. Qed.

Lemma task_addr_aligned i : task_addr i mod PAGE_SIZE = 0.
Proof.
  unfold task_addr. pose proof task_aligned as H.
  change sizeof_task_union with PAGE_SIZE. unfold PAGE_SIZE in *. by rewrite Z.mod_add.
Qed.

Lemma task_index_addr i : valid_task i → task_index (task_addr i) = i.
Proof.
  intros Hi. unfold task_index, task_addr.
  change sizeof_task_union with 4096. unfold valid_task, NR_TASKS in Hi.
  rewrite u32_small by lia. replace (task + i * 4096 - task) with (i * 4096) by lia.
  rewrite Z.div_mul by lia. apply s32_small. lia.
Qed.

(** The page a stack pointer is in. *)
Lemma mask_page i a :
  valid_task i → task_addr i ≤ a < task_addr i + PAGE_SIZE →
  Z.land a 0xfffff000 = task_addr i.
Proof.
  intros Hi Ha. pose proof (task_addr_window i Hi) as Hw. pose proof (task_addr_aligned i) as Hal.
  unfold PAGE_SIZE, KERNEL_START, KERNEL_HI in *.
  assert (a < 2 ^ 32) by lia.
  replace (Z.land a 0xfffff000) with (Z.land (Z.ldiff a (Z.ones 12)) (Z.ones 32)).
  - rewrite Z.ldiff_ones_r, Z.land_ones, Z.shiftl_mul_pow2, Z.shiftr_div_pow2 by lia.
    change (2 ^ 12) with 4096. rewrite Z.mod_small; Z.div_mod_to_equations; lia.
  - change 0xfffff000 with (Z.ldiff (Z.ones 32) (Z.ones 12)).
    apply Z.bits_inj'. intros n Hn. rewrite !Z.land_spec, !Z.ldiff_spec.
    by destruct (Z.testbit a n), (Z.testbit (Z.ones 12) n), (Z.testbit (Z.ones 32) n).
Qed.

(** ** The list heads of the kernel *)

Definition queue_head (a : Z) : Prop := a = readyq ∨ a = freeq ∨ a = blocked.

Definition task_cell (a : Z) : Prop :=
  ∃ i, valid_task i ∧ (a = anchor_of i ∨ a = child_anchor_of i ∨ a = childs_of i).

Definition kernel_cell (a : Z) : Prop := queue_head a ∨ task_cell a.

Lemma task_cell_range a :
  task_cell a → ∃ i, valid_task i ∧ task_addr i ≤ a ∧ a + 8 ≤ task_addr i + sizeof_task_struct.
Proof.
  intros (i & Hi & Ha). exists i. split; [done|].
  unfold anchor_of, child_anchor_of, childs_of, f_anchor, f_child_anchor, f_childs,
    sizeof_task_struct in *. lia.
Qed.

#[export] Instance kernel_cells : Cells kernel_cell.
Proof.
  split.
  - intros a [Ha|Ha].
    + pose proof (heads_window a Ha). pose proof task_window.
      unfold KERNEL_LO, KERNEL_START, NR_TASKS, PAGE_SIZE in *. lia.
    + destruct (task_cell_range a Ha) as (i & Hi & Ha').
      pose proof (task_addr_window i Hi).
      unfold KERNEL_LO, KERNEL_START, PAGE_SIZE, sizeof_task_struct in *. lia.
  - assert (Hqt : ∀ a b, queue_head a → task_cell b → a + 8 ≤ b).
    { intros a b Ha (i & Hi & Hb)%task_cell_range. pose proof (heads_window a Ha).
      unfold valid_task, task_addr, sizeof_task_union, KERNEL_STACK_SIZE in *. lia. }
    intros a b [Ha|Ha] [Hb|Hb] Hne.
    + pose proof heads_apart as (H1 & H2 & H3). unfold queue_head, apart in *.
      destruct Ha as [-> | [-> | ->]], Hb as [-> | [-> | ->]]; (done || lia).
    + left. auto.
    + right. auto.
    + destruct Ha as (i & Hi & Ha), Hb as (j & Hj & Hb).
      unfold anchor_of, child_anchor_of, childs_of, f_anchor, f_child_anchor, f_childs in *.
      destruct (decide (i = j)) as [->|Hij]; [lia|].
      pose proof (task_addr_apart i j Hi Hj Hij). unfold apart, PAGE_SIZE in *. lia.
Qed.

Lemma anchor_cell i : valid_task i → kernel_cell (anchor_of i).
Proof. right. exists i. auto. Qed.

Lemma child_anchor_cell i : valid_task i → kernel_cell (child_anchor_of i).
Proof. right. exists i. auto. Qed.

Lemma childs_cell i : valid_task i → kernel_cell (childs_of i).
Proof. right. exists i. auto. Qed.

Lemma queue_cell q : queue_head q → kernel_cell q.
Proof. by left. Qed.

(** list_entry recovers the task from its anchors. *)
Lemma list_entry_anchor i : list_entry (anchor_of i) f_anchor = task_addr i.
Proof. unfold list_entry, anchor_of. lia. Qed.

Lemma list_entry_child_anchor i : list_entry (child_anchor_of i) f_child_anchor = task_addr i.
Proof. unfold list_entry, child_anchor_of. lia. Qed.

(** ** Specifications *)

Lemma wp_get_field i f s R :
  valid_task i → 0 ≤ f → f + 4 ≤ PAGE_SIZE →
  R (load32 (k_mem s) (task_addr i + f)) s → wp (get_field (task_addr i) f) s R.
Proof.
  intros Hi Hf Hf' HR. pose proof (task_addr_window i Hi).
  unfold KERNEL_START, PAGE_SIZE in *. apply wp_on_mem, wp_kload32;
    [unfold KERNEL_LO; lia|lia|]. by destruct s.
Qed.

Lemma wp_set_field i f v s R :
  valid_task i → 0 ≤ f → f + 4 ≤ PAGE_SIZE →
  R tt (with_mem (store32 (k_mem s) (task_addr i + f) v) s) →
  wp (set_field (task_addr i) f v) s R.
Proof.
  intros Hi Hf Hf' HR. pose proof (task_addr_window i Hi).
  unfold KERNEL_START, PAGE_SIZE in *. apply wp_on_mem, wp_kstore32;
    [unfold KERNEL_LO; lia|lia|done].
Qed.

Lemma wp_get_int_field i f s R :
  valid_task i → 0 ≤ f → f + 4 ≤ PAGE_SIZE →
  R (load_int (k_mem s) (task_addr i + f)) s → wp (get_int_field (task_addr i) f) s R.
Proof. intros. apply wp_bind, wp_get_field; [done..|]. by apply wp_ret. Qed.

(** Two different words of the task unions. *)
Lemma field_store_ne m i f j g v :
  valid_task i → valid_task j → 0 ≤ f → f + 4 ≤ PAGE_SIZE → 0 ≤ g → g + 4 ≤ PAGE_SIZE →
  i ≠ j ∨ f + 4 ≤ g ∨ g + 4 ≤ f →
  load32 (store32 m (task_addr i + f) v) (task_addr j + g) = load32 m (task_addr j + g).
Proof.
  intros Hi Hj Hf Hf' Hg Hg' Hne. apply load32_store32_ne.
  destruct (decide (i = j)) as [->|Hij]; [lia|].
  pose proof (task_addr_apart i j Hi Hj Hij). unfold apart, PAGE_SIZE in *. lia.
Qed.

(** The processor runs on the kernel stack of task [i]. *)
Definition on_stack (s : kstate) (i : Z) : Prop :=
  valid_task i ∧ task_addr i ≤ esp (k_regs s) < task_addr i + PAGE_SIZE.

Lemma wp_current i s R : on_stack s i → R (task_addr i) s → wp current s R.
Proof.
  intros [Hi Hs] HR. apply wp_bind, wp_gets, wp_ret. by rewrite (mask_page i).
Qed.
End Task.
