(* ===== verification/Paging.v ===== *)
(** mm.c and include/mm_address.h: page directories and tables, the mapping
    of the kernel and of the user region, and the address translation the
    processor makes of them. *)

From S2P Require Import Prelude Memory CList Libc Console Frames Types Kernel Task.

(** ** Memory distribution *)

Definition ENTRY_DIR_PAGES : Z := 0.
Definition L_USER_START : Z := 0x100000.
Definition PAG_LOG_INIT_DATA : Z := Z.shiftr L_USER_START 12.
Definition NUM_PAG_DATA : Z := 20.
Definition PAG_LOG_INIT_CODE : Z := PAG_LOG_INIT_DATA + NUM_PAG_DATA.
Definition NUM_PAG_CODE : Z := 8.
Definition USER_FIRST_PAGE : Z := Z.shiftr L_USER_START 12.
Definition USER_ESP : Z := L_USER_START + NUM_PAG_DATA * 0x1000 - 16.

(** ** Entries in memory *)

(** [&PT[page]] *)
Definition pte_addr (PT page : Z) : Z := PT + 4 * page.

(** [PT[page].entry = v] and [PT[page].bits.f = v] *)
Definition set_entry (PT page v : Z) : M memory unit := kstore32 (pte_addr PT page) v.

Definition set_entry_bits (PT page : Z) (f : bitfield) (v : Z) : M memory unit :=
  let! e := kload32 (pte_addr PT page) in
  kstore32 (pte_addr PT page) (set_bits f e v).

Definition get_entry_bits (PT page : Z) (f : bitfield) : M memory Z :=
  let! e := kload32 (pte_addr PT page) in
  ret (get_bits f e).

Definition set_ss_pag (PT page frame : Z) : M memory unit :=
  set_entry PT page 0 ;!
  set_entry_bits PT page pbase_addr frame ;!
  set_entry_bits PT page user 1 ;!
  set_entry_bits PT page rw 1 ;!
  set_entry_bits PT page present 1.

Definition del_ss_pag (PT logical_page : Z) : M memory unit :=
  set_entry PT logical_page 0.

Definition get_frame (PT logical_page : Z) : M memory Z :=
  get_entry_bits PT logical_page pbase_addr.

Section Tables.
Context {L : Layout}.

(** [dir_pages[i]] and [pagusr_table[i]] *)
Definition dir_addr (i : Z) : Z := dir_pages + i * PAGE_SIZE.
Definition pt_addr (i : Z) : Z := pagusr_table + i * PAGE_SIZE.

(** ** Initialization *)

Definition init_dir_pages : M memory unit :=
  for_range (Z.to_nat NR_TASKS) 0 (λ i,
    set_entry (dir_addr i) ENTRY_DIR_PAGES 0 ;!
    set_entry_bits (dir_addr i) ENTRY_DIR_PAGES pbase_addr (Z.shiftr (pt_addr i) 12) ;!
    set_entry_bits (dir_addr i) ENTRY_DIR_PAGES user 1 ;!
    set_entry_bits (dir_addr i) ENTRY_DIR_PAGES rw 1 ;!
    set_entry_bits (dir_addr i) ENTRY_DIR_PAGES present 1).

Definition init_table_pages : M memory unit :=
  for_range (Z.to_nat NR_TASKS) 0 (λ j,
    for_range (Z.to_nat TOTAL_PAGES) 0 (λ i, set_entry (pt_addr j) i 0) ;!
    for_range (Z.to_nat (NUM_PAG_KERNEL - 1)) 1 (λ i,
      set_entry_bits (pt_addr j) i pbase_addr i ;!
      set_entry_bits (pt_addr j) i rw 1 ;!
      set_entry_bits (pt_addr j) i present 1)).

(** ** The frame map inside the kernel *)

Definition k_alloc_frame : K Z := λ s,
  let '(f, pm) := alloc_frame (k_phys_mem s) in Ret f (with_phys_mem pm s).

Definition k_free_frame (frame : Z) : K unit :=
  modify (λ s, with_phys_mem (free_frame frame (k_phys_mem s)) s).

Definition k_init_frames : K Z :=
  modify (λ s, with_phys_mem (init_frames (k_phys_mem s)) s) ;! ret 0.

(** ** User pages *)

Definition set_user_pages (t : Z) : K unit :=
  let! process_PT := get_PT t in
  (* CODE *)
  for_range (Z.to_nat NUM_PAG_CODE) 0 (λ pag,
    let! new_ph_pag := k_alloc_frame in
    on_mem (
      set_entry process_PT (PAG_LOG_INIT_CODE + pag) 0 ;!
      set_entry_bits process_PT (PAG_LOG_INIT_CODE + pag) pbase_addr new_ph_pag ;!
      set_entry_bits process_PT (PAG_LOG_INIT_CODE + pag) user 1 ;!
      set_entry_bits process_PT (PAG_LOG_INIT_CODE + pag) present 1)) ;!
  (* DATA *)
  for_range (Z.to_nat NUM_PAG_DATA) 0 (λ pag,
    let! new_ph_pag := k_alloc_frame in
    on_mem (
      set_entry process_PT (PAG_LOG_INIT_DATA + pag) 0 ;!
      set_entry_bits process_PT (PAG_LOG_INIT_DATA + pag) pbase_addr new_ph_pag ;!
      set_entry_bits process_PT (PAG_LOG_INIT_DATA + pag) user 1 ;!
      set_entry_bits process_PT (PAG_LOG_INIT_DATA + pag) rw 1 ;!
      set_entry_bits process_PT (PAG_LOG_INIT_DATA + pag) present 1)).

Definition free_user_pages (t : Z) : K unit :=
  let! process_PT := get_PT t in
  for_range (Z.to_nat NUM_PAG_DATA) 0 (λ pag,
    let! f := on_mem (get_entry_bits process_PT (PAG_LOG_INIT_DATA + pag) pbase_addr) in
    k_free_frame f ;!
    on_mem (set_entry process_PT (PAG_LOG_INIT_DATA + pag) 0)).

(** ** Control registers *)

Definition set_cr3 (dir : Z) : K unit := modify (with_cr3 dir).

Definition read_cr0 : K Z := gets k_cr0.
Definition write_cr0 (v : Z) : K unit := modify (with_cr0 v).

Definition set_pe_flag : K unit :=
  let! cr0 := read_cr0 in
  write_cr0 (Z.lor cr0 0x80000000).

Definition init_mm : K unit :=
  on_mem init_table_pages ;!
  let! r := k_init_frames in
  on_mem init_dir_pages ;!
  let! r' := allocate_DIR (task_addr 0) in
  let! dir := get_DIR (task_addr 0) in
  set_cr3 dir ;!
  set_pe_flag.
End Tables.

(** ** Translation

    The two-level walk of the processor, on the bits of the words and not on
    the program's fields: the directory entry of the address, then the table
    entry, both of which have to be present; supervisor accesses check nothing
    else (the write protection bit of cr0 is never set). *)

Definition translate (m : memory) (cr3 va : Z) : option Z :=
  let pde := load32 m (cr3 + 4 * Z.shiftr va 22) in
  if hw_present pde then
    let e := load32 m (hw_base pde + 4 * Z.land (Z.shiftr va 12) 1023) in
    if hw_present e then Some (hw_base e + Z.land va 4095) else None
  else None.

(** ** Entries *)

(** Flag bits of the entries the kernel builds. *)
Definition PTE_KERNEL : Z := 3.   (* present, rw *)
Definition PTE_CODE : Z := 5.     (* present, user *)
Definition PTE_DATA : Z := 7.     (* present, rw, user *)

Section Entries.
Context (PT page : Z).
Context (Hlo : KERNEL_LO ≤ pte_addr PT page) (Hhi : pte_addr PT page + 4 ≤ KERNEL_HI).

Lemma wp_set_entry v m R :
  0 ≤ v < 2 ^ 32 →
  (∀ m', load32 m' (pte_addr PT page) = v →
         frame (in_range (pte_addr PT page) 4) m m' → R tt m') →
  wp (set_entry PT page v) m R.
Proof.
  intros Hv HR. apply wp_kstore32; [done..|].
  apply HR; [by apply load32_store32_same|]. apply frame_store32. auto.
Qed.

Lemma wp_set_entry_bits f v e e' m0 m R :
  load32 m (pte_addr PT page) = e → set_bits f e v = e' → 0 ≤ e' < 2 ^ 32 →
  frame (in_range (pte_addr PT page) 4) m0 m →
  (∀ m', load32 m' (pte_addr PT page) = e' →
         frame (in_range (pte_addr PT page) 4) m0 m' → R tt m') →
  wp (set_entry_bits PT page f v) m R.
Proof.
  intros He He' Hr Hf HR. unfold set_entry_bits.
  apply wp_bind, wp_kload32; [done..|]. rewrite He, He'.
  apply wp_kstore32; [done..|].
  apply HR; [by apply load32_store32_same|].
  eapply frame_trans; [done|]. apply frame_store32. auto.
Qed.

Lemma wp_get_entry_bits f m R :
  R (get_bits f (load32 m (pte_addr PT page))) m → wp (get_entry_bits PT page f) m R.
Proof. intros. by apply wp_bind, wp_kload32, wp_ret. Qed.

(** A user page, readable and writable. *)
Lemma wp_set_ss_pag frame m R :
  0 ≤ frame < 2 ^ 20 →
  (∀ m', load32 m' (pte_addr PT page) = pte frame PTE_DATA →
         Memory.frame (in_range (pte_addr PT page) 4) m m' → R tt m') →
  wp (set_ss_pag PT page frame) m R.
Proof.
  intros Hf HR. unfold set_ss_pag.
  apply wp_bind, wp_set_entry; [lia|]. intros m1 E1 F1.
  eapply wp_bind, wp_set_entry_bits;
    [exact E1|by apply (set_pbase 0 0)|apply pte_range; lia|exact F1|]. intros m2 E2 F2.
  eapply wp_bind, wp_set_entry_bits;
    [exact E2|by apply (set_flag frame 0 2)|by apply pte_range|exact F2|]. intros m3 E3 F3.
  eapply wp_bind, wp_set_entry_bits;
    [exact E3|by apply (set_flag frame 4 1)|by apply pte_range|exact F3|]. intros m4 E4 F4.
  eapply wp_set_entry_bits;
    [exact E4|by apply (set_flag frame 6 0)|by apply pte_range|exact F4|].
  exact HR.
Qed.

(** A user page, readable only. *)
Lemma wp_map_code frame m R :
  0 ≤ frame < 2 ^ 20 →
  (∀ m', load32 m' (pte_addr PT page) = pte frame PTE_CODE →
         Memory.frame (in_range (pte_addr PT page) 4) m m' → R tt m') →
  wp (set_entry PT page 0 ;!
      set_entry_bits PT page pbase_addr frame ;!
      set_entry_bits PT page user 1 ;!
      set_entry_bits PT page present 1) m R.
Proof.
  intros Hf HR.
  apply wp_bind, wp_set_entry; [lia|]. intros m1 E1 F1.
  eapply wp_bind, wp_set_entry_bits;
    [exact E1|by apply (set_pbase 0 0)|apply pte_range; lia|exact F1|]. intros m2 E2 F2.
  eapply wp_bind, wp_set_entry_bits;
    [exact E2|by apply (set_flag frame 0 2)|by apply pte_range|exact F2|]. intros m3 E3 F3.
  eapply wp_set_entry_bits;
    [exact E3|by apply (set_flag frame 4 0)|by apply pte_range|exact F3|].
  exact HR.
Qed.

(** A kernel page on a cleared entry. *)
Lemma wp_map_kernel frame m R :
  0 ≤ frame < 2 ^ 20 → load32 m (pte_addr PT page) = 0 →
  (∀ m', load32 m' (pte_addr PT page) = pte frame PTE_KERNEL →
         Memory.frame (in_range (pte_addr PT page) 4) m m' → R tt m') →
  wp (set_entry_bits PT page pbase_addr frame ;!
      set_entry_bits PT page rw 1 ;!
      set_entry_bits PT page present 1) m R.
Proof.
  intros Hf E0 HR.
  eapply wp_bind, wp_set_entry_bits;
    [exact E0|by apply (set_pbase 0 0)|apply pte_range; lia|apply frame_refl|]. intros m2 E2 F2.
  eapply wp_bind, wp_set_entry_bits;
    [exact E2|by apply (set_flag frame 0 1)|by apply pte_range|exact F2|]. intros m3 E3 F3.
  eapply wp_set_entry_bits;
    [exact E3|by apply (set_flag frame 2 0)|by apply pte_range|exact F3|].
  exact HR.
Qed.
End Entries.

(** ** The walk *)

Lemma split_page p o :
  0 ≤ p < TOTAL_PAGES → 0 ≤ o < PAGE_SIZE →
  Z.shiftr (p * PAGE_SIZE + o) 22 = 0 ∧
  Z.land (Z.shiftr (p * PAGE_SIZE + o) 12) 1023 = p ∧
  Z.land (p * PAGE_SIZE + o) 4095 = o.
Proof.
  unfold TOTAL_PAGES, PAGE_SIZE. intros Hp Ho. rewrite !Z.shiftr_div_pow2 by lia.
  change 1023 with (Z.ones 10). change 4095 with (Z.ones 12). rewrite !Z.land_ones by lia.
  split_and!; Z.div_mod_to_equations; lia.
Qed.

Lemma translate_page m cr3 PT p o f c :
  load32 m cr3 = pte (PT / PAGE_SIZE) PTE_DATA → PT mod PAGE_SIZE = 0 → 0 ≤ PT < 2 ^ 32 →
  0 ≤ p < TOTAL_PAGES → 0 ≤ o < PAGE_SIZE →
  load32 m (pte_addr PT p) = pte f c → 0 ≤ f < 2 ^ 20 → 0 ≤ c < 2 ^ 12 →
  translate m cr3 (p * PAGE_SIZE + o) =
    if Z.testbit c 0 then Some (f * PAGE_SIZE + o) else None.
Proof.
  intros Hdir Hal HPT Hp Ho He Hf Hc. destruct (split_page p o Hp Ho) as (E1 & E2 & E3).
  unfold translate. rewrite E1, E2, E3. replace (cr3 + 4 * 0) with cr3 by lia. rewrite Hdir.
  assert (0 ≤ PT / PAGE_SIZE < 2 ^ 20) by (unfold PAGE_SIZE in *; Z.div_mod_to_equations; lia).
  rewrite (proj1 (hw_flags_pte (PT / PAGE_SIZE) PTE_DATA ltac:(unfold PTE_DATA; lia))). change (Z.testbit PTE_DATA 0) with true. cbn iota zeta.
  rewrite hw_base_pte by (unfold PTE_DATA; lia).
  replace (PT / PAGE_SIZE * 2 ^ 12 + 4 * p) with (pte_addr PT p)
    by (unfold pte_addr, PAGE_SIZE in *; Z.div_mod_to_equations; lia).
  rewrite He, (proj1 (hw_flags_pte _ _ Hc)), hw_base_pte by lia. by destruct (Z.testbit c 0).
Qed.

(** ** Tables as the kernel sets them up *)

Section TableProofs.
Context {L : Layout} {LO : LayoutOk L}.

Lemma pt_addr_window i :
  valid_task i → KERNEL_START ≤ pt_addr i ∧ pt_addr i + PAGE_SIZE ≤ KERNEL_HI.
Proof.
  unfold valid_task, pt_addr. pose proof pt_window. unfold NR_TASKS, PAGE_SIZE in *. lia.
Qed.

Lemma dir_addr_window i :
  valid_task i → KERNEL_START ≤ dir_addr i ∧ dir_addr i + PAGE_SIZE ≤ KERNEL_HI.
Proof.
  unfold valid_task, dir_addr. pose proof dir_window. unfold NR_TASKS, PAGE_SIZE in *. lia.
Qed.

Lemma pt_addr_aligned i : pt_addr i mod PAGE_SIZE = 0.
Proof. unfold pt_addr. pose proof pt_aligned. unfold PAGE_SIZE in *. by rewrite Z.mod_add. Qed.

Lemma pte_window i p :
  valid_task i → 0 ≤ p < TOTAL_PAGES →
  KERNEL_LO ≤ pte_addr (pt_addr i) p ∧ pte_addr (pt_addr i) p + 4 ≤ KERNEL_HI.
Proof.
  intros Hi Hp. pose proof (pt_addr_window i Hi).
  unfold pte_addr, KERNEL_LO, KERNEL_START, TOTAL_PAGES, PAGE_SIZE in *. lia.
Qed.

(** The words of the page tables and of the page directories. *)
Definition pt_bytes (i : Z) : Z → Prop := in_range (pt_addr i) PAGE_SIZE.
Definition tables_bytes : Z → Prop := in_range pagusr_table (NR_TASKS * PAGE_SIZE).
Definition dirs_bytes : Z → Prop := in_range dir_pages (NR_TASKS * PAGE_SIZE).

Lemma pte_in_table i p a :
  0 ≤ p < TOTAL_PAGES → in_range (pte_addr (pt_addr i) p) 4 a → pt_bytes i a.
Proof. unfold in_range, pt_bytes, in_range, pte_addr, TOTAL_PAGES, PAGE_SIZE. lia. Qed.

Lemma pt_bytes_tables i a : valid_task i → pt_bytes i a → tables_bytes a.
Proof.
  unfold valid_task, pt_bytes, tables_bytes, in_range, pt_addr, NR_TASKS, PAGE_SIZE. lia.
Qed.

(** An entry of another page, or of another task, is out of the way. *)
Lemma pte_other m m' i p j q :
  frame (in_range (pte_addr (pt_addr i) p) 4) m m' →
  0 ≤ p < TOTAL_PAGES → 0 ≤ q < TOTAL_PAGES → (i, p) ≠ (j, q) →
  load32 m' (pte_addr (pt_addr j) q) = load32 m (pte_addr (pt_addr j) q).
Proof.
  intros Hf Hp Hq Hne. eapply frame_load32; [done|]. intros b.
  unfold in_range, pte_addr, pt_addr, TOTAL_PAGES, PAGE_SIZE in *.
  destruct (decide (i = j)) as [->|]; [|lia].
  assert (p ≠ q) by congruence. lia.
Qed.

Lemma table_other m m' i j q :
  frame (pt_bytes i) m m' → 0 ≤ q < TOTAL_PAGES → i ≠ j →
  load32 m' (pte_addr (pt_addr j) q) = load32 m (pte_addr (pt_addr j) q).
Proof.
  intros Hf Hq Hne. eapply frame_load32; [done|]. intros b.
  unfold pt_bytes, in_range, pte_addr, pt_addr, TOTAL_PAGES, PAGE_SIZE in *. lia.
Qed.

(** What the table of a task without user pages holds. *)
Definition kernel_entry (p : Z) : Z :=
  if decide (1 ≤ p < NUM_PAG_KERNEL) then pte p PTE_KERNEL else 0.

Definition kernel_table (m : memory) (i : Z) : Prop :=
  ∀ p, 0 ≤ p < TOTAL_PAGES → load32 m (pte_addr (pt_addr i) p) = kernel_entry p.

Lemma wp_clear_table j m :
  valid_task j →
  wp (for_range (Z.to_nat TOTAL_PAGES) 0 (λ i, set_entry (pt_addr j) i 0)) m (λ _ m',
    (∀ p, 0 ≤ p < TOTAL_PAGES → load32 m' (pte_addr (pt_addr j) p) = 0) ∧
    frame (pt_bytes j) m m').
Proof.
  intros Hj. eapply wp_mono.
  - apply (wp_for_range _ (λ k m', frame (pt_bytes j) m m' ∧
      ∀ p, 0 ≤ p < k → load32 m' (pte_addr (pt_addr j) p) = 0)).
    + split; [apply frame_refl|]. intros; lia.
    + intros k m1 Hk [Hf Hz]. assert (0 ≤ k < TOTAL_PAGES) by (unfold TOTAL_PAGES in *; lia).
      destruct (pte_window j k Hj ltac:(done)). apply wp_set_entry; [done..|lia|].
      intros m2 E F. split.
      * eapply frame_trans; [done|]. eapply frame_weaken; [|done]. intros a. by apply pte_in_table.
      * intros p Hp. destruct (decide (p = k)) as [->|]; [done|].
        rewrite (pte_other _ _ _ _ _ _ F) by (lia || congruence). apply Hz. lia.
  - cbn. intros [] m' [Hf Hz]. split; [|done]. intros p Hp. apply Hz.
    unfold TOTAL_PAGES in *. lia.
Qed.

Lemma wp_fill_kernel j m :
  valid_task j → (∀ p, 0 ≤ p < TOTAL_PAGES → load32 m (pte_addr (pt_addr j) p) = 0) →
  wp (for_range (Z.to_nat (NUM_PAG_KERNEL - 1)) 1 (λ i,
        set_entry_bits (pt_addr j) i pbase_addr i ;!
        set_entry_bits (pt_addr j) i rw 1 ;!
        set_entry_bits (pt_addr j) i present 1)) m (λ _ m',
    kernel_table m' j ∧ frame (pt_bytes j) m m').
Proof.
  intros Hj Hz. eapply wp_mono.
  - apply (wp_for_range _ (λ k m', frame (pt_bytes j) m m' ∧
      ∀ p, 0 ≤ p < TOTAL_PAGES →
        load32 m' (pte_addr (pt_addr j) p) = if decide (1 ≤ p < k) then pte p PTE_KERNEL else 0)).
    + split; [apply frame_refl|]. intros p Hp. rewrite decide_False by lia. auto.
    + intros k m1 Hk [Hf He].
      assert (0 ≤ k < TOTAL_PAGES) by (unfold TOTAL_PAGES, NUM_PAG_KERNEL in *; lia).
      destruct (pte_window j k Hj ltac:(done)). apply wp_map_kernel; [done..| | |].
      * unfold TOTAL_PAGES in *. lia.
      * rewrite He, decide_False by lia. done.
      * intros m2 E F. split.
        -- eapply frame_trans; [done|]. eapply frame_weaken; [|done]. intros a. by apply pte_in_table.
        -- intros p Hp. destruct (decide (p = k)) as [->|].
           ++ by rewrite decide_True by lia.
           ++ rewrite (pte_other _ _ _ _ _ _ F), He by (lia || congruence).
              repeat case_decide; done || lia.
  - cbn. intros [] m' [Hf He]. split; [|done]. intros p Hp. rewrite He by done.
    unfold kernel_entry, NUM_PAG_KERNEL. done.
Qed.

Lemma wp_init_table_pages m :
  wp init_table_pages m (λ _ m',
    (∀ i, valid_task i → kernel_table m' i) ∧ frame tables_bytes m m').
Proof.
  unfold init_table_pages. eapply wp_mono.
  - apply (wp_for_range _ (λ k m', frame tables_bytes m m' ∧
      ∀ i, 0 ≤ i < k → kernel_table m' i)).
    + split; [apply frame_refl|]. intros; lia.
    + intros j m1 Hj [Hf Ht]. assert (valid_task j) by (unfold valid_task, NR_TASKS in *; lia).
      apply wp_bind. eapply wp_mono; [by apply wp_clear_table|]. cbn. intros [] m2 [Hz F2].
      eapply wp_mono; [by apply wp_fill_kernel|]. cbn. intros [] m3 [Hk F3].
      assert (F : frame (pt_bytes j) m1 m3) by (by eapply frame_trans).
      split.
      * eapply frame_trans; [done|]. eapply frame_weaken; [|done]. intros a. by apply pt_bytes_tables.
      * intros i Hi. destruct (decide (i = j)) as [->|]; [done|].
        intros p Hp. rewrite (table_other _ _ _ _ _ F) by done. apply Ht; [lia|done].
  - cbn. intros [] m' [Hf Ht]. split; [|done]. intros i Hi. apply Ht.
    unfold valid_task, NR_TASKS in *. lia.
Qed.

(** The directory of task [i] names its own table. *)
Definition dir_ok (m : memory) (i : Z) : Prop :=
  load32 m (dir_addr i) = pte (pt_addr i / PAGE_SIZE) PTE_DATA.

(** init_dir_pages sets the first entry of each directory and relies on the
    image for the others. *)
Definition dir_rest (m : memory) (i : Z) : Prop :=
  ∀ d, 1 ≤ d < 1024 → load32 m (dir_addr i + 4 * d) = 0.

Definition dir_heads (a : Z) : Prop := ∃ i, valid_task i ∧ in_range (dir_addr i) 4 a.

Lemma dir_heads_dirs a : dir_heads a → dirs_bytes a.
Proof.
  intros (i & Hi & Ha). unfold valid_task, dirs_bytes, in_range, dir_addr, NR_TASKS, PAGE_SIZE in *. lia.
Qed.

Lemma wp_init_dir_pages m :
  wp init_dir_pages m (λ _ m', (∀ i, valid_task i → dir_ok m' i) ∧ frame dir_heads m m').
Proof.
  unfold init_dir_pages. eapply wp_mono.
  - apply (wp_for_range _ (λ k m', frame dir_heads m m' ∧ ∀ i, 0 ≤ i < k → dir_ok m' i)).
    + split; [apply frame_refl|]. intros; lia.
    + intros j m1 Hj [Hf Hd]. assert (Hv : valid_task j) by (unfold valid_task, NR_TASKS in *; lia).
      pose proof (dir_addr_window j Hv). pose proof (pt_addr_window j Hv).
      apply (wp_set_ss_pag (dir_addr j) ENTRY_DIR_PAGES).
      { unfold pte_addr, ENTRY_DIR_PAGES, KERNEL_LO, KERNEL_START in *. lia. }
      { unfold pte_addr, ENTRY_DIR_PAGES, PAGE_SIZE in *. lia. }
      { rewrite Z.shiftr_div_pow2 by lia. unfold KERNEL_START, KERNEL_HI, PAGE_SIZE in *.
        Z.div_mod_to_equations. lia. }
      unfold pte_addr, ENTRY_DIR_PAGES. rewrite Z.mul_0_r, Z.add_0_r.
      rewrite Z.shiftr_div_pow2 by lia. intros m2 E F. split.
      * eapply frame_trans; [done|]. eapply frame_weaken; [|done]. intros a Ha. by exists j.
      * intros i Hi. destruct (decide (i = j)) as [->|]; [done|]. unfold dir_ok.
        rewrite (frame_load32 _ _ _ _ F); [apply Hd; lia|]. intros b.
        unfold in_range, dir_addr, PAGE_SIZE. lia.
  - cbn. intros [] m' [Hf Hd]. split; [|done]. intros i Hi. apply Hd.
    unfold valid_task, NR_TASKS in *. lia.
Qed.
End TableProofs.

(** ** Address spaces *)

Section Spaces.
Context {L : Layout} {LO : LayoutOk L}.

(** What every task's tables have in common: the directory names the task's
    table, page 0 is unmapped and the kernel's pages map onto themselves. *)
Definition space_ok (m : memory) (i : Z) : Prop :=
  dir_ok m i ∧
  ∀ p, 0 ≤ p < NUM_PAG_KERNEL → load32 m (pte_addr (pt_addr i) p) = kernel_entry p.

(** The pages from [base] on map the frames [fs] with the given flags. *)
Definition maps (m : memory) (i base flags : Z) (fs : list Z) : Prop :=
  ∀ k f, fs !! k = Some f →
    load32 m (pte_addr (pt_addr i) (base + Z.of_nat k)) = pte f flags.

(** The bytes of the entries of pages [base .. base + n - 1]. *)
Definition entry_bytes (i base n : Z) : Z → Prop :=
  in_range (pte_addr (pt_addr i) base) (4 * n).

Lemma pt_page_lt i : valid_task i → 0 ≤ pt_addr i < 2 ^ 32.
Proof.
  intros Hi. pose proof (pt_addr_window i Hi). unfold KERNEL_START, KERNEL_HI, PAGE_SIZE in *. lia.
Qed.

Lemma translate_entry m i p o f c :
  valid_task i → dir_ok m i → 0 ≤ p < TOTAL_PAGES → 0 ≤ o < PAGE_SIZE →
  load32 m (pte_addr (pt_addr i) p) = pte f c → 0 ≤ f < 2 ^ 20 → 0 ≤ c < 2 ^ 12 →
  translate m (dir_addr i) (p * PAGE_SIZE + o) =
    if Z.testbit c 0 then Some (f * PAGE_SIZE + o) else None.
Proof.
  intros Hi Hd Hp Ho He Hf Hc.
  eapply translate_page; eauto using pt_addr_aligned, pt_page_lt.
Qed.

(** The kernel's window: an address of pages 1 to 255 is its own physical
    address, an address of page 0 has none. *)
Lemma translate_kernel m i va :
  valid_task i → space_ok m i → 0 ≤ va < KERNEL_HI →
  translate m (dir_addr i) va = if decide (KERNEL_LO ≤ va) then Some va else None.
Proof.
  intros Hi [Hd Hk] Hva. unfold KERNEL_HI, KERNEL_LO in *.
  replace va with (va / PAGE_SIZE * PAGE_SIZE + va mod PAGE_SIZE) at 1
    by (unfold PAGE_SIZE; Z.div_mod_to_equations; lia).
  assert (0 ≤ va / PAGE_SIZE < NUM_PAG_KERNEL ∧ 0 ≤ va mod PAGE_SIZE < PAGE_SIZE)
    as [Hp Ho] by (unfold PAGE_SIZE, NUM_PAG_KERNEL; Z.div_mod_to_equations; lia).
  specialize (Hk _ Hp). unfold kernel_entry in Hk.
  destruct (decide (1 ≤ va / PAGE_SIZE < NUM_PAG_KERNEL)).
  - rewrite (translate_entry m i _ _ _ _ Hi Hd) by
      (eauto || (unfold NUM_PAG_KERNEL, TOTAL_PAGES, PTE_KERNEL in *; lia)).
    cbn. unfold PAGE_SIZE in *. rewrite decide_True by (Z.div_mod_to_equations; lia).
    f_equal. Z.div_mod_to_equations; lia.
  - rewrite (translate_entry m i _ _ 0 0 Hi Hd) by
      (eauto || (unfold NUM_PAG_KERNEL, TOTAL_PAGES in *; lia)).
    cbn. unfold PAGE_SIZE in *. by rewrite decide_False by (Z.div_mod_to_equations; lia).
Qed.

Lemma wp_k_alloc_frame s (used : list Z) R :
  pm_ok (k_phys_mem s) →
  (∀ f, allocatable f → pm_get (k_phys_mem s) f ≠ FREE_FRAME → f ∈ used) →
  (length used < 384)%nat →
  (∀ f, allocatable f → pm_get (k_phys_mem s) f = FREE_FRAME →
        (∀ g, allocatable g → g < f → pm_get (k_phys_mem s) g ≠ FREE_FRAME) →
        R f (with_phys_mem (pm_set (k_phys_mem s) f USED_FRAME) s)) →
  wp k_alloc_frame s R.
Proof.
  intros Hok Hused Hlen HR. unfold wp, k_alloc_frame.
  destruct (alloc_frame_succeeds _ _ Hok Hused Hlen) as (f & -> & Hf & Hfr & Hlow). auto.
Qed.

Lemma allocatable_range f : allocatable f → 0 ≤ f < 2 ^ 20 ∧ f < TOTAL_PAGES.
Proof. intros [Hf _]. unfold NUM_PAG_KERNEL, TOTAL_PAGES in *. lia. Qed.

(** Frames taken from the map [pm], leaving [pm']. *)
Definition taken (pm pm' : frame_map) (fs : list Z) : Prop :=
  pm_ok pm' ∧ NoDup fs ∧
  (∀ f, f ∈ fs → allocatable f ∧ pm_get pm f = FREE_FRAME) ∧
  (∀ g, 0 ≤ g → pm_get pm' g = if decide (g ∈ fs) then USED_FRAME else pm_get pm g).

Lemma taken_nil pm : pm_ok pm → taken pm pm [].
Proof.
  intros Hok. split_and!; [done|constructor|by intros f ?%not_elem_of_nil|].
  intros g Hg. by rewrite decide_False by apply not_elem_of_nil.
Qed.

Lemma taken_snoc pm pm' fs f :
  taken pm pm' fs → allocatable f → pm_get pm' f = FREE_FRAME →
  taken pm (pm_set pm' f USED_FRAME) (fs ++ [f]).
Proof.
  intros (Hok & Hnd & Hfs & Hg) Hf Hfr. pose proof (allocatable_range f Hf) as [Hr Ht].
  pose proof (pm_ok_length _ Hok).
  assert ((f ∉ fs) ∧ pm_get pm f = FREE_FRAME) as [Hnf Hfree].
  { rewrite Hg in Hfr by lia. by case_decide. }
  split_and!.
  - by apply pm_set_ok.
  - apply NoDup_app. split_and!; [done| |apply NoDup_singleton].
    intros g Hgs ->%list_elem_of_singleton. done.
  - intros g [?| ->%list_elem_of_singleton]%elem_of_app; auto.
  - intros g Hge. rewrite pm_get_set, Hg by lia.
    destruct (decide (f = g)) as [<-|Hne].
    + rewrite decide_True; [done|]. rewrite elem_of_app, list_elem_of_singleton. auto.
    + destruct (decide (g ∈ fs)); [rewrite decide_True|rewrite decide_False]; try done;
        rewrite elem_of_app, list_elem_of_singleton; naive_solver.
Qed.

Lemma taken_used pm pm' fs used :
  taken pm pm' fs → (∀ f, allocatable f → pm_get pm f ≠ FREE_FRAME → f ∈ used) →
  ∀ f, allocatable f → pm_get pm' f ≠ FREE_FRAME → f ∈ fs ++ used.
Proof.
  intros (_ & _ & _ & Hg) Hu f Hf Hne. apply elem_of_app.
  rewrite Hg in Hne by (apply allocatable_range in Hf; lia).
  case_decide; auto.
Qed.

(** Allocating and mapping [n] consecutive pages. *)
Lemma wp_alloc_map i base flags n (mapf : Z → Z → M memory unit) used s :
  (∀ page f m R, 0 ≤ page < TOTAL_PAGES → 0 ≤ f < 2 ^ 20 →
     (∀ m', load32 m' (pte_addr (pt_addr i) page) = pte f flags →
            frame (in_range (pte_addr (pt_addr i) page) 4) m m' → R tt m') →
     wp (mapf page f) m R) →
  pm_ok (k_phys_mem s) →
  (∀ f, allocatable f → pm_get (k_phys_mem s) f ≠ FREE_FRAME → f ∈ used) →
  (n + length used ≤ 384)%nat → 0 ≤ base → base + Z.of_nat n ≤ TOTAL_PAGES →
  wp (for_range n 0 (λ pag, let! f := k_alloc_frame in on_mem (mapf (base + pag) f))) s
    (λ _ s', ∃ fs m' pm', s' = with_phys_mem pm' (with_mem m' s) ∧ length fs = n ∧
      taken (k_phys_mem s) pm' fs ∧ maps m' i base flags fs ∧
      frame (entry_bytes i base (Z.of_nat n)) (k_mem s) m' ∧
      ((0 < n)%nat → pm_get (k_phys_mem s) NUM_PAG_KERNEL = FREE_FRAME → NUM_PAG_KERNEL ∈ fs)).
Proof.
  intros Hmap Hok Hused Hlen Hb Hbn. eapply wp_mono.
  - apply (wp_for_range _ (λ k s', ∃ fs m' pm', s' = with_phys_mem pm' (with_mem m' s) ∧
      Z.of_nat (length fs) = k ∧ taken (k_phys_mem s) pm' fs ∧ maps m' i base flags fs ∧
      frame (entry_bytes i base (Z.of_nat n)) (k_mem s) m' ∧
      (0 < k → pm_get (k_phys_mem s) NUM_PAG_KERNEL = FREE_FRAME → NUM_PAG_KERNEL ∈ fs))).
    + exists [], (k_mem s), (k_phys_mem s). split_and!; [by destruct s|done|by apply taken_nil|done| |lia].
      apply frame_refl.
    + intros k s' Hk (fs & m1 & pm1 & -> & Hl & Ht & Hm & Hf & H256).
      apply wp_bind. eapply (wp_k_alloc_frame _ (fs ++ used)); cbn [k_phys_mem with_phys_mem].
      { apply Ht. }
      { by eapply taken_used. }
      { rewrite length_app. lia. }
      intros f Ha Hfr Hlow. apply wp_on_mem. pose proof (allocatable_range f Ha) as [Hr _].
      apply Hmap; [lia|done|]. intros m2 E F.
      exists (fs ++ [f]), m2, (pm_set pm1 f USED_FRAME). split_and!.
      * done.
      * rewrite length_app. cbn. lia.
      * by apply taken_snoc.
      * intros j g Hj. destruct (decide (j < length fs)%nat).
        -- rewrite lookup_app_l in Hj by done.
           rewrite (pte_other _ _ _ _ _ _ F) by (first [lia|intros [=]; lia]). by apply Hm.
        -- pose proof (lookup_lt_Some _ _ _ Hj) as Hlt. rewrite length_app in Hlt. cbn in Hlt.
           replace j with (length fs) in * by lia.
           rewrite list_lookup_middle in Hj by done. injection Hj as <-.
           by rewrite Hl.
      * eapply frame_trans; [done|]. eapply frame_weaken; [|done]. intros a.
        unfold entry_bytes, in_range, pte_addr. lia.
      * intros _ Hfree. rewrite elem_of_app, list_elem_of_singleton.
        destruct (decide (NUM_PAG_KERNEL ∈ fs)) as [|Hnin]; [by left|right].
        destruct Ht as (_ & _ & _ & Hg). destruct (decide (NUM_PAG_KERNEL = f)) as [|Hne]; [done|].
        exfalso. apply (Hlow NUM_PAG_KERNEL); [done|unfold allocatable in Ha; lia|].
        rewrite Hg by done. by rewrite decide_False.
  - cbn. intros [] s' (fs & m' & pm' & -> & Hl & Ht & Hm & Hf & H256). exists fs, m', pm'.
    split_and!; try done; try lia. intros Hn. apply H256. lia.
Qed.
End Spaces.

Section UserPages.
Context {L : Layout} {LO : LayoutOk L}.

Lemma wp_get_PT i s R :
  valid_task i → load32 (k_mem s) (task_addr i + f_dir_pages_baseAddr) = dir_addr i →
  dir_ok (k_mem s) i → R (pt_addr i) s → wp (get_PT (task_addr i)) s R.
Proof.
  intros Hi Hdir Hd HR. unfold get_PT.
  apply wp_bind, wp_get_field; [done|unfold f_dir_pages_baseAddr, PAGE_SIZE; lia..|].
  rewrite Hdir. pose proof (dir_addr_window i Hi). pose proof (pt_page_lt i Hi).
  unfold KERNEL_START, PAGE_SIZE in *.
  apply wp_bind, wp_on_mem, wp_kload32; [unfold KERNEL_LO; lia|lia|]. apply wp_ret.
  unfold dir_ok in Hd. rewrite Hd.
  assert (0 ≤ pt_addr i / 4096 < 2 ^ 20) by (Z.div_mod_to_equations; lia).
  pose proof (pt_addr_aligned i). unfold PAGE_SIZE in *.
  rewrite get_pbase, Z.shiftl_mul_pow2 by (unfold PTE_DATA; lia).
  replace (pt_addr i / 4096 * 2 ^ 12) with (pt_addr i) by (Z.div_mod_to_equations; lia).
  rewrite u32_small by lia. by destruct s.
Qed.

Lemma taken_trans pm pm1 pm2 fs1 fs2 :
  taken pm pm1 fs1 → taken pm1 pm2 fs2 → taken pm pm2 (fs1 ++ fs2).
Proof.
  intros (_ & Hnd1 & Hfs1 & Hg1) (Hok & Hnd2 & Hfs2 & Hg2).
  assert (Hd : ∀ f, f ∈ fs2 → (f ∉ fs1) ∧ allocatable f ∧ pm_get pm f = FREE_FRAME).
  { intros f Hf. destruct (Hfs2 f Hf) as [Ha Hfr].
    rewrite Hg1 in Hfr by (apply allocatable_range in Ha; lia). by case_decide. }
  split_and!; [done| | |].
  - apply NoDup_app. split_and!; [done| |done]. intros f H1 H2. by destruct (Hd f H2).
  - intros f [Hf|Hf]%elem_of_app; [auto|]. by destruct (Hd f Hf) as (_ & ? & ?).
  - intros g Hg. rewrite Hg2, Hg1 by done.
    destruct (decide (g ∈ fs2)), (decide (g ∈ fs1)), (decide (g ∈ fs1 ++ fs2)) as [Hin|Hin];
      try done; rewrite elem_of_app in Hin; tauto.
Qed.

Lemma maps_frame m m' i base flags fs P :
  maps m i base flags fs → frame P m m' →
  (∀ a, entry_bytes i base (Z.of_nat (length fs)) a → ¬ P a) →
  maps m' i base flags fs.
Proof.
  intros Hm Hf HP k f Hk. rewrite (frame_load32 _ _ _ _ Hf); [by apply Hm|].
  intros b Hb. apply HP. apply lookup_lt_Some in Hk.
  unfold entry_bytes, in_range, pte_addr in *. lia.
Qed.

(** The user region: data pages first, code pages after them. *)
Definition user_bytes (i : Z) : Z → Prop :=
  entry_bytes i PAG_LOG_INIT_DATA (NUM_PAG_DATA + NUM_PAG_CODE).

Lemma wp_set_user_pages i used s :
  valid_task i → load32 (k_mem s) (task_addr i + f_dir_pages_baseAddr) = dir_addr i →
  dir_ok (k_mem s) i → pm_ok (k_phys_mem s) →
  (∀ f, allocatable f → pm_get (k_phys_mem s) f ≠ FREE_FRAME → f ∈ used) →
  (28 + length used ≤ 384)%nat →
  wp (set_user_pages (task_addr i)) s (λ _ s', ∃ code data m' pm',
    s' = with_phys_mem pm' (with_mem m' s) ∧
    length code = Z.to_nat NUM_PAG_CODE ∧ length data = Z.to_nat NUM_PAG_DATA ∧
    taken (k_phys_mem s) pm' (code ++ data) ∧
    maps m' i PAG_LOG_INIT_CODE PTE_CODE code ∧
    maps m' i PAG_LOG_INIT_DATA PTE_DATA data ∧
    frame (user_bytes i) (k_mem s) m' ∧
    (pm_get (k_phys_mem s) NUM_PAG_KERNEL = FREE_FRAME → NUM_PAG_KERNEL ∈ code)).
Proof.
  intros Hi Hdir Hd Hok Hused Hlen. unfold set_user_pages.
  apply wp_bind, (wp_get_PT i); [done..|]. apply wp_bind. eapply wp_mono.
  { apply (wp_alloc_map i PAG_LOG_INIT_CODE PTE_CODE 8
             (λ page f, set_entry (pt_addr i) page 0 ;!
                set_entry_bits (pt_addr i) page pbase_addr f ;!
                set_entry_bits (pt_addr i) page user 1 ;!
                set_entry_bits (pt_addr i) page present 1) used); try done; try lia.
    intros page f m R Hp Hf HR. destruct (pte_window i page Hi Hp). by apply wp_map_code. }
  cbn beta. intros [] s1 (code & m1 & pm1 & -> & Hlc & Ht1 & Hm1 & Hf1 & H256). eapply wp_mono.
  { apply (wp_alloc_map i PAG_LOG_INIT_DATA PTE_DATA 20 (set_ss_pag (pt_addr i)) (code ++ used));
      cbn [k_phys_mem with_phys_mem]; try done.
    - intros page f m R Hp Hf HR. destruct (pte_window i page Hi Hp). by apply wp_set_ss_pag.
    - apply Ht1.
    - by eapply taken_used.
    - rewrite length_app. lia. }
  cbn beta. intros [] s2 (data & m2 & pm2 & -> & Hld & Ht2 & Hm2 & Hf2 & _).
  exists code, data, m2, pm2. split_and!; try done.
  - by eapply taken_trans.
  - eapply maps_frame; [done|exact Hf2|]. rewrite Hlc. intros a.
    unfold entry_bytes, in_range, pte_addr, PAG_LOG_INIT_CODE, NUM_PAG_DATA. lia.
  - eapply frame_trans; (eapply frame_weaken; [|eassumption]); intros a;
      unfold user_bytes, entry_bytes, in_range, pte_addr, PAG_LOG_INIT_CODE,
        NUM_PAG_DATA, NUM_PAG_CODE; lia.
  - apply H256. lia.
Qed.

(** Frames given back to the map [pm], leaving [pm']. *)
Definition freed (pm pm' : frame_map) (fs : list Z) : Prop :=
  pm_ok pm' ∧
  ∀ g, 0 ≤ g → pm_get pm' g = if decide (g ∈ fs) then FREE_FRAME else pm_get pm g.

Lemma freed_nil pm : pm_ok pm → freed pm pm [].
Proof.
  intros Hok. split; [done|]. intros g Hg. by rewrite decide_False by apply not_elem_of_nil.
Qed.

Lemma freed_snoc pm pm' fs f :
  freed pm pm' fs → NUM_PAG_KERNEL < f < TOTAL_PAGES →
  freed pm (free_frame f pm') (fs ++ [f]).
Proof.
  intros [Hok Hfr] Hf. split; [by apply free_frame_ok|]. intros g Hg.
  rewrite free_frame_get, Hfr by done.
  destruct (decide (f = g ∧ NUM_PAG_KERNEL < f < TOTAL_PAGES)) as [[<- _]|Hne].
  - rewrite decide_True; [done|]. rewrite elem_of_app, list_elem_of_singleton. auto.
  - assert (g ≠ f) by (intros ->; tauto).
    destruct (decide (g ∈ fs)); [rewrite decide_True|rewrite decide_False]; try done;
      rewrite elem_of_app, list_elem_of_singleton; tauto.
Qed.

Lemma wp_free_user_pages i data s :
  valid_task i → load32 (k_mem s) (task_addr i + f_dir_pages_baseAddr) = dir_addr i →
  dir_ok (k_mem s) i → pm_ok (k_phys_mem s) →
  length data = Z.to_nat NUM_PAG_DATA → maps (k_mem s) i PAG_LOG_INIT_DATA PTE_DATA data →
  (∀ f, f ∈ data → NUM_PAG_KERNEL < f < TOTAL_PAGES) →
  wp (free_user_pages (task_addr i)) s (λ _ s', ∃ m' pm',
    s' = with_phys_mem pm' (with_mem m' s) ∧ freed (k_phys_mem s) pm' data ∧
    (∀ k, 0 ≤ k < NUM_PAG_DATA →
       load32 m' (pte_addr (pt_addr i) (PAG_LOG_INIT_DATA + k)) = 0) ∧
    frame (entry_bytes i PAG_LOG_INIT_DATA NUM_PAG_DATA) (k_mem s) m').
Proof.
  intros Hi Hdir Hd Hok Hlen Hm Hdata. unfold free_user_pages.
  apply wp_bind, (wp_get_PT i); [done..|]. eapply wp_mono.
  - apply (wp_for_range _ (λ k s', ∃ m' pm', s' = with_phys_mem pm' (with_mem m' s) ∧
      freed (k_phys_mem s) pm' (take (Z.to_nat k) data) ∧
      (∀ j, 0 ≤ j < k → load32 m' (pte_addr (pt_addr i) (PAG_LOG_INIT_DATA + j)) = 0) ∧
      frame (entry_bytes i PAG_LOG_INIT_DATA k) (k_mem s) m')).
    + exists (k_mem s), (k_phys_mem s). split_and!; [by destruct s|by apply freed_nil|lia|apply frame_refl].
    + intros k s' Hk (m1 & pm1 & -> & Hfr1 & Hz1 & Hf1).
      assert (Hkd : 0 ≤ k < NUM_PAG_DATA) by (unfold NUM_PAG_DATA in *; lia).
      destruct (lookup_lt_is_Some_2 data (Z.to_nat k)) as [f Hfk].
      { unfold NUM_PAG_DATA in *. lia. }
      pose proof (Hdata f (list_elem_of_lookup_2 _ _ _ Hfk)) as Hf.
      assert (Hpage : 0 ≤ PAG_LOG_INIT_DATA + k < TOTAL_PAGES).
      { unfold NUM_PAG_DATA, TOTAL_PAGES in *. change PAG_LOG_INIT_DATA with 256. lia. }
      destruct (pte_window i _ Hi Hpage) as [Hlo Hhi].
      apply wp_bind, wp_on_mem, wp_get_entry_bits; [done..|]. cbn [k_mem with_phys_mem with_mem].
      assert (load32 m1 (pte_addr (pt_addr i) (PAG_LOG_INIT_DATA + k)) = pte f PTE_DATA) as ->.
      { rewrite (frame_load32 _ _ _ _ Hf1).
        - rewrite <- (Hm _ _ Hfk). do 2 f_equal. lia.
        - intros b. unfold entry_bytes, in_range, pte_addr. lia. }
      rewrite get_pbase by (unfold NUM_PAG_KERNEL, TOTAL_PAGES, PTE_DATA in *; lia).
      apply wp_bind, wp_modify, wp_on_mem, wp_set_entry; [done..|lia|]. intros m2 E F.
      cbn [k_mem k_phys_mem with_phys_mem with_mem].
      exists m2, (free_frame f pm1). split_and!.
      * done.
      * replace (Z.to_nat (k + 1)) with (S (Z.to_nat k)) by lia.
        rewrite (take_S_r _ _ _ Hfk). by apply freed_snoc.
      * intros j Hj. destruct (decide (j = k)) as [->|]; [done|].
        rewrite (pte_other _ _ _ _ _ _ F); [apply Hz1; lia|done| |intros [=]; lia].
        unfold TOTAL_PAGES, NUM_PAG_DATA in *. change PAG_LOG_INIT_DATA with 256 in *. lia.
      * eapply frame_trans; (eapply frame_weaken; [|eassumption]); intros a;
          unfold entry_bytes, in_range, pte_addr; lia.
  - cbn beta. intros [] s' (m' & pm' & -> & Hfr & Hz & Hf). exists m', pm'.
    rewrite take_ge in Hfr by (rewrite Hlen; lia). done.
Qed.
End UserPages.

Section Boot.
Context {L : Layout} {LO : LayoutOk L}.

Lemma tables_dirs_apart a : dirs_bytes a → ¬ tables_bytes a.
Proof. pose proof dir_pt_apart. unfold apart, dirs_bytes, tables_bytes, in_range in *. lia. Qed.

Lemma task_word_apart i f a :
  valid_task i → 0 ≤ f → f + 4 ≤ PAGE_SIZE → in_range (task_addr i + f) 4 a →
  ¬ tables_bytes a ∧ ¬ dirs_bytes a.
Proof.
  pose proof task_dir_apart. pose proof task_pt_apart.
  unfold valid_task, task_addr, apart, dirs_bytes, tables_bytes, in_range, sizeof_task_union,
    KERNEL_STACK_SIZE, NR_TASKS, PAGE_SIZE in *. lia.
Qed.

Lemma dir_word_frame m m' P i :
  valid_task i → frame P m m' → (∀ a, dirs_bytes a → ¬ P a) → dir_ok m i → dir_ok m' i.
Proof.
  intros Hi Hf HP Hd. unfold dir_ok. rewrite (frame_load32 _ _ _ _ Hf); [done|].
  intros b Hb. apply HP.
  unfold valid_task, dirs_bytes, in_range, dir_addr, NR_TASKS, PAGE_SIZE in *. lia.
Qed.

Lemma dir_rest_frame m m' P i :
  valid_task i → frame P m m' → (∀ a, P a → dirs_bytes a → dir_heads a) → dir_rest m i → dir_rest m' i.
Proof.
  intros Hi Hf HP Hd d Hr. rewrite (frame_load32 _ _ _ _ Hf); [by apply Hd|]. intros b Hb Hx.
  destruct (HP b Hx) as (k & Hk & Hbk);
    unfold valid_task, dirs_bytes, in_range, dir_addr, NR_TASKS, PAGE_SIZE in *; lia.
Qed.

Lemma kernel_table_frame m m' P i :
  valid_task i → frame P m m' → (∀ a, tables_bytes a → ¬ P a) →
  kernel_table m i → kernel_table m' i.
Proof.
  intros Hi Hf HP Ht p Hp. rewrite (frame_load32 _ _ _ _ Hf); [by apply Ht|].
  intros b Hb. apply HP. eapply pt_bytes_tables, pte_in_table; eauto.
Qed.

(** The state init_mm leaves: tables, frame map, page directory register. *)
Record mm_ready (s : kstate) : Prop := {
  ready_dirs : ∀ i, valid_task i → dir_ok (k_mem s) i;
  ready_tables : ∀ i, valid_task i → kernel_table (k_mem s) i;
  ready_frames : pm_ok (k_phys_mem s) ∧ ∀ f, 0 ≤ f < TOTAL_PAGES →
    pm_get (k_phys_mem s) f = if decide (f < NUM_PAG_KERNEL) then USED_FRAME else FREE_FRAME;
  ready_cr3 : k_cr3 s = dir_addr 0;
  ready_task0 : load32 (k_mem s) (task_addr 0 + f_dir_pages_baseAddr) = dir_addr 0;
  ready_pg : Z.testbit (k_cr0 s) 31 = true;
}.

Lemma wp_init_mm s :
  pm_ok (k_phys_mem s) →
  wp init_mm s (λ _ s', mm_ready s' ∧
    ∃ m' pm' cr0', s' = with_cr0 cr0' (with_cr3 (dir_addr 0) (with_phys_mem pm' (with_mem m' s))) ∧
      frame (λ a, tables_bytes a ∨ dir_heads a ∨
                  in_range (task_addr 0 + f_dir_pages_baseAddr) 4 a) (k_mem s) m').
Proof.
  intros Hok. assert (Hv0 : valid_task 0) by (unfold valid_task, NR_TASKS; lia).
  unfold init_mm. apply wp_bind, wp_on_mem.
  eapply wp_mono; [apply wp_init_table_pages|]. intros [] m1 [Ht1 F1].
  apply wp_bind. unfold k_init_frames. apply wp_bind, wp_modify, wp_ret.
  apply wp_bind, wp_on_mem. cbn [k_mem with_phys_mem with_mem].
  eapply wp_mono; [apply wp_init_dir_pages|]. intros [] m2 [Hd2 F2].
  apply wp_bind. unfold allocate_DIR. rewrite task_index_addr by done.
  apply wp_bind, wp_set_field; [done|unfold f_dir_pages_baseAddr, PAGE_SIZE; lia..|].
  apply wp_ret. apply wp_bind.
  apply wp_get_field; [done|unfold f_dir_pages_baseAddr, PAGE_SIZE; lia..|].
  cbn [k_mem with_mem].
  pose proof (dir_addr_window 0 Hv0) as Hdw. unfold KERNEL_START, KERNEL_HI, PAGE_SIZE in Hdw.
  fold (dir_addr 0). rewrite load32_store32_same by lia.
  set (m3 := store32 m2 _ _).
  assert (F3 : frame (in_range (task_addr 0 + f_dir_pages_baseAddr) 4) m2 m3)
    by (apply frame_store32; auto).
  assert (Hap : ∀ a, in_range (task_addr 0 + f_dir_pages_baseAddr) 4 a →
                     ¬ tables_bytes a ∧ ¬ dirs_bytes a).
  { intros a. apply task_word_apart; [done|unfold f_dir_pages_baseAddr, PAGE_SIZE; lia..]. }
  apply wp_bind, wp_modify, wp_modify. split; [split|].
  - intros i Hi. eapply dir_word_frame; [done|exact F3| |by apply Hd2].
    intros a Ha Hr. by destruct (Hap a Hr).
  - intros i Hi. eapply kernel_table_frame; [done|exact F3| |].
    { intros a Ha Hr. by destruct (Hap a Hr). }
    eapply kernel_table_frame; [done|exact F2| |by apply Ht1].
    intros a Ha Hr%dir_heads_dirs. by eapply tables_dirs_apart.
  - split; [by apply fill_ok, fill_ok|]. intros f Hf. by apply init_frames_get.
  - done.
  - apply load32_store32_same. lia.
  - change (Z.testbit (Z.lor (k_cr0 s) 0x80000000) 31 = true).
    rewrite Z.lor_spec. apply orb_true_r.
  - exists m3, (init_frames (k_phys_mem s)), (Z.lor (k_cr0 s) 0x80000000). split; [done|].
    eapply frame_trans; [eapply frame_weaken; [|exact F1]; auto|].
    eapply frame_trans; [eapply frame_weaken; [|exact F2]; auto|].
    eapply frame_weaken; [|exact F3]; auto.
Qed.
End Boot.

(** ** What the memory manager guarantees *)

Section MmClaims.
Context {L : Layout} {LO : LayoutOk L}.

(** After init_mm, in the address space of every task: each kernel page
    from 1 to 255 is mapped onto itself, page 0 (the NULL page) and every
    page from 256 on are unmapped; paging is on with the directory of task 0,
    and exactly the kernel's frames are in use. *)
Theorem init_mm_spaces s :
  pm_ok (k_phys_mem s) →
  ∃ s', init_mm s = Ret tt s' ∧ k_cr3 s' = dir_addr 0 ∧ Z.testbit (k_cr0 s') 31 = true ∧
    (∀ i va, valid_task i → 0 ≤ va < TOTAL_PAGES * PAGE_SIZE →
       translate (k_mem s') (dir_addr i) va =
         if decide (KERNEL_LO ≤ va < KERNEL_HI) then Some va else None) ∧
    (∀ f, 0 ≤ f < TOTAL_PAGES →
       pm_get (k_phys_mem s') f = if decide (f < NUM_PAG_KERNEL) then USED_FRAME else FREE_FRAME).
Proof.
  intros Hok. destruct (wp_elim _ _ _ (wp_init_mm s Hok)) as ([] & s' & E & [Hd Ht Hf Hc _ Hpg] & _).
  exists s'. split_and!; [done..| |apply Hf].
  intros i va Hi Hva. destruct (decide (va < KERNEL_HI)).
  - assert (space_ok (k_mem s') i).
    { split; [auto|]. intros p Hp. apply Ht; [done|]. unfold NUM_PAG_KERNEL, TOTAL_PAGES in *. lia. }
    rewrite translate_kernel by (done || lia). repeat case_decide; done || lia.
  - unfold KERNEL_HI, KERNEL_LO, TOTAL_PAGES, PAGE_SIZE in *. rewrite decide_False by lia.
    replace va with (va / 4096 * 4096 + va mod 4096) by (Z.div_mod_to_equations; lia).
    assert (256 ≤ va / 4096 < 1024) by (Z.div_mod_to_equations; lia).
    apply (translate_entry _ i _ _ 0 0); auto; unfold TOTAL_PAGES, PAGE_SIZE; try lia.
    + Z.div_mod_to_equations; lia.
    + rewrite Ht by (done || (unfold TOTAL_PAGES; lia)). unfold kernel_entry, NUM_PAG_KERNEL.
      by rewrite decide_False by lia.
Qed.
End MmClaims.

Lemma init_mm_spaces_witness :
  let dir := dir_addr (L := zeos_layout) in
  ∃ s', init_mm (L := zeos_layout) kstate_image = Ret tt s' ∧ k_cr3 s' = dir 0 ∧
    Z.testbit (k_cr0 s') 31 = true ∧
    (∀ i va, valid_task i → 0 ≤ va < TOTAL_PAGES * PAGE_SIZE →
       translate (k_mem s') (dir i) va =
         if decide (KERNEL_LO ≤ va < KERNEL_HI) then Some va else None) ∧
    (∀ f, 0 ≤ f < TOTAL_PAGES →
       pm_get (k_phys_mem s') f = if decide (f < NUM_PAG_KERNEL) then USED_FRAME else FREE_FRAME).
Proof.
  apply (@init_mm_spaces zeos_layout zeos_layout_ok). vm_compute. reflexivity.
Defined.
