(* ===== verification/Utils.v ===== *)
(** utils.c: block copies through the page tables, the check of user
    pointers, and the tick counter. *)

From S2P Require Import Prelude Memory CList Libc Console Frames Types Kernel Task Paging.

(** ** Accesses through the page tables

    A pointer dereference translates every byte it touches with the
    directory in cr3; a byte without a translation is a page fault. *)

Definition vload8 (va : Z) : K Z := λ s,
  match translate (k_mem s) (k_cr3 s) (u32 va) with
  | Some pa => Ret (load8 (k_mem s) pa) s
  | None => Fault (PageFault (u32 va))
  end.

Definition vstore8 (va v : Z) : K unit := λ s,
  match translate (k_mem s) (k_cr3 s) (u32 va) with
  | Some pa => Ret tt (with_mem (store8 (k_mem s) pa v) s)
  | None => Fault (PageFault (u32 va))
  end.

Definition vload32 (va : Z) : K Z :=
  let! b0 := vload8 va in
  let! b1 := vload8 (va + 1) in
  let! b2 := vload8 (va + 2) in
  let! b3 := vload8 (va + 3) in
  ret (b0 + Z.shiftl b1 8 + Z.shiftl b2 16 + Z.shiftl b3 24).

Definition vstore32 (va v : Z) : K unit :=
  vstore8 va v ;!
  vstore8 (va + 1) (Z.shiftr v 8) ;!
  vstore8 (va + 2) (Z.shiftr v 16) ;!
  vstore8 (va + 3) (Z.shiftr v 24).

(** ** copy_data, copy_from_user, copy_to_user *)

(** [while(size > 4) { *q++ = *p++; size -= 4; }] on words, which leaves the
    two pointers and the size. *)
Fixpoint copy_words (fuel : nat) (p q size : Z) : K (Z * Z * Z) :=
  match fuel with
  | O => fail OutOfFuel
  | Datatypes.S fuel' =>
      if 4 <? size then
        let! v := vload32 p in
        vstore32 q v ;!
        copy_words fuel' (p + 4) (q + 4) (size - 4)
      else ret (p, q, size)
  end.

(** [while(size > 0) { *q1++ = *p1++; size --; }] on bytes. *)
Fixpoint copy_bytes (fuel : nat) (p1 q1 size : Z) : K unit :=
  match fuel with
  | O => fail OutOfFuel
  | Datatypes.S fuel' =>
      if 0 <? size then
        let! v := vload8 p1 in
        vstore8 q1 v ;!
        copy_bytes fuel' (p1 + 1) (q1 + 1) (size - 1)
      else ret tt
  end.

(** Every pass of either loop lowers [size], which starts below [2 ^ 31]. *)
Definition copy_data (start dest size : Z) : K unit :=
  let! r := copy_words (S (Z.to_nat size)) start dest size in
  copy_bytes (S (Z.to_nat size)) r.1.1 r.1.2 r.2.

Definition copy_from_user (start dest size : Z) : K Z :=
  let! r := copy_words (S (Z.to_nat size)) start dest size in
  copy_bytes (S (Z.to_nat size)) r.1.1 r.1.2 r.2 ;!
  ret 0.

Definition copy_to_user (start dest size : Z) : K Z :=
  let! r := copy_words (S (Z.to_nat size)) start dest size in
  copy_bytes (S (Z.to_nat size)) r.1.1 r.1.2 r.2 ;!
  ret 0.

(** ** access_ok *)

Definition VERIFY_READ : Z := 0.
Definition VERIFY_WRITE : Z := 1.

Definition access_ok (type addr size : Z) : Z :=
  let addr_ini := Z.shiftr addr 12 in
  let addr_fin := Z.shiftr (u32 (addr + size)) 12 in
  if addr_fin <? addr_ini then 0
  else
    (* case VERIFY_WRITE, which falls through to the default *)
    if (type =? VERIFY_WRITE) &&
       ((USER_FIRST_PAGE <=? addr_ini) && (addr_fin <=? USER_FIRST_PAGE + NUM_PAG_DATA)) then 1
    else if (USER_FIRST_PAGE <=? addr_ini) &&
            (addr_fin <=? USER_FIRST_PAGE + NUM_PAG_CODE + NUM_PAG_DATA) then 1
    else 0.

(** ** do_div and get_ticks *)

Definition CYCLESPERTICK : Z := 109000.

(** The [divl] instruction: edx:eax by a 32-bit divisor. *)
Definition divl (low high divisor : Z) : fault + (Z * Z) :=
  let n := high * 2 ^ 32 + low in
  if (divisor =? 0) || (2 ^ 32 <=? n / divisor) then inl DivideError
  else inr (n / divisor, n mod divisor).

(** The new value of [n] and the remainder. *)
Definition do_div (n base : Z) : fault + (Z * Z) :=
  let low := n mod 2 ^ 32 in
  let high := n / 2 ^ 32 in
  let upper := if high =? 0 then high else high mod base in
  let high' := if high =? 0 then high else high / base in
  match divl low upper base with
  | inl e => inl e
  | inr (low', md) => inr (high' * 2 ^ 32 + low', md)
  end.

(** The two halves of the time stamp counter. *)
Definition rdtsc (tsc : Z) : Z * Z := (u32 tsc, u32 (Z.shiftr tsc 32)).

Definition get_ticks (tsc : Z) : fault + Z :=
  let '(eax, edx) := rdtsc tsc in
  match do_div (Z.shiftl edx 32 + eax) CYCLESPERTICK with
  | inl e => inl e
  | inr (ticks, _) => inr (u32 ticks)
  end.

Example get_ticks_123 : get_ticks (123 * 2 ^ 32 + 1000000) = inr 4846623.
Proof. vm_compute. reflexivity. Qed.

(** ** Block copies are memcpy *)

Section Copy.
Context (cr3 p q n : Z) (ps qs : Z → Z) (m0 : memory).

(** The physical bytes the destination covers. *)
Definition dest_bytes (a : Z) : Prop := ∃ i, 0 ≤ i < n ∧ a = qs i.

(** The pages of both blocks are mapped, to bytes [ps] and [qs]; the copy
    does not write the tables it goes through; the two blocks do not overlap
    in physical memory, and no byte of the destination is there twice. *)
Record copy_ok : Prop := {
  copy_src : ∀ m i, frame dest_bytes m0 m → 0 ≤ i < n → translate m cr3 (u32 (p + i)) = Some (ps i);
  copy_dst : ∀ m i, frame dest_bytes m0 m → 0 ≤ i < n → translate m cr3 (u32 (q + i)) = Some (qs i);
  copy_inj : ∀ i j, 0 ≤ i < n → 0 ≤ j < n → qs i = qs j → i = j;
  copy_apart : ∀ i j, 0 ≤ i < n → 0 ≤ j < n → ps i ≠ qs j;
}.

Context (Hok : copy_ok).

(** The first [k] bytes have been copied. *)
Definition copied (k : Z) (m : memory) : Prop :=
  frame dest_bytes m0 m ∧ ∀ i, 0 ≤ i < k → load8 m (qs i) = load8 m0 (ps i).

Lemma copied_src k m i : copied k m → 0 ≤ i < n → load8 m (ps i) = load8 m0 (ps i).
Proof.
  intros [Hf _] Hi. apply Hf. intros (j & Hj & E). by eapply (copy_apart Hok i j).
Qed.

Lemma copied_step k m v :
  copied k m → 0 ≤ k < n → u8 v = load8 m0 (ps k) → copied (k + 1) (store8 m (qs k) v).
Proof.
  intros [Hf Hc] Hk Hv. split.
  - eapply frame_trans; [done|]. apply frame_store8. by exists k.
  - intros i Hi. destruct (decide (i = k)) as [->|Hne].
    + by rewrite load8_store8_eq.
    + rewrite load8_store8_ne; [apply Hc; lia|]. intros E. apply Hne.
      apply (copy_inj Hok); [lia..|done].
Qed.

(** States of the copy: the first [k] bytes done, everything else as before. *)
Definition copying (s0 : kstate) (k : Z) (s : kstate) : Prop :=
  ∃ m, s = with_mem m s0 ∧ copied k m.

Context (s0 : kstate) (Hcr3 : k_cr3 s0 = cr3).

Lemma wp_copy_load k i s R :
  copying s0 k s → 0 ≤ i < n → R (load8 m0 (ps i)) s → wp (vload8 (p + i)) s R.
Proof.
  intros (m & -> & Hc) Hi HR. unfold wp, vload8. cbn [k_mem k_cr3 with_mem].
  rewrite Hcr3, (copy_src Hok _ _ (proj1 Hc) Hi). by rewrite (copied_src k m i Hc Hi).
Qed.

Lemma wp_copy_store k s v R :
  copying s0 k s → 0 ≤ k < n → u8 v = load8 m0 (ps k) →
  (∀ s', copying s0 (k + 1) s' → R tt s') → wp (vstore8 (q + k) v) s R.
Proof.
  intros (m & -> & Hc) Hk Hv HR. unfold wp, vstore8. cbn [k_mem k_cr3 with_mem].
  rewrite Hcr3, (copy_dst Hok _ _ (proj1 Hc) Hk). apply HR.
  exists (store8 m (qs k) v). split; [done|]. by apply copied_step.
Qed.

(** The byte of a word at place [i]. *)
Lemma word_byte b0 b1 b2 b3 :
  0 ≤ b0 < 2 ^ 8 → 0 ≤ b1 < 2 ^ 8 → 0 ≤ b2 < 2 ^ 8 → 0 ≤ b3 < 2 ^ 8 →
  let v := b0 + Z.shiftl b1 8 + Z.shiftl b2 16 + Z.shiftl b3 24 in
  u8 v = b0 ∧ u8 (Z.shiftr v 8) = b1 ∧ u8 (Z.shiftr v 16) = b2 ∧ u8 (Z.shiftr v 24) = b3.
Proof.
  intros H0 H1 H2 H3 v. subst v. rewrite !Z.shiftr_div_pow2, !Z.shiftl_mul_pow2 by lia. unfold u8.
  split_and!; Z.div_mod_to_equations; lia.
Qed.

Lemma wp_copy_word k s R :
  copying s0 k s → 0 ≤ k → k + 4 ≤ n →
  (∀ s', copying s0 (k + 4) s' → R tt s') →
  wp (let! v := vload32 (p + k) in vstore32 (q + k) v) s R.
Proof.
  intros Hc Hk Hn HR. apply wp_bind. unfold vload32. rewrite <- !Z.add_assoc.
  apply wp_bind, (wp_copy_load k k); [done|lia|].
  apply wp_bind, (wp_copy_load k (k + 1)); [done|lia|].
  apply wp_bind, (wp_copy_load k (k + 2)); [done|lia|].
  apply wp_bind, (wp_copy_load k (k + 3)); [done|lia|]. apply wp_ret.
  destruct (word_byte _ _ _ _ (load8_range m0 (ps k)) (load8_range m0 (ps (k + 1)))
              (load8_range m0 (ps (k + 2))) (load8_range m0 (ps (k + 3)))) as (E0 & E1 & E2 & E3).
  set (v := _ + Z.shiftl (load8 m0 (ps (k + 3))) 24) in *. clearbody v.
  unfold vstore32. rewrite <- !Z.add_assoc.
  apply wp_bind, (wp_copy_store k); [done|lia|done|]. intros s1 H1.
  apply wp_bind, (wp_copy_store (k + 1)); [done|lia|done|]. intros s2 H2.
  replace (k + 1 + 1) with (k + 2) in H2 by lia.
  apply wp_bind, (wp_copy_store (k + 2)); [done|lia|done|]. intros s3 H3.
  replace (k + 2 + 1) with (k + 3) in H3 by lia.
  apply (wp_copy_store (k + 3)); [done|lia|done|]. intros s4 H4.
  apply HR. by replace (k + 4) with (k + 3 + 1) by lia.
Qed.

Lemma wp_copy_words fuel k s (R : Z * Z * Z → kstate → Prop) :
  copying s0 k s → 0 ≤ k ≤ n → n - k < Z.of_nat fuel →
  (∀ k' s', copying s0 k' s' → 0 ≤ k' ≤ n → R (p + k', q + k', n - k') s') →
  wp (copy_words fuel (p + k) (q + k) (n - k)) s R.
Proof.
  revert k s. induction fuel as [|fuel IH]; intros k s Hc Hk Hfuel HR; [lia|].
  cbn [copy_words]. destruct (Z.ltb_spec 4 (n - k)).
  - change (wp (let! v := vload32 (p + k) in vstore32 (q + k) v ;!
      copy_words fuel (p + k + 4) (q + k + 4) (n - k - 4)) s R).
    assert (wp (let! v := vload32 (p + k) in vstore32 (q + k) v) s (λ _ s',
      wp (copy_words fuel (p + k + 4) (q + k + 4) (n - k - 4)) s' R)) as Hw.
    { apply (wp_copy_word k); [done|lia..|]. intros s' Hs'.
      replace (p + k + 4) with (p + (k + 4)) by lia. replace (q + k + 4) with (q + (k + 4)) by lia.
      replace (n - k - 4) with (n - (k + 4)) by lia. apply IH; [done|lia..|done]. }
    unfold wp, bind in *. destruct (vload32 (p + k) s) as [v s'|]; [|done].
    by destruct (vstore32 (q + k) v s').
  - by apply wp_ret, HR.
Qed.

Lemma wp_copy_bytes fuel k s (R : unit → kstate → Prop) :
  copying s0 k s → 0 ≤ k ≤ n → n - k < Z.of_nat fuel →
  (∀ s', copying s0 n s' → R tt s') →
  wp (copy_bytes fuel (p + k) (q + k) (n - k)) s R.
Proof.
  revert k s. induction fuel as [|fuel IH]; intros k s Hc Hk Hfuel HR; [lia|].
  cbn [copy_bytes]. destruct (Z.ltb_spec 0 (n - k)).
  - apply wp_bind, (wp_copy_load k k); [done|lia|].
    apply wp_bind, (wp_copy_store k); [done|lia| |].
    { unfold u8. rewrite Z.mod_small; [done|apply load8_range]. }
    intros s' Hs'. rewrite <- !Z.add_assoc. replace (n - k - 1) with (n - (k + 1)) by lia.
    apply IH; [done|lia..|done].
  - apply wp_ret, HR. by replace n with k by lia.
Qed.

Lemma wp_copy_loops (R : unit → kstate → Prop) :
  0 ≤ n → k_mem s0 = m0 →
  (∀ m', frame dest_bytes m0 m' → (∀ i, 0 ≤ i < n → load8 m' (qs i) = load8 m0 (ps i)) →
         R tt (with_mem m' s0)) →
  wp (let! r := copy_words (S (Z.to_nat n)) p q n in
      copy_bytes (S (Z.to_nat n)) r.1.1 r.1.2 r.2) s0 R.
Proof.
  intros Hn Hm HR. apply wp_bind.
  assert (H0 : copying s0 0 s0).
  { exists m0. split; [by rewrite <- Hm; destruct s0|]. split; [apply frame_refl|lia]. }
  replace (copy_words (S (Z.to_nat n)) p q n)
    with (copy_words (S (Z.to_nat n)) (p + 0) (q + 0) (n - 0)) by (by rewrite !Z.add_0_r, Z.sub_0_r).
  apply wp_copy_words; [done|lia..|]. intros k s Hc Hk. cbn [fst snd].
  apply wp_copy_bytes; [done|lia..|]. intros s' (m' & -> & Hf & Hb). by apply HR.
Qed.

Lemma wp_copy_data (R : unit → kstate → Prop) :
  0 ≤ n → k_mem s0 = m0 →
  (∀ m', frame dest_bytes m0 m' → (∀ i, 0 ≤ i < n → load8 m' (qs i) = load8 m0 (ps i)) →
         R tt (with_mem m' s0)) →
  wp (copy_data p q n) s0 R.
Proof. apply wp_copy_loops. Qed.

Lemma wp_copy_from_user (R : Z → kstate → Prop) :
  0 ≤ n → k_mem s0 = m0 →
  (∀ m', frame dest_bytes m0 m' → (∀ i, 0 ≤ i < n → load8 m' (qs i) = load8 m0 (ps i)) →
         R 0 (with_mem m' s0)) →
  wp (copy_from_user p q n) s0 R.
Proof.
  intros Hn Hm HR. change (copy_from_user p q n) with
    (let! r := copy_words (S (Z.to_nat n)) p q n in
     copy_bytes (S (Z.to_nat n)) r.1.1 r.1.2 r.2 ;! ret 0).
  assert (Hw : wp (let! r := copy_words (S (Z.to_nat n)) p q n in
      copy_bytes (S (Z.to_nat n)) r.1.1 r.1.2 r.2) s0 (λ _ s', R 0 s')).
  { apply wp_copy_loops; [done..|]. intros m' Hf Hc. by apply HR. }
  unfold wp, bind in *. destruct (copy_words _ p q n s0) as [r s'|]; [|done].
  by destruct (copy_bytes _ _ _ _ s').
Qed.
(** ** Copies that stop

    The first [n] bytes of a longer block are as above, and the next byte of
    the source is not mapped. *)
Context (Hhole : ∀ m, frame dest_bytes m0 m → translate m cr3 (u32 (p + n)) = None).

Lemma ends_copy_load k i s (R : Z → kstate → Prop) :
  copying s0 k s → 0 ≤ i ≤ n → (i < n → R (load8 m0 (ps i)) s) → ends (PageFault (u32 (p + n))) (vload8 (p + i)) s R.
Proof.
  intros Hc Hi HR. destruct (decide (i = n)) as [->|Hne].
  - destruct Hc as (m & -> & Hf & _). unfold ends, vload8. cbn [k_mem k_cr3 with_mem]. by rewrite Hcr3, (Hhole m Hf).
  - apply ends_wp, (wp_copy_load k); [done|lia|apply HR; lia].
Qed.

Lemma ends_copy_word k s (R : Z → kstate → Prop) :
  copying s0 k s → 0 ≤ k ≤ n → n < k + 4 → ends (PageFault (u32 (p + n))) (vload32 (p + k)) s R.
Proof.
  intros Hc Hk Hn. unfold vload32. rewrite <- !Z.add_assoc.
  apply ends_bind, (ends_copy_load k); [done|lia|]. intros H0.
  apply ends_bind, (ends_copy_load k); [done|lia|]. intros H1.
  apply ends_bind, (ends_copy_load k); [done|lia|]. intros H2.
  apply ends_bind, (ends_copy_load k); [done|lia|]. lia.
Qed.

Lemma ends_copy_words N fuel k s :
  copying s0 k s → 0 ≤ k ≤ n → n < N → N - k < Z.of_nat fuel →
  ends (PageFault (u32 (p + n))) (copy_words fuel (p + k) (q + k) (N - k)) s
    (λ r s', ∃ k', r = (p + k', q + k', N - k') ∧ copying s0 k' s' ∧ 0 ≤ k' ≤ n).
Proof.
  revert k s. induction fuel as [|fuel IH]; intros k s Hc Hk HN Hfuel; [lia|]. cbn [copy_words].
  destruct (Z.ltb_spec 4 (N - k)); [|by apply ends_wp, wp_ret; exists k].
  destruct (decide (n < k + 4)); [by apply ends_bind, (ends_copy_word k)|].
  apply ends_assoc, ends_bind, ends_wp, (wp_copy_word k); [done|lia..|]. intros s' Hs'.
  replace (p + k + 4) with (p + (k + 4)) by lia. replace (q + k + 4) with (q + (k + 4)) by lia.
  replace (N - k - 4) with (N - (k + 4)) by lia. apply IH; [done|lia..].
Qed.

Lemma ends_copy_bytes N fuel k s :
  copying s0 k s → 0 ≤ k ≤ n → n < N → N - k < Z.of_nat fuel →
  ends (PageFault (u32 (p + n))) (copy_bytes fuel (p + k) (q + k) (N - k)) s (λ _ _, False).
Proof.
  revert k s. induction fuel as [|fuel IH]; intros k s Hc Hk HN Hfuel; [lia|]. cbn [copy_bytes].
  destruct (Z.ltb_spec 0 (N - k)); [|lia].
  apply ends_bind, (ends_copy_load k); [done|lia|]. intros Hlt.
  apply ends_bind, ends_wp, (wp_copy_store k); [done|lia| |].
  { unfold u8. rewrite Z.mod_small; [done|apply load8_range]. }
  intros s' Hs'. rewrite <- !Z.add_assoc. replace (N - k - 1) with (N - (k + 1)) by lia. apply IH; [done|lia..].
Qed.

(** A copy that runs into an unmapped page stops there. *)
Lemma copy_from_user_stops N :
  0 ≤ n < N → k_mem s0 = m0 → copy_from_user p q N s0 = Fault (PageFault (u32 (p + n))).
Proof.
  intros Hn Hm. assert (H0 : copying s0 0 s0).
  { exists m0. split; [by rewrite <- Hm; destruct s0|]. split; [apply frame_refl|lia]. }
  apply ends_fault. unfold copy_from_user. apply ends_bind.
  replace (copy_words (S (Z.to_nat N)) p q N)
    with (copy_words (S (Z.to_nat N)) (p + 0) (q + 0) (N - 0)) by (by rewrite !Z.add_0_r, Z.sub_0_r).
  eapply ends_mono; [apply ends_copy_words; [exact H0|lia..]|]. intros r s' (k & -> & Hc & Hk).
  cbn [fst snd]. apply ends_bind. eapply ends_mono; [apply ends_copy_bytes; [exact Hc|lia..]|]. done.
Qed.
End Copy.

(** The same block copied byte by byte: the reference the copies are compared
    with. *)
Fixpoint memcpy (m : memory) (ps qs : Z → Z) (n : nat) : memory :=
  match n with
  | O => m
  | Datatypes.S k => store8 (memcpy m ps qs k) (qs (Z.of_nat k)) (load8 m (ps (Z.of_nat k)))
  end.

Lemma memcpy_spec m ps qs n :
  (∀ i j, 0 ≤ i < Z.of_nat n → 0 ≤ j < Z.of_nat n → qs i = qs j → i = j) →
  frame (dest_bytes (Z.of_nat n) qs) m (memcpy m ps qs n) ∧
  ∀ i, 0 ≤ i < Z.of_nat n → load8 (memcpy m ps qs n) (qs i) = load8 m (ps i).
Proof.
  induction n as [|n IH]; intros Hinj; cbn [memcpy].
  - split; [apply frame_refl|lia].
  - destruct IH as [Hf Hc]; [intros i j Hi Hj; apply Hinj; lia|]. split.
    + eapply frame_trans.
      * eapply frame_weaken; [|exact Hf]. intros a (i & Hi & ->). exists i. split; [lia|done].
      * apply frame_store8. exists (Z.of_nat n). split; [lia|done].
    + intros i Hi. destruct (decide (i = Z.of_nat n)) as [->|Hne].
      * rewrite load8_store8_eq. unfold u8. apply Z.mod_small, load8_range.
      * rewrite load8_store8_ne; [apply Hc; lia|]. intros E. apply Hne, Hinj; [lia..|done].
Qed.

(** C33. copy_data, copy_from_user and copy_to_user, which move words and then
    the one to four bytes that are left, have the effect of a byte-by-byte
    copy: they terminate without a fault on mapped, non-overlapping blocks,
    and leave the memory the reference copy leaves and nothing else changed. *)
Theorem copy_is_memcpy p q n ps qs s :
  0 ≤ n → copy_ok (k_cr3 s) p q n ps qs (k_mem s) →
  ∃ m', m' ≡ memcpy (k_mem s) ps qs (Z.to_nat n) ∧
    copy_data p q n s = Ret tt (with_mem m' s) ∧
    copy_from_user p q n s = Ret 0 (with_mem m' s) ∧
    copy_to_user p q n s = Ret 0 (with_mem m' s).
Proof.
  intros Hn Hok.
  destruct (wp_elim (copy_data p q n) s (λ _ s', ∃ m', s' = with_mem m' s ∧
     frame (dest_bytes n qs) (k_mem s) m' ∧
     ∀ i, 0 ≤ i < n → load8 m' (qs i) = load8 (k_mem s) (ps i)))
    as ([] & s' & E & m' & -> & Hf & Hc).
  { eapply wp_copy_data; [exact Hok|done..|]. intros m' Hf Hc. by exists m'. }
  destruct (memcpy_spec (k_mem s) ps qs (Z.to_nat n)) as [Hf' Hc'].
  { intros i j Hi Hj. apply (copy_inj _ _ _ _ _ _ _ Hok); lia. }
  exists m'. split_and!.
  - intros a. destruct (decide (Exists (λ i, a = qs i) (seqZ 0 n))) as [Hx|Hx].
    + apply Exists_exists in Hx as (i & Hi%elem_of_seqZ & ->). rewrite Hc, Hc' by lia. done.
    + assert (¬ dest_bytes n qs a).
      { intros (i & Hi & ->). apply Hx, Exists_exists. exists i.
        split; [by apply elem_of_seqZ; lia|done]. }
      rewrite Hf, Hf'; [done| |done]. rewrite Z2Nat.id by lia. done.
  - done.
  - unfold copy_from_user, copy_data, bind in *.
    destruct (copy_words _ p q n s) as [r s1|]; [|done].
    by destruct (copy_bytes _ _ _ _ s1) as [[] s2|]; simplify_eq.
  - unfold copy_to_user, copy_data, bind in *.
    destruct (copy_words _ p q n s) as [r s1|]; [|done].
    by destruct (copy_bytes _ _ _ _ s1) as [[] s2|]; simplify_eq.
Qed.

(** ** Copies inside the kernel's window *)

Section KernelCopy.
Context {L : Layout} {LO : LayoutOk L}.

Lemma space_ok_frame P m m' i :
  valid_task i → space_ok m i → frame P m m' →
  (∀ a, P a → (¬ tables_bytes a) ∧ (¬ dirs_bytes a)) → space_ok m' i.
Proof.
  intros Hi [Hd Hk] Hf HP. split.
  - eapply dir_word_frame; [done|exact Hf| |done]. intros a Ha HPa. by destruct (HP a HPa).
  - intros p Hp. rewrite (frame_load32 _ _ _ _ Hf); [by apply Hk|].
    intros b Hb HPb. destruct (HP b HPb) as [Ht _]. apply Ht.
    eapply pt_bytes_tables; [done|]. eapply pte_in_table; [|done].
    unfold NUM_PAG_KERNEL, TOTAL_PAGES in *. lia.
Qed.

Lemma copy_ok_kernel i m p q n :
  valid_task i → space_ok m i →
  KERNEL_LO ≤ p → p + n ≤ KERNEL_HI → KERNEL_LO ≤ q → q + n ≤ KERNEL_HI → apart p n q n →
  (∀ a, in_range q n a → (¬ tables_bytes a) ∧ (¬ dirs_bytes a)) →
  copy_ok (dir_addr i) p q n (Z.add p) (Z.add q) m.
Proof.
  intros Hi Hs Hp Hp' Hq Hq' Hap Hout. unfold KERNEL_LO, KERNEL_HI, apart in *.
  assert (Hst : ∀ m' a, frame (dest_bytes n (Z.add q)) m m' → KERNEL_LO ≤ a < KERNEL_HI →
            translate m' (dir_addr i) (u32 a) = Some a).
  { intros m' a Hf Ha. unfold KERNEL_LO, KERNEL_HI in *. rewrite u32_small by lia.
    rewrite translate_kernel; [|done| |unfold KERNEL_HI; lia].
    - by rewrite decide_True by (unfold KERNEL_LO; lia).
    - eapply space_ok_frame; [done..|]. intros b (j & Hj & ->). apply Hout. unfold in_range. lia. }
  split; intros; [apply Hst; [done|unfold KERNEL_LO, KERNEL_HI; lia]..|lia|lia].
Qed.
End KernelCopy.

(** 4096 bytes copied from task union 1 to task union 2 once the memory
    manager is up. *)
Lemma copy_is_memcpy_witness :
  let src := task_addr (L := zeos_layout) 1 in
  let dst := task_addr (L := zeos_layout) 2 in
  ∃ s, copy_ok (k_cr3 s) src dst 4096 (Z.add src) (Z.add dst) (k_mem s) ∧
  ∃ m', m' ≡ memcpy (k_mem s) (Z.add src) (Z.add dst) (Z.to_nat 4096) ∧
    copy_data src dst 4096 s = Ret tt (with_mem m' s) ∧
    copy_from_user src dst 4096 s = Ret 0 (with_mem m' s) ∧
    copy_to_user src dst 4096 s = Ret 0 (with_mem m' s).
Proof.
  destruct (wp_elim _ _ _ (@wp_init_mm zeos_layout zeos_layout_ok kstate_image eq_refl))
    as ([] & s & _ & Hr & _).
  assert (Hc : copy_ok (k_cr3 s) (task_addr (L := zeos_layout) 1) (task_addr (L := zeos_layout) 2)
    4096 (Z.add (task_addr (L := zeos_layout) 1)) (Z.add (task_addr (L := zeos_layout) 2)) (k_mem s)).
  { rewrite (ready_cr3 s Hr). apply (@copy_ok_kernel zeos_layout zeos_layout_ok 0).
    - unfold valid_task, NR_TASKS. lia.
    - split; [apply Hr; unfold valid_task, NR_TASKS; lia|]. intros p Hp.
      apply Hr; unfold valid_task, NR_TASKS, NUM_PAG_KERNEL, TOTAL_PAGES in *; lia.
    - vm_compute. discriminate.
    - vm_compute. discriminate.
    - vm_compute. discriminate.
    - vm_compute. discriminate.
    - left. vm_compute. discriminate.
    - unfold in_range, tables_bytes, dirs_bytes, in_range, NR_TASKS, PAGE_SIZE. cbn.
      unfold task_addr, sizeof_task_union, KERNEL_STACK_SIZE. cbn. lia. }
  exists s. split; [exact Hc|]. apply (copy_is_memcpy _ _ 4096 _ _ s); [lia|exact Hc].
Defined.

(** ** User pointers *)

Abbreviation user_end := (L_USER_START + (NUM_PAG_DATA + NUM_PAG_CODE) * PAGE_SIZE).

(** The blocks access_ok accepts.  The sum of address and size is that of
    32-bit words: when it wraps around, the block is refused unless the end
    comes to the page of the start again. *)
Lemma access_ok_iff type addr size :
  0 ≤ addr < 2 ^ 32 → 0 ≤ size < 2 ^ 32 →
  access_ok type addr size = 1 ↔
    L_USER_START ≤ addr ∧
    (addr + size < user_end + PAGE_SIZE ∨ addr < user_end + PAGE_SIZE ∧ 2 ^ 32 - addr mod PAGE_SIZE ≤ size).
Proof.
  intros Ha Hs. unfold access_ok, u32.
  change USER_FIRST_PAGE with 256. unfold NUM_PAG_DATA, NUM_PAG_CODE, L_USER_START, PAGE_SIZE.
  rewrite !Z.shiftr_div_pow2 by lia.
  set (e := (addr + size) mod 2 ^ 32).
  assert (He : addr + size < 2 ^ 32 ∧ e = addr + size ∨ 2 ^ 32 ≤ addr + size ∧ e = addr + size - 2 ^ 32)
    by (subst e; Z.div_mod_to_equations; lia). clearbody e.
  destruct (Z.ltb_spec (e / 2 ^ 12) (addr / 2 ^ 12)),
    (Z.leb_spec 256 (addr / 2 ^ 12)), (Z.leb_spec (e / 2 ^ 12) (256 + 20)),
    (Z.leb_spec (e / 2 ^ 12) (256 + 8 + 20)), (type =? VERIFY_WRITE);
    cbn [andb]; split; intros; (done || (Z.div_mod_to_equations; lia)).
Qed.

Lemma access_ok_bool type addr size : access_ok type addr size = 0 ∨ access_ok type addr size = 1.
Proof. unfold access_ok. repeat case_match; auto. Qed.

(** C34. What access_ok grants, for every 32-bit address and size.  It answers
    0 or 1, and 1 exactly for the blocks that start in the user region or in
    the page after it and end at most one page after it (that page is accepted
    although no task maps it), and for those whose size wraps the end around
    to the page of the start, which are nearly 4 GB long.  Every other block
    whose end overflows is refused.  A write access is granted exactly when a
    read access is: the case for writes falls through to the one for reads, so
    the code pages pass as writable. *)
Theorem access_ok_grants type addr size :
  0 ≤ addr < 2 ^ 32 → 0 ≤ size < 2 ^ 32 →
  (access_ok type addr size = 1 ↔
     L_USER_START ≤ addr ∧
     (addr + size < user_end + PAGE_SIZE ∨ addr < user_end + PAGE_SIZE ∧ 2 ^ 32 - addr mod PAGE_SIZE ≤ size)) ∧
  (access_ok type addr size = 0 ∨ access_ok type addr size = 1) ∧
  access_ok VERIFY_WRITE addr size = access_ok VERIFY_READ addr size.
Proof.
  intros Ha Hs. split; [by apply access_ok_iff|]. split; [apply access_ok_bool|].
  unfold access_ok. change (VERIFY_WRITE =? VERIFY_WRITE) with true.
  change (VERIFY_READ =? VERIFY_WRITE) with false. cbn [andb].
  unfold NUM_PAG_DATA, NUM_PAG_CODE.
  repeat match goal with |- context [?a <=? ?b] => destruct (Z.leb_spec a b) end;
    cbn [andb]; done || lia.
Qed.

Lemma access_ok_grants_witness :
  access_ok VERIFY_READ 0x100100 64 = 1 ∧ access_ok VERIFY_READ 0x11cf00 0x200 = 0 ∧
  access_ok VERIFY_READ 0x100001 (2 ^ 32 - 1) = 1.
Proof.
  split_and!.
  - apply (access_ok_grants VERIFY_READ 0x100100 64); unfold L_USER_START, NUM_PAG_DATA, NUM_PAG_CODE, PAGE_SIZE; lia.
  - destruct (access_ok_grants VERIFY_READ 0x11cf00 0x200) as (H1 & [H2|H2] & _); [lia|lia|exact H2|].
    apply H1 in H2. vm_compute in H2. destruct H2 as [_ [H2|[_ H2]]]; [discriminate H2|by destruct H2].
  - destruct (access_ok_grants VERIFY_READ 0x100001 (2 ^ 32 - 1)) as (H & _); [lia|lia|]. apply H. split; [done|]. right. by split.
Defined.

(** ** The tick counter *)

Lemma do_div_spec n base :
  0 ≤ n < 2 ^ 64 → 0 < base < 2 ^ 32 → do_div n base = inr (n / base, n mod base).
Proof.
  intros Hn Hb. unfold do_div, divl.
  set (h := n / 2 ^ 32). set (l := n mod 2 ^ 32).
  assert (Hnl : n = h * 2 ^ 32 + l) by (subst h l; rewrite (Z.div_mod n (2 ^ 32)) at 1; lia).
  assert (0 ≤ l < 2 ^ 32) by (apply Z.mod_pos_bound; lia).
  assert (Hu : (if h =? 0 then h else h mod base) = h mod base).
  { destruct (Z.eqb_spec h 0) as [->|]; [|done]. by rewrite Z.mod_0_l by lia. }
  assert (Hh : (if h =? 0 then h else h / base) = h / base).
  { destruct (Z.eqb_spec h 0) as [->|]; [|done]. by rewrite Z.div_0_l by lia. }
  rewrite Hu, Hh. destruct (Z.eqb_spec base 0); [lia|]. cbn [orb].
  pose proof (Z.mod_pos_bound h base ltac:(lia)).
  assert ((h mod base * 2 ^ 32 + l) / base < 2 ^ 32) by (apply Z.div_lt_upper_bound; nia).
  destruct (Z.leb_spec (2 ^ 32) ((h mod base * 2 ^ 32 + l) / base)); [lia|].
  assert (E : n = h / base * 2 ^ 32 * base + (h mod base * 2 ^ 32 + l)).
  { rewrite Hnl, (Z.div_mod h base) at 1 by lia. lia. }
  clearbody h l. subst n. rewrite E. do 2 f_equal.
  - by rewrite Z.div_add_l by lia.
  - by rewrite (Z.add_comm (h / base * 2 ^ 32 * base)), Z.mod_add by lia.
Qed.

(** C35. do_div divides 64-bit numbers exactly with two 32-bit divisions that
    cannot trap, and get_ticks is the time stamp counter in ticks of 109000
    cycles, modulo the width of its result. *)
Theorem get_ticks_divides n base tsc :
  0 ≤ n < 2 ^ 64 → 0 < base < 2 ^ 32 → 0 ≤ tsc < 2 ^ 64 →
  do_div n base = inr (n / base, n mod base) ∧
  get_ticks tsc = inr (u32 (tsc / 109000)).
Proof.
  intros Hn Hb Ht. split; [by apply do_div_spec|]. unfold get_ticks, rdtsc, u32.
  rewrite Z.shiftl_mul_pow2, Z.shiftr_div_pow2 by lia.
  assert (E : tsc / 2 ^ 32 mod 2 ^ 32 * 2 ^ 32 + tsc mod 2 ^ 32 = tsc) by (Z.div_mod_to_equations; lia). rewrite E.
  by rewrite do_div_spec by (unfold CYCLESPERTICK; lia).
Qed.

Lemma get_ticks_divides_witness :
  do_div 0x1234567890 1000 = inr (0x1234567890 / 1000, 0x1234567890 mod 1000) ∧
  get_ticks (7 * 2 ^ 32 + 5) = inr (u32 ((7 * 2 ^ 32 + 5) / 109000)).
Proof. apply get_ticks_divides; lia. Defined.
