(* ===== verification/Switch.v ===== *)
(** The context switch: task_switch of entry.S and inner_task_switch of
    sched.c, on the kernel stacks inside the task unions. *)

From S2P Require Import Prelude Memory CList Libc Console Frames Types Kernel Task Paging.

(** ** Instructions *)

Definition push (v : Z) : K unit :=
  let! e := get_reg esp in
  upd_regs (w_esp (u32 (e - 4))) ;!
  on_mem (kstore32 (u32 (e - 4)) v).

Definition push_reg (r : regs → Z) : K unit :=
  let! v := get_reg r in push v.

Definition pop : K Z :=
  let! e := get_reg esp in
  let! v := on_mem (kload32 e) in
  upd_regs (w_esp (u32 (e + 4))) ;!
  ret v.

Definition pop_reg (w : Z → regs → regs) : K unit :=
  let! v := pop in upd_regs (w v).

(** [pushl %ebp; movl %esp, %ebp]: the first instructions of every function,
    which is compiled with a frame pointer. *)
Definition enter : K unit :=
  push_reg ebp ;!
  let! e := get_reg esp in
  upd_regs (w_ebp e).

(** [ret] *)
Definition retn : K unit := pop_reg w_eip.

Section Switch.
Context {L : Layout}.

(** ** inner_task_switch *)

Definition ebp_value : K Z := get_reg ebp.
Definition esp_value : K Z := get_reg esp.

Definition inner_task_switch (t : Z) : K unit :=
  enter ;!
  let! dir := get_DIR t in
  set_cr3 dir ;!
  modify (λ s, with_tss (set_esp0 (stack_addr t (KERNEL_STACK_SIZE - 1)) (k_tss s)) s) ;!
  let! cur := current in
  let! b := ebp_value in
  set_field cur f_kernel_esp b ;!
  let! k := get_field t f_kernel_esp in
  (* movl %0, %esp; popl %ebp; ret *)
  upd_regs (w_esp k) ;!
  pop_reg w_ebp ;!
  retn.

(** ** task_switch

    Entered with the return address at the top of the stack and the parameter
    above it.  The instructions up to the switch ... *)
Definition task_switch : K unit :=
  enter ;!
  push_reg edi ;!
  push_reg esi ;!
  push_reg ebx ;!
  let! b := get_reg ebp in
  let! t := on_mem (kload32 (b + 8)) in
  push t ;!
  push addr_task_switch_ret ;!
  inner_task_switch t.

(** ... and those the task executes when it is switched back to. *)
Definition task_switch_resume : K unit :=
  pop_reg w_ebx ;!
  pop_reg w_ebx ;!
  pop_reg w_esi ;!
  pop_reg w_edi ;!
  pop_reg w_ebp ;!
  retn.

(** [task_switch(t)] in C: the argument and the return address are pushed. *)
Definition call_task_switch (r t : Z) : K unit :=
  push t ;!
  push r ;!
  task_switch.

(** ** Specifications *)

Context {LO : LayoutOk L}.

Lemma wp_push v s R :
  KERNEL_LO ≤ esp (k_regs s) - 4 → esp (k_regs s) ≤ KERNEL_HI →
  R tt (with_mem (store32 (k_mem s) (esp (k_regs s) - 4) v)
          (with_regs (w_esp (esp (k_regs s) - 4) (k_regs s)) s)) →
  wp (push v) s R.
Proof.
  intros Hlo Hhi HR. unfold push. apply wp_bind, wp_gets. unfold KERNEL_LO, KERNEL_HI in *.
  rewrite u32_small by lia. apply wp_bind, wp_modify, wp_on_mem, wp_kstore32;
    [unfold KERNEL_LO, KERNEL_HI; lia..|done].
Qed.

Lemma wp_pop s R :
  KERNEL_LO ≤ esp (k_regs s) → esp (k_regs s) + 4 ≤ KERNEL_HI →
  R (load32 (k_mem s) (esp (k_regs s))) (with_regs (w_esp (esp (k_regs s) + 4) (k_regs s)) s) →
  wp pop s R.
Proof.
  intros Hlo Hhi HR. unfold pop. apply wp_bind, wp_gets. apply wp_bind, wp_on_mem, wp_kload32;
    [lia..|]. unfold KERNEL_LO, KERNEL_HI in *.
  rewrite u32_small by lia. apply wp_bind, wp_modify, wp_ret. by destruct s.
Qed.

Lemma wp_push_reg r s R :
  KERNEL_LO ≤ esp (k_regs s) - 4 → esp (k_regs s) ≤ KERNEL_HI →
  R tt (with_mem (store32 (k_mem s) (esp (k_regs s) - 4) (r (k_regs s)))
          (with_regs (w_esp (esp (k_regs s) - 4) (k_regs s)) s)) →
  wp (push_reg r) s R.
Proof. intros. by apply wp_bind, wp_gets, wp_push. Qed.

Lemma wp_pop_reg w s R :
  KERNEL_LO ≤ esp (k_regs s) → esp (k_regs s) + 4 ≤ KERNEL_HI →
  R tt (with_regs (w (load32 (k_mem s) (esp (k_regs s))) (w_esp (esp (k_regs s) + 4) (k_regs s))) s) →
  wp (pop_reg w) s R.
Proof. intros. apply wp_bind, wp_pop; [done..|]. by apply wp_modify. Qed.

Lemma wp_enter s R :
  KERNEL_LO ≤ esp (k_regs s) - 4 → esp (k_regs s) ≤ KERNEL_HI →
  R tt (with_mem (store32 (k_mem s) (esp (k_regs s) - 4) (ebp (k_regs s)))
          (with_regs (w_ebp (esp (k_regs s) - 4) (w_esp (esp (k_regs s) - 4) (k_regs s))) s)) →
  wp enter s R.
Proof.
  intros. unfold enter. apply wp_bind, wp_push_reg; [done..|]. apply wp_bind, wp_gets.
  by apply wp_modify.
Qed.

(** ** Suspended tasks *)

(** What a task gets back when it is switched to: its stack pointer (at the
    argument of its call of task_switch, which the caller discards), the
    registers a C function preserves, and the instruction after that call. *)
Record context : Type := MkContext {
  c_esp : Z; c_ebp : Z; c_ebx : Z; c_esi : Z; c_edi : Z; c_eip : Z;
}.

(** Task [i] is suspended inside task_switch with the context [c]: the nine
    words from its [kernel_esp] on. *)
Definition switched_out (m : memory) (i : Z) (c : context) : Prop :=
  let k := load32 m (task_addr i + f_kernel_esp) in
  task_addr i + sizeof_task_struct ≤ k ∧ k + 36 ≤ task_addr i + PAGE_SIZE ∧
  c_esp c = k + 32 ∧
  load32 m k = k + 24 ∧ load32 m (k + 4) = addr_task_switch_ret ∧
  load32 m (k + 12) = c_ebx c ∧ load32 m (k + 16) = c_esi c ∧
  load32 m (k + 20) = c_edi c ∧ load32 m (k + 24) = c_ebp c ∧
  load32 m (k + 28) = c_eip c.

(** The bytes that hold it. *)
Definition saved_bytes (m : memory) (i a : Z) : Prop :=
  in_range (load32 m (task_addr i + f_kernel_esp)) 36 a ∨
  in_range (task_addr i + f_kernel_esp) 4 a.

Lemma switched_out_frame P m m' i c :
  switched_out m i c → frame P m m' → (∀ a, saved_bytes m i a → ¬ P a) → switched_out m' i c.
Proof.
  unfold switched_out, saved_bytes. intros H Hf HP.
  assert (Hl : ∀ a, (∀ b, in_range a 4 b → saved_bytes m i b) → load32 m' a = load32 m a).
  { intros a Ha. apply (frame_load32 _ _ _ _ Hf). intros b Hb. apply HP. by apply Ha. }
  rewrite (Hl (task_addr i + f_kernel_esp)) by (intros b; by right). cbv zeta in *.
  set (k := load32 m (task_addr i + f_kernel_esp)) in *.
  assert (Hk : ∀ d, 0 ≤ d ≤ 32 → load32 m' (k + d) = load32 m (k + d)).
  { intros d Hd. apply Hl. intros b Hb. left. unfold in_range in *. fold k. lia. }
  rewrite <- (Z.add_0_r k) at 4. rewrite !Hk by lia. by rewrite Z.add_0_r.
Qed.

(** Registers hold 32 bits. *)
Definition regs_ok (r : regs) : Prop :=
  (0 ≤ ebx r < 2 ^ 32) ∧ (0 ≤ esi r < 2 ^ 32) ∧ (0 ≤ edi r < 2 ^ 32) ∧ (0 ≤ ebp r < 2 ^ 32).

(** What the switch to a task with stack pointer [k] does to the registers. *)
Definition switch_regs (m : memory) (k : Z) (r : regs) : regs :=
  w_eip (load32 m (k + 4)) (w_esp (k + 8) (w_ebp (load32 m k) r)).

Definition switch_context (r : regs) (ret : Z) : context :=
  MkContext (esp r - 4) (ebp r) (ebx r) (esi r) (edi r) ret.

(** The bytes a switch away from task [i] writes. *)
Definition switch_bytes (i e a : Z) : Prop :=
  in_range (e - 36) 36 a ∨ in_range (task_addr i + f_kernel_esp) 4 a.

(** There is room for the switch on the stack of task [i]. *)
Definition switch_room (s : kstate) (i : Z) : Prop :=
  valid_task i ∧ task_addr i + sizeof_task_struct ≤ esp (k_regs s) - 36 ∧
  esp (k_regs s) < task_addr i + PAGE_SIZE.

Lemma switch_room_on_stack s i : switch_room s i → on_stack s i.
Proof. intros (Hi & H1 & H2). split; [done|]. unfold sizeof_task_struct in *. lia. Qed.

(** Task [j] can be switched to. *)
Definition resumable (m : memory) (j : Z) : Prop :=
  let k := load32 m (task_addr j + f_kernel_esp) in
  task_addr j + sizeof_task_struct ≤ k ∧ k + 8 ≤ task_addr j + PAGE_SIZE.

(** The stack of a task that gives the processor away: the argument and the
    return address of the call, the registers task_switch saves and the call
    of inner_task_switch ... *)
Definition switch_pushed (m : memory) (e t r bp di si bx : Z) : memory :=
  store32 (store32 (store32 (store32 (store32 (store32 (store32 (store32 m (e - 4) t) (e - 8) r) (e - 12) bp)
    (e - 16) di) (e - 20) si) (e - 24) bx) (e - 28) t) (e - 32) addr_task_switch_ret.

(** ... and its frame. *)
Definition switch_stack (m : memory) (e t r bp di si bx : Z) : memory :=
  store32 (switch_pushed m e t r bp di si bx) (e - 36) (e - 12).

Lemma switch_pushed_frame m e t r bp di si bx : frame (in_range (e - 36) 36) m (switch_pushed m e t r bp di si bx).
Proof.
  unfold switch_pushed. repeat (eapply frame_trans; [|apply frame_store32; unfold in_range; intros; lia]). apply frame_refl.
Qed.

Lemma switch_stack_frame m e t r bp di si bx : frame (in_range (e - 36) 36) m (switch_stack m e t r bp di si bx).
Proof. eapply frame_trans; [apply switch_pushed_frame|]. apply frame_store32. unfold in_range. lia. Qed.

(** With the stack pointer saved in the task structure, the task can be
    resumed. *)
Lemma switch_stack_out m i e t r bp di si bx :
  valid_task i → task_addr i + sizeof_task_struct ≤ e - 36 → e < task_addr i + PAGE_SIZE →
  0 ≤ r < 2 ^ 32 → 0 ≤ bp < 2 ^ 32 → 0 ≤ di < 2 ^ 32 → 0 ≤ si < 2 ^ 32 → 0 ≤ bx < 2 ^ 32 →
  switched_out (store32 (switch_stack m e t r bp di si bx) (task_addr i + f_kernel_esp) (e - 36)) i
    (MkContext (e - 4) bp bx si di r).
Proof.
  intros Hi Hlo Hhi Hr Hbp Hdi Hsi Hbx. pose proof (task_addr_window i Hi) as Hw.
  pose proof (code_window addr_task_switch_ret ltac:(set_solver)) as Hret.
  unfold KERNEL_START, KERNEL_HI, PAGE_SIZE, sizeof_task_struct in *. set (m2 := store32 _ _ _).
  assert (Esp : load32 m2 (task_addr i + f_kernel_esp) = e - 36) by (apply load32_store32_same; lia).
  unfold switched_out. cbv zeta. rewrite !Esp. cbn [c_esp c_ebp c_ebx c_esi c_edi c_eip]. subst m2. unfold switch_stack, switch_pushed, f_kernel_esp.
  replace (e - 36 + 32) with (e - 4) by lia. replace (e - 36 + 24) with (e - 12) by lia.
  replace (e - 36 + 4) with (e - 32) by lia. replace (e - 36 + 12) with (e - 24) by lia.
  replace (e - 36 + 16) with (e - 20) by lia. replace (e - 36 + 20) with (e - 16) by lia.
  replace (e - 36 + 28) with (e - 8) by lia.
  split_and!; try (unfold sizeof_task_struct, PAGE_SIZE; lia); repeat rewrite load32_store32_ne by lia; apply load32_store32_same; lia.
Qed.

(** The switch proper, on the stack of task [i]. *)
Lemma wp_inner_task_switch i j s R :
  let e := esp (k_regs s) in let k := load32 (k_mem s) (task_addr j + f_kernel_esp) in
  valid_task i → valid_task j → i ≠ j → task_addr i + sizeof_task_struct ≤ e - 4 → e < task_addr i + PAGE_SIZE →
  resumable (k_mem s) j →
  R tt (with_mem (store32 (store32 (k_mem s) (e - 4) (ebp (k_regs s))) (task_addr i + f_kernel_esp) (e - 4))
     (with_regs (switch_regs (k_mem s) k (k_regs s))
        (with_tss (set_esp0 (stack_addr (task_addr j) (KERNEL_STACK_SIZE - 1)) (k_tss s))
          (with_cr3 (load32 (k_mem s) (task_addr j + f_dir_pages_baseAddr)) s)))) →
  wp (inner_task_switch (task_addr j)) s R.
Proof.
  intros e k Hi Hj Hij Hlo Hhi [Hk1 Hk2] HR. fold k in Hk1, Hk2. unfold switch_regs in HR.
  pose proof (task_addr_window i Hi). pose proof (task_addr_window j Hj). pose proof (task_addr_apart i j Hi Hj Hij) as Hap.
  assert (Hb : KERNEL_LO ≤ e - 4 ∧ e ≤ KERNEL_HI ∧ KERNEL_LO ≤ k ∧ k + 8 ≤ KERNEL_HI)
    by (unfold KERNEL_LO, KERNEL_START, sizeof_task_struct, PAGE_SIZE in *; lia). destruct Hb as (Hb1 & Hb2 & Hb3 & Hb4).
  assert (Hm1 : ∀ d, 0 ≤ d → d + 4 ≤ PAGE_SIZE →
    load32 (store32 (k_mem s) (e - 4) (ebp (k_regs s))) (task_addr j + d) = load32 (k_mem s) (task_addr j + d)).
  { intros d Hd Hd'. apply load32_store32_ne. unfold apart, sizeof_task_struct, PAGE_SIZE in *. lia. }
  set (m1 := store32 (k_mem s) _ _) in *. set (m2 := store32 m1 (task_addr i + f_kernel_esp) (e - 4)) in *.
  assert (Hm2 : ∀ d, 0 ≤ d → d + 4 ≤ PAGE_SIZE → load32 m2 (task_addr j + d) = load32 (k_mem s) (task_addr j + d)).
  { intros d Hd Hd'. unfold m2. rewrite load32_store32_ne; [by apply Hm1|]. unfold f_kernel_esp, apart, PAGE_SIZE in *. lia. }
  unfold inner_task_switch. apply wp_bind, wp_enter; [done..|]. fold e m1.
  apply wp_bind, wp_get_field; [done|unfold f_dir_pages_baseAddr, PAGE_SIZE; lia..|]. kred.
  rewrite Hm1 by (unfold f_dir_pages_baseAddr, PAGE_SIZE; lia). apply wp_bind, wp_modify, wp_bind, wp_modify.
  apply wp_bind, (wp_current i); [split; [done|]; kred; unfold sizeof_task_struct in *; lia|].
  apply wp_bind, wp_gets. kred. apply wp_bind, wp_set_field; [done|unfold f_kernel_esp, PAGE_SIZE; lia..|]. kred. fold m2.
  apply wp_bind, wp_get_field; [done|unfold f_kernel_esp, PAGE_SIZE; lia..|]. kred.
  rewrite Hm2 by (unfold f_kernel_esp, PAGE_SIZE; lia). fold k.
  apply wp_bind, wp_modify, wp_bind, wp_pop_reg; kred; [done|lia|].
  apply wp_pop_reg; kred; [unfold KERNEL_LO in *; lia|lia|].
  assert (Ek : ∀ d, 0 ≤ d ≤ 4 → load32 m2 (k + d) = load32 (k_mem s) (k + d)).
  { intros d Hd. replace (k + d) with (task_addr j + (k - task_addr j + d)) by lia.
    apply Hm2; unfold PAGE_SIZE, sizeof_task_struct in *; lia. }
  pose proof (Ek 0 ltac:(lia)) as Ek0. rewrite Z.add_0_r in Ek0.
  rewrite Ek, Ek0 by lia. replace (k + 4 + 4) with (k + 8) by lia. exact HR.
Qed.

(** task_switch up to the call of inner_task_switch. *)
Lemma wp_call_task_switch_pushes i j r s R :
  let u := k_regs s in let e := esp u in
  switch_room s i → valid_task j →
  wp (inner_task_switch (task_addr j))
    (with_mem (switch_pushed (k_mem s) e (task_addr j) r (ebp u) (edi u) (esi u) (ebx u))
       (with_regs (w_esp (e - 32) (w_ebp (e - 12) u)) s)) R →
  wp (call_task_switch r (task_addr j)) s R.
Proof.
  intros u e (Hi & Hlo & Hhi) Hj HR.
  pose proof (task_addr_window i Hi). pose proof (task_addr_window j Hj). subst u e.
  destruct s as [m [eax0 ebx0 ecx0 edx0 esi0 edi0 ebp0 e eip0 fl0 cs0 ss0 ds0 es0 fs0 gs0]
    cr3 cr0 hw gdt gdtR idt idtR ts pm idle qt lp zt con]. kred_all.
  assert (Hb : KERNEL_LO ≤ e - 36 ∧ e ≤ KERNEL_HI)
    by (unfold KERNEL_LO, KERNEL_START, PAGE_SIZE, sizeof_task_struct in *; lia). destruct Hb as [Hb1 Hb2].
  unfold call_task_switch, task_switch.
  apply wp_bind, wp_push; kflat; [lia..|]. apply wp_bind, wp_push; kflat; [lia..|]. apply wp_bind, wp_enter; kflat; [lia..|].
  do 3 (apply wp_bind, wp_push_reg; kflat; [lia..|]). apply wp_bind, wp_gets. apply wp_bind, wp_on_mem, wp_kload32; kflat; [lia..|].
  replace (e - 4 - 4) with (e - 8) by lia. replace (e - 8 - 4) with (e - 12) by lia.
  replace (e - 12 - 4) with (e - 16) by lia. replace (e - 16 - 4) with (e - 20) by lia.
  replace (e - 20 - 4) with (e - 24) by lia. replace (e - 12 + 8) with (e - 4) by lia.
  rewrite !(load32_store32_ne _ _ (e - 4)) by lia.
  rewrite load32_store32_same by (unfold KERNEL_START, KERNEL_HI, PAGE_SIZE in *; lia).
  apply wp_bind, wp_push; kflat; [lia..|]. apply wp_bind, wp_push; kflat; [lia..|].
  replace (e - 24 - 4) with (e - 28) by lia. replace (e - 28 - 4) with (e - 32) by lia. exact HR.
Qed.

(** What a switch leaves on the stack and in [kernel_esp]. *)
Lemma switch_pushed_out i e t r bp di si bx m :
  valid_task i → task_addr i + sizeof_task_struct ≤ e - 36 → e < task_addr i + PAGE_SIZE →
  0 ≤ r < 2 ^ 32 → 0 ≤ bp < 2 ^ 32 → 0 ≤ di < 2 ^ 32 → 0 ≤ si < 2 ^ 32 → 0 ≤ bx < 2 ^ 32 →
  let m' := store32 (store32 (switch_pushed m e t r bp di si bx) (e - 36) (e - 12)) (task_addr i + f_kernel_esp) (e - 36) in
  frame (switch_bytes i e) m m' ∧ switched_out m' i (MkContext (e - 4) bp bx si di r).
Proof.
  intros. split; [|by apply (switch_stack_out m i e t r bp di si bx)]. unfold m'.
  eapply frame_trans; [eapply frame_weaken; [|exact (switch_stack_frame m e t r bp di si bx)]; by left|].
  apply frame_store32. by right.
Qed.

Lemma wp_call_task_switch i j r s R :
  switch_room s i → valid_task j → i ≠ j → resumable (k_mem s) j →
  regs_ok (k_regs s) → 0 ≤ r < 2 ^ 32 →
  (∀ m',
     frame (switch_bytes i (esp (k_regs s))) (k_mem s) m' →
     switched_out m' i (switch_context (k_regs s) r) →
     R tt (with_mem m' (with_regs
        (switch_regs (k_mem s) (load32 (k_mem s) (task_addr j + f_kernel_esp)) (k_regs s))
        (with_tss (set_esp0 (stack_addr (task_addr j) (KERNEL_STACK_SIZE - 1)) (k_tss s))
          (with_cr3 (load32 (k_mem s) (task_addr j + f_dir_pages_baseAddr)) s))))) →
  wp (call_task_switch r (task_addr j)) s R.
Proof.
  intros Hroom Hj Hij [Hk1 Hk2] (Hbx & Hsi & Hdi & Hbp) Hr HR. pose proof Hroom as (Hi & Hlo & Hhi).
  pose proof (task_addr_window i Hi). pose proof (task_addr_window j Hj). pose proof (task_addr_apart i j Hi Hj Hij) as Hap.
  set (k := load32 (k_mem s) (task_addr j + f_kernel_esp)) in *. unfold switch_regs, switch_context in HR.
  apply (wp_call_task_switch_pushes i); [done..|].
  set (e := esp (k_regs s)) in *. set (m0 := switch_pushed _ _ _ _ _ _ _ _).
  destruct (switch_pushed_out i e (task_addr j) r _ _ _ _ (k_mem s) Hi Hlo Hhi Hr Hbp Hdi Hsi Hbx) as [Hf Hout].
  fold m0 in Hf, Hout. specialize (HR _ Hf Hout).
  assert (Hm : ∀ d, 0 ≤ d → d + 4 ≤ PAGE_SIZE → load32 m0 (task_addr j + d) = load32 (k_mem s) (task_addr j + d)).
  { intros d Hd Hd'. apply (frame_load32 _ _ _ _ (switch_pushed_frame _ _ _ _ _ _ _ _)). intros b.
    unfold in_range, apart, sizeof_task_struct, PAGE_SIZE in *. lia. }
  pose proof (Hm f_kernel_esp ltac:(done) ltac:(done)) as Ek. pose proof (Hm f_dir_pages_baseAddr ltac:(done) ltac:(done)) as Ed.
  assert (Ew : ∀ d, 0 ≤ d ≤ 4 → load32 m0 (k + d) = load32 (k_mem s) (k + d)).
  { intros d Hd. replace (k + d) with (task_addr j + (k - task_addr j + d)) by lia.
    apply Hm; unfold PAGE_SIZE, sizeof_task_struct in *; lia. }
  pose proof (Ew 0 ltac:(lia)) as Ew0. rewrite Z.add_0_r in Ew0. clearbody m0.
  apply (wp_inner_task_switch i j); kred; [done|done|done|lia|lia|unfold resumable; rewrite Ek; done|].
  unfold switch_regs. kred. rewrite Ek, Ed. fold k. rewrite Ew, Ew0 by lia. replace (e - 32 - 4) with (e - 36) by lia. exact HR.
Qed.

(** A task that switches to itself saves its stack pointer and loads it
    again. *)
Lemma wp_inner_task_switch_self i s R :
  let e := esp (k_regs s) in
  let m := store32 (store32 (k_mem s) (e - 4) (ebp (k_regs s))) (task_addr i + f_kernel_esp) (e - 4) in
  valid_task i → task_addr i + sizeof_task_struct ≤ e - 4 → e + 4 ≤ task_addr i + PAGE_SIZE →
  R tt (with_mem m (with_regs (switch_regs m (e - 4) (k_regs s))
     (with_tss (set_esp0 (stack_addr (task_addr i) (KERNEL_STACK_SIZE - 1)) (k_tss s))
       (with_cr3 (load32 (k_mem s) (task_addr i + f_dir_pages_baseAddr)) s)))) →
  wp (inner_task_switch (task_addr i)) s R.
Proof.
  intros e m Hi Hlo Hhi HR. pose proof (task_addr_window i Hi). unfold switch_regs in HR.
  assert (Hb : KERNEL_LO ≤ e - 4 ∧ e + 4 ≤ KERNEL_HI)
    by (unfold KERNEL_LO, KERNEL_START, sizeof_task_struct, PAGE_SIZE in *; lia). destruct Hb as (Hb1 & Hb2).
  unfold inner_task_switch. apply wp_bind, wp_enter; [unfold e in *; lia..|]. fold e.
  apply wp_bind, wp_get_field; [done|unfold f_dir_pages_baseAddr, PAGE_SIZE; lia..|]. kred.
  rewrite load32_store32_ne by (unfold f_dir_pages_baseAddr, sizeof_task_struct in *; lia).
  apply wp_bind, wp_modify, wp_bind, wp_modify.
  apply wp_bind, (wp_current i); [split; [done|]; kred; unfold sizeof_task_struct in *; lia|].
  apply wp_bind, wp_gets. kred. apply wp_bind, wp_set_field; [done|unfold f_kernel_esp, PAGE_SIZE; lia..|]. kred. fold m.
  apply wp_bind, wp_get_field; [done|unfold f_kernel_esp, PAGE_SIZE; lia..|]. kred.
  assert (Ek : load32 m (task_addr i + f_kernel_esp) = e - 4)
    by (apply load32_store32_same; unfold KERNEL_LO, KERNEL_HI in *; lia).
  rewrite Ek. apply wp_bind, wp_modify, wp_bind, wp_pop_reg; kred; [done|lia|].
  apply wp_pop_reg; kred; [unfold KERNEL_LO in *; lia|lia|].
  replace (e - 4 + 4 + 4) with (e - 4 + 8) by lia. exact HR.
Qed.

Lemma wp_call_task_switch_self i r s R :
  switch_room s i → regs_ok (k_regs s) → 0 ≤ r < 2 ^ 32 →
  (∀ m',
     frame (switch_bytes i (esp (k_regs s))) (k_mem s) m' →
     switched_out m' i (switch_context (k_regs s) r) →
     R tt (with_mem m' (with_regs
        (switch_regs m' (load32 m' (task_addr i + f_kernel_esp)) (k_regs s))
        (with_tss (set_esp0 (stack_addr (task_addr i) (KERNEL_STACK_SIZE - 1)) (k_tss s))
          (with_cr3 (load32 (k_mem s) (task_addr i + f_dir_pages_baseAddr)) s))))) →
  wp (call_task_switch r (task_addr i)) s R.
Proof.
  intros Hroom (Hbx & Hsi & Hdi & Hbp) Hr HR. pose proof Hroom as (Hi & Hlo & Hhi).
  pose proof (task_addr_window i Hi). unfold switch_regs, switch_context in HR.
  apply (wp_call_task_switch_pushes i); [done..|].
  set (e := esp (k_regs s)) in *. set (m0 := switch_pushed _ _ _ _ _ _ _ _).
  destruct (switch_pushed_out i e (task_addr i) r _ _ _ _ (k_mem s) Hi Hlo Hhi Hr Hbp Hdi Hsi Hbx) as [Hf Hout].
  fold m0 in Hf, Hout. specialize (HR _ Hf Hout). pose proof (switch_pushed_frame (k_mem s) e (task_addr i) r (ebp (k_regs s))
    (edi (k_regs s)) (esi (k_regs s)) (ebx (k_regs s))) as F0. fold m0 in F0.
  assert (Ed : load32 m0 (task_addr i + f_dir_pages_baseAddr) = load32 (k_mem s) (task_addr i + f_dir_pages_baseAddr)).
  { apply (frame_load32 _ _ _ _ F0). intros b. unfold in_range, f_dir_pages_baseAddr, sizeof_task_struct in *. lia. }
  clearbody m0. apply (wp_inner_task_switch_self i); kred; [done|unfold sizeof_task_struct in *; lia|lia|].
  unfold switch_regs. kred. rewrite Ed. replace (e - 32 - 4) with (e - 36) by lia.
  rewrite load32_store32_same in HR by (unfold KERNEL_START, KERNEL_HI, PAGE_SIZE, sizeof_task_struct in *; lia). exact HR.
Qed.

(** The registers of a resumed task. *)
Definition resume_regs (c : context) (r : regs) : regs :=
  w_eip (c_eip c) (w_esp (c_esp c) (w_ebp (c_ebp c) (w_edi (c_edi c) (w_esi (c_esi c)
    (w_ebx (c_ebx c) r))))).

Lemma wp_task_switch_resume i c s R :
  valid_task i → switched_out (k_mem s) i c →
  esp (k_regs s) = load32 (k_mem s) (task_addr i + f_kernel_esp) + 8 →
  R tt (with_regs (resume_regs c (k_regs s)) s) →
  wp task_switch_resume s R.
Proof.
  intros Hi (Hlo & Hhi & Ec & _ & _ & Ebx & Esi & Edi & Ebp & Eip) Hesp HR.
  pose proof (task_addr_window i Hi). unfold resume_regs in HR.
  set (k := load32 (k_mem s) (task_addr i + f_kernel_esp)) in *. clearbody k.
  unfold KERNEL_START, PAGE_SIZE, sizeof_task_struct in *.
  destruct s as [m [eax0 ebx0 ecx0 edx0 esi0 edi0 ebp0 e eip0 fl0 cs0 ss0 ds0 es0 fs0 gs0]
    cr3 cr0 hw gdt gdtR idt idtR ts pm idle qt lp zt con].
  destruct c as [cesp cebp cebx cesi cedi ceip]. revert HR. kred_all. kflat.
  cbn [c_esp c_ebp c_ebx c_esi c_edi c_eip] in *. intros HR. subst e cesp.
  unfold task_switch_resume.
  do 5 (apply wp_bind, wp_pop_reg; kflat; [unfold KERNEL_LO; lia|lia|]).
  apply wp_pop_reg; kflat; [unfold KERNEL_LO; lia|lia|].
  replace (k + 8 + 4) with (k + 12) by lia. replace (k + 12 + 4) with (k + 16) by lia.
  replace (k + 16 + 4) with (k + 20) by lia. replace (k + 20 + 4) with (k + 24) by lia.
  replace (k + 24 + 4) with (k + 28) by lia. replace (k + 28 + 4) with (k + 32) by lia.
  by rewrite Ebx, Esi, Edi, Ebp, Eip.
Qed.

(** A switch away from one task leaves what another one saved. *)
Lemma switch_saved_apart s i k c a :
  switch_room s k → valid_task i → k ≠ i → switched_out (k_mem s) i c →
  saved_bytes (k_mem s) i a → ¬ switch_bytes k (esp (k_regs s)) a.
Proof.
  intros (Hk & Hlo & Hhi) Hi Hne (Hs1 & Hs2 & _).
  pose proof (task_addr_apart k i Hk Hi Hne) as Hap.
  unfold saved_bytes, switch_bytes, in_range, apart, f_kernel_esp, sizeof_task_struct, PAGE_SIZE in *.
  lia.
Qed.

(** C24. Context switch round trip.  A task that calls task_switch gives the
    processor to the target with the target's page directory, ring-0 stack
    and saved stack pointer; and whatever runs in between, provided the nine
    words the switch left on the task's own stack and its [kernel_esp] are
    intact, a later task_switch back to it from any other task resumes it
    just after its call: the same stack pointer, the same callee-saved
    registers, its return address and its page directory. *)
Theorem context_switch_roundtrip i j r s :
  switch_room s i → valid_task j → i ≠ j → resumable (k_mem s) j →
  regs_ok (k_regs s) → 0 ≤ r < 2 ^ 32 →
  ∃ s1, call_task_switch r (task_addr j) s = Ret tt s1 ∧
    k_cr3 s1 = load32 (k_mem s) (task_addr j + f_dir_pages_baseAddr) ∧
    esp0 (k_tss s1) = stack_addr (task_addr j) (KERNEL_STACK_SIZE - 1) ∧
    esp (k_regs s1) = load32 (k_mem s) (task_addr j + f_kernel_esp) + 8 ∧
    eip (k_regs s1) = load32 (k_mem s) (load32 (k_mem s) (task_addr j + f_kernel_esp) + 4) ∧
    ∀ k r' s2,
      switch_room s2 k → k ≠ i → regs_ok (k_regs s2) → 0 ≤ r' < 2 ^ 32 →
      (∀ a, saved_bytes (k_mem s1) i a → load8 (k_mem s2) a = load8 (k_mem s1) a) →
      ∃ s3, (call_task_switch r' (task_addr i) ;! task_switch_resume) s2 = Ret tt s3 ∧
        k_cr3 s3 = load32 (k_mem s2) (task_addr i + f_dir_pages_baseAddr) ∧
        eip (k_regs s3) = r ∧ esp (k_regs s3) = esp (k_regs s) - 4 ∧
        ebp (k_regs s3) = ebp (k_regs s) ∧ ebx (k_regs s3) = ebx (k_regs s) ∧
        esi (k_regs s3) = esi (k_regs s) ∧ edi (k_regs s3) = edi (k_regs s).
Proof.
  intros Hroom Hj Hij Hres Hregs Hr.
  destruct (wp_elim (call_task_switch r (task_addr j)) s (λ _ s1,
    k_cr3 s1 = load32 (k_mem s) (task_addr j + f_dir_pages_baseAddr) ∧
    esp0 (k_tss s1) = stack_addr (task_addr j) (KERNEL_STACK_SIZE - 1) ∧
    esp (k_regs s1) = load32 (k_mem s) (task_addr j + f_kernel_esp) + 8 ∧
    eip (k_regs s1) = load32 (k_mem s) (load32 (k_mem s) (task_addr j + f_kernel_esp) + 4) ∧
    switched_out (k_mem s1) i (switch_context (k_regs s) r)))
    as ([] & s1 & E1 & Hcr3 & Hesp0 & Hesp & Heip & Hout).
  { apply (wp_call_task_switch i); [done..|]. intros m' Hf Hout. done. }
  exists s1. split_and!; [done..|]. intros k r' s2 Hroom2 Hki Hregs2 Hr' Hkeep.
  assert (Hi : valid_task i) by apply Hroom.
  assert (Hout2 : switched_out (k_mem s2) i (switch_context (k_regs s) r)).
  { eapply (switched_out_frame (λ a, load8 (k_mem s2) a ≠ load8 (k_mem s1) a)); [done| |auto].
    intros a Ha. by apply dec_stable. }
  destruct (wp_elim (call_task_switch r' (task_addr i) ;! task_switch_resume) s2 (λ _ s3,
    k_cr3 s3 = load32 (k_mem s2) (task_addr i + f_dir_pages_baseAddr) ∧
    ∃ rg, k_regs s3 = resume_regs (switch_context (k_regs s) r) rg))
    as ([] & s3 & E3 & Hcr3' & rg & Hrg).
  { apply wp_bind, (wp_call_task_switch k); [done|done|done| |done|done|].
    - unfold resumable. destruct Hout2 as (H1 & H2 & _). lia.
    - intros m' Hf Hout3. apply (wp_task_switch_resume i (switch_context (k_regs s) r));
        [done|kred..|].
      + eapply switched_out_frame; [exact Hout2|exact Hf|]. intros a. by eapply switch_saved_apart.
      + unfold switch_regs. kred. f_equal. symmetry. apply (frame_load32 _ _ _ _ Hf). intros b Hb.
        eapply switch_saved_apart; [done..|]. by right.
      + split; [done|]. by eexists. }
  exists s3. rewrite Hrg. done.
Qed.
End Switch.

(** Task 1 with room on its stack, task 2 suspended in the middle of its own. *)
Definition switch_sample : kstate :=
  with_mem (store32 ∅ (task_addr (L := zeos_layout) 2 + f_kernel_esp)
              (task_addr (L := zeos_layout) 2 + 4000))
    (with_regs (w_esp (task_addr (L := zeos_layout) 1 + 4000) regs_zero) kstate_image).

Lemma switch_sample_room : switch_room (L := zeos_layout) switch_sample 1.
Proof.
  unfold switch_room, valid_task, NR_TASKS, sizeof_task_struct, PAGE_SIZE, switch_sample. kred. lia.
Qed.

Lemma context_switch_roundtrip_witness :
  let tadr := task_addr (L := zeos_layout) in
  ∃ s1, call_task_switch (L := zeos_layout) 0x11580 (tadr 2) switch_sample = Ret tt s1 ∧
    k_cr3 s1 = load32 (k_mem switch_sample) (tadr 2 + f_dir_pages_baseAddr) ∧
    esp0 (k_tss s1) = stack_addr (tadr 2) (KERNEL_STACK_SIZE - 1) ∧
    esp (k_regs s1) = load32 (k_mem switch_sample) (tadr 2 + f_kernel_esp) + 8.
Proof.
  cbv zeta.
  destruct (@context_switch_roundtrip zeos_layout zeos_layout_ok 1 2 0x11580 switch_sample)
    as (s1 & H1 & H2 & H3 & H4 & _).
  - exact switch_sample_room.
  - unfold valid_task, NR_TASKS. lia.
  - lia.
  - vm_compute. split; discriminate.
  - vm_compute. repeat split; discriminate.
  - lia.
  - exists s1. split; [exact H1|]. split; [exact H2|]. split; [exact H3|exact H4].
Defined.
