(* ===== verification/Sched.v ===== *)
(** sched.c: the ready, free and blocked queues, the round robin policy and
    the initial tasks. *)

From S2P Require Import Prelude Memory CList Libc Console Frames Types Kernel Task Paging Switch.
From stdpp Require Import strings.

#[local] Open Scope Z_scope.

Section Sched.
Context {L : Layout}.

(** ** Initialization *)

Definition init_idle : K unit :=
  let idle_union := task_addr 0 in
  modify (with_idle_task idle_union) ;!
  set_field idle_union f_PID 0 ;!
  set_field idle_union f_kernel_esp (stack_addr idle_union (KERNEL_STACK_SIZE - 2)) ;!
  set_field idle_union f_quantum 1 ;!
  on_mem (INIT_LIST_HEAD (idle_union + f_childs)) ;!
  let! r := allocate_DIR idle_union in
  on_mem (kstore32 (stack_addr idle_union (KERNEL_STACK_SIZE - 1)) addr_cpu_idle) ;!
  on_mem (kstore32 (stack_addr idle_union (KERNEL_STACK_SIZE - 2))
            (stack_addr idle_union (KERNEL_STACK_SIZE - 1))).

Definition init_task1 : K unit :=
  let init_union := task_addr 1 in
  set_field init_union f_PID 1 ;!
  set_field init_union f_kernel_esp (stack_addr init_union (KERNEL_STACK_SIZE - 2)) ;!
  set_field init_union f_quantum 100 ;!
  modify (with_quantum_ticks 100) ;!
  on_mem (INIT_LIST_HEAD (init_union + f_childs)) ;!
  let! r := allocate_DIR init_union in
  set_user_pages init_union ;!
  let! dir := get_DIR init_union in
  set_cr3 dir.

Definition init_sched : K unit :=
  on_mem (INIT_LIST_HEAD readyq) ;!
  on_mem (INIT_LIST_HEAD freeq) ;!
  on_mem (INIT_LIST_HEAD blocked) ;!
  for_range (Z.to_nat (NR_TASKS - 2)) 2 (λ i, on_mem (list_add_tail (task_addr i + f_anchor) freeq)).

(** ** The policy *)

Definition update_sched_data_rr : K unit :=
  modify (λ s, with_quantum_ticks (s32 (k_quantum_ticks s - 1)) s).

Definition update_process_state_rr (t dest : Z) : K unit :=
  let t_elem := t + f_anchor in
  let! n := on_mem (get_next t_elem) in
  let! off :=
    if n =? NULL then let! p := on_mem (get_prev t_elem) in ret (p =? NULL) else ret false in
  when (negb off) (on_mem (list_del t_elem)) ;!
  when (negb (dest =? NULL)) (on_mem (list_add_tail t_elem dest)).

(** The choice of the next task, which leaves the ready queue. *)
Definition sched_pick : K Z :=
  let! e := on_mem (list_empty readyq) in
  if e then gets k_idle_task
  else
    let! next_l := on_mem (list_first readyq) in
    let next := list_entry next_l f_anchor in
    update_process_state_rr next NULL ;!
    ret next.

Definition sched_next_rr : K unit :=
  let! next := sched_pick in
  let! pid := get_int_field next f_PID in
  let! buff := local_buf 3 (itoa pid) in
  on_console (printk buff) ;!
  on_console (printk [10; 0]) ;!
  call_task_switch addr_sched_next_ret next.

Definition needs_sched_rr : K bool :=
  let! e := on_mem (list_empty readyq) in
  (if e then
     let! c := current in
     let! q := get_field c f_quantum in
     modify (with_quantum_ticks (s32 q))
   else ret tt) ;!
  let! q := gets k_quantum_ticks in
  ret (q <? 0).

Definition scheduler : K unit :=
  update_sched_data_rr ;!
  let! n := needs_sched_rr in
  if n then
    let! c := current in
    update_process_state_rr c readyq ;!
    on_console (printk (10 :: literal "scheudled next task PID: ")) ;!
    sched_next_rr
  else ret tt.

Definition new_pid : K Z :=
  modify (λ s, with_last_pid (s32 (k_last_pid s + 1)) s) ;!
  gets k_last_pid.

(** [ret_from_fork]: where a forked task starts; it returns 0 through the
    frame its parent's system call left. *)
Definition ret_from_fork : K unit :=
  enter ;!
  upd_regs (w_eax 0) ;!
  pop_reg w_ebp ;!
  retn.

(** ** The process table

    The abstract state of the scheduler: the running task, the queues, and
    the children of each live task, by task number. *)

Record ptable : Type := PTable {
  p_run : Z;
  p_ready : list Z;
  p_free : list Z;
  p_blocked : list Z;
  p_kids : gmap Z (list Z);
}.

Definition set_run (i : Z) (σ : ptable) : ptable :=
  PTable i (p_ready σ) (p_free σ) (p_blocked σ) (p_kids σ).
Definition set_ready (l : list Z) (σ : ptable) : ptable :=
  PTable (p_run σ) l (p_free σ) (p_blocked σ) (p_kids σ).
Definition set_free (l : list Z) (σ : ptable) : ptable :=
  PTable (p_run σ) (p_ready σ) l (p_blocked σ) (p_kids σ).
Definition set_blocked (l : list Z) (σ : ptable) : ptable :=
  PTable (p_run σ) (p_ready σ) (p_free σ) l (p_kids σ).
Definition set_kids (k : gmap Z (list Z)) (σ : ptable) : ptable :=
  PTable (p_run σ) (p_ready σ) (p_free σ) (p_blocked σ) k.

(** The tasks on some queue. *)
Definition queued (σ : ptable) : list Z := p_ready σ ++ p_free σ ++ p_blocked σ.

(** The lists in memory that represent it. *)
Definition kid_lists (k : gmap Z (list Z)) : lists :=
  kmap (M1 := gmap Z) (M2 := gmap Z) childs_of ((λ l : list Z, child_anchor_of <$> l) <$> k).

Definition lists_of (σ : ptable) : lists :=
  <[readyq := anchor_of <$> p_ready σ]> (
  <[freeq := anchor_of <$> p_free σ]> (
  <[blocked := anchor_of <$> p_blocked σ]> (kid_lists (p_kids σ)))).

(** All task numbers in the table are in range. *)
Record ptable_valid (σ : ptable) : Prop := {
  pv_queued : ∀ i, i ∈ queued σ → valid_task i;
  pv_kids : ∀ i ks, p_kids σ !! i = Some ks → valid_task i ∧ ∀ c, c ∈ ks → valid_task c;
}.

Context {LO : LayoutOk L}.

#[export] Instance childs_of_inj : Inj (=) (=) childs_of.
Proof. intros i j H. unfold childs_of in H. apply task_addr_inj. lia. Qed.

#[export] Instance anchor_of_inj : Inj (=) (=) anchor_of.
Proof. intros i j H. unfold anchor_of in H. apply task_addr_inj. lia. Qed.

#[export] Instance child_anchor_of_inj : Inj (=) (=) child_anchor_of.
Proof. intros i j H. unfold child_anchor_of in H. apply task_addr_inj. lia. Qed.

Lemma anchor_kinds i j :
  anchor_of i ≠ child_anchor_of j ∧ anchor_of i ≠ childs_of j ∧ child_anchor_of i ≠ childs_of j.
Proof.
  unfold anchor_of, child_anchor_of, childs_of, task_addr, f_anchor, f_child_anchor, f_childs,
    sizeof_task_union, KERNEL_STACK_SIZE. lia.
Qed.

Lemma queue_head_not_task q i :
  queue_head q → valid_task i → q ≠ anchor_of i ∧ q ≠ child_anchor_of i ∧ q ≠ childs_of i.
Proof.
  intros Hq Hi. pose proof (heads_window q Hq).
  unfold valid_task, anchor_of, child_anchor_of, childs_of, task_addr, f_anchor, f_child_anchor,
    f_childs, sizeof_task_union, KERNEL_STACK_SIZE in *. lia.
Qed.

Lemma heads_distinct : readyq ≠ freeq ∧ readyq ≠ blocked ∧ freeq ≠ blocked.
Proof. pose proof heads_apart. unfold apart in *. lia. Qed.

Lemma kid_lists_Some k h xs :
  kid_lists k !! h = Some xs ↔ ∃ i ks, h = childs_of i ∧ k !! i = Some ks ∧ xs = child_anchor_of <$> ks.
Proof.
  unfold kid_lists. rewrite lookup_kmap_Some by apply _. split.
  - intros (i & -> & Hi). rewrite lookup_fmap_Some in Hi. destruct Hi as (ks & <- & Hk). eauto.
  - intros (i & ks & -> & Hk & ->). exists i. rewrite lookup_fmap, Hk. done.
Qed.

Lemma lists_of_ready σ : lists_of σ !! readyq = Some (anchor_of <$> p_ready σ).
Proof. apply lookup_insert_eq. Qed.

Lemma lists_of_free σ : lists_of σ !! freeq = Some (anchor_of <$> p_free σ).
Proof.
  destruct heads_distinct as (? & ? & ?). unfold lists_of.
  rewrite lookup_insert_ne by done. apply lookup_insert_eq.
Qed.

Lemma lists_of_blocked σ : lists_of σ !! blocked = Some (anchor_of <$> p_blocked σ).
Proof.
  destruct heads_distinct as (? & ? & ?). unfold lists_of.
  rewrite !lookup_insert_ne by done. apply lookup_insert_eq.
Qed.

Lemma lists_of_kids σ i ks :
  valid_task i → p_kids σ !! i = Some ks →
  lists_of σ !! childs_of i = Some (child_anchor_of <$> ks).
Proof.
  intros Hi Hk. unfold lists_of.
  destruct (queue_head_not_task readyq i) as (_ & _ & ?); [unfold queue_head; tauto|done|].
  destruct (queue_head_not_task freeq i) as (_ & _ & ?); [unfold queue_head; tauto|done|].
  destruct (queue_head_not_task blocked i) as (_ & _ & ?); [unfold queue_head; tauto|done|].
  rewrite !lookup_insert_ne by done. apply kid_lists_Some. eauto.
Qed.

(** Updating one list of the memory updates one list of the table. *)
Lemma lists_of_set_ready σ l :
  <[readyq := anchor_of <$> l]> (lists_of σ) = lists_of (set_ready l σ).
Proof. unfold lists_of. by rewrite insert_insert_eq. Qed.

Lemma lists_of_set_free σ l :
  <[freeq := anchor_of <$> l]> (lists_of σ) = lists_of (set_free l σ).
Proof.
  destruct heads_distinct as (? & ? & ?). unfold lists_of.
  rewrite (insert_insert_ne _ freeq readyq) by done. by rewrite insert_insert_eq.
Qed.

Lemma lists_of_set_blocked σ l :
  <[blocked := anchor_of <$> l]> (lists_of σ) = lists_of (set_blocked l σ).
Proof.
  destruct heads_distinct as (? & ? & ?). unfold lists_of.
  rewrite (insert_insert_ne _ blocked readyq), (insert_insert_ne _ blocked freeq) by done.
  by rewrite insert_insert_eq.
Qed.

Lemma lists_of_set_kids σ i l :
  valid_task i →
  <[childs_of i := child_anchor_of <$> l]> (lists_of σ) = lists_of (set_kids (<[i := l]> (p_kids σ)) σ).
Proof.
  intros Hi. unfold lists_of. cbn [p_ready p_free p_blocked p_kids set_kids].
  destruct (queue_head_not_task readyq i) as (_ & _ & ?); [unfold queue_head; tauto|done|].
  destruct (queue_head_not_task freeq i) as (_ & _ & ?); [unfold queue_head; tauto|done|].
  destruct (queue_head_not_task blocked i) as (_ & _ & ?); [unfold queue_head; tauto|done|].
  rewrite (insert_insert_ne _ _ readyq), (insert_insert_ne _ _ freeq),
    (insert_insert_ne _ _ blocked) by done.
  unfold kid_lists. rewrite fmap_insert, kmap_insert by apply _. done.
Qed.

Lemma lists_of_del_kids σ i :
  valid_task i →
  delete (childs_of i) (lists_of σ) = lists_of (set_kids (delete i (p_kids σ)) σ).
Proof.
  intros Hi. unfold lists_of. cbn [p_ready p_free p_blocked p_kids set_kids].
  destruct (queue_head_not_task readyq i) as (_ & _ & ?); [unfold queue_head; tauto|done|].
  destruct (queue_head_not_task freeq i) as (_ & _ & ?); [unfold queue_head; tauto|done|].
  destruct (queue_head_not_task blocked i) as (_ & _ & ?); [unfold queue_head; tauto|done|].
  rewrite !delete_insert_ne by done.
  unfold kid_lists. rewrite fmap_delete, kmap_delete by apply _. done.
Qed.

(** A list of the memory comes from the table. *)
Lemma lists_of_inv σ h xs :
  lists_of σ !! h = Some xs →
  (queue_head h ∧ ∃ l, xs = anchor_of <$> l ∧ l ⊆ queued σ) ∨
  (∃ i ks, h = childs_of i ∧ p_kids σ !! i = Some ks ∧ xs = child_anchor_of <$> ks).
Proof.
  unfold lists_of. rewrite !lookup_insert_Some, kid_lists_Some. unfold queue_head, queued.
  intros [[<- <-]|[_ [[<- <-]|[_ [[<- <-]|[_ H]]]]]]; [left..|by right];
    (split; [tauto|]); eexists; (split; [done|]); intros i Hi; rewrite !elem_of_app; tauto.
Qed.

Lemma in_lists_anchor σ i :
  ptable_valid σ → valid_task i → in_lists (lists_of σ) (anchor_of i) → i ∈ queued σ.
Proof.
  intros Hv Hi (h & xs & Hq & Hc). apply elem_of_cons in Hc.
  destruct (lists_of_inv _ _ _ Hq) as [[Hh (l & -> & Hl)]|(j & ks & -> & Hk & ->)].
  - destruct Hc as [<-|Hc].
    + exfalso. by destruct (queue_head_not_task _ i Hh Hi) as (? & _).
    + apply list_elem_of_fmap in Hc as (j & ->%(inj anchor_of) & Hj). by apply Hl.
  - exfalso. destruct Hc as [Hc|Hc].
    + by destruct (anchor_kinds i j) as (_ & ? & _).
    + apply list_elem_of_fmap in Hc as (c & Hc & _). by destruct (anchor_kinds i c) as (? & _).
Qed.

Lemma in_lists_child_anchor σ i :
  ptable_valid σ → valid_task i → in_lists (lists_of σ) (child_anchor_of i) →
  ∃ j ks, p_kids σ !! j = Some ks ∧ i ∈ ks.
Proof.
  intros Hv Hi (h & xs & Hq & Hc). apply elem_of_cons in Hc.
  destruct (lists_of_inv _ _ _ Hq) as [[Hh (l & -> & Hl)]|(j & ks & -> & Hk & ->)].
  - exfalso. destruct Hc as [<-|Hc].
    + by destruct (queue_head_not_task _ i Hh Hi) as (_ & ? & _).
    + apply list_elem_of_fmap in Hc as (j & Hc & _). by destruct (anchor_kinds j i) as (? & _).
  - destruct Hc as [Hc|Hc].
    + by destruct (anchor_kinds i j) as (_ & _ & ?).
    + apply list_elem_of_fmap in Hc as (c & ->%(inj child_anchor_of) & Hc). eauto.
Qed.

Lemma in_lists_childs σ i :
  ptable_valid σ → valid_task i → in_lists (lists_of σ) (childs_of i) → is_Some (p_kids σ !! i).
Proof.
  intros Hv Hi (h & xs & Hq & Hc). apply elem_of_cons in Hc.
  destruct (lists_of_inv _ _ _ Hq) as [[Hh (l & -> & Hl)]|(j & ks & -> & Hk & ->)].
  - exfalso. destruct Hc as [<-|Hc].
    + by destruct (queue_head_not_task _ i Hh Hi) as (_ & _ & ?).
    + apply list_elem_of_fmap in Hc as (j & Hc & _). by destruct (anchor_kinds j i) as (_ & ? & _).
  - destruct Hc as [->%(inj childs_of)|Hc]; [eauto|].
    exfalso. apply list_elem_of_fmap in Hc as (c & Hc & _). by destruct (anchor_kinds c i) as (_ & _ & ?).
Qed.
(** ** Queues, uniformly *)

Inductive queue : Type := Ready | Free | Blocked.

Definition head_of (q : queue) : Z :=
  match q with Ready => readyq | Free => freeq | Blocked => blocked end.

Definition get_q (q : queue) (σ : ptable) : list Z :=
  match q with Ready => p_ready σ | Free => p_free σ | Blocked => p_blocked σ end.

Definition set_q (q : queue) (l : list Z) : ptable → ptable :=
  match q with Ready => set_ready l | Free => set_free l | Blocked => set_blocked l end.

Lemma head_of_head q : queue_head (head_of q).
Proof. destruct q; unfold queue_head; cbn; tauto. Qed.

Lemma lists_of_q σ q : lists_of σ !! head_of q = Some (anchor_of <$> get_q q σ).
Proof. destruct q; [apply lists_of_ready|apply lists_of_free|apply lists_of_blocked]. Qed.

Lemma lists_of_set_q σ q l :
  <[head_of q := anchor_of <$> l]> (lists_of σ) = lists_of (set_q q l σ).
Proof. destruct q; [apply lists_of_set_ready|apply lists_of_set_free|apply lists_of_set_blocked]. Qed.

Lemma queued_q σ q i : i ∈ get_q q σ → i ∈ queued σ.
Proof. unfold queued. rewrite !elem_of_app. destruct q; cbn; tauto. Qed.

Lemma queued_inv σ i : i ∈ queued σ → ∃ q, i ∈ get_q q σ.
Proof.
  unfold queued. rewrite !elem_of_app.
  intros [?|[?|?]]; [by exists Ready|by exists Free|by exists Blocked].
Qed.

Lemma head_of_inj q1 q2 : head_of q1 = head_of q2 → q1 = q2.
Proof.
  destruct heads_distinct as (? & ? & ?). destruct q1, q2; cbn; intros; congruence.
Qed.

#[export] Instance queue_eq_dec : EqDecision queue.
Proof. solve_decision. Defined.

Lemma get_set_q q q' l σ : get_q q' (set_q q l σ) = if decide (q = q') then l else get_q q' σ.
Proof. by destruct q, q'. Qed.

Lemma kids_set_q q l σ : p_kids (set_q q l σ) = p_kids σ.
Proof. by destruct q. Qed.

Lemma run_set_q q l σ : p_run (set_q q l σ) = p_run σ.
Proof. by destruct q. Qed.

(** ** The queues in memory *)

(** The table is represented in memory, and the tasks on no queue have NULL
    links: what update_process_state_rr relies on to tell them apart. *)
Record qinv (σ : ptable) (m : memory) : Prop := {
  qi_valid : ptable_valid σ;
  qi_lists : lists_ok kernel_cell m (lists_of σ);
  qi_links : ∀ i, valid_task i → i ∉ queued σ →
    load32 m (anchor_of i) = NULL ∧ load32 m (anchor_of i + 4) = NULL;
}.

(** Only links of the kernel's lists change. *)
Definition cells_only (m m' : memory) : Prop := frame (cell_bytes kernel_cell) m m'.

(** Fields of the task structure that are no links. *)
Definition plain_field (f : Z) : Prop :=
  0 ≤ f ∧ f + 4 ≤ PAGE_SIZE ∧ (f + 4 ≤ f_anchor ∨ (f_kernel_esp ≤ f ∧ f + 4 ≤ f_child_anchor) ∨
  f_pending_unblocks ≤ f).

Lemma cell_not_plain i f a :
  valid_task i → plain_field f → in_range (task_addr i + f) 4 a → ¬ cell_bytes kernel_cell a.
Proof.
  intros Hi (Hf0 & Hf1 & Hf) Ha (c & [Hq|(j & Hj & Hc)] & Hr).
  - pose proof (heads_window c Hq).
    unfold valid_task, task_addr, sizeof_task_union, KERNEL_STACK_SIZE, in_range in *. lia.
  - unfold plain_field, in_range, anchor_of, child_anchor_of, childs_of, f_anchor, f_kernel_esp,
      f_child_anchor, f_childs, f_pending_unblocks, PAGE_SIZE in *.
    destruct (decide (i = j)) as [->|Hne]; [lia|].
    pose proof (task_addr_apart i j Hi Hj Hne). unfold apart, PAGE_SIZE in *. lia.
Qed.

Lemma cells_plain m m' i f :
  cells_only m m' → valid_task i → plain_field f →
  load32 m' (task_addr i + f) = load32 m (task_addr i + f).
Proof.
  intros Hf Hi Hp. apply (frame_load32 _ _ _ _ Hf). intros b. by apply cell_not_plain.
Qed.

Lemma cells_only_sub (C : Z → Prop) m m' :
  frame (cell_bytes C) m m' → (∀ c, C c → kernel_cell c) → cells_only m m'.
Proof. intros Hf HC. eapply frame_weaken; [|exact Hf]. intros a (c & Hc & Ha). exists c. auto. Qed.

Lemma lists_cell_all σ m q c :
  lists_ok kernel_cell m (lists_of σ) → c ∈ head_of q :: (anchor_of <$> get_q q σ) → kernel_cell c.
Proof. intros H Hc. eapply lists_cell; [exact H|apply lists_of_q|exact Hc]. Qed.

(** No task is queued twice. *)
Lemma queue_unique σ m q1 q2 i :
  lists_ok kernel_cell m (lists_of σ) → i ∈ get_q q1 σ → i ∈ get_q q2 σ → q1 = q2.
Proof.
  intros Hok H1 H2. apply head_of_inj.
  eapply (lists_disj _ _ _ Hok _ _ _ _ (anchor_of i)); [apply lists_of_q..| |];
    apply list_elem_of_further; by apply list_elem_of_fmap_2.
Qed.

Lemma queue_nodup σ m q : lists_ok kernel_cell m (lists_of σ) → NoDup (get_q q σ).
Proof.
  intros Hok. pose proof (lists_nodup _ _ _ Hok _ _ (lists_of_q σ q)) as [_ H]%NoDup_cons.
  by apply NoDup_fmap_1 in H.
Qed.

Lemma queue_remove_out σ m q l1 i l2 :
  lists_ok kernel_cell m (lists_of σ) → get_q q σ = l1 ++ i :: l2 →
  i ∉ queued (set_q q (l1 ++ l2) σ).
Proof.
  intros Hok Hq (q' & Hq')%queued_inv. rewrite get_set_q in Hq'. case_decide as Hd.
  - pose proof (queue_nodup σ m q Hok) as Hn. rewrite Hq in Hn.
    apply NoDup_app in Hn as (_ & Hx & [Hy _]%NoDup_cons).
    apply elem_of_app in Hq' as [Hi|Hi]; [|done]. apply (Hx i Hi). apply list_elem_of_here.
  - apply Hd. eapply (queue_unique σ m q q' i); [done| |done].
    rewrite Hq. rewrite elem_of_app, elem_of_cons. auto.
Qed.

Lemma queued_remove σ q l1 i l2 j :
  get_q q σ = l1 ++ i :: l2 → j ∈ queued (set_q q (l1 ++ l2) σ) → j ∈ queued σ.
Proof.
  intros Hq (q' & Hq')%queued_inv. rewrite get_set_q in Hq'. case_decide; [subst q'|by eapply queued_q].
  eapply queued_q. rewrite Hq, elem_of_app, elem_of_cons. rewrite elem_of_app in Hq'. tauto.
Qed.

Lemma queued_remove_ne σ q l1 i l2 j :
  get_q q σ = l1 ++ i :: l2 → j ∈ queued σ → j ≠ i → j ∈ queued (set_q q (l1 ++ l2) σ).
Proof.
  intros Hq (q' & Hq')%queued_inv Hne. apply (queued_q _ q'). rewrite get_set_q.
  case_decide; [subst q'|done]. rewrite Hq, elem_of_app, elem_of_cons in Hq'.
  rewrite elem_of_app. tauto.
Qed.

Lemma queued_add σ q i j :
  j ∈ queued (set_q q (get_q q σ ++ [i]) σ) ↔ j = i ∨ j ∈ queued σ.
Proof.
  split.
  - intros (q' & Hq')%queued_inv. rewrite get_set_q in Hq'. case_decide; [subst q'|].
    + apply elem_of_app in Hq' as [?|?%list_elem_of_singleton]; [|by left].
      right. by eapply queued_q.
    + right. by eapply queued_q.
  - intros [->|(q' & Hq')%queued_inv].
    + apply (queued_q _ q). rewrite get_set_q, decide_True, elem_of_app, list_elem_of_singleton by done. auto.
    + apply (queued_q _ q'). rewrite get_set_q. case_decide; [subst q'|done].
      rewrite elem_of_app. auto.
Qed.

(** Taking a task off its queue. *)
Lemma wp_dequeue σ m q l1 i l2 R :
  qinv σ m → get_q q σ = l1 ++ i :: l2 →
  (∀ m', qinv (set_q q (l1 ++ l2) σ) m' → cells_only m m' → R tt m') →
  wp (list_del (anchor_of i)) m R.
Proof.
  intros [Hv Hok Hl] Hq HR.
  assert (Hi : valid_task i).
  { apply Hv. eapply queued_q. rewrite Hq, elem_of_app, elem_of_cons. auto. }
  eapply (wp_list_del kernel_cell m (lists_of σ) (head_of q) (anchor_of <$> l1) (anchor_of i)
            (anchor_of <$> l2)); [done|by rewrite lists_of_q, Hq, fmap_app|].
  intros m' Hok' Hf Hn Hp. rewrite <- fmap_app, lists_of_set_q in Hok'.
  assert (Hcells : ∀ c, c ∈ head_of q :: (anchor_of <$> l1) ++ anchor_of i :: (anchor_of <$> l2) →
    c ∈ head_of q :: (anchor_of <$> get_q q σ)) by (rewrite Hq, fmap_app; done).
  apply HR.
  - split; [|done|].
    + destruct Hv as [Hv1 Hv2]. split; [|by rewrite kids_set_q].
      intros j Hj. eapply Hv1, queued_remove; eauto.
    + intros j Hj Hnj. destruct (decide (j = i)) as [->|Hne]; [done|].
      assert (Hjq : j ∉ queued σ).
      { intros Hjq. apply Hnj. eapply queued_remove_ne; eauto. }
      enough (load32 m' (anchor_of j) = load32 m (anchor_of j) ∧
              load32 m' (anchor_of j + 4) = load32 m (anchor_of j + 4)) as [-> ->] by auto.
      eapply (frame_cell kernel_cell); [exact Hf| |by apply anchor_cell|].
      * intros d Hd. eapply lists_cell_all; [exact Hok|]. by apply Hcells.
      * intros Hin%Hcells. apply elem_of_cons in Hin as [E|Hin].
        -- destruct (queue_head_not_task _ j (head_of_head q) Hj) as (? & _). congruence.
        -- apply list_elem_of_fmap in Hin as (j' & ->%(inj anchor_of) & Hj'). apply Hjq. by eapply queued_q.
  - eapply cells_only_sub; [exact Hf|]. intros c Hc%Hcells. eapply lists_cell_all; [exact Hok|done].
Qed.

(** Putting a task that is on no queue at the end of one. *)
Lemma wp_enqueue σ m q i R :
  qinv σ m → valid_task i → i ∉ queued σ →
  (∀ m', qinv (set_q q (get_q q σ ++ [i]) σ) m' → cells_only m m' → R tt m') →
  wp (list_add_tail (anchor_of i) (head_of q)) m R.
Proof.
  intros [Hv Hok Hl] Hi Hni HR.
  eapply (wp_list_add_tail kernel_cell m (lists_of σ) (head_of q) (anchor_of <$> get_q q σ));
    [done|apply lists_of_q|by apply anchor_cell| |].
  { intros Hin. apply Hni. by eapply in_lists_anchor. }
  intros m' Hok' Hf. change [anchor_of i] with (anchor_of <$> [i]) in Hok'.
  rewrite <- fmap_app, lists_of_set_q in Hok'. apply HR.
  - split; [|done|].
    + destruct Hv as [Hv1 Hv2]. split; [|by rewrite kids_set_q].
      intros j [->|Hj]%queued_add; auto.
    + intros j Hj Hnj. rewrite queued_add in Hnj.
      enough (load32 m' (anchor_of j) = load32 m (anchor_of j) ∧
              load32 m' (anchor_of j + 4) = load32 m (anchor_of j + 4)) as [-> ->] by auto.
      eapply (frame_cell kernel_cell); [exact Hf| |by apply anchor_cell|].
      * intros d [->|Hd]; [by apply anchor_cell|eapply lists_cell_all; [exact Hok|done]].
      * intros [E%(inj anchor_of)|[E|Hin]%elem_of_cons]; [tauto| |].
        -- destruct (queue_head_not_task _ j (head_of_head q) Hj) as (? & _). congruence.
        -- apply list_elem_of_fmap in Hin as (j' & ->%(inj anchor_of) & Hj').
           apply Hnj. right. by eapply queued_q.
  - eapply cells_only_sub; [exact Hf|].
    intros c [->|Hc]; [by apply anchor_cell|eapply lists_cell_all; [exact Hok|done]].
Qed.
(** ** update_process_state_rr *)

(** [i] taken off the queue it is on, if any. *)
Inductive removed (i : Z) (σ : ptable) : ptable → Prop :=
  | removed_off : i ∉ queued σ → removed i σ σ
  | removed_from q l1 l2 : get_q q σ = l1 ++ i :: l2 → removed i σ (set_q q (l1 ++ l2) σ).

(** The argument [dest], and the task put there. *)
Definition dest_addr (dest : option queue) : Z := from_option head_of NULL dest.

Definition put (dest : option queue) (i : Z) (σ : ptable) : ptable :=
  match dest with None => σ | Some q => set_q q (get_q q σ ++ [i]) σ end.

Lemma removed_exists i σ : ∃ σ1, removed i σ σ1.
Proof.
  destruct (decide (i ∈ queued σ)) as [(q & Hq)%queued_inv|]; [|by exists σ; constructor].
  apply list_elem_of_split in Hq as (l1 & l2 & Hq). eexists. by eapply removed_from.
Qed.

Lemma head_of_nonnull q : head_of q ≠ NULL.
Proof.
  pose proof (heads_window _ (head_of_head q)). unfold NULL, KERNEL_START in *. lia.
Qed.

(** The links of a queued task are not NULL. *)
Lemma queued_next σ m q l1 i l2 :
  qinv σ m → get_q q σ = l1 ++ i :: l2 → load32 m (anchor_of i) ≠ NULL.
Proof.
  intros [Hv Hok _] Hq. pose proof (lists_dlist _ _ _ Hok _ _ (lists_of_q σ q)) as Hd.
  rewrite Hq, fmap_app in Hd. apply dlist_next_entry in Hd. rewrite Hd.
  destruct l2 as [|j l2]; cbn; [apply head_of_nonnull|].
  assert (Hj : valid_task j).
  { apply Hv. eapply queued_q. rewrite Hq, elem_of_app, !elem_of_cons. auto. }
  pose proof (task_addr_window j Hj). unfold anchor_of, NULL, KERNEL_START, f_anchor in *. lia.
Qed.

Lemma removed_out σ m i σ1 : lists_ok kernel_cell m (lists_of σ) → removed i σ σ1 → i ∉ queued σ1.
Proof. intros Hok [Hoff|q l1 l2 Hq]; [done|]. by eapply queue_remove_out. Qed.

Lemma wp_update_process_state σ σ1 i dest s R :
  qinv σ (k_mem s) → valid_task i → removed i σ σ1 →
  (∀ m', qinv (put dest i σ1) m' → cells_only (k_mem s) m' → R tt (with_mem m' s)) →
  wp (update_process_state_rr (task_addr i) (dest_addr dest)) s R.
Proof.
  intros Hq Hi Hrem HR. unfold update_process_state_rr.
  change (task_addr i + f_anchor) with (anchor_of i). pose proof (anchor_cell i Hi) as Hc.
  assert (Htail : ∀ m1, qinv σ1 m1 → cells_only (k_mem s) m1 →
    wp (when (negb (dest_addr dest =? NULL)) (on_mem (list_add_tail (anchor_of i) (dest_addr dest))))
      (with_mem m1 s) R).
  { intros m1 Hq1 Hf1. pose proof (removed_out _ _ _ _ (qi_lists _ _ Hq) Hrem) as Hout.
    destruct dest as [q|]; cbn [dest_addr from_option put].
    - destruct (Z.eqb_spec (head_of q) NULL) as [E|_]; [by destruct (head_of_nonnull q)|].
      cbn [negb when]. apply wp_on_mem. kred. eapply wp_enqueue; [done..|].
      intros m2 Hq2 Hf2. apply HR; [done|]. by eapply frame_trans.
    - apply wp_ret. by apply HR. }
  apply wp_bind, wp_on_mem, (wp_get_next kernel_cell); [done|]. rewrite with_mem_same.
  destruct Hrem as [Hoff|q l1 l2 Hl].
  - destruct (qi_links _ _ Hq i Hi Hoff) as [En Ep]. rewrite En, Z.eqb_refl.
    apply wp_bind, wp_bind, wp_on_mem, (wp_get_prev kernel_cell); [done|]. apply wp_ret.
    rewrite Ep, Z.eqb_refl, <- (with_mem_same s). kred. apply wp_bind, wp_ret, Htail; [done|].
    apply frame_refl.
  - pose proof (queued_next _ _ _ _ _ _ Hq Hl) as Hn.
    destruct (Z.eqb_spec (load32 (k_mem s) (anchor_of i)) NULL); [done|].
    apply wp_bind, wp_ret. cbn [negb when]. apply wp_bind, wp_on_mem.
    eapply wp_dequeue; [done..|]. auto.
Qed.

(** C25. update_process_state_rr moves a task between queues: whatever queue
    the task is on, if any, it is taken off it, and it becomes the last of the
    queue [dest] unless [dest] is NULL; the order of the other tasks, the
    process families and every byte outside list links are unchanged, and the
    NULL-links convention the function tests is kept for every task. *)
Theorem update_process_state_moves σ i dest s :
  qinv σ (k_mem s) → valid_task i →
  ∃ σ1 m', removed i σ σ1 ∧
    update_process_state_rr (task_addr i) (dest_addr dest) s = Ret tt (with_mem m' s) ∧
    qinv (put dest i σ1) m' ∧ cells_only (k_mem s) m'.
Proof.
  intros Hq Hi. destruct (removed_exists i σ) as [σ1 Hrem].
  destruct (wp_elim (update_process_state_rr (task_addr i) (dest_addr dest)) s
    (λ _ s', ∃ m', s' = with_mem m' s ∧ qinv (put dest i σ1) m' ∧ cells_only (k_mem s) m'))
    as ([] & s' & E & m' & -> & H).
  - eapply wp_update_process_state; [done..|]. eauto.
  - exists σ1, m'. tauto.
Qed.

(** ** Choosing the next task *)

(** The abstract choice: the first ready task, or the idle task. *)
Definition pick (σ : ptable) : Z * ptable :=
  match p_ready σ with
  | [] => (0, σ)
  | i :: l => (i, set_ready l σ)
  end.

Lemma wp_sched_pick σ s R :
  qinv σ (k_mem s) → k_idle_task s = task_addr 0 →
  (∀ m', qinv (pick σ).2 m' → cells_only (k_mem s) m' → R (task_addr (pick σ).1) (with_mem m' s)) →
  wp sched_pick s R.
Proof.
  intros Hq Hidle HR. unfold sched_pick, pick in *.
  apply wp_bind, wp_on_mem. eapply (wp_list_empty kernel_cell); [apply Hq|apply lists_of_ready|].
  rewrite with_mem_same.
  destruct (p_ready σ) as [|i l] eqn:Hr.
  - rewrite bool_decide_eq_true_2 by done. apply wp_gets. rewrite Hidle.
    specialize (HR (k_mem s) Hq (frame_refl _ _)). cbn in HR.
    by rewrite with_mem_same in HR.
  - rewrite bool_decide_eq_false_2 by done. apply wp_bind, wp_on_mem.
    eapply (wp_list_first kernel_cell); [apply Hq|rewrite lists_of_ready, Hr; done|].
    rewrite with_mem_same.
    rewrite list_entry_anchor. apply wp_bind.
    eapply (wp_update_process_state σ (set_q Ready l σ) i None); [done| | |].
    + apply (qi_valid _ _ Hq), (queued_q _ Ready). cbn. rewrite Hr. apply list_elem_of_here.
    + by apply (removed_from i σ Ready []).
    + intros m' Hq' Hf. apply wp_ret. by apply HR.
Qed.
(** ** Families in memory *)

(** Writing outside the links keeps the queues. *)
Lemma qinv_frame P σ m m' :
  qinv σ m → frame P m m' → (∀ a, cell_bytes kernel_cell a → ¬ P a) → qinv σ m'.
Proof.
  intros [Hv Hok Hl] Hf HP. split; [done| |].
  - eapply lists_frame; [done..|]. intros c a Hc Ha. apply HP. by exists c.
  - intros i Hi Hn.
    enough (load32 m' (anchor_of i) = load32 m (anchor_of i) ∧
            load32 m' (anchor_of i + 4) = load32 m (anchor_of i + 4)) as [-> ->] by auto.
    split; apply (frame_load32 _ _ _ _ Hf); intros b Hb; apply HP; exists (anchor_of i);
      (split; [by apply anchor_cell|unfold in_range in *; lia]).
Qed.

Lemma qinv_set_field σ m i f v :
  qinv σ m → valid_task i → plain_field f → qinv σ (store32 m (task_addr i + f) v).
Proof.
  intros Hq Hi Hf. eapply (qinv_frame (in_range (task_addr i + f) 4)); [done|by apply frame_store32|].
  intros a Hc Ha. by eapply cell_not_plain.
Qed.

(** A change of the lists of children alone. *)
Lemma qinv_kids (C : Z → Prop) σ k m m' :
  qinv σ m → ptable_valid (set_kids k σ) → lists_ok kernel_cell m' (lists_of (set_kids k σ)) →
  frame (cell_bytes C) m m' → (∀ c, C c → kernel_cell c ∧ ∀ i, valid_task i → c ≠ anchor_of i) →
  qinv (set_kids k σ) m'.
Proof.
  intros [Hv Hok Hl] Hv' Hok' Hf HC. split; [done..|]. intros i Hi Hn.
  enough (load32 m' (anchor_of i) = load32 m (anchor_of i) ∧
          load32 m' (anchor_of i + 4) = load32 m (anchor_of i + 4)) as [-> ->] by auto.
  eapply (frame_cell kernel_cell); [exact Hf| |by apply anchor_cell|].
  - intros d Hd. by apply HC.
  - intros Hc. destruct (HC _ Hc) as [_ Hx]. by apply (Hx i Hi).
Qed.

Lemma kids_valid_insert σ i l :
  ptable_valid σ → valid_task i → (∀ c, c ∈ l → valid_task c) →
  ptable_valid (set_kids (<[i := l]> (p_kids σ)) σ).
Proof.
  intros [Hq Hk] Hi Hl. split; [done|]. intros j ks. cbn [p_kids set_kids].
  rewrite lookup_insert_Some. intros [[<- <-]|[_ Hj]]; [done|by apply Hk].
Qed.

(** The cells of a list of children. *)
Lemma kid_cell j l c :
  valid_task j → (∀ i, i ∈ l → valid_task i) → c ∈ childs_of j :: (child_anchor_of <$> l) →
  kernel_cell c ∧ ∀ i, valid_task i → c ≠ anchor_of i.
Proof.
  intros Hj Hl [->|Hc]%elem_of_cons.
  - split; [by apply childs_cell|]. intros i Hi. by destruct (anchor_kinds i j) as (_ & ? & _).
  - apply list_elem_of_fmap in Hc as (i & -> & Hi). split; [by apply child_anchor_cell; auto|].
    intros k Hk. by destruct (anchor_kinds k i) as (? & _).
Qed.

Lemma wp_init_childs σ m i R :
  qinv σ m → valid_task i → p_kids σ !! i = None →
  (∀ m', qinv (set_kids (<[i := []]> (p_kids σ)) σ) m' →
         frame (in_range (childs_of i) 8) m m' → R tt m') →
  wp (INIT_LIST_HEAD (childs_of i)) m R.
Proof.
  intros Hq Hi Hn HR. eapply (wp_INIT_LIST_HEAD kernel_cell); [apply Hq|by apply childs_cell| |].
  { intros [ks Hk]%in_lists_childs; [congruence|apply Hq|done]. }
  intros m' Hok Hf. apply HR.
  - eapply qinv_kids; [done| | |exact Hf|].
    + apply kids_valid_insert; [apply Hq|done|by intros c ?%not_elem_of_nil].
    + change [] with (child_anchor_of <$> []) in Hok. by rewrite lists_of_set_kids in Hok.
    + intros c ->. apply (kid_cell i []); [done|by intros ? ?%not_elem_of_nil|apply list_elem_of_here].
  - eapply frame_weaken; [|exact Hf]. by intros a (c & -> & Ha).
Qed.

Lemma wp_kid_add σ m j ks c R :
  qinv σ m → valid_task c → p_kids σ !! j = Some ks →
  (∀ k l, p_kids σ !! k = Some l → c ∉ l) →
  (∀ m', qinv (set_kids (<[j := ks ++ [c]]> (p_kids σ)) σ) m' → cells_only m m' → R tt m') →
  wp (list_add_tail (child_anchor_of c) (childs_of j)) m R.
Proof.
  intros Hq Hc Hk Hout HR. destruct (pv_kids _ (qi_valid _ _ Hq) _ _ Hk) as [Hj Hks].
  eapply (wp_list_add_tail kernel_cell);
    [apply Hq|by apply lists_of_kids|by apply child_anchor_cell| |].
  { intros (k & l & Hkl & Hin)%in_lists_child_anchor; [by apply (Hout k l)|apply Hq|done]. }
  intros m' Hok Hf. change [child_anchor_of c] with (child_anchor_of <$> [c]) in Hok.
  rewrite <- fmap_app, lists_of_set_kids in Hok by done.
  assert (HC : ∀ d, d = child_anchor_of c ∨ d ∈ childs_of j :: (child_anchor_of <$> ks) →
    kernel_cell d ∧ ∀ i, valid_task i → d ≠ anchor_of i).
  { intros d [->|Hd]; [|by eapply kid_cell].
    split; [by apply child_anchor_cell|]. intros i Hi. by destruct (anchor_kinds i c) as (? & _). }
  apply HR.
  - eapply qinv_kids; [done| |exact Hok|exact Hf|exact HC].
    apply kids_valid_insert; [apply Hq|done|].
    intros i [?| ->%list_elem_of_singleton]%elem_of_app; auto.
  - eapply cells_only_sub; [exact Hf|]. intros d Hd. by apply HC.
Qed.

Lemma wp_kid_del σ m j l1 c l2 R :
  qinv σ m → p_kids σ !! j = Some (l1 ++ c :: l2) →
  (∀ m', qinv (set_kids (<[j := l1 ++ l2]> (p_kids σ)) σ) m' → cells_only m m' → R tt m') →
  wp (list_del (child_anchor_of c)) m R.
Proof.
  intros Hq Hk HR. destruct (pv_kids _ (qi_valid _ _ Hq) _ _ Hk) as [Hj Hks].
  eapply (wp_list_del kernel_cell m (lists_of σ) (childs_of j) (child_anchor_of <$> l1)
            (child_anchor_of c) (child_anchor_of <$> l2)); [apply Hq| |].
  { rewrite (lists_of_kids _ _ _ Hj Hk), fmap_app. done. }
  intros m' Hok Hf _ _. rewrite <- fmap_app, lists_of_set_kids in Hok by done.
  assert (HC : ∀ d, d ∈ childs_of j :: (child_anchor_of <$> l1) ++ child_anchor_of c ::
      (child_anchor_of <$> l2) → kernel_cell d ∧ ∀ i, valid_task i → d ≠ anchor_of i).
  { intros d Hd. apply (kid_cell j (l1 ++ c :: l2)); [done..|]. by rewrite fmap_app. }
  apply HR.
  - eapply qinv_kids; [done| |exact Hok|exact Hf|exact HC].
    apply kids_valid_insert; [apply Hq|done|].
    intros i Hi. apply Hks. rewrite elem_of_app, elem_of_cons. rewrite elem_of_app in Hi. tauto.
  - eapply cells_only_sub; [exact Hf|]. intros d Hd. by apply HC.
Qed.
End Sched.

(** Offsets of fields. *)
Ltac solve_field :=
  unfold plain_field, f_PID, f_anchor, f_kernel_esp, f_state, f_quantum, f_dir_pages_baseAddr, f_parent,
    f_child_anchor, f_childs, f_pending_unblocks, sizeof_task_struct, PAGE_SIZE in *; lia.
