(* ===== verification/Policy.v ===== *)
(** The scheduler against its specification: the invariant that ties the
    process table to the kernel's state, the choice of the next task, and the
    clock tick of the round robin policy. *)

From S2P Require Import Prelude Memory CList Libc Console Frames Types Kernel Task Paging Switch Sched.

Section Policy.
Context {L : Layout} {LO : LayoutOk L}.

(** ** Tasks that can be switched to *)

(** A task created by fork that has not run yet: switching to it enters
    ret_from_fork, which returns to the system call handler. *)
Definition forked (m : memory) (i : Z) : Prop :=
  let k := load32 m (task_addr i + f_kernel_esp) in
  task_addr i + sizeof_task_struct ≤ k ∧ k + 76 ≤ task_addr i + PAGE_SIZE ∧
  load32 m k = 0 ∧ load32 m (k + 4) = addr_ret_from_fork ∧ load32 m (k + 8) = addr_service_ret.

(** The idle task before it first runs. *)
Definition idle_start (m : memory) (i : Z) : Prop :=
  i = 0 ∧ load32 m (task_addr 0 + f_kernel_esp) = stack_addr (task_addr 0) (KERNEL_STACK_SIZE - 2) ∧
  load32 m (stack_addr (task_addr 0) (KERNEL_STACK_SIZE - 1)) = addr_cpu_idle.

Definition suspended (m : memory) (i : Z) : Prop :=
  (∃ c, switched_out m i c) ∨ forked m i ∨ idle_start m i.

(** The bytes of task [i] that describe where it stopped. *)
Definition stack_bytes (i a : Z) : Prop :=
  in_range (task_addr i + f_kernel_esp) 4 a ∨
  in_range (task_addr i + sizeof_task_struct) (PAGE_SIZE - sizeof_task_struct) a.

Lemma stack_bytes_page i a : stack_bytes i a → in_range (task_addr i) PAGE_SIZE a.
Proof. unfold stack_bytes, in_range, f_kernel_esp, sizeof_task_struct, PAGE_SIZE. lia. Qed.

Lemma suspended_resumable m i : suspended m i → resumable m i.
Proof.
  unfold resumable. intros [(c & H1 & H2 & _)|[(H1 & H2 & _)|(-> & H & _)]]; [lia..|].
  rewrite H. unfold stack_addr, KERNEL_STACK_SIZE, sizeof_task_struct, PAGE_SIZE. lia.
Qed.

Lemma stack_load P m m' i a :
  frame P m m' → (∀ b, stack_bytes i b → ¬ P b) →
  a = task_addr i + f_kernel_esp ∨
  (task_addr i + sizeof_task_struct ≤ a ∧ a + 4 ≤ task_addr i + PAGE_SIZE) →
  load32 m' a = load32 m a.
Proof.
  intros Hf HP Ha. apply (frame_load32 _ _ _ _ Hf). intros b Hb. apply HP.
  unfold stack_bytes, in_range in *. destruct Ha as [->|Ha]; [by left|right; lia].
Qed.

Lemma forked_frame P m m' i :
  forked m i → frame P m m' → (∀ a, stack_bytes i a → ¬ P a) → forked m' i.
Proof.
  intros (H1 & H2 & H3 & H4 & H5) Hf HP. pose proof (stack_load P m m' i) as Hl.
  unfold forked. cbv zeta. rewrite !(Hl (task_addr i + f_kernel_esp)) by auto.
  split_and!; [done..| | |]; rewrite Hl by (done || (right; lia)); done.
Qed.

Lemma suspended_frame P m m' i :
  suspended m i → frame P m m' → (∀ a, stack_bytes i a → ¬ P a) → suspended m' i.
Proof.
  intros Hs Hf HP. pose proof (stack_load P m m' i) as Hl.
  assert (Ek : load32 m' (task_addr i + f_kernel_esp) = load32 m (task_addr i + f_kernel_esp)) by auto.
  destruct Hs as [(c & Hc)|[Hk|(-> & H1 & H2)]].
  - left. exists c. eapply switched_out_frame; [done..|]. intros a [Ha|Ha]; apply HP; [|by left].
    destruct Hc as (H1 & H2 & _). right. unfold in_range in *. lia.
  - right. left. by eapply forked_frame.
  - right. right. split_and!; [done|by rewrite Ek|]. rewrite Hl; [done..|].
    right. unfold stack_addr, KERNEL_STACK_SIZE, sizeof_task_struct, PAGE_SIZE. lia.
Qed.

Lemma idle_start_frame P m m' :
  idle_start m 0 → frame P m m' → (∀ a, stack_bytes 0 a → ¬ P a) → idle_start m' 0.
Proof.
  intros (_ & H1 & H2) Hf HP. pose proof (stack_load P m m' 0) as Hl. split_and!; [done|by rewrite Hl by auto|].
  rewrite Hl; [done..|]. right. unfold stack_addr, KERNEL_STACK_SIZE, sizeof_task_struct, PAGE_SIZE. lia.
Qed.

Lemma cells_stack i a : valid_task i → stack_bytes i a → ¬ cell_bytes kernel_cell a.
Proof.
  intros Hi Ha. set (f := if decide (a < task_addr i + 16) then 12 else Z.min (a - task_addr i) 4092).
  apply (cell_not_plain i f); [done| |];
    unfold plain_field, stack_bytes, in_range, f_kernel_esp, f_anchor, f_child_anchor,
      f_pending_unblocks, sizeof_task_struct, PAGE_SIZE in *; subst f; case_decide; lia.
Qed.

Lemma cells_suspended m m' i : valid_task i → cells_only m m' → suspended m i → suspended m' i.
Proof. intros Hi Hf Hs. eapply suspended_frame; [done..|]. intros a. by apply cells_stack. Qed.

(** ** The invariant *)

Definition pid_of (m : memory) (i : Z) : Z := load_int m (task_addr i + f_PID).
Definition quantum_of (m : memory) (i : Z) : Z := load32 m (task_addr i + f_quantum).

(** What holds whenever a task is chosen: also when the running one has just
    been put on a queue. *)
Record sched_core (σ : ptable) (s : kstate) : Prop := {
  sc_q : qinv σ (k_mem s);
  sc_run : valid_task (p_run σ);
  sc_cover : ∀ i, valid_task i → i = 0 ∨ i = p_run σ ∨ i ∈ queued σ;
  sc_idle : k_idle_task s = task_addr 0;
  sc_idle_q : (0 ∉ p_free σ) ∧ (0 ∉ p_blocked σ);
  sc_susp : ∀ i, valid_task i → i ≠ p_run σ → i ∉ p_free σ → suspended (k_mem s) i;
  sc_dirs : ∀ i, valid_task i → i ∉ p_free σ →
    load32 (k_mem s) (task_addr i + f_dir_pages_baseAddr) = dir_addr i;
  sc_pids : ∀ i, valid_task i → i ∉ p_free σ → 0 ≤ pid_of (k_mem s) i ≤ k_last_pid s;
  sc_quantum : ∀ i, valid_task i → i ∉ p_free σ → 0 ≤ quantum_of (k_mem s) i < 2 ^ 31;
  sc_console : cursor_ok (k_console s);
}.

(** What holds between kernel entries: the running task is on no queue. *)
Definition sched_inv (σ : ptable) (s : kstate) : Prop :=
  sched_core σ s ∧ p_run σ ∉ queued σ.

(** The processor is ready to switch: room on the stack of the running task,
    whose directory is loaded. *)
Record cpu_ok (i : Z) (s : kstate) : Prop := {
  cpu_room : switch_room s i;
  cpu_regs : regs_ok (k_regs s);
}.

(** Writes that spare the stacks and the fields the scheduler reads. *)
Lemma sched_core_mem P σ σ' s s' :
  sched_core σ s → qinv σ' (k_mem s') → frame P (k_mem s) (k_mem s') →
  (∀ i a, valid_task i → i ≠ p_run σ → i ∉ p_free σ' → stack_bytes i a → ¬ P a) →
  (∀ i f a, valid_task i → f ∈ [f_PID; f_quantum; f_dir_pages_baseAddr] →
     in_range (task_addr i + f) 4 a → ¬ P a) →
  k_idle_task s' = k_idle_task s → k_last_pid s' = k_last_pid s → k_console s' = k_console s →
  p_run σ' = p_run σ → (∀ i, i ∈ queued σ → i ∈ queued σ' ∨ i = p_run σ) →
  ((0 ∉ p_free σ') ∧ (0 ∉ p_blocked σ')) → (∀ i, i ∉ p_free σ' → i ∉ p_free σ) →
  sched_core σ' s'.
Proof.
  intros [Hq Hr Hc Hid Hiq Hs Hd Hp Hqu Hco] Hq' Hf HPs HPf Eid Elp Econ Er Hqd H0 Hfr.
  assert (Hfield : ∀ i f, valid_task i → f ∈ [f_PID; f_quantum; f_dir_pages_baseAddr] →
    load32 (k_mem s') (task_addr i + f) = load32 (k_mem s) (task_addr i + f)).
  { intros i f Hi Hin. apply (frame_load32 _ _ _ _ Hf). intros b. by apply HPf. }
  split; rewrite ?Er, ?Eid, ?Elp, ?Econ; try done.
  - intros i Hi. destruct (Hc i Hi) as [?|[?|?%Hqd]]; tauto.
  - intros i Hi Hne Hnf. eapply suspended_frame; [apply Hs; auto|exact Hf|]. intros a. by apply HPs.
  - intros i Hi Hnf. rewrite Hfield by set_solver. by apply Hd; auto.
  - intros i Hi Hnf. unfold pid_of, load_int. rewrite Hfield by set_solver. by apply Hp; auto.
  - intros i Hi Hnf. unfold quantum_of. rewrite Hfield by set_solver. by apply Hqu; auto.
Qed.

(** A change of links only keeps everything but the table. *)
Lemma sched_core_cells σ σ' s m' :
  sched_core σ s → qinv σ' m' → cells_only (k_mem s) m' →
  p_run σ' = p_run σ →
  (∀ i, i ∈ queued σ → i ∈ queued σ' ∨ i = p_run σ) → ((0 ∉ p_free σ') ∧ (0 ∉ p_blocked σ')) →
  (∀ i, i ∉ p_free σ' → i ∉ p_free σ) →
  sched_core σ' (with_mem m' s).
Proof.
  intros Hc Hq Hf. apply (sched_core_mem (cell_bytes kernel_cell) σ σ' s); try done.
  - intros i a Hi _ _. by apply cells_stack.
  - intros i f a Hi Hin Ha. apply (cell_not_plain i f); [done| |done].
    set_unfold in Hin. destruct_or!; subst; solve_field.
Qed.

(** Printing changes nothing but the console. *)
Lemma sched_core_console σ s k :
  sched_core σ s → cursor_ok k → sched_core σ (with_console k s).
Proof. intros [] Hk. by split. Qed.

Lemma wp_print str s R :
  cursor_ok (k_console s) → 0 ∈ str →
  (∀ k, cursor_ok k → R tt (with_console k s)) → wp (on_console (printk str)) s R.
Proof.
  intros Hc Hn HR. apply wp_on_console. eapply wp_mono; [by apply wp_printk|].
  intros [] k [Hk _]. by apply HR.
Qed.

(** The number of a task in the three characters sched_next_rr has. *)
Lemma wp_print_pid {A} n pid (rest : K A) s R :
  0 ≤ pid < 10 ^ Z.of_nat n → 0 ≤ pid < 2 ^ 31 → (0 < n)%nat → cursor_ok (k_console s) →
  (∀ k, cursor_ok k → wp rest (with_console k s) R) →
  wp (let! buff := local_buf (S n) (itoa pid) in on_console (printk buff) ;! rest) s R.
Proof.
  intros Hpid Hpid' Hn Hc HR. apply wp_bind. eapply wp_local_buf.
  - rewrite itoa_spec by done. rewrite decide_True; [done|].
    rewrite length_replicate. pose proof (numeral_length 10 ltac:(lia) pid n Hpid' Hn). lia.
  - apply wp_bind, wp_print; [done| |done]. rewrite elem_of_app, elem_of_cons. auto.
Qed.

(** From 100 on the number has more digits than the array has room for. *)
Lemma print_pid_overruns {A} pid (rest : cbuf → K A) s :
  100 ≤ pid < 2 ^ 31 → (let! buff := local_buf 3 (itoa pid) in rest buff) s = Fault (BufferOverflow 3).
Proof.
  intros Hp. unfold bind, local_buf. rewrite itoa_spec by lia. rewrite decide_False; [done|].
  rewrite length_replicate. pose proof (numeral_length 10 ltac:(lia) pid 2 ltac:(lia) ltac:(lia)). lia.
Qed.

(** ** Footprints of the switch *)

Lemma switch_bytes_stack s i a :
  switch_room s i → switch_bytes i (esp (k_regs s)) a → stack_bytes i a.
Proof.
  intros (Hi & H1 & H2) [Ha|Ha]; [right|by left]. unfold in_range in *. lia.
Qed.

Lemma stack_apart i j a : valid_task i → valid_task j → i ≠ j → stack_bytes i a → ¬ stack_bytes j a.
Proof.
  intros Hi Hj Hne. pose proof (task_addr_apart i j Hi Hj Hne).
  unfold stack_bytes, in_range, apart, f_kernel_esp, sizeof_task_struct, PAGE_SIZE in *. lia.
Qed.

(** Fields that are neither links nor the saved stack pointer. *)
Definition data_field (f : Z) : Prop :=
  0 ≤ f ∧ (f + 4 ≤ f_kernel_esp ∨ (f_state ≤ f ∧ f + 4 ≤ sizeof_task_struct)).

Lemma stack_field i j f a :
  valid_task i → valid_task j → data_field f → in_range (task_addr j + f) 4 a → ¬ stack_bytes i a.
Proof.
  intros Hi Hj Hf Ha.
  unfold data_field, stack_bytes, in_range, f_kernel_esp, f_state, sizeof_task_struct, PAGE_SIZE in *.
  destruct (decide (i = j)) as [->|Hne]; [lia|].
  pose proof (task_addr_apart i j Hi Hj Hne). unfold apart, PAGE_SIZE in *. lia.
Qed.

Lemma stack_frame_field P m m' i j f :
  frame P m m' → (∀ a, P a → stack_bytes i a) → valid_task i → valid_task j → data_field f →
  load32 m' (task_addr j + f) = load32 m (task_addr j + f).
Proof.
  intros Hf HP Hi Hj Hfd. apply (frame_load32 _ _ _ _ Hf). intros b Hb Hb'.
  by apply (stack_field i j f b); auto.
Qed.

(** ** Switching to the chosen task *)

(** From state [s], where task [i] runs, the processor has gone to task [n]:
    its directory, its ring-0 stack, its saved stack pointer and resume
    address; task [i] can be resumed, and only links and its stack were
    written. *)
Record switched (s s' : kstate) (i n : Z) : Prop := {
  sw_cr3 : k_cr3 s' = dir_addr n;
  sw_esp0 : esp0 (k_tss s') = stack_addr (task_addr n) (KERNEL_STACK_SIZE - 1);
  sw_esp : esp (k_regs s') = load32 (k_mem s') (task_addr n + f_kernel_esp) + 8;
  sw_eip : eip (k_regs s') = load32 (k_mem s') (load32 (k_mem s') (task_addr n + f_kernel_esp) + 4);
  sw_out : switched_out (k_mem s') i (switch_context (k_regs s) addr_sched_next_ret);
  sw_mem : frame (λ a, cell_bytes kernel_cell a ∨ stack_bytes i a) (k_mem s) (k_mem s');
  sw_low : frame (λ a, cell_bytes kernel_cell a ∨ switch_bytes i (esp (k_regs s)) a) (k_mem s) (k_mem s');
  sw_phys : k_phys_mem s' = k_phys_mem s;
  sw_pid : k_last_pid s' = k_last_pid s;
  sw_ticks : k_zeos_ticks s' = k_zeos_ticks s;
  sw_hw : k_hw s' = k_hw s;
  sw_cs : cs (k_regs s') = cs (k_regs s);
  sw_regs : ∃ b, k_regs s' = w_eip (eip (k_regs s')) (w_esp (esp (k_regs s')) (w_ebp b (k_regs s))) ∧ 0 ≤ b < 2 ^ 32;
}.

Lemma pick_valid σ s : sched_core σ s → valid_task (pick σ).1 ∧ (pick σ).1 ∉ p_free σ.
Proof.
  intros Hc. unfold pick. destruct (p_ready σ) as [|i l] eqn:Hr; cbn.
  - split; [unfold valid_task, NR_TASKS; lia|apply Hc].
  - assert (Hi : i ∈ get_q Ready σ) by (cbn; rewrite Hr; apply list_elem_of_here). split.
    + apply (qi_valid _ _ (sc_q _ _ Hc)). by eapply queued_q.
    + intros Hf. by assert (Ready = Free) by
        (eapply (queue_unique σ (k_mem s) Ready Free i); [apply Hc|done|done]).
Qed.

Lemma pick_out σ s : sched_core σ s → (pick σ).1 ∉ queued (pick σ).2.
Proof.
  intros Hc. unfold pick. destruct (p_ready σ) as [|i l] eqn:Hr; cbn.
  - unfold queued. rewrite Hr. cbn. rewrite elem_of_app. destruct (sc_idle_q _ _ Hc). tauto.
  - apply (queue_remove_out σ (k_mem s) Ready [] i l); [apply Hc|done].
Qed.

Lemma pick_queued σ i : i ∈ queued σ → i ≠ (pick σ).1 → i ∈ queued (pick σ).2.
Proof.
  unfold pick. destruct (p_ready σ) as [|j l] eqn:Hr; cbn; [done|]. intros Hq Hne.
  by apply (queued_remove_ne σ Ready [] j l).
Qed.

Lemma pick_run σ : p_run (pick σ).2 = p_run σ ∧ p_free (pick σ).2 = p_free σ ∧
  p_blocked (pick σ).2 = p_blocked σ ∧ p_kids (pick σ).2 = p_kids σ.
Proof. unfold pick. by destruct (p_ready σ). Qed.

(** The invariant once the processor runs the chosen task. *)
Lemma sched_inv_switch σ s m1 s' c :
  let n := (pick σ).1 in
  sched_core σ s → p_run σ ∈ queued σ → n ≠ p_run σ →
  qinv (pick σ).2 m1 → cells_only (k_mem s) m1 →
  frame (stack_bytes (p_run σ)) m1 (k_mem s') → switched_out (k_mem s') (p_run σ) c →
  k_idle_task s' = k_idle_task s → k_last_pid s' = k_last_pid s → cursor_ok (k_console s') →
  sched_inv (set_run n (pick σ).2) s'.
Proof.
  intros n Hc Hrq Hne Hq1 Hf1 Hf2 Hout Eid Epid Hcon.
  destruct (pick_valid σ s Hc) as [Hn Hnf]. fold n in Hn, Hnf.
  pose proof (pick_out σ s Hc) as Hno. fold n in Hno.
  destruct (pick_run σ) as (_ & Efr & Ebl & _).
  pose proof (sc_run _ _ Hc) as Hrun.
  assert (Hfield : ∀ i f, valid_task i → plain_field f → data_field f →
    load32 (k_mem s') (task_addr i + f) = load32 (k_mem s) (task_addr i + f)).
  { intros i f Hi Hp Hd. rewrite (stack_frame_field _ _ _ _ _ _ Hf2 (λ _ H, H) Hrun Hi Hd).
    by apply cells_plain. }
  split; [split|]; cbn [p_run p_ready p_free p_blocked p_kids set_run]; rewrite ?Efr, ?Ebl.
  - assert (Hq2 : qinv (pick σ).2 (k_mem s')).
    { eapply qinv_frame; [done..|]. intros a Ha Hs. by apply (cells_stack (p_run σ) a). }
    destruct Hq2 as [[] ? ?]. by split.
  - done.
  - intros i Hi. destruct (decide (i = n)) as [|Hin]; [tauto|].
    destruct (sc_cover _ _ Hc i Hi) as [?|[->|Hiq]]; [tauto|..]; right; right; by apply pick_queued.
  - rewrite Eid. apply Hc.
  - apply Hc.
  - intros i Hi Hin Hif. destruct (decide (i = p_run σ)) as [->|Hir]; [left; by exists c|].
    eapply suspended_frame; [|exact Hf2|intros a Ha Hb; by eapply (stack_apart i (p_run σ))].
    eapply cells_suspended; [done..|]. by apply Hc.
  - intros i Hi Hif. rewrite Hfield; [by apply Hc|done|..];
      unfold plain_field, data_field, f_dir_pages_baseAddr, f_anchor, f_kernel_esp, f_child_anchor,
        f_state, sizeof_task_struct, PAGE_SIZE; lia.
  - intros i Hi Hif. unfold pid_of, load_int. rewrite Epid, Hfield; [by apply Hc|done|..];
      unfold plain_field, data_field, f_PID, f_anchor, f_kernel_esp, PAGE_SIZE; lia.
  - intros i Hi Hif. unfold quantum_of. rewrite Hfield; [by apply Hc|done|..];
      unfold plain_field, data_field, f_quantum, f_anchor, f_kernel_esp, f_child_anchor,
        f_state, sizeof_task_struct, PAGE_SIZE; lia.
  - done.
  - done.
Qed.

(** The number of a task is shown in three characters. *)
Definition shows_pid (s : kstate) (i : Z) : bool := pid_of (k_mem s) i <? 100.

Lemma shows_pid_low σ s i : sched_core σ s → valid_task i → i ∉ p_free σ → k_last_pid s < 100 → shows_pid s i = true.
Proof. intros Hc Hi Hf Hl. pose proof (sc_pids _ _ Hc i Hi Hf). apply Z.ltb_lt. lia. Qed.

Lemma sched_next_cases σ s R :
  let n := (pick σ).1 in
  sched_core σ s → p_run σ ∈ queued σ → n ≠ p_run σ → cpu_ok (p_run σ) s →
  (∀ s', sched_inv (set_run n (pick σ).2) s' → switched s s' (p_run σ) n →
         k_quantum_ticks s' = k_quantum_ticks s → R tt s') →
  wp_or (BufferOverflow 3) (shows_pid s n) sched_next_rr s R.
Proof.
  intros n Hc Hrq Hne [Hroom Hregs] HR.
  destruct (pick_valid σ s Hc) as [Hn Hnf]. fold n in Hn, Hnf.
  pose proof (sc_run _ _ Hc) as Hrun. pose proof (sc_pids _ _ Hc n Hn Hnf) as Hp.
  unfold sched_next_rr. apply wp_or_bind, (wp_sched_pick σ); [apply Hc..|]. fold n. intros m1 Hq1 Hf1.
  apply wp_or_bind, wp_get_int_field; [done|unfold f_PID, PAGE_SIZE; lia..|].
  assert (load_int (k_mem (with_mem m1 s)) (task_addr n + f_PID) = pid_of (k_mem s) n) as ->.
  { unfold pid_of, load_int. kred. rewrite (cells_plain _ _ n f_PID Hf1); [done|done|].
    unfold plain_field, f_PID, f_anchor, PAGE_SIZE. lia. }
  assert (Hp31 : pid_of (k_mem s) n < 2 ^ 31) by apply s32_range.
  apply wp_or_intro; unfold shows_pid; [intros Hpid%Z.ltb_lt|intros Hpid%Z.ltb_ge; by apply print_pid_overruns].
  apply (wp_print_pid 2); [lia|lia|lia|apply Hc|]. intros k1 Hk1.
  apply wp_bind, wp_print; [done|set_solver|]. intros k2 Hk2. kred.
  pose proof (code_window addr_sched_next_ret ltac:(set_solver)) as Hret.
  assert (Hdir : load32 m1 (task_addr n + f_dir_pages_baseAddr) = dir_addr n).
  { rewrite (cells_plain _ _ _ _ Hf1); [by apply Hc|done|].
    unfold plain_field, f_dir_pages_baseAddr, f_kernel_esp, f_child_anchor, PAGE_SIZE. lia. }
  apply (wp_call_task_switch (p_run σ)); [exact Hroom|done|done| |exact Hregs|done|].
  { apply suspended_resumable. kred. eapply cells_suspended; [done..|]. by apply Hc. }
  kred. intros m2 Hf2 Hout. rewrite Hdir.
  assert (Hf3 : frame (stack_bytes (p_run σ)) m1 m2).
  { eapply frame_weaken; [|exact Hf2]. intros a. by apply switch_bytes_stack. }
  assert (Hst : ∀ a, a = task_addr n + f_kernel_esp ∨ (task_addr n + sizeof_task_struct ≤ a ∧
                 a + 4 ≤ task_addr n + PAGE_SIZE) → load32 m2 a = load32 m1 a).
  { intros a Ha. eapply stack_load; [exact Hf3| |exact Ha].
    intros b Hb Hb'. by apply (stack_apart n (p_run σ) b). }
  assert (Hres : resumable m1 n).
  { apply suspended_resumable. eapply cells_suspended; [done..|]. by apply Hc. }
  destruct Hres as [Hk1' Hk2'].
  apply HR.
  - by eapply (sched_inv_switch σ s m1).
  - split; kred; try done; unfold switch_regs; kred.
    + by rewrite Hst by auto.
    + rewrite (Hst (task_addr n + f_kernel_esp)) by auto. symmetry. apply Hst. right. lia.
    + eapply frame_trans; (eapply frame_weaken; [|eassumption]); cbn; auto.
    + eapply frame_trans; [eapply frame_weaken; [|exact Hf1]; auto|]. eapply frame_weaken; [|exact Hf2]. auto.
    + eexists. split; [reflexivity|apply load32_range].
  - done.
Qed.

Lemma shows_pid_cells s m i : valid_task i → cells_only (k_mem s) m → shows_pid (with_mem m s) i = shows_pid s i.
Proof.
  intros Hi Hf. unfold shows_pid, pid_of, load_int. kred. rewrite (cells_plain _ _ i f_PID Hf); [done|done|].
  unfold plain_field, f_PID, f_anchor, PAGE_SIZE. lia.
Qed.

(** Steps before the switch that change links and the console only. *)
Lemma switched_pre s s1 s' i n :
  switched s1 s' i n → k_regs s1 = k_regs s → cells_only (k_mem s) (k_mem s1) →
  k_phys_mem s1 = k_phys_mem s → k_last_pid s1 = k_last_pid s → k_zeos_ticks s1 = k_zeos_ticks s →
  k_hw s1 = k_hw s → switched s s' i n.
Proof.
  intros [] Er Hf Ep El Ez Eh. split; rewrite <- ?Er; try done; try congruence;
    (eapply frame_trans; [|done]); (eapply frame_weaken; [|exact Hf]); auto.
Qed.

(** A task that is switched to continues in task_switch, in ret_from_fork or
    in cpu_idle. *)
Lemma suspended_eip m i :
  suspended m i → load32 m (load32 m (task_addr i + f_kernel_esp) + 4) ∈
    [addr_cpu_idle; addr_ret_from_fork; addr_task_switch_ret].
Proof.
  intros [(c & _ & _ & _ & _ & -> & _)|[(_ & _ & _ & -> & _)|(-> & -> & H)]]; [set_solver..|].
  replace (stack_addr (task_addr 0) (KERNEL_STACK_SIZE - 2) + 4) with (stack_addr (task_addr 0) (KERNEL_STACK_SIZE - 1))
    by (unfold stack_addr; lia).
  rewrite H. set_solver.
Qed.

Lemma switched_eip σ s s' n :
  sched_core σ s → valid_task n → n ≠ p_run σ → n ∉ p_free σ → switched s s' (p_run σ) n →
  eip (k_regs s') ∈ [addr_cpu_idle; addr_ret_from_fork; addr_task_switch_ret].
Proof.
  intros Hc Hn Hne Hnf Hsw. rewrite (sw_eip _ _ _ _ Hsw). apply suspended_eip.
  eapply suspended_frame; [by apply (sc_susp _ _ Hc)|exact (sw_mem _ _ _ _ Hsw)|].
  intros a Ha [Hx|Hx]; [by apply (cells_stack n a)|]. eapply (stack_apart n (p_run σ) a); [done|exact (sc_run _ _ Hc)|done..].
Qed.

(** The idle task, the first time it gets the processor: it starts in cpu_idle
    with its stack empty, and the registers of the task that left but ebp. *)
Record idle_entered (s s' : kstate) : Prop := {
  ie_eip : eip (k_regs s') = addr_cpu_idle;
  ie_esp : esp (k_regs s') = task_addr 0 + PAGE_SIZE;
  ie_regs : ∃ b, k_regs s' = w_eip addr_cpu_idle (w_esp (task_addr 0 + PAGE_SIZE) (w_ebp b (k_regs s))) ∧ 0 ≤ b < 2 ^ 32;
  ie_ticks : k_zeos_ticks s' = k_zeos_ticks s;
  ie_pid : k_last_pid s' = k_last_pid s;
}.

Lemma switched_idle s s' i :
  switched s s' i 0 → valid_task i → i ≠ 0 → idle_start (k_mem s) 0 → idle_entered s s'.
Proof.
  intros Hsw Hi Hi0 H0.
  assert (idle_start (k_mem s') 0) as (_ & H1 & H2).
  { eapply idle_start_frame; [exact H0|exact (sw_mem _ _ _ _ Hsw)|]. intros a Ha [Hx|Hx]; [by apply (cells_stack 0 a)|].
    by eapply (stack_apart 0 i a); [..|exact Hx]. }
  assert (E1 : eip (k_regs s') = addr_cpu_idle).
  { rewrite (sw_eip _ _ _ _ Hsw), H1, <- H2. f_equal. unfold stack_addr. lia. }
  assert (E2 : esp (k_regs s') = task_addr 0 + PAGE_SIZE).
  { rewrite (sw_esp _ _ _ _ Hsw), H1. unfold stack_addr, KERNEL_STACK_SIZE, PAGE_SIZE. lia. }
  split; [done|done| |apply Hsw|apply Hsw]. rewrite <- E1, <- E2. apply Hsw.
Qed.

(** ** The clock tick *)

(** The specification of round robin: what is left of the quantum after a
    tick, and the rotation of the ready queue. *)
Definition tick_quantum (σ : ptable) (ticks quantum : Z) : Z :=
  match p_ready σ with [] => s32 quantum | _ => s32 (ticks - 1) end.

Definition rotate (σ : ptable) : ptable :=
  match p_ready σ with
  | [] => σ
  | n :: l => set_run n (set_ready (l ++ [p_run σ]) σ)
  end.

Lemma wp_needs_sched σ s R :
  sched_inv σ s → switch_room s (p_run σ) →
  (let q := match p_ready σ with
            | [] => s32 (quantum_of (k_mem s) (p_run σ)) | _ => k_quantum_ticks s end in
   R (q <? 0) (with_quantum_ticks q s)) →
  wp needs_sched_rr s R.
Proof.
  intros [Hc Hout] Hroom HR. pose proof (sc_run _ _ Hc) as Hrun. unfold needs_sched_rr.
  apply wp_bind, wp_on_mem. eapply (wp_list_empty kernel_cell); [apply Hc|apply lists_of_ready|].
  rewrite with_mem_same. apply wp_bind. destruct (p_ready σ) as [|n l].
  - rewrite bool_decide_eq_true_2 by done.
    apply wp_bind, (wp_current (p_run σ)); [by apply switch_room_on_stack|].
    apply wp_bind, wp_get_field; [done|unfold f_quantum, PAGE_SIZE; lia..|].
    apply wp_modify, wp_bind, wp_gets, wp_ret. exact HR.
  - rewrite bool_decide_eq_false_2 by done. apply wp_ret, wp_bind, wp_gets, wp_ret.
    cbn in HR. by replace (with_quantum_ticks (k_quantum_ticks s) s) with s in HR by (by destruct s).
Qed.

(** The tick switches to no task, or to one whose number fits. *)
Definition tick_fits (σ : ptable) (s : kstate) : bool :=
  (0 <=? tick_quantum σ (k_quantum_ticks s) (quantum_of (k_mem s) (p_run σ))) || shows_pid s (p_run (rotate σ)).

(** A tick: the quantum runs down, and if it is spent and somebody is ready,
    the running task goes to the end of the queue and the first one runs. *)
Lemma scheduler_cases σ s R :
  let q := tick_quantum σ (k_quantum_ticks s) (quantum_of (k_mem s) (p_run σ)) in
  sched_inv σ s → cpu_ok (p_run σ) s →
  (0 ≤ q → R tt (with_quantum_ticks q s)) →
  (q < 0 → ∀ s', sched_inv (rotate σ) s' → switched s s' (p_run σ) (p_run (rotate σ)) →
     p_run (rotate σ) ≠ p_run σ → k_quantum_ticks s' = q → R tt s') →
  wp_or (BufferOverflow 3) (tick_fits σ s) scheduler s R.
Proof.
  intros q [Hc Hout] Hcpu HR1 HR2. pose proof (sc_run _ _ Hc) as Hrun.
  destruct Hcpu as [Hroom Hregs]. pose proof (switch_room_on_stack _ _ Hroom) as Hon.
  unfold scheduler, update_sched_data_rr. apply wp_or_bind, wp_modify.
  set (s1 := with_quantum_ticks (s32 (k_quantum_ticks s - 1)) s).
  assert (Hc1 : sched_core σ s1) by (destruct Hc; by split).
  apply wp_or_bind, (wp_needs_sched σ); [by split|exact Hroom|]. cbv zeta.
  replace (match p_ready σ with [] => _ | _ => _ end) with q
    by (unfold q, tick_quantum, s1; kred; by destruct (p_ready σ)).
  destruct (Z.ltb_spec q 0) as [Hq|Hq].
  2:{ apply wp_or_true; [|by apply wp_ret, HR1]. unfold tick_fits. fold q. by destruct (Z.leb_spec 0 q); [|lia]. }
  destruct (p_ready σ) as [|n l] eqn:Hr.
  { exfalso. unfold q, tick_quantum in Hq. rewrite Hr in Hq.
    pose proof (sc_quantum _ _ Hc (p_run σ) Hrun) as Hqu.
    rewrite s32_small in Hq; [|].
    - apply Z.lt_nge in Hq. apply Hq, Hqu. intros Hf. apply Hout. by apply (queued_q _ Free).
    - enough (0 ≤ quantum_of (k_mem s) (p_run σ) < 2 ^ 31) by lia.
      apply Hqu. intros Hf. apply Hout. by apply (queued_q _ Free). }
  set (s2 := with_quantum_ticks q s1).
  assert (Hc2 : sched_core σ s2) by (destruct Hc; by split).
  apply wp_or_bind, (wp_current (p_run σ)); [exact Hon|].
  apply wp_or_bind, (wp_update_process_state σ σ (p_run σ) (Some Ready)); [apply Hc2|done|by constructor|].
  cbn [put]. intros m1 Hq1 Hf1.
  set (σ1 := set_q Ready (get_q Ready σ ++ [p_run σ]) σ) in *.
  assert (Hc3 : sched_core σ1 (with_mem m1 s2)).
  { eapply sched_core_cells; [done..| | |].
    - intros i Hi. left. apply queued_add. auto.
    - apply Hc.
    - done. }
  apply wp_or_bind, wp_print; [apply Hc3|by apply list_elem_of_further, literal_nul|]. intros k Hk.
  assert (Hn : n ∈ queued σ) by (apply (queued_q _ Ready); cbn; rewrite Hr; apply list_elem_of_here).
  assert (Epick : pick σ1 = (n, set_ready (l ++ [p_run σ]) σ)).
  { unfold pick, σ1. cbn. by rewrite Hr. }
  assert (Hvn : valid_task n) by (by apply (qi_valid _ _ (sc_q _ _ Hc))).
  replace (tick_fits σ s) with (shows_pid (with_console k (with_mem m1 s2)) (pick σ1).1); last first.
  { rewrite Epick. unfold tick_fits. fold q. destruct (Z.leb_spec 0 q); [lia|]. unfold rotate. rewrite Hr.
    exact (shows_pid_cells s2 m1 n Hvn Hf1). }
  apply (sched_next_cases σ1); rewrite ?Epick; cbn [fst snd].
  - by apply sched_core_console.
  - apply queued_add. auto.
  - cbn. intros ->. done.
  - by split.
  - intros s' Hinv Hsw Hqt. unfold rotate in HR2. rewrite Hr in HR2. apply HR2; try done.
    + eapply switched_pre; [exact Hsw|done..].
    + cbn. intros ->. done.
Qed.

Lemma tick_fits_low σ s : sched_inv σ s → k_last_pid s < 100 → tick_fits σ s = true.
Proof.
  intros [Hc Hno] Hl. unfold tick_fits. apply orb_true_iff. right. unfold rotate.
  destruct (p_ready σ) as [|n l] eqn:Hr; cbn [p_run set_run].
  - apply (shows_pid_low σ); [done|apply (sc_run _ _ Hc)| |done]. intros Hx. apply Hno. by apply (queued_q _ Free).
  - destruct (pick_valid σ s Hc) as [Hn Hnf]. unfold pick in Hn, Hnf. rewrite Hr in Hn, Hnf. by eapply shows_pid_low.
Qed.
End Policy.
