(* ===== verification/Space.v ===== *)
(** Ownership of physical memory: which frames each process has, and what its
    address space lets it reach. *)

From S2P Require Import Prelude Memory CList Libc Console Frames Types Kernel Task Paging Utils Switch.
From S2P Require Import Sched Policy.

(** ** Accesses from user mode

    At privilege level 3 both levels of the tables must also have the user
    bit, and for a write the rw bit. *)

Definition user_allows (e : Z) (write : bool) : bool :=
  hw_present e && hw_user e && (negb write || hw_writable e).

Definition translate_user (m : memory) (cr3 va : Z) (write : bool) : option Z :=
  let pde := load32 m (cr3 + 4 * Z.shiftr va 22) in
  if user_allows pde write then
    let e := load32 m (hw_base pde + 4 * Z.land (Z.shiftr va 12) 1023) in
    if user_allows e write then Some (hw_base e + Z.land va 4095)
    else None
  else None.

Section Space.
Context {L : Layout} {LO : LayoutOk L}.

Definition USER_PAGES : Z := NUM_PAG_DATA + NUM_PAG_CODE.

(** ** The invariant

    [code] are the frames of the program, which all processes share; [data]
    the frames each process has to itself. *)
Record mm_inv (σ : ptable) (code : list Z) (data : gmap Z (list Z)) (s : kstate) : Prop := {
  mi_space : ∀ i, valid_task i → space_ok (k_mem s) i;
  mi_rest : ∀ i p, valid_task i → PAG_LOG_INIT_DATA + USER_PAGES ≤ p < TOTAL_PAGES →
    load32 (k_mem s) (pte_addr (pt_addr i) p) = 0;
  mi_pm : pm_ok (k_phys_mem s);
  mi_dom : ∀ i, is_Some (data !! i) ↔ valid_task i ∧ i ≠ 0 ∧ i ∉ p_free σ;
  mi_code_len : length code = Z.to_nat NUM_PAG_CODE;
  mi_len : ∀ i fs, data !! i = Some fs → length fs = Z.to_nat NUM_PAG_DATA;
  mi_code : ∀ i fs, data !! i = Some fs → maps (k_mem s) i PAG_LOG_INIT_CODE PTE_CODE code;
  mi_data : ∀ i fs, data !! i = Some fs → maps (k_mem s) i PAG_LOG_INIT_DATA PTE_DATA fs;
  mi_used : ∀ f, allocatable f → pm_get (k_phys_mem s) f ≠ FREE_FRAME →
    f ∈ code ∨ ∃ i fs, data !! i = Some fs ∧ f ∈ fs;
  mi_code_alloc : ∀ f, f ∈ code → allocatable f ∧ pm_get (k_phys_mem s) f = USED_FRAME;
  mi_alloc : ∀ i fs f, data !! i = Some fs → f ∈ fs →
    allocatable f ∧ pm_get (k_phys_mem s) f = USED_FRAME ∧ NUM_PAG_KERNEL < f;
  mi_nodup : ∀ i fs, data !! i = Some fs → NoDup fs;
  mi_code_disj : ∀ i fs f, data !! i = Some fs → f ∈ fs → f ∉ code;
  mi_disj : ∀ i fs j gs f, data !! i = Some fs → data !! j = Some gs → f ∈ fs → f ∈ gs → i = j;
  mi_first : NUM_PAG_KERNEL ∈ code;
  mi_code_nodup : NoDup code;
  mi_dirs : ∀ i, valid_task i → dir_rest (k_mem s) i;
}.

(** The invariant depends on the page tables and the frame map only. *)
Lemma mm_inv_frame P σ σ' code data s s' :
  mm_inv σ code data s → frame P (k_mem s) (k_mem s') →
  (∀ a, P a → (¬ tables_bytes a) ∧ (¬ dirs_bytes a)) →
  k_phys_mem s' = k_phys_mem s → p_free σ' = p_free σ → mm_inv σ' code data s'.
Proof.
  intros [] Hf HP Ep Efr.
  assert (Hpte : ∀ i p, valid_task i → 0 ≤ p < TOTAL_PAGES →
    load32 (k_mem s') (pte_addr (pt_addr i) p) = load32 (k_mem s) (pte_addr (pt_addr i) p)).
  { intros i p Hi Hp. apply (frame_load32 _ _ _ _ Hf). intros b Hb Hb'.
    destruct (HP b Hb') as [Ht _]. apply Ht. eapply pt_bytes_tables; [done|].
    by eapply pte_in_table. }
  assert (Hmaps : ∀ i base fl fs, valid_task i → 0 ≤ base → base + Z.of_nat (length fs) ≤ TOTAL_PAGES →
    maps (k_mem s) i base fl fs → maps (k_mem s') i base fl fs).
  { intros i base fl fs Hi H0 H1 Hm k f Hk. pose proof (lookup_lt_Some _ _ _ Hk).
    rewrite Hpte by (done || lia). by apply Hm. }
  split; rewrite ?Ep, ?Efr; try done.
  - intros i Hi. eapply space_ok_frame; eauto.
  - intros i p Hi Hp. rewrite Hpte; [auto|done|]. change (PAG_LOG_INIT_DATA + USER_PAGES) with 284 in Hp. lia.
  - intros i fs Hfs. apply Hmaps; eauto.
    + apply mi_dom0. eauto.
    + done.
    + rewrite mi_code_len0. done.
  - intros i fs Hfs. apply Hmaps; eauto.
    + apply mi_dom0. eauto.
    + done.
    + rewrite (mi_len0 _ _ Hfs). done.
  - intros i Hi. eapply dir_rest_frame; [done|exact Hf| |auto]. intros a Ha Hd. by destruct (HP a Ha).
Qed.

(** ** User mode stays inside the process *)

Lemma user_allows_pte f c write :
  0 ≤ f < 2 ^ 20 → 0 ≤ c < 2 ^ 12 →
  user_allows (pte f c) write =
    Z.testbit c 0 && Z.testbit c 2 && (negb write || Z.testbit c 1).
Proof.
  intros Hf Hc. unfold user_allows. by destruct (hw_flags_pte f c Hc) as (-> & -> & ->).
Qed.

Lemma translate_user_entry m i p o f c write :
  valid_task i → dir_ok m i → 0 ≤ p < TOTAL_PAGES → 0 ≤ o < PAGE_SIZE →
  load32 m (pte_addr (pt_addr i) p) = pte f c → 0 ≤ f < 2 ^ 20 → 0 ≤ c < 2 ^ 12 →
  translate_user m (dir_addr i) (p * PAGE_SIZE + o) write =
    if Z.testbit c 0 && Z.testbit c 2 && (negb write || Z.testbit c 1)
    then Some (f * PAGE_SIZE + o) else None.
Proof.
  intros Hi Hdir Hp Ho He Hf Hc. destruct (split_page p o Hp Ho) as (E1 & E2 & E3).
  pose proof (pt_page_lt i Hi) as HPT. pose proof (pt_addr_aligned i) as Hal.
  unfold translate_user. rewrite E1, E2, E3. replace (dir_addr i + 4 * 0) with (dir_addr i) by lia.
  unfold dir_ok in Hdir. rewrite Hdir.
  assert (0 ≤ pt_addr i / PAGE_SIZE < 2 ^ 20) by (unfold PAGE_SIZE in *; Z.div_mod_to_equations; lia).
  rewrite user_allows_pte by (unfold PTE_DATA; lia).
  replace (Z.testbit PTE_DATA 0 && _ && _) with true by (by destruct write). cbn iota zeta.
  rewrite hw_base_pte by (unfold PTE_DATA; lia).
  replace (pt_addr i / PAGE_SIZE * 2 ^ 12 + 4 * p) with (pte_addr (pt_addr i) p)
    by (unfold pte_addr, PAGE_SIZE in *; Z.div_mod_to_equations; lia).
  rewrite He, user_allows_pte, hw_base_pte by lia. by destruct (_ && _ && _).
Qed.

(** A walk reads the directory entry and the table entry only. *)
Lemma walk_other P m m' i p o w :
  valid_task i → dir_ok m i → 0 ≤ p < TOTAL_PAGES → 0 ≤ o < PAGE_SIZE →
  frame P m m' → (∀ a, dirs_bytes a → ¬ P a) → (∀ a, in_range (pte_addr (pt_addr i) p) 4 a → ¬ P a) →
  translate m' (dir_addr i) (p * PAGE_SIZE + o) = translate m (dir_addr i) (p * PAGE_SIZE + o) ∧
  translate_user m' (dir_addr i) (p * PAGE_SIZE + o) w = translate_user m (dir_addr i) (p * PAGE_SIZE + o) w.
Proof.
  intros Hi Hdir Hp Ho Hf HPd HPe. destruct (split_page p o Hp Ho) as (E1 & E2 & E3).
  pose proof (pt_page_lt i Hi) as HPT. pose proof (pt_addr_aligned i) as Hal.
  pose proof (dir_word_frame m m' P i Hi Hf HPd Hdir) as Hdir'. unfold dir_ok in Hdir, Hdir'.
  unfold translate, translate_user. rewrite E1, E2, E3. replace (dir_addr i + 4 * 0) with (dir_addr i) by lia.
  rewrite Hdir, Hdir'.
  assert (0 ≤ pt_addr i / PAGE_SIZE < 2 ^ 20) by (unfold PAGE_SIZE in *; Z.div_mod_to_equations; lia).
  rewrite hw_base_pte by (unfold PTE_DATA; lia).
  replace (pt_addr i / PAGE_SIZE * 2 ^ 12 + 4 * p) with (pte_addr (pt_addr i) p)
    by (unfold pte_addr, PAGE_SIZE in *; Z.div_mod_to_equations; lia).
  by rewrite (frame_load32 _ _ _ _ Hf HPe).
Qed.

(** The entry of page [p] of task [i] is out of the way of every other walk. *)
Lemma walk_other_page m m' i p j q o w :
  valid_task i → 0 ≤ p < TOTAL_PAGES → frame (in_range (pte_addr (pt_addr i) p) 4) m m' →
  valid_task j → dir_ok m j → 0 ≤ q < TOTAL_PAGES → 0 ≤ o < PAGE_SIZE → (j, q) ≠ (i, p) →
  translate m' (dir_addr j) (q * PAGE_SIZE + o) = translate m (dir_addr j) (q * PAGE_SIZE + o) ∧
  translate_user m' (dir_addr j) (q * PAGE_SIZE + o) w = translate_user m (dir_addr j) (q * PAGE_SIZE + o) w.
Proof.
  intros Hi Hp Hf Hj Hd Hq Ho Hne. eapply walk_other; [done..|exact Hf| |].
  - intros a Ha Hx. apply (tables_dirs_apart a Ha), (pt_bytes_tables i); [done|eapply (pte_in_table i p); [done|exact Hx]].
  - intros a. unfold in_range, pte_addr, pt_addr, TOTAL_PAGES, PAGE_SIZE in *.
    destruct (decide (i = j)) as [->|]; [|lia]. assert (p ≠ q) by congruence. lia.
Qed.

(** What the tables look like to the processor when they have been set up. *)
Lemma init_tables_walk m :
  ∃ m0, (init_table_pages ;! init_dir_pages) m = Ret tt m0 ∧
    ∀ i p o w, valid_task i → 0 ≤ p < TOTAL_PAGES → 0 ≤ o < PAGE_SIZE →
    translate_user m0 (dir_addr i) (p * PAGE_SIZE + o) w = None ∧
    translate m0 (dir_addr i) (p * PAGE_SIZE + o) =
      if decide (1 ≤ p < NUM_PAG_KERNEL) then Some (p * PAGE_SIZE + o) else None.
Proof.
  destruct (wp_elim (init_table_pages ;! init_dir_pages) m (λ _ m0,
    (∀ i, valid_task i → dir_ok m0 i) ∧ ∀ i, valid_task i → kernel_table m0 i)) as ([] & m0 & E & Hd & Ht).
  { apply wp_bind. eapply wp_mono; [apply wp_init_table_pages|]. intros [] m1 [H1 _].
    eapply wp_mono; [apply wp_init_dir_pages|]. intros [] m2 [H2 F2]. split; [done|]. intros i Hi p Hp.
    rewrite (frame_load32 _ _ _ _ F2); [by apply H1|]. intros b Hb Hx%dir_heads_dirs.
    apply (tables_dirs_apart b Hx), (pt_bytes_tables i); [done|by eapply pte_in_table]. }
  exists m0. split; [done|]. intros i p o w Hi Hp Ho. specialize (Hd i Hi). specialize (Ht i Hi p Hp). unfold kernel_entry in Ht.
  case_decide as Hk.
  - assert (0 ≤ p < 2 ^ 20) by (unfold TOTAL_PAGES in Hp; lia).
    rewrite (translate_user_entry m0 i p o p PTE_KERNEL), (translate_entry m0 i p o p PTE_KERNEL) by done. done.
  - rewrite (translate_user_entry m0 i p o 0 0), (translate_entry m0 i p o 0 0) by done. done.
Qed.

(** C36. The page tables as the processor reads them, from the bits of the
    words.  init_table_pages and init_dir_pages give every task the kernel's
    pages 1 to 255, each on the frame of its own number, and nothing at
    privilege level 3.  Then set_ss_pag maps any page of a task on any frame,
    for reading and writing at both levels, and get_frame reads that frame
    back; del_ss_pag takes the page away again; and neither changes the
    translation of any other page of that or of another task. *)
Theorem page_tables_walk m i p f :
  valid_task i → 0 ≤ p < TOTAL_PAGES → 0 ≤ f < 2 ^ 20 →
  let va q o := q * PAGE_SIZE + o in
  let others m m' := ∀ j q o w, valid_task j → 0 ≤ q < TOTAL_PAGES → 0 ≤ o < PAGE_SIZE → (j, q) ≠ (i, p) →
    translate m' (dir_addr j) (va q o) = translate m (dir_addr j) (va q o) ∧
    translate_user m' (dir_addr j) (va q o) w = translate_user m (dir_addr j) (va q o) w in
  (∃ m0, (init_table_pages ;! init_dir_pages) m = Ret tt m0 ∧
     ∀ j q o w, valid_task j → 0 ≤ q < TOTAL_PAGES → 0 ≤ o < PAGE_SIZE →
     translate_user m0 (dir_addr j) (va q o) w = None ∧
     translate m0 (dir_addr j) (va q o) = if decide (1 ≤ q < NUM_PAG_KERNEL) then Some (va q o) else None) ∧
  ((∀ j, valid_task j → dir_ok m j) →
     ∃ m1 m2, set_ss_pag (pt_addr i) p f m = Ret tt m1 ∧ get_frame (pt_addr i) p m1 = Ret f m1 ∧
       del_ss_pag (pt_addr i) p m1 = Ret tt m2 ∧ others m m1 ∧ others m m2 ∧
       ∀ o w, 0 ≤ o < PAGE_SIZE →
       translate m1 (dir_addr i) (va p o) = Some (f * PAGE_SIZE + o) ∧
       translate_user m1 (dir_addr i) (va p o) w = Some (f * PAGE_SIZE + o) ∧
       translate m2 (dir_addr i) (va p o) = None ∧ translate_user m2 (dir_addr i) (va p o) w = None).
Proof.
  intros Hi Hp Hf va others. split; [apply init_tables_walk|]. intros Hd. destruct (pte_window i p Hi Hp) as [Hlo Hhi].
  destruct (wp_elim (set_ss_pag (pt_addr i) p f) m (λ _ m1, load32 m1 (pte_addr (pt_addr i) p) = pte f PTE_DATA ∧
    frame (in_range (pte_addr (pt_addr i) p) 4) m m1)) as ([] & m1 & E1 & L1 & F1); [by apply wp_set_ss_pag|].
  destruct (wp_elim (get_frame (pt_addr i) p) m1 (λ v m', v = f ∧ m' = m1)) as (v & m' & Eg & -> & ->).
  { apply wp_get_entry_bits; [done..|]. rewrite L1, get_pbase by (done || unfold PTE_DATA; lia). done. }
  destruct (wp_elim (del_ss_pag (pt_addr i) p) m1 (λ _ m2, load32 m2 (pte_addr (pt_addr i) p) = 0 ∧
    frame (in_range (pte_addr (pt_addr i) p) 4) m1 m2)) as ([] & m2 & E2 & L2 & F2); [by apply wp_set_entry; [done|done|lia|]|].
  assert (F12 : frame (in_range (pte_addr (pt_addr i) p) 4) m m2) by (by eapply frame_trans).
  assert (Ho : ∀ m', frame (in_range (pte_addr (pt_addr i) p) 4) m m' → others m m' ∧ dir_ok m' i).
  { intros m' F. split; [intros j q o w ????; eapply (walk_other_page m m' i p); auto|].
    eapply dir_word_frame; [done|exact F| |by apply Hd].
    intros a Ha Hx. apply (tables_dirs_apart a Ha), (pt_bytes_tables i); [done|by eapply pte_in_table]. }
  destruct (Ho m1 F1) as [O1 D1]. destruct (Ho m2 F12) as [O2 D2]. exists m1, m2. split_and!; [done..|].
  intros o w Hoff. unfold va.
  rewrite (translate_entry m1 i p o f PTE_DATA), (translate_user_entry m1 i p o f PTE_DATA),
    (translate_entry m2 i p o 0 0), (translate_user_entry m2 i p o 0 0) by done. by destruct w.
Qed.

(** The entry of any page of a live process. *)
Lemma mm_entry σ code data s i fs p :
  mm_inv σ code data s → data !! i = Some fs → 0 ≤ p < TOTAL_PAGES →
  ∃ f c, load32 (k_mem s) (pte_addr (pt_addr i) p) = pte f c ∧ 0 ≤ f < 2 ^ 20 ∧ 0 ≤ c < 2 ^ 12 ∧
    ((c = 0) ∨ (c = PTE_KERNEL ∧ p = f ∧ f < NUM_PAG_KERNEL) ∨
     (c = PTE_CODE ∧ f ∈ code) ∨ (c = PTE_DATA ∧ f ∈ fs)).
Proof.
  intros Hmm Hfs Hp. assert (Hi : valid_task i) by (apply (mi_dom _ _ _ _ Hmm); eauto).
  change TOTAL_PAGES with 1024 in Hp. destruct (decide (p < 256)) as [H1|H1].
  { destruct (mi_space _ _ _ _ Hmm i Hi) as [_ Hk]. rewrite Hk by (unfold NUM_PAG_KERNEL; lia).
    unfold kernel_entry. case_decide as Hd.
    - exists p, PTE_KERNEL. unfold PTE_KERNEL, NUM_PAG_KERNEL in *. split_and!; [done|lia..|tauto].
    - exists 0, 0. split_and!; [done|lia..|by left]. }
  destruct (decide (p < 276)) as [H2|H2].
  { destruct (lookup_lt_is_Some_2 fs (Z.to_nat (p - 256))) as [f Hf].
    { rewrite (mi_len _ _ _ _ Hmm _ _ Hfs). unfold NUM_PAG_DATA. lia. }
    pose proof (mi_data _ _ _ _ Hmm _ _ Hfs _ _ Hf) as E.
    replace (PAG_LOG_INIT_DATA + Z.of_nat (Z.to_nat (p - 256))) with p in E
      by (change PAG_LOG_INIT_DATA with 256; lia).
    apply list_elem_of_lookup_2 in Hf. destruct (mi_alloc _ _ _ _ Hmm _ _ _ Hfs Hf) as (Ha & _).
    apply allocatable_range in Ha. exists f, PTE_DATA. unfold PTE_DATA in *. split_and!; try done; tauto || lia. }
  destruct (decide (p < 284)) as [H3|H3].
  { destruct (lookup_lt_is_Some_2 code (Z.to_nat (p - 276))) as [f Hf].
    { rewrite (mi_code_len _ _ _ _ Hmm). unfold NUM_PAG_CODE. lia. }
    pose proof (mi_code _ _ _ _ Hmm _ _ Hfs _ _ Hf) as E.
    replace (PAG_LOG_INIT_CODE + Z.of_nat (Z.to_nat (p - 276))) with p in E
      by (change PAG_LOG_INIT_CODE with 276; lia).
    apply list_elem_of_lookup_2 in Hf. destruct (mi_code_alloc _ _ _ _ Hmm _ Hf) as (Ha & _).
    apply allocatable_range in Ha. exists f, PTE_CODE. unfold PTE_CODE in *. split_and!; try done; tauto || lia. }
  rewrite (mi_rest _ _ _ _ Hmm i p) by
    (done || (change (PAG_LOG_INIT_DATA + USER_PAGES) with 284; unfold TOTAL_PAGES; lia)).
  exists 0, 0. split_and!; (done || lia || by left).
Qed.

(** Above 4 MB nothing is mapped. *)
Lemma translate_user_low m i va w pa :
  dir_rest m i → 0 ≤ va < 2 ^ 32 → translate_user m (dir_addr i) va w = Some pa → va < TOTAL_PAGES * PAGE_SIZE.
Proof.
  intros Hd Hva Ht. destruct (decide (va < TOTAL_PAGES * PAGE_SIZE)) as [|Hge]; [done|]. exfalso.
  unfold translate_user in Ht. rewrite Z.shiftr_div_pow2 in Ht by lia.
  unfold TOTAL_PAGES, PAGE_SIZE in *. rewrite Hd in Ht by (Z.div_mod_to_equations; lia). done.
Qed.

(** What a process can reach in user mode. *)
Lemma user_reach σ code data s k ks v wr q :
  mm_inv σ code data s → data !! k = Some ks → 0 ≤ v < 2 ^ 32 →
  translate_user (k_mem s) (dir_addr k) v wr = Some q →
  KERNEL_HI ≤ q ∧ (q / PAGE_SIZE ∈ ks ∨ (wr = false ∧ q / PAGE_SIZE ∈ code)).
Proof.
  intros Hmm Hk Hv Hq. assert (Hvk : valid_task k) by (apply (mi_dom _ _ _ _ Hmm); eauto).
  pose proof (translate_user_low _ _ _ _ _ (mi_dirs _ _ _ _ Hmm k Hvk) Hv Hq) as Hlow.
  unfold TOTAL_PAGES, PAGE_SIZE in *.
  destruct (mm_entry σ code data s k ks (v / 4096) Hmm Hk) as (f & c & E & Hf & Hc & Hcase).
  { unfold TOTAL_PAGES. Z.div_mod_to_equations; lia. }
  replace v with (v / 4096 * PAGE_SIZE + v mod 4096) in Hq
    by (unfold PAGE_SIZE; Z.div_mod_to_equations; lia).
  rewrite (translate_user_entry _ k _ _ f c) in Hq; try done.
  2:{ by apply (mi_space _ _ _ _ Hmm). }
  2:{ unfold TOTAL_PAGES. Z.div_mod_to_equations; lia. }
  2:{ unfold PAGE_SIZE. Z.div_mod_to_equations; lia. }
  assert (Hdiv : (f * PAGE_SIZE + v mod 4096) / 4096 = f) by (unfold PAGE_SIZE; Z.div_mod_to_equations; lia).
  assert (Hhi : allocatable f → KERNEL_HI ≤ f * PAGE_SIZE + v mod 4096).
  { intros [Ha _]. unfold NUM_PAG_KERNEL, KERNEL_HI, PAGE_SIZE in *. Z.div_mod_to_equations; lia. }
  destruct Hcase as [->|[(-> & _)|[(-> & Hin)|(-> & Hin)]]]; try done.
  - destruct wr; [done|]. cbn in Hq. injection Hq as <-. rewrite Hdiv. split; [|by right].
    by apply Hhi, (mi_code_alloc _ _ _ _ Hmm).
  - cbn in Hq. assert (q = f * PAGE_SIZE + v mod 4096) as -> by (destruct wr; by injection Hq).
    rewrite Hdiv. split; [|by left]. by apply Hhi, (mi_alloc _ _ _ _ Hmm k ks).
Qed.

(** In user mode a process reaches, with its own page directory, only the
    frames of the program, for reading, and its own data frames. *)
Lemma spaces_apart σ code data s i fs j gs va vb w pa pb :
  mm_inv σ code data s → data !! i = Some fs → data !! j = Some gs → i ≠ j →
  0 ≤ va < 2 ^ 32 → 0 ≤ vb < 2 ^ 32 →
  translate_user (k_mem s) (dir_addr i) va true = Some pa →
  translate_user (k_mem s) (dir_addr j) vb w = Some pb →
  pa / PAGE_SIZE ∈ fs ∧ KERNEL_HI ≤ pa ∧ KERNEL_HI ≤ pb ∧
  (pb / PAGE_SIZE ∈ code ∨ pb / PAGE_SIZE ∈ gs) ∧ pa ≠ pb.
Proof.
  intros Hmm Hfs Hgs Hij Hva Hvb Ha Hb.
  destruct (user_reach _ _ _ _ _ _ _ _ _ Hmm Hfs Hva Ha) as [Hpa1 [Hpa|[? _]]]; [|done].
  destruct (user_reach _ _ _ _ _ _ _ _ _ Hmm Hgs Hvb Hb) as [Hpb1 Hpb].
  split_and!; [done..|tauto|]. intros ->. destruct Hpb as [Hpb|[_ Hpb]].
  - apply Hij. exact (mi_disj _ _ _ _ Hmm i fs j gs _ Hfs Hgs Hpa Hpb).
  - exact (mi_code_disj _ _ _ _ Hmm i fs _ Hfs Hpa Hpb).
Qed.
End Space.
