(* ===== verification/Process.v ===== *)
(** The invariant of the whole kernel: queues, families, process identifiers
    and address spaces. *)

From S2P Require Import Prelude Memory CList Libc Console Frames Types Kernel Task Paging Utils Switch.
From S2P Require Import Sched Policy Space.

Section Process.
Context {L : Layout} {LO : LayoutOk L}.

(** The page of a task holds no page table and no directory. *)
Lemma page_tables_apart i a :
  valid_task i → in_range (task_addr i) PAGE_SIZE a → (¬ tables_bytes a) ∧ (¬ dirs_bytes a).
Proof.
  intros Hi Ha. apply (task_word_apart i (Z.min (a - task_addr i) 4092)); [done|..];
    unfold in_range, PAGE_SIZE in *; lia.
Qed.

(** Writing the union of a task keeps the words of the others. *)
Lemma page_frame_other m m' i j f :
  frame (in_range (task_addr i) PAGE_SIZE) m m' → valid_task i → valid_task j → i ≠ j →
  0 ≤ f → f + 4 ≤ PAGE_SIZE → load32 m' (task_addr j + f) = load32 m (task_addr j + f).
Proof.
  intros Hf Hi Hj Hne H0 H1. apply (frame_load32 _ _ _ _ Hf). intros b.
  pose proof (task_addr_apart i j Hi Hj Hne). unfold in_range, apart, PAGE_SIZE in *. lia.
Qed.

Definition parent_of (m : memory) (i : Z) : Z := load32 m (task_addr i + f_parent).

(** Families: a task has a list of children exactly while it is in use; the
    children name their parent; a task in use is either a root, with no
    parent, or on its parent's list. *)
Record fam_inv (σ : ptable) (m : memory) : Prop := {
  fi_dom : ∀ i, is_Some (p_kids σ !! i) ↔ valid_task i ∧ i ∉ p_free σ;
  fi_kid : ∀ j ks c, p_kids σ !! j = Some ks → c ∈ ks →
    c ≠ 0 ∧ c ∉ p_free σ ∧ parent_of m c = task_addr j;
  fi_root : ∀ c, valid_task c → c ∉ p_free σ →
    parent_of m c = NULL ∨ ∃ j ks, p_kids σ !! j = Some ks ∧ c ∈ ks;
}.

(** Process identifiers: 0 for the idle task, positive and pairwise different
    for the others. *)
Record pid_inv (σ : ptable) (m : memory) : Prop := {
  pi_pos : ∀ i, valid_task i → i ∉ p_free σ → i ≠ 0 → 1 ≤ pid_of m i;
  pi_uniq : ∀ i j, valid_task i → valid_task j → i ∉ p_free σ → j ∉ p_free σ →
    pid_of m i = pid_of m j → i = j;
  pi_idle : pid_of m 0 = 0;
}.

Record kernel_inv (σ : ptable) (code : list Z) (data : gmap Z (list Z)) (s : kstate) : Prop := {
  ki_sched : sched_inv σ s;
  ki_fam : fam_inv σ (k_mem s);
  ki_pid : pid_inv σ (k_mem s);
  ki_mm : mm_inv σ code data s;
}.

(** Parents and identifiers are words of the task structures. *)
Lemma fam_inv_same σ σ' m m' :
  fam_inv σ m → p_kids σ' = p_kids σ → p_free σ' = p_free σ →
  (∀ i, valid_task i → parent_of m' i = parent_of m i) →
  ptable_valid σ → fam_inv σ' m'.
Proof.
  intros [Hd Hk Hr] Ek Ef Hp Hv. split; rewrite ?Ek, ?Ef; [done| |].
  - intros j ks c Hj Hc. destruct (pv_kids _ Hv j ks Hj) as [_ Hvc]. rewrite Hp by auto. eauto.
  - intros c Hc Hf. rewrite Hp by done. auto.
Qed.

Lemma pid_inv_same σ σ' m m' :
  pid_inv σ m → p_free σ' = p_free σ →
  (∀ i, valid_task i → pid_of m' i = pid_of m i) → pid_inv σ' m'.
Proof.
  intros [Hp Hu H0] Ef He. split; rewrite ?Ef.
  - intros i Hi Hf Hi0. rewrite He by done. auto.
  - intros i j Hi Hj Hif Hjf. rewrite !He by done. auto.
  - by rewrite He.
Qed.

(** The words read by both are kept by anything that writes links and kernel
    stacks only. *)
Definition links_and_stacks (a : Z) : Prop :=
  cell_bytes kernel_cell a ∨ ∃ i, valid_task i ∧ stack_bytes i a.

Lemma plain_data_field m m' i f :
  frame links_and_stacks m m' → valid_task i → plain_field f → data_field f →
  load32 m' (task_addr i + f) = load32 m (task_addr i + f).
Proof.
  intros Hf Hi Hp Hd. apply (frame_load32 _ _ _ _ Hf). intros b Hb [Hc|(j & Hj & Hs)].
  - by eapply cell_not_plain.
  - by eapply (stack_field j i f b).
Qed.

Lemma links_stacks_tables a : links_and_stacks a → (¬ tables_bytes a) ∧ (¬ dirs_bytes a).
Proof.
  assert (Ht : ∀ i, valid_task i → in_range (task_addr i) PAGE_SIZE a →
                    (¬ tables_bytes a) ∧ (¬ dirs_bytes a)).
  { intros i Hi Ha. apply (task_word_apart i (Z.min (a - task_addr i) 4092)); [done|..];
      unfold in_range, PAGE_SIZE in *; lia. }
  intros [(c & [Hq|(i & Hi & Hc)] & Ha)|(i & Hi & Ha)].
  - pose proof (heads_window c Hq). pose proof pt_window. pose proof dir_window.
    unfold in_range, tables_bytes, dirs_bytes, in_range, NR_TASKS, PAGE_SIZE in *. lia.
  - apply (Ht i Hi). unfold in_range, anchor_of, child_anchor_of, childs_of, f_anchor,
      f_child_anchor, f_childs, PAGE_SIZE in *. lia.
  - apply (Ht i Hi). unfold stack_bytes, in_range, f_kernel_esp, sizeof_task_struct, PAGE_SIZE in *. lia.
Qed.

(** Steps that write links and stacks only, and leave families, the free
    queue and the frame map alone: only the scheduler's part of the invariant
    is left to prove. *)
Lemma kernel_parts_step σ σ' code data s s' :
  ptable_valid σ → fam_inv σ (k_mem s) → pid_inv σ (k_mem s) → mm_inv σ code data s → sched_inv σ' s' →
  frame links_and_stacks (k_mem s) (k_mem s') →
  k_phys_mem s' = k_phys_mem s → p_free σ' = p_free σ → p_kids σ' = p_kids σ →
  kernel_inv σ' code data s'.
Proof.
  intros Hv Hfam Hpid Hmm Hs' Hf Ep Efr Ek. split; [done|..].
  - eapply fam_inv_same; [done..| |done]. intros i Hi. unfold parent_of.
    apply plain_data_field; [done..| |];
      unfold plain_field, data_field, f_parent, f_anchor, f_kernel_esp, f_child_anchor, f_state,
        sizeof_task_struct, PAGE_SIZE; lia.
  - eapply pid_inv_same; [done..|]. intros i Hi. unfold pid_of, load_int. f_equal.
    apply plain_data_field; [done..| |];
      unfold plain_field, data_field, f_PID, f_anchor, f_kernel_esp, PAGE_SIZE; lia.
  - eapply mm_inv_frame; [done..| |done|done]. intros a. apply links_stacks_tables.
Qed.

Lemma kernel_inv_step σ σ' code data s s' :
  kernel_inv σ code data s → sched_inv σ' s' →
  frame links_and_stacks (k_mem s) (k_mem s') →
  k_phys_mem s' = k_phys_mem s → p_free σ' = p_free σ → p_kids σ' = p_kids σ →
  kernel_inv σ' code data s'.
Proof. intros [Hs Hfam Hpid Hmm]. apply kernel_parts_step; try done. apply Hs. Qed.

(** Writes that spare everything the invariant is about. *)
Definition spares (σ : ptable) (P : Z → Prop) : Prop :=
  (∀ a, P a → (¬ cell_bytes kernel_cell a) ∧ (¬ tables_bytes a) ∧ (¬ dirs_bytes a)) ∧
  (∀ i a, valid_task i → i ≠ p_run σ → i ∉ p_free σ → stack_bytes i a → ¬ P a) ∧
  (∀ i f a, valid_task i → f ∈ [f_PID; f_quantum; f_dir_pages_baseAddr; f_parent] →
     in_range (task_addr i + f) 4 a → ¬ P a).

Lemma kernel_inv_spares P σ code data s s' :
  kernel_inv σ code data s → frame P (k_mem s) (k_mem s') → spares σ P →
  k_phys_mem s' = k_phys_mem s → k_idle_task s' = k_idle_task s → k_last_pid s' = k_last_pid s →
  cursor_ok (k_console s') → kernel_inv σ code data s'.
Proof.
  intros [[Hco Hout] Hfam Hpid Hmm] Hf (H1 & H2 & H3) Ep Eid El Hcon.
  set (s1 := with_console (k_console s) s').
  assert (Hs1 : sched_core σ s1).
  { eapply (sched_core_mem P σ); [exact Hco| |exact Hf|exact H2|..]; try done; [| |by left|apply Hco].
    - eapply qinv_frame; [apply Hco|exact Hf|]. intros a Ha Hx. by destruct (H1 a Hx).
    - intros i f a Hi Hin. apply H3; [done|]. set_solver. }
  split.
  - split; [|done]. replace s' with (with_console (k_console s') s1) by (by destruct s'). by apply sched_core_console.
  - eapply fam_inv_same; [done..| |apply Hco]. intros i Hi. apply (frame_load32 _ _ _ _ Hf). intros b.
    apply H3; [done|set_solver].
  - eapply pid_inv_same; [done..|]. intros i Hi. unfold pid_of, load_int. f_equal.
    apply (frame_load32 _ _ _ _ Hf). intros b. apply H3; [done|set_solver].
  - eapply mm_inv_frame; [done|exact Hf| |done|done]. intros a Ha. destruct (H1 a Ha) as (_ & ? & ?). done.
Qed.

(** Stacks of the running task and of free tasks, and memory above the
    kernel. *)
Lemma spares_stack σ P i :
  valid_task i → i = p_run σ ∨ i ∈ p_free σ → (∀ a, P a → stack_bytes i a) → spares σ P.
Proof.
  intros Hi Hif HP. split_and!.
  - intros a Ha%HP. split; [by apply (cells_stack i)|]. apply links_stacks_tables. right. eauto.
  - intros j a Hj Hjr Hjf Hs Ha%HP. apply (stack_apart j i a); try done. naive_solver.
  - intros j f a Hj Hin Hr Ha%HP. apply (stack_field i j f a); [done|done| |done|done].
    set_unfold in Hin. destruct_or! Hin; subst; unfold data_field; solve_field.
Qed.

Lemma spares_or σ P Q : spares σ P → spares σ Q → spares σ (λ a, P a ∨ Q a).
Proof.
  intros (P1 & P2 & P3) (Q1 & Q2 & Q3). split_and!.
  - intros a [Ha|Ha]; auto.
  - intros i a Hi Hr Hf Hs [Ha|Ha]; [by eapply P2|by eapply Q2].
  - intros i f a Hi Hin Hr [Ha|Ha]; [by eapply P3|by eapply Q3].
Qed.

Lemma spares_high σ P : (∀ a, P a → KERNEL_HI ≤ a) → spares σ P.
Proof.
  intros HP.
  assert (Hpage : ∀ i a, valid_task i → in_range (task_addr i) PAGE_SIZE a → ¬ P a).
  { intros i a Hi Ha Hx%HP. pose proof (task_addr_window i Hi). unfold in_range in Ha. lia. }
  split_and!.
  - intros a Ha%HP. pose proof pt_window. pose proof dir_window. split_and!.
    + intros (d & Hd & Hx). pose proof (cell_range _ Hd). unfold in_range in Hx. lia.
    + unfold tables_bytes, in_range. lia.
    + unfold dirs_bytes, in_range. lia.
  - intros i a Hi _ _ Hs. apply (Hpage i); [done|].
    unfold stack_bytes, in_range, f_kernel_esp, sizeof_task_struct, PAGE_SIZE in *. lia.
  - intros i f a Hi Hin Hr. apply (Hpage i); [done|]. set_unfold in Hin.
    destruct_or! Hin; subst; unfold in_range in *; solve_field.
Qed.

Lemma idle_start_spares P σ m m' :
  idle_start m 0 → frame P m m' → spares σ P → 0 ≠ p_run σ → 0 ∉ p_free σ → idle_start m' 0.
Proof. intros Hi Hf (_ & HP & _) Hr H0. eapply idle_start_frame; [done..|]. intros a. by apply HP. Qed.

Lemma cells_links m m' : cells_only m m' → frame links_and_stacks m m'.
Proof. apply frame_weaken. by left. Qed.

Lemma switched_links s s' i n : switched s s' i n → valid_task i → frame links_and_stacks (k_mem s) (k_mem s').
Proof.
  intros Hsw Hi. eapply frame_weaken; [|apply Hsw]. intros a [Ha|Ha]; [by left|]. right. eauto.
Qed.
End Process.
