(* ===== verification/Init.v ===== *)
(** Boot: init_mm, init_sched, init_idle and init_task1 establish the kernel's
    invariant. *)

From S2P Require Import Prelude Memory CList Libc Console Frames Types Kernel Task Paging Utils Switch.
From S2P Require Import Sched Policy Space Process.

(** The four initializations, in the order main calls them. *)
Definition init_kernel {L : Layout} : K unit :=
  init_mm ;!
  init_sched ;!
  init_idle ;!
  init_task1.

Section Init.
Context {L : Layout} {LO : LayoutOk L}.

(** The links and the parents in the task structures as the image has them:
    all zero. *)
Definition zero_tasks (m : memory) : Prop :=
  ∀ i, valid_task i → load32 m (anchor_of i) = NULL ∧ load32 m (anchor_of i + 4) = NULL ∧
    parent_of m i = NULL.

(** What the image has in .data.task: zeroes, so also in the directories. *)
Definition zero_image (m : memory) : Prop :=
  zero_tasks m ∧ ∀ i, valid_task i → dir_rest m i.

(** The process table after boot: task 1 runs, all others but the idle task
    are free. *)
Definition boot_table (kids : gmap Z (list Z)) : ptable := PTable 1 [] (seqZ 2 8) [] kids.

Lemma lists_empty cell m : lists_ok cell m ∅.
Proof. split; intros *; by rewrite ?lookup_empty. Qed.

Lemma in_lists_empty c : ¬ in_lists ∅ c.
Proof. intros (h & xs & Hq & _). by rewrite lookup_empty in Hq. Qed.

Lemma in_lists_insert_nil h (Q : lists) c : in_lists (<[h := []]> Q) c → c = h ∨ in_lists Q c.
Proof.
  intros (h' & xs & Hq & Hc). apply lookup_insert_Some in Hq as [[<- <-]|[_ Hq]].
  - left. by apply list_elem_of_singleton.
  - right. by exists h', xs.
Qed.

Lemma cells_only_head q m m' :
  queue_head q → frame (cell_bytes (λ c, c = q)) m m' → cells_only m m'.
Proof. intros Hq Hf. eapply cells_only_sub; [exact Hf|]. intros c ->. by apply queue_cell. Qed.

(** Tasks off the lists written keep their links. *)
Lemma zero_links_heads m m' i :
  zero_tasks m → valid_task i → frame (cell_bytes queue_head) m m' →
  load32 m' (anchor_of i) = NULL ∧ load32 m' (anchor_of i + 4) = NULL.
Proof.
  intros Hz Hi Hf.
  destruct (frame_cell kernel_cell queue_head m m' (anchor_of i) Hf) as [-> ->].
  - intros d Hd. by apply queue_cell.
  - by apply anchor_cell.
  - intros Hq. by destruct (queue_head_not_task _ i Hq Hi) as (? & _).
  - destruct (Hz i Hi) as (? & ? & _). done.
Qed.

Lemma wp_init_heads m R :
  zero_tasks m →
  (∀ m', qinv (PTable 1 [] [] [] ∅) m' → cells_only m m' → R tt m') →
  wp (INIT_LIST_HEAD readyq ;! INIT_LIST_HEAD freeq ;! INIT_LIST_HEAD blocked) m R.
Proof.
  intros Hz HR. destruct heads_distinct as (Hrf & Hrb & Hfb).
  assert (Hq : queue_head readyq ∧ queue_head freeq ∧ queue_head blocked)
    by (unfold queue_head; tauto). destruct Hq as (Hq1 & Hq2 & Hq3).
  apply wp_bind, (wp_INIT_LIST_HEAD kernel_cell m ∅);
    [apply lists_empty|by apply queue_cell|apply in_lists_empty|]. intros m1 Hok1 Hf1.
  apply wp_bind, (wp_INIT_LIST_HEAD kernel_cell m1 _ freeq _ Hok1); [by apply queue_cell| |].
  { intros [?|H]%in_lists_insert_nil; [done|by apply in_lists_empty in H]. }
  intros m2 Hok2 Hf2.
  apply (wp_INIT_LIST_HEAD kernel_cell m2 _ blocked _ Hok2); [by apply queue_cell| |].
  { intros [?|[?|H]%in_lists_insert_nil]%in_lists_insert_nil; [done..|by apply in_lists_empty in H]. }
  intros m3 Hok3 Hf3.
  assert (Hf : frame (cell_bytes queue_head) m m3).
  { eapply frame_trans; [|eapply frame_trans]; (eapply cell_bytes_mono; [|eassumption]);
      intros c ->; unfold queue_head; tauto. }
  apply HR.
  - split.
    + split; [by intros i ?%not_elem_of_nil|]. intros i ks. cbn [p_kids]. by rewrite lookup_empty.
    + unfold lists_of. cbn [p_ready p_free p_blocked p_kids fmap list_fmap].
      unfold kid_lists. rewrite fmap_empty, kmap_empty.
      rewrite (insert_insert_ne _ blocked freeq), (insert_insert_ne _ blocked readyq),
        (insert_insert_ne _ freeq readyq) in Hok3 by done. exact Hok3.
    + intros i Hi _. by eapply zero_links_heads.
  - eapply cells_only_sub; [exact Hf|]. intros c Hc. by apply queue_cell.
Qed.

Lemma wp_init_sched s R :
  zero_tasks (k_mem s) →
  (∀ m', qinv (boot_table ∅) m' → cells_only (k_mem s) m' → R tt (with_mem m' s)) →
  wp init_sched s R.
Proof.
  intros Hz HR.
  assert (Hloop : ∀ m, qinv (PTable 1 [] [] [] ∅) m → cells_only (k_mem s) m →
    wp (for_range (Z.to_nat (NR_TASKS - 2)) 2 (λ i, on_mem (list_add_tail (task_addr i + f_anchor) freeq)))
      (with_mem m s) R).
  { intros m Hq Hf. eapply wp_mono.
    - apply (wp_for_range _ (λ i s', ∃ m', s' = with_mem m' s ∧ cells_only (k_mem s) m' ∧
        qinv (PTable 1 [] (seqZ 2 (i - 2)) [] ∅) m')).
      + exists m. done.
      + intros i s' Hi (m' & -> & Hf' & Hq'). apply wp_on_mem. kred.
        apply (wp_enqueue _ m' Free i _ Hq').
        * unfold valid_task, NR_TASKS in *. lia.
        * unfold queued. cbn. rewrite app_nil_r, elem_of_seqZ. lia.
        * intros m'' Hq'' Hf''. exists m''. split; [done|]. split; [by eapply frame_trans|].
          cbn in Hq''. replace (i + 1 - 2) with (i - 2 + 1) by lia.
          rewrite seqZ_app by lia.
          replace (seqZ (2 + (i - 2)) 1) with [i]; [done|]. change (seqZ (2 + (i - 2)) 1) with [0 + (2 + (i - 2))]. f_equal. lia.
    - cbn. intros [] s' (m' & -> & Hf' & Hq'). by apply HR. }
  assert (Hh : wp (INIT_LIST_HEAD readyq ;! INIT_LIST_HEAD freeq ;! INIT_LIST_HEAD blocked) (k_mem s)
    (λ _ m, qinv (PTable 1 [] [] [] ∅) m ∧ cells_only (k_mem s) m)).
  { by apply wp_init_heads. }
  unfold init_sched. unfold wp, bind, on_mem in Hh, Hloop |- *.
  destruct (INIT_LIST_HEAD readyq (k_mem s)) as [[] m1|]; [|done]. kred.
  destruct (INIT_LIST_HEAD freeq m1) as [[] m2|]; [|done]. kred.
  destruct (INIT_LIST_HEAD blocked m2) as [[] m3|]; [|done]. kred. destruct Hh. by apply Hloop.
Qed.

Lemma valid_0 : valid_task 0.
Proof. unfold valid_task, NR_TASKS. lia. Qed.

Lemma valid_1 : valid_task 1.
Proof. unfold valid_task, NR_TASKS. lia. Qed.

Lemma dir_addr_u32 i : valid_task i → 0 ≤ dir_addr i < 2 ^ 32.
Proof.
  intros Hi. pose proof (dir_addr_window i Hi). unfold KERNEL_START, KERNEL_HI, PAGE_SIZE in *. lia.
Qed.

Lemma stack_addr_u32 i k : valid_task i → 0 ≤ k < KERNEL_STACK_SIZE → 0 ≤ stack_addr (task_addr i) k < 2 ^ 32.
Proof.
  intros Hi Hk. pose proof (task_addr_window i Hi).
  unfold stack_addr, KERNEL_START, KERNEL_HI, PAGE_SIZE, KERNEL_STACK_SIZE in *. lia.
Qed.

(** Stores into one task union. *)
Lemma frame_page i m m1 f v :
  valid_task i → 0 ≤ f → f + 4 ≤ PAGE_SIZE →
  frame (in_range (task_addr i) PAGE_SIZE) m m1 →
  frame (in_range (task_addr i) PAGE_SIZE) m (store32 m1 (task_addr i + f) v).
Proof.
  intros Hi H0 H1 Hf. eapply frame_trans; [done|]. apply frame_store32.
  unfold in_range, PAGE_SIZE in *. lia.
Qed.

(** The first fields both initial tasks get: identifier, stack pointer and
    quantum. *)
Lemma wp_init_fields σ i pid q (tail : K unit) s R :
  qinv σ (k_mem s) → valid_task i → 0 ≤ pid < 2 ^ 31 → 0 ≤ q < 2 ^ 31 →
  (∀ m', qinv σ m' → frame (in_range (task_addr i) PAGE_SIZE) (k_mem s) m' →
     pid_of m' i = pid → quantum_of m' i = q →
     load32 m' (task_addr i + f_kernel_esp) = stack_addr (task_addr i) (KERNEL_STACK_SIZE - 2) →
     parent_of m' i = parent_of (k_mem s) i →
     wp tail (with_mem m' s) R) →
  wp (set_field (task_addr i) f_PID pid ;!
      set_field (task_addr i) f_kernel_esp (stack_addr (task_addr i) (KERNEL_STACK_SIZE - 2)) ;!
      set_field (task_addr i) f_quantum q ;!
      tail) s R.
Proof.
  intros Hq Hi Hpid Hqu HR.
  pose proof (stack_addr_u32 i (KERNEL_STACK_SIZE - 2) Hi ltac:(done)) as Hst.
  apply wp_bind, wp_set_field; [done|done|done|].
  apply wp_bind, wp_set_field; [done|done|done|]. apply wp_bind, wp_set_field; [done|done|done|]. kred.
  apply HR; clear HR.
  - do 3 (apply qinv_set_field; [|done|
      unfold plain_field, f_PID, f_kernel_esp, f_quantum, f_anchor, f_child_anchor, PAGE_SIZE; lia]).
    done.
  - do 3 (apply frame_page; [done|done|done|]). apply frame_refl.
  - unfold pid_of, load_int. rewrite !field_store_ne by (done || (right; right; done)).
    rewrite load32_store32_same by lia. apply s32_small. lia.
  - by apply load32_store32_same; lia.
  - rewrite field_store_ne by (done || (right; right; done)). by apply load32_store32_same.
  - unfold parent_of. by rewrite !field_store_ne by (done || (right; left; done)).
Qed.

(** The list of children and the directory. *)
Lemma wp_init_family σ i (tail : K unit) s R :
  qinv σ (k_mem s) → valid_task i → p_kids σ !! i = None →
  (∀ m', qinv (set_kids (<[i := []]> (p_kids σ)) σ) m' →
     frame (in_range (task_addr i) PAGE_SIZE) (k_mem s) m' →
     (∀ f, 0 ≤ f → f + 4 ≤ PAGE_SIZE →
        (f + 4 ≤ f_dir_pages_baseAddr ∨ f_parent ≤ f) → (f + 4 ≤ f_childs ∨ f_pending_unblocks ≤ f) →
        load32 m' (task_addr i + f) = load32 (k_mem s) (task_addr i + f)) →
     load32 m' (task_addr i + f_dir_pages_baseAddr) = dir_addr i →
     wp tail (with_mem m' s) R) →
  wp (on_mem (INIT_LIST_HEAD (task_addr i + f_childs)) ;!
      let! r := allocate_DIR (task_addr i) in
      tail) s R.
Proof.
  intros Hq Hi Hk HR. pose proof (dir_addr_u32 i Hi) as Hdir.
  apply wp_bind, wp_on_mem. change (task_addr i + f_childs) with (childs_of i).
  apply (wp_init_childs σ); [done..|]. intros m4 Hq4 Hf4.
  apply wp_bind. unfold allocate_DIR. rewrite task_index_addr by done. fold (dir_addr i).
  apply wp_bind, wp_set_field; [done|done|done|]. apply wp_ret. kred.
  apply HR; clear HR.
  - apply qinv_set_field; [done..|]. unfold plain_field, f_dir_pages_baseAddr, f_kernel_esp,
      f_child_anchor, PAGE_SIZE. lia.
  - apply frame_page; [done|done|done|]. eapply frame_weaken; [|exact Hf4]. intros a.
    unfold in_range, childs_of, f_childs, PAGE_SIZE. lia.
  - intros f H0 H1 H2 H3.
    rewrite field_store_ne by (done || (right; unfold f_dir_pages_baseAddr, f_parent in *; lia)).
    apply (frame_load32 _ _ _ _ Hf4). intros b.
    unfold in_range, childs_of, f_childs, f_pending_unblocks in *. lia.
  - by apply load32_store32_same.
Qed.

Lemma wp_init_idle σ s R :
  qinv σ (k_mem s) → p_kids σ !! 0 = None →
  (∀ m', qinv (set_kids (<[0 := []]> (p_kids σ)) σ) m' →
     frame (in_range (task_addr 0) PAGE_SIZE) (k_mem s) m' →
     pid_of m' 0 = 0 → quantum_of m' 0 = 1 → idle_start m' 0 →
     load32 m' (task_addr 0 + f_dir_pages_baseAddr) = dir_addr 0 →
     parent_of m' 0 = parent_of (k_mem s) 0 →
     R tt (with_mem m' (with_idle_task (task_addr 0) s))) →
  wp init_idle s R.
Proof.
  intros Hq Hk HR. pose proof valid_0 as H0. unfold init_idle. cbv zeta. apply wp_bind, wp_modify.
  apply (wp_init_fields σ); [done|done|lia|lia|]. kred. intros m1 Hq1 Hf1 Hp1 Hqu1 Hks1 Hpar1.
  apply (wp_init_family σ); [done..|]. kred. intros m2 Hq2 Hf2 Hm2 Hdir2.
  pose proof (task_addr_window 0 H0) as Hw. unfold KERNEL_START, KERNEL_HI, PAGE_SIZE in Hw.
  apply wp_bind, wp_on_mem, wp_kstore32; kred;
    [unfold KERNEL_LO, stack_addr, KERNEL_STACK_SIZE; lia|
     unfold KERNEL_HI, stack_addr, KERNEL_STACK_SIZE; lia|].
  apply wp_on_mem, wp_kstore32; kred;
    [unfold KERNEL_LO, stack_addr, KERNEL_STACK_SIZE; lia|
     unfold KERNEL_HI, stack_addr, KERNEL_STACK_SIZE; lia|].
  pose proof (code_window addr_cpu_idle ltac:(set_solver)) as Hcode.
  change (stack_addr (task_addr 0) (KERNEL_STACK_SIZE - 1)) with (task_addr 0 + 4092).
  change (stack_addr (task_addr 0) (KERNEL_STACK_SIZE - 2)) with (task_addr 0 + 4088) in *.
  assert (Hpl : ∀ f, f_pending_unblocks ≤ f → f + 4 ≤ PAGE_SIZE → plain_field f).
  { unfold plain_field, f_pending_unblocks. lia. }
  apply HR; clear HR.
  - do 2 (apply qinv_set_field; [|done|by apply Hpl]). done.
  - do 2 (apply frame_page; [done|done|done|]). by eapply frame_trans.
  - unfold pid_of, load_int in *. by rewrite !field_store_ne, Hm2 by (done || (left; done) || (right; right; done)).
  - unfold quantum_of in *. by rewrite !field_store_ne, Hm2 by (done || (left; done) || (right; right; done)).
  - split_and!; [done| |].
    + by rewrite !field_store_ne, Hm2 by (done || (left; done) || (right; right; done)).
    + change (stack_addr (task_addr 0) (KERNEL_STACK_SIZE - 1)) with (task_addr 0 + 4092).
      rewrite field_store_ne by (done || (right; left; done)). by apply load32_store32_same.
  - by rewrite !field_store_ne by (done || (right; right; done)).
  - unfold parent_of in *. rewrite !field_store_ne, Hm2 by (done || (right; done) || (left; done) || (right; right; done)).
    done.
Qed.

(** Writing the task unions does not disturb the tables. *)
(** The address space part: the user pages of task 1 on fresh tables. *)
Lemma mm_inv_boot kids m m' s code data :
  (∀ i, valid_task i → dir_ok m i) → (∀ i, valid_task i → dir_rest m i) → (∀ i, valid_task i → kernel_table m i) →
  (∀ f, 0 ≤ f < TOTAL_PAGES →
     pm_get (k_phys_mem s) f = if decide (f < NUM_PAG_KERNEL) then USED_FRAME else FREE_FRAME) →
  length code = Z.to_nat NUM_PAG_CODE → length data = Z.to_nat NUM_PAG_DATA →
  taken (k_phys_mem s) m' (code ++ data) → NUM_PAG_KERNEL ∈ code →
  ∀ s', k_phys_mem s' = m' → frame (user_bytes 1) m (k_mem s') →
  maps (k_mem s') 1 PAG_LOG_INIT_CODE PTE_CODE code →
  maps (k_mem s') 1 PAG_LOG_INIT_DATA PTE_DATA data →
  mm_inv (boot_table kids) code {[1 := data]} s'.
Proof.
  intros Hd Hdr Ht Hfree Hlc Hld (Hok & Hnd & Hfs & Hg) H256 s' Ep Hf Hmc Hmd.
  apply NoDup_app in Hnd as (Hndc & Hdisj & Hndd).
  assert (Hent : ∀ i p, valid_task i → 0 ≤ p < TOTAL_PAGES →
    (p < PAG_LOG_INIT_DATA ∨ PAG_LOG_INIT_DATA + USER_PAGES ≤ p) →
    load32 (k_mem s') (pte_addr (pt_addr i) p) = kernel_entry p).
  { intros i p Hi Hp Hout. rewrite <- (Ht i Hi p Hp). apply (frame_load32 _ _ _ _ Hf). intros b.
    unfold user_bytes, entry_bytes, in_range, pte_addr, pt_addr, USER_PAGES, TOTAL_PAGES, PAGE_SIZE in *.
    change PAG_LOG_INIT_DATA with 256 in *. unfold NUM_PAG_DATA, NUM_PAG_CODE in *.
    destruct (decide (i = 1)) as [->|]; lia. }
  assert (Hused : ∀ f, f ∈ code ++ data → allocatable f ∧ pm_get (k_phys_mem s') f = USED_FRAME).
  { intros f Hin. destruct (Hfs f Hin) as [Ha _]. split; [done|]. rewrite Ep, Hg.
    - by rewrite decide_True.
    - apply allocatable_range in Ha. lia. }
  assert (Hub : ∀ a, user_bytes 1 a → tables_bytes a).
  { intros a Hu. eapply (pt_bytes_tables 1); [apply valid_1|].
    unfold user_bytes, entry_bytes, pt_bytes, in_range, pte_addr in *.
    change PAG_LOG_INIT_DATA with 256 in *. unfold NUM_PAG_DATA, NUM_PAG_CODE, PAGE_SIZE in *. lia. }
  split.
  - intros i Hi. split.
    + eapply dir_word_frame; [done|exact Hf| |by apply Hd]. intros a Ha Hu%Hub.
      by eapply tables_dirs_apart.
    + intros p Hp. apply Hent; [done|unfold NUM_PAG_KERNEL, TOTAL_PAGES in *; lia|left; apply Hp].
  - intros i p Hi Hp. change (PAG_LOG_INIT_DATA + USER_PAGES) with 284 in *. unfold TOTAL_PAGES in *.
    rewrite Hent; [|done|unfold TOTAL_PAGES; lia|right; apply Hp].
    unfold kernel_entry. rewrite decide_False; [done|]. unfold NUM_PAG_KERNEL. lia.
  - by rewrite Ep.
  - intros i. rewrite lookup_singleton_is_Some. cbn [p_free boot_table]. rewrite elem_of_seqZ.
    unfold valid_task, NR_TASKS. lia.
  - done.
  - by intros i fs [<- <-]%lookup_singleton_Some.
  - by intros i fs [<- <-]%lookup_singleton_Some.
  - by intros i fs [<- <-]%lookup_singleton_Some.
  - intros f Ha Hne. destruct (decide (f ∈ code ++ data)) as [Hin|Hin].
    + apply elem_of_app in Hin as [?|?]; [by left|]. right. exists 1, data.
      split; [by rewrite lookup_singleton_eq|done].
    + exfalso. apply Hne. pose proof (allocatable_range f Ha).
      rewrite Ep, Hg, decide_False, Hfree, decide_False by (done || lia || (destruct Ha; lia)). done.
  - intros f Hin. apply Hused. rewrite elem_of_app. auto.
  - intros i fs f [<- <-]%lookup_singleton_Some Hin.
    destruct (Hused f) as [Ha Hu]; [rewrite elem_of_app; auto|]. split_and!; [done..|].
    destruct Ha as [[Hr _] _]. enough (f ≠ NUM_PAG_KERNEL) by lia. intros ->. by apply (Hdisj NUM_PAG_KERNEL).
  - by intros i fs [<- <-]%lookup_singleton_Some.
  - intros i fs f [<- <-]%lookup_singleton_Some Hin Hc. by apply (Hdisj f).
  - by intros i fs j gs f [<- _]%lookup_singleton_Some [<- _]%lookup_singleton_Some.
  - done.
  - done.
  - intros i Hi. eapply dir_rest_frame; [done|exact Hf| |by apply Hdr]. intros a Hu%Hub Ha.
    by destruct (tables_dirs_apart a).
Qed.

Definition boot_kids : gmap Z (list Z) := <[1 := []]> (<[0 := []]> ∅).

Lemma fam_inv_boot m : (∀ i, valid_task i → parent_of m i = NULL) → fam_inv (boot_table boot_kids) m.
Proof.
  intros Hp. assert (Hk : ∀ i ks, boot_kids !! i = Some ks → (i = 0 ∨ i = 1) ∧ ks = []).
  { intros i ks. unfold boot_kids. rewrite !lookup_insert_Some, lookup_empty. naive_solver. }
  split; cbn [p_kids p_free boot_table].
  - intros i. rewrite elem_of_seqZ. unfold valid_task, NR_TASKS. split.
    + intros [ks [[-> | ->] _]%Hk]; lia.
    + intros [H1 H2]. assert (i = 0 ∨ i = 1) as [-> | ->] by lia; unfold boot_kids; [|by eexists].
      rewrite lookup_insert_ne by done. by eexists.
  - intros j ks c [_ ->]%Hk Hc. by apply not_elem_of_nil in Hc.
  - intros c Hc _. left. auto.
Qed.

Lemma wp_init_task1 σ s R :
  qinv σ (k_mem s) → p_kids σ !! 1 = None →
  (∀ i, valid_task i → dir_ok (k_mem s) i) → pm_ok (k_phys_mem s) →
  (∀ f, allocatable f → pm_get (k_phys_mem s) f = FREE_FRAME) →
  (∀ code data m1 m2 pm',
     qinv (set_kids (<[1 := []]> (p_kids σ)) σ) m2 →
     frame (in_range (task_addr 1) PAGE_SIZE) (k_mem s) m1 → frame (user_bytes 1) m1 m2 →
     pid_of m1 1 = 1 → quantum_of m1 1 = 100 → parent_of m1 1 = parent_of (k_mem s) 1 →
     load32 m1 (task_addr 1 + f_dir_pages_baseAddr) = dir_addr 1 →
     length code = Z.to_nat NUM_PAG_CODE → length data = Z.to_nat NUM_PAG_DATA →
     taken (k_phys_mem s) pm' (code ++ data) → NUM_PAG_KERNEL ∈ code →
     maps m2 1 PAG_LOG_INIT_CODE PTE_CODE code → maps m2 1 PAG_LOG_INIT_DATA PTE_DATA data →
     R tt (with_cr3 (dir_addr 1) (with_phys_mem pm' (with_mem m2 (with_quantum_ticks 100 s))))) →
  wp init_task1 s R.
Proof.
  intros Hq Hk Hdirs Hok Hfree HR. pose proof valid_1 as H1. unfold init_task1. cbv zeta.
  apply (wp_init_fields σ); [done|done|lia|lia|]. kred. intros m1 Hq1 Hf1 Hp1 Hqu1 _ Hpar1.
  apply wp_bind, wp_modify. apply (wp_init_family σ); [done..|]. kred. intros m2 Hq2 Hf2 Hm2 Hdir2.
  assert (Hf12 : frame (in_range (task_addr 1) PAGE_SIZE) (k_mem s) m2) by (by eapply frame_trans).
  apply wp_bind. eapply wp_mono.
  { apply (wp_set_user_pages 1 []); kred; try done.
    - eapply dir_word_frame; [done|exact Hf12| |by apply Hdirs].
      intros a Ha Hr. by destruct (page_tables_apart 1 a H1 Hr).
    - intros f Ha Hne. by destruct Hne; apply Hfree.
    - cbn. lia. }
  kred. intros [] s' (code & data & m3 & pm' & -> & Hlc & Hld & Ht & Hmc & Hmd & Hf3 & H256).
  assert (Hub : ∀ a, user_bytes 1 a → tables_bytes a).
  { intros a Ha. eapply (pt_bytes_tables 1); [done|].
    unfold user_bytes, entry_bytes, pt_bytes, in_range, pte_addr in *.
    change PAG_LOG_INIT_DATA with 256 in *. unfold NUM_PAG_DATA, NUM_PAG_CODE, PAGE_SIZE in *. lia. }
  apply wp_bind, wp_get_field; [done|done|done|]. kred.
  rewrite (frame_load32 _ _ _ _ Hf3).
  2:{ intros b Hb Hu. destruct (task_word_apart 1 f_dir_pages_baseAddr b) as [Hx _]; [done..|].
      by apply Hx, Hub. }
  rewrite Hdir2. apply wp_modify. kred. eapply HR; try done.
  - eapply qinv_frame; [exact Hq2|exact Hf3|]. intros a Ha Hu.
    destruct (links_stacks_tables a) as [Hx _]; [by left|]. by apply Hx, Hub.
  - unfold pid_of, load_int in *. rewrite Hm2; [done|done|done|left; done|left; done].
  - unfold quantum_of in *. rewrite Hm2; [done|done|done|left; done|left; done].
  - unfold parent_of in *. rewrite Hm2; [done|done|done|right; done|left; done].
  - by apply H256, Hfree.
Qed.

(** Page tables and directories are not task memory. *)
Lemma zero_tasks_frame P m m' :
  zero_tasks m → frame P m m' →
  (∀ i f b, valid_task i → f ∈ [f_anchor; f_anchor + 4; f_parent] →
     in_range (task_addr i + f) 4 b → ¬ P b) →
  zero_tasks m'.
Proof.
  intros Hz Hf HP i Hi. destruct (Hz i Hi) as (H1 & H2 & H3). unfold parent_of, anchor_of in *.
  rewrite <- Z.add_assoc in *.
  rewrite (frame_load32 _ _ _ (task_addr i + f_anchor) Hf), (frame_load32 _ _ _ (task_addr i + (f_anchor + 4)) Hf),
    (frame_load32 _ _ _ (task_addr i + f_parent) Hf); [done|..];
    intros b; (apply HP; [done|set_solver]).
Qed.

Lemma user_bytes_tables i a : valid_task i → user_bytes i a → tables_bytes a.
Proof.
  intros Hi Ha. eapply (pt_bytes_tables i); [done|].
  unfold user_bytes, entry_bytes, pt_bytes, in_range, pte_addr in *.
  change PAG_LOG_INIT_DATA with 256 in *. unfold NUM_PAG_DATA, NUM_PAG_CODE, PAGE_SIZE in *. lia.
Qed.

(** The scheduler's part, from what the four steps wrote. *)
Lemma sched_inv_boot mc m1 m2 s :
  qinv (boot_table boot_kids) m2 → k_mem s = m2 → k_idle_task s = task_addr 0 → k_last_pid s = 1 →
  cursor_ok (k_console s) →
  frame (in_range (task_addr 1) PAGE_SIZE) mc m1 → frame (user_bytes 1) m1 m2 →
  pid_of mc 0 = 0 → quantum_of mc 0 = 1 → idle_start mc 0 →
  load32 mc (task_addr 0 + f_dir_pages_baseAddr) = dir_addr 0 →
  pid_of m1 1 = 1 → quantum_of m1 1 = 100 →
  load32 m1 (task_addr 1 + f_dir_pages_baseAddr) = dir_addr 1 →
  sched_inv (boot_table boot_kids) s ∧ pid_inv (boot_table boot_kids) m2.
Proof.
  intros Hq Em Hid Hlp Hcon Hf1 Hf2 Hp0 Hq0 Hi0 Hd0 Hp1 Hq1 Hd1.
  pose proof valid_0 as H0. pose proof valid_1 as H1.
  assert (Hm2 : ∀ i f, valid_task i → 0 ≤ f → f + 4 ≤ PAGE_SIZE →
    load32 m2 (task_addr i + f) = load32 m1 (task_addr i + f)).
  { intros i f Hi Hf Hf'. apply (frame_load32 _ _ _ _ Hf2). intros b Hb Hu.
    destruct (task_word_apart i f b) as [Hx _]; [done..|].
    by apply Hx, (user_bytes_tables 1). }
  assert (Hm0 : ∀ f, 0 ≤ f → f + 4 ≤ PAGE_SIZE →
    load32 m2 (task_addr 0 + f) = load32 mc (task_addr 0 + f)).
  { intros f Hf Hf'. rewrite Hm2 by done. by eapply page_frame_other. }
  assert (E0 : pid_of m2 0 = 0) by (unfold pid_of, load_int in *; by rewrite Hm0).
  assert (E1 : pid_of m2 1 = 1) by (unfold pid_of, load_int in *; by rewrite Hm2).
  assert (Hlive : ∀ i, valid_task i → i ∉ p_free (boot_table boot_kids) → i = 0 ∨ i = 1).
  { intros i. cbn [p_free boot_table]. rewrite elem_of_seqZ. unfold valid_task, NR_TASKS. lia. }
  split; [split; [split|]|split].
  - by rewrite Em.
  - done.
  - intros i Hi. unfold queued. cbn. rewrite app_nil_r, elem_of_seqZ. unfold valid_task, NR_TASKS in Hi. lia.
  - done.
  - cbn. rewrite elem_of_seqZ, elem_of_nil. lia.
  - intros i Hi Hne Hfree. destruct (Hlive i Hi Hfree) as [->| ->]; [|done]. rewrite Em.
    right. right. destruct Hi0 as (_ & Ha & Hb). split_and!; [done|by rewrite Hm0|].
    change (stack_addr (task_addr 0) (KERNEL_STACK_SIZE - 1)) with (task_addr 0 + 4092) in *. by rewrite Hm0.
  - intros i Hi Hfree. rewrite Em. destruct (Hlive i Hi Hfree) as [->| ->]; [by rewrite Hm0|by rewrite Hm2].
  - intros i Hi Hfree. rewrite Em, Hlp. destruct (Hlive i Hi Hfree) as [->| ->]; lia.
  - intros i Hi Hfree. rewrite Em. unfold quantum_of in *.
    destruct (Hlive i Hi Hfree) as [->| ->]; [rewrite Hm0 by done|rewrite Hm2 by done]; lia.
  - done.
  - unfold queued. cbn. rewrite app_nil_r, elem_of_seqZ. lia.
  - intros i Hi Hfree Hne. destruct (Hlive i Hi Hfree) as [->| ->]; [done|lia].
  - intros i j Hi Hj Hif Hjf.
    destruct (Hlive i Hi Hif) as [->| ->], (Hlive j Hj Hjf) as [->| ->]; done || lia.
  - done.
Qed.

(** What the four steps write. *)
Definition boot_writes (a : Z) : Prop :=
  tables_bytes a ∨ dirs_bytes a ∨ cell_bytes kernel_cell a ∨
  in_range (task_addr 0) PAGE_SIZE a ∨ in_range (task_addr 1) PAGE_SIZE a.

(** init_mm keeps the links and parents of the image, and the directories'
    unused entries. *)
Lemma init_mm_image m m' :
  zero_image m →
  frame (λ a, tables_bytes a ∨ dir_heads a ∨ in_range (task_addr 0 + f_dir_pages_baseAddr) 4 a) m m' → zero_image m'.
Proof.
  intros [Hz Hzd] Hf. pose proof valid_0 as H0. split.
  - eapply zero_tasks_frame; [done|exact Hf|]. intros i f b Hi Hin Hb.
    assert (f = 4 ∨ f = 8 ∨ f = 28) as Hf' by (set_unfold in Hin; unfold f_anchor, f_parent in *; lia).
    destruct (task_word_apart i f b) as [Ht Hdb]; [done|lia|unfold PAGE_SIZE; lia|done|].
    intros [?|[?%dir_heads_dirs|Hx]]; [done..|]. unfold in_range, f_dir_pages_baseAddr in *.
    destruct (decide (i = 0)) as [->|Hi0]; [lia|].
    pose proof (task_addr_apart i 0 Hi H0 Hi0). unfold apart, PAGE_SIZE in *. lia.
  - intros i Hi. eapply dir_rest_frame; [done|exact Hf| |by apply Hzd]. intros a [Ha|[Ha|Ha]] Hd; [|done|].
    + by destruct (tables_dirs_apart a).
    + destruct (task_word_apart 0 f_dir_pages_baseAddr a) as [_ Hx]; [done|solve_field..|done|done].
Qed.

(** What init_sched, init_idle and the task structure of init_task1 write. *)
Definition boot_links (a : Z) : Prop :=
  cell_bytes kernel_cell a ∨ in_range (task_addr 0) PAGE_SIZE a ∨ in_range (task_addr 1) PAGE_SIZE a.

Lemma boot_links_apart a : boot_links a → (¬ tables_bytes a) ∧ (¬ dirs_bytes a).
Proof.
  intros [Ha|[Ha|Ha]];
    [apply links_stacks_tables; by left|by apply (page_tables_apart 0)|by apply (page_tables_apart 1)].
Qed.

(** Setting up the queues and the two tasks keeps what init_mm wrote. *)
Lemma boot_links_tables m m' :
  (∀ i, valid_task i → dir_ok m i) → (∀ i, valid_task i → dir_rest m i) → (∀ i, valid_task i → kernel_table m i) →
  frame boot_links m m' →
  (∀ i, valid_task i → dir_ok m' i) ∧ (∀ i, valid_task i → dir_rest m' i) ∧ (∀ i, valid_task i → kernel_table m' i).
Proof.
  intros Hd Hr Ht Hf. split_and!; intros i Hi.
  - eapply dir_word_frame; [done|exact Hf| |by apply Hd]. intros a Ha Hl. by destruct (boot_links_apart a Hl).
  - eapply dir_rest_frame; [done|exact Hf| |by apply Hr]. intros a Ha Hl. by destruct (boot_links_apart a Ha).
  - eapply kernel_table_frame; [done|exact Hf| |by apply Ht]. intros a Ha Hl. by destruct (boot_links_apart a Hl).
Qed.

(** The idle task's stack survives the creation of the first process. *)
Lemma idle_start_boot m m1 m2 :
  idle_start m 0 → frame (in_range (task_addr 1) PAGE_SIZE) m m1 → frame (user_bytes 1) m1 m2 → idle_start m2 0.
Proof.
  intros Hi Hf1 Hf2. pose proof valid_0 as H0. pose proof valid_1 as H1.
  eapply idle_start_frame; [eapply idle_start_frame; [exact Hi|exact Hf1|]|exact Hf2|]; intros a Ha%stack_bytes_page.
  - intros Hb. pose proof (task_addr_apart 0 1 H0 H1 ltac:(done)). unfold apart, in_range in *. lia.
  - intros Hu. destruct (page_tables_apart 0 a H0 Ha) as [Hx _]. by apply Hx, (user_bytes_tables 1).
Qed.

Lemma wp_init_kernel s R :
  pm_ok (k_phys_mem s) → zero_image (k_mem s) → cursor_ok (k_console s) → k_last_pid s = 1 →
  (∀ s' code data,
     kernel_inv (boot_table boot_kids) code {[1 := data]} s' → k_cr3 s' = dir_addr 1 →
     k_quantum_ticks s' = 100 → k_last_pid s' = 1 → k_regs s' = k_regs s → k_tss s' = k_tss s →
     cursor_ok (k_console s') → k_idt s' = k_idt s → k_hw s' = k_hw s →
     frame boot_writes (k_mem s) (k_mem s') → idle_start (k_mem s') 0 → R tt s') →
  wp init_kernel s R.
Proof.
  intros Hok [Hz Hzd] Hcon Hlp HR. pose proof valid_0 as H0. pose proof valid_1 as H1.
  unfold init_kernel. apply wp_bind. eapply wp_mono; [by apply wp_init_mm|].
  intros [] sa [Hready (ma & pma & cr0 & -> & Hfa)].
  destruct (init_mm_image _ _ (conj Hz Hzd) Hfa) as [Hza Hra].
  destruct Hready as [Hd Ht [Hpm Hfr] Hcr3 Hdir0 Hpg]. kred_all.
  apply wp_bind, wp_init_sched; [done|]. kred. intros mb Hqb Hfb.
  apply wp_bind, (wp_init_idle (boot_table ∅)); [done..|]. kred. intros mc Hqc Hfc Hpc Hquc Hic Hdc Hparc.
  assert (Hac : frame boot_links ma mc).
  { eapply frame_trans; (eapply frame_weaken; [|eassumption]); unfold boot_links; cbn; auto. }
  assert (Hpar : ∀ i, valid_task i → parent_of mc i = NULL).
  { intros i Hi. destruct (Hza i Hi) as (_ & _ & Hp). unfold parent_of in *.
    assert (Hb : load32 mb (task_addr i + f_parent) = NULL) by (rewrite (cells_plain _ _ i f_parent Hfb); [done|done|solve_field]).
    destruct (decide (i = 0)) as [->|Hi0]; [by rewrite Hparc|].
    rewrite (page_frame_other _ _ 0 i f_parent Hfc) by done. done. }
  apply (wp_init_task1 (set_kids (<[0 := []]> ∅) (boot_table ∅))); kred.
  { done. }
  { cbn [p_kids set_kids]. by rewrite lookup_insert_ne. }
  { by apply (boot_links_tables ma). }
  { done. }
  { intros f Ha. pose proof (allocatable_range f Ha). rewrite Hfr by lia. rewrite decide_False; [done|].
    destruct Ha; lia. }
  intros code data m1 m2 pm' Hq2 Hf1 Hf2 Hp1 Hqu1 Hpar1 Hdir1 Hlc Hld Htk H256 Hmc Hmd.
  set (s' := with_cr3 _ _). change (qinv (boot_table boot_kids) m2) in Hq2.
  destruct (sched_inv_boot mc m1 m2 s') as [Hs Hpi]; try done.
  assert (Hboot : frame boot_writes (k_mem s) m2).
  { eapply frame_trans; [eapply frame_weaken; [|exact Hfa]|].
    { intros a [?|[?%dir_heads_dirs|Hx]]; unfold boot_writes; [tauto..|]. do 3 right. left.
      unfold in_range, f_dir_pages_baseAddr, PAGE_SIZE in *. lia. }
    eapply frame_trans; [eapply frame_weaken; [|exact Hac]; unfold boot_links, boot_writes; cbn; tauto|].
    eapply frame_trans; [eapply frame_weaken; [|exact Hf1]; unfold boot_writes; tauto|].
    eapply frame_weaken; [|exact Hf2]. intros a Ha. left. by apply (user_bytes_tables 1). }
  apply (HR s' code data); try done; [|by apply (idle_start_boot mc m1)]. split; [done| |done|].
  - change (k_mem s') with m2. apply fam_inv_boot. intros i Hi. unfold parent_of in *.
    rewrite (frame_load32 _ _ _ _ Hf2).
    + destruct (decide (i = 1)) as [->|Hi1]; [rewrite Hpar1; by apply Hpar|].
      rewrite (page_frame_other _ _ 1 i f_parent Hf1) by done. by apply Hpar.
    + intros b Hb Hu. destruct (task_word_apart i f_parent b) as [Hx _]; [done..|].
      by apply Hx, (user_bytes_tables 1).
  - assert (Hf1' : frame boot_links ma m1).
    { eapply frame_trans; [exact Hac|]. eapply frame_weaken; [|exact Hf1]. unfold boot_links. cbn. auto. }
    destruct (boot_links_tables ma m1 Hd Hra Ht Hf1') as (Hd1 & Hr1 & Ht1).
    by eapply (mm_inv_boot boot_kids m1 pm' (with_phys_mem pma s)).
Qed.

(** Boot establishes the kernel's invariant.  From the image's zeroed task
    array and directories, init_mm, init_sched, init_idle and init_task1 run to completion and
    leave task 1 running in its own address space (cr3 is its directory) with
    8 code and 20 data frames of its own, the idle task ready to be switched
    to, tasks 2 to 9 on the free queue in order, no children anywhere, and
    every queue, link, identifier, mapping and frame as the invariant
    demands. *)
Theorem boot_establishes_invariant s :
  pm_ok (k_phys_mem s) → zero_image (k_mem s) → cursor_ok (k_console s) → k_last_pid s = 1 →
  ∃ s' code data, init_kernel s = Ret tt s' ∧
    kernel_inv (boot_table boot_kids) code {[1 := data]} s' ∧
    k_cr3 s' = dir_addr 1 ∧ k_quantum_ticks s' = 100.
Proof.
  intros H1 H2 H3 H4.
  destruct (wp_elim init_kernel s (λ _ s', ∃ code data,
    kernel_inv (boot_table boot_kids) code {[1 := data]} s' ∧
    k_cr3 s' = dir_addr 1 ∧ k_quantum_ticks s' = 100)) as ([] & s' & E & code & data & H).
  - apply wp_init_kernel; [done..|]. intros s' code data Hk Hc Hq _ _ _ _ _ _ _ _. by exists code, data.
  - by exists s', code, data.
Qed.
End Init.

Lemma load32_empty a : load32 ∅ a = 0.
Proof. reflexivity. Qed.

Lemma image_zero_tasks : zero_tasks (L := zeos_layout) (k_mem kstate_image).
Proof. intros i Hi. unfold parent_of. cbn [k_mem kstate_image]. by rewrite !load32_empty. Qed.

Lemma image_zero : zero_image (L := zeos_layout) (k_mem kstate_image).
Proof. split; [exact image_zero_tasks|]. intros i Hi d Hd. apply load32_empty. Qed.

Lemma boot_establishes_invariant_witness :
  ∃ s' code data, init_kernel (L := zeos_layout) kstate_image = Ret tt s' ∧
    kernel_inv (L := zeos_layout) (boot_table boot_kids) code {[1 := data]} s' ∧
    k_cr3 s' = dir_addr (L := zeos_layout) 1 ∧ k_quantum_ticks s' = 100.
Proof.
  apply (@boot_establishes_invariant zeos_layout zeos_layout_ok kstate_image).
  - vm_compute. reflexivity.
  - exact image_zero.
  - vm_compute. repeat split; discriminate.
  - reflexivity.
Defined.
