(* ===== verification/Sys.v ===== *)
(** sys.c: the service routines of the system calls. *)

From S2P Require Import Prelude Memory CList Libc Console Frames Types Kernel Task Paging Utils Switch.
From S2P Require Import Sched.

Definition LECTURA : Z := 0.
Definition ESCRIPTURA : Z := 1.

Definition check_fd (fd permissions : Z) : Z :=
  if negb (fd =? 1) then -9
  else if negb (permissions =? ESCRIPTURA) then -13
  else 0.

Definition sys_ni_syscall : K Z := ret (-38).

(** The bytes of an array of [n] bytes, read one at a time. *)
Fixpoint read_array (n : nat) (p : Z) : K (list Z) :=
  match n with
  | O => ret []
  | Datatypes.S n' =>
      let! c := vload8 p in
      let! cs := read_array n' (p + 1) in
      ret (c :: cs)
  end.

(** [char buff[size]], an array of whatever size the user asks for: the stack
    pointer is lowered by [size] before any of the arguments is looked at.
    What the calls that follow would do with a stack pointer above the frame
    (a negative size) or below the stack, in the task structure or the page of
    another task, is not defined: the stack has to hold the array.  The
    compiler's rounding of the size, for alignment, is left out. *)
Definition alloca (size : Z) : K Z :=
  let! e := get_reg esp in
  let! t := current in
  if (0 <=? size) && (t + sizeof_task_struct <=? e - size)
  then upd_regs (w_esp (e - size)) ;! ret (e - size)
  else fail (StackOverflow size).

(** The statements of sys_write after the declaration of the array. *)
Definition write_body (fd buffer size buff : Z) : K Z :=
  let valor := check_fd fd ESCRIPTURA in
  if negb (valor =? 0) then ret valor
  else if (size <=? 0) || (buffer =? NULL) then ret (-22)
  else if access_ok VERIFY_READ buffer size =? 0 then ret (-13)
  else
    let! r := copy_from_user buffer buff size in
    let! text := read_array (Z.to_nat size) buff in
    λ s, match sys_write_console text size (k_console s) with
         | Ret v k => Ret v (with_console k s)
         | Fault f => Fault f
         end.

(** On return the stack pointer is where it was. *)
Definition sys_write (fd buffer size : Z) : K Z :=
  let! e := get_reg esp in
  let! buff := alloca size in
  let! valor := write_body fd buffer size buff in
  upd_regs (w_esp e) ;!
  ret valor.

Definition sys_gettime : K Z := gets k_zeos_ticks.

Section Sys.
Context {L : Layout}.

Definition sys_getpid : K Z :=
  let! c := current in get_int_field c f_PID.

(** ** fork *)

(** [unsigned temp_pag = 0x3FF000 >> 12] *)
Definition temp_pag : Z := Z.shiftr 0x3FF000 12.

(** The code pages are shared: the entries are copied. *)
Definition fork_code (PTn PTc : Z) : K unit :=
  for_range (Z.to_nat NUM_PAG_CODE) 0 (λ pag, on_mem (
    let! e := kload32 (pte_addr PTc (PAG_LOG_INIT_CODE + pag)) in
    kstore32 (pte_addr PTn (PAG_LOG_INIT_CODE + pag)) e)).

(** The frames reserved so far are returned. *)
Definition fork_undo (PTn pag : Z) : K unit :=
  for_range (Z.to_nat pag) 0 (λ i,
    let! f := on_mem (get_entry_bits PTn (PAG_LOG_INIT_DATA + i) pbase_addr) in
    k_free_frame f ;!
    on_mem (set_entry PTn (PAG_LOG_INIT_DATA + i) 0)).

(** One data page: a frame of its own, filled through the temporary page of
    the parent's address space. *)
Definition fork_page (PTn PTc pag new_ph_pag : Z) : K unit :=
  on_mem (
    set_entry PTn (PAG_LOG_INIT_DATA + pag) 0 ;!
    set_entry_bits PTn (PAG_LOG_INIT_DATA + pag) pbase_addr new_ph_pag ;!
    set_entry_bits PTn (PAG_LOG_INIT_DATA + pag) user 1 ;!
    set_entry_bits PTn (PAG_LOG_INIT_DATA + pag) rw 1 ;!
    set_entry_bits PTn (PAG_LOG_INIT_DATA + pag) present 1) ;!
  on_mem (set_ss_pag PTc temp_pag new_ph_pag) ;!
  copy_data (Z.shiftl (PAG_LOG_INIT_DATA + pag) 12) (Z.shiftl temp_pag 12) 4096 ;!
  on_mem (del_ss_pag PTc temp_pag) ;!
  let! cur := current in
  let! dir := get_DIR cur in
  set_cr3 dir.

(** The loop over the data pages, from [pag] on: false when there is no frame
    left, after returning the ones it had taken. *)
Fixpoint fork_data (n : nat) (pag PTn PTc : Z) : K bool :=
  match n with
  | O => ret true
  | Datatypes.S n' =>
      let! new_ph_pag := k_alloc_frame in
      if new_ph_pag =? -1 then fork_undo PTn pag ;! ret false
      else
        fork_page PTn PTc pag new_ph_pag ;!
        fork_data n' (pag + 1) PTn PTc
  end.

(** [PID=new_pid(); while(PID==pos) PID=new_pid();]: two calls differ, so the
    loop ends after at most one pass. *)
Fixpoint fork_pid (fuel : nat) (pos : Z) : K Z :=
  match fuel with
  | O => fail OutOfFuel
  | Datatypes.S fuel' =>
      let! pid := new_pid in
      if pid =? pos then fork_pid fuel' pos else ret pid
  end.

(** The child's stack: it will start in ret_from_fork, on a copy of the
    parent's frame. *)
Definition fork_stack (new_s : Z) : K unit :=
  let! curr_sys_ebp := ebp_value in
  let! cur := current in
  let ebp_diff := Z.quot (stack_addr cur (KERNEL_STACK_SIZE - 1) - (curr_sys_ebp - 4)) 4 in
  set_field new_s f_kernel_esp (stack_addr new_s (KERNEL_STACK_SIZE - 1) - 4 * ebp_diff) ;!
  on_mem (kstore32 (stack_addr new_s (KERNEL_STACK_SIZE - ebp_diff)) addr_ret_from_fork) ;!
  on_mem (kstore32 (stack_addr new_s (KERNEL_STACK_SIZE - ebp_diff - 1)) 0).

(** The child's place in the family. *)
Definition fork_family (new_s pid : Z) : K unit :=
  set_field new_s f_PID pid ;!
  let! cur := current in
  set_field new_s f_parent cur ;!
  on_mem (INIT_LIST_HEAD (new_s + f_childs)) ;!
  let! cur := current in
  on_mem (list_add_tail (new_s + f_child_anchor) (cur + f_childs)).

Definition sys_fork : K Z :=
  let! e := on_mem (list_empty freeq) in
  if e then ret (-1)
  else
    let! new_h := on_mem (list_first freeq) in
    on_mem (list_del new_h) ;!
    let new_s := list_entry new_h f_anchor in
    let! cur := current in
    copy_data cur new_s 4096 ;!
    let! r := allocate_DIR new_s in
    let! process_PT_new := get_PT new_s in
    let! cur := current in
    let! process_PT_current := get_PT cur in
    fork_code process_PT_new process_PT_current ;!
    let! ok := fork_data (Z.to_nat NUM_PAG_DATA) 0 process_PT_new process_PT_current in
    if negb ok then ret (-1)
    else
      let! cur := current in
      let! dir := get_DIR cur in
      set_cr3 dir ;!
      let! pid := fork_pid 2 (task_index new_s) in
      fork_family new_s pid ;!
      fork_stack new_s ;!
      on_mem (list_add_tail new_h readyq) ;!
      ret pid.

(** ** exit, block, unblock *)

(** The children of the dying task go to the idle task. *)
Definition exit_orphans (t : Z) : K unit :=
  list_for_each_safe (λ l, on_mem (get_next l)) (S (Z.to_nat NR_TASKS)) (t + f_childs) (λ pos,
    let tmp := list_entry pos f_child_anchor in
    let! idle := gets k_idle_task in
    set_field tmp f_parent idle ;!
    on_mem (list_del pos) ;!
    on_mem (list_add_tail pos (idle + f_childs))).

Definition sys_exit : K unit :=
  let! t := current in
  let! parent := get_field t f_parent in
  when (negb (parent =? NULL)) (on_mem (list_del (t + f_child_anchor))) ;!
  exit_orphans t ;!
  free_user_pages t ;!
  on_mem (list_add_tail (t + f_anchor) freeq) ;!
  sched_next_rr.

Definition sys_block : K unit :=
  let! t := current in
  let! pending := get_int_field t f_pending_unblocks in
  if negb (pending =? 0) then set_field t f_pending_unblocks (u32 (pending - 1))
  else
    on_mem (list_add_tail (t + f_anchor) blocked) ;!
    sched_next_rr.

(** The child of the current task with the identifier [pid]. *)
Definition find_child (pid : Z) : K (option Z) :=
  let! c := current in
  list_for_each (λ l, on_mem (get_next l)) (S (Z.to_nat NR_TASKS)) (c + f_childs) (λ pos,
    let tmp := list_entry pos f_child_anchor in
    let! p := get_int_field tmp f_PID in
    ret (if p =? pid then Some tmp else None)).

(** Whether a task is on the blocked queue. *)
Definition find_blocked (child : Z) : K (option unit) :=
  list_for_each (λ l, on_mem (get_next l)) (S (Z.to_nat NR_TASKS)) blocked (λ pos,
    ret (if child + f_anchor =? pos then Some tt else None)).

Definition sys_unblock (pid : Z) : K Z :=
  let! child := find_child pid in
  match child with
  | None => ret (-1)
  | Some child =>
      let! trobat := find_blocked child in
      match trobat with
      | None =>
          let! n := get_int_field child f_pending_unblocks in
          set_field child f_pending_unblocks (u32 (n + 1))
      | Some _ =>
          on_mem (list_del (child + f_anchor)) ;!
          on_mem (list_add_tail (child + f_anchor) readyq)
      end ;!
      ret 0
  end.
End Sys.
