(* ===== verification/Tick.v ===== *)
(** The clock tick on the whole kernel state: round robin preserves the
    invariant, is fair, and what the quantum does. *)

From S2P Require Import Prelude Memory CList Libc Console Frames Types Kernel Task Paging Utils Switch.
From S2P Require Import Sched Policy Space Process.

Section Tick.
Context {L : Layout} {LO : LayoutOk L}.

Lemma rotate_same σ : p_free (rotate σ) = p_free σ ∧ p_kids (rotate σ) = p_kids σ ∧
  p_blocked (rotate σ) = p_blocked σ.
Proof. unfold rotate. by destruct (p_ready σ). Qed.

Lemma rotate_ready σ n l :
  p_ready σ = n :: l → p_run (rotate σ) = n ∧ p_ready (rotate σ) = l ++ [p_run σ].
Proof. unfold rotate. by intros ->. Qed.

Lemma rotate_valid σ code data s : kernel_inv σ code data s → valid_task (p_run (rotate σ)).
Proof.
  intros [[Hc _] _ _ _]. unfold rotate. destruct (p_ready σ) as [|n l] eqn:Hr; [apply (sc_run _ _ Hc)|].
  apply (qi_valid _ _ (sc_q _ _ Hc)), (queued_q _ Ready). cbn. rewrite Hr. apply list_elem_of_here.
Qed.

Lemma kernel_inv_quantum σ code data s q :
  kernel_inv σ code data s → kernel_inv σ code data (with_quantum_ticks q s).
Proof. intros [[[] ?] ? ? []]. split; [split; [by split|done]|done|done|by split]. Qed.

Lemma scheduler_kernel_cases σ code data s R :
  let q := tick_quantum σ (k_quantum_ticks s) (quantum_of (k_mem s) (p_run σ)) in
  kernel_inv σ code data s → cpu_ok (p_run σ) s →
  (0 ≤ q → kernel_inv σ code data (with_quantum_ticks q s) → R tt (with_quantum_ticks q s)) →
  (q < 0 → ∀ s', kernel_inv (rotate σ) code data s' → switched s s' (p_run σ) (p_run (rotate σ)) →
     p_run (rotate σ) ≠ p_run σ → k_quantum_ticks s' = q → R tt s') →
  wp_or (BufferOverflow 3) (tick_fits σ s) scheduler s R.
Proof.
  intros q Hinv Hcpu HR1 HR2. destruct (rotate_same σ) as (Ef & Ek & _).
  apply (scheduler_cases σ); [apply Hinv|done| |].
  - intros Hq. apply HR1; [done|]. by apply kernel_inv_quantum.
  - intros Hq s' Hs' Hsw Hne Hqt. apply HR2; try done.
    eapply (kernel_inv_step σ); [done|done| |apply Hsw|done|done].
    eapply switched_links; [exact Hsw|]. apply Hcpu.
Qed.

(** C11. The scheduler is round robin.  Every clock tick takes one from the
    quantum; while something of it is left, nothing else changes, and with an
    empty ready queue it is renewed and the task goes on.  When it is used up
    and tasks are ready, the running task becomes the last of the ready queue,
    the first one leaves it and gets the processor (its directory, its stack,
    where it stopped), and the kernel's invariant holds of the new table: all
    that when the identifier of the first ready task is below 100.  From 100
    on the switch overruns the three characters sched_next_rr has for it. *)
Theorem scheduler_round_robin σ code data s :
  let q := tick_quantum σ (k_quantum_ticks s) (quantum_of (k_mem s) (p_run σ)) in
  let next := p_run (rotate σ) in
  kernel_inv σ code data s → cpu_ok (p_run σ) s →
  (0 ≤ q → scheduler s = Ret tt (with_quantum_ticks q s) ∧ kernel_inv σ code data (with_quantum_ticks q s)) ∧
  (q < 0 → pid_of (k_mem s) next < 100 →
     ∃ s', scheduler s = Ret tt s' ∧ k_quantum_ticks s' = q ∧ kernel_inv (rotate σ) code data s' ∧
       next ≠ p_run σ ∧ switched s s' (p_run σ) next) ∧
  (q < 0 → 100 ≤ pid_of (k_mem s) next → scheduler s = Fault (BufferOverflow 3)).
Proof.
  intros q next Hinv Hcpu.
  destruct (wp_or_elim _ _ _ _ _ (scheduler_kernel_cases σ code data s (λ _ s', k_quantum_ticks s' = q ∧
    (0 ≤ q → s' = with_quantum_ticks q s ∧ kernel_inv σ code data s') ∧
    (q < 0 → kernel_inv (rotate σ) code data s' ∧ next ≠ p_run σ ∧ switched s s' (p_run σ) next)) Hinv Hcpu
    ltac:(intros Hq Hinv'; split_and!; [done|done|fold q in Hq; lia])
    ltac:(intros Hq s' Hinv' Hsw Hne Hqt; split_and!; [done|fold q in Hq; lia|done]))) as [Hok Hbad].
  unfold tick_fits in Hok, Hbad. fold q next in Hok, Hbad. unfold shows_pid in Hok, Hbad. split_and!.
  - intros Hq. destruct (wp_elim _ _ _ (Hok ltac:(by destruct (Z.leb_spec 0 q); [|lia]))) as ([] & s' & E & _ & H & _).
    destruct (H Hq) as [-> Hinv']. done.
  - intros Hq Hp. destruct (wp_elim _ _ _ (Hok ltac:(apply orb_true_iff; right; by apply Z.ltb_lt))) as ([] & s' & E & Hqt & _ & H).
    exists s'. destruct (H Hq) as (H1 & H2 & H3). done.
  - intros Hq Hp. apply Hbad. apply orb_false_iff. split; [by apply Z.leb_gt|by apply Z.ltb_ge].
Qed.

(** What a tick that returns has done. *)
Lemma scheduler_returns σ code data s s' :
  let q := tick_quantum σ (k_quantum_ticks s) (quantum_of (k_mem s) (p_run σ)) in
  kernel_inv σ code data s → cpu_ok (p_run σ) s → scheduler s = Ret tt s' →
  k_quantum_ticks s' = q ∧
  (0 ≤ q → kernel_inv σ code data s' ∧ k_cr3 s' = k_cr3 s) ∧
  (q < 0 → kernel_inv (rotate σ) code data s' ∧ p_run (rotate σ) ≠ p_run σ ∧ k_cr3 s' = dir_addr (p_run (rotate σ))).
Proof.
  intros q Hinv Hcpu E. refine (proj2 (wp_or_ret _ _ _ _ (λ _ s', k_quantum_ticks s' = q ∧
    (0 ≤ q → kernel_inv σ code data s' ∧ k_cr3 s' = k_cr3 s) ∧
    (q < 0 → kernel_inv (rotate σ) code data s' ∧ p_run (rotate σ) ≠ p_run σ ∧ k_cr3 s' = dir_addr (p_run (rotate σ)))) _ _ _ E)).
  apply (scheduler_kernel_cases σ code data); [done..| |]; fold q.
  - intros Hq Hinv'. split_and!; [done|done|lia].
  - intros Hq s1 Hinv' Hsw Hne Hqt. split_and!; [done|lia|]. intros _. split_and!; [done|done|apply Hsw].
Qed.
End Tick.
