(* ===== verification/Block.v ===== *)
(** block and unblock: the two system calls that move tasks between the
    blocked and the ready queue. *)

From S2P Require Import Prelude Memory CList Libc Console Frames Types Kernel Task Paging Utils Switch.
From S2P Require Import Sched Policy Space Process Sys.

Section Block.
Context {L : Layout} {LO : LayoutOk L}.

Definition pending_of (m : memory) (i : Z) : Z := load_int m (task_addr i + f_pending_unblocks).

(** The counter of pending unblocks is not part of the invariant. *)
Lemma kernel_inv_pending σ code data s i v :
  kernel_inv σ code data s → valid_task i →
  kernel_inv σ code data (with_mem (store32 (k_mem s) (task_addr i + f_pending_unblocks) v) s).
Proof.
  intros Hinv Hi. pose proof (ki_sched _ _ _ _ Hinv) as [Hc _].
  eapply (kernel_inv_spares (in_range (task_addr i + f_pending_unblocks) 4)); [exact Hinv|by apply frame_store32| |done..|apply Hc].
  split_and!.
  - intros a Ha. split; [apply (cell_not_plain i f_pending_unblocks); [done|solve_field|done]|].
    apply (task_word_apart i f_pending_unblocks); [done|solve_field|solve_field|done].
  - intros j a Hj _ _ Hs Ha. apply (stack_field j i f_pending_unblocks a); try done. unfold data_field. solve_field.
  - intros j f a Hj Hin Ha Hb. assert (f + 4 ≤ f_pending_unblocks ∧ 0 ≤ f)
      by (set_unfold in Hin; destruct_or! Hin; subst; solve_field).
    destruct (decide (j = i)) as [->|Hne]; [unfold in_range in *; lia|].
    pose proof (task_addr_apart j i Hj Hi Hne). unfold apart, in_range, f_pending_unblocks, PAGE_SIZE in *. lia.
Qed.

(** ** block *)

(** The specification: consume a pending unblock, or wait. *)
Definition block_table (σ : ptable) : ptable :=
  let σ1 := set_blocked (p_blocked σ ++ [p_run σ]) σ in
  set_run (pick σ1).1 (pick σ1).2.

(** The call switches to no task, or to one whose number fits. *)
Definition block_fits (σ : ptable) (s : kstate) : bool :=
  negb (pending_of (k_mem s) (p_run σ) =? 0) || shows_pid s (p_run (block_table σ)).

Lemma sys_block_cases σ code data s R :
  kernel_inv σ code data s → cpu_ok (p_run σ) s → p_run σ ≠ 0 →
  (pending_of (k_mem s) (p_run σ) ≠ 0 →
     R tt (with_mem (store32 (k_mem s) (task_addr (p_run σ) + f_pending_unblocks)
             (u32 (pending_of (k_mem s) (p_run σ) - 1))) s)) →
  (pending_of (k_mem s) (p_run σ) = 0 →
     ∀ s', kernel_inv (block_table σ) code data s' →
           switched s s' (p_run σ) (p_run (block_table σ)) → k_quantum_ticks s' = k_quantum_ticks s → R tt s') →
  wp_or (BufferOverflow 3) (block_fits σ s) sys_block s R.
Proof.
  intros Hinv Hcpu Hrun0 HR1 HR2. pose proof Hinv as [[Hc Hout] Hfam Hpid Hmm].
  pose proof (sc_run _ _ Hc) as Hrun. destruct Hcpu as [Hroom Hregs]. unfold sys_block.
  apply wp_or_bind, (wp_current (p_run σ)); [by apply switch_room_on_stack|].
  apply wp_or_bind, wp_get_int_field; [done|solve_field..|]. fold (pending_of (k_mem s) (p_run σ)).
  destruct (Z.eqb_spec (pending_of (k_mem s) (p_run σ)) 0) as [Hz|Hnz]; cbn [negb].
  2:{ apply wp_or_true; [unfold block_fits; by destruct (Z.eqb_spec (pending_of (k_mem s) (p_run σ)) 0)|].
      apply wp_set_field; [done|solve_field..|]. by apply HR1. }
  apply wp_or_bind, wp_on_mem. change (task_addr (p_run σ) + f_anchor) with (anchor_of (p_run σ)).
  apply (wp_enqueue σ _ Blocked); [apply Hc|done|done|]. cbn [set_q get_q]. intros m1 Hq1 Hf1.
  set (σ1 := set_blocked (p_blocked σ ++ [p_run σ]) σ) in *.
  assert (Hc1 : sched_core σ1 (with_mem m1 s)).
  { eapply sched_core_cells; [done..| | |].
    - intros i Hi. left. by apply (queued_add σ Blocked); right.
    - cbn. rewrite elem_of_app, list_elem_of_singleton. destruct (sc_idle_q _ _ Hc).
      split; [done|]. intros [?|?]; congruence.
    - done. }
  replace (block_fits σ s) with (shows_pid (with_mem m1 s) (pick σ1).1); last first.
  { unfold block_fits. rewrite Hz. apply shows_pid_cells; [|done]. by apply (pick_valid σ1 (with_mem m1 s)). }
  apply (sched_next_cases σ1); [done| | |by split|].
  - apply (queued_add σ Blocked). by left.
  - unfold pick. destruct (p_ready σ1) as [|n l] eqn:Hr; cbn; [done|]. intros ->. apply Hout.
    apply (queued_q _ Ready). change (p_ready σ1) with (p_ready σ) in Hr. cbn. rewrite Hr. apply list_elem_of_here.
  - intros s' Hs' Hsw Hqt. apply HR2; [done| | |exact Hqt].
    + destruct (pick_run σ1) as (_ & Efr & _ & Ek).
      eapply (kernel_inv_step σ); [done|exact Hs'| |apply Hsw|exact Efr|exact Ek].
      eapply frame_trans; [exact (cells_links _ _ Hf1)|].
      exact (switched_links _ _ _ _ Hsw Hrun).
    + by eapply switched_pre; [exact Hsw|..].
Qed.

Lemma wp_sys_block σ code data s R :
  kernel_inv σ code data s → cpu_ok (p_run σ) s → p_run σ ≠ 0 → block_fits σ s = true →
  (pending_of (k_mem s) (p_run σ) ≠ 0 →
     R tt (with_mem (store32 (k_mem s) (task_addr (p_run σ) + f_pending_unblocks)
             (u32 (pending_of (k_mem s) (p_run σ) - 1))) s)) →
  (pending_of (k_mem s) (p_run σ) = 0 →
     ∀ s', kernel_inv (block_table σ) code data s' →
           switched s s' (p_run σ) (p_run (block_table σ)) → R tt s') →
  wp sys_block s R.
Proof.
  intros Hinv Hcpu Hr0 Hl H1 H2. by apply (wp_or_elim _ _ _ _ _ (sys_block_cases σ code data s R Hinv Hcpu Hr0 H1 (λ Hp s' Hi Hs _, H2 Hp s' Hi Hs))).
Qed.

(** ** Walking the kernel's lists *)

Lemma valid_nodup_length l : NoDup l → (∀ i, i ∈ l → valid_task i) → (length l < S (Z.to_nat NR_TASKS))%nat.
Proof.
  intros Hn Hv. enough (length l ≤ length (seqZ 0 10))%nat as H.
  { rewrite length_seqZ in H. unfold NR_TASKS. lia. }
  apply submseteq_length, NoDup_submseteq; [done|]. intros i Hi%Hv. apply elem_of_seqZ.
  unfold valid_task, NR_TASKS in Hi. lia.
Qed.

Lemma rd_next m Q h xs xs1 c xs2 s :
  lists_ok kernel_cell m Q → Q !! h = Some xs → h :: xs = xs1 ++ c :: xs2 → k_mem s = m →
  on_mem (get_next c) s = Ret (default h (head xs2)) s.
Proof.
  intros Hok Hq Hsp Em.
  assert (Hc : kernel_cell c).
  { eapply lists_cell; [exact Hok|exact Hq|]. rewrite Hsp, elem_of_app, elem_of_cons. auto. }
  assert (El : load32 m c = default h (head xs2)).
  { pose proof (lists_dlist _ _ _ Hok _ _ Hq) as Hd. destruct xs1 as [|a xs1]; cbn in Hsp.
    - injection Hsp as -> ->. by apply dlist_next.
    - injection Hsp as -> ->. by eapply dlist_next_entry. }
  destruct (wp_elim (on_mem (get_next c)) s (λ v s', v = default h (head xs2) ∧ s' = s))
    as (v & s' & E & -> & ->); [|done].
  apply wp_on_mem, (wp_get_next kernel_cell); [done|]. by rewrite Em, El, <- Em, with_mem_same.
Qed.

(** The first child with a given identifier. *)
Definition child_with (m : memory) (ks : list Z) (pid : Z) : option Z :=
  head (filter (λ i, pid_of m i = pid) ks).

Lemma wp_find_child σ s ks pid R :
  qinv σ (k_mem s) → on_stack s (p_run σ) → p_kids σ !! p_run σ = Some ks →
  R (task_addr <$> child_with (k_mem s) ks pid) s → wp (find_child pid) s R.
Proof.
  intros Hq Hon Hk HR. destruct (pv_kids _ (qi_valid _ _ Hq) _ _ Hk) as [Hr Hv].
  pose proof (lists_of_kids _ _ _ Hr Hk) as Hl.
  pose proof (lists_nodup _ _ _ (qi_lists _ _ Hq) _ _ Hl) as Hnd. apply NoDup_cons in Hnd as [Hnh Hnd].
  unfold find_child. apply wp_bind, (wp_current (p_run σ)); [done|].
  change (task_addr (p_run σ) + f_childs) with (childs_of (p_run σ)).
  apply (wp_list_for_each _ (λ x, if load_int (k_mem s) (x - f_child_anchor + f_PID) =? pid
                              then Some (x - f_child_anchor) else None) _ _ (child_anchor_of <$> ks)).
  - done.
  - rewrite length_fmap. apply valid_nodup_length; [by apply NoDup_fmap_1 in Hnd|done].
  - intros xs1 c xs2 Hsp. eapply rd_next; [apply Hq|exact Hl|exact Hsp|done].
  - intros x (i & -> & Hi)%list_elem_of_fmap. rewrite list_entry_child_anchor.
    change (child_anchor_of i - f_child_anchor) with (list_entry (child_anchor_of i) f_child_anchor).
    rewrite list_entry_child_anchor.
    destruct (wp_elim (let! p := get_int_field (task_addr i) f_PID in
        ret (if p =? pid then Some (task_addr i) else None)) s (λ v s',
        v = (if load_int (k_mem s) (task_addr i + f_PID) =? pid then Some (task_addr i) else None) ∧ s' = s))
      as (v & s' & E & -> & ->); [|done].
    apply wp_bind, wp_get_int_field; [auto|solve_field..|]. by apply wp_ret.
  - replace (head (omap _ (child_anchor_of <$> ks))) with (task_addr <$> child_with (k_mem s) ks pid); [done|].
    clear. unfold child_with. induction ks as [|i ks IH]; [done|].
    rewrite filter_cons, fmap_cons. cbn [omap list_omap].
    change (child_anchor_of i - f_child_anchor) with (list_entry (child_anchor_of i) f_child_anchor).
    rewrite list_entry_child_anchor. fold (pid_of (k_mem s) i).
    destruct (Z.eqb_spec (pid_of (k_mem s) i) pid); [by rewrite decide_True|by rewrite decide_False].
Qed.

Lemma wp_find_blocked σ s i R :
  qinv σ (k_mem s) → R (if decide (i ∈ p_blocked σ) then Some tt else None) s →
  wp (find_blocked (task_addr i)) s R.
Proof.
  intros Hq HR. pose proof (lists_of_blocked σ) as Hl.
  pose proof (lists_nodup _ _ _ (qi_lists _ _ Hq) _ _ Hl) as Hnd. apply NoDup_cons in Hnd as [Hnh Hnd].
  unfold find_blocked. change (task_addr i + f_anchor) with (anchor_of i).
  apply (wp_list_for_each _ (λ x, if anchor_of i =? x then Some tt else None) _ _
           (anchor_of <$> p_blocked σ)).
  - done.
  - rewrite length_fmap. apply valid_nodup_length; [by apply NoDup_fmap_1 in Hnd|].
    intros j Hj. apply (qi_valid _ _ Hq). by apply (queued_q _ Blocked).
  - intros xs1 c xs2 Hsp. eapply rd_next; [apply Hq|exact Hl|exact Hsp|done].
  - done.
  - replace (head (omap _ (anchor_of <$> p_blocked σ)))
      with (if decide (i ∈ p_blocked σ) then Some tt else None); [done|].
    clear. induction (p_blocked σ) as [|j l IH]; [done|]. cbn.
    destruct (Z.eqb_spec (anchor_of i) (anchor_of j)) as [->%(inj anchor_of)|Hne].
    + rewrite decide_True; [done|apply list_elem_of_here].
    + rewrite <- IH. assert (i ≠ j) by congruence.
      destruct (decide (i ∈ l)); [rewrite decide_True|rewrite decide_False]; try done;
        rewrite elem_of_cons; tauto.
Qed.

(** ** unblock *)

(** A blocked task made ready. *)
Definition wake (i : Z) (σ : ptable) : ptable :=
  set_ready (p_ready σ ++ [i]) (set_blocked (filter (λ j, j ≠ i) (p_blocked σ)) σ).

Lemma wp_wake σ code data s i R :
  kernel_inv σ code data s → i ∈ p_blocked σ →
  (∀ m', kernel_inv (wake i σ) code data (with_mem m' s) → cells_only (k_mem s) m' → R tt (with_mem m' s)) →
  wp (on_mem (list_del (task_addr i + f_anchor)) ;!
      on_mem (list_add_tail (task_addr i + f_anchor) readyq)) s R.
Proof.
  intros Hinv Hb HR. pose proof Hinv as [[Hc Hout] _ _ _]. pose proof (sc_q _ _ Hc) as Hq.
  assert (Hi : valid_task i) by (apply (qi_valid _ _ Hq); by apply (queued_q _ Blocked)).
  apply list_elem_of_split in Hb as (l1 & l2 & Hb).
  assert (Ew : wake i σ = set_q Ready (get_q Ready σ ++ [i]) (set_q Blocked (l1 ++ l2) σ)).
  { unfold wake. rewrite Hb, filter_remove; [done|]. rewrite <- Hb.
    exact (queue_nodup _ _ Blocked (qi_lists _ _ Hq)). }
  change (task_addr i + f_anchor) with (anchor_of i).
  apply wp_bind, wp_on_mem, (wp_dequeue σ _ Blocked l1 i l2); [done..|]. intros m1 Hq1 Hf1. kred.
  apply wp_on_mem. kred. apply (wp_enqueue _ m1 Ready i _ Hq1 Hi).
  { eapply queue_remove_out; [apply Hq|done]. }
  intros m2 Hq2 Hf2. rewrite with_mem_mem. change (get_q Ready (set_q Blocked (l1 ++ l2) σ)) with (get_q Ready σ) in Hq2.
  rewrite <- Ew in Hq2. assert (Hf : cells_only (k_mem s) m2) by (by eapply frame_trans).
  apply HR; [|done].
  assert (Hqd : ∀ j, j ∈ queued (wake i σ) ↔ j ∈ queued σ).
  { intros j. rewrite Ew. unfold queued. cbn. rewrite Hb, !elem_of_app, !elem_of_cons, !elem_of_nil. tauto. }
  eapply (kernel_inv_step σ); [done| |by apply cells_links|done..].
  split; [|by rewrite Hqd]. eapply sched_core_cells; [done..| | |done].
  - intros j Hj. left. by apply Hqd.
  - split; [apply (sc_idle_q _ _ Hc)|]. unfold wake. cbn. rewrite list_elem_of_filter.
    destruct (sc_idle_q _ _ Hc). tauto.
Qed.

(** The running task's children, which unblock looks through. *)
Lemma run_kids σ code data s :
  kernel_inv σ code data s → ∃ ks, p_kids σ !! p_run σ = Some ks.
Proof.
  intros [[Hc Hout] Hfam _ _]. apply (fi_dom _ _ Hfam). split; [apply (sc_run _ _ Hc)|].
  intros Hf. apply Hout. by apply (queued_q _ Free).
Qed.

Lemma head_filter_elem {A} (P : A → Prop) `{∀ x, Decision (P x)} (l : list A) x :
  head (filter P l) = Some x → x ∈ l ∧ P x.
Proof.
  intros Hh. assert (Hx : x ∈ filter P l).
  { destruct (filter P l); [done|]. injection Hh as ->. apply list_elem_of_here. }
  apply list_elem_of_filter in Hx. tauto.
Qed.

Lemma wp_sys_unblock σ code data s pid ks R :
  kernel_inv σ code data s → on_stack s (p_run σ) → p_kids σ !! p_run σ = Some ks →
  (child_with (k_mem s) ks pid = None → R (-1) s) →
  (∀ i m', child_with (k_mem s) ks pid = Some i → i ∈ p_blocked σ →
     kernel_inv (wake i σ) code data (with_mem m' s) → cells_only (k_mem s) m' → R 0 (with_mem m' s)) →
  (∀ i m', child_with (k_mem s) ks pid = Some i → i ∉ p_blocked σ →
     m' = store32 (k_mem s) (task_addr i + f_pending_unblocks) (u32 (pending_of (k_mem s) i + 1)) →
     kernel_inv σ code data (with_mem m' s) → R 0 (with_mem m' s)) →
  wp (sys_unblock pid) s R.
Proof.
  intros Hinv Hon Hk HR0 HR1 HR2. pose proof Hinv as [[Hc Hout] _ _ _]. pose proof (sc_q _ _ Hc) as Hq.
  unfold sys_unblock. apply wp_bind, (wp_find_child σ s ks); [done..|].
  destruct (child_with (k_mem s) ks pid) as [i|] eqn:Hw; cbn; [|apply wp_ret; by apply HR0].
  destruct (head_filter_elem _ _ _ Hw) as [Hik Hpid].
  assert (Hi : valid_task i) by (by apply (pv_kids _ (qi_valid _ _ Hq) _ _ Hk)).
  apply wp_bind, (wp_find_blocked σ); [done|]. case_decide as Hb.
  - apply wp_bind. eapply (wp_wake σ); [done..|]. intros m' Hinv' Hf. apply wp_ret. by apply (HR1 i).
  - apply wp_bind, wp_bind, wp_get_int_field; [done|solve_field..|].
    apply wp_set_field; [done|solve_field..|]. apply wp_ret. apply (HR2 i); [done..|]. by apply kernel_inv_pending.
Qed.

(** C14. unblock.  Only a child of the caller can be unblocked: with no child
    of that identifier the call returns -1 and changes nothing.  A child
    that is blocked moves from its place in the blocked queue to the end of
    the ready queue; one that is not gets one more pending unblock, which its
    next block will consume.  In both cases the call returns 0 and the
    kernel's invariant holds. *)
Theorem sys_unblock_correct σ code data s pid :
  kernel_inv σ code data s → on_stack s (p_run σ) →
  ∃ ks, p_kids σ !! p_run σ = Some ks ∧
  match child_with (k_mem s) ks pid with
  | None => sys_unblock pid s = Ret (-1) s
  | Some i =>
      i ∈ ks ∧ pid_of (k_mem s) i = pid ∧
      ∃ m', sys_unblock pid s = Ret 0 (with_mem m' s) ∧
        (i ∈ p_blocked σ → kernel_inv (wake i σ) code data (with_mem m' s) ∧ cells_only (k_mem s) m') ∧
        (i ∉ p_blocked σ → kernel_inv σ code data (with_mem m' s) ∧
           m' = store32 (k_mem s) (task_addr i + f_pending_unblocks) (u32 (pending_of (k_mem s) i + 1)))
  end.
Proof.
  intros Hinv Hon. destruct (run_kids _ _ _ _ Hinv) as [ks Hk]. exists ks. split; [done|].
  destruct (wp_elim (sys_unblock pid) s (λ v s', match child_with (k_mem s) ks pid with
    | None => v = -1 ∧ s' = s
    | Some i => v = 0 ∧ ∃ m', s' = with_mem m' s ∧
        (i ∈ p_blocked σ → kernel_inv (wake i σ) code data (with_mem m' s) ∧ cells_only (k_mem s) m') ∧
        (i ∉ p_blocked σ → kernel_inv σ code data (with_mem m' s) ∧
           m' = store32 (k_mem s) (task_addr i + f_pending_unblocks) (u32 (pending_of (k_mem s) i + 1)))
    end)) as (v & s' & E & H).
  { apply (wp_sys_unblock σ code data s pid ks); [done..| | |].
    - by intros ->.
    - intros i m' -> Hb Hinv' Hf. split; [done|]. by exists m'.
    - intros i m' -> Hb Em Hinv'. split; [done|]. by exists m'. }
  destruct (child_with (k_mem s) ks pid) as [i|] eqn:Hw; [|by destruct H as [-> ->]].
  destruct (head_filter_elem _ _ _ Hw) as [Hik Hpid]. destruct H as [-> (m' & -> & H)]. split_and!; [done..|]. by exists m'.
Qed.

(** C13. block.  A task with pending unblocks consumes one and goes on; one
    without goes to the end of the blocked queue and the processor to the
    first ready task, or to the idle task if there is none, from where the
    blocked task can be resumed: the kernel's invariant holds for the new
    process table.  That needs the identifier of the task that gets the
    processor to be below 100: from 100 on, sched_next_rr overruns the three
    characters it has for it. *)
Theorem sys_block_correct σ code data s :
  let next := p_run (block_table σ) in
  kernel_inv σ code data s → cpu_ok (p_run σ) s → p_run σ ≠ 0 →
  (pending_of (k_mem s) (p_run σ) ≠ 0 →
     let s' := with_mem (store32 (k_mem s) (task_addr (p_run σ) + f_pending_unblocks)
                 (u32 (pending_of (k_mem s) (p_run σ) - 1))) s in
     sys_block s = Ret tt s' ∧ kernel_inv σ code data s') ∧
  (pending_of (k_mem s) (p_run σ) = 0 → pid_of (k_mem s) next < 100 →
     ∃ s', sys_block s = Ret tt s' ∧ kernel_inv (block_table σ) code data s' ∧
       p_blocked (block_table σ) = p_blocked σ ++ [p_run σ] ∧ next = default 0 (head (p_ready σ)) ∧
       switched s s' (p_run σ) next) ∧
  (pending_of (k_mem s) (p_run σ) = 0 → 100 ≤ pid_of (k_mem s) next → sys_block s = Fault (BufferOverflow 3)).
Proof.
  intros next Hinv Hcpu Hrun.
  assert (Ebl : p_blocked (block_table σ) = p_blocked σ ++ [p_run σ] ∧ next = default 0 (head (p_ready σ))).
  { unfold next, block_table, pick. cbn. by destruct (p_ready σ). }
  set (s1 := with_mem _ s).
  assert (Hw : wp_or (BufferOverflow 3) (block_fits σ s) sys_block s (λ _ s',
    (pending_of (k_mem s) (p_run σ) ≠ 0 → s' = s1 ∧ kernel_inv σ code data s1) ∧
    (pending_of (k_mem s) (p_run σ) = 0 → kernel_inv (block_table σ) code data s' ∧ switched s s' (p_run σ) next))).
  { apply (sys_block_cases σ code data); [done..| |].
    - intros Hp. split; [|done]. intros _. split; [done|]. apply kernel_inv_pending; [done|apply Hcpu].
    - intros Hp s' Hinv' Hsw _. done. }
  apply wp_or_elim in Hw as [Hok Hbad]. unfold block_fits, shows_pid in Hok, Hbad. fold next in Hok, Hbad. split_and!.
  - intros Hp. destruct (wp_elim _ _ _ (Hok ltac:(by destruct (Z.eqb_spec (pending_of (k_mem s) (p_run σ)) 0)))) as ([] & s' & E & H & _).
    destruct (H Hp) as [-> Hinv']. done.
  - intros Hp Hpid. destruct (wp_elim _ _ _ (Hok ltac:(apply orb_true_iff; right; by apply Z.ltb_lt))) as ([] & s' & E & _ & H).
    exists s'. destruct (H Hp), Ebl. done.
  - intros Hp Hpid. apply Hbad. rewrite Hp. by apply Z.ltb_ge.
Qed.
End Block.
