(* ===== verification/Fork.v ===== *)
(** fork: a new process with a copy of its parent's memory. *)

From S2P Require Import Prelude Memory CList Libc Console Frames Types Kernel Task Paging Utils Switch.
From S2P Require Import Sched Policy Space Process Sys.

Section Fork.
Context {L : Layout} {LO : LayoutOk L}.

(** ** The copy of the task union *)

(** Overwriting the union of a task that is on no list. *)
Lemma qinv_page σ m m' c :
  qinv σ m → valid_task c → frame (in_range (task_addr c) PAGE_SIZE) m m' →
  c ∉ queued σ → p_kids σ !! c = None → (∀ j ks, p_kids σ !! j = Some ks → c ∉ ks) →
  load32 m' (anchor_of c) = NULL → load32 m' (anchor_of c + 4) = NULL →
  qinv σ m'.
Proof.
  intros [Hv Hok Hl] Hc Hf Hnq Hnk Hnks E1 E2.
  assert (Hcell : ∀ d, (∃ i, valid_task i ∧ i ≠ c ∧
      (d = anchor_of i ∨ d = child_anchor_of i ∨ d = childs_of i)) ∨ queue_head d →
    load32 m' d = load32 m d ∧ load32 m' (d + 4) = load32 m (d + 4)).
  { intros d Hd. assert (Hout : ∀ b, in_range d 8 b → ¬ in_range (task_addr c) PAGE_SIZE b).
    { intros b Hb. destruct Hd as [(i & Hi & Hic & Hd)|Hd].
      - pose proof (task_addr_apart i c Hi Hc Hic).
        unfold in_range, apart, anchor_of, child_anchor_of, childs_of, f_anchor, f_child_anchor, f_childs,
          PAGE_SIZE in *. lia.
      - pose proof (heads_window d Hd).
        unfold in_range, valid_task, task_addr, sizeof_task_union, KERNEL_STACK_SIZE in *. lia. }
    split; apply (frame_load32 _ _ _ _ Hf); intros b Hb; apply Hout; unfold in_range in *; lia. }
  split; [done| |].
  - eapply lists_same; [exact Hok|]. intros d (h & xs & Hq & Hd). apply Hcell.
    destruct (lists_of_inv _ _ _ Hq) as [[Hh (l & -> & Hsub)]|(j & ks & -> & Hk & ->)];
      apply elem_of_cons in Hd as [->|Hd]; [by right| |left|left].
    + left. apply list_elem_of_fmap in Hd as (i & -> & Hi%Hsub). exists i.
      split; [by apply Hv|]. split; [intros ->; done|]. tauto.
    + exists j. destruct (pv_kids _ Hv j ks Hk) as [Hj _]. split; [done|]. split; [intros ->; congruence|]. tauto.
    + apply list_elem_of_fmap in Hd as (i & -> & Hi). exists i.
      destruct (pv_kids _ Hv j ks Hk) as [_ Hks]. split; [by apply Hks|]. split; [intros ->; by eapply Hnks|]. tauto.
  - intros i Hi Hn. destruct (decide (i = c)) as [->|Hne]; [done|].
    destruct (Hcell (anchor_of i)) as [-> ->]; [left; exists i; tauto|]. auto.
Qed.

(** The parent's union copied onto the child's. *)
Lemma wp_copy_union r c s R :
  valid_task r → valid_task c → r ≠ c → k_cr3 s = dir_addr r → space_ok (k_mem s) r →
  (∀ m', frame (in_range (task_addr c) PAGE_SIZE) (k_mem s) m' →
     (∀ o, 0 ≤ o < PAGE_SIZE → load8 m' (task_addr c + o) = load8 (k_mem s) (task_addr r + o)) →
     R tt (with_mem m' s)) →
  wp (copy_data (task_addr r) (task_addr c) 4096) s R.
Proof.
  intros Hr Hc Hne Hcr3 Hsp HR. pose proof (task_addr_window r Hr). pose proof (task_addr_window c Hc).
  pose proof (task_addr_apart r c Hr Hc Hne) as Hap.
  eapply (wp_copy_data (dir_addr r) _ _ 4096 (Z.add (task_addr r)) (Z.add (task_addr c)) (k_mem s));
    [|done|lia|done|].
  - apply copy_ok_kernel; [done|done|unfold KERNEL_LO, KERNEL_START, PAGE_SIZE in *; lia..|done|].
    intros a Ha. apply (task_word_apart c (Z.min (a - task_addr c) 4092)); [done|..];
      unfold in_range, PAGE_SIZE in *; lia.
  - intros m' Hf Hcp. apply HR; [|done]. eapply frame_weaken; [|exact Hf].
    intros a (i & Hi & ->). unfold in_range, PAGE_SIZE. lia.
Qed.

(** ** The code pages *)

Lemma wp_fork_code r c code m R s :
  valid_task r → valid_task c → r ≠ c → k_mem s = m →
  length code = Z.to_nat NUM_PAG_CODE → (∀ f, f ∈ code → 0 ≤ f < 2 ^ 20) →
  maps m r PAG_LOG_INIT_CODE PTE_CODE code →
  (∀ m', maps m' c PAG_LOG_INIT_CODE PTE_CODE code →
     frame (entry_bytes c PAG_LOG_INIT_CODE NUM_PAG_CODE) m m' → R tt (with_mem m' s)) →
  wp (fork_code (pt_addr c) (pt_addr r)) s R.
Proof.
  intros Hr Hc Hne Em Hlen Hcode Hm HR. unfold fork_code. eapply wp_mono.
  - apply (wp_for_range _ (λ k s', ∃ m', s' = with_mem m' s ∧
      maps m' c PAG_LOG_INIT_CODE PTE_CODE (take (Z.to_nat k) code) ∧
      frame (entry_bytes c PAG_LOG_INIT_CODE NUM_PAG_CODE) m m')).
    + exists m. split; [by rewrite <- Em, with_mem_same|]. split; [done|apply frame_refl].
    + intros k s' Hk (m1 & -> & Hm1 & Hf1).
      assert (Hkc : 0 ≤ k < NUM_PAG_CODE) by (unfold NUM_PAG_CODE in *; lia).
      destruct (lookup_lt_is_Some_2 code (Z.to_nat k)) as [f Hf]; [rewrite Hlen; lia|].
      assert (Hp : 0 ≤ PAG_LOG_INIT_CODE + k < TOTAL_PAGES)
        by (change PAG_LOG_INIT_CODE with 276; unfold NUM_PAG_CODE, TOTAL_PAGES in *; lia).
      destruct (pte_window r _ Hr Hp). destruct (pte_window c _ Hc Hp).
      apply wp_on_mem. kred. apply wp_bind, wp_kload32; [done..|]. apply wp_kstore32; [done..|].
      assert (E : load32 m1 (pte_addr (pt_addr r) (PAG_LOG_INIT_CODE + k)) = pte f PTE_CODE).
      { rewrite (frame_load32 _ _ _ _ Hf1).
        - specialize (Hm _ _ Hf). by rewrite Z2Nat.id in Hm by lia.
        - intros b. unfold entry_bytes, in_range, pte_addr, pt_addr, PAGE_SIZE, NUM_PAG_CODE in *.
          change PAG_LOG_INIT_CODE with 276 in *. destruct (decide (r < c)); lia. }
      rewrite E. pose proof (Hcode f (list_elem_of_lookup_2 _ _ _ Hf)) as Hfr.
      set (m2 := store32 m1 _ _). exists m2. split; [done|].
      assert (F : frame (in_range (pte_addr (pt_addr c) (PAG_LOG_INIT_CODE + k)) 4) m1 m2) by (by apply frame_store32).
      split.
      * replace (Z.to_nat (k + 1)) with (S (Z.to_nat k)) by lia. rewrite (take_S_r _ _ _ Hf).
        intros j g Hj. apply lookup_app_Some in Hj as [Hj|[Hlj Hj]].
        -- pose proof (lookup_lt_Some _ _ _ Hj) as Hlt. rewrite length_take in Hlt.
           rewrite (pte_other _ _ _ _ _ _ F); [by apply Hm1|done|..].
           ++ unfold TOTAL_PAGES, NUM_PAG_CODE in *. change PAG_LOG_INIT_CODE with 276 in *. lia.
           ++ intros [=]. lia.
        -- rewrite length_take, Hlen in Hlj, Hj. rewrite Nat.min_l in Hlj, Hj by (unfold NUM_PAG_CODE in *; lia).
           destruct (j - Z.to_nat k)%nat eqn:Ej; [|done]. injection Hj as <-.
           replace (PAG_LOG_INIT_CODE + Z.of_nat j) with (PAG_LOG_INIT_CODE + k) by lia.
           apply load32_store32_same, pte_range; [done|unfold PTE_CODE; lia].
      * eapply frame_trans; [done|]. eapply frame_weaken; [|exact F]. intros a.
        unfold entry_bytes, in_range, pte_addr, NUM_PAG_CODE in *. lia.
  - cbn beta. intros [] s' (m' & -> & Hm' & Hf'). apply HR; [|done].
    rewrite take_ge in Hm' by (rewrite Hlen; lia). done.
Qed.

(** ** The data pages *)

(** The bytes of a physical frame, and of the temporary page's entry. *)
Definition frame_bytes (f a : Z) : Prop := in_range (f * PAGE_SIZE) PAGE_SIZE a.
Definition temp_bytes (r : Z) : Z → Prop := in_range (pte_addr (pt_addr r) temp_pag) 4.

(** User frames lie above the kernel. *)
Lemma frame_bytes_high f a : allocatable f → frame_bytes f a → KERNEL_HI ≤ a.
Proof.
  intros [Hf _] Ha. unfold frame_bytes, in_range, NUM_PAG_KERNEL, PAGE_SIZE, KERNEL_HI in *. lia.
Qed.

Lemma table_word_low i p a :
  valid_task i → 0 ≤ p < TOTAL_PAGES → in_range (pte_addr (pt_addr i) p) 4 a → a < KERNEL_HI.
Proof.
  intros Hi Hp Ha. destruct (pte_window i p Hi Hp). unfold in_range in *. lia.
Qed.

Lemma entry_tables i p a :
  valid_task i → 0 ≤ p < TOTAL_PAGES → in_range (pte_addr (pt_addr i) p) 4 a → tables_bytes a.
Proof. intros Hi Hp Ha. eapply pt_bytes_tables; [exact Hi|]. by eapply pte_in_table. Qed.

Lemma dir_word_low i a : valid_task i → in_range (dir_addr i) 4 a → a < KERNEL_HI.
Proof. intros Hi Ha. pose proof (dir_addr_window i Hi). unfold in_range, PAGE_SIZE in *. lia. Qed.

(** Writing user frames does not change translations. *)
Lemma translate_high P m m' i p o f c :
  valid_task i → dir_ok m i → 0 ≤ p < TOTAL_PAGES → 0 ≤ o < PAGE_SIZE →
  load32 m (pte_addr (pt_addr i) p) = pte f c → 0 ≤ f < 2 ^ 20 → 0 ≤ c < 2 ^ 12 →
  Z.testbit c 0 = true →
  frame P m m' → (∀ a, P a → KERNEL_HI ≤ a) →
  translate m' (dir_addr i) (p * PAGE_SIZE + o) = Some (f * PAGE_SIZE + o).
Proof.
  intros Hi Hd Hp Ho He Hf Hc Hpr Hfr HP.
  rewrite (translate_entry m' i p o f c); try done.
  - by rewrite Hpr.
  - unfold dir_ok. rewrite (frame_load32 _ _ _ _ Hfr); [done|]. intros b Hb HPb%HP.
    pose proof (dir_word_low i b Hi Hb). lia.
  - rewrite (frame_load32 _ _ _ _ Hfr); [done|]. intros b Hb HPb%HP.
    pose proof (table_word_low i p b Hi Hp Hb). lia.
Qed.

(** A page copied between two frames through two pages of one address space. *)
Lemma copy_ok_pages m r p q d f c c' :
  valid_task r → dir_ok m r → 0 ≤ p < TOTAL_PAGES → 0 ≤ q < TOTAL_PAGES →
  load32 m (pte_addr (pt_addr r) p) = pte d c → load32 m (pte_addr (pt_addr r) q) = pte f c' →
  allocatable d → allocatable f → d ≠ f → 0 ≤ c < 2 ^ 12 → 0 ≤ c' < 2 ^ 12 →
  Z.testbit c 0 = true → Z.testbit c' 0 = true →
  copy_ok (dir_addr r) (p * PAGE_SIZE) (q * PAGE_SIZE) 4096
    (Z.add (d * PAGE_SIZE)) (Z.add (f * PAGE_SIZE)) m.
Proof.
  intros Hr Hd Hp Hq Ep Eq Had Haf Hne Hc Hc' Hpr Hpr'.
  destruct (allocatable_range d Had) as [Hdr _]. destruct (allocatable_range f Haf) as [Hfr _].
  assert (HP : ∀ a, dest_bytes 4096 (Z.add (f * PAGE_SIZE)) a → KERNEL_HI ≤ a).
  { intros a (i & Hi & ->). apply (frame_bytes_high f); [done|]. unfold frame_bytes, in_range, PAGE_SIZE. lia. }
  unfold TOTAL_PAGES in *. split.
  - intros m' i Hf Hi. rewrite u32_small by (unfold PAGE_SIZE; lia).
    by eapply translate_high.
  - intros m' i Hf Hi. rewrite u32_small by (unfold PAGE_SIZE; lia).
    by eapply translate_high.
  - lia.
  - intros i j Hi Hj. unfold PAGE_SIZE. lia.
Qed.

Lemma pte_other_task m m' i p j q :
  frame (in_range (pte_addr (pt_addr i) p) 4) m m' →
  0 ≤ p < TOTAL_PAGES → 0 ≤ q < TOTAL_PAGES → i ≠ j →
  load32 m' (pte_addr (pt_addr j) q) = load32 m (pte_addr (pt_addr j) q).
Proof. intros Hf Hp Hq Hne. eapply pte_other; [exact Hf|done|done|congruence]. Qed.

Definition page_writes (r c k f a : Z) : Prop :=
  in_range (pte_addr (pt_addr c) (PAG_LOG_INIT_DATA + k)) 4 a ∨ temp_bytes r a ∨ frame_bytes f a.

(** A page of the data segment is an entry of the page table other than the
    temporary one. *)
Lemma data_page_range k :
  0 ≤ k < NUM_PAG_DATA →
  0 ≤ PAG_LOG_INIT_DATA + k < TOTAL_PAGES ∧ PAG_LOG_INIT_DATA + k ≠ temp_pag.
Proof.
  change PAG_LOG_INIT_DATA with 256. change temp_pag with 1023.
  unfold NUM_PAG_DATA, TOTAL_PAGES. lia.
Qed.

(** Copying a page leaves the task structures alone. *)
Lemma page_writes_dir_field r c k f m m' :
  valid_task r → valid_task c → 0 ≤ k < NUM_PAG_DATA → allocatable f →
  frame (page_writes r c k f) m m' →
  load32 m' (task_addr r + f_dir_pages_baseAddr) = load32 m (task_addr r + f_dir_pages_baseAddr).
Proof.
  intros Hr Hc Hk Haf HF. apply (frame_load32 _ _ _ _ HF). intros b Hb Hw.
  destruct (data_page_range k Hk) as [Hpk _].
  destruct (task_word_apart r f_dir_pages_baseAddr b) as [Ht _]; [done|solve_field..|done|].
  pose proof (task_addr_window r Hr). destruct Hw as [Hw|[Hw|Hw]].
  - apply Ht. exact (entry_tables c _ b Hc Hpk Hw).
  - apply Ht. by apply (entry_tables r temp_pag b Hr).
  - pose proof (frame_bytes_high f b Haf Hw).
    unfold in_range, f_dir_pages_baseAddr, PAGE_SIZE in *. lia.
Qed.

Lemma wp_fork_page r c k d f s R :
  valid_task r → valid_task c → r ≠ c → 0 ≤ k < NUM_PAG_DATA →
  k_cr3 s = dir_addr r → on_stack s r → dir_ok (k_mem s) r →
  load32 (k_mem s) (task_addr r + f_dir_pages_baseAddr) = dir_addr r →
  load32 (k_mem s) (pte_addr (pt_addr r) (PAG_LOG_INIT_DATA + k)) = pte d PTE_DATA →
  allocatable d → allocatable f → d ≠ f →
  (∀ m', load32 m' (pte_addr (pt_addr c) (PAG_LOG_INIT_DATA + k)) = pte f PTE_DATA →
     load32 m' (pte_addr (pt_addr r) temp_pag) = 0 →
     (∀ o, 0 ≤ o < PAGE_SIZE → load8 m' (f * PAGE_SIZE + o) = load8 (k_mem s) (d * PAGE_SIZE + o)) →
     frame (page_writes r c k f) (k_mem s) m' → R tt (with_mem m' s)) →
  wp (fork_page (pt_addr c) (pt_addr r) k f) s R.
Proof.
  intros Hr Hc Hrc Hk Hcr3 Hon Hd Hfield Ed Had Haf Hdf HR.
  destruct (allocatable_range f Haf) as [Hfr _]. destruct (allocatable_range d Had) as [Hdr _].
  destruct (data_page_range k Hk) as [Hpk Hkt]. assert (Hpt : 0 ≤ temp_pag < TOTAL_PAGES) by done.
  destruct (pte_window c _ Hc Hpk) as [Hck1 Hck2]. destruct (pte_window r _ Hr Hpt) as [Hrt1 Hrt2].
  unfold fork_page. apply wp_bind, wp_on_mem.
  apply (wp_set_ss_pag (pt_addr c) (PAG_LOG_INIT_DATA + k) Hck1 Hck2 f); [done|]. intros m1 E1 F1. kred.
  apply wp_bind, wp_on_mem. kred. apply (wp_set_ss_pag _ _ Hrt1 Hrt2); [done|]. intros m2 E2 F2. kred.
  assert (HF12 : frame (λ a, in_range (pte_addr (pt_addr c) (PAG_LOG_INIT_DATA + k)) 4 a ∨ temp_bytes r a)
                   (k_mem s) m2).
  { eapply frame_trans; (eapply frame_weaken; [|eassumption]); cbn; auto. }
  assert (Hd2 : dir_ok m2 r).
  { eapply dir_word_frame; [done|exact HF12| |done]. intros a Ha [Hb|Hb];
      (eapply tables_dirs_apart; [exact Ha|]); (eapply entry_tables; [| |exact Hb]); done. }
  assert (Ed2 : load32 m2 (pte_addr (pt_addr r) (PAG_LOG_INIT_DATA + k)) = pte d PTE_DATA).
  { rewrite (pte_other _ _ _ _ _ _ F2), (pte_other_task _ _ _ _ _ _ F1) by (done || congruence). done. }
  apply wp_bind.
  replace (Z.shiftl (PAG_LOG_INIT_DATA + k) 12) with ((PAG_LOG_INIT_DATA + k) * PAGE_SIZE)
    by (by rewrite Z.shiftl_mul_pow2 by lia).
  change (Z.shiftl temp_pag 12) with (temp_pag * PAGE_SIZE).
  eapply (wp_copy_data (dir_addr r) _ _ 4096 (Z.add (d * PAGE_SIZE)) (Z.add (f * PAGE_SIZE)) m2);
    [by eapply copy_ok_pages|done|lia|done|].
  intros m3 F3 Hcp. kred.
  assert (F3' : frame (frame_bytes f) m2 m3).
  { eapply frame_weaken; [|exact F3]. intros a (i & Hi & ->). unfold frame_bytes, in_range, PAGE_SIZE. lia. }
  apply wp_bind, wp_on_mem. kred. apply (wp_set_entry _ _ Hrt1 Hrt2); [lia|]. intros m4 E4 F4. kred.
  apply wp_bind, (wp_current r); [done|].
  assert (HF : frame (page_writes r c k f) (k_mem s) m4).
  { eapply frame_trans; [eapply frame_weaken; [|exact HF12]; unfold page_writes; tauto|].
    eapply frame_trans; (eapply frame_weaken; [|eassumption]); unfold page_writes, temp_bytes; tauto. }
  assert (Hlow : ∀ a, a < KERNEL_HI → ¬ frame_bytes f a).
  { intros a Ha Hb. pose proof (frame_bytes_high f a Haf Hb). lia. }
  apply wp_bind, wp_get_field; [done|solve_field..|]. kred.
  rewrite (page_writes_dir_field _ _ _ _ _ _ Hr Hc Hk Haf HF), Hfield. apply wp_modify.
  replace (with_cr3 (dir_addr r) _) with (with_mem m4 s) by (destruct s; kred_all; by subst).
  apply HR; [| | |exact HF].
  - rewrite (pte_other_task _ _ _ _ _ _ F4) by done. rewrite (frame_load32 _ _ _ _ F3').
    + rewrite (pte_other_task _ _ _ _ _ _ F2) by done. done.
    + intros b Hb. apply Hlow. exact (table_word_low c _ _ Hc Hpk Hb).
  - done.
  - intros o Ho. rewrite F4.
    + rewrite Hcp by (unfold PAGE_SIZE in *; lia). apply HF12. intros Hb.
      enough (d * PAGE_SIZE + o < KERNEL_HI).
      { destruct Had as [Hlo _]. unfold NUM_PAG_KERNEL, KERNEL_HI, PAGE_SIZE in *. lia. }
      destruct Hb as [Hb|Hb]; [exact (table_word_low c _ _ Hc Hpk Hb)|exact (table_word_low r _ _ Hr Hpt Hb)].
    + intros Hb. pose proof (table_word_low r _ _ Hr Hpt Hb).
      destruct Haf as [Hlo _]. unfold NUM_PAG_KERNEL, KERNEL_HI, PAGE_SIZE in *. lia.
Qed.

(** ** The loop over the data pages *)

Section Loop.
Context (r c : Z) (dat used : list Z) (s0 : kstate).

(** What the loop writes: the child's entries, the temporary entry of the
    parent, and the frames it was given. *)
Definition fork_writes (fs : list Z) (a : Z) : Prop :=
  entry_bytes c PAG_LOG_INIT_DATA NUM_PAG_DATA a ∨ temp_bytes r a ∨ ∃ f, f ∈ fs ∧ frame_bytes f a.

(** After [length fs] pages: the frames [fs] are the child's and hold copies
    of the parent's. *)
Definition fork_done (fs : list Z) (s : kstate) : Prop :=
  ∃ m' pm', s = with_phys_mem pm' (with_mem m' s0) ∧ taken (k_phys_mem s0) pm' fs ∧
    maps m' c PAG_LOG_INIT_DATA PTE_DATA fs ∧
    (∀ j f d o, fs !! j = Some f → dat !! j = Some d → 0 ≤ o < PAGE_SIZE →
       load8 m' (f * PAGE_SIZE + o) = load8 (k_mem s0) (d * PAGE_SIZE + o)) ∧
    load32 m' (pte_addr (pt_addr r) temp_pag) = 0 ∧
    frame (fork_writes fs) (k_mem s0) m'.

Context (Hr : valid_task r) (Hc : valid_task c) (Hrc : r ≠ c).
Context (Hcr3 : k_cr3 s0 = dir_addr r) (Hon : on_stack s0 r) (Hd : dir_ok (k_mem s0) r).
Context (Hfield : load32 (k_mem s0) (task_addr r + f_dir_pages_baseAddr) = dir_addr r).
Context (Hlen : length dat = Z.to_nat NUM_PAG_DATA).
Context (Hmaps : maps (k_mem s0) r PAG_LOG_INIT_DATA PTE_DATA dat).
Context (Hdat : ∀ d, d ∈ dat → allocatable d ∧ pm_get (k_phys_mem s0) d ≠ FREE_FRAME).
Context (Hused : ∀ f, allocatable f → pm_get (k_phys_mem s0) f ≠ FREE_FRAME → f ∈ used).
Context (Hroom : (20 + length used ≤ 384)%nat).

(** Words of the kernel that the loop does not write. *)
Lemma fork_writes_word fs m' a :
  frame (fork_writes fs) (k_mem s0) m' → (∀ f, f ∈ fs → allocatable f) → a + 4 ≤ KERNEL_HI →
  (∀ b, in_range a 4 b → (¬ entry_bytes c PAG_LOG_INIT_DATA NUM_PAG_DATA b) ∧ (¬ temp_bytes r b)) →
  load32 m' a = load32 (k_mem s0) a.
Proof.
  intros Hf Ha Hlow Hout. apply (frame_load32 _ _ _ _ Hf). intros b Hb.
  destruct (Hout b Hb). intros [?|[?|(f & Hin & Hfb)]]; [done..|].
  pose proof (frame_bytes_high f b (Ha f Hin) Hfb). unfold in_range in Hb. lia.
Qed.

Lemma fork_tables_out b : ¬ tables_bytes b →
  (¬ entry_bytes c PAG_LOG_INIT_DATA NUM_PAG_DATA b) ∧ (¬ temp_bytes r b).
Proof.
  intros Ht. split; intros Hb; apply Ht.
  - eapply (pt_bytes_tables c); [done|].
    unfold entry_bytes, pt_bytes, in_range, pte_addr in *. change PAG_LOG_INIT_DATA with 256 in *.
    unfold NUM_PAG_DATA, PAGE_SIZE in *. lia.
  - exact (entry_tables r temp_pag b Hr ltac:(done) Hb).
Qed.

(** What copying one more page leaves: its frame is the child's, the entries and
    copies of the pages before are kept. *)
Section Step.
Context (fs : list Z) (d f : Z) (m1 m2 : memory) (pm1 : frame_map).
Context (Ht : taken (k_phys_mem s0) pm1 fs) (Hdk : dat !! length fs = Some d).
Context (Haf : allocatable f) (Hfree : pm_get pm1 f = FREE_FRAME).
Context (F2 : frame (page_writes r c (Z.of_nat (length fs)) f) m1 m2).

Lemma step_pages : 0 ≤ PAG_LOG_INIT_DATA + Z.of_nat (length fs) < TOTAL_PAGES.
Proof.
  pose proof (lookup_lt_Some _ _ _ Hdk) as Hk. rewrite Hlen in Hk.
  change PAG_LOG_INIT_DATA with 256. unfold NUM_PAG_DATA, TOTAL_PAGES in *. lia.
Qed.

Lemma high_frame g o : allocatable g → 0 ≤ o → KERNEL_HI ≤ g * PAGE_SIZE + o.
Proof. intros [Hg _] Ho. unfold NUM_PAG_KERNEL, KERNEL_HI, PAGE_SIZE in *. lia. Qed.

Lemma step_frame g o :
  allocatable g → g ≠ f → 0 ≤ o < PAGE_SIZE → ¬ page_writes r c (Z.of_nat (length fs)) f (g * PAGE_SIZE + o).
Proof.
  intros Hg Hgf Ho Hw. pose proof (high_frame g o Hg ltac:(lia)). pose proof step_pages as Hpk. destruct Hw as [Hw|[Hw|Hw]].
  - pose proof (table_word_low c _ _ Hc Hpk Hw). lia.
  - pose proof (table_word_low r temp_pag _ Hr ltac:(done) Hw). lia.
  - unfold frame_bytes, in_range, PAGE_SIZE in *. lia.
Qed.

Lemma step_maps :
  maps m1 c PAG_LOG_INIT_DATA PTE_DATA fs →
  load32 m2 (pte_addr (pt_addr c) (PAG_LOG_INIT_DATA + Z.of_nat (length fs))) = pte f PTE_DATA →
  maps m2 c PAG_LOG_INIT_DATA PTE_DATA (fs ++ [f]).
Proof.
  intros Hm E2 j g Hj. pose proof step_pages as Hpk. apply lookup_app_Some in Hj as [Hj|[Hlj Hj]].
  - pose proof (lookup_lt_Some _ _ _ Hj) as Hjl. rewrite <- (Hm _ _ Hj).
    apply (frame_load32 _ _ _ _ F2). intros b Hb Hw.
    assert (Hpj : 0 ≤ PAG_LOG_INIT_DATA + Z.of_nat j < TOTAL_PAGES)
      by (clear -Hpk Hjl; change PAG_LOG_INIT_DATA with 256 in *; lia).
    pose proof (table_word_low c _ _ Hc Hpj Hb). destruct Hw as [Hw|[Hw|Hw]].
    + unfold in_range, pte_addr in *. lia.
    + unfold temp_bytes, in_range, pte_addr, pt_addr, TOTAL_PAGES, PAGE_SIZE in *.
      change temp_pag with 1023 in *. destruct (decide (r < c)); lia.
    + pose proof (frame_bytes_high f b Haf Hw). lia.
  - destruct (j - length fs)%nat eqn:Ej; [|done]. injection Hj as <-.
    by replace (Z.of_nat j) with (Z.of_nat (length fs)) by lia.
Qed.

Lemma step_copies :
  frame (fork_writes fs) (k_mem s0) m1 →
  (∀ j g e o, fs !! j = Some g → dat !! j = Some e → 0 ≤ o < PAGE_SIZE →
     load8 m1 (g * PAGE_SIZE + o) = load8 (k_mem s0) (e * PAGE_SIZE + o)) →
  (∀ o, 0 ≤ o < PAGE_SIZE → load8 m2 (f * PAGE_SIZE + o) = load8 m1 (d * PAGE_SIZE + o)) →
  ∀ j g e o, (fs ++ [f]) !! j = Some g → dat !! j = Some e → 0 ≤ o < PAGE_SIZE →
    load8 m2 (g * PAGE_SIZE + o) = load8 (k_mem s0) (e * PAGE_SIZE + o).
Proof.
  intros Hf Hcp C2 j g e o Hj He Ho. destruct Ht as (_ & _ & Hfs & Hg).
  destruct (Hdat d (list_elem_of_lookup_2 _ _ _ Hdk)) as [Had Hdu].
  apply lookup_app_Some in Hj as [Hj|[Hlj Hj]].
  - assert (Hg' : g ∈ fs) by (by eapply list_elem_of_lookup_2).
    rewrite <- (Hcp j g e o Hj He Ho). apply F2. apply step_frame; [by apply Hfs| |done].
    intros ->. rewrite Hg in Hfree by (apply allocatable_range in Haf; lia). by rewrite decide_True in Hfree.
  - destruct (j - length fs)%nat eqn:Ej; [|done]. injection Hj as <-.
    replace j with (length fs) in He by lia. rewrite Hdk in He. injection He as <-.
    rewrite C2 by done. apply Hf. intros Hw. pose proof (high_frame d o Had ltac:(lia)).
    destruct Hw as [Hw|[Hw|(g & Hin & Hw)]].
    + unfold entry_bytes, in_range in Hw. destruct (pte_window c (PAG_LOG_INIT_DATA + 19) Hc ltac:(done)).
      unfold pte_addr, NUM_PAG_DATA in *. lia.
    + pose proof (table_word_low r temp_pag _ Hr ltac:(done) Hw). lia.
    + destruct (Hfs g Hin) as [_ Hgf]. assert (d = g); [|congruence].
      unfold frame_bytes, in_range, PAGE_SIZE in *. lia.
Qed.

Lemma step_writes : frame (fork_writes fs) (k_mem s0) m1 → frame (fork_writes (fs ++ [f])) (k_mem s0) m2.
Proof.
  intros Hf. pose proof (lookup_lt_Some _ _ _ Hdk) as Hk. rewrite Hlen in Hk.
  eapply frame_trans; (eapply frame_weaken; [|eassumption]).
  - intros a [?|[?|(g & Hin & Hw)]]; unfold fork_writes; [tauto..|]. right. right. exists g.
    split; [|done]. rewrite elem_of_app. auto.
  - intros a [Hw|[Hw|Hw]]; unfold fork_writes; [left| |].
    + unfold entry_bytes, in_range, pte_addr, NUM_PAG_DATA in *. lia.
    + tauto.
    + right. right. exists f. split; [|done]. rewrite elem_of_app, list_elem_of_singleton. auto.
Qed.
End Step.

(** One more page. *)
Lemma wp_fork_step fs d s R :
  fork_done fs s → dat !! length fs = Some d →
  (∀ f s', fork_done (fs ++ [f]) s' → R tt s') →
  wp (let! new_ph_pag := k_alloc_frame in
      if new_ph_pag =? -1 then fail OutOfFuel
      else fork_page (pt_addr c) (pt_addr r) (Z.of_nat (length fs)) new_ph_pag) s R.
Proof.
  intros (m1 & pm1 & -> & Ht & Hm & Hcp & Htmp & Hf) Hdk HR. pose proof Ht as (Hok & Hnd & Hfs & Hg).
  pose proof (lookup_lt_Some _ _ _ Hdk) as Hk. rewrite Hlen in Hk.
  assert (Hk' : 0 ≤ Z.of_nat (length fs) < NUM_PAG_DATA) by (unfold NUM_PAG_DATA in *; lia).
  destruct (Hdat d (list_elem_of_lookup_2 _ _ _ Hdk)) as [Had Hdu].
  assert (Hal : ∀ f, f ∈ fs → allocatable f) by (intros f Hin; by apply Hfs).
  apply wp_bind. eapply (wp_k_alloc_frame _ (fs ++ used)); kred; [done|by eapply taken_used| |].
  { rewrite length_app. unfold NUM_PAG_DATA in *. lia. }
  intros f Haf Hfree _. destruct (Z.eqb_spec f (-1)) as [->|_]; [by destruct Haf as [[] _]|].
  assert (Hdf : d ≠ f).
  { intros ->. rewrite Hg in Hfree by (apply allocatable_range in Haf; lia). by case_decide. }
  destruct (data_page_range _ Hk') as [Hpk _].
  destruct (pte_window r _ Hr Hpk) as [_ Hw2].
  apply (wp_fork_page r c _ d f); kred; try done.
  - eapply dir_word_frame; [done|exact Hf| |done]. intros a Ha Hw.
    destruct (fork_tables_out a) as [H1 H2]; [by apply tables_dirs_apart|].
    destruct Hw as [?|[?|(g & Hin & Hfb)]]; [done..|].
    pose proof (frame_bytes_high g a (Hal g Hin) Hfb). pose proof dir_window.
    unfold dirs_bytes, in_range in Ha. lia.
  - pose proof (task_addr_window r Hr).
    rewrite (fork_writes_word fs); [done|done|done|unfold f_dir_pages_baseAddr, PAGE_SIZE in *; lia|].
    intros b Hb. apply fork_tables_out.
    by destruct (task_word_apart r f_dir_pages_baseAddr b) as [? _]; [done|solve_field..|done|].
  - rewrite (fork_writes_word fs); [by apply Hmaps|done|done|done|]. intros b Hb. split; intros Hx.
    + unfold entry_bytes, in_range, pte_addr, pt_addr, PAGE_SIZE, NUM_PAG_DATA in *.
      change PAG_LOG_INIT_DATA with 256 in *. destruct (decide (r < c)); lia.
    + unfold temp_bytes, in_range, pte_addr in *. change temp_pag with 1023 in *.
      change PAG_LOG_INIT_DATA with 256 in *. unfold NUM_PAG_DATA in *. lia.
  - intros m2 E2 T2 C2 F2. apply (HR f). exists m2, (pm_set pm1 f USED_FRAME). split_and!; [done|by apply taken_snoc|..].
    + by eapply step_maps.
    + by eapply step_copies.
    + done.
    + by eapply step_writes.
Qed.

(** The loop copies all twenty pages: the allocator cannot run out. *)
Lemma wp_fork_data n fs s R :
  fork_done fs s → (length fs + n = Z.to_nat NUM_PAG_DATA)%nat →
  (∀ fs' s', fork_done fs' s' → length fs' = Z.to_nat NUM_PAG_DATA → R true s') →
  wp (fork_data n (Z.of_nat (length fs)) (pt_addr c) (pt_addr r)) s R.
Proof.
  revert fs s. induction n as [|n IH]; intros fs s Hdone Hn HR; cbn [fork_data].
  - apply wp_ret. apply (HR fs); [done|lia].
  - destruct (lookup_lt_is_Some_2 dat (length fs)) as [d Hdk]; [rewrite Hlen; lia|].
    assert (Hnext : ∀ f s', fork_done (fs ++ [f]) s' →
      wp (fork_data n (Z.of_nat (length fs) + 1) (pt_addr c) (pt_addr r)) s' R).
    { intros f s' Hd'.
      replace (Z.of_nat (length fs) + 1) with (Z.of_nat (length (fs ++ [f]))) by (rewrite length_app; cbn; lia).
      apply IH; [done|rewrite length_app; cbn; lia|done]. }
    pose proof (wp_fork_step fs d s (λ _ s', wp (fork_data n (Z.of_nat (length fs) + 1) (pt_addr c)
      (pt_addr r)) s' R) Hdone Hdk Hnext) as Hw.
    unfold wp, bind in *. destruct (k_alloc_frame s) as [f s1|]; [|done].
    destruct (f =? -1); [done|]. by destruct (fork_page _ _ _ f s1) as [[] s2|].
Qed.
End Loop.

(** ** Identifier, family and stack of the child *)

Definition next_pid (last pos : Z) : Z := if last + 1 =? pos then last + 2 else last + 1.

Lemma wp_fork_pid pos s R :
  0 ≤ k_last_pid s < 2 ^ 31 - 2 →
  (let p := next_pid (k_last_pid s) pos in R p (with_last_pid p s)) →
  wp (fork_pid 2 pos) s R.
Proof.
  intros Hl HR. unfold next_pid in HR. cbn [fork_pid]. unfold new_pid.
  apply wp_bind, wp_bind, wp_modify, wp_gets. kred. rewrite s32_small by lia.
  destruct (Z.eqb_spec (k_last_pid s + 1) pos) as [Hp|Hp]; cbv zeta in HR.
  - apply wp_bind, wp_bind, wp_modify, wp_gets. kred. rewrite s32_small by lia.
    replace (k_last_pid s + 1 + 1) with (k_last_pid s + 2) by lia.
    destruct (Z.eqb_spec (k_last_pid s + 2) pos); [lia|]. by apply wp_ret.
  - by apply wp_ret.
Qed.

(** What the steps after the copies write: links, and the child's union. *)
Definition child_writes (c a : Z) : Prop :=
  cell_bytes kernel_cell a ∨ in_range (task_addr c) PAGE_SIZE a.

Lemma wp_fork_family σ r c ks pid s R :
  qinv σ (k_mem s) → on_stack s r → valid_task c → r ≠ c → 0 ≤ pid < 2 ^ 31 →
  p_kids σ !! c = None → p_kids σ !! r = Some ks → (∀ j l, p_kids σ !! j = Some l → c ∉ l) →
  (∀ m', qinv (set_kids (<[r := ks ++ [c]]> (<[c := []]> (p_kids σ))) σ) m' →
     frame (child_writes c) (k_mem s) m' →
     pid_of m' c = pid → parent_of m' c = task_addr r →
     (∀ f, plain_field f → f_anchor ≤ f → f ≠ f_parent → (f + 4 ≤ f_parent ∨ f_child_anchor ≤ f) →
        load32 m' (task_addr c + f) = load32 (k_mem s) (task_addr c + f)) →
     R tt (with_mem m' s)) →
  wp (fork_family (task_addr c) pid) s R.
Proof.
  intros Hq Hon Hc Hrc Hpid Hkc Hkr Hout HR. destruct Hon as [Hr Hesp].
  pose proof (task_addr_window r Hr) as Hw. unfold KERNEL_START, KERNEL_HI, PAGE_SIZE in Hw.
  unfold fork_family. apply wp_bind, wp_set_field; [done|solve_field..|]. kred.
  apply wp_bind, (wp_current r); [by split|]. apply wp_bind, wp_set_field; [done|solve_field..|]. kred.
  set (m2 := store32 (store32 _ _ _) _ _).
  assert (Hq2 : qinv σ m2) by (apply qinv_set_field; [apply qinv_set_field|..]; done || solve_field).
  apply wp_bind, wp_on_mem. kred. change (task_addr c + f_childs) with (childs_of c).
  apply (wp_init_childs σ); [done..|]. intros m3 Hq3 Hf3. kred.
  apply wp_bind, (wp_current r); [by split|]. apply wp_on_mem. kred.
  change (task_addr c + f_child_anchor) with (child_anchor_of c).
  change (task_addr r + f_childs) with (childs_of r).
  apply (wp_kid_add _ m3 r ks c _ Hq3 Hc).
  { cbn [p_kids set_kids]. by rewrite lookup_insert_ne. }
  { cbn [p_kids set_kids]. intros k l. rewrite lookup_insert_Some.
    intros [[<- <-]|[_ Hk]]; [apply not_elem_of_nil|by eapply Hout]. }
  intros m4 Hq4 Hf4. rewrite !with_mem_mem.
  assert (Hpl : ∀ f, plain_field f → load32 m4 (task_addr c + f) = load32 m2 (task_addr c + f)).
  { intros f Hf. rewrite (cells_plain _ _ _ _ Hf4) by done. apply (frame_load32 _ _ _ _ Hf3). intros b Hb Hb'.
    eapply (cell_not_plain c f b); [done..|]. exists (childs_of c). split; [by apply childs_cell|done]. }
  apply HR; clear HR.
  - exact Hq4.
  - eapply frame_trans; [|eapply frame_weaken; [|exact Hf4]; by left].
    eapply frame_trans; [|eapply frame_weaken; [|exact Hf3]].
    + subst m2. eapply frame_trans; apply frame_store32; intros b Hb; right;
        unfold in_range, f_PID, f_parent, PAGE_SIZE in *; lia.
    + intros a Ha. right. unfold in_range, childs_of, f_childs, PAGE_SIZE in *. lia.
  - unfold pid_of, load_int. rewrite Hpl by solve_field. subst m2.
    rewrite field_store_ne by (done || solve_field). rewrite load32_store32_same by lia. apply s32_small. lia.
  - unfold parent_of. rewrite Hpl by solve_field. apply load32_store32_same. lia.
  - intros f Hf H1 H2 H3. rewrite Hpl by done. subst m2. destruct Hf as (? & ? & _).
    by rewrite !field_store_ne by (done || solve_field).
Qed.

(** The frame fork is called with: its frame pointer, and above it the return
    address into the system call handler and the saved user context. *)
Definition service_frame (s : kstate) (r k : Z) : Prop :=
  ebp (k_regs s) = stack_addr (task_addr r) k ∧ sizeof_task_struct + 4 ≤ 4 * k ∧
  4 * k + 72 ≤ PAGE_SIZE ∧ load32 (k_mem s) (stack_addr (task_addr r) (k + 1)) = addr_service_ret.

Lemma wp_fork_stack σ r c k s R :
  qinv σ (k_mem s) → on_stack s r → valid_task c →
  ebp (k_regs s) = stack_addr (task_addr r) k → sizeof_task_struct + 4 ≤ 4 * k → 4 * k + 72 ≤ PAGE_SIZE →
  load32 (k_mem s) (stack_addr (task_addr c) (k + 1)) = addr_service_ret →
  (∀ m', qinv σ m' → frame (in_range (task_addr c) PAGE_SIZE) (k_mem s) m' → forked m' c →
     load32 m' (task_addr c + f_kernel_esp) = stack_addr (task_addr c) (k - 1) →
     (∀ f, 0 ≤ f → f + 4 ≤ PAGE_SIZE → (f + 4 ≤ f_kernel_esp ∨ f_state ≤ f) →
        (f + 4 ≤ sizeof_task_struct ∨ 4 * k + 4 ≤ f) →
        load32 m' (task_addr c + f) = load32 (k_mem s) (task_addr c + f)) →
     R tt (with_mem m' s)) →
  wp (fork_stack (task_addr c)) s R.
Proof.
  intros Hq Hon Hc Hebp Hk1 Hk2 Hret HR. pose proof (task_addr_window c Hc) as Hw.
  pose proof (code_window addr_ret_from_fork ltac:(set_solver)) as Hcode.
  unfold stack_addr, KERNEL_STACK_SIZE, KERNEL_START, KERNEL_HI, sizeof_task_struct, PAGE_SIZE in *.
  unfold fork_stack. apply wp_bind, wp_gets. apply wp_bind, (wp_current r); [done|]. cbv zeta.
  rewrite Hebp. unfold stack_addr, KERNEL_STACK_SIZE.
  replace (task_addr r + 4 * (1024 - 1) - (task_addr r + 4 * k - 4)) with ((1024 - k) * 4) by lia.
  rewrite Z.quot_mul by lia.
  replace (task_addr c + 4 * (1024 - 1) - 4 * (1024 - k)) with (task_addr c + 4 * (k - 1)) by lia.
  replace (1024 - (1024 - k)) with k by lia.
  apply wp_bind, wp_set_field; [done|solve_field..|]. kred.
  apply wp_bind, wp_on_mem, wp_kstore32; kred; [unfold KERNEL_LO; lia|unfold KERNEL_HI; lia|].
  apply wp_on_mem, wp_kstore32; kred; [unfold KERNEL_LO; lia|unfold KERNEL_HI; lia|]. rewrite !with_mem_mem.
  assert (Hpl : ∀ f, 52 ≤ f → f + 4 ≤ 4096 → plain_field f) by (intros f ? ?; solve_field).
  assert (Hesp : load32 (store32 (store32 (store32 (k_mem s) (task_addr c + f_kernel_esp)
      (task_addr c + 4 * (k - 1))) (task_addr c + 4 * k) addr_ret_from_fork)
      (task_addr c + 4 * (k - 1)) 0) (task_addr c + f_kernel_esp) = task_addr c + 4 * (k - 1)).
  { rewrite !load32_store32_ne by (unfold f_kernel_esp; lia). apply load32_store32_same. lia. }
  apply HR; clear HR.
  - repeat (apply qinv_set_field; [|done|]); try done; try (apply Hpl; lia); solve_field.
  - do 2 (eapply frame_trans; [|apply frame_store32; unfold in_range; lia]).
    apply frame_store32. unfold in_range, f_kernel_esp. lia.
  - unfold forked. cbv zeta. rewrite !Hesp. unfold sizeof_task_struct, PAGE_SIZE.
    split_and!; [lia..| | |].
    + by rewrite load32_store32_eq.
    + replace (task_addr c + 4 * (k - 1) + 4) with (task_addr c + 4 * k) by lia.
      rewrite load32_store32_ne by lia. by apply load32_store32_same.
    + replace (task_addr c + 4 * (k - 1) + 8) with (task_addr c + 4 * (k + 1)) by lia.
      rewrite !load32_store32_ne by (unfold f_kernel_esp; lia). done.
  - exact Hesp.
  - intros f H0 H1 H2 H3. unfold f_kernel_esp, f_state in *. by rewrite !load32_store32_ne by lia.
Qed.
End Fork.
