(* ===== verification/ForkInv.v ===== *)
(** fork keeps the kernel's invariant: the parts of the invariant after the
    child has been built, and the system call as a whole. *)

From S2P Require Import Prelude Memory CList Libc Console Frames Types Kernel Task Paging Utils Switch.
From S2P Require Import Sched Policy Space Process Sys Fork.

Section ForkInv.
Context {L : Layout} {LO : LayoutOk L}.

(** ** What fork may write *)

(** Links, the child's union, page tables, and memory above the kernel. *)
Definition fork_frame (c a : Z) : Prop :=
  child_writes c a ∨ tables_bytes a ∨ KERNEL_HI ≤ a.

Lemma child_writes_kernel c a :
  valid_task c → child_writes c a → (¬ tables_bytes a) ∧ (¬ dirs_bytes a) ∧ a < KERNEL_HI.
Proof.
  intros Hc [Ha|Ha].
  - destruct (links_stacks_tables a (or_introl Ha)) as [H1 H2]. split_and!; [done..|].
    destruct Ha as (d & Hd & Ha). pose proof (cell_range _ Hd). unfold in_range in Ha. lia.
  - destruct (page_tables_apart c a Hc Ha). split_and!; [done..|].
    pose proof (task_addr_window c Hc). unfold in_range in Ha. lia.
Qed.

Lemma fork_frame_task c i a :
  valid_task c → valid_task i → i ≠ c → in_range (task_addr i) PAGE_SIZE a →
  ¬ cell_bytes kernel_cell a → ¬ fork_frame c a.
Proof.
  intros Hc Hi Hne Ha Hcell [[?|Hp]|[Ht|Hh]]; [done|..].
  - pose proof (task_addr_apart i c Hi Hc Hne). unfold in_range, apart in *. lia.
  - by destruct (page_tables_apart i a Hi Ha).
  - pose proof (task_addr_window i Hi). unfold in_range in Ha. lia.
Qed.

Lemma fork_frame_field m m' c i f :
  frame (fork_frame c) m m' → valid_task c → valid_task i → i ≠ c → plain_field f →
  load32 m' (task_addr i + f) = load32 m (task_addr i + f).
Proof.
  intros Hf Hc Hi Hne Hp. apply (frame_load32 _ _ _ _ Hf). intros b Hb. apply (fork_frame_task c i b); try done.
  - destruct Hp as (? & ? & _). unfold in_range in *. lia.
  - by eapply cell_not_plain.
Qed.

Lemma fork_frame_suspended m m' c i :
  frame (fork_frame c) m m' → valid_task c → valid_task i → i ≠ c → suspended m i → suspended m' i.
Proof.
  intros Hf Hc Hi Hne Hs. eapply suspended_frame; [done..|]. intros a Ha. apply (fork_frame_task c i a); try done.
  - unfold stack_bytes, in_range, f_kernel_esp, sizeof_task_struct, PAGE_SIZE in *. lia.
  - by apply (cells_stack i).
Qed.

(** ** The table of processes after fork *)

Definition fork_table (c : Z) (l : list Z) (ks : list Z) (σ : ptable) : ptable :=
  PTable (p_run σ) (p_ready σ ++ [c]) l (p_blocked σ)
    (<[p_run σ := ks ++ [c]]> (<[c := []]> (p_kids σ))).

Section Table.
Context (σ : ptable) (c : Z) (l ks : list Z).
Context (Efree : p_free σ = c :: l) (Hkr : p_kids σ !! p_run σ = Some ks).

Lemma fork_queued i : i ∈ queued (fork_table c l ks σ) ↔ i ∈ queued σ.
Proof.
  unfold queued, fork_table. cbn. rewrite Efree, !elem_of_app, !elem_of_cons, elem_of_nil. tauto.
Qed.

(** A free task is new to everything. *)
Lemma free_fresh s : sched_inv σ s →
  valid_task c ∧ c ≠ 0 ∧ p_run σ ≠ c ∧ (c ∉ l) ∧ (∀ i, i ∉ l → i ≠ c → i ∉ p_free σ).
Proof.
  intros [Hc Hout].
  assert (Hcf : c ∈ p_free σ) by (rewrite Efree; apply list_elem_of_here).
  assert (Hcq : c ∈ queued σ) by (by apply (queued_q _ Free)).
  split_and!.
  - by apply (qi_valid _ _ (sc_q _ _ Hc)).
  - intros ->. by destruct (sc_idle_q _ _ Hc).
  - intros E. apply Hout. by rewrite E.
  - pose proof (queue_nodup σ (k_mem s) Free (qi_lists _ _ (sc_q _ _ Hc))) as Hnd.
    cbn [get_q] in Hnd. rewrite Efree in Hnd. by apply NoDup_cons in Hnd as [? _].
  - intros i Hi Hne. rewrite Efree, elem_of_cons. tauto.
Qed.

Lemma sched_inv_fork s s' :
  sched_inv σ s → qinv (fork_table c l ks σ) (k_mem s') →
  frame (fork_frame c) (k_mem s) (k_mem s') → forked (k_mem s') c →
  load32 (k_mem s') (task_addr c + f_dir_pages_baseAddr) = dir_addr c →
  0 ≤ pid_of (k_mem s') c ≤ k_last_pid s' → 0 ≤ quantum_of (k_mem s') c < 2 ^ 31 →
  k_idle_task s' = k_idle_task s → k_last_pid s ≤ k_last_pid s' → k_console s' = k_console s →
  sched_inv (fork_table c l ks σ) s'.
Proof.
  intros Hinv Hq Hf Hfk Hdir Hpid Hqu Eid Hlp Econ.
  destruct (free_fresh s Hinv) as (Hc & Hc0 & Hrc & Hcl & Hnf). destruct Hinv as [Hco Hout].
  split; [split|]; cbn [p_run p_free p_blocked fork_table].
  - done.
  - exact (sc_run _ _ Hco).
  - intros i Hi. rewrite fork_queued. by apply Hco.
  - rewrite Eid. apply Hco.
  - destruct (sc_idle_q _ _ Hco) as [H1 H2]. rewrite Efree, not_elem_of_cons in H1. tauto.
  - intros i Hi Hir Hil. destruct (decide (i = c)) as [->|Hic]; [right; by left|].
    eapply fork_frame_suspended; [done..|]. apply Hco; auto.
  - intros i Hi Hil. destruct (decide (i = c)) as [->|Hic]; [done|].
    rewrite (fork_frame_field _ _ c) by (done || solve_field). by apply Hco; auto.
  - intros i Hi Hil. destruct (decide (i = c)) as [->|Hic]; [done|]. unfold pid_of, load_int.
    rewrite (fork_frame_field _ _ c) by (done || solve_field).
    pose proof (sc_pids _ _ Hco i Hi (Hnf i Hil Hic)). unfold pid_of, load_int in *. lia.
  - intros i Hi Hil. destruct (decide (i = c)) as [->|Hic]; [done|]. unfold quantum_of.
    rewrite (fork_frame_field _ _ c) by (done || solve_field). by apply Hco; auto.
  - rewrite Econ. apply Hco.
  - by rewrite fork_queued.
Qed.

Lemma pid_inv_fork s m' :
  sched_inv σ s → pid_inv σ (k_mem s) → frame (fork_frame c) (k_mem s) m' →
  k_last_pid s < pid_of m' c → pid_inv (fork_table c l ks σ) m'.
Proof.
  intros Hinv [Hpos Huniq Hidle] Hf Hpid. destruct (free_fresh s Hinv) as (Hc & Hc0 & Hrc & Hcl & Hnf).
  destruct Hinv as [Hco Hout].
  assert (Ho : ∀ i, valid_task i → i ≠ c → pid_of m' i = pid_of (k_mem s) i).
  { intros i Hi Hic. unfold pid_of, load_int. by rewrite (fork_frame_field _ _ c) by (done || solve_field). }
  assert (Hle : ∀ i, valid_task i → i ∉ l → i ≠ c → 0 ≤ pid_of m' i < pid_of m' c).
  { intros i Hi Hil Hic. rewrite (Ho i) by done. pose proof (sc_pids _ _ Hco i Hi (Hnf i Hil Hic)). lia. }
  split; cbn [p_free fork_table].
  - intros i Hi Hil Hi0. destruct (decide (i = c)) as [->|Hic].
    + pose proof (sc_pids _ _ Hco (p_run σ) (sc_run _ _ Hco)). enough (p_run σ ∉ p_free σ) by (intuition lia).
      intros Hx. apply Hout. by apply (queued_q _ Free).
    + rewrite Ho by done. auto.
  - intros i j Hi Hj Hil Hjl E. destruct (decide (i = c)) as [->|Hic], (decide (j = c)) as [->|Hjc]; [done|..].
    + pose proof (Hle j Hj Hjl Hjc). lia.
    + pose proof (Hle i Hi Hil Hic). lia.
    + rewrite !Ho in E by done. auto.
  - by rewrite Ho by done.
Qed.

Lemma fam_inv_fork s m' :
  sched_inv σ s → fam_inv σ (k_mem s) → frame (fork_frame c) (k_mem s) m' →
  parent_of m' c = task_addr (p_run σ) → fam_inv (fork_table c l ks σ) m'.
Proof.
  intros Hinv [Hd Hk Hr] Hf Hpar. pose proof Hinv as [Hco Hout].
  destruct (free_fresh s Hinv) as (Hc & Hc0 & Hrc & Hcl & Hnf).
  assert (Ho : ∀ i, valid_task i → i ≠ c → parent_of m' i = parent_of (k_mem s) i).
  { intros i Hi Hic. unfold parent_of. by rewrite (fork_frame_field _ _ c) by (done || solve_field). }
  assert (Hcf : ∀ i, i ∉ p_free σ → i ∉ l ∧ i ≠ c).
  { intros i. rewrite Efree, not_elem_of_cons. tauto. }
  split; cbn [p_kids p_free fork_table].
  - intros i. rewrite lookup_insert_is_Some, lookup_insert_is_Some, Hd. split.
    + intros [<-|[_ [<-|[_ [? ?]]]]]; [|done|naive_solver].
      destruct (proj1 (Hd (p_run σ)) (ex_intro _ _ Hkr)). naive_solver.
    + intros [Hi Hil]. destruct (decide (p_run σ = i)); [by left|right]. split; [done|].
      destruct (decide (c = i)); [by left|right]. auto.
  - assert (Hold : ∀ j ks0 i, p_kids σ !! j = Some ks0 → i ∈ ks0 →
      i ≠ 0 ∧ i ∉ l ∧ parent_of m' i = task_addr j).
    { intros j ks0 i Hj Hi. destruct (Hk j ks0 i Hj Hi) as (H1 & [H2 H3]%Hcf & H4).
      rewrite Ho; [done| |done]. by apply (pv_kids _ (qi_valid _ _ (sc_q _ _ Hco)) _ _ Hj). }
    intros j ks0 i [[<- <-]|[Hne [[<- <-]|[_ Hj]]%lookup_insert_Some]]%lookup_insert_Some Hi.
    + apply elem_of_app in Hi as [Hi| ->%list_elem_of_singleton]; [by apply (Hold _ ks)|done].
    + by apply not_elem_of_nil in Hi.
    + by apply (Hold _ ks0).
  - intros i Hi Hil. destruct (decide (i = c)) as [->|Hic].
    + right. exists (p_run σ), (ks ++ [c]). rewrite lookup_insert_eq, elem_of_app, list_elem_of_singleton. auto.
    + rewrite Ho by done. destruct (Hr i Hi (Hnf i Hil Hic)) as [?|(j & ks0 & Hj & Hin)]; [by left|right].
      destruct (decide (j = p_run σ)) as [->|Hjr].
      * exists (p_run σ), (ks ++ [c]). rewrite lookup_insert_eq, elem_of_app. simplify_eq. auto.
      * assert (Hcj : c ≠ j).
        { intros <-. destruct (proj1 (Hd c) (ex_intro _ _ Hj)) as [_ Hx]. apply Hx. rewrite Efree.
          apply list_elem_of_here. }
        exists j, ks0. by rewrite !lookup_insert_ne.
Qed.

(** The address spaces: the child's is new, the others' entries are kept. *)
Lemma mm_inv_fork code data s s' fs :
  sched_inv σ s → mm_inv σ code data s →
  taken (k_phys_mem s) (k_phys_mem s') fs → length fs = Z.to_nat NUM_PAG_DATA →
  (∀ i, valid_task i → dir_ok (k_mem s') i) → (∀ i, valid_task i → dir_rest (k_mem s') i) →
  (∀ i p, valid_task i → 0 ≤ p < TOTAL_PAGES →
     i ≠ c ∨ p < PAG_LOG_INIT_DATA ∨ PAG_LOG_INIT_DATA + USER_PAGES ≤ p →
     load32 (k_mem s') (pte_addr (pt_addr i) p) = load32 (k_mem s) (pte_addr (pt_addr i) p)) →
  maps (k_mem s') c PAG_LOG_INIT_CODE PTE_CODE code → maps (k_mem s') c PAG_LOG_INIT_DATA PTE_DATA fs →
  mm_inv (fork_table c l ks σ) code (<[c := fs]> data) s'.
Proof.
  intros Hinv Hmm (Hpm & Hnd & Hfs & Hg) Hlen Hdir Hdrs Hent Hmc Hmd.
  destruct (free_fresh s Hinv) as (Hc & Hc0 & Hrc & Hcl & Hnf).
  destruct Hmm as [mi_space0 mi_rest0 mi_pm0 mi_dom0 mi_code_len0 mi_len0 mi_code0 mi_data0 mi_used0
    mi_code_alloc0 mi_alloc0 mi_nodup0 mi_code_disj0 mi_disj0 mi_first0 mi_code_nodup0 mi_dirs0].
  assert (Hdc : data !! c = None).
  { destruct (data !! c) eqn:E; [|done]. destruct (proj1 (mi_dom0 c) (ex_intro _ _ E)) as (_ & _ & Hx).
    destruct Hx. rewrite Efree. apply list_elem_of_here. }
  assert (Hold : ∀ i gs k base fl ls, data !! i = Some gs → maps (k_mem s) i base fl ls →
    0 ≤ base → length ls = k → base + Z.of_nat k ≤ TOTAL_PAGES → maps (k_mem s') i base fl ls).
  { intros i gs k base fl ls Hi Hm Hb Hk Ht j f Hj. pose proof (lookup_lt_Some _ _ _ Hj).
    rewrite Hent; [by apply Hm|by apply mi_dom0; eauto|lia|]. left. congruence. }
  assert (Hused : ∀ f, allocatable f → pm_get (k_phys_mem s) f = USED_FRAME →
     (f ∉ fs) ∧ pm_get (k_phys_mem s') f = USED_FRAME).
  { intros f Ha Hu. assert (Hn : f ∉ fs) by (intros Hin; destruct (Hfs f Hin) as [_ E]; by rewrite Hu in E).
    split; [done|]. apply allocatable_range in Ha. by rewrite Hg, decide_False by (done || lia). }
  split.
  - intros i Hi. split; [auto|]. intros p Hp. destruct (mi_space0 i Hi) as [_ Hk].
    rewrite Hent; [by apply Hk|done|unfold TOTAL_PAGES, NUM_PAG_KERNEL in *; lia|right; left; apply Hp].
  - intros i p Hi Hp. rewrite Hent; [by apply mi_rest0|done| |tauto].
    change (PAG_LOG_INIT_DATA + USER_PAGES) with 284 in Hp. lia.
  - done.
  - intros i. cbn [p_free fork_table]. rewrite lookup_insert_is_Some, mi_dom0, Efree, not_elem_of_cons.
    destruct (decide (c = i)) as [<-|]; naive_solver.
  - done.
  - intros i gs [[<- <-]|[_ Hi]]%lookup_insert_Some; eauto.
  - intros i gs [[<- <-]|[_ Hi]]%lookup_insert_Some; [done|]. by apply (Hold i gs (Z.to_nat NUM_PAG_CODE)); eauto.
  - intros i gs [[<- <-]|[_ Hi]]%lookup_insert_Some; [done|]. by apply (Hold i gs (Z.to_nat NUM_PAG_DATA)); eauto.
  - intros f Ha Hne. destruct (decide (f ∈ fs)) as [Hin|Hin].
    + right. exists c, fs. by rewrite lookup_insert_eq.
    + pose proof (allocatable_range f Ha). rewrite Hg, decide_False in Hne by (done || lia).
      destruct (mi_used0 f Ha Hne) as [?|(i & gs & Hi & Hf)]; [by left|right]. exists i, gs.
      rewrite lookup_insert_ne by congruence. done.
  - intros f Hf. destruct (mi_code_alloc0 f Hf) as [Ha Hu]. split; [done|]. by apply Hused.
  - intros i gs f [[<- <-]|[_ Hi]]%lookup_insert_Some Hf.
    + destruct (Hfs f Hf) as [Ha Hu]. destruct (mi_code_alloc0 _ mi_first0) as [_ H256].
      split_and!; [done| |].
      * apply allocatable_range in Ha. by rewrite Hg, decide_True by (done || lia).
      * destruct Ha as [[? _] _]. enough (f ≠ NUM_PAG_KERNEL) by lia. intros ->. by rewrite H256 in Hu.
    + destruct (mi_alloc0 i gs f Hi Hf) as (Ha & Hu & Hlt). split_and!; [done| |done]. by apply Hused.
  - intros i gs [[<- <-]|[_ Hi]]%lookup_insert_Some; eauto.
  - intros i gs f [[<- <-]|[_ Hi]]%lookup_insert_Some Hf; [|eauto]. intros Hx.
    destruct (mi_code_alloc0 f Hx) as [Ha Hu]. by destruct (Hused f Ha Hu).
  - intros i gs j hs f [[<- <-]|[_ Hi]]%lookup_insert_Some [[<- <-]|[_ Hj]]%lookup_insert_Some Hf1 Hf2;
      [done| | |eauto].
    + destruct (mi_alloc0 j hs f Hj Hf2) as (Ha & Hu & _). by destruct (Hused f Ha Hu).
    + destruct (mi_alloc0 i gs f Hi Hf1) as (Ha & Hu & _). by destruct (Hused f Ha Hu).
  - done.
  - done.
  - done.
Qed.
End Table.

(** ** Frames enough for ten processes *)

Definition all_used (code : list Z) (data : gmap Z (list Z)) : list Z :=
  code ++ concat (map_to_list data).*2.

Lemma all_used_covers σ code data s f :
  mm_inv σ code data s → allocatable f → pm_get (k_phys_mem s) f ≠ FREE_FRAME → f ∈ all_used code data.
Proof.
  intros Hmm Ha Hu. apply elem_of_app.
  destruct (mi_used _ _ _ _ Hmm f Ha Hu) as [?|(i & fs & Hi & Hf)]; [by left|right].
  apply list_elem_of_In, in_concat. exists fs. split; apply list_elem_of_In; [|done].
  apply list_elem_of_fmap. exists (i, fs). split; [done|]. by apply elem_of_map_to_list.
Qed.

Lemma concat_length (n : nat) (ls : list (list Z)) :
  (∀ l, l ∈ ls → length l = n) → length (concat ls) = (n * length ls)%nat.
Proof.
  intros Hl. induction ls as [|l ls IH]; cbn; [lia|].
  rewrite length_app, IH, (Hl l) by set_solver. lia.
Qed.

Lemma all_used_length σ code data s :
  mm_inv σ code data s → (length (all_used code data) ≤ 188)%nat.
Proof.
  intros Hmm. unfold all_used. rewrite length_app, (mi_code_len _ _ _ _ Hmm), (concat_length 20).
  - rewrite length_fmap. enough (length (map_to_list data) ≤ 9)%nat by (unfold NUM_PAG_CODE; lia).
    rewrite <- (length_fmap fst). enough (length ((map_to_list data).*1) ≤ length (seqZ 1 9))%nat as H
      by (rewrite length_seqZ in H; lia).
    apply submseteq_length, NoDup_submseteq; [apply NoDup_fst_map_to_list|]. intros i Hi.
    apply list_elem_of_fmap in Hi as ([j fs] & -> & Hi%elem_of_map_to_list).
    destruct (proj1 (mi_dom _ _ _ _ Hmm j) (ex_intro _ _ Hi)) as (Hj & Hj0 & _). apply elem_of_seqZ.
    unfold valid_task, NR_TASKS in Hj. cbn. lia.
  - intros l Hl. apply list_elem_of_fmap in Hl as ([j fs] & -> & Hi%elem_of_map_to_list).
    change (length fs = 20%nat). by rewrite (mi_len _ _ _ _ Hmm _ _ Hi).
Qed.

(** ** The steps of the call, in three groups *)

Section Call.
Context (σ : ptable) (c : Z) (l ks : list Z) (code : list Z) (data : gmap Z (list Z)).
Context (Efree : p_free σ = c :: l) (Hkr : p_kids σ !! p_run σ = Some ks).

(** The child's union: off the free queue, a copy of the parent's, with a
    directory of its own. *)
Lemma wp_fork_clone {A} (rest : K A) s R :
  kernel_inv σ code data s → on_stack s (p_run σ) → k_cr3 s = dir_addr (p_run σ) →
  (∀ m', qinv (set_free l σ) m' → frame (child_writes c) (k_mem s) m' →
     load32 m' (task_addr c + f_dir_pages_baseAddr) = dir_addr c →
     (∀ f, plain_field f → f + 4 ≤ f_dir_pages_baseAddr ∨ f_parent ≤ f →
        load32 m' (task_addr c + f) = load32 (k_mem s) (task_addr (p_run σ) + f)) →
     wp rest (with_mem m' s) R) →
  wp (on_mem (list_del (anchor_of c)) ;!
      let! cur := current in
      copy_data cur (task_addr c) 4096 ;!
      let! r := allocate_DIR (task_addr c) in rest) s R.
Proof.
  intros [Hs Hfam Hpid Hmm] Hon Hcr3 HR. destruct (free_fresh σ c l Efree s Hs) as (Hc & Hc0 & Hrc & Hcl & Hnf).
  destruct Hs as [Hco Hout]. pose proof (sc_run _ _ Hco) as Hrun. pose proof (dir_addr_window c Hc) as Hdw.
  apply wp_bind, wp_on_mem, (wp_dequeue σ _ Free [] c l); [apply Hco|done|]. intros m1 Hq1 Hf1.
  apply wp_bind, (wp_current (p_run σ)); [done|]. apply wp_bind, (wp_copy_union (p_run σ) c); [done..| |].
  { eapply space_ok_frame; [done|by apply (mi_space _ _ _ _ Hmm)|exact (cells_links _ _ Hf1)|].
    intros a. apply links_stacks_tables. }
  kred. intros m2 Hf2 Hcp. unfold allocate_DIR. rewrite task_index_addr by done.
  apply wp_bind, wp_bind, wp_set_field; [done|solve_field..|]. apply wp_ret. kred.
  change (dir_pages + c * PAGE_SIZE) with (dir_addr c).
  assert (Hw : ∀ f, 0 ≤ f → f + 4 ≤ PAGE_SIZE → load32 m2 (task_addr c + f) = load32 m1 (task_addr (p_run σ) + f)).
  { intros f H0 H1. rewrite !load32_unfold, <- !Z.add_assoc, !Hcp by lia. done. }
  assert (Hq2 : qinv (set_free l σ) m2).
  { destruct (qi_links _ _ Hq1 (p_run σ) Hrun) as [L1 L2].
    { intros Hx. apply Hout. unfold queued in *. cbn in Hx. rewrite Efree.
      rewrite !elem_of_app in *. rewrite elem_of_cons. tauto. }
    eapply (qinv_page (set_free l σ) m1 m2 c); [exact Hq1|done|exact Hf2|..]; cbn [p_kids set_free].
    - exact (queue_remove_out σ (k_mem s) Free [] c l (qi_lists _ _ (sc_q _ _ Hco)) Efree).
    - apply eq_None_not_Some. intros [_ Hx]%(fi_dom _ _ Hfam). apply Hx. rewrite Efree. apply list_elem_of_here.
    - intros j ks0 Hj Hin. destruct (fi_kid _ _ Hfam j ks0 c Hj Hin) as (_ & Hx & _). apply Hx.
      rewrite Efree. apply list_elem_of_here.
    - unfold anchor_of in *. by rewrite Hw by solve_field.
    - unfold anchor_of in *. rewrite <- Z.add_assoc in *. by rewrite Hw by solve_field. }
  apply HR; clear HR.
  - apply qinv_set_field; [done..|solve_field].
  - eapply frame_trans; [eapply frame_weaken; [|exact Hf1]; by left|].
    eapply frame_trans; [eapply frame_weaken; [|exact Hf2]; by right|].
    apply frame_store32. intros a Ha. right. unfold in_range, f_dir_pages_baseAddr, PAGE_SIZE in *. lia.
  - apply load32_store32_same. unfold KERNEL_START, KERNEL_HI, PAGE_SIZE in *. lia.
  - intros f Hp Hf. pose proof Hp as (H0 & H1 & _).
    rewrite field_store_ne, Hw by (done || solve_field). by apply cells_plain.
Qed.

(** Identifier, family, stack, and the end of the ready queue. *)
Lemma wp_fork_finish s k R :
  let pid := next_pid (k_last_pid s) c in
  qinv (set_free l σ) (k_mem s) → on_stack s (p_run σ) → valid_task c → p_run σ ≠ c →
  c ∉ queued (set_free l σ) → p_kids σ !! c = None → (∀ j l, p_kids σ !! j = Some l → c ∉ l) →
  0 ≤ k_last_pid s < 2 ^ 31 - 2 →
  ebp (k_regs s) = stack_addr (task_addr (p_run σ)) k → sizeof_task_struct + 4 ≤ 4 * k →
  4 * k + 72 ≤ PAGE_SIZE → load32 (k_mem s) (stack_addr (task_addr c) (k + 1)) = addr_service_ret →
  (∀ m', qinv (fork_table c l ks σ) m' → frame (child_writes c) (k_mem s) m' → forked m' c →
     pid_of m' c = pid → parent_of m' c = task_addr (p_run σ) →
     load32 m' (task_addr c + f_kernel_esp) = stack_addr (task_addr c) (k - 1) →
     (∀ f, plain_field f → f = f_quantum ∨ f = f_dir_pages_baseAddr ∨ 4 * k + 4 ≤ f →
        load32 m' (task_addr c + f) = load32 (k_mem s) (task_addr c + f)) →
     R pid (with_mem m' (with_last_pid pid s))) →
  wp (let! pid := fork_pid 2 (task_index (task_addr c)) in
      fork_family (task_addr c) pid ;!
      fork_stack (task_addr c) ;!
      on_mem (list_add_tail (anchor_of c) readyq) ;!
      ret pid) s R.
Proof.
  intros pid Hq Hon Hc Hrc Hcq Hkc Hout Hlp Hebp Hk1 Hk2 Hret HR. rewrite task_index_addr by done.
  assert (Hpid : 0 ≤ pid < 2 ^ 31) by (subst pid; unfold next_pid; case_match; lia).
  apply wp_bind, wp_fork_pid; [done|]. cbv zeta. fold pid.
  assert (Hr4k : plain_field (4 * (k + 1)) ∧ sizeof_task_struct ≤ 4 * (k + 1))
    by (unfold sizeof_task_struct in *; split; [solve_field|lia]).
  apply wp_bind, (wp_fork_family (set_free l σ) (p_run σ) c ks pid); kred; try done.
  intros m1 Hq1 Hf1 Hp1 Hpar1 Hw1.
  apply wp_bind. eapply (wp_fork_stack _ (p_run σ) c k); kred; [exact Hq1|exact Hon|done|done|done|done|..].
  { unfold stack_addr in *. rewrite Hw1; [done|apply Hr4k|..]; unfold sizeof_task_struct in *; solve_field. }
  intros m2 Hq2 Hf2 Hfk Hesp Hw2.
  apply wp_bind, wp_on_mem. change readyq with (head_of Ready). eapply wp_enqueue; [exact Hq2|done|exact Hcq|].
  intros m3 Hq3 Hf3. apply wp_ret.
  assert (Hpl : ∀ f, plain_field f → f = f_PID ∨ (f_state ≤ f ∧ (f + 4 ≤ sizeof_task_struct ∨ 4 * k + 4 ≤ f)) →
    load32 m3 (task_addr c + f) = load32 m1 (task_addr c + f)).
  { intros f Hp Hf. rewrite (cells_plain _ _ _ _ Hf3) by done. pose proof Hp as (? & ? & _).
    unfold sizeof_task_struct in *. apply Hw2; unfold sizeof_task_struct; solve_field. }
  apply HR; clear HR.
  - exact Hq3.
  - eapply frame_trans; [exact Hf1|]. eapply frame_trans; [eapply frame_weaken; [|exact Hf2]; by right|].
    eapply frame_weaken; [|exact Hf3]. by left.
  - eapply forked_frame; [exact Hfk|exact Hf3|]. intros a. by apply cells_stack.
  - unfold pid_of, load_int in *. rewrite Hpl; [done|solve_field|by left].
  - unfold parent_of in *. rewrite Hpl; [done|solve_field|right; unfold sizeof_task_struct; solve_field].
  - rewrite (cells_plain _ _ _ _ Hf3); [done|done|solve_field].
  - intros f Hp Hf. unfold sizeof_task_struct in *. rewrite Hpl; [|done|right; unfold sizeof_task_struct; solve_field].
    apply Hw1; [done|solve_field..].
Qed.

(** What fork leaves: the child's frames [fs] are copies of the parent's
    [dat], no other frame is written, and the child's kernel stack is the
    parent's above the frame of the call, entered through ret_from_fork. *)
Record fork_result (dat fs : list Z) (k : Z) (s s' : kstate) : Prop := {
  fr_mem : frame (fork_frame c) (k_mem s) (k_mem s');
  fr_high : ∀ a, KERNEL_HI ≤ a → (∀ f, f ∈ fs → ¬ frame_bytes f a) → load8 (k_mem s') a = load8 (k_mem s) a;
  fr_copy : ∀ j f d o, fs !! j = Some f → dat !! j = Some d → 0 ≤ o < PAGE_SIZE →
    load8 (k_mem s') (f * PAGE_SIZE + o) = load8 (k_mem s) (d * PAGE_SIZE + o);
  fr_esp : load32 (k_mem s') (task_addr c + f_kernel_esp) = stack_addr (task_addr c) (k - 1);
  fr_stack : ∀ f, 4 * k + 4 ≤ f → f + 4 ≤ PAGE_SIZE →
    load32 (k_mem s') (task_addr c + f) = load32 (k_mem s) (task_addr (p_run σ) + f);
  fr_forked : forked (k_mem s') c;
  fr_pid : pid_of (k_mem s') c = next_pid (k_last_pid s) c;
  fr_regs : k_regs s' = k_regs s;
  fr_cr3 : k_cr3 s' = k_cr3 s;
  fr_last : k_last_pid s' = next_pid (k_last_pid s) c;
  fr_state : s' = with_last_pid (k_last_pid s') (with_phys_mem (k_phys_mem s') (with_mem (k_mem s') s));
}.

(** Nothing but tables of pages changed between [m] and [m'] in the kernel. *)
Lemma code_entries_tables i a : valid_task i → entry_bytes i PAG_LOG_INIT_CODE NUM_PAG_CODE a → tables_bytes a.
Proof.
  intros Hi Ha. eapply (pt_bytes_tables i); [done|].
  unfold entry_bytes, pt_bytes, in_range, pte_addr in *. change PAG_LOG_INIT_CODE with 276 in *.
  unfold NUM_PAG_CODE, PAGE_SIZE in *. lia.
Qed.

Lemma fork_writes_tables r fs a :
  valid_task r → valid_task c → (∀ f, f ∈ fs → allocatable f) → fork_writes r c fs a →
  tables_bytes a ∨ ∃ f, f ∈ fs ∧ frame_bytes f a ∧ KERNEL_HI ≤ a.
Proof.
  intros Hr Hc Ha [He|[Ht|(f & Hf & Hb)]].
  - left. eapply (pt_bytes_tables c); [done|].
    unfold entry_bytes, pt_bytes, in_range, pte_addr in *. change PAG_LOG_INIT_DATA with 256 in *.
    unfold NUM_PAG_DATA, PAGE_SIZE in *. lia.
  - left. exact (entry_tables r temp_pag a Hr ltac:(done) Ht).
  - right. exists f. split_and!; [done..|]. eapply frame_bytes_high; eauto.
Qed.

(** Memory that changes in page tables and user frames only. *)
Definition tables_or_high (a : Z) : Prop := tables_bytes a ∨ KERNEL_HI ≤ a.

Lemma tables_high_dirs m m' i :
  frame tables_or_high m m' → valid_task i → dir_ok m i → dir_rest m i → dir_ok m' i ∧ dir_rest m' i.
Proof.
  intros Hf Hi Hd Hr.
  assert (Hno : ∀ a, dirs_bytes a → ¬ tables_or_high a).
  { intros a Ha [Ht|Hh]; [by apply (tables_dirs_apart a)|]. pose proof dir_window. unfold dirs_bytes, in_range in Ha. lia. }
  split; [eapply dir_word_frame; [done|exact Hf| |done]|eapply dir_rest_frame; [done|exact Hf| |done]].
  - intros a Ha Hx. by apply (Hno a).
  - intros a Hx Ha. by destruct (Hno a).
Qed.

Lemma tables_high_field m m' i f :
  frame tables_or_high m m' → valid_task i → 0 ≤ f → f + 4 ≤ PAGE_SIZE →
  load32 m' (task_addr i + f) = load32 m (task_addr i + f).
Proof.
  intros Hf Hi H0 H1. apply (frame_load32 _ _ _ _ Hf). intros b Hb Hx. pose proof (task_addr_window i Hi).
  destruct Hx as [Ht|Hh]; [|unfold in_range in Hb; lia].
  destruct (page_tables_apart i b Hi) as [Hn _]; [unfold in_range in *; lia|done].
Qed.

(** The page tables while fork builds the child's: [m1] before, [m2] with the
    code, [m3] with the data. *)
Section Tables.
Context (s : kstate) (m1 m2 m3 : memory) (pm3 : frame_map) (fs : list Z).
Context (Hs : sched_inv σ s) (Hmm : mm_inv σ code data s).
Context (Hf1 : frame (child_writes c) (k_mem s) m1).
Context (Hf2 : frame (entry_bytes c PAG_LOG_INIT_CODE NUM_PAG_CODE) m1 m2).
Context (Hf3 : frame (fork_writes (p_run σ) c fs) m2 m3) (Hal : ∀ f, f ∈ fs → allocatable f).

Lemma tables_child : valid_task c ∧ p_run σ ≠ c ∧ valid_task (p_run σ).
Proof.
  destruct (free_fresh σ c l Efree s Hs) as (Hc & _ & Hrc & _). split_and!; [done..|].
  apply (sc_run _ _ (proj1 Hs)).
Qed.

Lemma tables_mm1 : mm_inv σ code data (with_mem m1 s).
Proof.
  destruct tables_child as (Hc & _). eapply mm_inv_frame; [exact Hmm|exact Hf1| |done..].
  intros a Ha. by destruct (child_writes_kernel c a Hc Ha) as (? & ? & ?).
Qed.

Lemma tables_code_frame : frame tables_or_high m1 m2.
Proof.
  destruct tables_child as (Hc & _). eapply frame_weaken; [|exact Hf2]. intros a Ha. left. by apply (code_entries_tables c).
Qed.

Lemma tables_data_frame : frame tables_or_high m2 m3.
Proof.
  destruct tables_child as (Hc & _ & Hr). eapply frame_weaken; [|exact Hf3].
  intros a [?|(f & _ & _ & ?)]%fork_writes_tables; unfold tables_or_high; auto.
Qed.

Lemma tables_entry2 j q :
  valid_task j → 0 ≤ q < TOTAL_PAGES → j ≠ c ∨ q < PAG_LOG_INIT_CODE ∨ PAG_LOG_INIT_CODE + NUM_PAG_CODE ≤ q →
  load32 m2 (pte_addr (pt_addr j) q) = load32 m1 (pte_addr (pt_addr j) q).
Proof.
  intros Hj Hq Hne. apply (frame_load32 _ _ _ _ Hf2). intros b.
  unfold entry_bytes, in_range, pte_addr, pt_addr, PAGE_SIZE, NUM_PAG_CODE, TOTAL_PAGES in *.
  change PAG_LOG_INIT_CODE with 276 in *. lia.
Qed.

Lemma tables_entry3 j q :
  valid_task j → 0 ≤ q < TOTAL_PAGES →
  j ≠ c ∨ q < PAG_LOG_INIT_DATA ∨ PAG_LOG_INIT_CODE ≤ q → j ≠ p_run σ ∨ q ≠ temp_pag →
  load32 m3 (pte_addr (pt_addr j) q) = load32 m2 (pte_addr (pt_addr j) q).
Proof.
  intros Hj Hq Hne Ht. apply (frame_load32 _ _ _ _ Hf3). intros b Hb [Hx|[Hx|(f & Hin & Hx)]].
  - unfold entry_bytes, in_range, pte_addr, pt_addr, PAGE_SIZE, TOTAL_PAGES in *.
    change PAG_LOG_INIT_CODE with 276 in *. change PAG_LOG_INIT_DATA with 256 in *. unfold NUM_PAG_DATA in *. lia.
  - unfold temp_bytes, in_range, pte_addr, pt_addr, PAGE_SIZE, TOTAL_PAGES in *.
    change temp_pag with 1023 in *. lia.
  - pose proof (table_word_low j q b Hj Hq Hb). pose proof (frame_bytes_high f b (Hal f Hin) Hx). lia.
Qed.

Lemma tables_dirs i : valid_task i → (dir_ok m2 i ∧ dir_rest m2 i) ∧ dir_ok m3 i ∧ dir_rest m3 i.
Proof.
  intros Hi. pose proof tables_mm1 as Hmm1.
  assert (H2 : dir_ok m2 i ∧ dir_rest m2 i).
  { apply (tables_high_dirs m1 m2 i tables_code_frame Hi); [apply (mi_space _ _ _ _ Hmm1 i Hi)|apply (mi_dirs _ _ _ _ Hmm1 i Hi)]. }
  split; [exact H2|]. exact (tables_high_dirs m2 m3 i tables_data_frame Hi (proj1 H2) (proj2 H2)).
Qed.

(** The pages outside the child's user region are mapped as before. *)
Lemma tables_kept i p :
  load32 m3 (pte_addr (pt_addr (p_run σ)) temp_pag) = 0 → valid_task i → 0 ≤ p < TOTAL_PAGES →
  i ≠ c ∨ p < PAG_LOG_INIT_DATA ∨ PAG_LOG_INIT_DATA + USER_PAGES ≤ p →
  load32 m3 (pte_addr (pt_addr i) p) = load32 (k_mem s) (pte_addr (pt_addr i) p).
Proof.
  intros Htmp Hi Hp Hne. destruct tables_child as (Hc & _ & Hr).
  assert (E12 : load32 m2 (pte_addr (pt_addr i) p) = load32 (k_mem s) (pte_addr (pt_addr i) p)).
  { rewrite tables_entry2; [|done|done|].
    - apply (frame_load32 _ _ _ _ Hf1). intros b Hb Hx. destruct (child_writes_kernel c b Hc Hx) as (Hn & _).
      by apply Hn, (entry_tables i p).
    - unfold USER_PAGES, NUM_PAG_DATA, NUM_PAG_CODE in *. change PAG_LOG_INIT_CODE with 276.
      change PAG_LOG_INIT_DATA with 256 in *. lia. }
  rewrite <- E12. destruct (decide (i = p_run σ ∧ p = temp_pag)) as [[-> ->]|Hrt].
  - rewrite Htmp, E12. symmetry. by apply (mi_rest _ _ _ _ Hmm).
  - apply tables_entry3; [done|done| |destruct (decide (i = p_run σ)); tauto].
    unfold USER_PAGES, NUM_PAG_DATA, NUM_PAG_CODE in *. change PAG_LOG_INIT_CODE with 276.
    change PAG_LOG_INIT_DATA with 256 in *. lia.
Qed.

Lemma tables_fork_mm :
  taken (k_phys_mem s) pm3 fs → length fs = Z.to_nat NUM_PAG_DATA →
  load32 m3 (pte_addr (pt_addr (p_run σ)) temp_pag) = 0 →
  maps m2 c PAG_LOG_INIT_CODE PTE_CODE code → maps m3 c PAG_LOG_INIT_DATA PTE_DATA fs →
  mm_inv (fork_table c l ks σ) code (<[c := fs]> data) (with_phys_mem pm3 (with_mem m3 s)).
Proof.
  intros Htk Hlen Htmp Hmc Hmd. destruct tables_child as (Hc & _ & Hr).
  eapply (mm_inv_fork σ c l ks Efree); [exact Hs|exact Hmm|exact Htk|done|..]; kred.
  - intros i Hi. by apply tables_dirs.
  - intros i Hi. by apply tables_dirs.
  - intros i p Hi Hp Hne. by apply tables_kept.
  - intros j f Hj. pose proof (lookup_lt_Some _ _ _ Hj) as Hlt. rewrite (mi_code_len _ _ _ _ Hmm) in Hlt.
    rewrite tables_entry3; [by apply Hmc|done|..]; unfold NUM_PAG_CODE, TOTAL_PAGES in *;
      change PAG_LOG_INIT_CODE with 276; change PAG_LOG_INIT_DATA with 256; change temp_pag with 1023; lia.
  - exact Hmd.
Qed.

Lemma tables_copied dat j f d o :
  data !! p_run σ = Some dat → dat !! j = Some d → 0 ≤ o < PAGE_SIZE →
  load8 m3 (f * PAGE_SIZE + o) = load8 m2 (d * PAGE_SIZE + o) →
  load8 m3 (f * PAGE_SIZE + o) = load8 (k_mem s) (d * PAGE_SIZE + o).
Proof.
  intros Hdat Hd Ho E. destruct tables_child as (Hc & _). rewrite E.
  assert (Hh : KERNEL_HI ≤ d * PAGE_SIZE + o).
  { apply list_elem_of_lookup_2 in Hd. destruct (mi_alloc _ _ _ _ Hmm _ _ _ Hdat Hd) as ([[Ha _] _] & _).
    unfold NUM_PAG_KERNEL, KERNEL_HI, PAGE_SIZE in *. lia. }
  rewrite Hf2, Hf1; [done|..].
  - intros Hx. destruct (child_writes_kernel c _ Hc Hx) as (_ & _ & ?). lia.
  - intros Hx%code_entries_tables; [|done]. pose proof pt_window. unfold tables_bytes, in_range in Hx. lia.
Qed.
End Tables.

(** The middle of the call: the child's page table. *)
Lemma wp_fork_pages {A} (undone rest : K A) s m1 dat R :
  kernel_inv σ code data s → on_stack s (p_run σ) → k_cr3 s = dir_addr (p_run σ) →
  data !! p_run σ = Some dat →
  frame (child_writes c) (k_mem s) m1 → load32 m1 (task_addr c + f_dir_pages_baseAddr) = dir_addr c →
  (∀ fs m2 pm2, length fs = Z.to_nat NUM_PAG_DATA →
     mm_inv (fork_table c l ks σ) code (<[c := fs]> data) (with_phys_mem pm2 (with_mem m2 s)) →
     frame (λ a, tables_bytes a ∨ ∃ f, f ∈ fs ∧ frame_bytes f a ∧ KERNEL_HI ≤ a) m1 m2 →
     (∀ j f d o, fs !! j = Some f → dat !! j = Some d → 0 ≤ o < PAGE_SIZE →
        load8 m2 (f * PAGE_SIZE + o) = load8 (k_mem s) (d * PAGE_SIZE + o)) →
     wp rest (with_phys_mem pm2 (with_mem m2 s)) R) →
  wp (let! process_PT_new := get_PT (task_addr c) in
      let! cur := current in
      let! process_PT_current := get_PT cur in
      fork_code process_PT_new process_PT_current ;!
      let! ok := fork_data (Z.to_nat NUM_PAG_DATA) 0 process_PT_new process_PT_current in
      if negb ok then undone
      else
        let! cur := current in
        let! dir := get_DIR cur in
        set_cr3 dir ;! rest) (with_mem m1 s) R.
Proof.
  intros Hinv Hon Hcr3 Hdat Hf1 Hdc HR. pose proof Hinv as [Hs Hfam Hpid Hmm].
  destruct (tables_child s Hs) as (Hc & Hrc & Hrun). pose proof Hs as [Hco Hout].
  assert (Hrf : p_run σ ∉ p_free σ) by (intros Hx; apply Hout; by apply (queued_q _ Free)).
  pose proof (tables_mm1 s m1 Hs Hmm Hf1) as Hmm1.
  assert (Hdr : load32 m1 (task_addr (p_run σ) + f_dir_pages_baseAddr) = dir_addr (p_run σ)).
  { rewrite (fork_frame_field (k_mem s) m1 c) by (done || solve_field || (eapply frame_weaken; [|exact Hf1]; by left)).
    by apply Hco. }
  destruct (mi_space _ _ _ _ Hmm1 c Hc) as [Hdirc _]. destruct (mi_space _ _ _ _ Hmm1 _ Hrun) as [Hdirr _].
  kred_all. apply wp_bind, (wp_get_PT c); [done..|]. apply wp_bind, (wp_current (p_run σ)); [done|].
  apply wp_bind, (wp_get_PT (p_run σ)); [done..|].
  apply wp_bind, (wp_fork_code (p_run σ) c code m1); try done.
  { apply (mi_code_len _ _ _ _ Hmm). }
  { intros f Hf. destruct (mi_code_alloc _ _ _ _ Hmm f Hf) as [Ha _]. by destruct (allocatable_range f Ha). }
  { by eapply (mi_code _ _ _ _ Hmm1). }
  intros m2 Hmc Hf2. kred. pose proof (tables_entry2 m1 m2 Hf2) as Hpte2.
  apply wp_bind. change 0 with (Z.of_nat (length (@nil Z))).
  apply (wp_fork_data (p_run σ) c dat (all_used code data) (with_mem m2 s)); kred; try done.
  { apply (tables_high_dirs m1 m2 _ (tables_code_frame s m1 m2 Hs Hf2) Hrun); [done|by apply (mi_dirs _ _ _ _ Hmm1)]. }
  { by rewrite (tables_high_field m1 m2 _ _ (tables_code_frame s m1 m2 Hs Hf2)) by (done || solve_field). }
  { by apply (mi_len _ _ _ _ Hmm _ _ Hdat). }
  { intros j d Hj. pose proof (lookup_lt_Some _ _ _ Hj) as Hlt. rewrite (mi_len _ _ _ _ Hmm _ _ Hdat) in Hlt.
    rewrite Hpte2; [by apply (mi_data _ _ _ _ Hmm1 _ _ Hdat)|done| |by left].
    change PAG_LOG_INIT_DATA with 256. unfold NUM_PAG_DATA, TOTAL_PAGES in *. lia. }
  { intros d Hd. destruct (mi_alloc _ _ _ _ Hmm _ _ _ Hdat Hd) as (Ha & Hu & _). by rewrite Hu. }
  { intros f. by eapply all_used_covers. }
  { pose proof (all_used_length _ _ _ _ Hmm). lia. }
  { exists m2, (k_phys_mem s). split_and!; [by destruct s|apply taken_nil, (mi_pm _ _ _ _ Hmm)|by intros j f ?|
      by intros j f d o ?|rewrite Hpte2; [|done..|by left]; by apply (mi_rest _ _ _ _ Hmm1)|apply frame_refl]. }
  intros fs s3 (m3 & pm3 & -> & Htk & Hmd & Hcp & Htmp & Hf3) Hlen. cbn [negb]. kred_all.
  assert (Hal : ∀ f, f ∈ fs → allocatable f) by (destruct Htk as (_ & _ & Hx & _); intros f Hf; by apply Hx).
  apply wp_bind, (wp_current (p_run σ)); [done|]. unfold get_DIR.
  apply wp_bind, wp_get_field; [done|solve_field..|]. kred.
  rewrite (tables_high_field m2 m3 _ _ (tables_data_frame s m2 m3 fs Hs Hf3 Hal)) by (done || solve_field).
  rewrite (tables_high_field m1 m2 _ _ (tables_code_frame s m1 m2 Hs Hf2)), Hdr by (done || solve_field).
  apply wp_bind, wp_modify.
  replace (with_cr3 _ _) with (with_phys_mem pm3 (with_mem m3 s)) by (destruct s; kred_all; by subst).
  apply (HR fs m3 pm3); [done|by eapply (tables_fork_mm s m1 m2 m3)| |].
  - eapply frame_trans; [|eapply frame_weaken; [|exact Hf3]; intros a; by apply fork_writes_tables].
    eapply frame_weaken; [|exact Hf2]. intros a Ha. left. by apply (code_entries_tables c).
  - intros j f d o Hj Hd Ho. eapply (tables_copied s m1 m2 m3); try done. by eapply Hcp.
Qed.

Lemma wp_sys_fork s k dat R :
  kernel_inv σ code data s → on_stack s (p_run σ) → k_cr3 s = dir_addr (p_run σ) →
  data !! p_run σ = Some dat → service_frame s (p_run σ) k → 0 ≤ k_last_pid s < 2 ^ 31 - 2 →
  (∀ fs s', kernel_inv (fork_table c l ks σ) code (<[c := fs]> data) s' → fork_result dat fs k s s' →
     length fs = Z.to_nat NUM_PAG_DATA → R (next_pid (k_last_pid s) c) s') →
  wp sys_fork s R.
Proof.
  intros Hinv Hon Hcr3 Hdat (Hebp & Hk1 & Hk2 & Hret) Hlp HR. pose proof Hinv as [Hs Hfam Hpid Hmm].
  destruct (free_fresh σ c l Efree s Hs) as (Hc & Hc0 & Hrc & Hcl & Hnf). pose proof Hs as [Hco Hout].
  pose proof (sc_run _ _ Hco) as Hrun. pose proof (sc_q _ _ Hco) as Hq.
  assert (Hcf : c ∈ p_free σ) by (rewrite Efree; apply list_elem_of_here).
  unfold sys_fork. apply wp_bind, wp_on_mem. eapply (wp_list_empty kernel_cell); [apply Hq|apply lists_of_free|].
  rewrite Efree, with_mem_same. rewrite bool_decide_eq_false_2 by done.
  apply wp_bind, wp_on_mem. eapply (wp_list_first kernel_cell); [apply Hq|rewrite lists_of_free, Efree; done|].
  rewrite with_mem_same, list_entry_anchor. apply wp_fork_clone; [done..|]. intros m1 Hq1 Hf1 Hd1 Hw1.
  apply (wp_fork_pages _ _ s m1 dat); [done..|]. intros fs m2 pm2 Hlen Hmm2 Hf2 Hcp.
  assert (Hf2h : frame tables_or_high m1 m2).
  { eapply frame_weaken; [|exact Hf2]. intros a [?|(f & _ & _ & ?)]; unfold tables_or_high; auto. }
  pose proof (λ f, tables_high_field m1 m2 c f Hf2h Hc) as Hw2.
  set (s2 := with_phys_mem pm2 (with_mem m2 s)) in *.
  assert (Hq2 : qinv (set_free l σ) (k_mem s2)).
  { eapply qinv_frame; [exact Hq1|exact Hf2h|]. intros a Ha [Ht|Hh];
      destruct (child_writes_kernel c a Hc (or_introl Ha)) as (? & _ & ?); [done|lia]. }
  apply (wp_fork_finish s2 k); try done.
  { exact (queue_remove_out σ (k_mem s) Free [] c l (qi_lists _ _ Hq) Efree). }
  { apply eq_None_not_Some. by intros [_ Hx]%(fi_dom _ _ Hfam). }
  { intros j ks0 Hj Hin. by destruct (fi_kid _ _ Hfam j ks0 c Hj Hin) as (_ & Hx & _). }
  { unfold stack_addr, sizeof_task_struct in *. cbn [s2 k_mem with_phys_mem with_mem].
    rewrite Hw2, Hw1; [done|solve_field..]. }
  intros m3 Hq3 Hf3 Hfk Hp3 Hpar3 Hesp3 Hw3. set (pid := next_pid (k_last_pid s2) c) in *.
  change (k_last_pid s2) with (k_last_pid s) in pid.
  assert (Hpid' : k_last_pid s < pid) by (subst pid; unfold next_pid; case_match; lia).
  assert (Hfr : frame (fork_frame c) (k_mem s) m3).
  { eapply frame_trans; [eapply frame_weaken; [|exact Hf1]; by left|].
    eapply frame_trans; [eapply frame_weaken; [|exact Hf2]|eapply frame_weaken; [|exact Hf3]; by left].
    intros a [?|(f & _ & _ & ?)]; unfold fork_frame; auto. }
  assert (Hc3 : ∀ f, plain_field f → f = f_quantum ∨ 4 * k + 4 ≤ f →
    load32 m3 (task_addr c + f) = load32 (k_mem s) (task_addr (p_run σ) + f)).
  { intros f Hp Hf. pose proof Hp as (? & ? & _). rewrite Hw3 by (done || tauto). cbn [s2 k_mem with_phys_mem with_mem].
    rewrite Hw2 by done. apply Hw1; [done|]. unfold sizeof_task_struct in *. solve_field. }
  assert (Hlow : ∀ a, KERNEL_HI ≤ a → (¬ child_writes c a) ∧ (¬ tables_bytes a)).
  { intros a Ha. split; [intros Hx; destruct (child_writes_kernel c a Hc Hx) as (_ & _ & ?); lia|].
    pose proof pt_window. unfold tables_bytes, in_range. lia. }
  apply (HR fs); [split|split|done]; kred; try done.
  - apply (sched_inv_fork σ c l ks Efree s); try done; kred.
    + rewrite Hw3 by (solve_field || tauto). cbn [s2 k_mem with_phys_mem with_mem]. by rewrite Hw2 by solve_field.
    + lia.
    + unfold quantum_of. rewrite Hc3 by (solve_field || tauto). apply Hco; [done|].
      intros Hx. apply Hout. by apply (queued_q _ Free).
    + cbn. lia.
  - by apply (fam_inv_fork σ c l ks Efree Hkr s).
  - apply (pid_inv_fork σ c l ks Efree s); try done. lia.
  - eapply mm_inv_frame; [exact Hmm2|exact Hf3| |done|done].
    intros a Ha. destruct (child_writes_kernel c a Hc Ha) as (? & ? & _). done.
  - intros a Ha Hn. destruct (Hlow a Ha). rewrite Hf3 by done. cbn [s2 k_mem with_phys_mem with_mem].
    rewrite Hf2, Hf1; [done|done|]. intros [?|(f & Hin & Hb & _)]; [done|]. by apply (Hn f).
  - intros j f d o Hj Hd Ho. rewrite Hf3; [by eapply Hcp|]. apply Hlow.
    destruct (mi_alloc _ _ _ _ Hmm2 c fs f) as ([[Ha _] _] & _);
      [by rewrite lookup_insert_eq|by eapply list_elem_of_lookup_2|].
    unfold NUM_PAG_KERNEL, KERNEL_HI, PAGE_SIZE in *. lia.
  - intros f H1 H2. unfold sizeof_task_struct in *. apply Hc3; [solve_field|by right].
Qed.
End Call.

(** ** The parent's view and the child's *)

(** What a live process finds at an address of its data pages. *)
Lemma data_page σ code data s i fs (j : nat) f o :
  mm_inv σ code data s → data !! i = Some fs → fs !! j = Some f → 0 ≤ o < PAGE_SIZE →
  translate_user (k_mem s) (dir_addr i) ((PAG_LOG_INIT_DATA + Z.of_nat j) * PAGE_SIZE + o) true =
    Some (f * PAGE_SIZE + o).
Proof.
  intros Hmm Hi Hj Ho. pose proof (lookup_lt_Some _ _ _ Hj) as Hlt. rewrite (mi_len _ _ _ _ Hmm _ _ Hi) in Hlt.
  assert (Hv : valid_task i) by (apply (mi_dom _ _ _ _ Hmm); eauto).
  destruct (mi_alloc _ _ _ _ Hmm i fs f Hi) as (Ha & _); [by eapply list_elem_of_lookup_2|].
  destruct (allocatable_range f Ha). destruct (mi_space _ _ _ _ Hmm i Hv) as [Hd _].
  rewrite (translate_user_entry _ i _ _ f PTE_DATA); [done|done|done| |done|
    by apply (mi_data _ _ _ _ Hmm i fs)|done|done].
  change PAG_LOG_INIT_DATA with 256. unfold NUM_PAG_DATA, TOTAL_PAGES in *. lia.
Qed.

(** Every data address is an offset in one of the twenty pages. *)
Lemma data_address va :
  L_USER_START ≤ va < L_USER_START + NUM_PAG_DATA * PAGE_SIZE →
  ∃ (j : nat) o, va = (PAG_LOG_INIT_DATA + Z.of_nat j) * PAGE_SIZE + o ∧ 0 ≤ o < PAGE_SIZE ∧
    (j < Z.to_nat NUM_PAG_DATA)%nat.
Proof.
  intros Hva. exists (Z.to_nat (va / 4096 - 256)), (va mod 4096).
  change PAG_LOG_INIT_DATA with 256. unfold L_USER_START, NUM_PAG_DATA, PAGE_SIZE in *.
  Z.div_mod_to_equations. lia.
Qed.

(** The two address spaces after fork hold the same bytes, in different
    frames. *)
Definition same_data (s s' : kstate) (r c : Z) : Prop :=
  ∀ va, L_USER_START ≤ va < L_USER_START + NUM_PAG_DATA * PAGE_SIZE →
  ∃ pa pb, translate_user (k_mem s) (dir_addr r) va true = Some pa ∧
    translate_user (k_mem s') (dir_addr r) va true = Some pa ∧
    translate_user (k_mem s') (dir_addr c) va true = Some pb ∧ pa ≠ pb ∧
    load8 (k_mem s') pa = load8 (k_mem s) pa ∧ load8 (k_mem s') pb = load8 (k_mem s) pa.

Lemma copied_same_data σ c l ks code data dat fs s s' :
  p_free σ = c :: l → kernel_inv σ code data s → data !! p_run σ = Some dat →
  kernel_inv (fork_table c l ks σ) code (<[c := fs]> data) s' → length fs = Z.to_nat NUM_PAG_DATA →
  (∀ a, KERNEL_HI ≤ a → (∀ f, f ∈ fs → ¬ frame_bytes f a) → load8 (k_mem s') a = load8 (k_mem s) a) →
  (∀ j f d o, fs !! j = Some f → dat !! j = Some d → 0 ≤ o < PAGE_SIZE →
     load8 (k_mem s') (f * PAGE_SIZE + o) = load8 (k_mem s) (d * PAGE_SIZE + o)) →
  same_data s s' (p_run σ) c.
Proof.
  intros Efree Hinv Hdat Hinv' Hlen Hhigh Hcopy va Hva. pose proof (ki_mm _ _ _ _ Hinv) as Hmm.
  pose proof (ki_mm _ _ _ _ Hinv') as Hmm'.
  destruct (free_fresh σ c l Efree s (ki_sched _ _ _ _ Hinv)) as (Hc & _ & Hrc & _).
  destruct (data_address va Hva) as (j & o & -> & Ho & Hj).
  destruct (lookup_lt_is_Some_2 dat j) as [d Hd]; [by rewrite (mi_len _ _ _ _ Hmm _ _ Hdat)|].
  destruct (lookup_lt_is_Some_2 fs j) as [f Hf]; [by rewrite Hlen|].
  assert (Hfr' : <[c := fs]> data !! p_run σ = Some dat) by (by rewrite lookup_insert_ne).
  assert (Hfc : <[c := fs]> data !! c = Some fs) by (by rewrite lookup_insert_eq).
  assert (Hdin : d ∈ dat) by (by eapply list_elem_of_lookup_2).
  assert (Hdf : d ∉ fs).
  { intros Hx. apply Hrc. exact (mi_disj _ _ _ _ Hmm' _ _ _ _ d Hfr' Hfc Hdin Hx). }
  assert (Hout : ∀ g, g ∈ fs → ¬ frame_bytes g (d * PAGE_SIZE + o)).
  { intros g Hg Hb. assert (g = d); [|by subst]. unfold frame_bytes, in_range, PAGE_SIZE in *. lia. }
  exists (d * PAGE_SIZE + o), (f * PAGE_SIZE + o). split_and!.
  - by apply (data_page σ code data s (p_run σ) dat).
  - by eapply (data_page _ code _ s' (p_run σ) dat).
  - by eapply (data_page _ code _ s' c fs).
  - intros E. assert (d = f) as -> by (unfold PAGE_SIZE in *; lia). apply Hdf. by eapply list_elem_of_lookup_2.
  - apply Hhigh; [|done]. destruct (mi_alloc _ _ _ _ Hmm _ _ d Hdat Hdin) as ([[Ha _] _] & _).
    unfold NUM_PAG_KERNEL, KERNEL_HI, PAGE_SIZE in *. lia.
  - by apply (Hcopy j).
Qed.

Lemma sys_fork_full σ code data s :
  p_free σ = [] → kernel_inv σ code data s → sys_fork s = Ret (-1) s.
Proof.
  intros Efree [[Hc _] _ _ _]. pose proof (sc_q _ _ Hc) as Hq.
  destruct (wp_elim sys_fork s (λ v s', v = -1 ∧ s' = s)) as (v & s' & E & -> & ->); [|done].
  unfold sys_fork. apply wp_bind, wp_on_mem. eapply (wp_list_empty kernel_cell); [apply Hq|apply lists_of_free|].
  by rewrite Efree, with_mem_same.
Qed.

(** C9. fork.  With no free task structure it returns -1 and changes nothing.
    Otherwise it always succeeds, the frames cannot run out: the first free
    task becomes a child of the caller and the last of the ready queue; its
    identifier, which the parent gets, is new; the kernel's invariant holds,
    so the two address spaces are separate; and at every data address the
    child finds the byte the parent had there, which the parent still has. *)
Theorem sys_fork_correct σ code data s k :
  kernel_inv σ code data s → on_stack s (p_run σ) → k_cr3 s = dir_addr (p_run σ) → p_run σ ≠ 0 →
  service_frame s (p_run σ) k → 0 ≤ k_last_pid s < 2 ^ 31 - 2 →
  match p_free σ with
  | [] => sys_fork s = Ret (-1) s
  | c :: l => ∃ ks dat fs s', p_kids σ !! p_run σ = Some ks ∧ data !! p_run σ = Some dat ∧
      sys_fork s = Ret (next_pid (k_last_pid s) c) s' ∧
      kernel_inv (fork_table c l ks σ) code (<[c := fs]> data) s' ∧
      pid_of (k_mem s') c = next_pid (k_last_pid s) c ∧
      same_data s s' (p_run σ) c ∧ fork_result σ c dat fs k s s'
  end.
Proof.
  intros Hinv Hon Hcr3 Hr0 Hsf Hlp. destruct (p_free σ) as [|c l] eqn:Efree.
  { by apply (sys_fork_full σ code data). }
  pose proof Hinv as [[Hco Hout] Hfam _ Hmm].
  assert (Hrf : valid_task (p_run σ) ∧ p_run σ ∉ p_free σ).
  { split; [apply (sc_run _ _ Hco)|]. intros Hx. apply Hout. by apply (queued_q _ Free). }
  destruct (proj2 (fi_dom _ _ Hfam (p_run σ)) Hrf) as [ks Hks].
  destruct (proj2 (mi_dom _ _ _ _ Hmm (p_run σ))) as [dat Hdat]; [tauto|].
  destruct (wp_elim sys_fork s (λ v s', v = next_pid (k_last_pid s) c ∧ ∃ fs,
      kernel_inv (fork_table c l ks σ) code (<[c := fs]> data) s' ∧ fork_result σ c dat fs k s s' ∧
      length fs = Z.to_nat NUM_PAG_DATA)) as (v & s' & E & -> & fs & Hi & Hres & Hlen).
  - eapply (wp_sys_fork σ c l ks code data); [done..|]. eauto.
  - exists ks, dat, fs, s'. split_and!; try done; [apply Hres|].
    eapply copied_same_data; [done..|apply Hres|apply Hres].
Qed.
End ForkInv.
