(* ===== verification/Exit.v ===== *)
(** exit: a process leaves its family, its children go to the idle task, its
    frames and its task structure are given back. *)

From S2P Require Import Prelude Memory CList Libc Console Frames Types Kernel Task Paging Utils Switch.
From S2P Require Import Sched Policy Space Process Sys Block.

Section Exit.
Context {L : Layout} {LO : LayoutOk L}.

(** ** The specification *)

(** The families once [r] is nobody's child. *)
Definition without (r : Z) (kids : gmap Z (list Z)) : gmap Z (list Z) :=
  (λ l : list Z, filter (λ c, c ≠ r) l) <$> kids.

Definition kids_of (kids : gmap Z (list Z)) (i : Z) : list Z := default [] (kids !! i).

(** ... and once its children are the idle task's. *)
Definition exit_kids (r : Z) (kids : gmap Z (list Z)) : gmap Z (list Z) :=
  delete r (<[0 := kids_of (without r kids) 0 ++ kids_of (without r kids) r]> (without r kids)).

(** The table before the processor is given to another task. *)
Definition dead_table (σ : ptable) : ptable :=
  PTable (p_run σ) (p_ready σ) (p_free σ ++ [p_run σ]) (p_blocked σ) (exit_kids (p_run σ) (p_kids σ)).

Definition exit_table (σ : ptable) : ptable :=
  set_run (pick (dead_table σ)).1 (pick (dead_table σ)).2.

(** What exit writes before the switch: links, parents and page tables. *)
Definition family_writes (a : Z) : Prop :=
  cell_bytes kernel_cell a ∨ ∃ i, valid_task i ∧ in_range (task_addr i + f_parent) 4 a.

Definition exit_writes (a : Z) : Prop := family_writes a ∨ tables_bytes a.

Lemma parent_not_plain i j f a :
  valid_task i → valid_task j → 0 ≤ f → f + 4 ≤ PAGE_SIZE → f + 4 ≤ f_parent ∨ f_child_anchor ≤ f →
  in_range (task_addr i + f) 4 a → ¬ in_range (task_addr j + f_parent) 4 a.
Proof.
  intros Hi Hj H0 H1 Hf Ha Hb. unfold in_range, f_parent, f_child_anchor, PAGE_SIZE in *.
  destruct (decide (i = j)) as [->|Hne]; [lia|].
  pose proof (task_addr_apart i j Hi Hj Hne). unfold apart, PAGE_SIZE in *. lia.
Qed.

Lemma exit_writes_stack i a : valid_task i → stack_bytes i a → ¬ exit_writes a.
Proof.
  intros Hi Ha [[Hc|(j & Hj & Hb)]|Ht].
  - by apply (cells_stack i a).
  - eapply (stack_field i j f_parent a); try done. unfold data_field. solve_field.
  - assert (Hp : in_range (task_addr i) PAGE_SIZE a)
      by (unfold stack_bytes, in_range, f_kernel_esp, sizeof_task_struct, PAGE_SIZE in *; lia).
    by destruct (page_tables_apart i a Hi Hp).
Qed.

Lemma exit_writes_field i f a :
  valid_task i → plain_field f → f + 4 ≤ f_parent ∨ f_child_anchor ≤ f →
  in_range (task_addr i + f) 4 a → ¬ exit_writes a.
Proof.
  intros Hi Hp Hf Ha [[Hc|(j & Hj & Hb)]|Ht]; pose proof Hp as (? & ? & _).
  - by apply (cell_not_plain i f a).
  - by apply (parent_not_plain i j f a).
  - by destruct (task_word_apart i f a).
Qed.

(** ** Leaving the parent's list *)

Lemma kids_uniq σ m i j ks ls c :
  lists_ok kernel_cell m (lists_of σ) → ptable_valid σ →
  p_kids σ !! i = Some ks → p_kids σ !! j = Some ls → c ∈ ks → c ∈ ls → i = j.
Proof.
  intros Hok Hv Hi Hj Hc Hc'. destruct (pv_kids _ Hv _ _ Hi) as [Hvi _]. destruct (pv_kids _ Hv _ _ Hj) as [Hvj _].
  apply (inj childs_of). eapply (lists_disj _ _ _ Hok _ _ _ _ (child_anchor_of c));
    [by apply lists_of_kids|by apply lists_of_kids|..]; apply list_elem_of_further; by apply list_elem_of_fmap_2.
Qed.

Lemma kids_nodup σ m i ks :
  lists_ok kernel_cell m (lists_of σ) → ptable_valid σ → p_kids σ !! i = Some ks → NoDup ks.
Proof.
  intros Hok Hv Hi. destruct (pv_kids _ Hv _ _ Hi) as [Hvi _].
  pose proof (lists_nodup _ _ _ Hok _ _ (lists_of_kids _ _ _ Hvi Hi)) as [_ Hn]%NoDup_cons.
  by apply NoDup_fmap_1 in Hn.
Qed.

Lemma without_absent r kids : (∀ j ks, kids !! j = Some ks → r ∉ ks) → without r kids = kids.
Proof.
  intros Hn. apply map_eq. intros j. unfold without. rewrite lookup_fmap.
  destruct (kids !! j) as [ks|] eqn:E; [|done]. cbn. by rewrite filter_absent by eauto.
Qed.

Lemma without_insert r kids j l1 l2 :
  kids !! j = Some (l1 ++ r :: l2) → NoDup (l1 ++ r :: l2) →
  (∀ i ks, kids !! i = Some ks → r ∈ ks → i = j) → without r kids = <[j := l1 ++ l2]> kids.
Proof.
  intros Hj Hn Hu. apply map_eq. intros i. unfold without. rewrite lookup_fmap.
  destruct (decide (i = j)) as [->|Hne].
  - rewrite lookup_insert_eq, Hj. cbn. by rewrite filter_remove.
  - rewrite lookup_insert_ne by done. destruct (kids !! i) as [ks|] eqn:E; [|done]. cbn.
    rewrite filter_absent; [done|]. intros Hr. by apply Hne, (Hu i ks).
Qed.

Lemma wp_exit_leave σ r s R :
  qinv σ (k_mem s) → fam_inv σ (k_mem s) → valid_task r → r ∉ p_free σ →
  (∀ m', qinv (set_kids (without r (p_kids σ)) σ) m' → cells_only (k_mem s) m' → R tt (with_mem m' s)) →
  wp (when (negb (parent_of (k_mem s) r =? NULL)) (on_mem (list_del (child_anchor_of r)))) s R.
Proof.
  intros Hq Hfam Hr Hrf HR. pose proof Hq as [Hv Hok _].
  assert (Hpar : ∀ j ks, p_kids σ !! j = Some ks → r ∈ ks → parent_of (k_mem s) r ≠ NULL).
  { intros j ks Hj Hin. destruct (fi_kid _ _ Hfam j ks r Hj Hin) as (_ & _ & ->).
    destruct (pv_kids _ Hv _ _ Hj) as [Hvj _]. pose proof (task_addr_window j Hvj).
    unfold NULL, KERNEL_START in *. lia. }
  destruct (fi_root _ _ Hfam r Hr Hrf) as [En|(j & ks & Hj & Hin)].
  - rewrite En. cbn. apply wp_ret. specialize (HR (k_mem s)). rewrite with_mem_same in HR.
    apply HR; [|apply frame_refl]. rewrite without_absent; [by destruct σ|].
    intros j ks Hj Hin. by apply (Hpar j ks).
  - destruct (Z.eqb_spec (parent_of (k_mem s) r) NULL) as [E|_]; [by destruct (Hpar j ks)|]. cbn.
    pose proof (kids_nodup σ _ j ks Hok Hv Hj) as Hnd. apply list_elem_of_split in Hin as (l1 & l2 & ->).
    apply wp_on_mem, (wp_kid_del σ _ j l1 r l2); [done..|]. intros m' Hq' Hf. apply HR; [|done].
    rewrite (without_insert r _ j l1 l2); [done..|]. intros i ks Hi Hin.
    eapply (kids_uniq σ _ i j); [done..|]. rewrite elem_of_app, elem_of_cons. auto.
Qed.

(** ** The children *)

(** What a task that is on no list of children leaves behind. *)
Lemma qinv_drop_kids σ m i :
  qinv σ m → valid_task i → qinv (set_kids (delete i (p_kids σ)) σ) m.
Proof.
  intros [[Hv1 Hv2] Hok Hl] Hi. split; [split|..]; cbn.
  - done.
  - intros j ks [_ Hj]%lookup_delete_Some. by apply Hv2.
  - rewrite <- lists_of_del_kids by done. by apply lists_delete.
  - done.
Qed.

Section Orphans.
Context (σ : ptable) (r : Z) (k0 ks : list Z) (s0 : kstate).
Context (Hr : valid_task r) (Hr0 : r ≠ 0) (Hidle : k_idle_task s0 = task_addr 0).
Context (Hk0 : p_kids σ !! 0 = Some k0) (Hks : p_kids σ !! r = Some ks).
Context (Hq0 : qinv σ (k_mem s0)).

(** After some passes: [gone] are the idle task's, [rest] still the dying
    task's. *)
Definition orphans_inv (xs : list Z) (s : kstate) : Prop :=
  ∃ gone rest m', xs = child_anchor_of <$> rest ∧ ks = gone ++ rest ∧ s = with_mem m' s0 ∧
    qinv (set_kids (<[r := rest]> (<[0 := k0 ++ gone]> (p_kids σ))) σ) m' ∧
    frame family_writes (k_mem s0) m' ∧
    (∀ i, valid_task i → parent_of m' i = if decide (i ∈ gone) then task_addr 0 else parent_of (k_mem s0) i).

Lemma orphans_step x xs s :
  orphans_inv (x :: xs) s →
  wp (let tmp := list_entry x f_child_anchor in
      let! idle := gets k_idle_task in
      set_field tmp f_parent idle ;!
      on_mem (list_del x) ;!
      on_mem (list_add_tail x (idle + f_childs))) s (λ _ s', orphans_inv xs s').
Proof.
  intros (gone & rest & m & Ex & Eks & -> & Hq & Hf & Hp).
  destruct rest as [|c rest]; [done|]. injection Ex as -> ->. rewrite list_entry_child_anchor.
  assert (Hc : valid_task c).
  { destruct (pv_kids _ (qi_valid _ _ Hq) r (c :: rest)) as [_ Hv]; [apply lookup_insert_eq|].
    apply Hv, list_elem_of_here. }
  assert (H0 : valid_task 0) by done. pose proof (task_addr_window 0 H0) as Hw0.
  cbv zeta. apply wp_bind, wp_gets. kred. rewrite Hidle. change (task_addr 0 + f_childs) with (childs_of 0).
  apply wp_bind, wp_set_field; [done|solve_field..|]. kred. set (m1 := store32 m _ _).
  assert (Hq1 : qinv (set_kids (<[r := c :: rest]> (<[0 := k0 ++ gone]> (p_kids σ))) σ) m1)
    by (apply qinv_set_field; [done..|solve_field]).
  apply wp_bind, wp_on_mem. eapply (wp_kid_del _ _ r [] c rest); kred; [exact Hq1|apply lookup_insert_eq|].
  intros m2 Hq2 Hf2. apply wp_on_mem. kred. apply (wp_kid_add _ _ 0 (k0 ++ gone) c _ Hq2 Hc); cbn [p_kids set_kids].
  { rewrite !lookup_insert_ne, lookup_insert_eq by done. done. }
  { pose proof (qi_valid _ _ Hq1) as Hv1. pose proof (qi_lists _ _ Hq1) as Hl1.
    assert (Hkr : p_kids (set_kids (<[r := c :: rest]> (<[0 := k0 ++ gone]> (p_kids σ))) σ) !! r = Some (c :: rest))
      by apply lookup_insert_eq.
    pose proof (kids_nodup _ _ _ _ Hl1 Hv1 Hkr) as [Hn _]%NoDup_cons.
    intros k l Hk Hin. cbn in Hk. rewrite insert_insert_eq in Hk. apply lookup_insert_Some in Hk as [[<- <-]|[Hne Hk]]; [done|].
    apply Hne. eapply (kids_uniq _ _ r k); [exact Hl1|exact Hv1|exact Hkr| |apply list_elem_of_here|exact Hin].
    cbn. by rewrite lookup_insert_ne. }
  intros m3 Hq3 Hf3. exists (gone ++ [c]), rest, m3. split_and!.
  - done.
  - by rewrite <- app_assoc.
  - done.
  - cbn in Hq3. rewrite insert_insert_eq, (insert_insert_ne _ 0 r), insert_insert_eq in Hq3 by done.
    by rewrite app_assoc.
  - eapply frame_trans; [exact Hf|].
    eapply (frame_trans _ _ m1); [apply frame_store32; intros a Ha; right; by exists c|].
    eapply (frame_weaken (cell_bytes kernel_cell)); [by left|]. by eapply frame_trans.
  - intros i Hi. unfold parent_of. rewrite (cells_plain _ _ _ _ Hf3), (cells_plain _ _ _ _ Hf2) by (done || solve_field).
    destruct (decide (i = c)) as [->|Hic].
    + rewrite decide_True by (rewrite elem_of_app, list_elem_of_singleton; auto).
      apply load32_store32_same. unfold KERNEL_START, KERNEL_HI, PAGE_SIZE in *. lia.
    + unfold m1. rewrite field_store_ne by (done || solve_field || auto). fold (parent_of m i). rewrite Hp by done.
      destruct (decide (i ∈ gone)); [rewrite decide_True|rewrite decide_False]; try done;
        rewrite elem_of_app, list_elem_of_singleton; tauto.
Qed.

Lemma wp_exit_orphans R :
  (∀ m', qinv (set_kids (delete r (<[0 := k0 ++ ks]> (p_kids σ))) σ) m' →
     frame family_writes (k_mem s0) m' →
     (∀ i, valid_task i → parent_of m' i = if decide (i ∈ ks) then task_addr 0 else parent_of (k_mem s0) i) →
     R tt (with_mem m' s0)) →
  wp (exit_orphans (task_addr r)) s0 R.
Proof.
  intros HR. pose proof Hq0 as [Hv Hok _]. destruct (pv_kids _ Hv _ _ Hks) as [_ Hvk].
  unfold exit_orphans. change (task_addr r + f_childs) with (childs_of r).
  eapply wp_mono; [eapply (wp_list_for_each_safe _ orphans_inv _ _ _ (child_anchor_of <$> ks))|].
  - rewrite length_fmap. apply valid_nodup_length; [by eapply kids_nodup|done].
  - intros xs s (gone & rest & m & -> & Eks & -> & Hq & _).
    assert (Hl : lists_of (set_kids (<[r := rest]> (<[0 := k0 ++ gone]> (p_kids σ))) σ) !! childs_of r =
      Some (child_anchor_of <$> rest)) by (apply lists_of_kids; [done|apply lookup_insert_eq]).
    pose proof (lists_nodup _ _ _ (qi_lists _ _ Hq) _ _ Hl) as [Hn _]%NoDup_cons. split_and!; [done|..].
    + by eapply (rd_next m _ _ _ [] (childs_of r)); [apply Hq|exact Hl|..].
    + intros x xs' Ex. eapply (rd_next m _ _ _ [childs_of r] x xs'); [apply Hq|exact Hl|by rewrite Ex|done].
  - apply orphans_step.
  - exists [], ks, (k_mem s0). rewrite app_nil_r, with_mem_same. split_and!; try done.
    rewrite (insert_id _ 0), (insert_id _ r) by (rewrite ?insert_id by done; done). by destruct σ.
  - intros [] s (gone & rest & m & E & Eks & -> & Hq & Hf & Hp). destruct rest; [|done].
    rewrite app_nil_r in Eks. subst gone. apply HR; [|done..].
    apply (qinv_drop_kids _ _ r) in Hq; [|done]. cbn in Hq. by rewrite delete_insert_eq in Hq.
Qed.
End Orphans.

(** ** The invariant's parts for the table of the dead *)

Lemma without_Some r kids j ks :
  without r kids !! j = Some ks ↔ ∃ ls, kids !! j = Some ls ∧ ks = filter (λ c, c ≠ r) ls.
Proof. unfold without. rewrite lookup_fmap_Some. naive_solver. Qed.

Lemma exit_kids_Some σ m r j ks k0 kr :
  fam_inv σ m → without r (p_kids σ) !! 0 = Some k0 → without r (p_kids σ) !! r = Some kr →
  exit_kids r (p_kids σ) !! j = Some ks ↔
  j ≠ r ∧ ((j = 0 ∧ ks = k0 ++ kr) ∨ (j ≠ 0 ∧ without r (p_kids σ) !! j = Some ks)).
Proof.
  intros Hfam H0 Hr. unfold exit_kids, kids_of. rewrite H0, Hr. cbn.
  rewrite lookup_delete_Some, lookup_insert_Some. naive_solver.
Qed.

Lemma fam_inv_exit σ m m' k0 kr :
  let r := p_run σ in
  fam_inv σ m → ptable_valid σ → r ≠ 0 → 0 ∉ p_free σ →
  without r (p_kids σ) !! 0 = Some k0 → without r (p_kids σ) !! r = Some kr →
  (∀ i, valid_task i → parent_of m' i = if decide (i ∈ kr) then task_addr 0 else parent_of m i) →
  fam_inv (dead_table σ) m'.
Proof.
  intros r Hfam Hv Hr0 H0f H0 Hr Hp. pose proof Hfam as [Hd Hk Hroot].
  assert (Hkr : ∀ c, c ∈ kr → c ≠ r ∧ parent_of m c = task_addr r ∧ valid_task c).
  { intros c Hc. apply without_Some in Hr as (ls & Hls & ->). apply list_elem_of_filter in Hc as [? Hc].
    destruct (Hk r ls c Hls Hc) as (_ & _ & ?). split_and!; [done..|].
    by apply (pv_kids _ Hv _ _ Hls). }
  assert (Hkid : ∀ j ks c, without r (p_kids σ) !! j = Some ks → c ∈ ks →
    c ≠ 0 ∧ c ∉ p_free σ ++ [r] ∧ parent_of m c = task_addr j ∧ valid_task c).
  { intros j ks c (ls & Hls & ->)%without_Some [Hcr Hc]%list_elem_of_filter.
    destruct (Hk j ls c Hls Hc) as (? & ? & ?). rewrite not_elem_of_app, list_elem_of_singleton.
    split_and!; try done. by apply (pv_kids _ Hv _ _ Hls). }
  pose proof (λ j ks, exit_kids_Some σ m r j ks k0 kr Hfam H0 Hr) as Hek.
  split; cbn [p_kids p_free dead_table]; fold r.
  - intros i. rewrite not_elem_of_app, list_elem_of_singleton. split.
    + intros [ks Hx]. apply Hek in Hx. destruct Hx as [Hir [[-> _]|[_ Hi]]].
      * by split.
      * apply without_Some in Hi as (ls & Hls & _). destruct (proj1 (Hd i) (ex_intro _ _ Hls)). done.
    + intros (Hi & Hif & Hir). destruct (proj2 (Hd i) (conj Hi Hif)) as [ls Hls].
      destruct (decide (i = 0)) as [->|Hi0].
      * exists (k0 ++ kr). apply Hek. auto.
      * exists (filter (λ c, c ≠ r) ls). apply Hek. split; [done|]. right.
        split; [done|]. apply without_Some. eauto.
  - intros j ks c Hj Hc. apply Hek in Hj. destruct Hj as [Hjr [[-> ->]|[Hj0 Hj]]].
    + apply elem_of_app in Hc as [Hc|Hc].
      * destruct (Hkid 0 k0 c H0 Hc) as (? & ? & E & Hvc). rewrite Hp by done. by case_decide.
      * destruct (Hkid r kr c Hr Hc) as (? & ? & _ & Hvc). rewrite Hp, decide_True by done. done.
    + destruct (Hkid j ks c Hj Hc) as (? & ? & E & Hvc). split_and!; [done..|]. rewrite Hp, decide_False; [done| |done].
      intros Hx. destruct (Hkr c Hx) as (_ & E' & _). rewrite E in E'. by apply task_addr_inj in E'.
  - intros c Hvc. rewrite not_elem_of_app, list_elem_of_singleton. intros [Hcf Hcr].
    destruct (decide (c ∈ kr)) as [Hin|Hin].
    { right. exists 0, (k0 ++ kr). split; [apply Hek; split; [done|by left]|]. rewrite elem_of_app. auto. }
    rewrite Hp, decide_False by done. destruct (Hroot c Hvc Hcf) as [?|(j & ls & Hj & Hc)]; [by left|right].
    assert (Hw : without r (p_kids σ) !! j = Some (filter (λ c, c ≠ r) ls)) by (apply without_Some; eauto).
    assert (Hcw : c ∈ filter (λ c, c ≠ r) ls) by (by apply list_elem_of_filter).
    assert (Hjr : j ≠ r) by (intros ->; rewrite Hw in Hr; by injection Hr as <-).
    destruct (decide (j = 0)) as [->|Hj0].
    + exists 0, (k0 ++ kr). split; [apply Hek; split; [done|by left]|].
      assert (k0 = filter (λ c, c ≠ r) ls) as -> by congruence. apply elem_of_app. by left.
    + exists j, (filter (λ c, c ≠ r) ls). split; [|done]. apply Hek. auto.
Qed.

Lemma pid_inv_exit σ m m' :
  pid_inv σ m → (∀ i, valid_task i → pid_of m' i = pid_of m i) → pid_inv (dead_table σ) m'.
Proof.
  intros [Hp Hu H0] He. split; cbn [p_free dead_table].
  - intros i Hi Hf Hi0. rewrite He by done. apply not_elem_of_app in Hf as [? _]. auto.
  - intros i j Hi Hj Hif Hjf. rewrite !He by done. apply not_elem_of_app in Hif as [? _].
    apply not_elem_of_app in Hjf as [? _]. auto.
  - by rewrite He.
Qed.

Lemma mm_inv_exit σ code data s s' dat :
  let r := p_run σ in
  mm_inv σ code data s → data !! r = Some dat → freed (k_phys_mem s) (k_phys_mem s') dat →
  (∀ i, valid_task i → dir_ok (k_mem s') i) → (∀ i, valid_task i → dir_rest (k_mem s') i) →
  (∀ i p, valid_task i → 0 ≤ p < TOTAL_PAGES → i ≠ r ∨ p < PAG_LOG_INIT_DATA ∨ PAG_LOG_INIT_CODE ≤ p →
     load32 (k_mem s') (pte_addr (pt_addr i) p) = load32 (k_mem s) (pte_addr (pt_addr i) p)) →
  mm_inv (dead_table σ) code (delete r data) s'.
Proof.
  intros r Hmm Hdat (Hpm & Hg) Hdir Hdrs Hent.
  destruct Hmm as [mi_space0 mi_rest0 mi_pm0 mi_dom0 mi_code_len0 mi_len0 mi_code0 mi_data0 mi_used0
    mi_code_alloc0 mi_alloc0 mi_nodup0 mi_code_disj0 mi_disj0 mi_first0 mi_code_nodup0 mi_dirs0].
  assert (Hold : ∀ i gs k base fl ls, data !! i = Some gs → i ≠ r → maps (k_mem s) i base fl ls →
    0 ≤ base → length ls = k → base + Z.of_nat k ≤ TOTAL_PAGES → maps (k_mem s') i base fl ls).
  { intros i gs k base fl ls Hi Hne Hm Hb Hk Ht j f Hj. pose proof (lookup_lt_Some _ _ _ Hj).
    rewrite Hent; [by apply Hm|by apply mi_dom0; eauto|lia|by left]. }
  assert (Hkeep : ∀ f, allocatable f → f ∉ dat → pm_get (k_phys_mem s') f = pm_get (k_phys_mem s) f).
  { intros f Ha Hn. apply allocatable_range in Ha. by rewrite Hg, decide_False by (done || lia). }
  split.
  - intros i Hi. split; [auto|]. intros p Hp. destruct (mi_space0 i Hi) as [_ Hk].
    rewrite Hent; [by apply Hk|done|unfold TOTAL_PAGES, NUM_PAG_KERNEL in *; lia|right; left; apply Hp].
  - intros i p Hi Hp. change (PAG_LOG_INIT_DATA + USER_PAGES) with 284 in Hp.
    rewrite Hent; [by apply mi_rest0|done|lia|]. change PAG_LOG_INIT_CODE with 276. lia.
  - done.
  - intros i. cbn [p_free dead_table]. rewrite lookup_delete_is_Some, mi_dom0, not_elem_of_app, list_elem_of_singleton.
    fold r. naive_solver.
  - done.
  - intros i gs [_ Hi]%lookup_delete_Some. eauto.
  - intros i gs [Hne Hi]%lookup_delete_Some. by apply (Hold i gs (Z.to_nat NUM_PAG_CODE)); eauto.
  - intros i gs [Hne Hi]%lookup_delete_Some. by apply (Hold i gs (Z.to_nat NUM_PAG_DATA)); eauto.
  - intros f Ha Hne. pose proof (allocatable_range f Ha). rewrite Hg in Hne by lia. case_decide as Hin; [done|].
    destruct (mi_used0 f Ha Hne) as [?|(i & gs & Hi & Hf)]; [by left|right]. exists i, gs.
    rewrite lookup_delete_ne; [done|]. intros <-. fold r in Hi. by simplify_eq.
  - intros f Hf. destruct (mi_code_alloc0 f Hf) as [Ha Hu]. split; [done|]. rewrite Hkeep; [done|done|].
    intros Hx. by apply (mi_code_disj0 r dat f).
  - intros i gs f [Hne Hi]%lookup_delete_Some Hf. destruct (mi_alloc0 i gs f Hi Hf) as (Ha & Hu & Hlt).
    split_and!; [done| |done]. rewrite Hkeep; [done|done|]. intros Hx. apply Hne. by apply (mi_disj0 r dat i gs f).
  - intros i gs [_ Hi]%lookup_delete_Some. eauto.
  - intros i gs f [_ Hi]%lookup_delete_Some. eauto.
  - intros i gs j hs f [_ Hi]%lookup_delete_Some [_ Hj]%lookup_delete_Some. eauto.
  - done.
  - done.
  - done.
Qed.

(** ** The call *)

Lemma family_writes_tables a :
  family_writes a → (¬ tables_bytes a) ∧ (¬ dirs_bytes a).
Proof.
  intros [Ha|(i & Hi & Ha)]; [apply links_stacks_tables; by left|].
  by apply (task_word_apart i f_parent); [|solve_field..|].
Qed.

Lemma data_entries_tables i a : valid_task i → entry_bytes i PAG_LOG_INIT_DATA NUM_PAG_DATA a → tables_bytes a.
Proof.
  intros Hi Ha. eapply (pt_bytes_tables i); [done|].
  unfold entry_bytes, pt_bytes, in_range, pte_addr in *. change PAG_LOG_INIT_DATA with 256 in *.
  unfold NUM_PAG_DATA, PAGE_SIZE in *. lia.
Qed.

(** What the switch away from the dead task leaves. *)
Record exited (s s' : kstate) (r n : Z) : Prop := {
  ex_cr3 : k_cr3 s' = dir_addr n;
  ex_esp0 : esp0 (k_tss s') = stack_addr (task_addr n) (KERNEL_STACK_SIZE - 1);
  ex_last : k_last_pid s' = k_last_pid s;
  ex_ticks : k_zeos_ticks s' = k_zeos_ticks s;
  ex_quantum : k_quantum_ticks s' = k_quantum_ticks s;
  ex_cs : cs (k_regs s') = cs (k_regs s);
  ex_eip : eip (k_regs s') ∈ [addr_cpu_idle; addr_ret_from_fork; addr_task_switch_ret];
  ex_idle : n = 0 → idle_start (k_mem s) 0 → idle_entered s s';
}.

(** The page tables and the frame map, once the pages are freed. *)
Lemma wp_exit_pages σ code data s m1 dat R :
  let r := p_run σ in
  kernel_inv σ code data s → r ≠ 0 → data !! r = Some dat →
  frame family_writes (k_mem s) m1 →
  (∀ m2 pm2, mm_inv (dead_table σ) code (delete r data) (with_phys_mem pm2 (with_mem m2 s)) →
     frame (entry_bytes r PAG_LOG_INIT_DATA NUM_PAG_DATA) m1 m2 →
     R tt (with_phys_mem pm2 (with_mem m2 s))) →
  wp (free_user_pages (task_addr r)) (with_mem m1 s) R.
Proof.
  intros r [Hs Hfam Hpid Hmm] Hr0 Hdat Hf1 HR. destruct Hs as [Hco Hout]. pose proof (sc_run _ _ Hco) as Hrun.
  fold r in Hrun, Hout. assert (Hrf : r ∉ p_free σ) by (intros Hx; apply Hout; by apply (queued_q _ Free)).
  assert (Hmm1 : mm_inv σ code data (with_mem m1 s)).
  { eapply mm_inv_frame; [exact Hmm|exact Hf1|apply family_writes_tables|done|done]. }
  destruct (mi_space _ _ _ _ Hmm1 r Hrun) as [Hdr _].
  eapply wp_mono; [apply (wp_free_user_pages r dat)|]; kred.
  - done.
  - rewrite (frame_load32 _ _ _ _ Hf1); [by apply Hco|]. intros b Hb Hx.
    apply (exit_writes_field r f_dir_pages_baseAddr b); [done|solve_field|solve_field|done|by left].
  - done.
  - apply (mi_pm _ _ _ _ Hmm).
  - by eapply (mi_len _ _ _ _ Hmm).
  - by eapply (mi_data _ _ _ _ Hmm1).
  - intros f Hf. destruct (mi_alloc _ _ _ _ Hmm _ _ _ Hdat Hf) as (Ha & _ & ?).
    destruct (allocatable_range f Ha). lia.
  - intros [] s' (m2 & pm2 & -> & Hfr & Hz & Hf2). kred_all. rewrite with_mem_mem. apply HR; [|done].
    eapply (mm_inv_exit σ code data (with_mem m1 s) _ dat); [exact Hmm1|done|exact Hfr|..]; kred.
    + intros i Hi. eapply dir_word_frame; [done|exact Hf2| |by apply (mi_space _ _ _ _ Hmm1)].
      intros a Ha Hb%data_entries_tables; [|done]. by apply (tables_dirs_apart a).
    + intros i Hi. eapply dir_rest_frame; [done|exact Hf2| |by apply (mi_dirs _ _ _ _ Hmm1)].
      intros a Hb%data_entries_tables Ha; [|done]. by destruct (tables_dirs_apart a).
    + intros i p Hi Hp Hne. apply (frame_load32 _ _ _ _ Hf2). intros b.
      unfold entry_bytes, in_range, pte_addr, pt_addr, PAGE_SIZE, NUM_PAG_DATA, TOTAL_PAGES in *.
      change PAG_LOG_INIT_CODE with 276 in *. change PAG_LOG_INIT_DATA with 256 in *. fold r in Hne. lia.
Qed.

Lemma dead_pick σ : p_run σ ≠ 0 → p_run σ ∉ queued σ → (pick (dead_table σ)).1 ≠ p_run σ.
Proof.
  intros H0 Hq. unfold pick. cbn. destruct (p_ready σ) as [|n l] eqn:Er; cbn; [done|].
  intros ->. apply Hq. unfold queued. rewrite Er. apply list_elem_of_here.
Qed.

(** The scheduler's part once the process is on the free queue. *)
Lemma dead_sched_core σ s m pm :
  sched_core σ s → p_run σ ≠ 0 → qinv (dead_table σ) m → frame exit_writes (k_mem s) m →
  sched_core (dead_table σ) (with_mem m (with_phys_mem pm s)).
Proof.
  intros Hco Hr0 Hq Hf. destruct (sc_idle_q _ _ Hco) as [H0f H0b].
  eapply (sched_core_mem exit_writes σ); [exact Hco|exact Hq|exact Hf|..]; try done.
  - intros i a Hi _ _. by apply exit_writes_stack.
  - intros i f a Hi Hin. apply (exit_writes_field i f); [done|..]; set_unfold in Hin; destruct_or!; subst; solve_field.
  - intros i Hi. left. unfold queued in *. cbn. rewrite !elem_of_app in *. tauto.
  - cbn. rewrite not_elem_of_app, list_elem_of_singleton. split_and!; [done|by intros E; apply Hr0|done].
  - intros i. cbn. rewrite not_elem_of_app. tauto.
Qed.

Lemma exited_switch σ s m pm s' :
  let s4 := with_mem m (with_phys_mem pm s) in let n := p_run (exit_table σ) in
  p_run σ ≠ 0 → p_run σ ∉ queued σ → frame exit_writes (k_mem s) m → sched_core (dead_table σ) s4 →
  switched s4 s' (p_run σ) n → k_quantum_ticks s' = k_quantum_ticks s → exited s s' (p_run σ) n.
Proof.
  intros s4 n Hr0 Hout Hf Hc Hsw Hqt. destruct (pick_valid _ _ Hc) as [Hn Hnf]. split; try apply Hsw; [done|..].
  - eapply (switched_eip _ _ _ _ Hc); [exact Hn|exact (dead_pick σ Hr0 Hout)|exact Hnf|exact Hsw].
  - intros En Hi. rewrite En in Hsw. destruct (switched_idle _ _ _ Hsw (sc_run _ _ Hc) Hr0) as [].
    + eapply idle_start_frame; [exact Hi|exact Hf|]. intros a. by apply exit_writes_stack.
    + by split.
Qed.

(** The process leaves its parent, and its children go to the idle task: the
    first half of exit, before the rest [k]. *)
Lemma wp_exit_family σ s (k : K unit) ok R :
  let r := p_run σ in
  sched_inv σ s → fam_inv σ (k_mem s) → r ≠ 0 →
  (∀ m', qinv (set_kids (exit_kids r (p_kids σ)) σ) m' → frame family_writes (k_mem s) m' →
     (∀ m, (∀ i, valid_task i → parent_of m i = parent_of m' i) → fam_inv (dead_table σ) m) →
     wp_or (BufferOverflow 3) ok k (with_mem m' s) R) →
  wp_or (BufferOverflow 3) ok (let! parent := get_field (task_addr r) f_parent in
      when (negb (parent =? NULL)) (on_mem (list_del (task_addr r + f_child_anchor))) ;!
      exit_orphans (task_addr r) ;! k) s R.
Proof.
  intros r [Hco Hout] Hfam Hr0 HR. pose proof (sc_run _ _ Hco) as Hrun. fold r in Hrun, Hout.
  assert (Hrf : r ∉ p_free σ) by (intros Hx; apply Hout; by apply (queued_q _ Free)).
  assert (H0 : valid_task 0) by done. destruct (sc_idle_q _ _ Hco) as [H0f _].
  destruct (proj2 (fi_dom _ _ Hfam r) (conj Hrun Hrf)) as [lr Hlr].
  destruct (proj2 (fi_dom _ _ Hfam 0) (conj H0 H0f)) as [l0 Hl0].
  set (k0 := filter (λ c, c ≠ r) l0). set (kr := filter (λ c, c ≠ r) lr).
  assert (Hk0 : without r (p_kids σ) !! 0 = Some k0) by (apply without_Some; eauto).
  assert (Hkr : without r (p_kids σ) !! r = Some kr) by (apply without_Some; eauto).
  apply wp_or_bind, wp_get_field; [done|solve_field..|].
  change (load32 (k_mem s) (task_addr r + f_parent)) with (parent_of (k_mem s) r).
  change (task_addr r + f_child_anchor) with (child_anchor_of r).
  apply wp_or_bind, (wp_exit_leave σ); [apply Hco|done..|]. intros m1 Hq1 Hf1.
  apply wp_or_bind, (wp_exit_orphans (set_kids (without r (p_kids σ)) σ) r k0 kr); try done; [apply Hco|]. kred.
  intros m2 Hq2 Hf2 Hp2. rewrite with_mem_mem. apply HR.
  - unfold exit_kids, kids_of. rewrite Hk0, Hkr. exact Hq2.
  - eapply frame_trans; [eapply frame_weaken; [|exact Hf1]; by left|exact Hf2].
  - intros m Hm. apply (fam_inv_exit σ (k_mem s) _ k0 kr); try done; [apply (sc_q _ _ Hco)|].
    intros i Hi. rewrite Hm, Hp2 by done. case_decide; [done|].
    apply (cells_plain _ _ i f_parent Hf1); [done|solve_field].
Qed.

Lemma sys_exit_cases σ code data s R :
  kernel_inv σ code data s → cpu_ok (p_run σ) s → p_run σ ≠ 0 →
  (∀ s', kernel_inv (exit_table σ) code (delete (p_run σ) data) s' →
     exited s s' (p_run σ) (p_run (exit_table σ)) → R tt s') →
  wp_or (BufferOverflow 3) (shows_pid s (p_run (exit_table σ))) sys_exit s R.
Proof.
  intros Hinv [Hroom Hregs] Hr0 HR. pose proof Hinv as [Hs Hfam Hpid Hmm]. pose proof Hs as [Hco Hout].
  pose proof (sc_run _ _ Hco) as Hrun. pose proof (switch_room_on_stack _ _ Hroom) as Hon.
  set (r := p_run σ) in *. assert (Hrf : r ∉ p_free σ) by (intros Hx; apply Hout; by apply (queued_q _ Free)).
  destruct (proj2 (mi_dom _ _ _ _ Hmm r)) as [dat Hdat]; [tauto|].
  unfold sys_exit. apply wp_or_bind, (wp_current r); [done|].
  apply wp_exit_family; [done..|]. fold r. intros m2 Hq2 Hf2 Hfam2.
  apply wp_or_bind, (wp_exit_pages σ code data s m2 dat); [done..|]. intros m3 pm3 Hmm3 Hf3.
  assert (Hq3 : qinv (set_kids (exit_kids r (p_kids σ)) σ) m3).
  { eapply qinv_frame; [exact Hq2|exact Hf3|].
    intros a Ha Hb%data_entries_tables; [|done]. by destruct (family_writes_tables a (or_introl Ha)). }
  apply wp_or_bind, wp_on_mem. kred. change (task_addr r + f_anchor) with (anchor_of r).
  change freeq with (head_of Free). eapply wp_enqueue; [exact Hq3|done|exact Hout|]. intros m4 Hq4 Hf4.
  change (set_q Free _ _) with (dead_table σ) in Hq4. set (s4 := with_mem m4 _).
  assert (Hf04 : frame exit_writes (k_mem s) (k_mem s4)).
  { eapply frame_trans; [eapply frame_weaken; [|exact Hf2]; by left|].
    eapply frame_trans; [eapply frame_weaken; [|exact Hf3]|eapply frame_weaken; [|exact Hf4]; by left; left].
    intros a Ha. right. by apply (data_entries_tables r). }
  assert (Hc4 : sched_core (dead_table σ) s4) by exact (dead_sched_core σ s m4 pm3 Hco Hr0 Hq4 Hf04).
  assert (Hpids : ∀ i, valid_task i → pid_of m4 i = pid_of (k_mem s) i).
  { intros i Hi. unfold pid_of, load_int. f_equal. apply (frame_load32 _ _ _ _ Hf04). intros b.
    apply (exit_writes_field i f_PID b); done || solve_field. }
  replace (shows_pid s (p_run (exit_table σ))) with (shows_pid s4 (pick (dead_table σ)).1)
    by (unfold shows_pid; cbn [s4 k_mem with_mem]; by rewrite Hpids by apply (pick_valid _ _ Hc4)).
  apply (sched_next_cases (dead_table σ)); [done| |exact (dead_pick σ Hr0 Hout)|by split|].
  { unfold queued. cbn. rewrite !elem_of_app, list_elem_of_singleton. auto. }
  intros s' Hs' Hsw Hqt. apply HR; [|exact (exited_switch σ s m4 pm3 s' Hr0 Hout Hf04 Hc4 Hsw Hqt)].
  destruct (pick_run (dead_table σ)) as (_ & Efr & _ & Ek).
  eapply (kernel_parts_step (dead_table σ) _ _ _ s4); [apply Hq4| | | |exact Hs'| |apply Hsw|exact Efr|exact Ek].
  - apply Hfam2. intros i Hi. unfold parent_of. cbn [s4 k_mem with_mem].
    rewrite (cells_plain _ _ _ _ Hf4) by (done || solve_field).
    apply (frame_load32 _ _ _ _ Hf3). intros b Hb Hx%data_entries_tables; [|done].
    by destruct (task_word_apart i f_parent b) as [Ht _]; [done|solve_field..|done|].
  - by eapply pid_inv_exit.
  - eapply mm_inv_frame; [exact Hmm3|exact (cells_links _ _ Hf4)|apply links_stacks_tables|done|done].
  - by apply (switched_links _ _ _ _ Hsw).
Qed.

Lemma wp_sys_exit σ code data s R :
  kernel_inv σ code data s → cpu_ok (p_run σ) s → p_run σ ≠ 0 → shows_pid s (p_run (exit_table σ)) = true →
  (∀ s', kernel_inv (exit_table σ) code (delete (p_run σ) data) s' →
     exited s s' (p_run σ) (p_run (exit_table σ)) → R tt s') →
  wp sys_exit s R.
Proof.
  intros Hinv Hcpu Hr0 Hfit HR. by apply (wp_or_elim _ _ _ _ _ (sys_exit_cases σ code data s R Hinv Hcpu Hr0 HR)).
Qed.

(** C10. exit.  The caller leaves its parent's list of children, its own
    children become the idle task's, its 20 data frames are free again and its
    task structure goes to the end of the free queue; the processor goes to
    the first ready task, or to the idle task.  The kernel's invariant holds
    without the dead process, whatever family it had.  That needs the
    identifier of the task that gets the processor to be below 100: from 100
    on, sched_next_rr overruns the three characters it has for it. *)
Theorem sys_exit_correct σ code data s dat :
  let next := p_run (exit_table σ) in
  kernel_inv σ code data s → cpu_ok (p_run σ) s → p_run σ ≠ 0 → data !! p_run σ = Some dat →
  (pid_of (k_mem s) next < 100 →
   ∃ s', sys_exit s = Ret tt s' ∧
    kernel_inv (exit_table σ) code (delete (p_run σ) data) s' ∧
    p_free (exit_table σ) = p_free σ ++ [p_run σ] ∧
    next = default 0 (head (p_ready σ)) ∧
    (∀ f, f ∈ dat → pm_get (k_phys_mem s') f = FREE_FRAME) ∧
    exited s s' (p_run σ) next) ∧
  (100 ≤ pid_of (k_mem s) next → sys_exit s = Fault (BufferOverflow 3)).
Proof.
  intros next Hinv Hcpu Hr0 Hdat.
  destruct (wp_or_elim _ _ _ _ _ (sys_exit_cases σ code data s (λ _ s',
    kernel_inv (exit_table σ) code (delete (p_run σ) data) s' ∧ exited s s' (p_run σ) next)
    Hinv Hcpu Hr0 ltac:(done))) as [Hok Hbad].
  split; [intros Hp; apply Z.ltb_lt in Hp|intros Hp; apply Hbad; by apply Z.ltb_ge].
  destruct (wp_elim _ _ _ (Hok Hp)) as ([] & s' & E & Hinv' & Hex).
  exists s'. split_and!; try done.
  - unfold exit_table. cbn. destruct (pick_run (dead_table σ)) as (_ & -> & _). done.
  - unfold next, exit_table, pick. cbn. by destruct (p_ready σ).
  - intros f Hf. pose proof (ki_mm _ _ _ _ Hinv) as Hmm.
    destruct (mi_alloc _ _ _ _ Hmm _ _ f Hdat Hf) as (Ha & _).
    destruct (decide (pm_get (k_phys_mem s') f = FREE_FRAME)) as [|Hne]; [done|exfalso].
    destruct (mi_used _ _ _ _ (ki_mm _ _ _ _ Hinv') f Ha Hne) as [Hc|(i & gs & Hi & Hg)].
    + by apply (mi_code_disj _ _ _ _ Hmm _ _ f Hdat).
    + apply lookup_delete_Some in Hi as [Hne' Hi]. apply Hne'.
      by apply (mi_disj _ _ _ _ Hmm _ _ _ _ f Hdat Hi).
Qed.
End Exit.
