(* ===== verification/Write.v ===== *)
(** write: the call that copies the caller's bytes to the kernel stack and prints them. *)

From S2P Require Import Prelude Memory CList Libc Console Frames Types Kernel Task Paging Utils Switch.
From S2P Require Import Sched Policy Space Process Sys.

Section Write.
Context {L : Layout} {LO : LayoutOk L}.

Lemma kernel_inv_regs σ code data s r :
  kernel_inv σ code data s → kernel_inv σ code data (with_regs r s).
Proof. intros [[[] ?] ? ? []]. split; [split; [by split|done]|done|done|by split]. Qed.

(** ** Translations survive writes outside the tables *)

Lemma translate_frame P m m' i va :
  valid_task i → dir_ok m i → frame P m m' → (∀ a, P a → (¬ tables_bytes a) ∧ (¬ dirs_bytes a)) →
  0 ≤ va < TOTAL_PAGES * PAGE_SIZE → translate m' (dir_addr i) va = translate m (dir_addr i) va.
Proof.
  intros Hi Hd Hf HP Hva. pose proof (pt_page_lt i Hi) as HPT. pose proof (pt_addr_aligned i) as Hal.
  unfold TOTAL_PAGES, PAGE_SIZE in *.
  assert (E : va = va / 4096 * PAGE_SIZE + va mod 4096) by (unfold PAGE_SIZE; Z.div_mod_to_equations; lia).
  assert (Hp : 0 ≤ va / 4096 < TOTAL_PAGES) by (unfold TOTAL_PAGES; Z.div_mod_to_equations; lia).
  destruct (split_page (va / 4096) (va mod 4096) Hp) as (E1 & E2 & E3); [unfold PAGE_SIZE; Z.div_mod_to_equations; lia|].
  rewrite <- E in E1, E2, E3.
  assert (Hd' : dir_ok m' i).
  { eapply dir_word_frame; [done|exact Hf| |done]. intros a Ha Hx. by destruct (HP a Hx). }
  unfold translate, dir_ok in *. rewrite E1, E2. replace (dir_addr i + 4 * 0) with (dir_addr i) by lia. rewrite Hd, Hd'.
  assert (0 ≤ pt_addr i / PAGE_SIZE < 2 ^ 20) by (unfold PAGE_SIZE; Z.div_mod_to_equations; lia).
  rewrite hw_base_pte by (unfold PTE_DATA; lia).
  replace (pt_addr i / PAGE_SIZE * 2 ^ 12 + 4 * (va / 4096)) with (pte_addr (pt_addr i) (va / 4096))
    by (unfold pte_addr, PAGE_SIZE in *; Z.div_mod_to_equations; lia).
  by rewrite (frame_load32 _ _ _ (pte_addr (pt_addr i) (va / 4096)) Hf)
    by (intros b Hb Hx; destruct (HP b Hx) as [Ht _]; apply Ht; eapply (pt_bytes_tables i); [done|by eapply pte_in_table]).
Qed.

(** Every address of the user region is mapped, onto the frame of its page. *)
Lemma user_page σ code data s i fs va :
  mm_inv σ code data s → data !! i = Some fs →
  L_USER_START ≤ va < L_USER_START + USER_PAGES * PAGE_SIZE →
  ∃ f, (fs ++ code) !! Z.to_nat ((va - L_USER_START) / PAGE_SIZE) = Some f ∧ allocatable f ∧
    translate (k_mem s) (dir_addr i) va = Some (f * PAGE_SIZE + va mod PAGE_SIZE) ∧
    translate_user (k_mem s) (dir_addr i) va false = Some (f * PAGE_SIZE + va mod PAGE_SIZE).
Proof.
  intros Hmm Hfs Hva. assert (Hi : valid_task i) by (apply (mi_dom _ _ _ _ Hmm); eauto).
  destruct (mi_space _ _ _ _ Hmm i Hi) as [Hd _]. pose proof (mi_len _ _ _ _ Hmm _ _ Hfs) as Hlen.
  change L_USER_START with (256 * 4096) in *. change PAGE_SIZE with 4096 in *. change USER_PAGES with 28 in Hva.
  set (k := Z.to_nat ((va - 256 * 4096) / 4096)).
  assert (Hk : va / 4096 = 256 + Z.of_nat k ∧ (k < 28)%nat) by (subst k; Z.div_mod_to_equations; lia).
  destruct Hk as [Hk Hk28].
  destruct (lookup_lt_is_Some_2 (fs ++ code) k) as [f Hf].
  { rewrite length_app, Hlen, (mi_code_len _ _ _ _ Hmm). unfold NUM_PAG_DATA, NUM_PAG_CODE. lia. }
  assert (∃ c, load32 (k_mem s) (pte_addr (pt_addr i) (va / 4096)) = pte f c ∧ allocatable f ∧
            (c = PTE_CODE ∨ c = PTE_DATA)) as (c & E & Ha & Hc).
  { rewrite Hk. apply lookup_app_Some in Hf as [Hf|[Hge Hf]].
    - exists PTE_DATA. split; [by apply (mi_data _ _ _ _ Hmm _ _ Hfs)|]. split; [|by right].
      by apply (mi_alloc _ _ _ _ Hmm _ _ _ Hfs (list_elem_of_lookup_2 _ _ _ Hf)).
    - exists PTE_CODE. split; [|split; [by apply (mi_code_alloc _ _ _ _ Hmm _ (list_elem_of_lookup_2 _ _ _ Hf))|by left]].
      rewrite <- (mi_code _ _ _ _ Hmm _ _ Hfs _ _ Hf). do 2 f_equal. rewrite Hlen in *.
      change PAG_LOG_INIT_CODE with 276. unfold NUM_PAG_DATA in *. lia. }
  destruct (allocatable_range f Ha) as [Hfr _].
  assert (Hcr : 0 ≤ c < 2 ^ 12) by (destruct Hc as [-> | ->]; unfold PTE_CODE, PTE_DATA; lia).
  assert (Hp : 0 ≤ va / 4096 < TOTAL_PAGES) by (unfold TOTAL_PAGES; lia).
  assert (Ho : 0 ≤ va mod 4096 < PAGE_SIZE) by (unfold PAGE_SIZE; Z.div_mod_to_equations; lia).
  exists f. split_and!; [done|done|..].
  - replace va with (va / 4096 * PAGE_SIZE + va mod 4096) at 1 by (unfold PAGE_SIZE; Z.div_mod_to_equations; lia).
    rewrite (translate_entry _ i _ _ f c) by done. by destruct Hc as [-> | ->].
  - replace va with (va / 4096 * PAGE_SIZE + va mod 4096) at 1 by (unfold PAGE_SIZE; Z.div_mod_to_equations; lia).
    rewrite (translate_user_entry _ i _ _ f c) by done. by destruct Hc as [-> | ->].
Qed.

Lemma user_address σ code data s i fs va :
  mm_inv σ code data s → data !! i = Some fs →
  L_USER_START ≤ va < L_USER_START + USER_PAGES * PAGE_SIZE →
  ∃ pa, translate (k_mem s) (dir_addr i) va = Some pa ∧
        translate_user (k_mem s) (dir_addr i) va false = Some pa ∧ KERNEL_HI ≤ pa.
Proof.
  intros Hmm Hfs Hva. destruct (user_page _ _ _ _ _ _ _ Hmm Hfs Hva) as (f & _ & [[Ha _] _] & E1 & E2).
  exists (f * PAGE_SIZE + va mod PAGE_SIZE). split_and!; [done..|].
  unfold NUM_PAG_KERNEL, KERNEL_HI, PAGE_SIZE in *. Z.div_mod_to_equations; lia.
Qed.

(** Different addresses of one process are different bytes. *)
Lemma user_inj σ code data s i fs va vb pa :
  mm_inv σ code data s → data !! i = Some fs →
  L_USER_START ≤ va < L_USER_START + USER_PAGES * PAGE_SIZE →
  L_USER_START ≤ vb < L_USER_START + USER_PAGES * PAGE_SIZE →
  translate (k_mem s) (dir_addr i) va = Some pa → translate (k_mem s) (dir_addr i) vb = Some pa → va = vb.
Proof.
  intros Hmm Hfs Hva Hvb Ea Eb. destruct (user_page _ _ _ _ _ _ _ Hmm Hfs Hva) as (f & Hf & _ & E1 & _).
  destruct (user_page _ _ _ _ _ _ _ Hmm Hfs Hvb) as (g & Hg & _ & E2 & _).
  assert (Hnd : NoDup (fs ++ code)).
  { apply NoDup_app. split; [by apply (mi_nodup _ _ _ _ Hmm _ _ Hfs)|]. split; [|apply (mi_code_nodup _ _ _ _ Hmm)].
    intros x Hx. by apply (mi_code_disj _ _ _ _ Hmm _ _ _ Hfs). }
  rewrite E1 in Ea. rewrite E2 in Eb. injection Ea as Ea. injection Eb as Eb.
  assert (Hfg : f = g ∧ va mod PAGE_SIZE = vb mod PAGE_SIZE) by (unfold PAGE_SIZE in *; Z.div_mod_to_equations; lia).
  destruct Hfg as [<- Emod]. pose proof (NoDup_lookup _ _ _ _ Hnd Hf Hg) as Ek.
  unfold L_USER_START, PAGE_SIZE in *. Z.div_mod_to_equations; lia.
Qed.

(** ** write *)

(** The bytes a process has at [va .. va + n - 1]. *)
Definition user_text (m : memory) (i va n : Z) : list Z :=
  (λ k, load8 m (default 0 (translate_user m (dir_addr i) (va + k) false))) <$> seqZ 0 n.

Lemma wp_read_array n p s R (f : Z → Z) :
  (∀ k, 0 ≤ k < Z.of_nat n → translate (k_mem s) (k_cr3 s) (u32 (p + k)) = Some (f k)) →
  R ((λ k, load8 (k_mem s) (f k)) <$> seqZ 0 (Z.of_nat n)) s → wp (read_array n p) s R.
Proof.
  revert p f R. induction n as [|n IH]; intros p f R Ht HR; cbn [read_array].
  - apply wp_ret. exact HR.
  - apply wp_bind. unfold wp at 1, vload8. rewrite <- (Z.add_0_r p), Ht by lia.
    apply wp_bind, (IH _ (λ k, f (1 + k))).
    + intros k Hk. replace (p + 0 + 1 + k) with (p + (1 + k)) by lia. apply Ht. lia.
    + apply wp_ret. rewrite seqZ_cons in HR by lia. cbn [fmap list_fmap] in HR.
      replace (Z.pred (Z.of_nat (S n))) with (Z.of_nat n) in HR by lia.
      change (Z.succ 0) with (1 + 0) in HR. rewrite <- fmap_add_seqZ, <- list_fmap_compose in HR. exact HR.
Qed.

(** The array below the stack pointer is memory nobody else uses. *)
Lemma kernel_inv_scratch σ code data s m' a n k :
  kernel_inv σ code data s → task_addr (p_run σ) + sizeof_task_struct ≤ a → 0 ≤ n →
  a + n ≤ task_addr (p_run σ) + PAGE_SIZE → frame (in_range a n) (k_mem s) m' → cursor_ok k →
  kernel_inv σ code data (with_console k (with_mem m' s)).
Proof.
  intros Hinv Ha Hn Hb Hf Hk. pose proof (ki_sched _ _ _ _ Hinv) as [Hco _].
  eapply (kernel_inv_spares (in_range a n) σ); [exact Hinv|exact Hf| |done..].
  apply (spares_stack _ _ (p_run σ)); [apply (sc_run _ _ Hco)|by left|].
  intros b Hx. right. unfold in_range, sizeof_task_struct, PAGE_SIZE in *. lia.
Qed.

(** Past the user region nothing is mapped. *)
Lemma user_hole σ code data s i va :
  mm_inv σ code data s → valid_task i → user_end ≤ va < TOTAL_PAGES * PAGE_SIZE →
  translate (k_mem s) (dir_addr i) va = None.
Proof.
  intros Hmm Hi Hva. destruct (mi_space _ _ _ _ Hmm i Hi) as [Hd _].
  unfold L_USER_START, NUM_PAG_DATA, NUM_PAG_CODE, TOTAL_PAGES, PAGE_SIZE in Hva.
  replace va with (va / 4096 * PAGE_SIZE + va mod 4096) by (unfold PAGE_SIZE; Z.div_mod_to_equations; lia).
  rewrite (translate_entry _ i _ _ 0 0); [done|done|done| | | |lia|lia].
  - unfold TOTAL_PAGES. Z.div_mod_to_equations; lia.
  - unfold PAGE_SIZE. Z.div_mod_to_equations; lia.
  - rewrite (mi_rest _ _ _ _ Hmm i) by (done || (change (PAG_LOG_INIT_DATA + USER_PAGES) with 284; unfold TOTAL_PAGES;
      Z.div_mod_to_equations; lia)). done.
Qed.

(** ** The array on the stack *)

(** Task [i]'s kernel stack has room for an array of [size] bytes. *)
Definition array_fits (i : Z) (s : kstate) (size : Z) : Prop :=
  0 ≤ size ∧ task_addr i + sizeof_task_struct ≤ esp (k_regs s) - size.

#[export] Instance array_fits_dec i s size : Decision (array_fits i s size).
Proof. unfold array_fits. apply _. Defined.

Lemma sys_write_body i fd buffer size s :
  on_stack s i → array_fits i s size →
  sys_write fd buffer size s =
    match write_body fd buffer size (esp (k_regs s) - size) (with_regs (w_esp (esp (k_regs s) - size) (k_regs s)) s) with
    | Ret v s' => Ret v (with_regs (w_esp (esp (k_regs s)) (k_regs s')) s')
    | Fault f => Fault f
    end.
Proof.
  intros [Hi Hs] [H0 H1]. unfold sys_write, alloca, current, bind, get_reg, gets, ret.
  rewrite (mask_page i) by done. destruct (Z.leb_spec 0 size); [|lia]. destruct (Z.leb_spec (task_addr i + sizeof_task_struct) (esp (k_regs s) - size)); [|lia].
  cbn [andb]. unfold upd_regs, modify. by destruct (write_body _ _ _ _ _).
Qed.

(** An array that does not fit takes the stack pointer out of the stack before
    the arguments are checked. *)
Lemma sys_write_overflows i fd buffer size s :
  on_stack s i → ¬ array_fits i s size → sys_write fd buffer size s = Fault (StackOverflow size).
Proof.
  intros [Hi Hs] Hn. unfold sys_write, alloca, current, bind, get_reg, gets, ret.
  rewrite (mask_page i) by done. destruct (Z.leb_spec 0 size), (Z.leb_spec (task_addr i + sizeof_task_struct) (esp (k_regs s) - size)); try done.
  by destruct Hn.
Qed.

Lemma with_esp_same (e : Z) (s : kstate) :
  with_regs (w_esp (esp (k_regs s)) (w_esp e (k_regs s))) (with_regs (w_esp e (k_regs s)) s) = s.
Proof. by destruct s as [? []]. Qed.

(** The calls that are refused. *)
Lemma sys_write_errors i fd buffer size s :
  on_stack s i → array_fits i s size →
  (fd ≠ 1 → sys_write fd buffer size s = Ret (-9) s) ∧
  (fd = 1 → size = 0 ∨ buffer = NULL → sys_write fd buffer size s = Ret (-22) s) ∧
  (fd = 1 → 0 < size → buffer ≠ NULL → access_ok VERIFY_READ buffer size = 0 →
     sys_write fd buffer size s = Ret (-13) s).
Proof.
  intros Hon Hf. rewrite (sys_write_body i) by done. unfold write_body. split_and!.
  - intros Hfd. unfold check_fd. destruct (Z.eqb_spec fd 1); [done|]. cbn. by rewrite with_esp_same.
  - intros -> Hx. cbn. destruct (Z.leb_spec size 0); cbn; [by rewrite with_esp_same|].
    destruct (Z.eqb_spec buffer NULL); cbn; [by rewrite with_esp_same|]. destruct Hx; [lia|done].
  - intros -> Hs Hn Ha. cbn. destruct (Z.leb_spec size 0); [lia|].
    destruct (Z.eqb_spec buffer NULL); [done|]. cbn. rewrite Ha. cbn. by rewrite with_esp_same.
Qed.

(** A call that is not refused copies and prints. *)
Lemma write_body_accepted buffer size buff s :
  0 < size → buffer ≠ NULL → access_ok VERIFY_READ buffer size = 1 →
  write_body 1 buffer size buff s =
    (let! r := copy_from_user buffer buff size in
     let! text := read_array (Z.to_nat size) buff in
     λ s, match sys_write_console text size (k_console s) with
          | Ret v k => Ret v (with_console k s)
          | Fault f => Fault f
          end) s.
Proof.
  intros Hs Hb Ha. unfold write_body. change (check_fd 1 ESCRIPTURA) with 0. cbn [Z.eqb negb].
  destruct (Z.leb_spec size 0); [lia|]. destruct (Z.eqb_spec buffer NULL); [done|]. cbn [orb]. by rewrite Ha.
Qed.

Lemma access_ok_small buffer size :
  0 ≤ buffer < 2 ^ 32 → 0 ≤ size < 2 ^ 31 →
  access_ok VERIFY_READ buffer size = 1 ↔ L_USER_START ≤ buffer ∧ buffer + size < user_end + PAGE_SIZE.
Proof.
  intros Hb Hs. rewrite access_ok_iff by lia. unfold PAGE_SIZE. split; [intros [? [?|[_ Hx]]]; [done|]|intros []; auto].
  Z.div_mod_to_equations. lia.
Qed.

Section Call.
Context (σ : ptable) (code : list Z) (data : gmap Z (list Z)) (dat : list Z) (s : kstate).
Context (Hinv : kernel_inv σ code data s) (Hdat : data !! p_run σ = Some dat).
Context (Hcr3 : k_cr3 s = dir_addr (p_run σ)).

(** The copy of a user buffer onto the kernel stack. *)
Lemma copy_ok_stack buffer size q :
  L_USER_START ≤ buffer → buffer + size ≤ L_USER_START + USER_PAGES * PAGE_SIZE → 0 ≤ size →
  task_addr (p_run σ) ≤ q → q + size ≤ task_addr (p_run σ) + PAGE_SIZE →
  copy_ok (dir_addr (p_run σ)) buffer q size
    (λ k, default 0 (translate_user (k_mem s) (dir_addr (p_run σ)) (buffer + k) false)) (Z.add q) (k_mem s).
Proof.
  intros Hb1 Hb2 Hs Hq1 Hq2. pose proof (ki_mm _ _ _ _ Hinv) as Hmm. pose proof (ki_sched _ _ _ _ Hinv) as [Hco _].
  pose proof (sc_run _ _ Hco) as Hrun. pose proof (task_addr_window _ Hrun) as Hw.
  pose proof (mi_space _ _ _ _ Hmm _ Hrun) as Hsp.
  unfold KERNEL_START, KERNEL_HI, L_USER_START, USER_PAGES, NUM_PAG_DATA, NUM_PAG_CODE, PAGE_SIZE in *.
  assert (Hout : ∀ a, dest_bytes size (Z.add q) a → (¬ tables_bytes a) ∧ (¬ dirs_bytes a)).
  { intros a (k & Hk & ->). apply (page_tables_apart (p_run σ)); [done|]. unfold in_range, PAGE_SIZE. lia. }
  assert (Hua : ∀ k, 0 ≤ k < size → ∃ pa, translate (k_mem s) (dir_addr (p_run σ)) (buffer + k) = Some pa ∧
      translate_user (k_mem s) (dir_addr (p_run σ)) (buffer + k) false = Some pa ∧ KERNEL_HI ≤ pa).
  { intros k Hk. eapply user_address; [exact Hmm|exact Hdat|].
    unfold L_USER_START, USER_PAGES, NUM_PAG_DATA, NUM_PAG_CODE, PAGE_SIZE. lia. }
  split.
  - intros m k Hf Hk. rewrite u32_small by lia. rewrite (translate_frame _ (k_mem s) m _ _ Hrun (proj1 Hsp) Hf Hout)
      by (unfold TOTAL_PAGES, PAGE_SIZE; lia). by destruct (Hua k Hk) as (pa & -> & -> & _).
  - intros m k Hf Hk. rewrite u32_small by lia.
    rewrite translate_kernel by (done || (unfold KERNEL_HI; lia) || by eapply space_ok_frame).
    rewrite decide_True by (unfold KERNEL_LO; lia). done.
  - lia.
  - intros i j Hi Hj E. destruct (Hua i Hi) as (pa & _ & Ep & Hh). rewrite Ep in E. cbn in E.
    unfold KERNEL_HI in Hh. lia.
Qed.

(** The last two steps: the bytes on the stack are printed. *)
Lemma wp_write_copied buffer size buff R :
  0 < size → L_USER_START ≤ buffer → buffer + size ≤ user_end →
  task_addr (p_run σ) + sizeof_task_struct ≤ buff → buff + size ≤ task_addr (p_run σ) + PAGE_SIZE →
  (∀ m', frame (in_range buff size) (k_mem s) m' →
     R (user_text (k_mem s) (p_run σ) buffer size) (with_mem m' s)) →
  wp (let! r := copy_from_user buffer buff size in read_array (Z.to_nat size) buff) s R.
Proof.
  intros Hs Hb1 Hb2 Hroom Htop HR.
  assert (Hok : copy_ok (dir_addr (p_run σ)) buffer buff size
    (λ k, default 0 (translate_user (k_mem s) (dir_addr (p_run σ)) (buffer + k) false)) (Z.add buff) (k_mem s))
    by (apply copy_ok_stack; unfold sizeof_task_struct in *; (done || lia)).
  apply wp_bind. eapply wp_copy_from_user; [exact Hok|done|lia|done|].
  intros m' Hf Hc.
  apply (wp_read_array _ _ _ _ (Z.add buff)); kred.
  - intros k Hk. rewrite Hcr3. apply (copy_dst _ _ _ _ _ _ _ Hok); [done|lia].
  - rewrite Z2Nat.id by lia. replace (_ <$> seqZ 0 size) with (user_text (k_mem s) (p_run σ) buffer size).
    + apply HR. eapply frame_weaken; [|exact Hf]. intros a (k & Hk & ->). unfold in_range. lia.
    + unfold user_text. apply list_fmap_ext. intros i k [-> Hk]%lookup_seqZ. symmetry. apply Hc. lia.
Qed.

(** A block that goes past the user region stops the copy at its end. *)
Lemma copy_past_region buffer size buff :
  let stop := Z.max 0 (user_end - buffer) in
  0 < size → L_USER_START ≤ buffer → user_end < buffer + size → buffer + size < user_end + PAGE_SIZE →
  task_addr (p_run σ) + sizeof_task_struct ≤ buff → buff + size ≤ task_addr (p_run σ) + PAGE_SIZE →
  copy_from_user buffer buff size s = Fault (PageFault (buffer + stop)).
Proof.
  intros stop Hs Hb1 Hb2 Hb3 Hroom Htop. pose proof (ki_mm _ _ _ _ Hinv) as Hmm.
  pose proof (ki_sched _ _ _ _ Hinv) as [Hco _]. pose proof (sc_run _ _ Hco) as Hrun.
  assert (Hstop : 0 ≤ stop < size ∧ user_end ≤ buffer + stop < TOTAL_PAGES * PAGE_SIZE)
    by (unfold stop, TOTAL_PAGES, L_USER_START, NUM_PAG_DATA, NUM_PAG_CODE, PAGE_SIZE in *; lia).
  destruct Hstop as [Hstop Hva].
  replace (PageFault (buffer + stop)) with (PageFault (u32 (buffer + stop)))
    by (rewrite u32_small; [done|unfold L_USER_START, TOTAL_PAGES, PAGE_SIZE in *; lia]).
  assert (Hok : copy_ok (dir_addr (p_run σ)) buffer buff stop
    (λ k, default 0 (translate_user (k_mem s) (dir_addr (p_run σ)) (buffer + k) false)) (Z.add buff) (k_mem s)).
  { destruct (decide (buffer ≤ user_end)).
    - apply copy_ok_stack; change (L_USER_START + USER_PAGES * PAGE_SIZE) with user_end; unfold stop, sizeof_task_struct in *; lia.
    - replace stop with 0 by (unfold stop; lia). split; intros; lia. }
  apply (copy_from_user_stops (dir_addr (p_run σ)) buffer buff stop _ (Z.add buff) (k_mem s) Hok s Hcr3); [|lia|done].
  intros m Hf. rewrite u32_small by (unfold L_USER_START, TOTAL_PAGES, PAGE_SIZE in *; lia).
  rewrite (translate_frame _ (k_mem s) m _ _ Hrun (proj1 (mi_space _ _ _ _ Hmm _ Hrun)) Hf).
  - by eapply user_hole.
  - intros a (k & Hk & ->). apply (page_tables_apart (p_run σ)); [done|]. unfold in_range, sizeof_task_struct, PAGE_SIZE in *. lia.
  - unfold L_USER_START, NUM_PAG_DATA, NUM_PAG_CODE in *. lia.
Qed.
End Call.

Section Service.
Context (σ : ptable) (code : list Z) (data : gmap Z (list Z)) (dat : list Z) (s : kstate).
Context (Hinv : kernel_inv σ code data s) (Hdat : data !! p_run σ = Some dat).
Context (Hcr3 : k_cr3 s = dir_addr (p_run σ)) (Hon : on_stack s (p_run σ)).

(** A block inside the user region. *)
Lemma sys_write_prints buffer size :
  0 < size → L_USER_START ≤ buffer → buffer + size ≤ user_end → array_fits (p_run σ) s size →
  ∃ m' k', sys_write 1 buffer size s = Ret size (with_console k' (with_mem m' s)) ∧
    sys_write_console (user_text (k_mem s) (p_run σ) buffer size) size (k_console s) = Ret size k' ∧
    frame (in_range (esp (k_regs s) - size) size) (k_mem s) m' ∧
    kernel_inv σ code data (with_console k' (with_mem m' s)).
Proof.
  intros Hs Hb1 Hb2 Hfit. pose proof Hon as [Hrun [He1 He2]]. pose proof Hfit as [_ Hroom].
  pose proof (ki_sched _ _ _ _ Hinv) as [Hco _].
  assert (Ha : access_ok VERIFY_READ buffer size = 1).
  { apply access_ok_small; unfold L_USER_START, NUM_PAG_DATA, NUM_PAG_CODE, PAGE_SIZE in *; lia. }
  rewrite (sys_write_body (p_run σ)) by done.
  rewrite write_body_accepted by (done || (unfold NULL, L_USER_START in *; lia)).
  set (text := user_text (k_mem s) (p_run σ) buffer size). set (buff := esp (k_regs s) - size).
  set (s1 := with_regs (w_esp buff (k_regs s)) s).
  destruct (wp_elim (let! r := copy_from_user buffer buff size in read_array (Z.to_nat size) buff) s1
    (λ v s', v = text ∧ ∃ m', s' = with_mem m' s1 ∧ frame (in_range buff size) (k_mem s) m'))
    as (v & s' & E & -> & m' & -> & Hf).
  { apply (wp_write_copied σ code data dat s1); [by apply kernel_inv_regs|done|done|lia|done|done|unfold buff; lia|unfold buff; lia|].
    intros m' Hf. split; [done|]. by exists m'. }
  assert (Hlen : (Z.to_nat size ≤ length text)%nat) by (unfold text, user_text; rewrite length_fmap, length_seqZ; lia).
  destruct (wp_elim _ _ _ (wp_write_loop (Z.to_nat size) 0 text (k_console s) (sc_console _ _ Hco) Hlen))
    as ([] & k' & Ek & Hk' & _).
  assert (Esw : sys_write_console text size (k_console s) = Ret size k')
    by (unfold sys_write_console, bind; by rewrite Ek).
  exists m', k'. split_and!; [|done|done|].
  + unfold bind in E |- *. destruct (copy_from_user _ _ _ s1) as [v s'|]; [|done]. rewrite E.
    change (k_console (with_mem m' s1)) with (k_console s). rewrite Esw. f_equal. unfold s1. by destruct s as [? []].
  + eapply kernel_inv_scratch; [exact Hinv| | | |exact Hf|done]; unfold buff; lia.
Qed.

Lemma array_fits_small size : array_fits (p_run σ) s size → 0 ≤ size < 2 ^ 31.
Proof.
  intros [H0 H1]. destruct Hon as [Hrun [_ He]]. pose proof (task_addr_window _ Hrun).
  unfold sizeof_task_struct, PAGE_SIZE, KERNEL_HI in *. lia.
Qed.

(** A block that ends in the page after the user region. *)
Lemma sys_write_faults buffer size :
  0 < size → L_USER_START ≤ buffer → user_end < buffer + size → buffer + size < user_end + PAGE_SIZE →
  array_fits (p_run σ) s size → sys_write 1 buffer size s = Fault (PageFault (Z.max buffer user_end)).
Proof.
  intros Hs Hb1 Hb2 Hb3 Hfit. destruct (array_fits_small size Hfit) as [_ Hsz]. pose proof Hfit as [_ Hroom].
  assert (Ha : access_ok VERIFY_READ buffer size = 1).
  { apply access_ok_small; unfold L_USER_START, NUM_PAG_DATA, NUM_PAG_CODE, PAGE_SIZE in *; lia. }
  rewrite (sys_write_body (p_run σ)) by done.
  rewrite write_body_accepted by (done || (unfold NULL, L_USER_START in *; lia)).
  unfold bind at 1. set (s1 := with_regs _ s). destruct Hon as [Hrun [_ He]].
  rewrite (copy_past_region σ code data dat s1); try done; [|by apply kernel_inv_regs|lia]. do 2 f_equal. lia.
Qed.

(** C15. write, for every descriptor, address and size.  The array of [size]
    bytes comes first: a negative size, or one the kernel stack has no room
    for, takes the stack pointer out of the stack before anything is checked.
    Otherwise a descriptor other than 1 gives -9; an empty block or a null
    pointer -22; a block that does not start in the user region or ends more
    than a page after it -13; in these cases nothing changes.  A block inside
    the user region is printed: the screen changes as by writing exactly the
    bytes the process has there, the result is the size, and the kernel's
    invariant holds.  A block that access_ok lets end in the page after the
    region makes the kernel itself fault, at the end of the region. *)
Theorem sys_write_correct fd buffer size :
  0 ≤ buffer < 2 ^ 32 →
  let fits := array_fits (p_run σ) s size in
  (¬ fits → sys_write fd buffer size s = Fault (StackOverflow size)) ∧
  (fits → fd ≠ 1 → sys_write fd buffer size s = Ret (-9) s) ∧
  (fits → fd = 1 → size = 0 ∨ buffer = NULL → sys_write fd buffer size s = Ret (-22) s) ∧
  (fits → fd = 1 → 0 < size → buffer ≠ NULL →
     buffer < L_USER_START ∨ user_end + PAGE_SIZE ≤ buffer + size →
     sys_write fd buffer size s = Ret (-13) s) ∧
  (fits → fd = 1 → 0 < size → L_USER_START ≤ buffer → buffer + size ≤ user_end →
     ∃ m' k', sys_write fd buffer size s = Ret size (with_console k' (with_mem m' s)) ∧
       sys_write_console (user_text (k_mem s) (p_run σ) buffer size) size (k_console s) = Ret size k' ∧
       frame (in_range (esp (k_regs s) - size) size) (k_mem s) m' ∧
       kernel_inv σ code data (with_console k' (with_mem m' s))) ∧
  (fits → fd = 1 → 0 < size → L_USER_START ≤ buffer →
     user_end < buffer + size < user_end + PAGE_SIZE →
     sys_write fd buffer size s = Fault (PageFault (Z.max buffer user_end))).
Proof.
  intros Hb fits. split; [intros Hf; by apply (sys_write_overflows (p_run σ))|].
  split_and!; intros Hf.
  - by apply (sys_write_errors (p_run σ)).
  - by apply (sys_write_errors (p_run σ)).
  - intros -> Hs Hn Hout. apply (sys_write_errors (p_run σ)); [done..|].
    destruct (access_ok_bool VERIFY_READ buffer size) as [?|Hx]; [done|].
    apply access_ok_small in Hx; [lia|done|]. by apply array_fits_small in Hf.
  - intros -> Hs Hb1 Hb2. by apply sys_write_prints.
  - intros -> Hs Hb1 [Hb2 Hb3]. by apply sys_write_faults.
Qed.
End Service.
End Write.
