(* ===== verification/Entry.v ===== *)
(** entry.S and sys_call_table.S: how the processor enters and leaves the
    kernel, and the dispatch of the system calls. *)

From S2P Require Import Prelude Memory CList Libc Console Frames Types Kernel Task Paging Utils Switch.
From S2P Require Import Sched Policy Space Process Sys.

(** ** The processor's part *)

(** The privilege level of a code selector, and the interrupt flag. *)
Definition ring (sel : Z) : Z := Z.land sel 3.
Definition IF_FLAG : Z := 0x200.

(** An interrupt, a trap or [int]: from user mode the processor takes the
    stack of the task state segment and saves the user's there; then flags,
    code segment and instruction pointer, and for some exceptions an error
    code.  All the kernel's gates are interrupt gates: interrupts go off. *)
Definition int_enter (handler : Z) (err : option Z) : K unit :=
  let! u := gets k_regs in
  let! t := gets k_tss in
  (if ring (cs u) =? 3 then
     upd_regs (w_esp (esp0 t)) ;!
     upd_regs (w_ss (ss0 t)) ;!
     push (ss u) ;!
     push (esp u)
   else ret tt) ;!
  push (eflags u) ;!
  push (cs u) ;!
  push (eip u) ;!
  match err with Some e => push e | None => ret tt end ;!
  upd_regs (w_eflags (Z.ldiff (eflags u) IF_FLAG)) ;!
  upd_regs (w_cs KERNEL_CS) ;!
  upd_regs (w_eip handler).

(** [iret] *)
Definition iret : K unit :=
  pop_reg w_eip ;!
  pop_reg (λ v, w_cs (u16 v)) ;!
  pop_reg w_eflags ;!
  let! c := get_reg cs in
  if ring c =? 3 then
    let! e := pop in
    let! s := pop in
    upd_regs (w_esp e) ;!
    upd_regs (w_ss (u16 s))
  else ret tt.

(** ** SAVE_ALL and RESTORE_ALL *)

Definition SAVE_ALL : K unit :=
  push_reg gs ;!
  push_reg fs ;!
  push_reg es ;!
  push_reg ds ;!
  push_reg eax ;!
  push_reg ebp ;!
  push_reg edi ;!
  push_reg esi ;!
  push_reg ebx ;!
  push_reg ecx ;!
  push_reg edx ;!
  upd_regs (w_edx KERNEL_DS) ;!
  upd_regs (w_ds KERNEL_DS) ;!
  upd_regs (w_es KERNEL_DS).

Definition RESTORE_ALL : K unit :=
  pop_reg w_edx ;!
  pop_reg w_ecx ;!
  pop_reg w_ebx ;!
  pop_reg w_esi ;!
  pop_reg w_edi ;!
  pop_reg w_ebp ;!
  pop_reg w_eax ;!
  pop_reg (λ v, w_ds (u16 v)) ;!
  pop_reg (λ v, w_es (u16 v)) ;!
  pop_reg (λ v, w_fs (u16 v)) ;!
  pop_reg (λ v, w_gs (u16 v)).

(** [movb $0x20, %al; outb %al, $0x20] *)
Definition EOI : K unit := out_al 0x20 0x20.

Section Entry.
Context {L : Layout}.

(** ** System calls *)

(** The services, as functions of the three words above their return
    address; [None] is the result of a [void] function. *)
Definition service : Type := Z → Z → Z → K (option Z).

Definition returns (f : K Z) : K (option Z) := let! v := f in ret (Some v).
Definition void (f : K unit) : K (option Z) := f ;! ret None.

Definition ni : service := λ _ _ _, returns sys_ni_syscall.

Definition sys_call_table : list service :=
  [ ni;                                           (* 0 *)
    (λ _ _ _, void sys_exit);                     (* 1 *)
    (λ _ _ _, returns sys_fork);                  (* 2 *)
    ni;                                           (* 3 *)
    (λ a b c, returns (sys_write (s32 a) b (s32 c)));  (* 4 *)
    (λ _ _ _, void sys_block);                    (* 5 *)
    (λ a _ _, returns (sys_unblock (s32 a)));     (* 6 *)
    ni; ni; ni;                                   (* 7 .. 9 *)
    (λ _ _ _, returns sys_gettime);               (* 10 *)
    ni; ni; ni; ni; ni; ni; ni; ni; ni;           (* 11 .. 19 *)
    (λ _ _ _, returns sys_getpid)                 (* 20 *)
  ].

(** [(. - sys_call_table)/4] *)
Definition MAX_SYSCALL : Z := Z.of_nat (length sys_call_table).

(** [leave] *)
Definition leave : K unit :=
  let! b := get_reg ebp in
  upd_regs (w_esp b) ;!
  pop_reg w_ebp.

(** [call *sys_call_table(, %eax, 4)]: the service reads its parameters above
    the return address, which are the saved edx, ecx and ebx.  A service that
    gives the processor to another task does not return here: the rest of the
    call runs when its task is switched back to.  Only such a switch changes
    eip here, where the code runs straight on.  [junk] is what a [void]
    function leaves in eax. *)
Definition call_service (junk n : Z) : K bool :=
  push addr_service_ret ;!
  match sys_call_table !! Z.to_nat n with
  | None => fail (OutOfBounds n)
  | Some f =>
      enter ;!
      let! b := get_reg ebp in
      let! x := on_mem (kload32 (b + 8)) in
      let! y := on_mem (kload32 (b + 12)) in
      let! z := on_mem (kload32 (b + 16)) in
      let! here := get_reg eip in
      let! v := f x y z in
      let! there := get_reg eip in
      if here =? there then
        upd_regs (w_eax (u32 (default junk v))) ;!
        leave ;!
        retn ;!
        ret true
      else ret false
  end.

(** From the label [fin] on; also where a forked task arrives. *)
Definition syscall_fin : K unit :=
  let! v := get_reg eax in
  let! e := get_reg esp in
  on_mem (kstore32 (e + 0x18) v) ;!
  RESTORE_ALL ;!
  iret.

Definition system_call_handler (junk : Z) : K unit :=
  SAVE_ALL ;!
  let! n := get_reg eax in
  if (s32 n <? 0) || (MAX_SYSCALL <? s32 n) then
    upd_regs (w_eax (u32 (-38))) ;!
    syscall_fin
  else
    let! back := call_service junk (s32 n) in
    when back syscall_fin.

(** [int $0x80] in user mode, up to the next user instruction or the switch
    to another task. *)
Definition int_0x80 (junk handler : Z) : K unit :=
  int_enter handler None ;!
  system_call_handler junk.

(** ** Words on a stack *)

Context {LO : LayoutOk L}.

(** [ws] was pushed on a stack whose top was [T], the first word first. *)
Definition stacked (m : memory) (T : Z) (ws : list Z) : Prop :=
  ∀ k v, ws !! k = Some v → load32 m (T - 4 * (Z.of_nat k + 1)) = v.

Lemma stacked_nil m T : stacked m T [].
Proof. by intros k v ?. Qed.

Lemma stacked_frame P m m' T ws :
  stacked m T ws → frame P m m' → (∀ a, T - 4 * Z.of_nat (length ws) ≤ a < T → ¬ P a) → stacked m' T ws.
Proof.
  intros Hs Hf HP k v Hk. pose proof (lookup_lt_Some _ _ _ Hk). rewrite (frame_load32 _ _ _ _ Hf); [by apply Hs|].
  intros b Hb. apply HP. unfold in_range in Hb. lia.
Qed.

Lemma stacked_snoc m T ws v :
  stacked m T ws → 0 ≤ v < 2 ^ 32 →
  stacked (store32 m (T - 4 * Z.of_nat (length ws) - 4) v) T (ws ++ [v]).
Proof.
  intros Hs Hv k w Hk. apply lookup_app_Some in Hk as [Hk|[Hl Hk]].
  - pose proof (lookup_lt_Some _ _ _ Hk). rewrite load32_store32_ne by lia. by apply Hs.
  - destruct (k - length ws)%nat eqn:E; [|done]. injection Hk as <-.
    replace (T - 4 * (Z.of_nat k + 1)) with (T - 4 * Z.of_nat (length ws) - 4) by lia.
    by apply load32_store32_same.
Qed.

Lemma stacked_app m T ws ws' : stacked m T (ws ++ ws') → stacked m T ws.
Proof. intros Hs k v Hk. apply Hs. by apply lookup_app_l_Some. Qed.

(** Pushing and popping on such a stack. *)
Lemma wp_push_stacked T ws v s R :
  esp (k_regs s) = T - 4 * Z.of_nat (length ws) → stacked (k_mem s) T ws → 0 ≤ v < 2 ^ 32 →
  KERNEL_LO ≤ T - 4 * Z.of_nat (length ws) - 4 → T ≤ KERNEL_HI →
  (∀ m', stacked m' T (ws ++ [v]) → frame (in_range (T - 4 * Z.of_nat (length ws) - 4) 4) (k_mem s) m' →
     R tt (with_mem m' (with_regs (w_esp (T - 4 * Z.of_nat (length (ws ++ [v]))) (k_regs s)) s))) →
  wp (push v) s R.
Proof.
  intros He Hs Hv Hlo Hhi HR. apply wp_push; [lia..|]. rewrite He.
  replace (T - 4 * Z.of_nat (length ws) - 4) with (T - 4 * Z.of_nat (length (ws ++ [v]))) at 2
    by (rewrite length_app; cbn; lia).
  apply HR; [by apply stacked_snoc|by apply frame_store32].
Qed.

Lemma wp_pop_stacked T ws v w s R :
  esp (k_regs s) = T - 4 * Z.of_nat (length (ws ++ [v])) → stacked (k_mem s) T (ws ++ [v]) →
  KERNEL_LO ≤ T - 4 * Z.of_nat (length (ws ++ [v])) → T ≤ KERNEL_HI →
  R tt (with_regs (w v (w_esp (T - 4 * Z.of_nat (length ws)) (k_regs s))) s) →
  wp (pop_reg w) s R.
Proof.
  intros He Hs Hlo Hhi HR. rewrite length_app in *. cbn in *. apply wp_pop_reg; [lia..|]. rewrite He.
  replace (T - 4 * Z.of_nat (length ws + 1) + 4) with (T - 4 * Z.of_nat (length ws)) by lia.
  replace (load32 (k_mem s) (T - 4 * Z.of_nat (length ws + 1))) with v; [done|].
  rewrite <- (Hs (length ws) v); [f_equal; lia|]. by rewrite lookup_app_r, Nat.sub_diag by lia.
Qed.

(** A run of pushes of registers, none of them esp. *)
Fixpoint push_regs_then {A} (rs : list (regs → Z)) (rest : K A) : K A :=
  match rs with
  | [] => rest
  | r :: rs => push_reg r ;! push_regs_then rs rest
  end.

Lemma wp_push_regs {A} T (rs : list (regs → Z)) ws (rest : K A) s R :
  esp (k_regs s) = T - 4 * Z.of_nat (length ws) → stacked (k_mem s) T ws →
  Forall (λ r, (∀ v g, r (w_esp v g) = r g) ∧ 0 ≤ r (k_regs s) < 2 ^ 32) rs →
  KERNEL_LO ≤ T - 4 * Z.of_nat (length ws + length rs) → T ≤ KERNEL_HI →
  (∀ m', stacked m' T (ws ++ ((λ r, r (k_regs s)) <$> rs)) →
     frame (in_range (T - 4 * Z.of_nat (length ws + length rs)) (4 * Z.of_nat (length rs))) (k_mem s) m' →
     wp rest (with_mem m' (with_regs (w_esp (T - 4 * Z.of_nat (length ws + length rs)) (k_regs s)) s)) R) →
  wp (push_regs_then rs rest) s R.
Proof.
  revert ws s. induction rs as [|r rs IH]; intros ws s He Hs Hrs Hlo Hhi HR; cbn [push_regs_then].
  - specialize (HR (k_mem s)). cbn in HR. rewrite app_nil_r, Nat.add_0_r, <- He in HR.
    replace (with_mem _ _) with s in HR by (destruct s as [? [] ? ? ? ? ? ? ? ? ? ? ? ? ? ?]; done).
    apply HR; [done|apply frame_refl].
  - apply Forall_cons in Hrs as [[Hr Hv] Hrs]. cbn [length] in *. apply wp_bind, wp_bind, wp_gets.
    eapply wp_push_stacked; [done..|lia|done|]. intros m' Hs' Hf'.
    apply (IH (ws ++ [r (k_regs s)])); kred; try done.
    + eapply Forall_impl; [exact Hrs|]. cbn. intros r' [Hr' Hv']. split; [done|]. by rewrite Hr'.
    + rewrite length_app. cbn. lia.
    + intros m'' Hs'' Hf''.
      replace (length (ws ++ [r (k_regs s)]) + length rs)%nat with (length ws + S (length rs))%nat in *
        by (rewrite length_app; cbn; lia).
      apply HR.
      * rewrite <- app_assoc in Hs''. cbn in Hs''. cbn [fmap list_fmap].
        replace ((λ r0, r0 (k_regs s)) <$> rs) with ((λ r0, r0 (w_esp (T - 4 * Z.of_nat (length (ws ++ [r (k_regs s)]))) (k_regs s))) <$> rs); [done|].
        apply list_fmap_ext. intros i r' Hi. rewrite Forall_lookup in Hrs. by apply (Hrs i r').
      * eapply frame_trans; (eapply frame_weaken; [|eassumption]); intros a; unfold in_range; lia.
Qed.

(** ** The user's registers across a trap *)

Record user_ok (u : regs) : Prop := {
  uo_words : Forall (λ r, 0 ≤ r u < 2 ^ 32) [eax; ebx; ecx; edx; esi; edi; ebp; esp; eip; eflags];
  uo_sels : Forall (λ r, 0 ≤ r u < 2 ^ 16) [cs; ss; ds; es; fs; gs];
  uo_ring : ring (cs u) = 3;
}.

(** The words of a trap from user mode, as the comment of entry.S lists them. *)
Definition trap_words (u : regs) : list Z :=
  [ss u; esp u; eflags u; cs u; eip u;
   gs u; fs u; es u; ds u; eax u; ebp u; edi u; esi u; ebx u; ecx u; edx u].

(** The registers SAVE_ALL leaves. *)
Definition trap_regs (u : regs) (T sel handler : Z) : regs :=
  MkRegs (eax u) (ebx u) (ecx u) KERNEL_DS (esi u) (edi u) (ebp u) (T - 64) handler
    (Z.ldiff (eflags u) IF_FLAG) KERNEL_CS sel KERNEL_DS KERNEL_DS (fs u) (gs u).

Lemma user_word u r : user_ok u →
  r ∈ [eax; ebx; ecx; edx; esi; edi; ebp; esp; eip; eflags; cs; ss; ds; es; fs; gs] → 0 ≤ r u < 2 ^ 32.
Proof.
  intros [Hw Hs _] Hr. rewrite Forall_forall in Hw, Hs.
  change [eax; ebx; ecx; edx; esi; edi; ebp; esp; eip; eflags; cs; ss; ds; es; fs; gs] with
    ([eax; ebx; ecx; edx; esi; edi; ebp; esp; eip; eflags] ++ [cs; ss; ds; es; fs; gs]) in Hr.
  apply elem_of_app in Hr as [Hr|Hr]; [by apply Hw|]. pose proof (Hs r Hr). lia.
Qed.

(** The processor's part of a trap from user mode. *)
Definition enter_regs (u : regs) (T sel handler : Z) : regs :=
  MkRegs (eax u) (ebx u) (ecx u) (edx u) (esi u) (edi u) (ebp u) (T - 20) handler
    (Z.ldiff (eflags u) IF_FLAG) KERNEL_CS sel (ds u) (es u) (fs u) (gs u).

Lemma wp_int_enter T handler s R :
  user_ok (k_regs s) → esp0 (k_tss s) = T → KERNEL_LO ≤ T - 20 → T ≤ KERNEL_HI →
  (∀ m', stacked m' T [ss (k_regs s); esp (k_regs s); eflags (k_regs s); cs (k_regs s); eip (k_regs s)] →
     frame (in_range (T - 20) 20) (k_mem s) m' →
     R tt (with_mem m' (with_regs (enter_regs (k_regs s) T (ss0 (k_tss s)) handler) s))) →
  wp (int_enter handler None) s R.
Proof.
  intros Hu HT Hlo Hhi HR.
  assert (Hw : ∀ r, r ∈ [eax; ebx; ecx; edx; esi; edi; ebp; esp; eip; eflags; cs; ss; ds; es; fs; gs] →
    0 ≤ r (k_regs s) < 2 ^ 32) by (intros r; by apply user_word).
  pose proof (Hw ss ltac:(set_solver)) as W1. pose proof (Hw esp ltac:(set_solver)) as W2.
  pose proof (Hw eflags ltac:(set_solver)) as W3. pose proof (Hw cs ltac:(set_solver)) as W4.
  pose proof (Hw eip ltac:(set_solver)) as W5. pose proof (uo_ring _ Hu) as Hring. clear Hw Hu.
  unfold enter_regs in HR.
  destruct s as [m [ax bx cx dx si di bp sp ip fl c0 s0 d0 e0 f0 g0]
    cr3 cr0 hw gdt gdtR idt idtR ts pm idle qt lp zt con]. kred_all.
  unfold int_enter. apply wp_bind, wp_gets, wp_bind, wp_gets. kflat. rewrite Hring, Z.eqb_refl, HT.
  apply wp_bind, wp_bind, wp_modify, wp_bind, wp_modify. kflat.
  apply wp_bind, (wp_push_stacked T []); kflat; [cbn; lia|apply stacked_nil|done|cbn; lia|done|].
  intros m1 S1 F1. cbn [app] in *.
  apply (wp_push_stacked T [s0]); kflat; [done|done|done|cbn; lia|done|]. intros m2 S2 F2. cbn [app] in *.
  apply wp_bind, (wp_push_stacked T [s0; sp]); kflat; [done|done|done|cbn; lia|done|]. intros m3 S3 F3. cbn [app] in *.
  apply wp_bind, (wp_push_stacked T [s0; sp; fl]); kflat; [done|done|done|cbn; lia|done|].
  intros m4 S4 F4. cbn [app] in *.
  apply wp_bind, (wp_push_stacked T [s0; sp; fl; c0]); kflat; [done|done|done|cbn; lia|done|].
  intros m5 S5 F5. cbn [app] in *. kflat.
  apply wp_bind, wp_ret, wp_bind, wp_modify, wp_bind, wp_modify, wp_modify. kflat.
  apply HR; [exact S5|]. clear HR.
  assert (Hfr : ∀ a n, T - 20 ≤ a → a + n ≤ T → ∀ b, in_range a n b → in_range (T - 20) 20 b)
    by (unfold in_range; lia).
  eapply frame_trans; [eapply frame_weaken; [|exact F1]; apply Hfr; cbn; lia|].
  eapply frame_trans; [eapply frame_weaken; [|exact F2]; apply Hfr; cbn; lia|].
  eapply frame_trans; [eapply frame_weaken; [|exact F3]; apply Hfr; cbn; lia|].
  eapply frame_trans; [eapply frame_weaken; [|exact F4]; apply Hfr; cbn; lia|].
  eapply frame_weaken; [|exact F5]. apply Hfr; cbn; lia.
Qed.

Lemma wp_SAVE_ALL T ws s R :
  esp (k_regs s) = T - 4 * Z.of_nat (length ws) → stacked (k_mem s) T ws →
  Forall (λ r, 0 ≤ r (k_regs s) < 2 ^ 32) [gs; fs; es; ds; eax; ebp; edi; esi; ebx; ecx; edx] →
  KERNEL_LO ≤ T - 4 * Z.of_nat (length ws) - 44 → T ≤ KERNEL_HI →
  (∀ m', let u := k_regs s in
     stacked m' T (ws ++ [gs u; fs u; es u; ds u; eax u; ebp u; edi u; esi u; ebx u; ecx u; edx u]) →
     frame (in_range (T - 4 * Z.of_nat (length ws) - 44) 44) (k_mem s) m' →
     R tt (with_mem m' (with_regs (w_es KERNEL_DS (w_ds KERNEL_DS (w_edx KERNEL_DS
       (w_esp (T - 4 * Z.of_nat (length ws) - 44) u)))) s))) →
  wp SAVE_ALL s R.
Proof.
  intros He Hs Hw Hlo Hhi HR.
  change SAVE_ALL with (push_regs_then [gs; fs; es; ds; eax; ebp; edi; esi; ebx; ecx; edx]
    (upd_regs (w_edx KERNEL_DS) ;! upd_regs (w_ds KERNEL_DS) ;! upd_regs (w_es KERNEL_DS))).
  apply (wp_push_regs T _ ws); [done|done| |cbn [length]; lia|done|].
  { repeat (apply Forall_cons in Hw as [? Hw]). repeat constructor; lia. }
  replace (T - 4 * Z.of_nat (length ws + length [gs; fs; es; ds; eax; ebp; edi; esi; ebx; ecx; edx]))
    with (T - 4 * Z.of_nat (length ws) - 44) by (cbn [length]; lia).
  intros m' Hs' Hf'. apply wp_bind, wp_modify, wp_bind, wp_modify, wp_modify. by apply HR.
Qed.

Lemma wp_trap_save T handler s R :
  user_ok (k_regs s) → esp0 (k_tss s) = T → KERNEL_LO ≤ T - 64 → T ≤ KERNEL_HI →
  (∀ m', stacked m' T (trap_words (k_regs s)) → frame (in_range (T - 64) 64) (k_mem s) m' →
     R tt (with_mem m' (with_regs (trap_regs (k_regs s) T (ss0 (k_tss s)) handler) s))) →
  wp (int_enter handler None ;! SAVE_ALL) s R.
Proof.
  intros Hu HT Hlo Hhi HR. apply wp_bind, (wp_int_enter T); [done..|lia|done|]. intros m1 S1 F1.
  apply (wp_SAVE_ALL T [ss (k_regs s); esp (k_regs s); eflags (k_regs s); cs (k_regs s); eip (k_regs s)]).
  - done.
  - exact S1.
  - repeat constructor; by apply (user_word (k_regs s)); [|set_solver].
  - cbn. lia.
  - done.
  - cbv zeta. intros m2 S2 F2.
    replace (T - _ - 44) with (T - 64) in * by (cbn; lia). apply HR; [exact S2|].
    eapply frame_trans; (eapply frame_weaken; [|eassumption]); intros a; unfold in_range; lia.
Qed.

(** RESTORE_ALL and iret give the user's registers back, all of them. *)
Lemma wp_trap_return T u s R :
  stacked (k_mem s) T (trap_words u) → esp (k_regs s) = T - 64 → user_ok u →
  KERNEL_LO ≤ T - 64 → T ≤ KERNEL_HI → R tt (with_regs u s) →
  wp (RESTORE_ALL ;! iret) s R.
Proof.
  intros Hs He Hu Hlo Hhi HR.
  assert (Hsel : ∀ r, r ∈ [cs; ss; ds; es; fs; gs] → u16 (r u) = r u).
  { intros r Hr. apply Z.mod_small. pose proof (uo_sels _ Hu) as Hf. rewrite Forall_forall in Hf. by apply Hf. }
  pose proof (Hsel cs ltac:(set_solver)) as E1. pose proof (Hsel ss ltac:(set_solver)) as E2.
  pose proof (Hsel ds ltac:(set_solver)) as E3. pose proof (Hsel es ltac:(set_solver)) as E4.
  pose proof (Hsel fs ltac:(set_solver)) as E5. pose proof (Hsel gs ltac:(set_solver)) as E6.
  pose proof (uo_ring _ Hu) as Hring. clear Hu Hsel.
  assert (Hpop : ∀ (ws ws' : list Z) v w s' R', trap_words u = ws ++ v :: ws' → k_mem s' = k_mem s →
    esp (k_regs s') = T - 4 * Z.of_nat (length (ws ++ [v])) →
    R' tt (with_regs (w v (w_esp (T - 4 * Z.of_nat (length ws)) (k_regs s'))) s') → wp (pop_reg w) s' R').
  { intros ws ws' v w s' R' Ew Em Es HR'. eapply wp_pop_stacked; [exact Es| | |done|done].
    - rewrite Em. apply (stacked_app _ _ _ ws'). rewrite <- app_assoc. cbn [app]. by rewrite <- Ew.
    - assert (Hl : (length (ws ++ [v]) ≤ 16)%nat).
      { change 16%nat with (length (trap_words u)). rewrite Ew, !length_app. cbn. lia. }
      unfold KERNEL_LO in *. lia. }
  destruct u as [ax bx cx dx si di bp sp ip fl c0 s0 d0 e0 f0 g0]. unfold trap_words in *.
  destruct s as [m [ax' bx' cx' dx' si' di' bp' sp' ip' fl' c0' s0' d0' e0' f0' g0']
    cr3 cr0 hw gdt gdtR idt idtR ts pm idle qt lp zt con]. kred_all.
  unfold RESTORE_ALL. apply wp_bind.
  apply wp_bind, (Hpop [s0; sp; fl; c0; ip; g0; f0; e0; d0; ax; bp; di; si; bx; cx] [] dx); [done|done|exact He|]. kflat.
  apply wp_bind, (Hpop [s0; sp; fl; c0; ip; g0; f0; e0; d0; ax; bp; di; si; bx] [dx] cx); [done|done|done|]. kflat.
  apply wp_bind, (Hpop [s0; sp; fl; c0; ip; g0; f0; e0; d0; ax; bp; di; si] [cx; dx] bx); [done|done|done|]. kflat.
  apply wp_bind, (Hpop [s0; sp; fl; c0; ip; g0; f0; e0; d0; ax; bp; di] [bx; cx; dx] si); [done|done|done|]. kflat.
  apply wp_bind, (Hpop [s0; sp; fl; c0; ip; g0; f0; e0; d0; ax; bp] [si; bx; cx; dx] di); [done|done|done|]. kflat.
  apply wp_bind, (Hpop [s0; sp; fl; c0; ip; g0; f0; e0; d0; ax] [di; si; bx; cx; dx] bp); [done|done|done|]. kflat.
  apply wp_bind, (Hpop [s0; sp; fl; c0; ip; g0; f0; e0; d0] [bp; di; si; bx; cx; dx] ax); [done|done|done|]. kflat.
  apply wp_bind, (Hpop [s0; sp; fl; c0; ip; g0; f0; e0] [ax; bp; di; si; bx; cx; dx] d0); [done|done|done|]. kflat.
  apply wp_bind, (Hpop [s0; sp; fl; c0; ip; g0; f0] [d0; ax; bp; di; si; bx; cx; dx] e0); [done|done|done|]. kflat.
  apply wp_bind, (Hpop [s0; sp; fl; c0; ip; g0] [e0; d0; ax; bp; di; si; bx; cx; dx] f0); [done|done|done|]. kflat.
  apply (Hpop [s0; sp; fl; c0; ip] [f0; e0; d0; ax; bp; di; si; bx; cx; dx] g0); [done|done|done|]. kflat.
  unfold iret.
  apply wp_bind, (Hpop [s0; sp; fl; c0] [g0; f0; e0; d0; ax; bp; di; si; bx; cx; dx] ip); [done|done|done|]. kflat.
  apply wp_bind, (Hpop [s0; sp; fl] [ip; g0; f0; e0; d0; ax; bp; di; si; bx; cx; dx] c0); [done|done|done|]. kflat.
  apply wp_bind, (Hpop [s0; sp] [c0; ip; g0; f0; e0; d0; ax; bp; di; si; bx; cx; dx] fl); [done|done|done|]. kflat.
  apply wp_bind, wp_gets. kflat. rewrite E1, E3, E4, E5, E6, Hring, Z.eqb_refl.
  assert (L1 : load32 m (T - 4 * Z.of_nat (length [s0; sp])) = sp) by (by apply (Hs 1%nat)).
  assert (L2 : load32 m (T - 4 * Z.of_nat (length [s0])) = s0) by (by apply (Hs 0%nat)).
  apply wp_bind, wp_pop; kflat; [cbn in *; lia..|]. rewrite L1.
  apply wp_bind, wp_pop; kflat; [cbn in *; lia..|].
  replace (T - 4 * Z.of_nat (length [s0; sp]) + 4) with (T - 4 * Z.of_nat (length [s0])) by (cbn; lia). rewrite L2.
  apply wp_bind, wp_modify, wp_modify. kflat. by rewrite E2.
Qed.

(** ** The end of a system call *)

Lemma user_ok_eax u v : user_ok u → 0 ≤ v < 2 ^ 32 → user_ok (w_eax v u).
Proof.
  intros [Hw Hs Hr] Hv. rewrite Forall_forall in Hw, Hs. split; [| |done]; apply Forall_forall; intros r Hin.
  - pose proof (Hw r Hin). set_unfold in Hin. destruct_or! Hin; subst r; done.
  - pose proof (Hs r Hin). set_unfold in Hin. destruct_or! Hin; subst r; done.
Qed.

Lemma stacked_eax m T u v :
  stacked m T (trap_words u) → 0 ≤ v < 2 ^ 32 → stacked (store32 m (T - 40) v) T (trap_words (w_eax v u)).
Proof.
  intros Hs Hv k w Hk. destruct (decide (k = 9%nat)) as [->|Hne].
  - injection Hk as <-. change (4 * (Z.of_nat 9 + 1)) with 40. by apply load32_store32_same.
  - rewrite load32_store32_ne by lia. apply Hs. unfold trap_words in *.
    do 16 (destruct k as [|k]; [first [exact Hk|by destruct Hne]|]). done.
Qed.

Lemma wp_syscall_fin T u s R :
  stacked (k_mem s) T (trap_words u) → esp (k_regs s) = T - 64 → user_ok u → 0 ≤ eax (k_regs s) < 2 ^ 32 →
  KERNEL_LO ≤ T - 64 → T ≤ KERNEL_HI →
  (∀ m', frame (in_range (T - 40) 4) (k_mem s) m' →
     R tt (with_mem m' (with_regs (w_eax (eax (k_regs s)) u) s))) →
  wp syscall_fin s R.
Proof.
  intros Hs He Hu Hv Hlo Hhi HR. unfold syscall_fin. apply wp_bind, wp_gets, wp_bind, wp_gets.
  rewrite He. replace (T - 64 + 0x18) with (T - 40) by lia.
  apply wp_bind, wp_on_mem, wp_kstore32; [unfold KERNEL_LO in *; lia|lia|].
  eapply (wp_trap_return T (w_eax (eax (k_regs s)) u)); [by apply stacked_eax|done|by apply user_ok_eax|done|done|].
  specialize (HR (store32 (k_mem s) (T - 40) (eax (k_regs s)))). apply HR. by apply frame_store32.
Qed.

(** ** The call of a service *)

(** The registers a service starts its body with, and the words above its
    frame. *)
Definition service_regs (u : regs) (T sel handler : Z) : regs :=
  w_ebp (T - 72) (w_esp (T - 72) (trap_regs u T sel handler)).

(** The registers of a task in the kernel. *)
Record kernel_ok (u : regs) : Prop := {
  ko_words : Forall (λ r, 0 ≤ r u < 2 ^ 32) [eax; ebx; ecx; edx; esi; edi; ebp; eip; eflags];
  ko_sels : Forall (λ r, 0 ≤ r u < 2 ^ 16) [ds; es; fs; gs];
  ko_cs : cs u = KERNEL_CS;
}.

(** Clearing bits of a word. *)
Lemma ldiff_bound a b n : 0 ≤ a < n → 0 ≤ Z.ldiff a b < n.
Proof.
  intros Ha. assert (Hnn : 0 ≤ Z.ldiff a b) by (apply Z.ldiff_nonneg; lia). split; [done|].
  enough (Z.ldiff a b = a - Z.land a b) as -> by (enough (0 ≤ Z.land a b) by lia; apply Z.land_nonneg; lia).
  rewrite Z.sub_nocarry_ldiff; apply Z.bits_inj'; intros k Hk; rewrite !Z.ldiff_spec, ?Z.bits_0, Z.land_spec;
    by destruct (Z.testbit a k), (Z.testbit b k).
Qed.

Lemma service_kernel_ok u T sel handler b e :
  user_ok u → 0 ≤ b < 2 ^ 32 → 0 ≤ e < 2 ^ 32 → ∀ sp, kernel_ok (w_eip e (w_esp sp (w_ebp b (service_regs u T sel handler)))).
Proof.
  intros Hu Hb He sp. unfold service_regs, trap_regs. kred.
  assert (Hf : 0 ≤ Z.ldiff (eflags u) IF_FLAG < 2 ^ 32) by (apply ldiff_bound, (user_word _ _ Hu); set_solver).
  split; [repeat constructor; cbn; (lia || (apply (user_word _ _ Hu); set_solver) || by vm_compute)| |done].
  pose proof (uo_sels _ Hu) as Hs. rewrite Forall_forall in Hs.
  repeat constructor; cbn; first [by vm_compute|apply Hs; set_solver].
Qed.

Definition service_words (u : regs) : list Z := trap_words u ++ [addr_service_ret; ebp u].

Lemma service_argument m T u (k : nat) v :
  stacked m T (service_words u) → trap_words u !! k = Some v → load32 m (T - 4 * (Z.of_nat k + 1)) = v.
Proof. intros Hs Hk. apply Hs. by apply lookup_app_l_Some. Qed.

Section Call.
Context (r j junk handler : Z) (s : kstate) (f : service).
Context (Hr : valid_task r) (Hj : sizeof_task_struct + 72 ≤ 4 * j) (Hj' : 4 * j ≤ PAGE_SIZE).
Context (Hu : user_ok (k_regs s)) (HT : esp0 (k_tss s) = stack_addr (task_addr r) j).
Let u : regs := k_regs s.
Let T : Z := stack_addr (task_addr r) j.
Let sr : regs := service_regs u T (ss0 (k_tss s)) handler.

Lemma stack_top_window : KERNEL_LO ≤ T - 72 ∧ T ≤ KERNEL_HI.
Proof.
  pose proof (task_addr_window r Hr). unfold T, stack_addr, sizeof_task_struct, KERNEL_LO, KERNEL_START in *. lia.
Qed.

(** A service that stays on its task and leaves its caller's frame alone, so
    that the user gets its registers back and the result in eax; or one that
    gives the processor to a task that goes on elsewhere. *)
Definition service_ends (R : unit → kstate → Prop) (v : option Z) (s2 : kstate) : Prop :=
  (k_regs s2 = sr ∧ stacked (k_mem s2) T (service_words u) ∧
     ∀ m3, frame (in_range (T - 40) 4) (k_mem s2) m3 →
       R tt (with_mem m3 (with_regs (w_eax (u32 (default junk v)) u) s2))) ∨
  (eip (k_regs s2) ≠ handler ∧ R tt s2).

Lemma wp_call_service R m0 :
  stacked m0 T (trap_words u) → frame (in_range (T - 64) 64) (k_mem s) m0 →
  sys_call_table !! Z.to_nat (eax u) = Some f →
  (∀ m, stacked m T (service_words u) → frame (in_range (T - 72) 72) (k_mem s) m →
     wp (f (edx u) (ecx u) (ebx u)) (with_mem m (with_regs sr s)) (service_ends R)) →
  wp (let! back := call_service junk (eax u) in when back syscall_fin)
    (with_mem m0 (with_regs (trap_regs u T (ss0 (k_tss s)) handler) s)) R.
Proof.
  intros S0 F0 Hf Hbody. destruct stack_top_window as [Hlo Hhi].
  pose proof (code_window addr_service_ret ltac:(set_solver)) as Hret.
  pose proof (user_word u ebp Hu ltac:(set_solver)) as Hbp.
  unfold call_service. apply wp_bind.
  apply wp_bind, (wp_push_stacked T (trap_words u)); kred; [done|done|done|cbn; lia|done|]. intros m1 S1 F1.
  destruct (sys_call_table !! Z.to_nat (eax u)) as [f'|]; [injection Hf as ->|done].
  apply wp_bind, wp_bind, wp_bind, wp_gets. kred.
  apply (wp_push_stacked T (trap_words u ++ [addr_service_ret])); kred; [done|done|done|cbn; lia|done|].
  intros m2 S2 F2. apply wp_bind, wp_gets, wp_modify. kred.
  rewrite <- app_assoc in S2. cbn [app] in S2. fold (service_words u) in S2.
  replace (T - 4 * Z.of_nat (length ((trap_words u ++ [addr_service_ret]) ++ [ebp u]))) with (T - 72) by (cbn; lia).
  apply wp_bind, wp_gets. kred.
  assert (Ld : load32 m2 (T - 72 + 8) = edx u).
  { replace (T - 72 + 8) with (T - 4 * (Z.of_nat 15 + 1)) by lia.
    exact (service_argument m2 T u 15 (edx u) S2 eq_refl). }
  assert (Lc : load32 m2 (T - 72 + 12) = ecx u).
  { replace (T - 72 + 12) with (T - 4 * (Z.of_nat 14 + 1)) by lia.
    exact (service_argument m2 T u 14 (ecx u) S2 eq_refl). }
  assert (Lb : load32 m2 (T - 72 + 16) = ebx u).
  { replace (T - 72 + 16) with (T - 4 * (Z.of_nat 13 + 1)) by lia.
    exact (service_argument m2 T u 13 (ebx u) S2 eq_refl). }
  apply wp_bind, wp_on_mem, wp_kload32; kred; [unfold KERNEL_LO in *; lia|lia|]. rewrite Ld.
  apply wp_bind, wp_on_mem, wp_kload32; kred; [unfold KERNEL_LO in *; lia|lia|]. rewrite Lc.
  apply wp_bind, wp_on_mem, wp_kload32; kred; [unfold KERNEL_LO in *; lia|lia|]. rewrite Lb.
  apply wp_bind, wp_gets.
  apply wp_bind. eapply wp_mono; [apply (Hbody m2 S2)|].
  { eapply frame_trans; [eapply frame_weaken; [|exact F0]; unfold in_range; lia|].
    eapply frame_trans; (eapply frame_weaken; [|eassumption]); intros a; unfold in_range; cbn; lia. }
  intros v s2 [(Hregs & S3 & HR)|[Hne HR]]; apply wp_bind, wp_gets.
  2:{ match goal with |- context [?x =? eip (k_regs s2)] => change x with handler end.
      destruct (Z.eqb_spec handler (eip (k_regs s2))); [by destruct Hne|]. apply wp_ret. cbn [when]. by apply wp_ret. }
  rewrite Hregs, Z.eqb_refl. apply wp_bind, wp_modify.
  assert (Eb : ebp (k_regs s2) = T - 72) by (by rewrite Hregs).
  assert (L17 : load32 (k_mem s2) (T - 72) = ebp u) by (apply (S3 17%nat); done).
  assert (L16 : load32 (k_mem s2) (T - 68) = addr_service_ret) by (apply (S3 16%nat); done).
  clear Hbody Hregs S0 F0 S1 F1 S2 F2 Ld Lc Lb.
  apply wp_bind, wp_bind, wp_gets, wp_bind, wp_modify, wp_pop_reg; kred; rewrite ?Eb; [lia|lia|].
  apply wp_bind, wp_pop_reg; kred; [unfold KERNEL_LO in *; lia|lia|]. apply wp_ret. cbn [when].
  apply (wp_syscall_fin T u); kred; [by eapply stacked_app|lia|done|apply u32_range|lia|done|].
  intros m3 F3. exact (HR m3 F3).
Qed.

Lemma wp_int_0x80_any R :
  0 ≤ eax u → sys_call_table !! Z.to_nat (eax u) = Some f →
  (∀ m, stacked m T (service_words u) → frame (in_range (T - 72) 72) (k_mem s) m →
     wp (f (edx u) (ecx u) (ebx u)) (with_mem m (with_regs sr s)) (service_ends R)) →
  wp (int_0x80 junk handler) s R.
Proof.
  intros H0 Hf Hbody. destruct stack_top_window as [Hlo Hhi].
  assert (Hn : eax u < 21).
  { apply lookup_lt_Some in Hf. change (length sys_call_table) with 21%nat in Hf. lia. }
  assert (Hsv : wp (int_enter handler None ;! SAVE_ALL) s (λ _ s1, ∃ m, stacked m T (trap_words u) ∧
    frame (in_range (T - 64) 64) (k_mem s) m ∧ s1 = with_mem m (with_regs (trap_regs u T (ss0 (k_tss s)) handler) s))).
  { apply (wp_trap_save T); [done|done|lia|done|]. intros m S F. by exists m. }
  assert (Hgo : ∀ s1, (∃ m, stacked m T (trap_words u) ∧ frame (in_range (T - 64) 64) (k_mem s) m ∧
      s1 = with_mem m (with_regs (trap_regs u T (ss0 (k_tss s)) handler) s)) →
    wp (let! n := get_reg eax in
        if (s32 n <? 0) || (MAX_SYSCALL <? s32 n) then upd_regs (w_eax (u32 (-38))) ;! syscall_fin
        else let! back := call_service junk (s32 n) in when back syscall_fin) s1 R).
  { intros s1 (m & S & F & ->). apply wp_bind, wp_gets. kred. change (eax (trap_regs u T _ _)) with (eax u).
    rewrite s32_small by lia. change MAX_SYSCALL with 21.
    destruct (Z.ltb_spec (eax u) 0); [lia|]. destruct (Z.ltb_spec 21 (eax u)); [lia|]. cbn [orb].
    by apply wp_call_service. }
  unfold int_0x80, system_call_handler. unfold wp, bind in *.
  destruct (int_enter handler None s) as [[] sa|]; [|done]. destruct (SAVE_ALL sa) as [[] sb|]; [|done].
  exact (Hgo sb Hsv).
Qed.

(** The first case alone. *)
Lemma wp_int_0x80 R :
  0 ≤ eax u → sys_call_table !! Z.to_nat (eax u) = Some f →
  (∀ m, stacked m T (service_words u) → frame (in_range (T - 72) 72) (k_mem s) m →
     wp (f (edx u) (ecx u) (ebx u)) (with_mem m (with_regs sr s)) (λ v s2,
       k_regs s2 = sr ∧ stacked (k_mem s2) T (service_words u) ∧
       ∀ m3, frame (in_range (T - 40) 4) (k_mem s2) m3 →
         R tt (with_mem m3 (with_regs (w_eax (u32 (default junk v)) u) s2)))) →
  wp (int_0x80 junk handler) s R.
Proof.
  intros H0 Hf Hbody. apply wp_int_0x80_any; [done..|]. intros m S F. eapply wp_mono; [by apply Hbody|]. by left.
Qed.
End Call.
End Entry.
