(* ===== verification/Calls.v ===== *)
(** System calls as the user program sees them: from [int $0x80] to the next
    user instruction. *)

From S2P Require Import Prelude Memory CList Libc Console Frames Types Kernel Task Paging Utils Switch.
From S2P Require Import Sched Policy Space Process Sys Block Fork ForkInv Write Entry.

Section Calls.
Context {L : Layout} {LO : LayoutOk L}.

(** A process in user mode: [j] words of its kernel stack are below the
    ring-0 stack pointer of the task state segment. *)
Record user_mode (σ : ptable) (code : list Z) (data : gmap Z (list Z)) (j : Z) (s : kstate) : Prop := {
  um_inv : kernel_inv σ code data s;
  um_regs : user_ok (k_regs s);
  um_esp0 : esp0 (k_tss s) = stack_addr (task_addr (p_run σ)) j;
  um_room : sizeof_task_struct + 76 ≤ 4 * j ∧ 4 * j ≤ PAGE_SIZE;
  um_cr3 : k_cr3 s = dir_addr (p_run σ);
  um_live : p_run σ ≠ 0;
}.

Section Mode.
Context (σ : ptable) (code : list Z) (data : gmap Z (list Z)) (j : Z) (s : kstate).
Context (Hum : user_mode σ code data j s).
Let T : Z := stack_addr (task_addr (p_run σ)) j.

Lemma um_valid : valid_task (p_run σ).
Proof. apply (sc_run σ s), (um_inv _ _ _ _ _ Hum). Qed.

Lemma um_stack a n m : T - 72 ≤ a → 0 ≤ n → a + n ≤ T → frame (in_range a n) (k_mem s) m →
  kernel_inv σ code data (with_mem m s).
Proof.
  intros Ha Hn Hb Hf. destruct (um_room _ _ _ _ _ Hum). unfold T, stack_addr, sizeof_task_struct in *.
  pose proof (um_inv _ _ _ _ _ Hum) as Hinv.
  replace (with_mem m s) with (with_console (k_console s) (with_mem m s)) by (by destruct s).
  eapply kernel_inv_scratch; [exact Hinv| | | |exact Hf|]; unfold sizeof_task_struct; try lia.
  apply (ki_sched _ _ _ _ Hinv).
Qed.

Lemma um_on_stack s' : esp (k_regs s') = T - 72 → on_stack s' (p_run σ).
Proof.
  intros E. split; [apply um_valid|]. rewrite E. destruct (um_room _ _ _ _ _ Hum).
  unfold T, stack_addr, sizeof_task_struct, PAGE_SIZE in *. lia.
Qed.

(** Words of task structures are below the stack. *)
Lemma um_field a n m i f : T - 72 ≤ a → 0 ≤ n → a + n ≤ T → frame (in_range a n) (k_mem s) m →
  valid_task i → data_field f → load32 m (task_addr i + f) = load32 (k_mem s) (task_addr i + f).
Proof.
  intros Ha Hn Hb Hf Hi Hd. eapply (stack_frame_field _ _ _ (p_run σ)); [exact Hf| |apply um_valid|done|done].
  intros b Hb'. right. destruct (um_room _ _ _ _ _ Hum). unfold T, stack_addr, in_range, sizeof_task_struct in *. lia.
Qed.

(** Services that only compute a result. *)
Lemma wp_pure_call junk handler f v R :
  0 ≤ eax (k_regs s) → sys_call_table !! Z.to_nat (eax (k_regs s)) = Some f →
  (∀ m s1, frame (in_range (T - 72) 72) (k_mem s) m →
     s1 = with_mem m (with_regs (service_regs (k_regs s) T (ss0 (k_tss s)) handler) s) →
     f (edx (k_regs s)) (ecx (k_regs s)) (ebx (k_regs s)) s1 = Ret (Some v) s1) →
  (∀ m, frame (in_range (T - 72) 72) (k_mem s) m → kernel_inv σ code data (with_mem m s) →
     R tt (with_mem m (with_regs (w_eax (u32 v) (k_regs s)) s))) →
  wp (int_0x80 junk handler) s R.
Proof.
  intros H0 Hf Hbody HR. destruct (um_room _ _ _ _ _ Hum) as [Hr1 Hr2].
  apply (wp_int_0x80 (p_run σ) j junk handler s f um_valid); [unfold sizeof_task_struct in *; lia|done| | |done|done|].
  { apply (um_regs _ _ _ _ _ Hum). }
  { apply (um_esp0 _ _ _ _ _ Hum). }
  intros m S F. eapply wp_intro; [by eapply Hbody|]. split; [done|]. split; [done|].
  intros m3 F3. cbn [default from_option id].
  assert (F' : frame (in_range (T - 72) 72) (k_mem s) m3).
  { eapply frame_trans; [exact F|]. eapply frame_weaken; [|exact F3]. intros a. unfold in_range, T. lia. }
  apply HR; [exact F'|]. eapply um_stack; [| | |exact F']; lia.
Qed.

(** getpid and gettime.  [int $0x80] with eax = 20 or 10 comes back to
    the user with all registers as they were but eax, which holds the
    identifier of the running process, or the number of clock ticks. *)
Theorem identification_calls junk handler :
  (eax (k_regs s) = 20 → ∃ m, int_0x80 junk handler s =
     Ret tt (with_mem m (with_regs (w_eax (u32 (pid_of (k_mem s) (p_run σ))) (k_regs s)) s)) ∧
     kernel_inv σ code data (with_mem m s)) ∧
  (eax (k_regs s) = 10 → ∃ m, int_0x80 junk handler s =
     Ret tt (with_mem m (with_regs (w_eax (u32 (k_zeos_ticks s)) (k_regs s)) s)) ∧
     kernel_inv σ code data (with_mem m s)).
Proof.
  assert (Hgo : ∀ n f v, eax (k_regs s) = n → 0 ≤ n → sys_call_table !! Z.to_nat n = Some f →
    (∀ m s1, frame (in_range (T - 72) 72) (k_mem s) m →
       s1 = with_mem m (with_regs (service_regs (k_regs s) T (ss0 (k_tss s)) handler) s) →
       f (edx (k_regs s)) (ecx (k_regs s)) (ebx (k_regs s)) s1 = Ret (Some v) s1) →
    ∃ m, int_0x80 junk handler s = Ret tt (with_mem m (with_regs (w_eax (u32 v) (k_regs s)) s)) ∧
     kernel_inv σ code data (with_mem m s)).
  { intros n f v En Hn Hf Hb. destruct (wp_elim (int_0x80 junk handler) s (λ _ s', ∃ m,
      s' = with_mem m (with_regs (w_eax (u32 v) (k_regs s)) s) ∧ kernel_inv σ code data (with_mem m s)))
      as ([] & s' & E & m & -> & H); [|by exists m].
    apply (wp_pure_call junk handler f v); [lia|by rewrite En|done|]. intros m F Hi. by exists m. }
  split; intros En; [eapply (Hgo 20); [done|done|reflexivity|]|eapply (Hgo 10); [done|done|reflexivity|]].
  - intros m s1 F Es. unfold returns.
    assert (Hw : wp sys_getpid s1 (λ v s', v = pid_of (k_mem s) (p_run σ) ∧ s' = s1)).
    { unfold sys_getpid. apply wp_bind, (wp_current (p_run σ)); [apply um_on_stack; by rewrite Es|].
      apply wp_get_int_field; [apply um_valid|solve_field..|]. split; [|done]. rewrite Es. kred.
      unfold pid_of, load_int. f_equal. eapply um_field; [| | |exact F|apply um_valid|]; try lia.
      unfold data_field. solve_field. }
    unfold bind. unfold wp in Hw. destruct (sys_getpid s1) as [v s'|]; [|done]. by destruct Hw as [-> ->].
  - intros m s1 F Es. by rewrite Es.
Qed.

(** C26. A number that is no system call's.  Below 0 or above 21 the call
    returns -38 (ENOSYS) and changes nothing of the user's context but eax;
    21, which the handler's comparison lets through, reads the word after the
    table. *)
Theorem unknown_calls junk handler :
  (s32 (eax (k_regs s)) < 0 ∨ 21 < s32 (eax (k_regs s)) → ∃ m, int_0x80 junk handler s =
     Ret tt (with_mem m (with_regs (w_eax (u32 (-38)) (k_regs s)) s)) ∧
     kernel_inv σ code data (with_mem m s)) ∧
  (eax (k_regs s) = 21 → int_0x80 junk handler s = Fault (OutOfBounds 21)).
Proof.
  destruct (um_room _ _ _ _ _ Hum) as [Hr1 Hr2]. pose proof (um_regs _ _ _ _ _ Hum) as Hu.
  pose proof (um_esp0 _ _ _ _ _ Hum) as HT. fold T in HT.
  destruct (stack_top_window (p_run σ) j um_valid) as [Hlo Hhi]; [unfold sizeof_task_struct in *; lia|done|].
  fold T in Hlo, Hhi.
  assert (Hsv : wp (int_enter handler None ;! SAVE_ALL) s (λ _ s1, ∃ m, stacked m T (trap_words (k_regs s)) ∧
    frame (in_range (T - 64) 64) (k_mem s) m ∧
    s1 = with_mem m (with_regs (trap_regs (k_regs s) T (ss0 (k_tss s)) handler) s))).
  { apply (wp_trap_save T); [done|done|lia|done|]. intros m S F. by exists m. }
  unfold int_0x80, system_call_handler. unfold wp in Hsv. unfold bind in Hsv |- *.
  destruct (int_enter handler None s) as [[] sa|]; [|done]. destruct (SAVE_ALL sa) as [[] sb|]; [|done].
  destruct Hsv as (m & S & F & ->). unfold get_reg, gets. kred.
  change (eax (trap_regs (k_regs s) T _ _)) with (eax (k_regs s)). change MAX_SYSCALL with 21. split.
  - intros Hn. assert ((s32 (eax (k_regs s)) <? 0) || (21 <? s32 (eax (k_regs s))) = true) as ->.
    { apply orb_true_iff. rewrite !Z.ltb_lt. tauto. }
    unfold upd_regs, modify. match goal with |- context [syscall_fin ?x] => set (sc := x) end.
    destruct (wp_elim syscall_fin sc (λ _ s', ∃ m', s' = with_mem m' (with_regs (w_eax (u32 (-38)) (k_regs s)) s) ∧
        frame (in_range (T - 72) 72) (k_mem s) m')) as ([] & s' & E & m' & -> & F').
    + apply (wp_syscall_fin T (k_regs s)); [exact S|done|done|done|lia|done|]. intros m' F'. exists m'.
      split; [done|]. eapply frame_trans; (eapply frame_weaken; [|eassumption]); intros a; unfold in_range; lia.
    + exists m'. split; [exact E|]. eapply um_stack; [| | |exact F']; lia.
  - intros ->. change ((s32 21 <? 0) || (21 <? s32 21)) with false. cbv iota.
    unfold call_service, bind. change (s32 21) with 21. change (sys_call_table !! Z.to_nat 21) with (@None service).
    match goal with |- context [push addr_service_ret ?x] => set (sc := x) end.
    destruct (wp_elim (push addr_service_ret) sc (λ _ _, True)) as ([] & s' & E & _); [|by rewrite E].
    eapply (wp_push_stacked T (trap_words (k_regs s))); [done|exact S| |cbn; lia|done|done].
    apply code_window. set_solver.
Qed.

End Mode.

(** ** fork *)

(** A task that fork created, when it is switched to for the first time. *)
Lemma wp_child_returns j u c s2 R :
  sizeof_task_struct + 76 ≤ 4 * j → 4 * j ≤ PAGE_SIZE → valid_task c → user_ok u → let Tc := stack_addr (task_addr c) j in
  stacked (k_mem s2) Tc (trap_words u ++ [addr_service_ret]) → esp (k_regs s2) = Tc - 68 →
  (∀ m, frame (in_range (Tc - 72) 72) (k_mem s2) m → R tt (with_mem m (with_regs (w_eax 0 u) s2))) →
  wp (ret_from_fork ;! syscall_fin) s2 R.
Proof.
  intros Hr1 Hr2 Hc Hu Tc Hs He HR.
  destruct (stack_top_window c j Hc) as [Hlo Hhi]; [unfold sizeof_task_struct in *; lia|done|]. fold Tc in Hlo, Hhi.
  assert (L16 : load32 (k_mem s2) (Tc - 68) = addr_service_ret) by (by apply (Hs 16%nat)).
  unfold ret_from_fork. apply wp_bind, wp_bind, wp_enter; [lia|lia|]. rewrite He.
  replace (Tc - 68 - 4) with (Tc - 72) by lia. set (m1 := store32 _ _ _).
  assert (Hs1 : stacked m1 Tc (trap_words u ++ [addr_service_ret])).
  { eapply stacked_frame; [exact Hs|by apply frame_store32|]. intros a. unfold in_range. cbn. lia. }
  assert (L16' : load32 m1 (Tc - 68) = addr_service_ret) by (by apply (Hs1 16%nat)).
  apply wp_bind, wp_modify, wp_bind, wp_pop_reg; kred; [lia|lia|].
  apply wp_pop_reg; kred; [unfold KERNEL_LO in *; lia|lia|].
  apply (wp_syscall_fin Tc u); kred; [by eapply stacked_app|lia|done|lia|lia|done|].
  intros m' F'. apply (HR m'). eapply frame_trans; [apply (frame_weaken (in_range (Tc - 72) 4)); [|by apply frame_store32]|].
  - intros a. unfold in_range. lia.
  - eapply frame_weaken; [|exact F']. intros a. unfold in_range. lia.
Qed.

(** The stack of the child is the parent's, from the return address up. *)
Lemma child_stacked u r c j m1 m2 :
  stacked m1 (stack_addr (task_addr r) j) (service_words u) → sizeof_task_struct + 76 ≤ 4 * j → 4 * j ≤ PAGE_SIZE →
  (∀ f, 4 * (j - 18) + 4 ≤ f → f + 4 ≤ PAGE_SIZE → load32 m2 (task_addr c + f) = load32 m1 (task_addr r + f)) →
  stacked m2 (stack_addr (task_addr c) j) (trap_words u ++ [addr_service_ret]).
Proof.
  intros Hs Hj1 Hj2 Hw k v Hk. pose proof (lookup_lt_Some _ _ _ Hk) as Hlt. cbn in Hlt. unfold stack_addr in *.
  replace (task_addr c + 4 * j - 4 * (Z.of_nat k + 1)) with (task_addr c + (4 * j - 4 * (Z.of_nat k + 1))) by lia.
  rewrite Hw by lia.
  replace (task_addr r + (4 * j - 4 * (Z.of_nat k + 1))) with (task_addr r + 4 * j - 4 * (Z.of_nat k + 1)) by lia.
  apply Hs. unfold service_words. change [addr_service_ret; ebp u] with ([addr_service_ret] ++ [ebp u]).
  rewrite app_assoc. by apply lookup_app_l_Some.
Qed.

(** The stack a task that fork created starts on. *)
Record newborn_stack (j : Z) (u : regs) (i : Z) (m : memory) : Prop := {
  nb_stack : stacked m (stack_addr (task_addr i) j) (trap_words u ++ [addr_service_ret]);
  nb_esp : load32 m (task_addr i + f_kernel_esp) = stack_addr (task_addr i) (j - 19);
  nb_eip : load32 m (stack_addr (task_addr i) (j - 19) + 4) = addr_ret_from_fork;
}.

Lemma newborn_frame j u i m m' :
  sizeof_task_struct + 76 ≤ 4 * j → 4 * j ≤ PAGE_SIZE →
  (∀ a, stack_bytes i a → load8 m' a = load8 m a) → newborn_stack j u i m → newborn_stack j u i m'.
Proof.
  intros Hj1 Hj2 Hp [S E1 E2]. unfold sizeof_task_struct in *.
  assert (Hw : ∀ f, f = f_kernel_esp ∨ (sizeof_task_struct ≤ f ∧ f + 4 ≤ PAGE_SIZE) →
    load32 m' (task_addr i + f) = load32 m (task_addr i + f)).
  { intros f Hf. apply load32_bytes. intros k Hk. apply Hp. unfold stack_bytes, in_range. destruct Hf as [->|Hf]; lia. }
  unfold sizeof_task_struct in Hw. split.
  - intros k v Hk. pose proof (lookup_lt_Some _ _ _ Hk) as Hlt. cbn in Hlt. rewrite <- (S k v Hk). unfold stack_addr.
    replace (task_addr i + 4 * j - 4 * (Z.of_nat k + 1)) with (task_addr i + (4 * j - 4 * (Z.of_nat k + 1))) by lia.
    apply Hw. lia.
  - rewrite Hw by tauto. done.
  - rewrite <- E2. unfold stack_addr. replace (task_addr i + 4 * (j - 19) + 4) with (task_addr i + (4 * (j - 19) + 4)) by lia.
    apply Hw. lia.
Qed.

(** The stack pointer and the resume address a switch to the child gives. *)
Definition child_resumes (u : regs) (c : Z) (s' : kstate) : Prop :=
  ∀ s2, (∀ a, in_range (task_addr c) PAGE_SIZE a → load8 (k_mem s2) a = load8 (k_mem s') a) →
  let k := load32 (k_mem s2) (task_addr c + f_kernel_esp) in
  esp (k_regs s2) = k + 8 →
  load32 (k_mem s2) (k + 4) = addr_ret_from_fork ∧
  ∃ s3, (ret_from_fork ;! syscall_fin) s2 = Ret tt s3 ∧ k_regs s3 = w_eax 0 u.

(** After fork, the system call writes no more than the parent's kernel
    stack. *)
Section Forked.
Context (σ : ptable) (code : list Z) (data : gmap Z (list Z)) (j : Z) (s s1 s2 : kstate) (m3 : memory).
Context (c : Z) (l ks dat fs : list Z).
Context (Hum : user_mode σ code data j s) (Efree : p_free σ = c :: l) (Hdat : data !! p_run σ = Some dat).
Let T : Z := stack_addr (task_addr (p_run σ)) j.
Context (Hres : fork_result σ c dat fs (j - 18) s1 s2) (F3 : frame (in_range (T - 40) 4) (k_mem s2) m3).

Lemma forked_fresh : valid_task c ∧ p_run σ ≠ c.
Proof.
  destruct (free_fresh σ c l Efree s (ki_sched _ _ _ _ (um_inv _ _ _ _ _ Hum))) as (Hc & _ & Hrc & _). done.
Qed.

Lemma trap_words_low a : in_range (T - 72) 72 a → a < KERNEL_HI ∧ ¬ in_range (task_addr c) PAGE_SIZE a.
Proof.
  intros Ha. pose proof (um_valid _ _ _ _ _ Hum) as Hrun. destruct forked_fresh as [Hc Hrc].
  destruct (um_room _ _ _ _ _ Hum). pose proof (task_addr_window (p_run σ) Hrun).
  pose proof (task_addr_apart (p_run σ) c Hrun Hc Hrc). unfold T, stack_addr, apart, in_range, sizeof_task_struct in *. lia.
Qed.

Lemma forked_same_data u :
  frame (in_range (T - 72) 72) (k_mem s) (k_mem s1) → length fs = Z.to_nat NUM_PAG_DATA →
  kernel_inv (fork_table c l ks σ) code (<[c := fs]> data) (with_mem m3 (with_regs u s2)) →
  same_data s (with_mem m3 (with_regs u s2)) (p_run σ) c.
Proof.
  intros F Hlen Hinv3. pose proof (um_inv _ _ _ _ _ Hum) as Hinv. pose proof (ki_mm _ _ _ _ Hinv) as Hmm.
  assert (Hhi : ∀ f o, f ∈ fs ∨ f ∈ dat → 0 ≤ o → KERNEL_HI ≤ f * PAGE_SIZE + o).
  { intros f o Hf Ho. assert (Ha : allocatable f).
    { destruct Hf as [Hf|Hf]; [|by apply (mi_alloc _ _ _ _ Hmm _ _ f Hdat)].
      by apply (mi_alloc _ _ _ _ (ki_mm _ _ _ _ Hinv3) c fs f); [apply lookup_insert_eq|]. }
    destruct Ha as [[Ha _] _]. unfold NUM_PAG_KERNEL, KERNEL_HI, PAGE_SIZE in *. lia. }
  eapply copied_same_data; [done|exact Hinv|done|exact Hinv3|done|..]; kred.
  - intros a Ha Hn. rewrite F3, (fr_high _ _ _ _ _ _ _ Hres)
      by (done || (intros Hx; destruct (trap_words_low a); [unfold in_range in *; lia|lia])).
    apply F. intros Hx. destruct (trap_words_low a Hx). lia.
  - intros i f d o Hf Hd Ho. rewrite F3, (fr_copy _ _ _ _ _ _ _ Hres i f d o Hf Hd Ho); [apply F|].
    + intros Hx. destruct (trap_words_low _ Hx). pose proof (Hhi d o (or_intror (list_elem_of_lookup_2 _ _ _ Hd))). lia.
    + intros Hx. destruct (trap_words_low (f * PAGE_SIZE + o)); [unfold in_range in *; lia|].
      pose proof (Hhi f o (or_introl (list_elem_of_lookup_2 _ _ _ Hf))). lia.
Qed.

(** The words of the child's union, once the call has ended. *)
Lemma forked_word f : 0 ≤ f → f + 4 ≤ PAGE_SIZE → load32 m3 (task_addr c + f) = load32 (k_mem s2) (task_addr c + f).
Proof.
  intros H0 H1. apply (frame_load32 _ _ _ _ F3). intros b Hb Hx.
  destruct (trap_words_low b) as [_ Hy]; [unfold in_range in *; lia|]. apply Hy. unfold in_range in *. lia.
Qed.

Lemma forked_newborn :
  stacked (k_mem s1) T (service_words (k_regs s)) → newborn_stack j (k_regs s) c m3.
Proof.
  intros S. destruct (um_room _ _ _ _ _ Hum) as [Hr1 Hr2]. unfold sizeof_task_struct in *. split.
  - apply (child_stacked (k_regs s) (p_run σ) c j (k_mem s1)); [exact S|unfold sizeof_task_struct; lia|done|]. intros f H1 H2.
    rewrite forked_word by lia. apply (fr_stack _ _ _ _ _ _ _ Hres); lia.
  - rewrite forked_word by solve_field. rewrite (fr_esp _ _ _ _ _ _ _ Hres). f_equal. lia.
  - destruct (fr_forked _ _ _ _ _ _ _ Hres) as (_ & _ & _ & H4 & _). rewrite (fr_esp _ _ _ _ _ _ _ Hres) in H4.
    rewrite <- H4. unfold stack_addr. replace (task_addr c + 4 * (j - 19) + 4) with (task_addr c + (4 * (j - 19) + 4)) by lia.
    rewrite forked_word by lia. f_equal. lia.
Qed.

Lemma forked_child_resumes s' :
  stacked (k_mem s1) T (service_words (k_regs s)) → k_mem s' = m3 → child_resumes (k_regs s) c s'.
Proof.
  intros S Em s4 Hpage k Hesp. destruct forked_fresh as [Hc Hrc]. destruct (um_room _ _ _ _ _ Hum) as [Hr1 Hr2].
  assert (Hnb : newborn_stack j (k_regs s) c (k_mem s4)).
  { eapply (newborn_frame _ _ _ m3); [done|done| |by apply forked_newborn]. intros a Ha. rewrite <- Em. apply Hpage.
    unfold stack_bytes, in_range, f_kernel_esp, sizeof_task_struct, PAGE_SIZE in *. lia. }
  assert (Ek : k = stack_addr (task_addr c) (j - 19)) by apply Hnb. split; [rewrite Ek; apply Hnb|].
  destruct (wp_elim (ret_from_fork ;! syscall_fin) s4 (λ _ s5, k_regs s5 = w_eax 0 (k_regs s))) as ([] & s5 & E5 & H5);
    [|by exists s5].
  apply (wp_child_returns j (k_regs s) c s4); [done|done|done|apply (um_regs _ _ _ _ _ Hum)|apply Hnb| |done].
  rewrite Hesp, Ek. unfold stack_addr. lia.
Qed.
End Forked.

(** The call of fork with a free task structure, step by step: [s1] is the
    state at the entry of the service and [s2] at its end. *)
Section ForkCall.
Context (σ : ptable) (code : list Z) (data : gmap Z (list Z)) (j : Z) (s : kstate) (junk handler c : Z) (l ks dat : list Z).
Context (Hum : user_mode σ code data j s) (Efree : p_free σ = c :: l).
Context (Hks : p_kids σ !! p_run σ = Some ks) (Hdat : data !! p_run σ = Some dat).
Context (Hlp : 0 ≤ k_last_pid s < 2 ^ 31 - 2).
Let T : Z := stack_addr (task_addr (p_run σ)) j.

Definition fork_entry (m : memory) : kstate :=
  with_mem m (with_regs (service_regs (k_regs s) T (ss0 (k_tss s)) handler) s).

Lemma fork_entry_frame m :
  stacked m T (service_words (k_regs s)) → service_frame (fork_entry m) (p_run σ) (j - 18).
Proof.
  intros S. destruct (um_room _ _ _ _ _ Hum). unfold sizeof_task_struct in *. split_and!; [|unfold sizeof_task_struct; lia|lia|].
  - unfold fork_entry, service_regs, T, stack_addr. kred. lia.
  - unfold fork_entry. kred. replace (stack_addr (task_addr (p_run σ)) (j - 18 + 1)) with (T - 4 * (Z.of_nat 16 + 1))
      by (unfold T, stack_addr; lia). by apply S.
Qed.

Lemma wp_fork_call R :
  eax (k_regs s) = 2 →
  (∀ m fs s2 m3, stacked m T (service_words (k_regs s)) → frame (in_range (T - 72) 72) (k_mem s) m →
     fork_result σ c dat fs (j - 18) (fork_entry m) s2 → length fs = Z.to_nat NUM_PAG_DATA →
     frame (in_range (T - 40) 4) (k_mem s2) m3 →
     let s' := with_mem m3 (with_regs (w_eax (next_pid (k_last_pid s) c) (k_regs s)) s2) in
     kernel_inv (fork_table c l ks σ) code (<[c := fs]> data) s' → R tt s') →
  wp (int_0x80 junk handler) s R.
Proof.
  intros En HR. pose proof (um_valid _ _ _ _ _ Hum) as Hrun. destruct (um_room _ _ _ _ _ Hum) as [Hr1 Hr2].
  destruct (free_fresh σ c l Efree s (ki_sched _ _ _ _ (um_inv _ _ _ _ _ Hum))) as (Hc & _ & Hrc & _).
  assert (Hpid : 0 ≤ next_pid (k_last_pid s) c < 2 ^ 31) by (unfold next_pid; case_match; lia).
  apply (wp_int_0x80 (p_run σ) j junk handler s (λ _ _ _, returns sys_fork)); try done.
  { unfold sizeof_task_struct in *. lia. }
  { apply (um_regs _ _ _ _ _ Hum). }
  { apply (um_esp0 _ _ _ _ _ Hum). }
  { lia. }
  { by rewrite En. }
  fold T. intros m S F. change (with_mem m _) with (fork_entry m).
  apply wp_bind, (wp_sys_fork σ c l ks code data Efree Hks (fork_entry m) (j - 18) dat);
    [|by eapply um_on_stack|exact (um_cr3 _ _ _ _ _ Hum)|done|by apply fork_entry_frame|done|].
  { apply (kernel_inv_regs _ _ _ (with_mem m s)). by eapply (um_stack σ code data j s Hum (T - 72) 72 m); [lia..|]. }
  intros fs s2 Hinv2 Hres Hlen. apply wp_ret.
  assert (Hword : ∀ k v, service_words (k_regs s) !! k = Some v → load32 (k_mem s2) (T - 4 * (Z.of_nat k + 1)) = v).
  { intros k v Hk. pose proof (lookup_lt_Some _ _ _ Hk) as Hlt. cbn in Hlt. rewrite <- (S k v Hk).
    unfold T, stack_addr, sizeof_task_struct in *.
    replace (task_addr (p_run σ) + 4 * j - 4 * (Z.of_nat k + 1))
      with (task_addr (p_run σ) + (4 * j - 4 * (Z.of_nat k + 1))) by lia.
    apply (fork_frame_field m (k_mem s2) c); [exact (fr_mem _ _ _ _ _ _ _ Hres)|done|done|done|solve_field]. }
  split; [exact (fr_regs _ _ _ _ _ _ _ Hres)|]. split; [exact Hword|]. intros m3 F3.
  cbn [default from_option id]. change (k_last_pid (fork_entry m)) with (k_last_pid s). rewrite u32_small by lia.
  eapply HR; [exact S|exact F|exact Hres|exact Hlen|exact F3|].
  apply (kernel_inv_regs _ _ _ (with_mem m3 s2)).
  replace (with_mem m3 s2) with (with_console (k_console s2) (with_mem m3 s2)) by (by destruct s2).
  eapply (kernel_inv_scratch _ _ _ s2 m3 (T - 40) 4); [exact Hinv2| | | |exact F3|apply Hinv2];
    unfold T, stack_addr, sizeof_task_struct in *; cbn [p_run fork_table]; lia.
Qed.
End ForkCall.

(** fork returns twice.  [int $0x80] with eax = 2 comes back to the parent
    with the child's identifier in eax and every other register unchanged.
    The child, whenever the scheduler first switches to it, starts in
    ret_from_fork and arrives in user mode with the parent's registers at the
    time of the call and 0 in eax; it has a copy of the parent's data. *)
Theorem fork_returns_twice σ code data j s junk handler c l :
  user_mode σ code data j s → eax (k_regs s) = 2 → p_free σ = c :: l → 0 ≤ k_last_pid s < 2 ^ 31 - 2 →
  ∃ ks fs s', int_0x80 junk handler s = Ret tt s' ∧
    k_regs s' = w_eax (next_pid (k_last_pid s) c) (k_regs s) ∧
    kernel_inv (fork_table c l ks σ) code (<[c := fs]> data) s' ∧
    same_data s s' (p_run σ) c ∧ child_resumes (k_regs s) c s'.
Proof.
  intros Hum En Efree Hlp. pose proof (um_inv _ _ _ _ _ Hum) as Hinv. pose proof Hinv as [[Hco Hout] Hfam _ Hmm].
  assert (Hrf : valid_task (p_run σ) ∧ p_run σ ∉ p_free σ).
  { split; [by eapply um_valid|]. intros Hx. apply Hout. by apply (queued_q _ Free). }
  destruct (proj2 (fi_dom _ _ Hfam (p_run σ)) Hrf) as [ks Hks].
  destruct (proj2 (mi_dom _ _ _ _ Hmm (p_run σ))) as [dat Hdat]; [split_and!; [apply Hrf|exact (um_live _ _ _ _ _ Hum)|apply Hrf]|].
  destruct (wp_elim (int_0x80 junk handler) s (λ _ s', ∃ fs,
    k_regs s' = w_eax (next_pid (k_last_pid s) c) (k_regs s) ∧
    kernel_inv (fork_table c l ks σ) code (<[c := fs]> data) s' ∧
    same_data s s' (p_run σ) c ∧ child_resumes (k_regs s) c s')) as ([] & s' & E & fs & H); [|by exists ks, fs, s'].
  apply (wp_fork_call σ code data j s junk handler c l ks dat); [done..|].
  intros m fs s2 m3 S F Hres Hlen F3 s' Hinv3. exists fs. split; [done|]. split; [exact Hinv3|].
  split; [by eapply (forked_same_data σ code data j s (fork_entry σ j s handler m) s2)|].
  by eapply (forked_child_resumes σ code data j s (fork_entry σ j s handler m) s2).
Qed.
End Calls.
