(* ===== verification/Interrupt.v ===== *)
(** interrupt.c and the register loads of hardware.c: the interrupt table, and
    the services of the keyboard, the clock and the page fault. *)

From Stdlib Require Import Ascii.
From stdpp Require Import strings.
From S2P Require Import Prelude Memory CList Libc Console Frames Types Kernel Task Paging Utils Switch.
From S2P Require Import Sched Policy Space Process Sys Tick Entry.
#[local] Open Scope Z_scope.

(** ** The interrupt descriptor table *)

Definition IDT_ENTRIES : Z := 256.

(** The gate both functions build: present, 32 bits, interrupt gate. *)
Definition int_gate (handler maxAccessibleFromPL : Z) : Gate :=
  let flags := Z.lor (u16 (Z.shiftl maxAccessibleFromPL 13)) 0x8E00 in
  MkGate (lowWord handler) KERNEL_CS flags (highWord handler).

(** [idt[vector] = ...] *)
Definition set_gate (vector : Z) (g : Gate) : K unit := λ s,
  if (0 <=? vector) && (vector <? IDT_ENTRIES)
  then Ret tt (with_idt (<[Z.to_nat vector := g]> (k_idt s)) s)
  else Fault (OutOfBounds vector).

Definition setInterruptHandler (vector handler maxAccessibleFromPL : Z) : K unit :=
  set_gate vector (int_gate handler maxAccessibleFromPL).

Definition setTrapHandler (vector handler maxAccessibleFromPL : Z) : K unit :=
  set_gate vector (int_gate handler maxAccessibleFromPL).

(** [lidt], [lgdt], [ltr] *)
Definition set_idt_reg (r : Register) : K unit :=
  modify (λ s, with_hw (MkHw (gdtr (k_hw s)) r (tr (k_hw s)) (ldtr (k_hw s)) (pic_mask (k_hw s)) (pic_cmds (k_hw s))) s).
Definition set_gdt_reg (r : Register) : K unit :=
  modify (λ s, with_hw (MkHw r (idtr (k_hw s)) (tr (k_hw s)) (ldtr (k_hw s)) (pic_mask (k_hw s)) (pic_cmds (k_hw s))) s).
Definition set_task_reg (sel : Z) : K unit :=
  modify (λ s, with_hw (MkHw (gdtr (k_hw s)) (idtr (k_hw s)) sel (ldtr (k_hw s)) (pic_mask (k_hw s)) (pic_cmds (k_hw s))) s).
Definition set_ldt_reg (sel : Z) : K unit :=
  modify (λ s, with_hw (MkHw (gdtr (k_hw s)) (idtr (k_hw s)) (tr (k_hw s)) sel (pic_mask (k_hw s)) (pic_cmds (k_hw s))) s).

(** Addresses of handlers and of the table, which the linker chooses, and the
    library's set_handlers. *)
Record idt_env : Type := {
  addr_idt : Z;
  addr_keyboard_handler : Z;
  addr_clock_handler : Z;
  addr_segmentation_fault_handler : Z;
  addr_system_call_handler : Z;
  set_handlers : K unit;
}.

Definition setIdt (E : idt_env) : K unit :=
  modify (λ s, with_idtR (MkRegister (IDT_ENTRIES * 8 - 1) (addr_idt E)) s) ;!
  set_handlers E ;!
  setInterruptHandler 33 (addr_keyboard_handler E) 0 ;!
  setInterruptHandler 32 (addr_clock_handler E) 0 ;!
  setInterruptHandler 0x0E (addr_segmentation_fault_handler E) 0 ;!
  setTrapHandler 0x80 (addr_system_call_handler E) 3 ;!
  let! r := gets k_idtR in
  set_idt_reg r.

(** Where the processor goes through a gate, and from which privilege level
    an [int] instruction may use it. *)
Definition gate_target (g : Gate) : Z := lowOffset g + 2 ^ 16 * highOffset g.
Definition gate_dpl (g : Gate) : Z := Z.land (Z.shiftr (gate_flags g) 13) 3.
Definition gate_present (g : Gate) : bool := Z.testbit (gate_flags g) 15.

Lemma gate_roundtrip handler : 0 ≤ handler < 2 ^ 32 → ∀ pl, gate_target (int_gate handler pl) = handler.
Proof.
  intros Hh pl. unfold gate_target, int_gate, lowWord, highWord, u16. cbn [lowOffset highOffset].
  change 0xFFFF with (Z.ones 16). rewrite !Z.land_ones, !Z.mod_mod, Z.shiftr_div_pow2 by lia.
  Z.div_mod_to_equations. lia.
Qed.

Lemma gate_flags_spec handler pl : pl = 0 ∨ pl = 3 →
  gate_dpl (int_gate handler pl) = pl ∧ gate_present (int_gate handler pl) = true ∧
  segmentSelector (int_gate handler pl) = KERNEL_CS.
Proof. by intros [-> | ->]. Qed.

(** The table after setIdt, from what the library's handlers left. *)
Definition zeos_gates (E : idt_env) (t : list Gate) : list Gate :=
  <[128%nat := int_gate (addr_system_call_handler E) 3]> (
  <[14%nat := int_gate (addr_segmentation_fault_handler E) 0]> (
  <[32%nat := int_gate (addr_clock_handler E) 0]> (
  <[33%nat := int_gate (addr_keyboard_handler E) 0]> t))).

Lemma wp_set_gate vector g s R :
  0 ≤ vector < IDT_ENTRIES → R tt (with_idt (<[Z.to_nat vector := g]> (k_idt s)) s) → wp (set_gate vector g) s R.
Proof.
  intros Hv HR. unfold wp, set_gate. destruct (Z.leb_spec 0 vector), (Z.ltb_spec vector IDT_ENTRIES); (done || lia).
Qed.

Lemma wp_setIdt E s R :
  wp (set_handlers E) (with_idtR (MkRegister 2047 (addr_idt E)) s)
    (λ _ s', k_idtR s' = MkRegister 2047 (addr_idt E) ∧
       R tt (with_hw (MkHw (gdtr (k_hw s')) (MkRegister 2047 (addr_idt E)) (tr (k_hw s')) (ldtr (k_hw s')) (pic_mask (k_hw s')) (pic_cmds (k_hw s')))
              (with_idt (zeos_gates E (k_idt s')) s'))) →
  wp (setIdt E) s R.
Proof.
  intros Hw. unfold setIdt. apply wp_bind, wp_modify, wp_bind. eapply wp_mono; [exact Hw|].
  intros [] s' [Er HR]. unfold setInterruptHandler, setTrapHandler.
  do 4 (apply wp_bind, wp_set_gate; [done|]). apply wp_bind, wp_gets, wp_modify.
  kred. rewrite Er. exact HR.
Qed.

(** C27. The interrupt table.  After setIdt the processor's table register
    covers the 256 gates, and the gates of the page fault, the clock, the
    keyboard and the system calls lead, through the kernel's code segment, to
    the handlers given for them; only the system call gate is open to user
    mode, so no program can raise the others with an [int] instruction. *)
Theorem setIdt_installs_handlers E s :
  length (k_idt s) = 256%nat →
  (∀ s0, length (k_idt s0) = 256%nat → wp (set_handlers E) s0 (λ _ s1, length (k_idt s1) = 256%nat ∧ k_idtR s1 = k_idtR s0)) →
  (∀ a, a ∈ [addr_keyboard_handler E; addr_clock_handler E; addr_segmentation_fault_handler E;
      addr_system_call_handler E] → 0 ≤ a < 2 ^ 32) →
  ∃ s', setIdt E s = Ret tt s' ∧ idtr (k_hw s') = MkRegister 2047 (addr_idt E) ∧ length (k_idt s') = 256%nat ∧
    ∀ n h pl, (n, h, pl) ∈ [(14%nat, addr_segmentation_fault_handler E, 0); (32%nat, addr_clock_handler E, 0);
        (33%nat, addr_keyboard_handler E, 0); (128%nat, addr_system_call_handler E, 3)] →
      ∃ g, k_idt s' !! n = Some g ∧ gate_target g = h ∧ gate_dpl g = pl ∧ gate_present g = true ∧
           segmentSelector g = KERNEL_CS.
Proof.
  intros Hl Hset Ha.
  destruct (wp_elim (setIdt E) s (λ _ s', idtr (k_hw s') = MkRegister 2047 (addr_idt E) ∧
    ∃ t, length t = 256%nat ∧ k_idt s' = zeos_gates E t)) as ([] & s' & Es & Hr & t & Ht & Hi).
  { apply wp_setIdt. eapply wp_mono; [by apply Hset|]. intros [] s1 [Hl1 Hr1]. split; [done|].
    kred. split; [done|]. by exists (k_idt s1). }
  exists s'. split; [done|]. split; [done|]. rewrite Hi. split; [unfold zeos_gates; by rewrite !length_insert|].
  assert (Hg : ∀ n h pl, k_idt s' !! n = Some (int_gate h pl) → 0 ≤ h < 2 ^ 32 → pl = 0 ∨ pl = 3 →
    ∃ g, k_idt s' !! n = Some g ∧ gate_target g = h ∧ gate_dpl g = pl ∧ gate_present g = true ∧
         segmentSelector g = KERNEL_CS).
  { intros n h pl Hn Hh Hpl. exists (int_gate h pl). split; [done|].
    split; [by apply gate_roundtrip|by apply gate_flags_spec]. }
  rewrite Hi in Hg. intros n h pl Hin. apply Hg.
  - unfold zeos_gates. set_unfold in Hin. destruct_or! Hin; simplify_eq;
      rewrite ?(list_lookup_insert_ne _ 128), ?(list_lookup_insert_ne _ 14), ?(list_lookup_insert_ne _ 32) by done;
      apply list_lookup_insert_eq; rewrite ?length_insert; lia.
  - apply Ha. set_unfold in Hin. destruct_or! Hin; simplify_eq; set_solver.
  - set_unfold in Hin. destruct_or! Hin; simplify_eq; tauto.
Qed.

(** ** The keyboard *)

Definition char_map : list Z :=
  [0; 0; 49; 50; 51; 52; 53; 54;
   55; 56; 57; 48; 39; 0xA1; 0; 0;
   113; 119; 101; 114; 116; 121; 117; 105;
   111; 112; 96; 43; 0; 0; 97; 115;
   100; 102; 103; 104; 106; 107; 108; 0xF1;
   0; 0xBA; 0; 0xE7; 122; 120; 99; 118;
   98; 110; 109; 44; 46; 45; 0; 42;
   0; 0; 0; 0; 0; 0; 0; 0;
   0; 0; 0; 0; 0; 0; 0; 55;
   56; 57; 45; 52; 53; 54; 43; 49;
   50; 51; 48; 0; 0; 0; 60; 0;
   0; 0; 0; 0; 0; 0; 0; 0;
   0; 0].

Definition sizeof_char_map : Z := Z.of_nat (length char_map).

Definition read_char_map (i : Z) : K Z := λ s,
  match char_map !! Z.to_nat i with
  | Some c => Ret c s
  | None => Fault (OutOfBounds i)
  end.

Section Services.
Context {L : Layout}.

(** What the input ports of the devices answer when they are read. *)
Definition inb (ports : Z → Z) (port : Z) : Z := u8 (ports port).

(** The three tests that follow compare the same character, so at most one of the switches is made; what is left
    of the function, keyboard_resume, then runs when the task is switched
    back to. *)
Definition keyboard_resume (c : Z) : K unit := modify (λ s, with_console (printc_xy 0 0 c (k_console s)) s).

Definition keyboard_service (ports : Z → Z) : K unit :=
  let b := inb ports 0x60 in
  if negb (b =? 0) && negb (Z.land b 0x80 =? 0) then
    let scancode := Z.land b 0x7F in
    let! c := (if scancode <? sizeof_char_map then read_char_map scancode else ret 67) in
    let! k := read_char_map scancode in
    if k =? 100 then call_task_switch addr_keyboard_ret (task_addr 0)
    else if k =? 110 then call_task_switch addr_keyboard_ret (task_addr 1)
    else if k =? 99 then call_task_switch addr_keyboard_ret (task_addr 2)
    else keyboard_resume c
  else ret tt.

(** Only the release of a key does anything.  A released key of the table that
    is none of d, n and c shows its character; the release of a key past the
    table's 98 entries shows nothing: the character is replaced by 'C', but
    the table is read past its end all the same. *)
Lemma keyboard_service_cases ports s :
  let b := inb ports 0x60 in
  (b < 0x80 → keyboard_service ports s = Ret tt s) ∧
  (∀ c, 0x80 ≤ b → char_map !! Z.to_nat (b - 0x80) = Some c → c ∉ [100; 110; 99] → keyboard_service ports s = keyboard_resume c s) ∧
  (0x80 + 98 ≤ b → keyboard_service ports s = Fault (OutOfBounds (b - 0x80))).
Proof.
  intros b. assert (Hb : 0 ≤ b < 2 ^ 8) by (apply Z.mod_pos_bound; lia).
  assert (Hand : ∀ x, 0 ≤ x < 0x80 → Z.land (0x80 + x) 0x80 = 0x80 ∧ Z.land (0x80 + x) 0x7F = x).
  { intros x Hx. change 0x7F with (Z.ones 7). rewrite (Z.land_ones _ 7) by lia. split.
    - replace (0x80 + x) with (Z.lor 0x80 x).
      + apply Z.bits_inj'. intros n Hn. rewrite Z.land_spec, Z.lor_spec. change 0x80 with (2 ^ 7).
        rewrite Z.pow2_bits_eqb by lia. by destruct (Z.eqb_spec 7 n) as [<-|]; rewrite ?andb_true_r, ?andb_false_r.
      + rewrite <- Z.add_nocarry_lor; [done|]. change 0x80 with (2 ^ 7). apply Z.bits_inj'. intros n Hn.
        rewrite Z.land_spec, Z.pow2_bits_eqb, Z.bits_0 by lia. destruct (Z.eqb_spec 7 n) as [<-|]; [|done].
        cbn [andb]. destruct (decide (x = 0)) as [->|]; [done|]. apply Z.bits_above_log2; [lia|]. apply Z.log2_lt_pow2; lia.
    - change (2 ^ 7) with 0x80. rewrite <- Z.add_mod_idemp_l by lia. change (0x80 mod 0x80) with 0.
      apply Z.mod_small. lia. }
  unfold keyboard_service. fold b. cbv zeta. clearbody b. split_and!.
  - intros Hlt. assert (Z.land b 0x80 = 0) as ->; [|by rewrite andb_false_r].
    change 0x80 with (2 ^ 7). apply Z.bits_inj'. intros n Hn. rewrite Z.land_spec, Z.pow2_bits_eqb, Z.bits_0 by lia.
    destruct (Z.eqb_spec 7 n) as [<-|]; [|by rewrite andb_false_r]. rewrite andb_true_r.
    destruct (decide (b = 0)) as [->|]; [done|]. apply Z.bits_above_log2; [lia|]. apply Z.log2_lt_pow2; lia.
  - intros c Hr Hc Hn. destruct (Hand (b - 0x80)) as [E1 E2]; [lia|]. replace (0x80 + (b - 0x80)) with b in E1, E2 by lia.
    assert (Hlt : (Z.to_nat (b - 0x80) < 98)%nat) by (apply lookup_lt_Some in Hc; exact Hc).
    rewrite !not_elem_of_cons in Hn. destruct Hn as (Hd & Hnn & Hcc & _).
    destruct (Z.eqb_spec b 0); [lia|]. rewrite E1, E2. cbn [negb andb Z.eqb]. change sizeof_char_map with 98.
    destruct (Z.ltb_spec (b - 0x80) 98); [|lia]. unfold read_char_map, bind. rewrite Hc.
    by destruct (Z.eqb_spec c 100), (Z.eqb_spec c 110), (Z.eqb_spec c 99).
  - intros Hr. destruct (Hand (b - 0x80)) as [E1 E2]; [lia|]. replace (0x80 + (b - 0x80)) with b in E1, E2 by lia.
    destruct (Z.eqb_spec b 0); [lia|]. rewrite E1, E2. cbn [negb andb Z.eqb]. change sizeof_char_map with 98.
    destruct (Z.ltb_spec (b - 0x80) 98); [lia|]. unfold read_char_map, bind, ret.
    rewrite lookup_ge_None_2; [done|]. change (length char_map) with 98%nat. lia.
Qed.

(** ** The clock *)

(** The library's zeos_show_clock draws the number of ticks. *)
Definition clock_service (zeos_show_clock : Z → M console unit) : K unit :=
  modify (λ s, with_zeos_ticks (s32 (k_zeos_ticks s + 1)) s) ;!
  let! t := gets k_zeos_ticks in
  on_console (zeos_show_clock t) ;!
  scheduler.

Context {LO : LayoutOk L}.

Lemma kernel_inv_ticks σ code data s t k :
  kernel_inv σ code data s → cursor_ok k → kernel_inv σ code data (with_console k (with_zeos_ticks t s)).
Proof. intros [[[] ?] ? ? []] Hk. split; [split; [by split|done]|done|done|by split]. Qed.

(** A clock interrupt counts one tick, shows the clock and gives the scheduler
    its tick.  The drawing routine may change the screen at will, as long as
    the cursor stays on it. *)
Lemma clock_service_cases zeos_show_clock σ code data s R :
  let q := tick_quantum σ (k_quantum_ticks s) (quantum_of (k_mem s) (p_run σ)) in
  (∀ t k, cursor_ok k → wp (zeos_show_clock t) k (λ _ k', cursor_ok k')) →
  kernel_inv σ code data s → cpu_ok (p_run σ) s →
  (0 ≤ q → ∀ k, let s' := with_quantum_ticks q (with_console k (with_zeos_ticks (s32 (k_zeos_ticks s + 1)) s)) in
     kernel_inv σ code data s' → R tt s') →
  (q < 0 → ∀ s', kernel_inv (rotate σ) code data s' → switched (with_zeos_ticks (s32 (k_zeos_ticks s + 1)) s) s' (p_run σ) (p_run (rotate σ)) →
     p_run (rotate σ) ≠ p_run σ → k_quantum_ticks s' = q → R tt s') →
  wp_or (BufferOverflow 3) (tick_fits σ s) (clock_service zeos_show_clock) s R.
Proof.
  intros q Hclk Hinv [Hroom Hregs] HR1 HR2. pose proof (ki_sched _ _ _ _ Hinv) as [Hco _].
  unfold clock_service. apply wp_or_bind, wp_modify, wp_or_bind, wp_gets, wp_or_bind, wp_on_console. kred.
  eapply wp_mono; [apply Hclk, Hco|]. intros [] k Hk.
  pose proof (kernel_inv_ticks _ _ _ _ (s32 (k_zeos_ticks s + 1)) k Hinv Hk) as Hinv1.
  change (tick_fits σ s) with (tick_fits σ (with_console k (with_zeos_ticks (s32 (k_zeos_ticks s + 1)) s))).
  apply (scheduler_kernel_cases σ code data); [exact Hinv1|by split|..]; kred; fold q.
  - intros Hq Hinv2. by apply (HR1 Hq k).
  - intros Hq s' Hinv2 Hsw Hne Hqt. apply HR2; try done. by eapply switched_pre; [exact Hsw|..].
Qed.

Lemma wp_clock_service zeos_show_clock σ code data s R :
  let q := tick_quantum σ (k_quantum_ticks s) (quantum_of (k_mem s) (p_run σ)) in
  (∀ t k, cursor_ok k → wp (zeos_show_clock t) k (λ _ k', cursor_ok k')) →
  kernel_inv σ code data s → cpu_ok (p_run σ) s → tick_fits σ s = true →
  (0 ≤ q → ∀ k, let s' := with_quantum_ticks q (with_console k (with_zeos_ticks (s32 (k_zeos_ticks s + 1)) s)) in
     kernel_inv σ code data s' → R tt s') →
  (q < 0 → ∀ s', kernel_inv (rotate σ) code data s' → switched (with_zeos_ticks (s32 (k_zeos_ticks s + 1)) s) s' (p_run σ) (p_run (rotate σ)) →
     p_run (rotate σ) ≠ p_run σ → k_quantum_ticks s' = q → R tt s') →
  wp (clock_service zeos_show_clock) s R.
Proof.
  intros q Hclk Hinv Hcpu Hfit H1 H2.
  by apply (wp_or_elim _ _ _ _ _ (clock_service_cases zeos_show_clock σ code data s R Hclk Hinv Hcpu H1 H2)).
Qed.
End Services.

(** ** The page fault *)

Definition chars (s : string) : list Z := removelast (literal s).

(** What kind of access it was, and the error code. *)
Definition fault_header (err : Z) : K unit :=
  on_console (printk (10 :: literal "Process generates a ")) ;!
  (if Z.testbit err 2 then on_console (printk (literal "user "))
   else on_console (printk (literal "system "))) ;!
  (if Z.testbit err 4 then on_console (printk (literal "instruction fetch "))
   else if Z.testbit err 1 then on_console (printk (literal "write "))
   else on_console (printk (literal "read "))) ;!
  on_console (printk (literal "(")) ;!
  let! buff := local_buf 8 (itoa (s32 err)) in
  on_console (printk buff) ;!
  on_console (printk (literal ") ")) ;!
  on_console (printk (chars "PAGE FAULT exception" ++ 10 :: literal "EIP: 0x")).

(** An address in hexadecimal, through [char buff[8]]. *)
Definition fault_hex (v : Z) : K unit :=
  let! buff := local_buf 8 (itoa_hex (s32 v)) in
  on_console (printk buff).

(** Everything up to [while (1)], which never ends: the kernel stops here.
    [cr2] is the faulting address. *)
Definition segmentation_fault_service (cr2 eip err : Z) : K unit :=
  fault_header err ;!
  fault_hex eip ;!
  on_console (printk (literal "   fault address: 0x")) ;!
  fault_hex cr2.
