(* ===== verification/System.v ===== *)
(** system.c, and the parts of mm.c and hardware.c it calls: from the loaded
    image to the first instruction of the user program. *)

From Stdlib Require Import Ascii.
From stdpp Require Import strings.
From S2P Require Import Prelude Memory CList Libc Console Frames Types Kernel Task Paging Utils Switch.
From S2P Require Import Sched Policy Space Process Init Sys Write Entry Calls Interrupt.
#[local] Open Scope Z_scope.

(** ** hardware.c *)

(** [pushl $0; popfl]: bit 1 always reads as one. *)
Definition set_eflags : K unit := upd_regs (w_eflags 2).

Definition get_eflags : K Z := get_reg eflags.

(** [jmp a; a:] *)
Definition delay : K unit := ret tt.

(** [movb $0xfc, %al; outb %al, $0x21; call delay; sti]: clock and keyboard. *)
Definition enable_int : K unit :=
  out_al 0xfc 0x21 ;!
  delay ;!
  upd_regs (λ r, w_eflags (Z.lor (eflags r) IF_FLAG) r).

(** [lret] to a less privileged level: the processor clears the data segment
    registers the new level may not use. *)
Definition drop_sel (sel : Z) : Z := if ring sel =? 3 then sel else 0.

Definition lret_user : K unit :=
  pop_reg w_eip ;!
  pop_reg (λ v, w_cs (u16 v)) ;!
  let! e := pop in
  let! s := pop in
  upd_regs (w_esp e) ;!
  upd_regs (w_ss (u16 s)) ;!
  upd_regs (λ r, w_gs (drop_sel (gs r)) (w_fs (drop_sel (fs r)) (w_es (drop_sel (es r)) (w_ds (drop_sel (ds r)) r)))).

Definition p_sys_size : Z := KERNEL_START.
Definition p_usr_size : Z := KERNEL_START + 4.
Definition p_rdtr : Z := KERNEL_START + 8.

(** The parameters [ds0 ... eip0] of return_gate. *)
Definition return_gate (ds0 ss0 esp0 cs0 eip0 : Z) : K unit :=
  let! d := on_mem (kload32 p_rdtr) in
  upd_regs (w_edx d) ;!
  upd_regs (w_es ds0) ;!
  upd_regs (w_ds ds0) ;!
  upd_regs (w_eax (u32 (esp0 + 12))) ;!
  vstore32 (u32 (esp0 + 12)) d ;!
  push ss0 ;!
  push esp0 ;!
  push cs0 ;!
  push eip0 ;!
  lret_user.

(** ** mm.c: the segment table and the task state segment *)

Definition setGdt (addr_tss : Z) : K unit := λ s,
  match k_gdt s !! Z.to_nat (Z.shiftr KERNEL_TSS 3) with
  | None => Fault (OutOfBounds (Z.shiftr KERNEL_TSS 3))
  | Some d =>
      let d' := MkDescriptor (limit d) (lowWord addr_tss) (midByte addr_tss) (flags1 d) (flags2 d)
                  (highByte addr_tss) in
      let r := MkRegister (256 * 8) GDT_START in
      set_gdt_reg r (with_gdtR r (with_gdt (<[Z.to_nat (Z.shiftr KERNEL_TSS 3) := d']> (k_gdt s)) s))
  end.

Section System.
Context {L : Layout}.

(** [KERNEL_ESP(&task[1])] *)
Definition INITIAL_ESP : Z := stack_addr (task_addr 1) KERNEL_STACK_SIZE.

Definition initial_tss : TSS :=
  MkTSS NULL INITIAL_ESP KERNEL_DS NULL NULL NULL NULL
    NULL 0 INITIAL_EFLAGS
    NULL NULL NULL NULL
    USER_ESP USER_ESP NULL NULL
    USER_DS USER_CS USER_DS USER_DS NULL NULL
    KERNEL_TSS 0 NULL.

Definition setTSS : K unit :=
  modify (with_tss initial_tss) ;!
  set_task_reg KERNEL_TSS.

(** ** system.c *)

Definition set_seg_regs (data_sel stack_sel esp0 : Z) : K unit :=
  let esp1 := u32 (esp0 - 5 * 4) in
  upd_regs (λ r, w_eflags (Z.ldiff (eflags r) 0x400) r) ;!
  upd_regs (w_ds data_sel) ;!
  upd_regs (w_es data_sel) ;!
  upd_regs (w_fs data_sel) ;!
  upd_regs (w_gs data_sel) ;!
  upd_regs (w_ss stack_sel) ;!
  upd_regs (w_esp esp1).

Definition usr_main : Z := PAG_LOG_INIT_CODE * PAGE_SIZE.

Definition main (E : idt_env) (addr_tss : Z) : K unit :=
  set_eflags ;!
  set_seg_regs KERNEL_DS KERNEL_DS (task_addr 4) ;!
  on_console (printk (literal "Kernel Loaded!    ")) ;!
  setGdt addr_tss ;!
  setIdt E ;!
  setTSS ;!
  init_kernel ;!
  let! sys_size := on_mem (kload32 p_sys_size) in
  let! usr_size := on_mem (kload32 p_usr_size) in
  copy_data (u32 (KERNEL_START + sys_size)) L_USER_START (s32 usr_size) ;!
  on_console (printk (literal "Entering user mode...")) ;!
  enable_int ;!
  return_gate USER_DS USER_DS USER_ESP USER_CS usr_main.

Context {LO : LayoutOk L}.

(** ** What the loader provides *)

(** The image in memory: zeroed task array and directories, C's initial values, the sizes of
    the two programs in the first words, and the user's program after the
    kernel's, apart from everything the initialisation writes. *)
Definition sys_size_of (s : kstate) : Z := load32 (k_mem s) p_sys_size.
Definition usr_size_of (s : kstate) : Z := load32 (k_mem s) p_usr_size.

Record image_ok (s : kstate) : Prop := {
  io_pm : pm_ok (k_phys_mem s);
  io_zero : zero_image (k_mem s);
  io_console : cursor_ok (k_console s);
  io_pid : k_last_pid s = 1;
  io_gdt : (6 < length (k_gdt s))%nat;
  io_regs : ∀ r, r ∈ [ebx; ecx; esi; edi; ebp] → 0 ≤ r (k_regs s) < 2 ^ 32;
  io_fits : KERNEL_START + sys_size_of s + usr_size_of s ≤ KERNEL_HI;
  io_user : usr_size_of s ≤ USER_PAGES * PAGE_SIZE;
  io_apart : ∀ a, in_range p_sys_size 12 a ∨ in_range (KERNEL_START + sys_size_of s) (usr_size_of s) a →
    ¬ boot_writes a;
}.

Context (E : idt_env) (addr_tss : Z).
Context (Hhandlers : ∀ s, wp (set_handlers E) s (λ _ s', ∃ t, s' = with_idt t s)).

(** The registers main runs with. *)
Definition main_regs (u : regs) : regs :=
  MkRegs (eax u) (ebx u) (ecx u) (edx u) (esi u) (edi u) (ebp u) (task_addr 4 - 20) (eip u)
    2 (cs u) KERNEL_DS KERNEL_DS KERNEL_DS KERNEL_DS KERNEL_DS.

Record hardware_set (s s' : kstate) : Prop := {
  hs_mem : k_mem s' = k_mem s;
  hs_regs : k_regs s' = main_regs (k_regs s);
  hs_tss : k_tss s' = initial_tss;
  hs_pm : k_phys_mem s' = k_phys_mem s;
  hs_pid : k_last_pid s' = k_last_pid s;
  hs_console : cursor_ok (k_console s');
  hs_idtr : idtr (k_hw s') = MkRegister 2047 (addr_idt E);
  hs_tr : tr (k_hw s') = KERNEL_TSS;
}.

Lemma wp_hardware (rest : K unit) s R :
  image_ok s → (∀ s', hardware_set s s' → wp rest s' R) →
  wp (set_eflags ;!
      set_seg_regs KERNEL_DS KERNEL_DS (task_addr 4) ;!
      on_console (printk (literal "Kernel Loaded!    ")) ;!
      setGdt addr_tss ;! setIdt E ;! setTSS ;! rest) s R.
Proof.
  intros Hs HR. pose proof task_window as Hw. pose proof (io_gdt _ Hs) as Hg. pose proof (io_console _ Hs) as Hc.
  assert (He : u32 (task_addr 4 - 5 * 4) = task_addr 4 - 20).
  { apply u32_small. unfold task_addr, sizeof_task_union, KERNEL_STACK_SIZE, KERNEL_START, KERNEL_HI, NR_TASKS, PAGE_SIZE in *. lia. }
  destruct s as [m [ax bx cx dx si di bp sp ip fl c0 s0 d0 e0 f0 g0]
    cr3 cr0 [gr ir trr pic] gdt gdtR idt idtR ts pm idle qt lp zt con]. kred_all.
  apply wp_bind, wp_modify. kflat. unfold set_seg_regs. cbv zeta. rewrite He.
  apply wp_bind. do 6 (apply wp_bind, wp_modify; kflat). apply wp_modify. kflat.
  apply wp_bind, wp_print; [done|apply literal_nul|]. intros k Hk. kflat.
  apply wp_bind. unfold setGdt. destruct (lookup_lt_is_Some_2 gdt 6 Hg) as [d Hd].
  unfold wp at 1. kflat. change (Z.to_nat (Z.shiftr KERNEL_TSS 3)) with 6%nat. rewrite Hd. kflat.
  apply wp_bind, wp_setIdt. eapply wp_mono; [apply Hhandlers|]. intros [] s' (t & ->). split; [done|]. kflat.
  apply wp_bind, wp_bind, wp_modify. kflat. apply wp_modify. kflat. apply HR. by split.
Qed.

(** ** The last step: return_gate *)

(** The registers the user program starts with. *)
Definition first_regs (u : regs) (d : Z) : regs :=
  MkRegs (USER_ESP + 12) (ebx u) (ecx u) d (esi u) (edi u) (ebp u) USER_ESP usr_main
    (eflags u) USER_CS USER_DS USER_DS USER_DS 0 0.

Lemma wp_vstore32 va v (pa : Z → Z) s R :
  (∀ m i, frame (λ a, KERNEL_HI ≤ a) (k_mem s) m → 0 ≤ i < 4 → translate m (k_cr3 s) (u32 (va + i)) = Some (pa i)) →
  (∀ i, 0 ≤ i < 4 → KERNEL_HI ≤ pa i) →
  (∀ m, frame (λ a, ∃ i, 0 ≤ i < 4 ∧ a = pa i) (k_mem s) m → R tt (with_mem m s)) →
  wp (vstore32 va v) s R.
Proof.
  intros Ht Hpa HR. unfold vstore32.
  assert (Hst : ∀ m i w R', 0 ≤ i < 4 → frame (λ a, ∃ i, 0 ≤ i < 4 ∧ a = pa i) (k_mem s) m →
    (∀ m', frame (λ a, ∃ i, 0 ≤ i < 4 ∧ a = pa i) (k_mem s) m' → R' tt (with_mem m' s)) →
    wp (vstore8 (va + i) w) (with_mem m s) R').
  { intros m i w R' Hi Hf HR'. unfold wp, vstore8. kred. rewrite (Ht m i); [|eapply frame_weaken; [|exact Hf]|done].
    - rewrite with_mem_mem. apply HR'. eapply frame_trans; [exact Hf|]. apply frame_store8. eauto.
    - intros a (k & Hk & ->). auto. }
  rewrite <- (with_mem_same s). rewrite <- (Z.add_0_r va) at 1.
  apply wp_bind, Hst; [lia|apply frame_refl|]. intros m1 F1. apply wp_bind, Hst; [lia|done|]. intros m2 F2.
  apply wp_bind, Hst; [lia|done|]. intros m3 F3. apply Hst; [lia|done|]. intros m4 F4. by apply HR.
Qed.

(** The page directory in use translates a user address as in [m], whatever
    is written above the kernel. *)
Lemma translate_high_frame σ code data s m i va :
  mm_inv σ code data s → valid_task i → frame (λ a, KERNEL_HI ≤ a) (k_mem s) m →
  0 ≤ va < TOTAL_PAGES * PAGE_SIZE → translate m (dir_addr i) va = translate (k_mem s) (dir_addr i) va.
Proof.
  intros Hmm Hi Hf Hva. eapply translate_frame; [done|by apply (mi_space _ _ _ _ Hmm)|exact Hf| |done].
  intros a Ha. cbn beta in Ha. pose proof pt_window. pose proof dir_window. unfold tables_bytes, dirs_bytes, in_range. lia.
Qed.

Definition gate_writes (s : kstate) (a : Z) : Prop :=
  (∃ i, 0 ≤ i < 4 ∧ translate (k_mem s) (dir_addr 1) (USER_ESP + 12 + i) = Some a) ∨
  in_range (task_addr 4 - 36) 16 a.

(** The four words pushed are the frame of the far return: the processor
    leaves the kernel for them. *)
Lemma wp_enter_user s R :
  esp (k_regs s) = task_addr 4 - 20 →
  (∀ m', frame (in_range (task_addr 4 - 36) 16) (k_mem s) m' →
     let u := k_regs s in
     R tt (with_mem m' (with_regs (MkRegs (eax u) (ebx u) (ecx u) (edx u) (esi u) (edi u) (ebp u) USER_ESP usr_main
       (eflags u) USER_CS USER_DS (drop_sel (ds u)) (drop_sel (es u)) (drop_sel (fs u)) (drop_sel (gs u))) s))) →
  wp (push USER_DS ;! push USER_ESP ;! push USER_CS ;! push usr_main ;! lret_user) s R.
Proof.
  intros He HR. pose proof (task_addr_window 4 ltac:(done)) as Hw.
  unfold KERNEL_START, PAGE_SIZE in *.
  destruct s as [m [ax bx cx dx si di bp sp ip fl c0 s0 d0 e0 f0 g0]
    cr3 cr0 hw gdt gdtR idt idtR ts pm idle qt lp zt con]. kred_all. subst sp.
  assert (Hb : KERNEL_LO ≤ task_addr 4 - 36 ∧ task_addr 4 ≤ KERNEL_HI) by (unfold KERNEL_LO; lia). destruct Hb as [Hb1 Hb2].
  apply wp_bind, (wp_push_stacked (task_addr 4 - 20) []); kflat; [cbn; lia|apply stacked_nil|done|cbn; lia|lia|].
  intros m2 S2 F2. cbn [app] in *.
  apply wp_bind, (wp_push_stacked (task_addr 4 - 20) [USER_DS]); kflat; [done|done|done|cbn; lia|lia|].
  intros m3 S3 F3. cbn [app] in *.
  apply wp_bind, (wp_push_stacked (task_addr 4 - 20) [USER_DS; USER_ESP]); kflat; [done|done|done|cbn; lia|lia|].
  intros m4 S4 F4. cbn [app] in *.
  apply wp_bind, (wp_push_stacked (task_addr 4 - 20) [USER_DS; USER_ESP; USER_CS]); kflat; [done|done|done|cbn; lia|lia|].
  intros m5 S5 F5. cbn [app] in *. unfold lret_user.
  apply wp_bind, (wp_pop_stacked (task_addr 4 - 20) [USER_DS; USER_ESP; USER_CS] usr_main); kflat; [done|done|cbn; lia|lia|].
  apply wp_bind, (wp_pop_stacked (task_addr 4 - 20) [USER_DS; USER_ESP] USER_CS); kflat;
    [done|exact (stacked_app m5 _ [USER_DS; USER_ESP; USER_CS] [usr_main] S5)|cbn; lia|lia|].
  assert (L1 : load32 m5 (task_addr 4 - 20 - 4 * Z.of_nat (length [USER_DS; USER_ESP])) = USER_ESP) by (by apply (S5 1%nat)).
  assert (L2 : load32 m5 (task_addr 4 - 20 - 4) = USER_DS) by (by apply (S5 0%nat)).
  apply wp_bind, wp_pop; kflat; [cbn; lia|cbn; lia|]. rewrite L1.
  apply wp_bind, wp_pop; kflat; [cbn; lia|cbn; lia|].
  replace (task_addr 4 - 20 - 4 * Z.of_nat (length [USER_DS; USER_ESP]) + 4) with (task_addr 4 - 20 - 4) by (cbn; lia).
  rewrite L2. apply wp_bind, wp_modify. kflat. apply wp_bind, wp_modify. kflat. apply wp_modify. kflat.
  apply HR. clear HR.
  assert (Hfr : ∀ a n, task_addr 4 - 36 ≤ a → a + n ≤ task_addr 4 - 20 → ∀ b, in_range a n b →
    in_range (task_addr 4 - 36) 16 b) by (unfold in_range; lia).
  eapply frame_trans; [eapply frame_weaken; [|exact F2]; apply Hfr; cbn; lia|].
  eapply frame_trans; [eapply frame_weaken; [|exact F3]; apply Hfr; cbn; lia|].
  eapply frame_trans; [eapply frame_weaken; [|exact F4]; apply Hfr; cbn; lia|].
  eapply frame_weaken; [|exact F5]. apply Hfr; cbn; lia.
Qed.

Lemma wp_return_gate σ code data dat s R :
  kernel_inv σ code data s → data !! 1 = Some dat → k_cr3 s = dir_addr 1 →
  esp (k_regs s) = task_addr 4 - 20 → fs (k_regs s) = KERNEL_DS → gs (k_regs s) = KERNEL_DS →
  (∀ m', frame (gate_writes s) (k_mem s) m' →
     R tt (with_mem m' (with_regs (first_regs (k_regs s) (load32 (k_mem s) p_rdtr)) s))) →
  wp (return_gate USER_DS USER_DS USER_ESP USER_CS usr_main) s R.
Proof.
  intros Hinv Hdat Hcr3 He Hfs Hgs HR. pose proof (ki_mm _ _ _ _ Hinv) as Hmm.
  pose proof (task_addr_window 4 ltac:(done)) as Hw.
  assert (Hpa : ∀ i, 0 ≤ i < 4 → ∃ pa, translate (k_mem s) (dir_addr 1) (USER_ESP + 12 + i) = Some pa ∧ KERNEL_HI ≤ pa).
  { intros i Hi. destruct (user_address _ _ _ _ _ _ (USER_ESP + 12 + i) Hmm Hdat) as (pa & E1 & _ & Hh); [|by exists pa].
    unfold USER_ESP, L_USER_START, USER_PAGES, NUM_PAG_DATA, NUM_PAG_CODE, PAGE_SIZE. lia. }
  set (pa := λ i, default 0 (translate (k_mem s) (dir_addr 1) (USER_ESP + 12 + i))).
  assert (Hpa' : ∀ i, 0 ≤ i < 4 → translate (k_mem s) (dir_addr 1) (USER_ESP + 12 + i) = Some (pa i) ∧ KERNEL_HI ≤ pa i).
  { intros i Hi. destruct (Hpa i Hi) as (p & E1 & Hh). unfold pa. by rewrite E1. }
  unfold return_gate, KERNEL_START, PAGE_SIZE in *.
  apply wp_bind, wp_on_mem, wp_kload32; [done..|]. set (d := load32 (k_mem s) p_rdtr).
  do 4 (apply wp_bind, wp_modify). apply wp_bind. change (u32 (USER_ESP + 12)) with (USER_ESP + 12).
  apply (wp_vstore32 _ _ pa); kred.
  { intros m i Hf Hi. rewrite Hcr3. rewrite u32_small by (unfold USER_ESP, L_USER_START, NUM_PAG_DATA; lia).
    rewrite (translate_high_frame _ _ _ _ m 1 _ Hmm); [by apply Hpa'|done|done|].
    unfold USER_ESP, L_USER_START, NUM_PAG_DATA, TOTAL_PAGES, PAGE_SIZE. lia. }
  { intros i Hi. by apply Hpa'. }
  intros m1 F1.
  assert (F1' : frame (gate_writes s) (k_mem s) m1).
  { eapply frame_weaken; [|exact F1]. intros a (i & Hi & ->). left. exists i. split; [done|]. by apply Hpa'. }
  apply wp_enter_user; kred; [done|]. intros m2 F2.
  specialize (HR m2). destruct s as [m [] ]. kred_all. subst.
  apply HR. eapply frame_trans; [exact F1'|]. eapply frame_weaken; [by right|exact F2].
Qed.

(** ** The user program's pages *)

(** The copy of the user program from the kernel's memory to its pages. *)
Lemma copy_ok_image σ code data dat s src n :
  kernel_inv σ code data s → data !! 1 = Some dat →
  KERNEL_LO ≤ src → src + n ≤ KERNEL_HI → 0 ≤ n ≤ USER_PAGES * PAGE_SIZE →
  copy_ok (dir_addr 1) src L_USER_START n (Z.add src)
    (λ i, default 0 (translate (k_mem s) (dir_addr 1) (L_USER_START + i))) (k_mem s).
Proof.
  intros Hinv Hdat Hlo Hhi Hn. pose proof (ki_mm _ _ _ _ Hinv) as Hmm.
  assert (Hv : valid_task 1) by done. pose proof (mi_space _ _ _ _ Hmm 1 Hv) as Hsp.
  assert (Hua : ∀ i, 0 ≤ i < n → ∃ pa, translate (k_mem s) (dir_addr 1) (L_USER_START + i) = Some pa ∧ KERNEL_HI ≤ pa).
  { intros i Hi. destruct (user_address _ _ _ _ _ _ (L_USER_START + i) Hmm Hdat) as (pa & E1 & _ & Hh); [lia|].
    by exists pa. }
  assert (Hhigh : ∀ a, dest_bytes n (λ i, default 0 (translate (k_mem s) (dir_addr 1) (L_USER_START + i))) a → KERNEL_HI ≤ a).
  { intros a (i & Hi & ->). destruct (Hua i Hi) as (pa & -> & Hh). done. }
  unfold L_USER_START, USER_PAGES, NUM_PAG_DATA, NUM_PAG_CODE, PAGE_SIZE, KERNEL_HI in Hn, Hhi.
  split.
  - intros m i Hf Hi. unfold KERNEL_LO in *. rewrite u32_small by lia. rewrite translate_kernel.
    + by rewrite decide_True by (unfold KERNEL_LO; lia).
    + done.
    + eapply space_ok_frame; [done|exact Hsp|exact Hf|]. intros a Ha%Hhigh. pose proof pt_window. pose proof dir_window.
      unfold tables_bytes, dirs_bytes, in_range. lia.
    + unfold KERNEL_HI. lia.
  - intros m i Hf Hi. rewrite u32_small by (unfold L_USER_START; lia).
    rewrite (translate_high_frame _ _ _ _ m 1 _ Hmm); [|done|by eapply frame_weaken|
      unfold L_USER_START, TOTAL_PAGES, PAGE_SIZE; lia].
    by destruct (Hua i Hi) as (pa & -> & _).
  - intros i j Hi Hj Eij. destruct (Hua i Hi) as (pa & E1 & _). destruct (Hua j Hj) as (pb & E2 & _).
    rewrite E1, E2 in Eij. cbn in Eij. subst pb.
    enough (L_USER_START + i = L_USER_START + j) by lia.
    eapply (user_inj _ _ _ _ _ _ _ _ pa Hmm Hdat); [| |done|done];
      unfold L_USER_START, USER_PAGES, NUM_PAG_DATA, NUM_PAG_CODE, PAGE_SIZE; lia.
  - intros i j Hi Hj Eij. destruct (Hua j Hj) as (pb & E2 & Hh). rewrite E2 in Eij. cbn in Eij.
    unfold KERNEL_HI in *. lia.
Qed.

(** The bytes of the user's program are the ones of the image: all but the
    last word of the data pages, where return_gate leaves the third word of
    the image. *)
Definition program_loaded (s s' : kstate) : Prop :=
  ∀ i, 0 ≤ i < usr_size_of s → i < NUM_PAG_DATA * PAGE_SIZE - 4 ∨ NUM_PAG_DATA * PAGE_SIZE ≤ i →
  ∃ pa, translate_user (k_mem s') (dir_addr 1) (L_USER_START + i) false = Some pa ∧
    load8 (k_mem s') pa = load8 (k_mem s) (KERNEL_START + sys_size_of s + i).

Lemma program_loaded_intro σ code dat s s2 s5 s6 :
  mm_inv σ code {[1 := dat]} s2 → mm_inv σ code {[1 := dat]} s5 → mm_inv σ code {[1 := dat]} s6 →
  frame (gate_writes s5) (k_mem s5) (k_mem s6) → usr_size_of s ≤ USER_PAGES * PAGE_SIZE →
  (∀ i, 0 ≤ i < usr_size_of s →
     load8 (k_mem s5) (default 0 (translate (k_mem s2) (dir_addr 1) (L_USER_START + i))) =
     load8 (k_mem s) (KERNEL_START + sys_size_of s + i)) →
  program_loaded s s6.
Proof.
  intros H2 H5 H6 Hf Hn Hc i Hi Hout. pose proof (lookup_singleton_eq (M := gmap Z) 1 dat) as Hd.
  assert (Hva : L_USER_START ≤ L_USER_START + i < L_USER_START + USER_PAGES * PAGE_SIZE) by lia.
  destruct (user_page _ _ _ _ _ _ _ H2 Hd Hva) as (f2 & L2 & _ & T2 & _).
  destruct (user_page _ _ _ _ _ _ _ H5 Hd Hva) as (f5 & L5 & _ & T5 & _).
  destruct (user_page _ _ _ _ _ _ _ H6 Hd Hva) as (f & L6 & Ha & _ & U6).
  rewrite L6 in L2, L5. injection L2 as <-. injection L5 as <-.
  eexists. split; [exact U6|]. rewrite <- Hc by done. rewrite T2. cbn [default from_option id]. apply Hf.
  assert (Hh : KERNEL_HI ≤ f * PAGE_SIZE + (L_USER_START + i) mod PAGE_SIZE).
  { destruct Ha as [[Ha _] _]. unfold NUM_PAG_KERNEL, KERNEL_HI, PAGE_SIZE in *. Z.div_mod_to_equations; lia. }
  intros [(k & Hk & Et)|Hs].
  - assert (L_USER_START + i = USER_ESP + 12 + k).
    { eapply (user_inj _ _ _ _ _ _ _ _ _ H5 Hd); [done| |exact T5|exact Et].
      unfold USER_ESP, L_USER_START, USER_PAGES, NUM_PAG_DATA, NUM_PAG_CODE, PAGE_SIZE. lia. }
    unfold USER_ESP, L_USER_START, NUM_PAG_DATA, PAGE_SIZE in *. lia.
  - pose proof (task_addr_window 4 ltac:(done)). unfold in_range, PAGE_SIZE in *. lia.
Qed.

(** The registers of the first user instruction. *)
Lemma first_regs_ok u d :
  (∀ r, r ∈ [ebx; ecx; esi; edi; ebp] → 0 ≤ r u < 2 ^ 32) → 0 ≤ eflags u < 2 ^ 32 → 0 ≤ d < 2 ^ 32 →
  user_ok (first_regs u d).
Proof.
  intros Hr He Hd. split; [|by repeat constructor|done].
  pose proof (Hr ebx ltac:(set_solver)). pose proof (Hr ecx ltac:(set_solver)). pose proof (Hr esi ltac:(set_solver)).
  pose proof (Hr edi ltac:(set_solver)). pose proof (Hr ebp ltac:(set_solver)).
  unfold first_regs. repeat constructor; cbn; try lia; done.
Qed.

(** return_gate leaves the invariant alone: it writes the last word of the
    user's data and its own stack. *)
Lemma gate_spares code dat s5 :
  kernel_inv (boot_table boot_kids) code {[1 := dat]} s5 → spares (boot_table boot_kids) (gate_writes s5).
Proof.
  intros Hinv5. apply spares_or; [apply spares_high|apply (spares_stack _ _ 3); [done|by right; apply elem_of_seqZ|]].
  - intros a (i & Hi & Et). destruct (user_address _ _ _ _ 1 dat (USER_ESP + 12 + i) (ki_mm _ _ _ _ Hinv5))
      as (pa & Ep & _ & Hh); [apply lookup_singleton_eq| |congruence].
    unfold USER_ESP, L_USER_START, USER_PAGES, NUM_PAG_DATA, NUM_PAG_CODE, PAGE_SIZE. lia.
  - intros a Ha. right. unfold in_range, task_addr, sizeof_task_union, KERNEL_STACK_SIZE, sizeof_task_struct, PAGE_SIZE in *. lia.
Qed.

Lemma gate_inv code dat s5 m6 :
  kernel_inv (boot_table boot_kids) code {[1 := dat]} s5 → frame (gate_writes s5) (k_mem s5) m6 →
  kernel_inv (boot_table boot_kids) code {[1 := dat]}
    (with_mem m6 (with_regs (first_regs (k_regs s5) (load32 (k_mem s5) p_rdtr)) s5)).
Proof.
  intros Hinv5 Hf6. eapply (kernel_inv_spares (gate_writes s5)); [exact Hinv5|exact Hf6|by eapply gate_spares|done..|apply Hinv5].
Qed.

(** The program of the image becomes the memory of the first process; the rest
    [k] of main runs on it. *)
Lemma wp_load_program s s2 code dat (k : K unit) R :
  image_ok s → kernel_inv (boot_table boot_kids) code {[1 := dat]} s2 → k_cr3 s2 = dir_addr 1 →
  frame boot_writes (k_mem s) (k_mem s2) →
  (∀ m3, frame (λ a, KERNEL_HI ≤ a) (k_mem s2) m3 →
     (∀ i, 0 ≤ i < usr_size_of s → load8 m3 (default 0 (translate (k_mem s2) (dir_addr 1) (L_USER_START + i))) =
                                    load8 (k_mem s) (KERNEL_START + sys_size_of s + i)) →
     wp k (with_mem m3 s2) R) →
  wp (let! sys_size := on_mem (kload32 p_sys_size) in
      let! usr_size := on_mem (kload32 p_usr_size) in
      copy_data (u32 (KERNEL_START + sys_size)) L_USER_START (s32 usr_size) ;! k) s2 R.
Proof.
  intros Hs Hinv Hcr3 Hf2 HR.
  assert (Hsame : ∀ a, in_range p_sys_size 12 a ∨ in_range (KERNEL_START + sys_size_of s) (usr_size_of s) a →
    load8 (k_mem s2) a = load8 (k_mem s) a) by (intros a Ha; apply Hf2; by apply (io_apart _ Hs)).
  assert (Hword : ∀ o, 0 ≤ o → o + 4 ≤ 12 → load32 (k_mem s2) (p_sys_size + o) = load32 (k_mem s) (p_sys_size + o)).
  { intros o H0 H1. apply load32_bytes. intros i Hi. apply Hsame. left. unfold in_range. lia. }
  pose proof (Hword 0 ltac:(lia) ltac:(lia)) as E0. pose proof (Hword 4 ltac:(lia) ltac:(lia)) as E1.
  change (p_sys_size + 0) with p_sys_size in E0. change (p_sys_size + 4) with p_usr_size in E1.
  apply wp_bind, wp_on_mem, wp_kload32; [done..|]. rewrite with_mem_same, E0.
  apply wp_bind, wp_on_mem, wp_kload32; [done..|]. rewrite with_mem_same, E1.
  fold (sys_size_of s) (usr_size_of s).
  pose proof (load32_range (k_mem s) p_sys_size) as R0. pose proof (load32_range (k_mem s) p_usr_size) as R1.
  fold (sys_size_of s) in R0. fold (usr_size_of s) in R1.
  pose proof (io_fits _ Hs) as Hfit. pose proof (io_user _ Hs) as Hus.
  assert (Hbnd : 0 ≤ KERNEL_START + sys_size_of s < 2 ^ 32 ∧ - 2 ^ 31 ≤ usr_size_of s < 2 ^ 31)
    by (unfold KERNEL_HI, KERNEL_START in *; lia).
  rewrite u32_small, s32_small by lia.
  assert (Hok : copy_ok (dir_addr 1) (KERNEL_START + sys_size_of s) L_USER_START (usr_size_of s)
    (Z.add (KERNEL_START + sys_size_of s)) (λ i, default 0 (translate (k_mem s2) (dir_addr 1) (L_USER_START + i))) (k_mem s2)).
  { eapply (copy_ok_image _ code {[1 := dat]} dat); [exact Hinv|apply lookup_singleton_eq| |lia|lia].
    unfold KERNEL_LO, KERNEL_START in *. lia. }
  apply wp_bind. eapply wp_copy_data; [exact Hok|done|lia|done|]. intros m3 Hf3 Hc3.
  apply HR.
  - eapply frame_weaken; [|exact Hf3]. intros a (i & Hi & ->).
    destruct (user_address _ _ _ _ 1 dat (L_USER_START + i) (ki_mm _ _ _ _ Hinv)) as (pa & -> & _ & Hh);
      [apply lookup_singleton_eq|lia|done].
  - intros i Hi. rewrite Hc3 by done. apply Hsame. right. unfold in_range. lia.
Qed.

Lemma wp_main s R :
  image_ok s →
  (∀ s' code dat, user_mode (boot_table boot_kids) code {[1 := dat]} KERNEL_STACK_SIZE s' →
     eip (k_regs s') = usr_main → cs (k_regs s') = USER_CS → esp (k_regs s') = USER_ESP →
     Z.testbit (eflags (k_regs s')) 9 = true → pic_mask (k_hw s') = 0xfc →
     idtr (k_hw s') = MkRegister 2047 (addr_idt E) → k_quantum_ticks s' = 100 → k_last_pid s' = 1 →
     program_loaded s s' → idle_start (k_mem s') 0 → R tt s') →
  wp (main E addr_tss) s R.
Proof.
  intros Hs HR. unfold main. apply wp_hardware; [done|]. intros s1 Hw.
  apply wp_bind, wp_init_kernel; rewrite ?(hs_pm _ _ Hw), ?(hs_mem _ _ Hw), ?(hs_pid _ _ Hw);
    [apply Hs|apply Hs|apply (hs_console _ _ Hw)|apply Hs|].
  intros s2 code dat Hinv Hcr3 Hqt Hlp2 Hregs Htss Hcon Hidt Hhw Hf2 Hi2.
  apply (wp_load_program s _ code dat); [done..|]. intros m3 Hhigh3 Hc3.
  apply wp_bind, wp_print; [exact Hcon|apply literal_nul|]. intros k Hk.
  apply wp_bind. unfold enable_int. apply wp_bind, wp_out_al; [lia|]. apply wp_bind, wp_ret, wp_modify.
  match goal with |- wp _ ?st _ => set (s5 := st) end.
  assert (Er : k_regs s5 = w_eflags 514 (w_eax (Z.lor (Z.ldiff (eax (k_regs s)) 0xff) 0xfc) (main_regs (k_regs s)))).
  { unfold s5. kred. by rewrite Hregs, (hs_regs _ _ Hw). }
  assert (Hinv5 : kernel_inv (boot_table boot_kids) code {[1 := dat]} s5).
  { eapply (kernel_inv_spares (λ a, KERNEL_HI ≤ a)); [exact Hinv|exact Hhigh3|by apply spares_high|done..]. }
  assert (Hi5 : idle_start (k_mem s5) 0).
  { eapply idle_start_spares; [exact Hi2|exact Hhigh3|by apply (spares_high (boot_table boot_kids))|done|by apply (bool_decide_unpack _)]. }
  assert (Hcr5 : k_cr3 s5 = dir_addr 1) by exact Hcr3.
  assert (Htss5 : k_tss s5 = initial_tss) by (rewrite <- (hs_tss _ _ Hw); exact Htss).
  assert (Hpic5 : pic_mask (k_hw s5) = 0xfc) by done.
  assert (Hidt5 : idtr (k_hw s5) = MkRegister 2047 (addr_idt E)) by (rewrite <- (hs_idtr _ _ Hw), <- Hhw; done).
  assert (Hqt5 : k_quantum_ticks s5 = 100) by exact Hqt. assert (Hlp5 : k_last_pid s5 = 1) by exact Hlp2. change m3 with (k_mem s5) in Hc3. clearbody s5.
  eapply (wp_return_gate _ code {[1 := dat]} dat); [exact Hinv5|apply lookup_singleton_eq|done|by rewrite Er..|].
  intros m6 Hf6.
  pose proof (gate_inv code dat s5 m6 Hinv5 Hf6) as Hinv6.
  eapply (HR _ code dat); kred; try done.
  - split; kred; [exact Hinv6| |by rewrite Htss5|split; [by vm_compute|done]|done|done].
    apply first_regs_ok; [|by rewrite Er|apply load32_range]. intros r Hr. pose proof (io_regs _ Hs r Hr) as Hrr.
    rewrite Er. set_unfold in Hr. destruct_or! Hr; subst r; exact Hrr.
  - by rewrite Er.
  - eapply (program_loaded_intro _ code dat s s2 s5); [apply Hinv|apply Hinv5|exact (ki_mm _ _ _ _ Hinv6)|exact Hf6|apply (io_user _ Hs)|exact Hc3].
  - eapply idle_start_spares; [exact Hi5|exact Hf6|exact (gate_spares _ _ _ Hinv5)|done|by apply (bool_decide_unpack _)].
Qed.

(** C7. Boot.  From the loaded image main runs to completion and leaves the
    processor in user mode at the first instruction of the user program, on
    its stack, with interrupts on, the interrupt table loaded and the clock
    and keyboard enabled; the kernel's invariant holds with process 1 running
    on its own pages, its kernel stack empty, and these pages hold the user
    program of the image. *)
Theorem main_enters_user_mode s :
  image_ok s →
  ∃ s' code dat, main E addr_tss s = Ret tt s' ∧
    user_mode (boot_table boot_kids) code {[1 := dat]} KERNEL_STACK_SIZE s' ∧
    eip (k_regs s') = usr_main ∧ cs (k_regs s') = USER_CS ∧ esp (k_regs s') = USER_ESP ∧
    Z.testbit (eflags (k_regs s')) 9 = true ∧ pic_mask (k_hw s') = 0xfc ∧
    idtr (k_hw s') = MkRegister 2047 (addr_idt E) ∧ k_quantum_ticks s' = 100 ∧ program_loaded s s'.
Proof.
  intros Hs. destruct (wp_elim (main E addr_tss) s (λ _ s', ∃ code dat,
    user_mode (boot_table boot_kids) code {[1 := dat]} KERNEL_STACK_SIZE s' ∧
    eip (k_regs s') = usr_main ∧ cs (k_regs s') = USER_CS ∧ esp (k_regs s') = USER_ESP ∧
    Z.testbit (eflags (k_regs s')) 9 = true ∧ pic_mask (k_hw s') = 0xfc ∧
    idtr (k_hw s') = MkRegister 2047 (addr_idt E) ∧ k_quantum_ticks s' = 100 ∧ program_loaded s s'))
    as ([] & s' & Em & code & dat & H); [|by exists s', code, dat].
  apply wp_main; [done|]. intros s' code dat H1 H2 H3 H4 H5 H6 H7 H8 _ H9 _. by exists code, dat.
Qed.
End System.
