(* ===== verification/Irq.v ===== *)
(** The hardware interrupts of entry.S as a process sees them: the clock may
    give the processor to another task at any user instruction, and the
    interrupted process finds all its registers again. *)

From S2P Require Import Prelude Memory CList Libc Console Frames Types Kernel Task Paging Utils Switch.
From S2P Require Import Sched Policy Space Process Sys Tick Write Entry Calls Interrupt.

Section Irq.
Context {L : Layout}.

(** [call service] in a handler; [ra] is the address of the instruction after
    the call.  As for a system call, a service that gives the processor away
    does not return here. *)
Definition call_isr (ra : Z) (service : K unit) : K bool :=
  push ra ;!
  enter ;!
  let! here := get_reg eip in
  service ;!
  let! there := get_reg eip in
  if here =? there then leave ;! retn ;! ret true else ret false.

Definition clock_handler (ra : Z) (zeos_show_clock : Z → M console unit) : K unit :=
  SAVE_ALL ;!
  EOI ;!
  let! back := call_isr ra (clock_service zeos_show_clock) in
  when back (RESTORE_ALL ;! iret).

Definition keyboard_handler (ra : Z) (ports : Z → Z) : K unit :=
  SAVE_ALL ;!
  EOI ;!
  let! back := call_isr ra (keyboard_service ports) in
  when back (RESTORE_ALL ;! iret).

(** The interrupt controller has been told that the interrupt is served. *)
Definition acked (s : kstate) : kstate := with_hw (pic_write 0x20 0x20 (k_hw s)) s.

(** What is left of a handler whose service was switched out of. *)
Definition handler_rest : K unit :=
  leave ;! retn ;! RESTORE_ALL ;! iret.

Context {LO : LayoutOk L}.

(** The words of the interrupted process on its kernel stack, the service's
    return address and the frame pointer below them. *)
Definition isr_words (u : regs) (ra : Z) : list Z := trap_words u ++ [ra; ebp u].

Definition isr_regs (u : regs) (T sel handler : Z) : regs :=
  w_ebp (T - 72) (w_esp (T - 72) (w_eax (Z.lor (Z.ldiff (eax u) 0xff) 0x20) (trap_regs u T sel handler))).

Lemma wp_handler_rest T u ra s R :
  stacked (k_mem s) T (isr_words u ra) → ebp (k_regs s) = T - 72 → user_ok u →
  KERNEL_LO ≤ T - 72 → T ≤ KERNEL_HI → R tt (with_regs u s) → wp handler_rest s R.
Proof.
  intros Hs Hb Hu Hlo Hhi HR. unfold handler_rest, leave.
  apply wp_bind, wp_bind, wp_gets, wp_bind, wp_modify. rewrite Hb.
  apply wp_pop_reg; kred; [lia|lia|]. apply wp_bind, wp_pop_reg; kred; [unfold KERNEL_LO in *; lia|lia|].
  apply (wp_trap_return T u); kred; [by eapply stacked_app|lia|done|lia|done|]. exact HR.
Qed.

Lemma kernel_inv_acked σ code data s : kernel_inv σ code data s → kernel_inv σ code data (acked s).
Proof. intros [[[] ?] ? ? []]. split; [split; [by split|done]|done|done|by split]. Qed.

Lemma user_mode_acked σ code data j s : user_mode σ code data j s → user_mode σ code data j (acked s).
Proof. intros []. split; try done. by apply kernel_inv_acked. Qed.

Section Handler.
Context (σ : ptable) (code : list Z) (data : gmap Z (list Z)) (j : Z) (s : kstate).
Context (Hum : user_mode σ code data j s) (Hj : sizeof_task_struct + 108 ≤ 4 * j).
Context (handler ra : Z) (Hra : 0 ≤ ra < 2 ^ 32).
Let T : Z := stack_addr (task_addr (p_run σ)) j.
Let u : regs := k_regs s.
Let sr : regs := isr_regs u T (ss0 (k_tss s)) handler.

Lemma isr_window : KERNEL_LO ≤ T - 108 ∧ T ≤ KERNEL_HI.
Proof.
  pose proof (um_valid _ _ _ _ _ Hum) as Hr. pose proof (task_addr_window _ Hr).
  destruct (um_room _ _ _ _ _ Hum). unfold T, stack_addr, sizeof_task_struct, KERNEL_LO, KERNEL_START in *. lia.
Qed.

(** An interrupt in user mode, up to the body of the service. *)
Lemma wp_isr_enter (service : K unit) (rest : bool → K unit) R :
  (∀ m, stacked m T (isr_words u ra) → frame (in_range (T - 72) 72) (k_mem s) m →
     wp (let! here := get_reg eip in
         service ;!
         let! there := get_reg eip in
         if here =? there then leave ;! retn ;! ret true else ret false)
       (with_mem m (with_regs sr (acked s))) (λ b s', wp (rest b) s' R)) →
  wp (int_enter handler None ;! SAVE_ALL ;! EOI ;! let! b := call_isr ra service in rest b) s R.
Proof.
  intros Hbody. destruct isr_window as [Hlo Hhi].
  assert (Hsv : wp (int_enter handler None ;! SAVE_ALL) s (λ _ s1, ∃ m, stacked m T (trap_words u) ∧
    frame (in_range (T - 64) 64) (k_mem s) m ∧ s1 = with_mem m (with_regs (trap_regs u T (ss0 (k_tss s)) handler) s))).
  { apply (wp_trap_save T); [exact (um_regs _ _ _ _ _ Hum)|exact (um_esp0 _ _ _ _ _ Hum)|lia|done|]. intros m S F. by exists m. }
  assert (Hgo : ∀ s1, (∃ m, stacked m T (trap_words u) ∧ frame (in_range (T - 64) 64) (k_mem s) m ∧
      s1 = with_mem m (with_regs (trap_regs u T (ss0 (k_tss s)) handler) s)) →
    wp (EOI ;! let! b := call_isr ra service in rest b) s1 R).
  { intros s1 (m & S & F & ->). apply wp_bind, wp_out_al; [lia|]. kred. apply wp_bind. unfold call_isr.
    pose proof (user_word u ebp (um_regs _ _ _ _ _ Hum) ltac:(set_solver)) as Hbp.
    apply wp_bind, (wp_push_stacked T (trap_words u)); kred; [done|done|done|cbn; lia|done|]. intros m1 S1 F1.
    apply wp_bind, wp_bind, wp_bind, wp_gets. kred.
    apply (wp_push_stacked T (trap_words u ++ [ra])); kred; [done|done|done|cbn; lia|done|].
    intros m2 S2 F2. apply wp_bind, wp_gets, wp_modify. kred.
    rewrite <- app_assoc in S2. cbn [app] in S2.
    replace (T - 4 * Z.of_nat (length ((trap_words u ++ [ra]) ++ [ebp u]))) with (T - 72) by (cbn; lia).
    apply (Hbody m2 S2).
    eapply frame_trans; [eapply frame_weaken; [|exact F]; unfold in_range; lia|].
    eapply frame_trans; (eapply frame_weaken; [|eassumption]); intros a; unfold in_range; cbn; lia. }
  unfold wp, bind in *. destruct (int_enter handler None s) as [[] sa|]; [|done].
  destruct (SAVE_ALL sa) as [[] sb|]; [|done]. exact (Hgo sb Hsv).
Qed.

Lemma isr_running s' : esp (k_regs s') = T - 72 → switch_room s' (p_run σ).
Proof.
  intros E. split; [by eapply um_valid|]. rewrite E. destruct (um_room _ _ _ _ _ Hum).
  unfold T, stack_addr, sizeof_task_struct, PAGE_SIZE in *. lia.
Qed.

Lemma isr_cpu m : cpu_ok (p_run σ) (with_mem m (with_regs sr (acked s))).
Proof.
  clear Hra. destruct isr_window as [Hlo Hhi]. split; [by apply isr_running|].
  unfold sr, isr_regs, trap_regs, regs_ok. kred. pose proof (um_regs _ _ _ _ _ Hum) as Hu.
  split_and!; first [by apply (user_word _ _ Hu); set_solver|unfold KERNEL_LO, KERNEL_HI in *; lia].
Qed.

(** A switch away writes below the service's frame only. *)
Lemma isr_stack_kept P s1 s' n :
  switched s1 s' (p_run σ) n → esp (k_regs s1) = T - 72 → stacked (k_mem s1) T P →
  (length P ≤ 18)%nat → stacked (k_mem s') T P.
Proof.
  intros Hsw He Hs Hl. pose proof (um_valid _ _ _ _ _ Hum) as Hr. destruct (um_room _ _ _ _ _ Hum).
  eapply stacked_frame; [exact Hs|exact (sw_low _ _ _ _ Hsw)|]. rewrite He. intros a Ha [Hc|Hb].
  - apply (cells_stack (p_run σ) a); [done| |done]. right. unfold T, in_range, stack_addr, sizeof_task_struct, PAGE_SIZE in *. lia.
  - unfold switch_bytes, in_range, T, stack_addr, sizeof_task_struct, f_kernel_esp, PAGE_SIZE in *. lia.
Qed.
End Handler.

(** Process [i] was interrupted in user mode with the registers [u] and its
    handler gave the processor away: whenever it is switched back to, with its
    stack as it left it, it returns to the interrupted instruction with all
    its registers. *)
Definition preempted (u : regs) (i : Z) (s' : kstate) : Prop :=
  ∀ s2, (∀ a, stack_bytes i a → load8 (k_mem s2) a = load8 (k_mem s') a) →
  let k := load32 (k_mem s2) (task_addr i + f_kernel_esp) in
  esp (k_regs s2) = k + 8 →
  load32 (k_mem s2) (k + 4) = addr_task_switch_ret ∧
  (task_switch_resume ;! handler_rest) s2 = Ret tt (with_regs u s2).

(** The stack of a task that has been left, kept until it is back. *)
Lemma preempted_stack u ra i j c s' s2 :
  sizeof_task_struct + 108 ≤ 4 * j → 4 * j ≤ PAGE_SIZE →
  stacked (k_mem s') (stack_addr (task_addr i) j) (isr_words u ra) → switched_out (k_mem s') i c →
  (∀ a, stack_bytes i a → load8 (k_mem s2) a = load8 (k_mem s') a) →
  stacked (k_mem s2) (stack_addr (task_addr i) j) (isr_words u ra) ∧ switched_out (k_mem s2) i c.
Proof.
  intros Hj Hj' Hs Hout Hkeep.
  assert (Hf : frame (λ a, ¬ stack_bytes i a) (k_mem s') (k_mem s2)).
  { intros a Ha. apply Hkeep. by apply dec_stable. }
  split.
  - eapply stacked_frame; [exact Hs|exact Hf|]. intros a Ha Hn. apply Hn. right. cbn in Ha.
    unfold stack_addr, in_range, sizeof_task_struct, PAGE_SIZE in *. lia.
  - eapply switched_out_frame; [exact Hout|exact Hf|]. intros a Ha Hn. apply Hn. destruct Hout as (H1 & H2 & _).
    destruct Ha as [Ha|Ha]; [right|by left]. unfold in_range in *. lia.
Qed.

Lemma preempted_intro u ra i j c s' :
  valid_task i → sizeof_task_struct + 108 ≤ 4 * j → 4 * j ≤ PAGE_SIZE →
  user_ok u → stacked (k_mem s') (stack_addr (task_addr i) j) (isr_words u ra) →
  switched_out (k_mem s') i c → c_ebp c = stack_addr (task_addr i) j - 72 → preempted u i s'.
Proof.
  intros Hi Hj Hj' Hu Hs Hout Hb s2 Hkeep k He. pose proof (task_addr_window i Hi) as Hw.
  destruct (preempted_stack u ra i j c s' s2 Hj Hj' Hs Hout Hkeep) as [Hs2 Hout2].
  split; [by apply Hout2|].
  destruct (wp_elim (task_switch_resume ;! handler_rest) s2 (λ _ s3, s3 = with_regs u s2)) as ([] & s3 & E & ->); [|done].
  apply wp_bind, (wp_task_switch_resume i c); [done|done|exact He|].
  apply (wp_handler_rest (stack_addr (task_addr i) j) u ra); kred; [exact Hs2|done|done|..|by destruct s2];
    unfold stack_addr, KERNEL_LO, KERNEL_START, sizeof_task_struct in *; lia.
Qed.

(** The interrupt as a whole: the process goes on, or another task does. *)
Section Clock.
Context (σ : ptable) (code : list Z) (data : gmap Z (list Z)) (j : Z) (s : kstate).
Context (Hum : user_mode σ code data j s) (Hj : sizeof_task_struct + 108 ≤ 4 * j).
Context (handler ra : Z) (Hra : 0 ≤ ra < 2 ^ 32) (Hfit : tick_fits σ s = true).
Context (Hh : handler ∉ [addr_cpu_idle; addr_ret_from_fork; addr_task_switch_ret]).
Context (zeos_show_clock : Z → M console unit).
Context (Hclk : ∀ t k, cursor_ok k → wp (zeos_show_clock t) k (λ _ k', cursor_ok k')).
Let T : Z := stack_addr (task_addr (p_run σ)) j.
Let q : Z := tick_quantum σ (k_quantum_ticks s) (quantum_of (k_mem s) (p_run σ)).
Let now : Z := s32 (k_zeos_ticks s + 1).

(** The state in which the service has counted the tick. *)
Definition isr_state (m : memory) : kstate :=
  with_zeos_ticks now (with_mem m (with_regs (isr_regs (k_regs s) T (ss0 (k_tss s)) handler) (acked s))).

(** Another task does not go on in the handler. *)
Lemma isr_eip s1 s2 :
  kernel_inv σ code data s1 → kernel_inv (rotate σ) code data s2 → p_run (rotate σ) ≠ p_run σ →
  switched (with_zeos_ticks now s1) s2 (p_run σ) (p_run (rotate σ)) → handler ≠ eip (k_regs s2).
Proof.
  intros Hinv1 Hinv2 Hne Hsw Ee. apply Hh. rewrite Ee.
  pose proof (ki_sched _ _ _ _ Hinv2) as [Hc2 Hno2]. destruct (rotate_same σ) as (Ef & _).
  eapply (switched_eip σ _ s2); [|exact (sc_run _ _ Hc2)|done| |exact Hsw].
  - destruct (ki_sched _ _ _ _ Hinv1) as [[] _]. by split.
  - rewrite <- Ef. intros Hx. apply Hno2. by apply (queued_q _ Free).
Qed.

Lemma wp_clock_interrupt R :
  (0 ≤ q → ∀ m k, frame (in_range (T - 72) 72) (k_mem s) m →
     let s' := with_quantum_ticks q (with_console k (with_zeos_ticks now (with_mem m (acked s)))) in
     kernel_inv σ code data s' → R tt s') →
  (q < 0 → ∀ m s', frame (in_range (T - 72) 72) (k_mem s) m → kernel_inv (rotate σ) code data s' →
     switched (isr_state m) s' (p_run σ) (p_run (rotate σ)) → p_run (rotate σ) ≠ p_run σ → k_quantum_ticks s' = q →
     preempted (k_regs s) (p_run σ) s' → R tt s') →
  wp (int_enter handler None ;! clock_handler ra zeos_show_clock) s R.
Proof.
  intros HR1 HR2. pose proof (um_valid _ _ _ _ _ Hum) as Hr. destruct (um_room _ _ _ _ _ Hum) as [_ Hj'].
  destruct (isr_window _ _ _ _ _ Hum Hj) as [Hlo Hhi]. fold T in Hlo, Hhi.
  unfold clock_handler. eapply (wp_isr_enter σ code data j s Hum Hj handler ra Hra). fold T. intros m S F.
  set (s1 := with_mem m (with_regs _ (acked s))).
  assert (Hinv1 : kernel_inv σ code data s1).
  { apply (kernel_inv_regs _ _ _ (with_mem m (acked s))), (kernel_inv_acked _ _ _ (with_mem m s)). by eapply (um_stack σ code data j s Hum (T - 72) 72); [unfold T; lia..|]. }
  assert (Eq : quantum_of m (p_run σ) = quantum_of (k_mem s) (p_run σ)).
  { unfold quantum_of. eapply (um_field σ code data j s Hum (T - 72) 72); [unfold T; lia..|done|done|]. unfold data_field. solve_field. }
  assert (Hpid : ∀ i, valid_task i → pid_of m i = pid_of (k_mem s) i).
  { intros i Hi. unfold pid_of, load_int. f_equal. eapply (um_field σ code data j s Hum (T - 72) 72); [unfold T; lia..|done|done|].
    unfold data_field. solve_field. }
  assert (Hfit1 : tick_fits σ s1 = true).
  { rewrite <- Hfit. unfold tick_fits, shows_pid. change (k_mem s1) with m. rewrite Eq, Hpid; [done|].
    eapply rotate_valid, (um_inv _ _ _ _ _ Hum). }
  apply wp_bind, wp_gets.
  apply wp_bind, (wp_clock_service zeos_show_clock σ code data); [done|done|by eapply isr_cpu|done|..];
    change (k_mem s1) with m; change (k_quantum_ticks s1) with (k_quantum_ticks s); rewrite Eq; fold q; intros Hq.
  - intros k. cbv zeta. intros Hinv2. apply wp_bind, wp_gets.
    set (s2 := with_quantum_ticks _ _) in *. change (eip (k_regs s2)) with (eip (k_regs s1)). rewrite Z.eqb_refl.
    assert (Hrest : wp handler_rest s2 (λ _ s', s' = with_regs (k_regs s) s2)).
    { apply (wp_handler_rest T (k_regs s) ra); [exact S|done|apply Hum|lia|done|done]. }
    unfold handler_rest in Hrest. unfold wp, bind in Hrest |- *.
    destruct (leave s2) as [[] sa|]; [|done]. destruct (retn sa) as [[] sb|]; [|done]. cbn [ret when].
    destruct (RESTORE_ALL sb) as [[] sc|]; [|done]. destruct (iret sc) as [[] sd|]; [|done]. subst sd.
    apply (HR1 Hq m k); [exact F|]. exact (kernel_inv_regs _ _ _ _ (k_regs s) Hinv2).
  - intros s2 Hinv2 Hsw Hne Hqt. apply wp_bind, wp_gets.
    match goal with |- context [?x =? eip (k_regs s2)] => change x with handler end.
    destruct (Z.eqb_spec handler (eip (k_regs s2))) as [Ee|_]; [by destruct (isr_eip s1 s2 Hinv1 Hinv2 Hne Hsw)|].
    apply wp_ret. cbn [when]. apply wp_ret. eapply (HR2 Hq m); [exact F|done|exact Hsw|done|done|].
    eapply (preempted_intro _ ra); [done|done|done|apply Hum| |apply Hsw|done].
    eapply (isr_stack_kept σ code data j s Hum Hj); [exact Hsw|done|exact S|done].
Qed.
End Clock.

(** C5. The clock interrupts a process between any two of its instructions,
    with 108 bytes of its kernel stack free and, if the tick is going to
    switch tasks, the identifier of the first ready one below 100 (from there
    on sched_next_rr overruns an array).  The interrupt controller is told
    that the interrupt is served.
    While its quantum lasts, or nobody else is ready, the process goes on with
    every register as it was, and only the words below its kernel stack's top
    were written.  When the quantum is used up and somebody is ready, the
    table rotates once, the first ready task has the processor and its
    directory, and the interrupted process can be resumed: switched back to
    with its kernel stack untouched, it continues at the interrupted
    instruction with all sixteen registers.  The kernel's invariant holds in
    both cases. *)
Theorem clock_interrupt_transparent σ code data j s handler ra zeos_show_clock :
  let q := tick_quantum σ (k_quantum_ticks s) (quantum_of (k_mem s) (p_run σ)) in
  user_mode σ code data j s → sizeof_task_struct + 108 ≤ 4 * j → 0 ≤ ra < 2 ^ 32 →
  (q < 0 → pid_of (k_mem s) (p_run (rotate σ)) < 100) →
  handler ∉ [addr_cpu_idle; addr_ret_from_fork; addr_task_switch_ret] →
  (∀ t k, cursor_ok k → wp (zeos_show_clock t) k (λ _ k', cursor_ok k')) →
  ∃ s', (int_enter handler None ;! clock_handler ra zeos_show_clock) s = Ret tt s' ∧
    k_zeos_ticks s' = s32 (k_zeos_ticks s + 1) ∧ k_quantum_ticks s' = q ∧ k_hw s' = pic_write 0x20 0x20 (k_hw s) ∧
    (0 ≤ q → kernel_inv σ code data s' ∧ k_regs s' = k_regs s ∧ k_cr3 s' = k_cr3 s ∧
       frame (in_range (stack_addr (task_addr (p_run σ)) j - 72) 72) (k_mem s) (k_mem s')) ∧
    (q < 0 → kernel_inv (rotate σ) code data s' ∧ p_run (rotate σ) ≠ p_run σ ∧
       k_cr3 s' = dir_addr (p_run (rotate σ)) ∧ preempted (k_regs s) (p_run σ) s').
Proof.
  intros q Hum Hj Hra Hlp Hh Hclk.
  assert (Hfit : tick_fits σ s = true).
  { unfold tick_fits, shows_pid. fold q. destruct (Z.leb_spec 0 q); [done|]. cbn. apply Z.ltb_lt. auto. }
  set (T := stack_addr (task_addr (p_run σ)) j).
  destruct (wp_elim (int_enter handler None ;! clock_handler ra zeos_show_clock) s (λ _ s',
    k_zeos_ticks s' = s32 (k_zeos_ticks s + 1) ∧ k_quantum_ticks s' = q ∧ k_hw s' = pic_write 0x20 0x20 (k_hw s) ∧
    (0 ≤ q → kernel_inv σ code data s' ∧ k_regs s' = k_regs s ∧ k_cr3 s' = k_cr3 s ∧
       frame (in_range (T - 72) 72) (k_mem s) (k_mem s')) ∧
    (q < 0 → kernel_inv (rotate σ) code data s' ∧ p_run (rotate σ) ≠ p_run σ ∧
       k_cr3 s' = dir_addr (p_run (rotate σ)) ∧ preempted (k_regs s) (p_run σ) s')))
    as ([] & s' & E & H); [|by exists s'].
  apply (wp_clock_interrupt σ code data j s Hum Hj handler ra Hra Hfit Hh zeos_show_clock Hclk).
  - intros Hq m k F s' Hinv. split_and!; [done|done|done| |fold q in Hq; lia]. intros _. split_and!; [exact Hinv|done|done|exact F].
  - intros Hq m s' F Hinv Hsw Hne Hqt Hpre. fold q in Hq. split_and!; [apply Hsw|done|apply Hsw|lia|]. intros _.
    split_and!; [done|done|apply Hsw|done].
Qed.
End Irq.
