(* ===== verification/Reach.v ===== *)
(** The kernel as a transition system: processes run and enter the kernel in
    any order, and every state that can be reached is a correct one. *)

From S2P Require Import Prelude Memory CList Libc Console Frames Types Kernel Task Paging Utils Switch.
From S2P Require Import Sched Policy Space Process Init Sys Tick Block Fork ForkInv Exit Write Entry Calls Interrupt.

Section Reach.
Context {L : Layout} {LO : LayoutOk L}.
Context (zeos_show_clock : Z → M console unit).
Context (Hclk : ∀ t k, cursor_ok k → wp (zeos_show_clock t) k (λ _ k', cursor_ok k')).

(** ** The concrete steps *)

(** What process [i] may write without the kernel's help: what its page
    tables let it write in user mode.  The idle task has no user mode. *)
Definition user_writes (s : kstate) (i a : Z) : Prop :=
  i ≠ 0 ∧ ∃ va, 0 ≤ va < 2 ^ 32 ∧ translate_user (k_mem s) (dir_addr i) va true = Some a.

(** The part of its kernel stack page that handlers and services use. *)
Definition own_stack (i a : Z) : Prop :=
  in_range (task_addr i + sizeof_task_struct) (PAGE_SIZE - sizeof_task_struct) a.

(** Task [i] has the processor: its directory is loaded. *)
Definition has_cpu (s : kstate) (i : Z) : Prop := valid_task i ∧ k_cr3 s = dir_addr i.

(** The keys that do not switch tasks by themselves. *)
Definition plain_key (b : Z) : Prop :=
  ∀ c, char_map !! Z.to_nat (Z.land b 0x7F) = Some c → c ∉ [100; 110; 99].

Inductive kevent : Type := EvProcess | EvClock | EvKey | EvFork | EvExit | EvBlock | EvUnblock | EvWrite | EvQuery.

#[export] Instance kevent_eq_dec : EqDecision kevent.
Proof. solve_decision. Defined.

(** One step: the running process computes or moves between user mode and the
    kernel, with any effect on its registers, its memory and its kernel stack;
    or a service or an interrupt's service runs, for any arguments, to its
    end.  A service that overruns an array or its stack, or that causes a page
    fault in the kernel, has no next state: what the machine does then is not
    defined by the program.  The keys d, n and c are left out: they switch
    tasks behind the scheduler's back, and what they do is in Keyboard. *)
Inductive kstep : kevent → kstate → kstate → Prop :=
  | step_process s i r m :
      has_cpu s i → frame (λ a, user_writes s i a ∨ own_stack i a) (k_mem s) m →
      kstep EvProcess s (with_mem m (with_regs r s))
  | step_clock s s' i :
      has_cpu s i → cpu_ok i s → clock_service zeos_show_clock s = Ret tt s' → kstep EvClock s s'
  | step_key s s' ports :
      plain_key (inb ports 0x60) → keyboard_service ports s = Ret tt s' → kstep EvKey s s'
  | step_fork s s' i k v :
      has_cpu s i → i ≠ 0 → on_stack s i → service_frame s i k → 0 ≤ k_last_pid s < 2 ^ 31 - 2 →
      sys_fork s = Ret v s' → kstep EvFork s s'
  | step_exit s s' i :
      has_cpu s i → i ≠ 0 → cpu_ok i s → sys_exit s = Ret tt s' → kstep EvExit s s'
  | step_block s s' i :
      has_cpu s i → i ≠ 0 → cpu_ok i s → sys_block s = Ret tt s' → kstep EvBlock s s'
  | step_unblock s s' i pid v :
      has_cpu s i → on_stack s i → sys_unblock pid s = Ret v s' → kstep EvUnblock s s'
  | step_write s s' i fd buffer size v :
      has_cpu s i → i ≠ 0 → on_stack s i → 0 ≤ buffer < 2 ^ 32 →
      sys_write fd buffer size s = Ret v s' → kstep EvWrite s s'
  | step_query s s' i f v :
      has_cpu s i → on_stack s i → f ∈ [sys_getpid; sys_gettime; sys_ni_syscall] → f s = Ret v s' → kstep EvQuery s s'.

(** ** The abstract machine: a process table *)

Inductive table_step : ptable → ptable → Prop :=
  | table_stays σ : table_step σ σ
  | table_rotates σ : p_ready σ ≠ [] → table_step σ (rotate σ)
  | table_forks σ c l ks :
      p_run σ ≠ 0 → p_free σ = c :: l → p_kids σ !! p_run σ = Some ks →
      table_step σ (fork_table c l ks σ)
  | table_exits σ : p_run σ ≠ 0 → table_step σ (exit_table σ)
  | table_blocks σ : p_run σ ≠ 0 → table_step σ (block_table σ)
  | table_wakes σ i ks :
      p_kids σ !! p_run σ = Some ks → i ∈ ks → i ∈ p_blocked σ → table_step σ (wake i σ).

(** The kernel's state implements the table [σ]. *)
Definition implements (σ : ptable) (s : kstate) : Prop :=
  ∃ code data, kernel_inv σ code data s ∧ k_cr3 s = dir_addr (p_run σ).

Lemma implements_run σ s i : implements σ s → has_cpu s i → i = p_run σ.
Proof.
  intros (code & data & Hinv & Hc) [Hi Hc']. rewrite Hc in Hc'. unfold dir_addr, PAGE_SIZE in Hc'. lia.
Qed.

(** Task [i] is on the free queue, as the memory has it. *)
Definition on_free (s : kstate) (i : Z) : Prop :=
  ∃ xs, dlist (k_mem s) freeq xs ∧ freeq ∉ xs ∧ anchor_of i ∈ xs.

Lemma implements_free σ s i : implements σ s → on_free s i ↔ i ∈ p_free σ.
Proof.
  intros (? & ? & Hinv & _). assert (Hq : qinv σ (k_mem s)) by apply (ki_sched _ _ _ _ Hinv).
  pose proof (lists_of_free σ) as Hf. pose proof (lists_dlist _ _ _ (qi_lists _ _ Hq) _ _ Hf) as Hd.
  pose proof (lists_nodup _ _ _ (qi_lists _ _ Hq) _ _ Hf) as [Hn _]%NoDup_cons. split.
  - intros (xs & Hx & Hnx & Hi). rewrite (links_unique _ _ _ _ _ Hx Hd Hnx Hn) in Hi.
    apply list_elem_of_fmap in Hi as (j & Hj & Hij). by apply (inj anchor_of) in Hj as ->.
  - intros Hi. exists (anchor_of <$> p_free σ). split_and!; [done..|]. by apply list_elem_of_fmap_2.
Qed.

(** ** Simulation, one lemma per step *)

Lemma sim_process σ s i r m :
  implements σ s → has_cpu s i → frame (λ a, user_writes s i a ∨ own_stack i a) (k_mem s) m →
  implements σ (with_mem m (with_regs r s)).
Proof.
  intros Him Hi Hf. rewrite (implements_run _ _ _ Him Hi) in Hf. destruct Him as (code & data & Hinv & Hc).
  pose proof (ki_sched _ _ _ _ Hinv) as [Hco Hout]. pose proof (ki_mm _ _ _ _ Hinv) as Hmm.
  exists code, data. split; [|done].
  eapply (kernel_inv_spares (λ a, user_writes s (p_run σ) a ∨ own_stack (p_run σ) a)); [exact Hinv|exact Hf| |done..|apply Hco].
  apply spares_or.
  - apply spares_high. intros a (Hr0 & va & Hva & Ht).
    destruct (proj2 (mi_dom _ _ _ _ Hmm (p_run σ))) as [fs Hfs].
    { split_and!; [apply (sc_run _ _ Hco)|done|]. intros Hx. apply Hout. by apply (queued_q _ Free). }
    by apply (user_reach _ _ _ _ _ _ _ _ _ Hmm Hfs Hva Ht).
  - apply (spares_stack _ _ (p_run σ)); [apply (sc_run _ _ Hco)|by left|]. intros a Ha. by right.
Qed.

(** A service that returned did what its specification says. *)
Lemma ret_of_wp {A} (f : K A) s v s' Q : wp f s Q → f s = Ret v s' → Q v s'.
Proof. unfold wp. by intros H E; rewrite E in H. Qed.

Lemma sim_clock σ s s' i :
  let q := tick_quantum σ (k_quantum_ticks s) (quantum_of (k_mem s) (p_run σ)) in
  implements σ s → has_cpu s i → cpu_ok i s → clock_service zeos_show_clock s = Ret tt s' →
  k_quantum_ticks s' = q ∧ (0 ≤ q → implements σ s') ∧ (q < 0 → p_ready σ ≠ [] ∧ implements (rotate σ) s').
Proof.
  intros q Him Hi Hcpu E. rewrite (implements_run _ _ _ Him Hi) in Hcpu. destruct Him as (code & data & Hinv & Hc).
  refine (proj2 (wp_or_ret _ _ _ _ (λ _ s', k_quantum_ticks s' = q ∧ (0 ≤ q → implements σ s') ∧
    (q < 0 → p_ready σ ≠ [] ∧ implements (rotate σ) s')) _ _ _ E)).
  apply (clock_service_cases zeos_show_clock σ code data); [done..| |]; fold q.
  - intros Hq k s1 Hinv'. split_and!; [done| |lia]. intros _. by exists code, data.
  - intros Hq s1 Hinv' Hsw Hne Hqt. split_and!; [done|lia|]. intros _. split.
    + intros Er. apply Hne. unfold rotate. by rewrite Er.
    + exists code, data. split; [done|apply Hsw].
Qed.

Lemma sim_fork σ s i k :
  implements σ s → has_cpu s i → i ≠ 0 → on_stack s i → service_frame s i k → 0 ≤ k_last_pid s < 2 ^ 31 - 2 →
  wp sys_fork s (λ _ s', k_quantum_ticks s' = k_quantum_ticks s ∧ ∃ σ', table_step σ σ' ∧ implements σ' s').
Proof.
  intros Him Hi H0 Hon Hsf Hlp. rewrite (implements_run _ _ _ Him Hi) in *.
  destruct Him as (code & data & Hinv & Hc). destruct (run_kids _ _ _ _ Hinv) as [ks Hk].
  pose proof (ki_sched _ _ _ _ Hinv) as [Hco Hout]. pose proof (ki_mm _ _ _ _ Hinv) as Hmm.
  destruct (p_free σ) as [|c l] eqn:Ef.
  { eapply wp_intro; [by eapply sys_fork_full|]. split; [done|]. exists σ. split; [constructor|]. by exists code, data. }
  destruct (proj2 (mi_dom _ _ _ _ Hmm (p_run σ))) as [dat Hdat].
  { split_and!; [apply (sc_run _ _ Hco)|done|]. intros Hx. apply Hout. by apply (queued_q _ Free). }
  eapply (wp_sys_fork σ c l ks code data Ef Hk); [done..|]. intros fs s' Hinv' Hr _.
  split; [by rewrite (fr_state _ _ _ _ _ _ _ Hr)|]. exists (fork_table c l ks σ). split; [by constructor|]. exists code, (<[c := fs]> data). split; [done|].
  rewrite (fr_cr3 _ _ _ _ _ _ _ Hr). done.
Qed.

Lemma sim_exit σ s i :
  implements σ s → has_cpu s i → i ≠ 0 → cpu_ok i s →
  wp_or (BufferOverflow 3) (shows_pid s (p_run (exit_table σ))) sys_exit s
    (λ _ s', k_quantum_ticks s' = k_quantum_ticks s ∧ ∃ σ', table_step σ σ' ∧ implements σ' s').
Proof.
  intros Him Hi H0 Hcpu. rewrite (implements_run _ _ _ Him Hi) in *. destruct Him as (code & data & Hinv & Hc).
  apply (sys_exit_cases σ code data); [done..|]. intros s' Hinv' Hex. split; [apply Hex|].
  exists (exit_table σ). split; [by constructor|]. exists code, (delete (p_run σ) data). split; [done|apply Hex].
Qed.

Lemma sim_block σ s i :
  implements σ s → has_cpu s i → i ≠ 0 → cpu_ok i s →
  wp_or (BufferOverflow 3) (block_fits σ s) sys_block s
    (λ _ s', k_quantum_ticks s' = k_quantum_ticks s ∧ ∃ σ', table_step σ σ' ∧ implements σ' s').
Proof.
  intros Him Hi H0 Hcpu. rewrite (implements_run _ _ _ Him Hi) in *. destruct Him as (code & data & Hinv & Hc).
  apply (sys_block_cases σ code data); [done..| |].
  - intros _. split; [done|]. exists σ. split; [constructor|]. exists code, data. split; [|done]. apply kernel_inv_pending; [done|].
    apply (sc_run σ s), (ki_sched _ _ _ _ Hinv).
  - intros _ s' Hinv' Hsw Hqt. split; [done|]. exists (block_table σ). split; [by constructor|].
    exists code, data. split; [done|apply Hsw].
Qed.

Lemma sim_unblock σ s i pid :
  implements σ s → has_cpu s i → on_stack s i →
  wp (sys_unblock pid) s (λ _ s', k_quantum_ticks s' = k_quantum_ticks s ∧ ∃ σ', table_step σ σ' ∧ implements σ' s').
Proof.
  intros Him Hi Hon. rewrite (implements_run _ _ _ Him Hi) in *. destruct Him as (code & data & Hinv & Hc).
  destruct (run_kids _ _ _ _ Hinv) as [ks Hk].
  apply (wp_sys_unblock σ code data s pid ks); [done..| | |].
  - intros _. split; [done|]. exists σ. split; [constructor|]. by exists code, data.
  - intros j m' Hw Hb Hinv' _. split; [done|]. exists (wake j σ). destruct (head_filter_elem _ _ _ Hw) as [Hj _].
    split; [by eapply table_wakes|]. by exists code, data.
  - intros j m' Hw Hb _ Hinv'. split; [done|]. exists σ. split; [constructor|]. by exists code, data.
Qed.

(** The blocks write cannot read: accepted by access_ok, but past the region. *)
Definition past_region (fd buffer size : Z) : Prop :=
  fd = 1 ∧ 0 < size ∧ L_USER_START ≤ buffer ∧ user_end < buffer + size < user_end + PAGE_SIZE.

Lemma sim_write σ s i fd buffer size :
  implements σ s → has_cpu s i → i ≠ 0 → on_stack s i → 0 ≤ buffer < 2 ^ 32 →
  if decide (array_fits i s size ∧ ¬ past_region fd buffer size)
  then wp (sys_write fd buffer size) s (λ _ s', k_quantum_ticks s' = k_quantum_ticks s ∧ implements σ s')
  else ∃ f, sys_write fd buffer size s = Fault f.
Proof.
  intros Him Hi H0 Hon Hb. rewrite (implements_run _ _ _ Him Hi) in *. pose proof Him as (code & data & Hinv & Hc).
  pose proof (ki_sched _ _ _ _ Hinv) as [Hco Hout]. pose proof (ki_mm _ _ _ _ Hinv) as Hmm.
  destruct (proj2 (mi_dom _ _ _ _ Hmm (p_run σ))) as [dat Hdat].
  { split_and!; [apply (sc_run _ _ Hco)|done|]. intros Hx. apply Hout. by apply (queued_q _ Free). }
  assert (Herr : ∀ v, sys_write fd buffer size s = Ret v s →
    wp (sys_write fd buffer size) s (λ _ s', k_quantum_ticks s' = k_quantum_ticks s ∧ implements σ s'))
    by (intros v E; eapply wp_intro; [exact E|done]).
  case_decide as Hd.
  - destruct Hd as [Hf Hnp]. destruct (sys_write_errors (p_run σ) fd buffer size s Hon Hf) as (H1 & H2 & H3).
    pose proof (array_fits_small _ s Hon size Hf) as Hsz.
    destruct (decide (fd = 1)) as [->|]; [|by eapply Herr, H1].
    destruct (decide (size = 0)); [by eapply Herr, H2; auto|]. destruct (decide (buffer = NULL)); [by eapply Herr, H2; auto|].
    destruct (access_ok_bool VERIFY_READ buffer size) as [Ha|Ha]; [by eapply Herr, H3; [..|lia|done|done]|].
    apply access_ok_small in Ha as [Ha1 Ha2]; [|done|done].
    destruct (sys_write_prints σ code data dat s Hinv Hdat Hc Hon buffer size) as (m' & k' & E & _ & _ & Hinv'); [lia|done| |done|].
    { destruct (decide (buffer + size ≤ user_end)); [done|]. destruct Hnp. repeat split; lia. }
    eapply wp_intro; [exact E|]. split; [done|]. by exists code, data.
  - destruct (decide (array_fits (p_run σ) s size)) as [Hf|Hf]; [|eexists; by apply (sys_write_overflows (p_run σ))].
    destruct (decide (past_region fd buffer size)) as [(-> & P1 & P2 & P3 & P4)|]; [|by destruct Hd].
    eexists. by apply (sys_write_faults σ code data dat s).
Qed.

Lemma keyboard_service_plain ports s s' :
  plain_key (inb ports 0x60) → keyboard_service ports s = Ret tt s' →
  s' = s ∨ ∃ c, s' = with_console (printc_xy 0 0 c (k_console s)) s.
Proof.
  unfold keyboard_service. cbv zeta. intros Hp. destruct (_ && _); [|intros [= <-]; by left].
  unfold bind at 1. destruct (if _ <? _ then _ else _) as [c s1|] eqn:Ec; [|done].
  assert (s1 = s) as ->.
  { destruct (_ <? _); [|by injection Ec]. unfold read_char_map in Ec. destruct (char_map !! _); [|done]. by injection Ec. }
  unfold bind at 1, read_char_map. destruct (char_map !! _) as [k|] eqn:Ek; [|done].
  specialize (Hp k Ek). rewrite !not_elem_of_cons in Hp. destruct Hp as (H1 & H2 & H3 & _).
  destruct (Z.eqb_spec k 100), (Z.eqb_spec k 110), (Z.eqb_spec k 99); try done.
  intros [= <-]. right. by exists c.
Qed.

Lemma sim_key σ s s' ports :
  implements σ s → plain_key (inb ports 0x60) → keyboard_service ports s = Ret tt s' →
  k_quantum_ticks s' = k_quantum_ticks s ∧ implements σ s'.
Proof.
  intros (code & data & Hinv & Hc) Hp E.
  destruct (keyboard_service_plain _ _ _ Hp E) as [->|(c & ->)]; (split; [done|]); exists code, data; [done|]. split; [|done].
  pose proof (ki_sched _ _ _ _ Hinv) as [Hco _].
  replace s with (with_zeos_ticks (k_zeos_ticks s) s) at 2 by (by destruct s). apply kernel_inv_ticks; [done|].
  apply (sc_console _ _ Hco).
Qed.

Lemma sim_query σ s i f v s' :
  implements σ s → has_cpu s i → on_stack s i → f ∈ [sys_getpid; sys_gettime; sys_ni_syscall] → f s = Ret v s' → s' = s.
Proof.
  intros Him Hi Hon Hf E. destruct Hi as [Hi _]. set_unfold in Hf. destruct_or! Hf; subst f; [|by injection E..].
  apply (ret_of_wp sys_getpid s v s' (λ _ s', s' = s)) in E; [done|]. unfold sys_getpid.
  apply wp_bind, (wp_current i); [done|]. apply wp_get_int_field; [done|solve_field..|done].
Qed.

(** What a step does to the table and to the quantum. *)
Lemma sim_step σ s s' e :
  implements σ s → kstep e s s' →
  (e ≠ EvClock → k_quantum_ticks s' = k_quantum_ticks s) ∧ ∃ σ', table_step σ σ' ∧ implements σ' s'.
Proof.
  intros Him Hst.
  assert (Hsame : ∀ s1 (e' : kevent), k_quantum_ticks s1 = k_quantum_ticks s ∧ (∃ σ', table_step σ σ' ∧ implements σ' s1) →
    (e' ≠ EvClock → k_quantum_ticks s1 = k_quantum_ticks s) ∧ ∃ σ', table_step σ σ' ∧ implements σ' s1) by tauto.
  destruct Hst as [s i r m Hi Hf|s s' i Hi Hcpu E|s s' ports Hp E|s s' i k v Hi H0 Hon Hsf Hlp E|
    s s' i Hi H0 Hcpu E|s s' i Hi H0 Hcpu E|s s' i pid v Hi Hon E|s s' i fd buffer size v Hi H0 Hon Hb E|s s' i f v Hi Hon Hf E].
  - apply Hsame. split; [done|]. exists σ. split; [constructor|]. by eapply sim_process.
  - split; [done|]. destruct (sim_clock σ s s' i Him Hi Hcpu E) as (_ & H1 & H2).
    destruct (decide (0 ≤ tick_quantum σ (k_quantum_ticks s) (quantum_of (k_mem s) (p_run σ)))) as [Hq|Hq].
    + exists σ. split; [constructor|auto].
    + destruct H2 as [Hr H2]; [lia|]. exists (rotate σ). split; [by constructor|done].
  - destruct (sim_key _ _ _ _ Him Hp E) as [Hq Him']. apply Hsame. split; [done|]. exists σ. split; [constructor|done].
  - apply Hsame. by apply (ret_of_wp _ _ _ _ _ (sim_fork σ s i k Him Hi H0 Hon Hsf Hlp)) in E.
  - apply Hsame. by apply (wp_or_ret _ _ _ _ _ _ _ (sim_exit σ s i Him Hi H0 Hcpu)) in E as [_ E].
  - apply Hsame. by apply (wp_or_ret _ _ _ _ _ _ _ (sim_block σ s i Him Hi H0 Hcpu)) in E as [_ E].
  - apply Hsame. by apply (ret_of_wp _ _ _ _ _ (sim_unblock σ s i pid Him Hi Hon)) in E.
  - apply Hsame. pose proof (sim_write σ s i fd buffer size Him Hi H0 Hon Hb) as Hw. case_decide; [|destruct Hw; congruence].
    destruct (ret_of_wp _ _ _ _ _ Hw E) as [Hq Him']. split; [done|]. exists σ. split; [constructor|done].
  - rewrite (sim_query _ _ _ _ _ _ Him Hi Hon Hf E). apply Hsame. split; [done|]. exists σ. split; [constructor|done].
Qed.

(** C2. Refinement.  The kernel implements the process table machine: whatever
    the running process does and whichever service or interrupt's service runs
    to its end, the new state implements the same table or one reached by one
    of its steps (a rotation, a fork, an exit, a block, a wake-up of a blocked
    child).  The releases of the keys d, n and c are not steps, and a service
    that overruns an array or the stack, or faults, does not end. *)
Theorem kernel_refines_table σ s s' e :
  implements σ s → kstep e s s' → ∃ σ', table_step σ σ' ∧ implements σ' s'.
Proof. intros Him Hst. by apply (sim_step _ _ _ _ Him Hst). Qed.

(** The states reached from the boot of the image [s0]. *)
Definition reachable (s0 s : kstate) : Prop :=
  ∃ s1, init_kernel s0 = Ret tt s1 ∧ rtc (λ x y, ∃ e, kstep e x y) s1 s.

Definition bootable (s0 : kstate) : Prop :=
  pm_ok (k_phys_mem s0) ∧ zero_image (k_mem s0) ∧ cursor_ok (k_console s0) ∧ k_last_pid s0 = 1.

Lemma reachable_implements s0 s :
  bootable s0 → reachable s0 s → ∃ σ, rtc table_step (boot_table boot_kids) σ ∧ implements σ s.
Proof.
  intros (H1 & H2 & H3 & H4) (s1 & E & Hr).
  assert (Hw : wp init_kernel s0 (λ _ s', implements (boot_table boot_kids) s')).
  { apply wp_init_kernel; [done..|]. intros s' code data Hinv Hc _ _ _ _ _ _ _ _ _. by exists code, {[1 := data]}. }
  unfold wp in Hw. rewrite E in Hw. clear H1 H2 H3 H4 E.
  assert (Hgen : ∀ σ, implements σ s1 → ∃ σ', rtc table_step σ σ' ∧ implements σ' s).
  { clear Hw. induction Hr as [s|s s1 s2 [e Hst] Hr IH]; intros σ Him; [by exists σ; split; [apply rtc_refl|]|].
    destruct (sim_step _ _ _ _ Him Hst) as (_ & σ1 & Ht & Him1). destruct (IH _ Him1) as (σ2 & Ht2 & Him2).
    exists σ2. split; [by eapply rtc_l|done]. }
  by apply Hgen.
Qed.

(** C1. Every state reached from the boot of a bootable image, by any sequence
    of steps of any length, implements a table reached from the boot table by
    the abstract machine.  The steps are those of kstep: anything the running
    process does by itself, the clock, the keys but d, n and c, and every
    system call with any arguments, as long as it ends: a switch to a task with
    an identifier from 100 on, and a write of a block that does not fit on the
    kernel stack or goes past the user region, do not. *)
Theorem reachable_states_implement s0 s :
  bootable s0 → reachable s0 s → ∃ σ, rtc table_step (boot_table boot_kids) σ ∧ implements σ s.
Proof. apply reachable_implements. Qed.

(** C6. Isolation.  In every state reached from boot by the steps of kstep
    (without the keys d, n and c, and up to the first service that overruns an
    array or its stack), what one live process can write in user mode, no other
    can read or write at any address, and neither reaches the kernel's
    memory. *)
Theorem process_isolation s0 s i j va vb w pa pb :
  bootable s0 → reachable s0 s →
  valid_task i → valid_task j → i ≠ 0 → j ≠ 0 → i ≠ j → ¬ on_free s i → ¬ on_free s j →
  0 ≤ va < 2 ^ 32 → 0 ≤ vb < 2 ^ 32 →
  translate_user (k_mem s) (dir_addr i) va true = Some pa →
  translate_user (k_mem s) (dir_addr j) vb w = Some pb →
  KERNEL_HI ≤ pa ∧ KERNEL_HI ≤ pb ∧ pa ≠ pb.
Proof.
  intros Hb Hr Hi Hj Hi0 Hj0 Hij Hif Hjf Hva Hvb Ha Hbb.
  destruct (reachable_implements _ _ Hb Hr) as (σ & _ & Him). rewrite (implements_free _ _ i Him) in Hif. rewrite (implements_free _ _ j Him) in Hjf.
  destruct Him as (code & data & Hinv & _). pose proof (ki_mm _ _ _ _ Hinv) as Hmm.
  destruct (proj2 (mi_dom _ _ _ _ Hmm i)) as [fs Hfs]; [done|].
  destruct (proj2 (mi_dom _ _ _ _ Hmm j)) as [gs Hgs]; [done|].
  destruct (spaces_apart σ code data s i fs j gs va vb w pa pb) as (_ & H1 & H2 & _ & H3); done.
Qed.

(** C8. When services fault.  In every state that implements a table, with the
    processor on the running task's kernel stack with room for a switch, unblock
    and (from its frame) fork run to completion; the clock, exit and block do
    exactly when they switch to no task or to one whose identifier is below
    100; and write exactly when the stack has room for the block, unless the
    block passes access_ok and goes past the user region.  No list walk runs
    out, no null or wild pointer is followed, no other buffer overflows. *)
Theorem services_fault_exactly_when σ s i :
  let q := tick_quantum σ (k_quantum_ticks s) (quantum_of (k_mem s) (p_run σ)) in
  let pid j := pid_of (k_mem s) j in
  implements σ s → has_cpu s i → cpu_ok i s →
  ((∃ s', clock_service zeos_show_clock s = Ret tt s') ↔ 0 ≤ q ∨ pid (p_run (rotate σ)) < 100) ∧
  (∀ p, ∃ v s', sys_unblock p s = Ret v s') ∧
  (i ≠ 0 →
     ((∃ s', sys_exit s = Ret tt s') ↔ pid (p_run (exit_table σ)) < 100) ∧
     ((∃ s', sys_block s = Ret tt s') ↔ pending_of (k_mem s) i ≠ 0 ∨ pid (p_run (block_table σ)) < 100) ∧
     (∀ k, service_frame s i k → 0 ≤ k_last_pid s < 2 ^ 31 - 2 → ∃ v s', sys_fork s = Ret v s') ∧
     (∀ fd buffer size, 0 ≤ buffer < 2 ^ 32 →
        (∃ v s', sys_write fd buffer size s = Ret v s') ↔ array_fits i s size ∧ ¬ past_region fd buffer size)).
Proof.
  intros q pid Him Hi Hcpu. pose proof (switch_room_on_stack _ _ (cpu_room _ _ Hcpu)) as Hon.
  pose proof (implements_run _ _ _ Him Hi) as Er.
  assert (Hrun : ∀ A (f : K A) R, wp f s R → ∃ v s', f s = Ret v s').
  { intros A f R Hw. unfold wp in Hw. destruct (f s) as [v s'|]; [by exists v, s'|done]. }
  assert (Hiff : ∀ ok (f : K unit) R, wp_or (BufferOverflow 3) ok f s R → (∃ s', f s = Ret tt s') ↔ ok = true).
  { intros ok f R Hw. unfold wp_or in Hw. destruct (f s) as [[] s'|]; destruct Hw as [-> _]; [|by split; [intros []|]].
    split; [done|]. by exists s'. }
  split_and!.
  - destruct Him as (code & data & Hinv & Hc). rewrite Er in Hcpu.
    rewrite (Hiff _ _ _ (clock_service_cases zeos_show_clock σ code data s (λ _ _, True) Hclk Hinv Hcpu ltac:(done) ltac:(done))).
    unfold tick_fits, shows_pid. by rewrite orb_true_iff, Z.leb_le, Z.ltb_lt.
  - intros p. by eapply Hrun, sim_unblock.
  - intros H0. split_and!.
    + rewrite (Hiff _ _ _ (sim_exit σ s i Him Hi H0 Hcpu)). apply Z.ltb_lt.
    + rewrite (Hiff _ _ _ (sim_block σ s i Him Hi H0 Hcpu)). unfold block_fits, shows_pid.
      rewrite orb_true_iff, negb_true_iff, Z.eqb_neq, Z.ltb_lt. by rewrite Er.
    + intros k Hk Hlp. by eapply Hrun, (sim_fork σ s i k).
    + intros fd buffer size Hb. pose proof (sim_write σ s i fd buffer size Him Hi H0 Hon Hb) as Hw. case_decide.
      * split; [done|]. intros _. by eapply Hrun.
      * destruct Hw as [f E]. split; [|done]. intros (v & s' & E'). congruence.
Qed.

(** C23. The process table in memory is sound in every state reached from boot
    by the steps of kstep: the ready, free and blocked queues are well-formed
    lists, each task but the idle one is in exactly one of them or has the
    processor, the idle task is neither blocked nor free, and live processes
    have different identifiers, positive but for the idle task's, which is
    0. *)
Theorem process_table_sound s0 s :
  bootable s0 → reachable s0 s →
  ∃ run ready free waiting,
    k_cr3 s = dir_addr run ∧ dlist (k_mem s) readyq (anchor_of <$> ready) ∧
    dlist (k_mem s) freeq (anchor_of <$> free) ∧ dlist (k_mem s) blocked (anchor_of <$> waiting) ∧
    NoDup (run :: ready ++ free ++ waiting) ∧
    (∀ i, valid_task i → i = 0 ∨ i ∈ run :: ready ++ free ++ waiting) ∧ 0 ∉ free ∧ 0 ∉ waiting ∧
    (∀ i j, valid_task i → valid_task j → i ∉ free → j ∉ free →
       pid_of (k_mem s) i = pid_of (k_mem s) j → i = j) ∧
    pid_of (k_mem s) 0 = 0 ∧ (∀ i, valid_task i → i ∉ free → i ≠ 0 → 1 ≤ pid_of (k_mem s) i).
Proof.
  intros Hb Hre. destruct (reachable_implements _ _ Hb Hre) as (σ & _ & code & data & [[Hc Hout] _ Hpid _] & Hcr).
  pose proof (qi_lists _ _ (sc_q _ _ Hc)) as Hl.
  assert (Hnd : ∀ q, NoDup (get_q q σ)).
  { intros q. pose proof (lists_nodup _ _ _ Hl _ _ (lists_of_q σ q)) as [_ Hn]%NoDup_cons. by apply NoDup_fmap_1 in Hn. }
  assert (Hd : ∀ q1 q2 i, q1 ≠ q2 → i ∈ get_q q1 σ → i ∉ get_q q2 σ).
  { intros q1 q2 i Hne H1 H2. apply Hne. by eapply queue_unique. }
  exists (p_run σ), (p_ready σ), (p_free σ), (p_blocked σ).
  split_and!; [done|exact (lists_dlist _ _ _ Hl _ _ (lists_of_q σ Ready))|exact (lists_dlist _ _ _ Hl _ _ (lists_of_q σ Free))|
    exact (lists_dlist _ _ _ Hl _ _ (lists_of_q σ Blocked))|..|apply Hc|apply Hc|exact (pi_uniq _ _ Hpid)|exact (pi_idle _ _ Hpid)|exact (pi_pos _ _ Hpid)].
  - apply NoDup_cons. split; [done|]. apply NoDup_app. split; [exact (Hnd Ready)|]. split.
    + intros i Hi [Hx|Hx]%elem_of_app; [by apply (Hd Ready Free i)|by apply (Hd Ready Blocked i)].
    + apply NoDup_app. split; [exact (Hnd Free)|]. split; [|exact (Hnd Blocked)].
      intros i Hi Hx. by apply (Hd Free Blocked i).
  - intros i Hi. destruct (sc_cover _ _ Hc i Hi) as [?|[->|?]]; [by left|right; apply list_elem_of_here|].
    right. by apply list_elem_of_further.
Qed.

(** ** Fairness *)

(** Nothing a step of the table does puts a task before a ready one. *)
Lemma table_step_place σ σ' k i :
  table_step σ σ' → p_ready σ !! k = Some i → p_run σ' = i ∨ ∃ k', (k' ≤ k)%nat ∧ p_ready σ' !! k' = Some i.
Proof.
  intros Hst Hk. destruct Hst as [σ|σ Hr|σ c l ks|σ|σ|σ j ks]; [right; by exists k|..].
  - destruct (p_ready σ) as [|n l] eqn:Er; [done|]. destruct (rotate_ready _ _ _ Er) as [-> ->].
    destruct k as [|k]; cbn in Hk; [left; congruence|]. right. exists k. split; [lia|]. by apply lookup_app_l_Some.
  - right. exists k. split; [lia|]. cbn. by apply lookup_app_l_Some.
  - unfold exit_table, pick. cbn. destruct (p_ready σ) as [|n l]; [done|].
    destruct k as [|k]; cbn in Hk |- *; [left; congruence|]. right. exists k. split; [lia|done].
  - unfold block_table, pick. cbn. destruct (p_ready σ) as [|n l]; [done|].
    destruct k as [|k]; cbn in Hk |- *; [left; congruence|]. right. exists k. split; [lia|done].
  - right. exists k. split; [lia|]. cbn. by apply lookup_app_l_Some.
Qed.

(** A run in which task [i] never has the processor, with the number of its
    clock interrupts. *)
Inductive waits (i : Z) : nat → kstate → kstate → Prop :=
  | waits_here s : k_cr3 s ≠ dir_addr i → waits i 0 s s
  | waits_step n e s s1 s2 :
      waits i n s s1 → kstep e s1 s2 → k_cr3 s2 ≠ dir_addr i →
      waits i (if decide (e = EvClock) then S n else n) s s2.

(** Where the task is after [n] interrupts, and what is left of the quantum. *)
Definition still_waits (q : Z) (k n : nat) (i : Z) (s : kstate) : Prop :=
  ∃ σ k', implements σ s ∧ p_ready σ !! k' = Some i ∧ (k' ≤ k)%nat ∧
    k_quantum_ticks s = q - Z.of_nat n ∧ Z.of_nat n ≤ Z.max 0 q + Z.of_nat k - Z.of_nat k'.

Lemma still_waits_tick q k n i s s' j :
  still_waits q k n i s → (k < 16)%nat → - 2 ^ 31 + 32 ≤ q < 2 ^ 31 → has_cpu s j → cpu_ok j s →
  clock_service zeos_show_clock s = Ret tt s' → k_cr3 s' ≠ dir_addr i → still_waits q k (S n) i s'.
Proof.
  intros (σ & k' & Him & Hk & Hle & Hq & Hn) Hk16 Hqr Hj Hcpu E Hne.
  destruct (sim_clock σ s s' j Him Hj Hcpu E) as (Eq & H1 & H2).
  assert (Et : tick_quantum σ (k_quantum_ticks s) (quantum_of (k_mem s) (p_run σ)) = q - Z.of_nat (S n)).
  { unfold tick_quantum. destruct (p_ready σ); [done|]. rewrite Hq, s32_small; lia. }
  rewrite Et in *. destruct (decide (0 ≤ q - Z.of_nat (S n))) as [H0|H0].
  - exists σ, k'. split_and!; [auto|done|done|done|lia].
  - destruct H2 as [_ Him']; [lia|]. destruct (p_ready σ) as [|n0 l] eqn:Er; [done|].
    destruct (rotate_ready _ _ _ Er) as [E1 E2]. destruct k' as [|k']; cbn in Hk.
    + destruct Hne. destruct Him' as (? & ? & _ & ->). rewrite E1. congruence.
    + exists (rotate σ), k'. split_and!; [done|rewrite E2; by apply lookup_app_l_Some|lia|done|lia].
Qed.

Lemma still_waits_step q k n i e s s' :
  still_waits q k n i s → (k < 16)%nat → - 2 ^ 31 + 32 ≤ q < 2 ^ 31 → kstep e s s' → k_cr3 s' ≠ dir_addr i →
  still_waits q k (if decide (e = EvClock) then S n else n) i s'.
Proof.
  intros Hw Hk16 Hqr Hst Hne. case_decide as He.
  - subst e. inversion Hst; subst. by eapply still_waits_tick.
  - destruct Hw as (σ & k' & Him & Hk & Hle & Hq & Hn). destruct (sim_step _ _ _ _ Him Hst) as (Hqs & σ' & Ht & Him').
    destruct (table_step_place _ _ _ _ Ht Hk) as [Er|(k'' & Hk'' & Hl)].
    + destruct Hne. destruct Him' as (? & ? & _ & ->). congruence.
    + exists σ', k''. split_and!; [done|done|lia|rewrite Hqs by done; done|lia].
Qed.

Lemma ready_place σ s k i : implements σ s → p_ready σ !! k = Some i → (k < 16)%nat.
Proof.
  intros (? & ? & [[Hc _] _ _ _] & _) Hk. pose proof (qi_lists _ _ (sc_q _ _ Hc)) as Hl.
  pose proof (lists_nodup _ _ _ Hl _ _ (lists_of_q σ Ready)) as [_ Hn]%NoDup_cons. apply NoDup_fmap_1 in Hn.
  assert (Hv : ∀ j, j ∈ p_ready σ → valid_task j) by (intros j Hj; apply (qi_valid _ _ (sc_q _ _ Hc)); by apply (queued_q _ Ready)).
  pose proof (valid_nodup_length (p_ready σ) Hn Hv). apply lookup_lt_Some in Hk. unfold NR_TASKS in *. lia.
Qed.

(** C12. Bounded waiting.  Whatever the other tasks do meanwhile (compute, fork,
    exit, block, unblock, write, any number of times), a task at place [k] of
    the ready queue sees at most as many clock interrupts as ticks are left of
    the quantum plus [k] before it has the processor: it is never overtaken,
    and the quantum, once spent, is not renewed by a switch.  The steps are
    those of kstep, and the counter of the quantum is not about to pass the
    least integer. *)
Theorem ready_task_gets_the_processor σ s s' (k n : nat) i :
  implements σ s → p_ready σ !! k = Some i → - 2 ^ 31 + 32 ≤ k_quantum_ticks s < 2 ^ 31 →
  waits i n s s' → Z.of_nat n ≤ Z.max 0 (k_quantum_ticks s) + Z.of_nat k.
Proof.
  intros Him Hk Hq Hw. pose proof (ready_place _ _ _ _ Him Hk) as Hk16.
  enough (still_waits (k_quantum_ticks s) k n i s') as (? & ? & _ & _ & _ & _ & ?) by lia.
  induction Hw as [s Hne|n e s s1 s2 Hw IH Hst Hne].
  - exists σ, k. split_and!; [done|done|lia|lia|lia].
  - by apply (still_waits_step _ _ _ _ e s1); [apply IH|..].
Qed.
End Reach.
