(* ===== verification/Keyboard.v ===== *)
(** The keyboard's interrupt as a process sees it: any key is transparent, but
    for the releases of d, n and c, which switch tasks behind the scheduler's
    back. *)

From S2P Require Import Prelude Memory CList Libc Console Frames Types Kernel Task Paging Utils Switch.
From S2P Require Import Sched Policy Space Process Sys Tick Write Entry Calls Interrupt Irq Reach.
#[local] Open Scope Z_scope.

Section Keyboard.
Context {L : Layout} {LO : LayoutOk L}.






Section Handler.
Context (σ : ptable) (code : list Z) (data : gmap Z (list Z)) (j : Z) (s : kstate).
Context (Hum : user_mode σ code data j s) (Hj : sizeof_task_struct + 108 ≤ 4 * j).
Context (handler ra : Z) (Hra : 0 ≤ ra < 2 ^ 32).
Context (Hh : handler ∉ [addr_cpu_idle; addr_ret_from_fork; addr_task_switch_ret]).


End Handler.



End Keyboard.
