(* ===== verification/Build.v ===== *)
(** build.c: the host tool that makes the disk image out of the boot sector,
    the system and the user program, and what the kernel finds in memory when
    such an image has been loaded. *)

From Stdlib Require Import Ascii.
From stdpp Require Import strings.
From S2P Require Import Prelude Memory CList Libc Console Frames Types Kernel Task Paging Utils Switch.
From S2P Require Import Sched Policy Space Process Init Sys Write Entry Calls Interrupt System.
#[local] Open Scope Z_scope.

(** ** The tool's state

    The output file and its offset, what is left to read of the open input
    file and its size, the buffer [byte buf[1024]], what was printed on the
    standard error output, and the number of system calls made. *)
Record bstate : Type := BState {
  b_out : list Z;
  b_pos : nat;
  b_in : list Z;
  b_size : Z;
  b_buf : list Z;
  b_log : list (string * Z);
  b_calls : nat;
}.

Abbreviation B := (M bstate).

Definition build_start : bstate := BState [] 0 [] 0 (replicate 1024 0) [] 0.

(** What the operating system does with a call: all it is asked to do; for a
    read or a write, only a part of it; or nothing, with the result -1. *)
Inductive answer : Type := Works | Short (k : nat) | Fails.

(** ** System calls, on regular files *)
Section Build.
Context (files : string → option (list Z)) (env : nat → answer).

Definition syscall : B answer := λ s,
  Ret (env (b_calls s)) (BState (b_out s) (b_pos s) (b_in s) (b_size s) (b_buf s) (b_log s) (S (b_calls s))).

(** The offset of the input file is at its start. *)
Definition enter_file (c : list Z) : B unit := λ s,
  Ret tt (BState (b_out s) (b_pos s) c (Z.of_nat (length c)) (b_buf s) (b_log s) (b_calls s)).

Definition open (name : string) : B Z :=
  let! r := syscall in
  match r, files name with
  | Works, Some c => enter_file c ;! ret 3
  | _, _ => ret (-1)
  end.

(** The size goes to [sb.st_size], which is [b_size]. *)
Definition fstat : B Z :=
  let! r := syscall in
  match r with Works => ret 0 | _ => ret (-1) end.

(** A read or a write of [n] bytes. *)
Definition transfer (n : Z) (f : nat → B Z) : B Z :=
  let! r := syscall in
  match r with
  | Works => f (Z.to_nat n)
  | Short k => f (Nat.min k (Z.to_nat n))
  | Fails => ret (-1)
  end.

Definition take_in (n : nat) : B Z := λ s,
  let got := take n (b_in s) in
  Ret (Z.of_nat (length got))
    (BState (b_out s) (b_pos s) (drop n (b_in s)) (b_size s) (got ++ drop (length got) (b_buf s)) (b_log s) (b_calls s)).

Definition read_in (n : Z) : B Z := transfer n take_in.

(** Bytes [ds] at offset [p] of a file; a gap before them reads as zeros. *)
Definition overwrite (p : nat) (ds out : list Z) : list Z :=
  resize p 0 out ++ ds ++ drop (p + length ds) out.

Definition put_out (n : nat) : B Z := λ s,
  Ret (Z.of_nat n)
    (BState (overwrite (b_pos s) (take n (b_buf s)) (b_out s)) (b_pos s + n) (b_in s) (b_size s) (b_buf s) (b_log s) (b_calls s)).

Definition write_out (n : Z) : B Z := transfer n put_out.

Definition seek_to (p : nat) : B unit := λ s,
  Ret tt (BState (b_out s) p (b_in s) (b_size s) (b_buf s) (b_log s) (b_calls s)).

Definition lseek (p : Z) : B Z :=
  let! r := syscall in
  match r with Works => seek_to (Z.to_nat p) ;! ret p | _ => ret (-1) end.

Definition fprintf (msg : string) (n : Z) : B unit := λ s,
  Ret tt (BState (b_out s) (b_pos s) (b_in s) (b_size s) (b_buf s) (b_log s ++ [(msg, n)]) (b_calls s)).

Definition bget (i : nat) : B Z := gets (λ s, nth i (b_buf s) 0).

Definition bset (i : nat) (v : Z) : B unit := λ s,
  Ret tt (BState (b_out s) (b_pos s) (b_in s) (b_size s) (<[i := u8 v]> (b_buf s)) (b_log s) (b_calls s)).

(** ** build.c *)

(** Prints its message and exits; [%m], the text of [errno], is left out of
    the messages. *)
Definition die {A} (str : string) : B A := fail (Exit 1 str).

Definition MINIX_HEADER_LEN : Z := 32.

Definition hdr : list Z := [0x01; 0x03; 0x10; 0x04; 0x20; 0x00; 0x00; 0x00].

(** [lb[i]] with [u32 *lb = (u32 * ) buf] *)
Definition lb (i : nat) : B Z :=
  let! a := bget (4 * i) in
  let! b := bget (4 * i + 1) in
  let! c := bget (4 * i + 2) in
  let! d := bget (4 * i + 3) in
  ret (a + Z.shiftl b 8 + Z.shiftl c 16 + Z.shiftl d 24).

Definition minix_open (name : string) : B unit :=
  let! fd := open name in
  if fd <? 0 then die ("Unable to open " +:+ name) else
  let! n := read_in MINIX_HEADER_LEN in
  if negb (n =? MINIX_HEADER_LEN) then die (name +:+ ": Unable to read header") else
  let! h := gets (λ s, take 8 (b_buf s)) in
  let! l5 := lb 5 in
  if negb (bool_decide (h = hdr)) || negb (l5 =? 0) then die (name +:+ ": Non-Minix header") else
  let! l3 := lb 3 in
  if negb (l3 =? 0) then die (name +:+ ": Illegal data segment") else
  let! l4 := lb 4 in
  if negb (l4 =? 0) then die (name +:+ ": Illegal bss segment") else
  let! l7 := lb 7 in
  if negb (l7 =? 0) then die (name +:+ ": Illegal symbol table") else
  ret tt.

Definition usage {A} : B A := die "Usage: build bootsect system user [> image]".

(** [while (sz > 0)]: a file is copied a buffer at a time. *)
Fixpoint copy_file (fuel : nat) (name : string) (sz : Z) : B unit :=
  match fuel with
  | O => fail OutOfFuel
  | Datatypes.S fuel' =>
      if 0 <? sz then
        let l := if 1024 <? sz then 1024 else sz in
        let! n := read_in l in
        if negb (n =? l) then
          if n <? 0 then die ("Error reading " +:+ name) else die (name +:+ ": Unexpected EOF")
        else
          let! w := write_out l in
          if negb (w =? l) then die "Write failed" else
          copy_file fuel' name (sz - l)
      else ret tt
  end.

(** Open a file, print its size and copy it; the result is the size. *)
Definition add_file (name : string) (msg : string) : B Z :=
  let! fd := open name in
  if fd <? 0 then die ("Unable to open " +:+ name) else
  let! r := fstat in
  if negb (r =? 0) then die ("Unable to stat " +:+ name) else
  let! st := gets b_size in
  let sz := u32 st in
  fprintf msg (sz / 1024) ;!
  copy_file (S (Z.to_nat sz)) name sz ;!
  ret sz.

(** Three bytes of a size and a zero, at offset [p] of the output. *)
Definition patch_size (p n : Z) (err : string) : B unit :=
  bset 0 (Z.land n 0xff) ;!
  bset 1 (Z.land (Z.shiftr n 8) 0xff) ;!
  bset 2 (Z.land (Z.shiftr n 16) 0xff) ;!
  bset 3 0 ;!
  let! q := lseek p in
  if negb (q =? p) then die "Output: seek failed" else
  let! w := write_out 4 in
  if negb (w =? 4) then die err else ret tt.

(** Copy the boot sector. *)
Definition boot_sector (name : string) : B unit :=
  minix_open name ;!
  let! i := read_in 1024 in
  fprintf "Boot sector %d bytes." i ;!
  if negb (i =? 512) then die "Boot block must be exactly 512 bytes" else
  let! b510 := bget 510 in
  let! b511 := bget 511 in
  if negb (b510 =? 0x55) || negb (b511 =? 0xaa) then die "Boot block hasn't got boot flag (0xAA55)" else
  bset 508 0 ;!
  bset 509 0 ;!
  let! w := write_out 512 in
  if negb (w =? 512) then die "Write call failed" else ret tt.

(** The files are closed where the source closes them; close changes nothing
    here and its result is not used. *)
Definition build_main (argv : list string) : B Z :=
  match argv with
  | [_; bootsect; system; user] =>
      boot_sector bootsect ;!
      let! sys_size := add_file system "System is %d kB" in
      let! usr_size := add_file user "User is %d kB" in
      let im_size := u32 (sys_size + usr_size + 15) / 16 in
      fprintf "Image is %d kB" (Z.quot (s32 (sys_size + usr_size)) 1024) ;!
      bset 0 (Z.land im_size 0xff) ;!
      bset 1 (Z.land (Z.shiftr im_size 8) 0xff) ;!
      let! q := lseek 500 in
      if negb (q =? 500) then die "Output: seek failed" else
      let! w := write_out 2 in
      if negb (w =? 2) then die "Write of image length failed" else
      patch_size 512 sys_size "Write of system length failed" ;!
      patch_size 516 usr_size "Write of user length failed" ;!
      patch_size 520 0x7E6A "Write of user length failed" ;!
      ret 0
  | _ => usage
  end.

(** ** Runs that return or die *)

(** Every system call does all it is asked to do. *)
Definition works : Prop := ∀ n, env n = Works.

(** [m] returns with [Q], or stops the tool with exit status 1, and then [ok]
    does not hold. *)
Definition runs {A} (ok : Prop) (m : B A) (s : bstate) (Q : A → bstate → Prop) : Prop :=
  match m s with
  | Ret a s' => Q a s'
  | Fault f => (∃ msg, f = Exit 1 msg) ∧ ¬ ok
  end.

Lemma runs_wp {A} ok (m : B A) s Q : wp m s Q → runs ok m s Q.
Proof. unfold wp, runs. by destruct (m s). Qed.

Lemma runs_die {A} ok msg s (Q : A → bstate → Prop) : ¬ ok → runs ok (die msg) s Q.
Proof. intros Hn. cbn. eauto. Qed.

Lemma runs_bind {A C} ok (m : B A) (k : A → B C) s Q :
  runs ok m s (λ a s', runs ok (k a) s' Q) → runs ok (bind m k) s Q.
Proof. unfold runs, bind. by destruct (m s). Qed.

Lemma runs_mono {A} (ok ok' : Prop) (m : B A) s (Q Q' : A → bstate → Prop) :
  runs ok m s Q → (ok' → ok) → (∀ a s', Q a s' → Q' a s') → runs ok' m s Q'.
Proof. unfold runs. destruct (m s); [auto|]. intros [H1 H2]. auto. Qed.

Lemma runs_check {A} (ok : Prop) (b : bool) msg (k : B A) s Q :
  (ok → b = true) → (b = true → runs ok k s Q) → runs ok (if negb b then die msg else k) s Q.
Proof. destruct b; [auto|]. intros Hok _. apply runs_die. intros H. by specialize (Hok H). Qed.

(** What a call may do. *)
Definition called (s : bstate) : bstate :=
  BState (b_out s) (b_pos s) (b_in s) (b_size s) (b_buf s) (b_log s) (S (b_calls s)).

Lemma works_call n : env n ≠ Works → ¬ works.
Proof. intros Hn Hw. by apply Hn. Qed.

Lemma wp_open name s R :
  (∀ c, files name = Some c →
     R 3 (BState (b_out s) (b_pos s) c (Z.of_nat (length c)) (b_buf s) (b_log s) (S (b_calls s)))) →
  (¬ (works ∧ is_Some (files name)) → R (-1) (called s)) → wp (open name) s R.
Proof.
  intros H1 H2. unfold open, wp, bind, syscall. destruct (env (b_calls s)) eqn:E.
  - destruct (files name) as [c|]; [by apply H1|]. apply H2. intros [_ [? ?]]. done.
  - apply H2. intros [Hw _]. by rewrite Hw in E.
  - apply H2. intros [Hw _]. by rewrite Hw in E.
Qed.

Lemma wp_fstat s R : R 0 (called s) → (¬ works → R (-1) (called s)) → wp fstat s R.
Proof.
  intros H1 H2. unfold fstat, wp, bind, syscall.
  destruct (env (b_calls s)) eqn:E; [done|apply H2, (works_call (b_calls s)); by rewrite E..].
Qed.

Lemma wp_transfer n f s R :
  (∀ k, (k ≤ Z.to_nat n)%nat → (works → k = Z.to_nat n) → wp (f k) (called s) R) →
  (¬ works → R (-1) (called s)) → wp (transfer n f) s R.
Proof.
  intros H1 H2. unfold transfer. apply wp_bind. unfold wp at 1, syscall. fold (called s).
  destruct (env (b_calls s)) as [|k|] eqn:E; [by apply H1| |].
  - apply H1; [lia|]. intros Hw. by rewrite Hw in E.
  - apply wp_ret, H2. intros Hw. by rewrite Hw in E.
Qed.

(** The state after [k] bytes were read. *)
Definition took (k : nat) (s : bstate) : bstate :=
  BState (b_out s) (b_pos s) (drop k (b_in s)) (b_size s)
    (take k (b_in s) ++ drop (length (take k (b_in s))) (b_buf s)) (b_log s) (S (b_calls s)).

(** A read whose result has to be what was asked for. *)
Lemma runs_read_exact {A} (ok : Prop) l (D : Z → B A) (k : B A) s Q :
  0 ≤ l → (ok → works ∧ l ≤ Z.of_nat (length (b_in s))) → (∀ n s', ∃ msg, D n s' = Fault (Exit 1 msg)) →
  (l ≤ Z.of_nat (length (b_in s)) → runs ok k (took (Z.to_nat l) s) Q) →
  runs ok (let! n := read_in l in if negb (n =? l) then D n else k) s Q.
Proof.
  intros Hl Hok HD Hk. assert (Hdie : ∀ n s', ¬ ok → runs ok (D n) s' Q).
  { intros n s' Hn. unfold runs. destruct (HD n s') as [msg ->]. eauto. }
  apply runs_bind, runs_wp, wp_transfer.
  - intros j Hj Hw. unfold wp, take_in. cbn [called b_in b_out b_pos b_size b_buf b_log b_calls].
    destruct (Z.eqb_spec (Z.of_nat (length (take j (b_in s)))) l) as [E|E]; cbn [negb].
    + rewrite length_take in E. assert (j = Z.to_nat l) as -> by lia. apply Hk. lia.
    + apply Hdie. intros H. destruct (Hok H) as [Hwk Hle]. rewrite length_take, (Hw Hwk) in E. lia.
  - intros Hn. destruct (Z.eqb_spec (-1) l); [lia|]. cbn [negb]. apply Hdie. intros H. by destruct (Hok H).
Qed.

(** The state after [n] bytes were written. *)
Definition wrote (n : nat) (s : bstate) : bstate :=
  BState (overwrite (b_pos s) (take n (b_buf s)) (b_out s)) (b_pos s + n) (b_in s) (b_size s) (b_buf s) (b_log s) (S (b_calls s)).

Lemma runs_write {A} (ok : Prop) n msg (k : B A) s Q :
  0 ≤ n → (ok → works) → runs ok k (wrote (Z.to_nat n) s) Q →
  runs ok (let! w := write_out n in if negb (w =? n) then die msg else k) s Q.
Proof.
  intros Hn Hok Hk. apply runs_bind, runs_wp, wp_transfer.
  - intros j Hj Hw. unfold wp, put_out. apply runs_check; [intros H; rewrite (Hw (Hok H)); apply Z.eqb_eq; lia|].
    intros E%Z.eqb_eq. assert (j = Z.to_nat n) as -> by lia. exact Hk.
  - intros Hnw. apply runs_check; [intros H; by destruct Hnw; apply Hok|]. intros E%Z.eqb_eq. lia.
Qed.

Definition sought (p : nat) (s : bstate) : bstate :=
  BState (b_out s) p (b_in s) (b_size s) (b_buf s) (b_log s) (S (b_calls s)).

Lemma runs_lseek {A} (ok : Prop) p msg (k : B A) s Q :
  0 ≤ p → (ok → works) → runs ok k (sought (Z.to_nat p) s) Q →
  runs ok (let! q := lseek p in if negb (q =? p) then die msg else k) s Q.
Proof.
  intros Hp Hok Hk. apply runs_bind. unfold lseek. apply runs_bind, runs_wp. unfold wp, syscall. fold (called s).
  assert (Hbad : ¬ works → runs ok (ret (-1)) (called s) (λ q s', runs ok (if negb (q =? p) then die msg else k) s' Q)).
  { intros Hn. apply runs_wp, wp_ret, runs_check; [intros H; by destruct Hn; apply Hok|]. intros E%Z.eqb_eq. lia. }
  destruct (env (b_calls s)) eqn:E; [|apply Hbad, (works_call (b_calls s)); by rewrite E..].
  apply runs_bind, runs_wp. unfold wp, seek_to. apply runs_wp, wp_ret. rewrite Z.eqb_refl. exact Hk.
Qed.

(** ** What it writes *)

(** The output so far is [out], with the offset at its end. *)
Record at_end (out : list Z) (s : bstate) : Prop := {
  ae_out : b_out s = out;
  ae_pos : b_pos s = length out;
  ae_buf : length (b_buf s) = 1024%nat;
}.

Lemma overwrite_end (ds out : list Z) : overwrite (length out) ds out = out ++ ds.
Proof. unfold overwrite. rewrite resize_all_alt, drop_ge by lia. by rewrite app_nil_r. Qed.

Lemma runs_copy_file ok fuel name sz out s :
  (ok → works) → at_end out s → 0 ≤ sz ≤ Z.of_nat (length (b_in s)) → sz < Z.of_nat fuel →
  runs ok (copy_file fuel name sz) s (λ _ s', at_end (out ++ take (Z.to_nat sz) (b_in s)) s').
Proof.
  intros Hok. revert sz out s. induction fuel as [|fuel IH]; intros sz out s Hs Hsz Hf; [lia|]. cbn [copy_file].
  destruct (Z.ltb_spec 0 sz) as [Hpos|]; [|apply runs_wp, wp_ret; replace sz with 0 by lia; by rewrite app_nil_r].
  set (l := if 1024 <? sz then 1024 else sz).
  assert (Hl : 1 ≤ l ≤ sz ∧ l ≤ 1024) by (subst l; destruct (Z.ltb_spec 1024 sz); lia). clearbody l.
  apply (runs_read_exact ok l (λ n, if n <? 0 then die _ else die _)); [lia|intros H; split; [by apply Hok|lia]|
    intros n s'; destruct (n <? 0); cbn; eauto|]. intros _.
  apply runs_write; [lia|done|].
  destruct s as [o p inp z buf lg cs]. destruct Hs as [Ho Hp Hb]. cbn in *. subst o p.
  assert (Hg : length (take (Z.to_nat l) inp) = Z.to_nat l) by (rewrite length_take; lia).
  eapply runs_mono; [apply (IH _ (out ++ take (Z.to_nat l) inp))|done|]; cbn -[overwrite].
  - split; cbn -[overwrite].
    + rewrite Hg, take_app_le, (take_ge (take _ _)) by lia. apply overwrite_end.
    + rewrite length_app. lia.
    + rewrite length_app, length_drop. lia.
  - rewrite length_drop. lia.
  - lia.
  - intros [] s' Hs'. rewrite <- app_assoc in Hs'.
    replace (take (Z.to_nat sz) inp) with (take (Z.to_nat l) inp ++ take (Z.to_nat (sz - l)) (drop (Z.to_nat l) inp));
      [done|]. rewrite take_drop_commute, <- (take_drop (Z.to_nat l) (take (Z.to_nat sz) inp)) at 1.
    rewrite take_take. do 2 f_equal; [lia|]. f_equal; lia.
Qed.

(** What is copied of a file: its size is kept in 32 bits. *)
Definition cut (c : list Z) : list Z := take (Z.to_nat (u32 (Z.of_nat (length c)))) c.

Lemma cut_length c : Z.of_nat (length (cut c)) = u32 (Z.of_nat (length c)).
Proof.
  unfold cut. rewrite length_take. unfold u32. pose proof (Z.mod_pos_bound (Z.of_nat (length c)) (2 ^ 32) ltac:(lia)).
  pose proof (Z.mod_le (Z.of_nat (length c)) (2 ^ 32) ltac:(lia) ltac:(lia)). lia.
Qed.

Lemma cut_small c : Z.of_nat (length c) < 2 ^ 32 → cut c = c.
Proof. intros Hc. unfold cut. rewrite u32_small, Nat2Z.id by lia. by apply take_ge. Qed.

Lemma runs_add_file (ok : Prop) name msg out s :
  (ok → works ∧ is_Some (files name)) → at_end out s →
  runs ok (add_file name msg) s (λ n s', ∃ c, files name = Some c ∧ n = Z.of_nat (length (cut c)) ∧ at_end (out ++ cut c) s').
Proof.
  intros Hok [Ho Hp Hb]. unfold add_file. apply runs_bind, runs_wp, wp_open.
  2:{ intros Hn. apply runs_die. auto. }
  intros c Hc. change (3 <? 0) with false. cbn iota. apply runs_bind, runs_wp, wp_fstat.
  2:{ intros Hn. apply runs_die. intros [Hw _]%Hok. done. }
  cbn [Z.eqb negb]. apply runs_bind, runs_wp, wp_gets. cbn [called b_size]. rewrite <- cut_length. cbv zeta.
  apply runs_bind, runs_wp. unfold wp, fprintf.
  cbn [called b_out b_pos b_in b_size b_buf b_log b_calls]. apply runs_bind.
  pose proof (cut_length c) as Hl. pose proof (Z.mod_le (Z.of_nat (length c)) (2 ^ 32) ltac:(lia) ltac:(lia)) as Hm.
  unfold u32 in Hl.
  eapply runs_mono; [apply (runs_copy_file ok _ _ _ out); [by intros [Hw _]%Hok|by split|cbn; lia|lia]|done|].
  cbn [b_in]. intros [] s' Hs'. apply runs_wp, wp_ret. exists c. split_and!; [done|done|].
  unfold cut, u32 in *. by rewrite <- Hl.
Qed.

(** The four bytes patch_size writes. *)
Definition size_bytes (n : Z) : list Z :=
  [Z.land n 0xff; Z.land (Z.shiftr n 8) 0xff; Z.land (Z.shiftr n 16) 0xff; 0].

Lemma byte_land n : u8 (Z.land n 0xff) = Z.land n 0xff.
Proof.
  change 0xff with (Z.ones 8). rewrite Z.land_ones by lia. unfold u8. apply Z.mod_small.
  apply Z.mod_pos_bound. lia.
Qed.

Lemma buf_four (a b c d : Z) (buf : list Z) :
  (4 ≤ length buf)%nat → take 4 (<[3%nat := d]> (<[2%nat := c]> (<[1%nat := b]> (<[0%nat := a]> buf)))) = [a; b; c; d].
Proof. destruct buf as [|? [|? [|? [|? buf]]]]; cbn; try lia. done. Qed.

Lemma buf_two (a b : Z) (buf : list Z) :
  (4 ≤ length buf)%nat → take 2 (<[1%nat := b]> (<[0%nat := a]> buf)) = [a; b].
Proof. destruct buf as [|? [|? buf]]; cbn; try lia. done. Qed.

Lemma wp_bset i v s R :
  R tt (BState (b_out s) (b_pos s) (b_in s) (b_size s) (<[i := u8 v]> (b_buf s)) (b_log s) (b_calls s)) → wp (bset i v) s R.
Proof. done. Qed.

Lemma runs_patch_size (ok : Prop) p n err out s :
  (ok → works) → b_out s = out → length (b_buf s) = 1024%nat → 0 ≤ p →
  runs ok (patch_size p n err) s (λ _ s', b_out s' = overwrite (Z.to_nat p) (size_bytes n) out ∧ length (b_buf s') = 1024%nat).
Proof.
  intros Hok Ho Hb Hp. destruct s as [o q inp z buf lg cs]. cbn in *. subst o. unfold patch_size.
  do 4 apply runs_bind, runs_wp, wp_bset. cbn [b_out b_pos b_in b_size b_buf b_log b_calls].
  apply runs_lseek; [done..|]. apply runs_write; [lia|done|]. unfold wrote, sought.
  cbn [b_out b_pos b_in b_size b_buf b_log b_calls].
  change (Z.to_nat 4) with 4%nat. rewrite buf_four, !byte_land by lia. apply runs_wp, wp_ret. cbn [b_out b_buf].
  by rewrite !length_insert.
Qed.

Lemma overwrite_middle p (l1 l2 l3 ds : list Z) :
  length l1 = p → length l2 = length ds → overwrite p ds (l1 ++ l2 ++ l3) = l1 ++ ds ++ l3.
Proof.
  intros <- H2. unfold overwrite. rewrite resize_le by (rewrite length_app; lia). rewrite take_app_length. do 2 f_equal.
  rewrite app_assoc, drop_app_ge by (rewrite length_app; lia). rewrite length_app, H2.
  by replace (length l1 + length ds - (length l1 + length ds))%nat with O by lia.
Qed.

(** ** The boot sector *)

(** What minix_open and the test of the boot flag accept. *)
Definition word (c : list Z) (i : nat) : Z :=
  nth (4 * i) c 0 + Z.shiftl (nth (4 * i + 1) c 0) 8 + Z.shiftl (nth (4 * i + 2) c 0) 16
  + Z.shiftl (nth (4 * i + 3) c 0) 24.

Definition header_ok (c : list Z) : bool :=
  (32 <=? length c)%nat && (bool_decide (take 8 c = hdr) && (word c 5 =? 0) &&
  ((word c 3 =? 0) && ((word c 4 =? 0) && (word c 7 =? 0)))).

(** A header, 512 bytes after it, and the signature at their end. *)
Definition boot_flag (c : list Z) : bool :=
  header_ok c && ((544 <=? length c)%nat && ((nth 542 c 0 =? 0x55) && (nth 543 c 0 =? 0xaa))).

(** ... and nothing after that. *)
Definition valid_boot (c : list Z) : bool := boot_flag c && (length c =? 544)%nat.

Lemma boot_flag_length c : boot_flag c = true → (544 ≤ length c)%nat.
Proof. unfold boot_flag. rewrite !andb_true_iff. intros (_ & H & _). by apply Nat.leb_le. Qed.

Lemma valid_boot_flag c : valid_boot c = true → boot_flag c = true.
Proof. unfold valid_boot. rewrite andb_true_iff. by intros [H _]. Qed.

(** The state after the header has been read. *)
Definition header_read (c : list Z) (s s' : bstate) : Prop :=
  b_out s' = b_out s ∧ b_pos s' = b_pos s ∧ b_in s' = drop 32 c ∧ b_buf s' = take 32 c ++ drop 32 (b_buf s).

Lemma nth_take_lt (c : list Z) n j : (j < n)%nat → nth j (take n c) 0 = nth j c 0.
Proof. intros. rewrite !nth_lookup. by rewrite lookup_take_lt. Qed.

Lemma nth_drop_add (c : list Z) n j : nth j (drop n c) 0 = nth (n + j) c 0.
Proof. by rewrite !nth_lookup, lookup_drop. Qed.

Lemma wp_lb c s i (buf : list Z) R :
  (32 ≤ length c)%nat → b_buf s = take 32 c ++ buf → (i < 8)%nat → R (word c i) s → wp (lb i) s R.
Proof.
  intros Hc Hb Hi HR. unfold lb. do 4 apply wp_bind, wp_gets. apply wp_ret. rewrite Hb.
  rewrite !app_nth1 by (rewrite length_take; lia). rewrite !nth_take_lt by lia. exact HR.
Qed.

Lemma runs_minix_open (ok : Prop) name s :
  (ok → works ∧ ∃ c, files name = Some c ∧ header_ok c = true) →
  runs ok (minix_open name) s (λ _ s', ∃ c, files name = Some c ∧ header_ok c = true ∧ header_read c s s').
Proof.
  intros Hok. unfold minix_open. apply runs_bind, runs_wp, wp_open.
  2:{ intros Hn. apply runs_die. intros (Hw & c & Hc & _)%Hok. apply Hn. eauto. }
  intros c Hc. change (3 <? 0) with false. cbn iota.
  assert (Hhd : ok → (32 ≤ length c)%nat ∧ bool_decide (take 8 c = hdr) && (word c 5 =? 0) = true ∧
    (word c 3 =? 0) = true ∧ (word c 4 =? 0) = true ∧ (word c 7 =? 0) = true).
  { intros (_ & c' & Hc' & H)%Hok. assert (c' = c) as -> by congruence. unfold header_ok in H.
    apply andb_true_iff in H as [?%Nat.leb_le H]. apply andb_true_iff in H as [? H]. apply andb_true_iff in H as [? H].
    by apply andb_true_iff in H as [? ?]. }
  assert (Hwk : ok → works) by (by intros [? _]%Hok).
  apply (runs_read_exact ok MINIX_HEADER_LEN (λ _, die _)); [done| |cbn; eauto|]; unfold MINIX_HEADER_LEN; cbn [b_in].
  { intros H. split; [by apply Hwk|]. apply Hhd in H as [? _]. lia. }
  intros Hlz. assert (Hl : (32 ≤ length c)%nat) by lia. change (Z.to_nat 32) with 32%nat.
  set (s1 := took _ _).
  assert (Hb : b_buf s1 = take 32 c ++ drop 32 (b_buf s))
    by (unfold s1, took; cbn [b_buf b_in]; by rewrite (length_take_le c 32) by lia).
  apply runs_bind, runs_wp, wp_gets. apply runs_bind, runs_wp, (wp_lb c _ _ _ _ Hl Hb); [lia|]. rewrite <- negb_andb.
  replace (take 8 (b_buf s1)) with (take 8 c) by (rewrite Hb, take_app_le, take_take by (rewrite length_take; lia); done).
  apply runs_check; [intros H; by apply Hhd|]. intros T1.
  apply runs_bind, runs_wp, (wp_lb c _ _ _ _ Hl Hb); [lia|].
  apply runs_check; [intros H; by apply Hhd|]. intros T2.
  apply runs_bind, runs_wp, (wp_lb c _ _ _ _ Hl Hb); [lia|].
  apply runs_check; [intros H; by apply Hhd|]. intros T3.
  apply runs_bind, runs_wp, (wp_lb c _ _ _ _ Hl Hb); [lia|].
  apply runs_check; [intros H; by apply Hhd|]. intros T4.
  apply runs_wp, wp_ret. exists c. split; [done|]. split; [|done]. unfold header_ok. rewrite T1, T2, T3, T4. by rewrite (proj2 (Nat.leb_le _ _) Hl).
Qed.

(** The boot block as it is written: the root device numbers are zero. *)
Definition boot_block (c : list Z) : list Z := <[509%nat := 0]> (<[508%nat := 0]> (take 512 (drop 32 c))).

(** The read that follows the header gives 512 bytes: with calls that work,
    all that is left of the file. *)
Lemma read_512 c s R :
  b_in s = drop 32 c → length (b_buf s) = 1024%nat →
  (∀ n s', (works → n = Z.of_nat (Nat.min 1024 (length c - 32))) → n ≠ 512 → R n s') →
  (∀ s', (544 ≤ length c)%nat → (works → length c = 544%nat) → b_out s' = b_out s → b_pos s' = b_pos s →
     b_buf s' = take 512 (drop 32 c) ++ drop 512 (b_buf s) → R 512 s') →
  wp (read_in 1024) s R.
Proof.
  intros Hi Hb Hbad Hgood. apply wp_transfer.
  - intros k Hk Hw. change (Z.to_nat 1024) with 1024%nat in *. unfold wp, take_in. cbn [called b_in b_out b_pos b_size b_buf b_log b_calls].
    rewrite Hi. destruct (decide (Z.of_nat (length (take k (drop 32 c))) = 512)) as [E|E].
    + rewrite E. rewrite length_take, length_drop in E. apply Hgood; cbn [b_out b_pos b_buf]; try done; [lia| |].
      * intros H. rewrite (Hw H) in E. lia.
      * f_equal; [|f_equal; rewrite length_take, length_drop; lia].
        destruct (decide (k = 512%nat)) as [->|]; [done|]. rewrite !take_ge by (rewrite length_drop; lia). done.
    + apply Hbad; [|done]. intros H. rewrite (Hw H), length_take, length_drop. done.
  - intros Hn. apply Hbad; [|lia]. done.
Qed.

Lemma runs_boot_sector (ok : Prop) name s :
  (ok → works ∧ ∃ c, files name = Some c ∧ valid_boot c = true) → at_end [] s →
  runs ok (boot_sector name) s (λ _ s', ∃ c, files name = Some c ∧ boot_flag c = true ∧
    (works → valid_boot c = true) ∧ at_end (boot_block c) s').
Proof.
  intros Hok [Ho Hp Hb]. unfold boot_sector. apply runs_bind.
  eapply runs_mono; [apply (runs_minix_open ok)|done|].
  { intros (Hw & c & Hc & Hv%valid_boot_flag)%Hok. split; [done|]. exists c. split; [done|].
    unfold boot_flag in Hv. by apply andb_true_iff in Hv as [? _]. }
  intros [] s1 (c & Hc & Hh & E1 & E2 & E3 & E4).
  assert (Hv : ok → works ∧ length c = 544%nat ∧ (nth 542 c 0 =? 0x55) && (nth 543 c 0 =? 0xaa) = true).
  { intros (Hw & c' & Hc' & H)%Hok. assert (c' = c) as -> by congruence. split; [done|].
    apply andb_true_iff in H as [H ?%Nat.eqb_eq]. apply andb_true_iff in H as [_ H]. by apply andb_true_iff in H as [_ H]. }
  assert (Hl32 : (32 ≤ length c)%nat) by (unfold header_ok in Hh; apply andb_true_iff in Hh as [Hh _]; by apply Nat.leb_le).
  assert (B1 : length (b_buf s1) = 1024%nat) by (rewrite E4, length_app, length_take, length_drop; lia).
  apply runs_bind, runs_wp, (read_512 c); [done|done|..].
  { intros n s2 Hw Hne. apply runs_bind, runs_wp. unfold wp, fprintf. apply runs_check; [|by intros ?%Z.eqb_eq].
    intros H. destruct (Hv H) as (Hwk & Hl & _). destruct Hne. rewrite (Hw Hwk), Hl. done. }
  intros s2 H544 Hw2 O2 P2 B2. apply runs_bind, runs_wp. unfold wp, fprintf. cbn [Z.eqb Pos.eqb negb].
  apply runs_bind, runs_wp, wp_gets, runs_bind, runs_wp, wp_gets. cbn [b_buf]. rewrite B2.
  assert (Hl : length (take 512 (drop 32 c)) = 512%nat) by (rewrite length_take, length_drop; lia).
  rewrite !app_nth1, !nth_take_lt, !nth_drop_add by lia. change (32 + 510)%nat with 542%nat. change (32 + 511)%nat with 543%nat.
  rewrite <- negb_andb. apply runs_check; [by intros (_ & _ & ?)%Hv|]. intros T.
  do 2 apply runs_bind, runs_wp, wp_bset. cbn [b_out b_pos b_in b_size b_buf b_log b_calls].
  apply runs_write; [lia|by intros [? _]%Hv|]. change (Z.to_nat 512) with 512%nat. change (u8 0) with 0.
  apply runs_wp, wp_ret. exists c. split; [done|].
  assert (Hf : boot_flag c = true) by (unfold boot_flag; rewrite Hh, T, (proj2 (Nat.leb_le _ _) H544); done).
  split; [done|]. split; [intros Hwk; unfold valid_boot; by rewrite Hf, (Hw2 Hwk)|].
  unfold wrote. cbn [b_out b_pos b_in b_size b_buf b_log b_calls].
  rewrite O2, P2, E1, E2, Ho, Hp. change (length (@nil Z)) with O.
  rewrite !insert_app_l by (rewrite ?length_insert; lia). split; cbn [b_out b_pos b_buf].
  - rewrite take_app_le, take_ge by (rewrite !length_insert; lia). exact (overwrite_end _ []).
  - unfold boot_block. by rewrite !length_insert.
  - rewrite length_app, !length_insert, length_drop, Hl. lia.
Qed.

(** The lengths main patches into the image. *)
Definition add_lengths (sys usr : Z) (out : list Z) : list Z :=
  overwrite 520 (size_bytes 0x7E6A) (overwrite 516 (size_bytes usr) (overwrite 512 (size_bytes sys)
    (overwrite 500 (take 2 (size_bytes (u32 (sys + usr + 15) / 16))) out))).

(** The image: the boot block with the number of paragraphs of the programs
    in bytes 500 and 501, then the system, whose first three words are the
    lengths of the programs and a constant, then the user program. *)
Definition image (boot sys usr : list Z) : list Z :=
  let n := u32 (Z.of_nat (length sys) + Z.of_nat (length usr) + 15) / 16 in
  take 500 (drop 32 boot) ++ take 2 (size_bytes n) ++ take 6 (drop 534 boot) ++ [0; 0; 0x55; 0xaa] ++
  size_bytes (Z.of_nat (length sys)) ++ size_bytes (Z.of_nat (length usr)) ++ size_bytes 0x7E6A ++
  drop 12 sys ++ usr.

(** A list as its first [n] elements, the next [m] and the rest. *)
Lemma split_at (l : list Z) n m : l = take n l ++ take m (drop n l) ++ drop (n + m) l.
Proof. by rewrite <- drop_drop, take_drop, take_drop. Qed.

Lemma four_left (l : list Z) : length l = 4%nat → l = [nth 0 l 0; nth 1 l 0; nth 2 l 0; nth 3 l 0].
Proof. destruct l as [|? [|? [|? [|? [|]]]]]; try done. Qed.

Lemma boot_block_split c :
  boot_flag c = true →
  boot_block c = take 500 (drop 32 c) ++ take 2 (drop 532 c) ++ take 6 (drop 534 c) ++ [0; 0; 0x55; 0xaa].
Proof.
  intros Hc. pose proof (boot_flag_length c Hc) as Hl. unfold boot_flag in Hc.
  rewrite !andb_true_iff in Hc. destruct Hc as (_ & _ & H5%Z.eqb_eq & H6%Z.eqb_eq). unfold boot_block.
  assert (Hd : take 512 (drop 32 c) = take 500 (drop 32 c) ++ take 2 (drop 532 c) ++ take 6 (drop 534 c) ++ take 4 (drop 540 c)).
  { rewrite (split_at (take 512 (drop 32 c)) 500 2) at 1. rewrite take_take. f_equal.
    rewrite !skipn_firstn_comm, !drop_drop, take_take. cbn [Nat.add Nat.sub Nat.min]. f_equal.
    rewrite <- (take_drop 6 (take 10 (drop 534 c))), take_take, skipn_firstn_comm, drop_drop. done. }
  rewrite Hd at 1. clear Hd. rewrite (four_left (take 4 (drop 540 c))) by (rewrite length_take, length_drop; lia).
  rewrite !nth_take_lt, !nth_drop_add by lia. cbn [Nat.add]. rewrite H5, H6.
  rewrite !app_assoc. set (l := (_ ++ _) ++ take 6 _).
  assert (Hn : length l = 508%nat) by (subst l; rewrite !length_app, !length_take, !length_drop; lia).
  rewrite !insert_app_r_alt, Hn by lia. reflexivity.
Qed.

(** Four fields of a file are replaced, each by one of the same length. *)
Lemma overwrite_fields (b0 n b1 f s0 s1 s2 rest p z0 z1 z2 : list Z) :
  length b0 = 500%nat → length n = 2%nat → length (b1 ++ f) = 10%nat →
  length s0 = 4%nat → length s1 = 4%nat → length s2 = 4%nat →
  length p = 2%nat → length z0 = 4%nat → length z1 = 4%nat → length z2 = 4%nat →
  overwrite 520 z2 (overwrite 516 z1 (overwrite 512 z0 (overwrite 500 p
    (b0 ++ n ++ b1 ++ f ++ s0 ++ s1 ++ s2 ++ rest)))) = b0 ++ p ++ b1 ++ f ++ z0 ++ z1 ++ z2 ++ rest.
Proof.
  rewrite length_app. intros.
  rewrite (overwrite_middle 500 b0) by lia.
  pose proof (overwrite_middle 512 (b0 ++ p ++ b1 ++ f) s0 (s1 ++ s2 ++ rest) z0) as E0.
  pose proof (overwrite_middle 516 (b0 ++ p ++ b1 ++ f ++ z0) s1 (s2 ++ rest) z1) as E1.
  pose proof (overwrite_middle 520 (b0 ++ p ++ b1 ++ f ++ z0 ++ z1) s2 rest z2) as E2.
  rewrite !length_app, <- !app_assoc in E0. rewrite !length_app, <- !app_assoc in E1.
  rewrite !length_app, <- !app_assoc in E2.
  rewrite E0, E1, E2 by lia. done.
Qed.

Lemma image_layout boot sys usr :
  boot_flag boot = true → (12 ≤ length sys)%nat →
  add_lengths (Z.of_nat (length sys)) (Z.of_nat (length usr)) (boot_block boot ++ sys ++ usr) = image boot sys usr.
Proof.
  intros Hb Hs. rewrite boot_block_split by done. pose proof (boot_flag_length boot Hb) as Hl.
  assert (Hsys : sys = take 4 sys ++ take 4 (drop 4 sys) ++ take 4 (drop 8 sys) ++ drop 12 sys).
  { rewrite (split_at sys 4 4) at 1. rewrite <- (take_drop 4 (drop (4 + 4) sys)) at 1. by rewrite drop_drop. }
  unfold add_lengths, image. rewrite Hsys at 3. clear Hsys. rewrite <- !app_assoc.
  apply overwrite_fields; rewrite ?length_app, ?length_take, ?length_drop; cbn [length size_bytes]; lia.
Qed.

(** ** The whole tool *)

(** The arguments name three files with these contents. *)
Definition named (argv : list string) (boot sys usr : list Z) : Prop :=
  ∃ prog bootsect system user, argv = [prog; bootsect; system; user] ∧
    files bootsect = Some boot ∧ files system = Some sys ∧ files user = Some usr.

Lemma named_unique argv boot sys usr boot' sys' usr' :
  named argv boot sys usr → named argv boot' sys' usr' → boot = boot' ∧ sys = sys' ∧ usr = usr'.
Proof. intros (? & ? & ? & ? & -> & ? & ? & ?) (? & ? & ? & ? & [= <- <- <- <-] & ? & ? & ?). simplify_eq. done. Qed.

(** What is in the output at the end. *)
Definition output (boot sys usr : list Z) : list Z :=
  add_lengths (Z.of_nat (length (cut sys))) (Z.of_nat (length (cut usr))) (boot_block boot ++ cut sys ++ cut usr).

Lemma runs_build_main argv :
  runs (works ∧ ∃ boot sys usr, named argv boot sys usr ∧ valid_boot boot = true) (build_main argv) build_start (λ r s',
    r = 0 ∧ ∃ boot sys usr, named argv boot sys usr ∧ boot_flag boot = true ∧ (works → valid_boot boot = true) ∧
      b_out s' = output boot sys usr).
Proof.
  set (ok := works ∧ _).
  destruct argv as [|prog [|bootsect [|system [|user [|]]]]];
    try (apply runs_die; intros (_ & ? & ? & ? & (? & ? & ? & ? & ? & _) & _); done).
  assert (Hok : ok → works ∧ ∃ boot sys usr, files bootsect = Some boot ∧ files system = Some sys ∧ files user = Some usr ∧
    valid_boot boot = true).
  { intros (Hw & boot & sys & usr & (? & ? & ? & ? & [= <- <- <- <-] & ? & ? & ?) & Hv). split; [done|]. by exists boot, sys, usr. }
  assert (Hw : ok → works) by (by intros [? _]%Hok). unfold build_main. apply runs_bind.
  eapply runs_mono; [apply (runs_boot_sector ok)|done|]; [naive_solver|by split|].
  intros [] s1 (boot & Hb & Hbf & Hbv & H1). apply runs_bind.
  eapply runs_mono; [apply (runs_add_file ok _ _ (boot_block boot)); [naive_solver|exact H1]|done|].
  intros ? s2 (sys & Hs & -> & H2). apply runs_bind.
  eapply runs_mono; [apply (runs_add_file ok _ _ (boot_block boot ++ cut sys)); [naive_solver|exact H2]|done|].
  intros ? s3 (usr & Hu & -> & [Ho _ Hbuf]). cbv zeta. apply runs_bind, runs_wp. unfold wp, fprintf.
  do 2 apply runs_bind, runs_wp, wp_bset. cbn [b_out b_pos b_in b_size b_buf b_log b_calls].
  apply runs_lseek; [lia|done|]. apply runs_write; [lia|done|]. unfold wrote, sought.
  cbn [b_out b_pos b_in b_size b_buf b_log b_calls].
  rewrite !byte_land. change (Z.to_nat 2) with 2%nat. change (Z.to_nat 500) with 500%nat. rewrite buf_two, Ho by lia.
  apply runs_bind. eapply runs_mono; [apply runs_patch_size; [done|done|cbn [b_buf]; by rewrite !length_insert|lia]|done|].
  intros [] s4 [E4 B4]. apply runs_bind. eapply runs_mono; [apply runs_patch_size; [done|exact E4|done|lia]|done|].
  intros [] s5 [E5 B5]. apply runs_bind. eapply runs_mono; [apply runs_patch_size; [done|exact E5|done|lia]|done|].
  intros [] s6 [E6 B6]. apply runs_wp, wp_ret. split; [done|]. exists boot, sys, usr.
  split_and!; [by exists prog, bootsect, system, user|done|done|]. rewrite E6, <- app_assoc. reflexivity.
Qed.

(** A run that returns has written the image of the files. *)
Lemma build_main_image argv boot sys usr st r :
  build_main argv build_start = Ret r st → named argv boot sys usr →
  boot_flag boot = true ∧ b_out st = output boot sys usr ∧
  ((12 ≤ length (cut sys))%nat → b_out st = image boot (cut sys) (cut usr)).
Proof.
  intros E Hn. pose proof (runs_build_main argv) as Hr. unfold runs in Hr. rewrite E in Hr.
  destruct Hr as (_ & b & s & u & Hn' & Hf & _ & Ho). destruct (named_unique _ _ _ _ _ _ _ Hn Hn') as (<- & <- & <-).
  split_and!; [done|done|]. intros Hs. rewrite Ho. by apply image_layout.
Qed.

(** With calls that work, valid files are enough. *)
Lemma build_main_works argv boot sys usr :
  works → named argv boot sys usr → valid_boot boot = true →
  ∃ st, build_main argv build_start = Ret 0 st ∧ ((12 ≤ length (cut sys))%nat → b_out st = image boot (cut sys) (cut usr)).
Proof.
  intros Hw Hn Hv. pose proof (runs_build_main argv) as Hr. unfold runs in Hr. pose proof (build_main_image argv boot sys usr) as Hi.
  destruct (build_main argv build_start) as [r st|f].
  - destruct Hr as [-> _]. exists st. split; [done|]. by apply (Hi st 0).
  - destruct Hr as [_ []]. split; [done|]. by exists boot, sys, usr.
Qed.

(** C32. The image, whatever the system calls do.  A run of build either exits
    with status 1 or returns 0, and then its three arguments name files, of
    which the first has a Minix header and a signed boot block of 512 bytes,
    and the output is the boot block without root device, the system and the
    user program (of a file of 4 GB or more, what its size modulo 2^32 says),
    with the number of paragraphs patched in at offset 500 and three words at
    offset 512; for a system of at least those twelve bytes, that is exactly
    the image.  If every call does all it is asked to do, build returns 0
    exactly on three files of which the first is a header and a signed boot
    block of 512 bytes and nothing else. *)
Theorem build_main_correct argv :
  ((∃ msg, build_main argv build_start = Fault (Exit 1 msg)) ∨
   ∃ st boot sys usr, build_main argv build_start = Ret 0 st ∧ named argv boot sys usr ∧ boot_flag boot = true ∧
     b_out st = output boot sys usr ∧ ((12 ≤ length (cut sys))%nat → b_out st = image boot (cut sys) (cut usr))) ∧
  (works → (∃ st, build_main argv build_start = Ret 0 st) ↔
     ∃ boot sys usr, named argv boot sys usr ∧ valid_boot boot = true).
Proof.
  pose proof (runs_build_main argv) as Hr. unfold runs in Hr. pose proof (build_main_image argv) as Hi.
  destruct (build_main argv build_start) as [r st|f].
  - destruct Hr as (-> & boot & sys & usr & Hn & Hf & Hv & Ho). split.
    + right. exists st, boot, sys, usr. destruct (Hi boot sys usr st 0 eq_refl Hn) as (_ & _ & ?). done.
    + intros Hw. split; [|by exists st]. intros _. exists boot, sys, usr. auto.
  - destruct Hr as [[msg ->] Hnok]. split; [left; by exists msg|]. intros Hw. split; [by intros [? ?]|].
    intros H. by destruct Hnok.
Qed.
End Build.

(** ** From the files to the first process *)
Section Boot.
Context {L : Layout} {LO : LayoutOk L}.
Context (files : string → option (list Z)) (env : nat → answer).
Context (E : idt_env) (addr_tss : Z).
Context (Hhandlers : ∀ s, wp (set_handlers E) s (λ _ s', ∃ t, s' = with_idt t s)).

(** The loader has put what follows the boot block at KERNEL_START. *)
Definition loaded (out : list Z) (n : nat) (m : memory) : Prop :=
  ∀ i, 0 ≤ i < Z.of_nat n → load8 m (KERNEL_START + i) = nth (512 + Z.to_nat i) out 0.

Lemma size_bytes_load m a n :
  0 ≤ n < 2 ^ 24 → (∀ i, 0 ≤ i < 4 → load8 m (a + i) = nth (Z.to_nat i) (size_bytes n) 0) → load32 m a = n.
Proof.
  intros Hn Hb. rewrite load32_unfold. pose proof (Hb 0 ltac:(lia)) as H0. rewrite Z.add_0_r in H0.
  rewrite H0, (Hb 1), (Hb 2), (Hb 3) by lia. clear H0 Hb.
  change (Z.land n 255 + 2 ^ 8 * Z.land (Z.shiftr n 8) 255 + 2 ^ 16 * Z.land (Z.shiftr n 16) 255 + 2 ^ 24 * 0 = n).
  change 255 with (Z.ones 8). rewrite !Z.land_ones, !Z.shiftr_div_pow2 by lia.
  Z.to_euclidean_division_equations. lia.
Qed.

(** What follows the boot block. *)
Lemma image_programs boot sys usr i :
  boot_flag boot = true →
  nth (512 + i) (image boot sys usr) 0 =
  nth i (size_bytes (Z.of_nat (length sys)) ++ size_bytes (Z.of_nat (length usr)) ++ size_bytes 0x7E6A ++
         drop 12 sys ++ usr) 0.
Proof.
  intros Hb. rewrite <- nth_drop_add. do 2 f_equal. unfold image.
  pose proof (boot_flag_length boot Hb) as Hl.
  set (p := size_bytes (_ / 16)). set (rest := size_bytes _ ++ _).
  rewrite (app_assoc (take 6 _)), (app_assoc (take 2 _)), (app_assoc (take 500 _)).
  apply drop_app_length'. rewrite !length_app, !length_take, !length_drop. cbn [length p size_bytes]. lia.
Qed.

Lemma loaded_sizes boot sys usr s :
  boot_flag boot = true → (12 ≤ length sys)%nat →
  Z.of_nat (length sys) < 2 ^ 24 → Z.of_nat (length usr) < 2 ^ 24 →
  loaded (image boot sys usr) (length sys + length usr) (k_mem s) →
  sys_size_of s = Z.of_nat (length sys) ∧ usr_size_of s = Z.of_nat (length usr) ∧
  ∀ i, 0 ≤ i < Z.of_nat (length usr) →
    load8 (k_mem s) (KERNEL_START + Z.of_nat (length sys) + i) = nth (Z.to_nat i) usr 0.
Proof.
  intros Hb Hs H1 H2 Hl.
  split_and!.
  - apply size_bytes_load; [lia|]. intros i Hi. unfold p_sys_size. rewrite Hl, image_programs by (done || lia).
    rewrite app_nth1; [done|cbn [length size_bytes]; lia].
  - apply size_bytes_load; [lia|]. intros i Hi. unfold p_usr_size. rewrite <- Z.add_assoc, Hl, image_programs by (done || lia).
    rewrite app_nth2, app_nth1 by (cbn [length size_bytes]; lia). f_equal. cbn [length size_bytes]. lia.
  - intros i Hi. rewrite <- Z.add_assoc, Hl, image_programs by (done || lia).
    rewrite !app_nth2 by (rewrite ?length_drop; cbn [length size_bytes]; lia). f_equal.
    rewrite length_drop. cbn [length size_bytes]. lia.
Qed.

(** From the files to the first process.  If build succeeds on a boot
    file, a system and a user program of less than 16 MB, and the loader puts
    the image where the kernel expects it, then main starts process 1 in user
    mode with the bytes of the user program's file in its pages (all but the
    word of the data pages that return_gate overwrites). *)
Theorem built_image_boots argv boot sys usr st s :
  build_main files env argv build_start = Ret 0 st → named files argv boot sys usr →
  (12 ≤ length sys)%nat → Z.of_nat (length sys) < 2 ^ 24 → Z.of_nat (length usr) < 2 ^ 24 →
  loaded (b_out st) (length sys + length usr) (k_mem s) → image_ok s →
  ∃ s' code dat, main E addr_tss s = Ret tt s' ∧
    user_mode (boot_table boot_kids) code {[1 := dat]} KERNEL_STACK_SIZE s' ∧ eip (k_regs s') = usr_main ∧
    ∀ i, 0 ≤ i < Z.of_nat (length usr) →
      i < NUM_PAG_DATA * PAGE_SIZE - 4 ∨ NUM_PAG_DATA * PAGE_SIZE ≤ i →
      ∃ pa, translate_user (k_mem s') (dir_addr 1) (L_USER_START + i) false = Some pa ∧
        load8 (k_mem s') pa = nth (Z.to_nat i) usr 0.
Proof.
  intros Hb Hin Hs H1 H2 Hl Hok.
  destruct (build_main_image files env _ _ _ _ _ _ Hb Hin) as (Hv & _ & Ho). rewrite !cut_small in Ho by lia.
  rewrite Ho in Hl by done.
  destruct (loaded_sizes _ _ _ _ Hv Hs H1 H2 Hl) as (Es & Eu & Hp).
  destruct (wp_elim (main E addr_tss) s (λ _ s', ∃ code dat,
    user_mode (boot_table boot_kids) code {[1 := dat]} KERNEL_STACK_SIZE s' ∧
    eip (k_regs s') = usr_main ∧ program_loaded s s')) as ([] & s' & Em & code & dat & Hum & Hip & Hpl).
  { apply wp_main; [done|done|]. intros s' code dat ? ? _ _ _ _ _ _ _ ? _. by exists code, dat. }
  exists s', code, dat. split_and!; [done|done|done|]. intros i Hi Hout. rewrite <- Hp by done.
  rewrite <- Es. apply Hpl; [by rewrite Eu|done].
Qed.
End Boot.
