(* ===== verification/Disk.v ===== *)
(** From the disk to the first process: build writes the image, the floppy
    disk holds it, the BIOS loads the boot sector, which reads the system to
    memory and enters it, and main starts process 1. *)

From Stdlib Require Import String.
From S2P Require Import Prelude Memory CList Libc Console Frames Types Loader Bootsect Kernel Task Paging Utils Switch.
From S2P Require Import Sched Policy Space Process Init Sys Tick Block Fork ForkInv Write Entry Calls Interrupt System Build.
#[local] Open Scope Z_scope.

(** The size build puts at offset 500 of the boot sector, in 16-byte units. *)
Lemma image_size boot sys usr :
  boot_flag boot = true → Z.of_nat (length sys) + Z.of_nat (length usr) ≤ 0x7fff0 →
  let n := (Z.of_nat (length sys) + Z.of_nat (length usr) + 15) / 16 in
  nth 500 (image boot sys usr) 0 + 2 ^ 8 * nth 501 (image boot sys usr) 0 = n ∧ 0 ≤ n < 0x8000.
Proof.
  intros Hv Hs n. assert (Hn : 0 ≤ n < 0x8000) by (unfold n; Z.div_mod_to_equations; lia). split; [|done].
  pose proof (boot_flag_length boot Hv) as Hl.
  assert (Hp : length (take 500 (drop 32 boot)) = 500%nat) by (rewrite length_take, length_drop; lia).
  unfold image. rewrite (u32_small (_ + _ + 15)) by lia. fold n. rewrite !(app_nth2 (take 500 _)) by (rewrite Hp; lia). rewrite Hp.
  change (Z.land n 255 + 2 ^ 8 * Z.land (Z.shiftr n 8) 255 = n).
  change 255 with (Z.ones 8). rewrite !Z.land_ones, Z.shiftr_div_pow2 by lia. Z.div_mod_to_equations. lia.
Qed.

Lemma image_length boot sys usr :
  boot_flag boot = true → (12 ≤ length sys)%nat → length (image boot sys usr) = (512 + (length sys + length usr))%nat.
Proof.
  intros Hv Hs. pose proof (boot_flag_length boot Hv) as Hl.
  unfold image. rewrite !length_app, !length_take, !length_drop. cbn [length size_bytes]. lia.
Qed.

(** The bytes of a file are at the start of a disk. *)
Definition on_disk (out : list Z) (disk : Z → Z) : Prop :=
  ∀ i, (i < length out)%nat → disk (Z.of_nat i) = nth i out 0.

(** ** The boot sector on the disk *)

(** The boot file is assembled from bootsect.S: after the 32 bytes of its
    header, what the source has from [.org 435] on. *)
Definition assembled (boot : list Z) : Prop :=
  ∀ i, (i < 77)%nat → nth (467 + i) boot 0 = nth i (sector_end SYSSIZE) 0.

(** Only the size depends on the size. *)
Lemma sector_end_same n i : i ≠ 65%nat → i ≠ 66%nat → nth i (sector_end n) 0 = nth i (sector_end SYSSIZE) 0.
Proof.
  intros H5 H6. set (A := concat (gdt_bytes <$> boot_gdt) ++ [0; 0; 0; 0; 0; 0] ++ [SETUPSECS; 0; 0]).
  set (C := [lo8 0x8000; hi8 0x8000; lo8 o_gdt; hi8 o_gdt; 0x9; 0] ++ [0; 0] ++ [0x55; 0xAA]).
  assert (Es : ∀ x, sector_end x = A ++ [lo8 x; hi8 x] ++ C) by reflexivity. rewrite !Es.
  assert (Hl : length A = 65%nat) by reflexivity. generalize dependent A. intros A Es Hl.
  destruct (decide (i < 65)%nat); [by rewrite !app_nth1 by lia|]. rewrite !(app_nth2 A), Hl by lia.
  rewrite !app_nth2 by (cbn [length]; lia). done.
Qed.

Lemma image_sector boot sys usr :
  boot_flag boot = true → assembled boot → Z.of_nat (length sys) + Z.of_nat (length usr) ≤ 0x7fff0 →
  let n := (Z.of_nat (length sys) + Z.of_nat (length usr) + 15) / 16 in
  ∀ i, (i < 77)%nat → nth (435 + i) (image boot sys usr) 0 = nth i (sector_end n) 0.
Proof.
  intros Hv Ha Hs n i Hi. assert (Hn : 0 ≤ n < 0x8000) by (unfold n; Z.div_mod_to_equations; lia).
  pose proof (boot_flag_length boot Hv) as Hl.
  assert (Hp : length (take 500 (drop 32 boot)) = 500%nat) by (rewrite length_take, length_drop; lia).
  assert (Hq : length (take 6 (drop 534 boot)) = 6%nat) by (rewrite length_take, length_drop; lia).
  unfold image. rewrite (u32_small (_ + _ + 15)) by lia. fold n. destruct (decide (i < 65)%nat) as [H5|H5].
  { rewrite app_nth1 by lia. rewrite nth_take_lt, nth_drop_add by lia. rewrite sector_end_same by lia. by apply (Ha i). }
  rewrite app_nth2 by lia. rewrite Hp. destruct (decide (i < 67)%nat) as [H7|H7].
  { assert (i = 65 ∨ i = 66)%nat as [-> | ->] by lia.
    - change (Z.land n 255 = lo8 n). change 255 with (Z.ones 8). by rewrite Z.land_ones by lia.
    - change (Z.land (Z.shiftr n 8) 255 = hi8 n). change 255 with (Z.ones 8). by rewrite Z.land_ones by lia. }
  rewrite app_nth2 by (cbn [length take size_bytes]; lia). change (length (take 2 (size_bytes n))) with 2%nat.
  rewrite sector_end_same by lia. destruct (decide (i < 73)%nat) as [H3|H3].
  { rewrite app_nth1 by lia. rewrite nth_take_lt, nth_drop_add, <- (Ha i) by lia. f_equal. lia. }
  rewrite app_nth2 by lia. rewrite Hq. assert (i = 73 ∨ i = 74 ∨ i = 75 ∨ i = 76)%nat as [->|[->|[->| ->]]] by lia; reflexivity.
Qed.

Section Disk.
Context {L : Layout} {LO : LayoutOk L}.
Context (files : string → option (list Z)) (env : nat → answer).
Context (E : idt_env) (addr_tss : Z).
Context (Hhandlers : ∀ s, wp (set_handlers E) s (λ _ s', ∃ t, s' = with_idt t s)).
Context (bios : Z → Z → Z → Z → Z → memory → memory) (disk : Z → Z) (Hbios : reads_disk bios disk).
Context (video : rregs → rregs) (ports : Z → nat → Z) (a20 : nat → bool) (k : nat) (msg1 : Z) (fuel : nat).
Context (Hvideo : ∀ r, let r' := video r in
  r_cs r' = r_cs r ∧ r_ss r' = r_ss r ∧ r_ds r' = r_ds r ∧ r_sp r' = r_sp r ∧ r_es r' = r_es r).
Context (Ha20 : ∀ i, (k ≤ i)%nat → a20 i = true) (Hfuel : 0xFFFFFF ≤ Z.of_nat fuel) (Hk : (k + 2 ≤ fuel)%nat).

Lemma sector_loads boot sys usr b R :
  boot_flag boot = true → assembled boot → (12 ≤ length sys)%nat → Z.of_nat (length sys) + Z.of_nat (length usr) ≤ 0x7fff0 →
  on_disk (image boot sys usr) disk → (∀ i, 0 ≤ i < 512 → load8 (bs_mem b) (0x7c00 + i) = disk i) →
  (∀ b' n, kernel_entered msg1 disk n b b' → loaded (image boot sys usr) (length sys + length usr) (bs_mem b') → R tt b') →
  wp (bootsect bios video ports a20 msg1 fuel) b R.
Proof.
  intros Hv Ha H12 Hs Hd Hm HR. set (n := (Z.of_nat (length sys) + Z.of_nat (length usr) + 15) / 16).
  assert (Hn : 0 ≤ n < 0x8000) by (unfold n; Z.div_mod_to_equations; lia).
  pose proof (image_length boot sys usr Hv H12) as Hlen.
  apply (wp_bootsect bios video ports a20 msg1 fuel k Ha20 Hvideo disk Hbios n Hn b Hfuel Hk).
  - intros i Hi. unfold n. rewrite <- (image_sector boot sys usr Hv Ha Hs i Hi). rewrite <- Hd by lia. unfold o_gdt. rewrite <- Z.add_assoc, Hm by lia. f_equal. lia.
  - intros b' Hke. apply (HR b' n); [exact Hke|]. intros i Hi. unfold KERNEL_START.
    rewrite (sr_system _ _ _ _ (ke_system _ _ _ _ _ Hke)) by (unfold n; Z.div_mod_to_equations; lia).
    rewrite <- Hd by lia. f_equal. lia.
Qed.

(** C30. From the files to the first process.  Suppose build returns 0 (whatever
    the system calls did) on a boot file assembled from bootsect.S, a system of
    at least twelve bytes and a user program, of at most 0x7fff0 bytes
    together, and the floppy disk starts with its output.  Then the boot
    sector, loaded by the BIOS at 0x7c00, ends with the image in memory where
    the kernel expects it and jumps to the kernel's first instruction in
    protected mode, with interrupts off and the segments the kernel's
    selectors need.  And if the kernel starts there as the linker and the
    loader leave it (image_ok: C's initial values, the task array and the page
    directories zero, both programs below 1 MB, the user program of at most 28
    pages and apart from what the initialisation writes), main runs process 1
    in user mode with the bytes of the user program's file in its pages, all but
    the last word of the data pages, which return_gate overwrites. *)
Theorem disk_boots argv boot sys usr st b :
  build_main files env argv build_start = Ret 0 st → named files argv boot sys usr → assembled boot →
  (12 ≤ length sys)%nat → Z.of_nat (length sys) + Z.of_nat (length usr) ≤ 0x7fff0 →
  on_disk (b_out st) disk → (∀ i, 0 ≤ i < 512 → load8 (bs_mem b) (0x7c00 + i) = disk i) →
  ∃ b', bootsect bios video ports a20 msg1 fuel b = Ret tt b' ∧
    bs_eip b' = KERNEL_START + 0x10 ∧ r_cs (bs_regs b') = KERNEL_CS ∧ bs_cr0 b' = 1 ∧ bs_if b' = false ∧
    (∀ i d, boot_gdt !! i = Some d → descriptor_at (bs_mem b') (reg_base (bs_gdtr b') + 8 * Z.of_nat i) = d) ∧
    loaded (b_out st) (length sys + length usr) (bs_mem b') ∧
    ∀ s, k_mem s = bs_mem b' → image_ok s →
    ∃ s' code dat, main E addr_tss s = Ret tt s' ∧
      user_mode (boot_table boot_kids) code {[1 := dat]} KERNEL_STACK_SIZE s' ∧ eip (k_regs s') = usr_main ∧
      ∀ i, 0 ≤ i < Z.of_nat (length usr) →
        i < NUM_PAG_DATA * PAGE_SIZE - 4 ∨ NUM_PAG_DATA * PAGE_SIZE ≤ i →
        ∃ pa, translate_user (k_mem s') (dir_addr 1) (L_USER_START + i) false = Some pa ∧
          load8 (k_mem s') pa = nth (Z.to_nat i) usr 0.
Proof.
  intros Hb Hin Has H12 Hs Hd Hm.
  destruct (build_main_image files env _ _ _ _ _ _ Hb Hin) as (Hv & _ & Ho). rewrite !cut_small in Ho by lia. specialize (Ho H12).
  pose proof (sector_loads boot sys usr b (λ _ b', ∃ n, kernel_entered msg1 disk n b b' ∧
    loaded (image boot sys usr) (length sys + length usr) (bs_mem b')) Hv Has H12 Hs) as Hw. rewrite Ho in Hd.
  destruct (wp_elim _ _ _ (Hw Hd Hm (λ b' n H1 H2, ex_intro _ n (conj H1 H2)))) as ([] & b' & Eb & n & Hke & Hl).
  exists b'. destruct Hke as [K1 K2 K3 K4 K5 K6 K7 _ _ _ _]. rewrite Ho, K6. split_and!; [exact Eb|exact K2|exact K1|exact K3|exact K4|exact K7|exact Hl|].
  intros s Hms Hok. apply (built_image_boots files env E addr_tss Hhandlers argv boot sys usr st s); [done|done|done|lia|lia| |done].
  by rewrite Ho, Hms.
Qed.
End Disk.
