(* ===== verification/Debug.v ===== *)
(** The reports of sched.c and utils.c for whoever debugs the kernel:
    print_queue, print_stack, debug_stack and overflow_breakpoint. *)

From Stdlib Require Import Ascii.
From stdpp Require Import strings.
From S2P Require Import Prelude Memory CList Libc Console Frames Types Kernel Task Paging Utils Switch.
From S2P Require Import Sched Policy Space Process Sys Block Interrupt.
#[local] Open Scope Z_scope.

Section Debug.
Context {L : Layout}.

(** [itoa(a, buff); printk(buff);] and the same with itoa_hex *)
Definition print_dec (n : nat) (a : Z) : K unit :=
  let! buff := local_buf n (itoa a) in
  on_console (printk buff).

Definition print_hex (n : nat) (a : Z) : K unit :=
  let! buff := local_buf n (itoa_hex a) in
  on_console (printk buff).

Definition print_queue (head : Z) : K unit :=
  list_for_each (A := unit) (λ l, on_mem (get_next l)) (S (Z.to_nat NR_TASKS)) head (λ pos,
    let pos_task_s := list_entry pos f_anchor in
    let pos_task := task_index pos_task_s in
    let! buff := local_buf 9 (itoa pos_task) in
    on_console (printk [10; 0]) ;!
    on_console (printk buff) ;!
    on_console (printk (literal ": PID ")) ;!
    let! pid := get_int_field pos_task_s f_PID in
    print_dec 9 pid ;!
    ret None) ;!
  ret tt.

(** [while(i > 0 && aux > 0)]: one line per word of the stack, from its base
    down. *)
Fixpoint print_words (aux : nat) (i stack_base : Z) : K unit :=
  match aux with
  | O => ret tt
  | Datatypes.S aux' =>
      if 0 <? i then
        on_console (printk [10; 0]) ;!
        print_dec 9 i ;!
        let! buff := local_buf 9 (itoa_hex (s32 stack_base)) in
        on_console (printk (literal " (")) ;!
        on_console (printk buff) ;!
        on_console (printk (literal ")")) ;!
        on_console (printk (literal ": [")) ;!
        let! w := on_mem (kload32 stack_base) in
        print_hex 9 (s32 w) ;!
        on_console (printk (literal "]")) ;!
        print_words aux' (i - 1) (stack_base - 4)
      else ret tt
  end.

Definition print_stack (t_u : Z) : K unit :=
  let stack_base := stack_addr t_u (KERNEL_STACK_SIZE - 1) in
  let! kernel_esp := get_field t_u f_kernel_esp in
  let! c := current in
  let! stack_top := (if t_u =? c then get_reg esp else ret (u32 (kernel_esp - 4))) in
  let i := Z.shiftr (s32 (u32 (stack_base - stack_top))) 2 in
  if stack_base <? stack_top then ret tt else print_words 50 i stack_base.

Definition overflow_breakpoint : K unit :=
  on_console (printk (10 :: literal "stack overflow at PID: ")) ;!
  let! c := current in
  let! pid := get_int_field c f_PID in
  print_dec 4 pid ;!
  on_console (printk (literal "                                      ")).

(** The call of esp_value has its return address on the stack. *)
Definition debug_stack : K unit :=
  let! e := esp_value in
  let esp := u32 (e - 4) in
  let! c := current in
  let base := stack_addr c (KERNEL_STACK_SIZE - 1) in
  on_console (printk (10 :: literal "esp value at PID(")) ;!
  let! c := current in
  let! pid := get_int_field c f_PID in
  print_dec 8 pid ;!
  on_console (printk (literal "): ")) ;!
  print_hex 8 (s32 esp) ;!
  on_console (printk (literal "    system stack size: ")) ;!
  print_dec 8 (Z.shiftr (s32 (u32 (base - esp))) 2) ;!
  let! c := current in
  let stack_overflow_addr := c + sizeof_task_struct * 5 in
  on_console (printk (literal "    overflow_addr: ")) ;!
  print_hex 8 (s32 stack_overflow_addr) ;!
  if esp <=? stack_overflow_addr then overflow_breakpoint else ret tt.

(** ** What is shown *)

(** The state after a text has been shown. *)
Definition shown (t : list Z) (s : kstate) : kstate := with_console (show t (k_console s)) s.

Lemma shown_app t u s : shown u (shown t s) = shown (t ++ u) s.
Proof. destruct s. unfold shown, show. kflat. by rewrite foldl_app. Qed.

Lemma shown_nil s : shown [] s = s.
Proof. by destruct s. Qed.

Lemma wp_show t r s R :
  Forall (λ c, c ≠ 0) t → R tt (shown t s) → wp (on_console (printk (t ++ 0 :: r))) s R.
Proof.
  intros Ht HR. apply wp_on_console. eapply wp_intro; [|exact HR].
  clear HR. generalize (k_console s). induction Ht as [|c t Hc _ IH]; intros k; cbn [app printk]; [done|].
  destruct (Z.eqb_spec c 0) as [|_]; [done|]. exact (IH (printc c k)).
Qed.

(** The numerals; a negative number has none. *)
Definition dec (a : Z) : list Z := if a <? 0 then [] else map (λ d, d + 48) (numeral 10 a).
Definition hexa (a : Z) : list Z := if a <? 0 then [] else map hex_digit (numeral 16 a).

Lemma wp_dec_buf {A} n a (k : cbuf → K A) s R :
  a < 10 ^ Z.of_nat n → a < 2 ^ 31 → (0 < n)%nat →
  (∀ r, wp (k (dec a ++ 0 :: r)) s R) → wp (let! buff := local_buf (S n) (itoa a) in k buff) s R.
Proof.
  intros Ha Ha' Hn Hk. apply wp_bind. unfold dec in Hk. destruct (Z.ltb_spec a 0).
  - eapply wp_local_buf; [apply itoa_negative; [done|cbn; lia]|]. apply Hk.
  - eapply wp_local_buf; [|apply Hk]. rewrite itoa_spec by done. rewrite decide_True; [done|].
    rewrite length_replicate. pose proof (numeral_length 10 ltac:(lia) a n ltac:(lia) Hn). lia.
Qed.

Lemma dec_chars a : Forall (λ c, c ≠ 0) (dec a).
Proof.
  unfold dec. destruct (a <? 0); [done|].
  eapply Forall_impl; [apply (numeral_chars 10); [lia|intros; lia]|]. cbn. lia.
Qed.

Lemma hexa_chars a : Forall (λ c, c ≠ 0) (hexa a).
Proof.
  unfold hexa. destruct (a <? 0); [done|].
  eapply Forall_impl; [apply (numeral_chars 16); [lia|apply hex_digit_range]|]. cbn. lia.
Qed.

Lemma wp_hex_buf {A} n a (k : cbuf → K A) s R :
  a < 16 ^ Z.of_nat n → a < 2 ^ 31 → (0 < n)%nat →
  (∀ r, wp (k (hexa a ++ 0 :: r)) s R) → wp (let! buff := local_buf (S n) (itoa_hex a) in k buff) s R.
Proof.
  intros Ha Ha' Hn Hk. apply wp_bind. unfold hexa in Hk. destruct (Z.ltb_spec a 0).
  - eapply wp_local_buf; [|apply Hk]. unfold itoa_hex. destruct (Z.eqb_spec a 0); [lia|]. unfold bind.
    cbn [digits_loop]. destruct (Z.ltb_spec 0 a); [lia|]. reflexivity.
  - eapply wp_local_buf; [|apply Hk]. rewrite itoa_hex_spec by done. rewrite decide_True; [done|].
    rewrite length_replicate. pose proof (numeral_length 16 ltac:(lia) a n ltac:(lia) Hn). lia.
Qed.

(** The numeral and its terminator fill the array, or overrun it. *)
Lemma dec_buf_or {A} n a (k : cbuf → K A) s R :
  a < 2 ^ 31 → (0 < n)%nat → (∀ r, wp (k (dec a ++ 0 :: r)) s R) →
  wp_or (BufferOverflow (Z.of_nat (S n))) (a <? 10 ^ Z.of_nat n) (let! buff := local_buf (S n) (itoa a) in k buff) s R.
Proof.
  intros Ha Hn Hk. apply wp_or_intro; [intros ?%Z.ltb_lt; by apply wp_dec_buf|]. intros Hge%Z.ltb_ge.
  assert (H0 : 0 ≤ a) by (pose proof (Z.pow_nonneg 10 (Z.of_nat n)); lia).
  pose proof (numeral_length 10 ltac:(lia) a n ltac:(lia) Hn). unfold bind, local_buf. rewrite itoa_spec by done.
  rewrite decide_False; rewrite length_replicate; [done|lia].
Qed.

Lemma print_hex_or n a s R :
  a < 2 ^ 31 → (0 < n)%nat → R tt (shown (hexa a) s) →
  wp_or (BufferOverflow (Z.of_nat (S n))) (a <? 16 ^ Z.of_nat n) (print_hex (S n) a) s R.
Proof.
  intros Ha Hn HR. apply wp_or_intro; [intros ?%Z.ltb_lt; apply wp_hex_buf; [done..|]; intros r; by apply wp_show; [apply hexa_chars|]|].
  intros Hge%Z.ltb_ge. assert (H0 : 0 ≤ a) by (pose proof (Z.pow_nonneg 16 (Z.of_nat n)); lia).
  pose proof (numeral_length 16 ltac:(lia) a n ltac:(lia) Hn). unfold print_hex, bind, local_buf. rewrite itoa_hex_spec by done.
  rewrite decide_False; rewrite length_replicate; [done|lia].
Qed.

Lemma wp_print_dec n a s R :
  a < 10 ^ Z.of_nat n → a < 2 ^ 31 → (0 < n)%nat → R tt (shown (dec a) s) → wp (print_dec (S n) a) s R.
Proof. intros. apply wp_dec_buf; [done..|]. intros r. by apply wp_show; [apply dec_chars|]. Qed.

Lemma wp_print_hex n a s R :
  a < 16 ^ Z.of_nat n → a < 2 ^ 31 → (0 < n)%nat → R tt (shown (hexa a) s) → wp (print_hex (S n) a) s R.
Proof. intros. apply wp_hex_buf; [done..|]. intros r. by apply wp_show; [apply hexa_chars|]. Qed.

Lemma literal_chars str : literal str = chars str ++ [0].
Proof. unfold chars, literal. by rewrite removelast_last. Qed.

Lemma wp_literal l str s R :
  forallb (λ c, negb (c =? 0)) (l ++ chars str) = true → R tt (shown (l ++ chars str) s) →
  wp (on_console (printk (l ++ literal str))) s R.
Proof.
  intros Hc HR. rewrite literal_chars, app_assoc. apply wp_show; [|done].
  apply List.Forall_forall. intros c Hin. rewrite forallb_forall in Hc. specialize (Hc c Hin).
  by apply negb_true_iff, Z.eqb_neq in Hc.
Qed.

Context {LO : LayoutOk L}.

(** ** print_queue *)

(** One line per task: its number and its identifier. *)
Definition queue_line (m : memory) (i : Z) : list Z :=
  [10] ++ dec i ++ chars ": PID " ++ dec (pid_of m i).
Definition queue_text (m : memory) (js : list Z) : list Z := concat (queue_line m <$> js).

Lemma wp_queue_line i s (R : option unit → kstate → Prop) :
  valid_task i → pid_of (k_mem s) i < 10 ^ 8 →
  R None (shown (queue_line (k_mem s) i) s) →
  wp (let! buff := local_buf 9 (itoa (task_index (list_entry (anchor_of i) f_anchor))) in
      on_console (printk [10; 0]) ;!
      on_console (printk buff) ;!
      on_console (printk (literal ": PID ")) ;!
      let! pid := get_int_field (list_entry (anchor_of i) f_anchor) f_PID in
      print_dec 9 pid ;!
      ret None) s R.
Proof.
  intros Hi Hp HR. rewrite list_entry_anchor, task_index_addr by done.
  apply wp_dec_buf; [unfold valid_task, NR_TASKS in Hi; lia..|]. intros r.
  apply wp_bind, (wp_show [10] []); [by repeat constructor|].
  apply wp_bind, wp_show; [apply dec_chars|].
  apply wp_bind, (wp_literal []); [done|].
  apply wp_bind, wp_get_int_field; [done|solve_field..|].
  apply wp_bind, wp_print_dec; [exact Hp|apply (Z.lt_trans _ (10 ^ 8)); [exact Hp|lia]|lia|].
  apply wp_ret. rewrite !shown_app, <- !app_assoc. exact HR.
Qed.

(** A walk whose body may change the state but not the list. *)
Lemma wp_list_walk (I : list Z → kstate → Prop) (body : Z → K (option unit)) h xs fuel s R :
  h ∉ xs → (length xs < fuel)%nat →
  (∀ s xs1 c xs2 ys, I ys s → h :: xs = xs1 ++ c :: xs2 → on_mem (get_next c) s = Ret (default h (head xs2)) s) →
  (∀ s xs1 x xs2, xs = xs1 ++ x :: xs2 → I xs1 s → wp (body x) s (λ r s', r = None ∧ I (xs1 ++ [x]) s')) →
  I [] s → (∀ s', I xs s' → R None s') →
  wp (list_for_each (λ l, on_mem (get_next l)) fuel h body) s R.
Proof.
  intros Hh Hfuel Hrd Hbody HI HR. unfold list_for_each.
  apply wp_bind. eapply wp_intro; [by eapply (Hrd s [] h xs)|].
  assert (Hgo : ∀ xs2 xs1 fuel s, xs = xs1 ++ xs2 → (length xs2 < fuel)%nat → I xs1 s →
    wp (list_for_each_loop (λ l, on_mem (get_next l)) fuel (default h (head xs2)) h body) s R);
    [|by apply (Hgo xs [])].
  clear fuel Hfuel s HI. induction xs2 as [|x xs2 IH]; intros xs1 [|fuel] s Hx Hfuel HI; cbn in Hfuel; try lia;
    cbn [head from_option id list_for_each_loop].
  - rewrite Z.eqb_refl. apply wp_ret, HR. by rewrite Hx, app_nil_r.
  - destruct (Z.eqb_spec x h) as [->|_]; [by destruct Hh; rewrite Hx, elem_of_app, elem_of_cons; auto|].
    apply wp_bind. eapply wp_mono; [by eapply Hbody|]. intros ? s' [-> HI'].
    apply wp_bind. eapply wp_intro; [eapply (Hrd s' (h :: xs1)); [done|by rewrite Hx]|].
    apply (IH (xs1 ++ [x])); [by rewrite <- app_assoc|lia|done].
Qed.

(** print_queue walks a queue of any state of the kernel to its end and
    shows one line per task, in the order of the queue, with the number of the
    task and its identifier; nothing but the console changes. *)
Theorem print_queue_lists σ q s :
  qinv σ (k_mem s) → (∀ i, i ∈ get_q q σ → pid_of (k_mem s) i < 10 ^ 8) →
  print_queue (head_of q) s = Ret tt (shown (queue_text (k_mem s) (get_q q σ)) s).
Proof.
  intros Hq Hp. enough (Hw : wp (print_queue (head_of q)) s (λ r s',
    s' = shown (queue_text (k_mem s) (get_q q σ)) s)).
  { by apply wp_elim in Hw as ([] & ? & E & ->). }
  pose proof (lists_of_q σ q) as Hl. pose proof (lists_nodup _ _ _ (qi_lists _ _ Hq) _ _ Hl) as [Hnh Hnd]%NoDup_cons.
  unfold print_queue. apply wp_bind.
  apply (wp_list_walk (λ xs s', ∃ js, xs = anchor_of <$> js ∧ s' = shown (queue_text (k_mem s) js) s)
           _ _ (anchor_of <$> get_q q σ)).
  - done.
  - rewrite length_fmap. apply valid_nodup_length; [by apply NoDup_fmap_1 in Hnd|].
    intros j Hj. apply (qi_valid _ _ Hq). by apply (queued_q _ q).
  - intros s' xs1 c xs2 ys (js & _ & ->) Hsp. eapply rd_next; [apply Hq|exact Hl|exact Hsp|done].
  - intros s' xs1 x xs2 Hx (js & -> & ->).
    apply fmap_app_inv in Hx as (js' & js2 & Ejs & Ex & Eq).
    destruct js2 as [|i js2]; [done|]. injection Ex as -> _.
    assert (Hi : i ∈ get_q q σ) by (rewrite Eq, elem_of_app, elem_of_cons; auto).
    apply wp_queue_line; [apply (qi_valid _ _ Hq); by apply (queued_q _ q)|by apply Hp|].
    split; [done|]. exists (js ++ [i]). split; [by rewrite fmap_app|].
    rewrite shown_app. unfold queue_text. rewrite fmap_app, concat_app. cbn. by rewrite app_nil_r.
  - exists []. by rewrite shown_nil.
  - intros s' (js & Ejs & ->). apply (inj _) in Ejs as <-. by apply wp_ret.
Qed.

(** ** print_stack *)

(** The line of the word at [a], the [i]-th from the top. *)
Definition stack_line (m : memory) (i a : Z) : list Z :=
  [10] ++ dec i ++ chars " (" ++ hexa a ++ chars ")" ++ chars ": [" ++ hexa (load_int m a) ++ chars "]".
Definition stack_text (m : memory) (n : nat) (i base : Z) : list Z :=
  concat ((λ k, stack_line m (i - k) (base - 4 * k)) <$> seqZ 0 (Z.of_nat n)).

Lemma stack_text_S m n i base :
  stack_text m (S n) i base = stack_line m i base ++ stack_text m n (i - 1) (base - 4).
Proof.
  unfold stack_text. rewrite seqZ_cons by lia. cbn [fmap list_fmap concat].
  rewrite Z.sub_0_r. change (4 * 0) with 0. rewrite Z.sub_0_r. f_equal. f_equal.
  replace (Z.pred (Z.of_nat (S n))) with (Z.of_nat n) by lia.
  change (Z.succ 0) with (1 + 0). rewrite <- fmap_add_seqZ, <- list_fmap_compose. apply list_fmap_ext. intros _ k _.
  unfold compose. replace (i - (1 + k)) with (i - 1 - k) by lia.
  by replace (base - 4 * (1 + k)) with (base - 4 - 4 * k) by lia.
Qed.

Lemma load_int_range m a : - 2 ^ 31 ≤ load_int m a < 2 ^ 31.
Proof. unfold load_int, s32. pose proof (Z.mod_pos_bound (load32 m a) (2 ^ 32)). destruct (_ <? _) eqn:E; lia. Qed.

Lemma wp_print_words aux i base s R :
  i < 10 ^ 8 → KERNEL_LO + 4 * Z.of_nat aux ≤ base → base + 4 ≤ KERNEL_HI →
  R tt (shown (stack_text (k_mem s) (Nat.min aux (Z.to_nat i)) i base) s) → wp (print_words aux i base) s R.
Proof.
  revert i base s. induction aux as [|aux IH]; intros i base s Hi Hlo Hhi HR.
  { apply wp_ret. by rewrite <- (shown_nil s). }
  cbn [print_words]. destruct (Z.ltb_spec 0 i) as [Hpos|Hneg]; last first.
  { apply wp_ret. replace (Z.to_nat i) with O in HR by lia. by rewrite <- (shown_nil s). }
  apply wp_bind, (wp_show [10] []); [by repeat constructor|].
  apply wp_bind, wp_print_dec; [done|lia..|].
  unfold KERNEL_HI, KERNEL_LO in *. rewrite s32_small by lia.
  apply wp_hex_buf; [lia..|]. intros r.
  apply wp_bind, (wp_literal []); [done|]. apply wp_bind, wp_show; [apply hexa_chars|].
  do 2 (apply wp_bind, (wp_literal []); [done|]).
  apply wp_bind, wp_on_mem, wp_kload32; [unfold KERNEL_LO, KERNEL_HI; lia..|].
  pose proof (proj2 (load_int_range (k_mem s) base)) as Hw.
  apply wp_bind, wp_print_hex; [apply (Z.lt_trans _ (2 ^ 31)); [exact Hw|lia]|exact Hw|lia|].
  apply wp_bind, (wp_literal []); [done|].
  replace (Nat.min (S aux) (Z.to_nat i)) with (S (Nat.min aux (Z.to_nat (i - 1)))) in HR by lia.
  rewrite stack_text_S in HR. unfold stack_line in HR. rewrite !shown_app, with_mem_same, !shown_app.
  apply IH; [lia..|]. rewrite shown_app. cbn [app] in *. rewrite <- !app_assoc in *. exact HR.
Qed.

(** The base of a kernel stack, and the lowest word of it in use: below the
    stack pointer of the running task, or the one a suspended task saved. *)
Definition stack_base_of (i : Z) : Z := stack_addr (task_addr i) (KERNEL_STACK_SIZE - 1).
Definition stack_top_of (s : kstate) (run i : Z) : Z :=
  if decide (i = run) then esp (k_regs s) else u32 (load32 (k_mem s) (task_addr i + f_kernel_esp) - 4).

(** print_stack shows the kernel stack of a task, one line per word from
    the base down with its place, address and contents, at most fifty lines;
    of a stack whose pointer is above the base it shows nothing.  Nothing but
    the console changes. *)
Theorem print_stack_shows s run i :
  on_stack s run → valid_task i → task_addr i ≤ stack_top_of s run i →
  let n := (stack_base_of i - stack_top_of s run i) / 4 in
  print_stack (task_addr i) s =
  Ret tt (if stack_base_of i <? stack_top_of s run i then s
          else shown (stack_text (k_mem s) (Nat.min 50 (Z.to_nat n)) n (stack_base_of i)) s).
Proof.
  intros Hon Hi Htop n. enough (Hw : wp (print_stack (task_addr i)) s (λ _ s', s' =
    if stack_base_of i <? stack_top_of s run i then s
    else shown (stack_text (k_mem s) (Nat.min 50 (Z.to_nat n)) n (stack_base_of i)) s)).
  { by apply wp_elim in Hw as ([] & ? & E & ->). }
  unfold print_stack. apply wp_bind, wp_get_field; [done|solve_field..|].
  apply wp_bind, (wp_current run); [done|]. apply wp_bind.
  apply wp_mono with (Q := λ v s', v = stack_top_of s run i ∧ s' = s).
  { unfold stack_top_of. destruct (Z.eqb_spec (task_addr i) (task_addr run)) as [->%task_addr_inj|Hne].
    - rewrite decide_True by done. by apply wp_gets.
    - rewrite decide_False by congruence. by apply wp_ret. }
  intros ? ? [-> ->]. fold (stack_base_of i). destruct (Z.ltb_spec (stack_base_of i) (stack_top_of s run i)) as [|Hle].
  { by apply wp_ret. }
  pose proof (task_addr_window i Hi) as Hwin. unfold stack_base_of, stack_addr, KERNEL_STACK_SIZE in *.
  unfold KERNEL_START, KERNEL_HI, PAGE_SIZE in Hwin.
  rewrite u32_small, s32_small, Z.shiftr_div_pow2 by lia. change (2 ^ 2) with 4.
  apply wp_print_words; [subst n; Z.div_mod_to_equations; lia|unfold KERNEL_LO; lia|unfold KERNEL_HI; lia|done].
Qed.

(** ** debug_stack *)

Definition overflow_text (pid : Z) : list Z :=
  (10 :: chars "stack overflow at PID: ") ++ dec pid ++ chars "                                      ".

Definition debug_text (pid e t : Z) : list Z :=
  (10 :: chars "esp value at PID(") ++ dec pid ++ chars "): " ++ hexa e ++ chars "    system stack size: " ++
  dec ((t + 4092 - e) / 4) ++ chars "    overflow_addr: " ++ hexa (t + 260) ++
  if e <=? t + 260 then overflow_text pid else [].

Lemma wp_overflow_breakpoint s i R :
  on_stack s i → pid_of (k_mem s) i < 10 ^ 3 → R tt (shown (overflow_text (pid_of (k_mem s) i)) s) →
  wp overflow_breakpoint s R.
Proof.
  intros Hon Hp HR. unfold overflow_breakpoint. apply wp_bind, (wp_literal [10]); [done|].
  apply wp_bind, (wp_current i); [done|]. apply wp_bind, wp_get_int_field; [apply Hon|solve_field..|].
  apply wp_bind, (wp_print_dec 3 (pid_of (k_mem s) i)); [lia..|].
  apply (wp_literal []); [done|]. rewrite !shown_app, <- app_assoc. exact HR.
Qed.

(** debug_stack.  Called on the kernel stack of a task, it shows the
    identifier, the stack pointer, the size of the stack and the limit, and
    reports an overflow exactly when the stack pointer is within five task
    structures of the start of the union; nothing but the console changes. *)
Theorem debug_stack_shows s i :
  on_stack s i → pid_of (k_mem s) i < 10 ^ 3 → task_addr i + 4 ≤ esp (k_regs s) →
  debug_stack s = Ret tt (shown (debug_text (pid_of (k_mem s) i) (esp (k_regs s) - 4) (task_addr i)) s).
Proof.
  intros Hon Hp Hlo. destruct (Hon) as [Hi Hesp]. enough (Hw : wp debug_stack s (λ _ s',
    s' = shown (debug_text (pid_of (k_mem s) i) (esp (k_regs s) - 4) (task_addr i)) s)).
  { by apply wp_elim in Hw as ([] & ? & E & ->). }
  pose proof (task_addr_window i Hi) as Hwin. unfold KERNEL_START, KERNEL_HI, PAGE_SIZE in Hwin.
  unfold PAGE_SIZE in Hesp.
  unfold debug_stack, stack_addr, sizeof_task_struct, KERNEL_STACK_SIZE. apply wp_bind, wp_gets.
  set (e := esp (k_regs s)) in *. rewrite !(u32_small (e - 4)), (s32_small (e - 4)) by lia.
  apply wp_bind, (wp_current i); [done|].
  apply wp_bind, (wp_literal [10]); [done|]. apply wp_bind, (wp_current i); [done|].
  apply wp_bind, wp_get_int_field; [done|solve_field..|].
  apply wp_bind, (wp_print_dec 7 (pid_of (k_mem s) i)); [lia..|].
  apply wp_bind, (wp_literal []); [done|]. apply wp_bind, wp_print_hex; [lia..|].
  apply wp_bind, (wp_literal []); [done|]. rewrite s32_u32, s32_small, Z.shiftr_div_pow2 by lia.
  replace (task_addr i + 4 * (1024 - 1) - (e - 4)) with (task_addr i + 4092 - (e - 4)) by lia.
  apply wp_bind, wp_print_dec; [Z.div_mod_to_equations; lia..|lia|].
  apply wp_bind, (wp_current i); [done|]. apply wp_bind, (wp_literal []); [done|].
  rewrite (s32_small (task_addr i + 52 * 5)) by lia. apply wp_bind, wp_print_hex; [lia..|].
  rewrite !shown_app. unfold debug_text. change (52 * 5) with 260. destruct (e - 4 <=? task_addr i + 260).
  - apply (wp_overflow_breakpoint _ i); [done..|]. rewrite shown_app, <- !app_assoc. reflexivity.
  - apply wp_ret. rewrite app_nil_r, <- !app_assoc. reflexivity.
Qed.
End Debug.
