(* ===== verification/Fault.v ===== *)
(** The page fault as a process causes it: segmentation_fault_handler of
    entry.S with the service of interrupt.c, and the text it shows before the
    kernel stops. *)

From Stdlib Require Import Ascii.
From stdpp Require Import strings.
From S2P Require Import Prelude Memory CList Libc Console Frames Types Kernel Task Paging Utils Switch.
From S2P Require Import Sched Policy Space Process Sys Tick Block Write Entry Calls Interrupt Debug.
#[local] Open Scope Z_scope.

Section Fault.
Context {L : Layout}.

(** [call segmentation_fault_service], with [ra] the address after it: the
    prologue of the service finds its parameters above the return address. *)
Definition call_fault_service (ra : Z) : K (Z * Z) :=
  push ra ;!
  enter ;!
  let! b := get_reg ebp in
  let! eip := on_mem (kload32 (b + 8)) in
  let! err := on_mem (kload32 (b + 12)) in
  ret (eip, err).

(** What the handler passes on: the error code and the instruction pointer
    the processor pushed. *)
Definition fault_args (ra : Z) : K (Z * Z) :=
  let! b := get_reg ebp in
  let! v := on_mem (kload32 (b + 4)) in
  upd_regs (w_eax v) ;!
  push_reg eax ;!
  let! b := get_reg ebp in
  let! v := on_mem (kload32 (b + 8)) in
  upd_regs (w_eax v) ;!
  push_reg eax ;!
  call_fault_service ra.

(** The service never returns: the instructions after its call are never
    executed.  [cr2] is the faulting address. *)
Definition segmentation_fault_handler (ra cr2 : Z) : K unit :=
  enter ;!
  SAVE_ALL ;!
  let! p := fault_args ra in
  segmentation_fault_service cr2 (fst p) (snd p).

(** ** The report *)

Definition fault_access (err : Z) : list Z :=
  if Z.testbit err 4 then chars "instruction fetch " else if Z.testbit err 1 then chars "write " else chars "read ".

(** The numbers are shown as an [int]: one from 2^31 on is negative, and of a
    negative number itoa and itoa_hex show nothing. *)
Definition fault_head (err : Z) : list Z :=
  (10 :: chars "Process generates a ") ++ (if Z.testbit err 2 then chars "user " else chars "system ") ++
  fault_access err ++ chars "(" ++ dec (s32 err) ++ chars ") " ++ (chars "PAGE FAULT exception" ++ [10]) ++ chars "EIP: 0x".

Definition fault_text (cr2 eip err : Z) : list Z :=
  fault_head err ++ hexa (s32 eip) ++ chars "   fault address: 0x" ++ hexa (s32 cr2).

(** The numerals fit the service's array of eight characters. *)
Definition report_fits (cr2 eip err : Z) : bool :=
  (s32 err <? 10 ^ 7) && ((s32 eip <? 2 ^ 28) && (s32 cr2 <? 2 ^ 28)).

Lemma fault_hex_or v s R :
  R tt (shown (hexa (s32 v)) s) → wp_or (BufferOverflow 8) (s32 v <? 2 ^ 28) (fault_hex v) s R.
Proof.
  intros HR. pose proof (s32_range v). change (fault_hex v) with (print_hex 8 (s32 v)).
  by apply (print_hex_or 7); [lia|lia|].
Qed.

Lemma wp_literal_if (b : bool) x y s R :
  forallb (λ c, negb (c =? 0)) (chars x) = true → forallb (λ c, negb (c =? 0)) (chars y) = true →
  R tt (shown (if b then chars x else chars y) s) →
  wp (if b then on_console (printk (literal x)) else on_console (printk (literal y))) s R.
Proof. intros. destruct b; by apply (wp_literal []). Qed.

Lemma fault_header_or err s R :
  R tt (shown (fault_head err) s) → wp_or (BufferOverflow 8) (s32 err <? 10 ^ 7) (fault_header err) s R.
Proof.
  intros HR. unfold fault_head in HR. unfold fault_header.
  apply wp_or_bind, (wp_literal [10]); [by vm_compute|]. apply wp_or_bind, wp_literal_if; [by vm_compute..|].
  apply wp_or_bind. set (s1 := shown _ _).
  enough (wp (if Z.testbit err 4 then on_console (printk (literal "instruction fetch "))
     else if Z.testbit err 1 then on_console (printk (literal "write ")) else on_console (printk (literal "read "))) s1
     (λ _ s', s' = shown (fault_access err) s1)) as Hw.
  { eapply wp_mono; [exact Hw|]. intros [] s' ->. apply wp_or_bind, (wp_literal []); [by vm_compute|].
    pose proof (s32_range err). apply (dec_buf_or 7); [lia|lia|]. intros r.
    apply wp_bind, wp_show; [apply dec_chars|]. apply wp_bind, (wp_literal []); [by vm_compute|].
    change (chars "PAGE FAULT exception" ++ 10 :: literal "EIP: 0x") with ((chars "PAGE FAULT exception" ++ [10]) ++ literal "EIP: 0x").
    apply wp_literal; [by vm_compute|]. unfold s1. rewrite !shown_app, <- !app_assoc. rewrite <- !app_assoc in HR. exact HR. }
  unfold fault_access. destruct (Z.testbit err 4); [by apply (wp_literal [])|]. by apply wp_literal_if; [by vm_compute..|].
Qed.

Lemma fault_service_or cr2 eip err s R :
  R tt (shown (fault_text cr2 eip err) s) →
  wp_or (BufferOverflow 8) (report_fits cr2 eip err) (segmentation_fault_service cr2 eip err) s R.
Proof.
  intros HR. unfold fault_text in HR. unfold segmentation_fault_service, report_fits.
  apply wp_or_seq, fault_header_or, wp_or_seq, fault_hex_or, wp_or_bind, (wp_literal []); [by vm_compute|].
  apply fault_hex_or. by rewrite !shown_app, <- !app_assoc.
Qed.

Context {LO : LayoutOk L}.

(** ** The handler *)

(** The error code is pushed below what every interrupt pushes. *)
Lemma int_enter_err handler e s : int_enter handler (Some e) s = (int_enter handler None ;! push e) s.
Proof.
  unfold int_enter, bind, gets, ret. destruct (if ring (cs (k_regs s)) =? 3 then _ else _) as [[] s1|]; [|done].
  destruct (push (eflags (k_regs s)) s1) as [[] s2|]; [|done]. destruct (push (cs (k_regs s)) s2) as [[] s3|]; [|done].
  destruct (push (eip (k_regs s)) s3) as [[] s4|]; [|done].
  unfold push, upd_regs, modify, get_reg, on_mem, kstore32, bind, gets. cbn [k_mem k_regs with_regs with_mem esp w_esp w_eflags w_cs w_eip].
  by destruct (kernel_ptr (u32 (esp (k_regs s4) - 4)) 4).
Qed.

(** The words on the kernel stack when the service starts. *)
Definition fault_words (u : regs) (T err ra : Z) : list Z :=
  [ss u; esp u; eflags u; cs u; eip u; err; ebp u;
   gs u; fs u; es u; ds u; eax u; T - 28; edi u; esi u; ebx u; ecx u; edx u; err; eip u; ra; T - 28].

Definition saved_regs (u : regs) (T sel handler : Z) : regs :=
  MkRegs (eax u) (ebx u) (ecx u) KERNEL_DS (esi u) (edi u) (T - 28) (T - 72) handler
    (Z.ldiff (eflags u) IF_FLAG) KERNEL_CS sel KERNEL_DS KERNEL_DS (fs u) (gs u).

Definition fault_regs (u : regs) (T sel handler : Z) : regs :=
  w_eax (eip u) (w_ebp (T - 88) (w_esp (T - 88) (saved_regs u T sel handler))).

Section Enter.
Context (T : Z) (u : regs) (err ra : Z).
Context (Hu : user_ok u) (Hlo : KERNEL_LO ≤ T - 88) (Hhi : T ≤ KERNEL_HI) (Herr : 0 ≤ err < 2 ^ 32) (Hra : 0 ≤ ra < 2 ^ 32).
Let W : list Z := take 18 (fault_words u T err ra).

(** The processor's part, [pushl %ebp; movl %esp, %ebp] and SAVE_ALL. *)
Lemma wp_fault_save handler s R :
  k_regs s = u → esp0 (k_tss s) = T →
  (∀ m, stacked m T W → frame (in_range (T - 72) 72) (k_mem s) m →
     R tt (with_mem m (with_regs (saved_regs u T (ss0 (k_tss s)) handler) s))) →
  wp (int_enter handler None ;! push err ;! enter ;! SAVE_ALL) s R.
Proof.
  intros Er HT HR.
  assert (Hw : ∀ r, r ∈ [eax; ebx; ecx; edx; esi; edi; ebp; esp; eip; eflags; cs; ss; ds; es; fs; gs] → 0 ≤ r u < 2 ^ 32)
    by (intros r; by apply user_word).
  assert (HT28 : 0 ≤ T - 28 < 2 ^ 32) by (unfold KERNEL_LO, KERNEL_HI in *; lia).
  apply wp_bind, (wp_int_enter T); [by rewrite Er|done|lia|done|]. rewrite Er. intros m1 S1 F1.
  apply wp_bind, (wp_push_stacked T [ss u; esp u; eflags u; cs u; eip u]); kred; [done|done|done|cbn; lia|done|]. intros m2 S2 F2.
  cbn [app] in S2. unfold enter. apply wp_bind, wp_bind, wp_bind, wp_gets. kred.
  apply (wp_push_stacked T [ss u; esp u; eflags u; cs u; eip u; err]); kred; [done|done|apply Hw; set_solver|cbn; lia|done|].
  intros m3 S3 F3. cbn [app] in S3. apply wp_bind, wp_gets, wp_modify. kred.
  replace (T - 4 * Z.of_nat (length ([ss u; esp u; eflags u; cs u; eip u; err] ++ [ebp u]))) with (T - 28) by (cbn; lia).
  apply (wp_SAVE_ALL T [ss u; esp u; eflags u; cs u; eip u; err; ebp u]); kred.
  - cbn. lia.
  - exact S3.
  - repeat constructor; cbn; try (by apply Hw; set_solver); lia.
  - cbn. lia.
  - done.
  - cbv zeta. kred. intros m4 S4 F4.
    replace (T - 4 * Z.of_nat (length [ss u; esp u; eflags u; cs u; eip u; err; ebp u]) - 44) with (T - 72) in * by (cbn; lia).
    apply (HR m4 S4).
    eapply frame_trans; [eapply frame_weaken; [|exact F1]; intros x; unfold in_range; lia|].
    eapply frame_trans; [eapply frame_weaken; [|exact F2]; intros x; unfold in_range; cbn; lia|].
    eapply frame_trans; [eapply frame_weaken; [|exact F3]; intros x; unfold in_range; cbn; lia|].
    eapply frame_weaken; [|exact F4]. intros x. unfold in_range. lia.
Qed.

(** The arguments, the call and the service's prologue. *)
Lemma wp_fault_args sel handler s R :
  k_regs s = saved_regs u T sel handler → stacked (k_mem s) T W →
  (∀ m, stacked m T (fault_words u T err ra) → frame (in_range (T - 88) 16) (k_mem s) m →
     R (eip u, err) (with_mem m (with_regs (fault_regs u T sel handler) s))) →
  wp (fault_args ra) s R.
Proof.
  unfold fault_regs, saved_regs, fault_args. intros Er S4 HR. pose proof (user_word u eip Hu ltac:(set_solver)) as Hip.
  assert (HT28 : 0 ≤ T - 28 < 2 ^ 32) by (unfold KERNEL_LO, KERNEL_HI in *; lia).
  assert (L5 : load32 (k_mem s) (T - 24) = err) by (by apply (S4 5%nat)).
  apply wp_bind, wp_gets. rewrite Er. kred. apply wp_bind, wp_on_mem, wp_kload32; kred; [lia|lia|].
  replace (T - 28 + 4) with (T - 24) by lia. rewrite L5, with_mem_same. apply wp_bind, wp_modify. kred. rewrite Er.
  apply wp_bind, wp_bind, wp_gets. kred.
  apply (wp_push_stacked T W); kred; [cbn; lia|done|done|cbn; lia|done|]. intros m5 S5 F5.
  assert (L4 : load32 m5 (T - 20) = eip u) by (by apply (S5 4%nat)).
  apply wp_bind, wp_gets. kred. apply wp_bind, wp_on_mem, wp_kload32; kred; [lia|lia|].
  replace (T - 28 + 8) with (T - 20) by lia. rewrite L4. apply wp_bind, wp_modify. kred.
  apply wp_bind, wp_bind, wp_gets. kred.
  apply (wp_push_stacked T (W ++ [err])); kred; [done|done|done|cbn; lia|done|]. intros m6 S6 F6.
  unfold call_fault_service. apply wp_bind, (wp_push_stacked T ((W ++ [err]) ++ [eip u])); kred; [done|done|done|cbn; lia|done|]. intros m7 S7 F7.
  unfold enter. apply wp_bind, wp_bind, wp_bind, wp_gets. kred.
  apply (wp_push_stacked T (((W ++ [err]) ++ [eip u]) ++ [ra])); kred; [done|done|lia|cbn; lia|done|]. intros m8 S8 F8.
  apply wp_bind, wp_gets, wp_modify. kred.
  replace (T - 4 * Z.of_nat (length ((((W ++ [err]) ++ [eip u]) ++ [ra]) ++ [T - 28]))) with (T - 88) by (cbn; lia).
  assert (K1 : load32 m8 (T - 80) = eip u) by (by apply (S8 19%nat)). assert (K2 : load32 m8 (T - 76) = err) by (by apply (S8 18%nat)).
  apply wp_bind, wp_gets. kred.
  apply wp_bind, wp_on_mem, wp_kload32; kred; [lia|lia|]. replace (T - 88 + 8) with (T - 80) by lia. rewrite K1.
  apply wp_bind, wp_on_mem, wp_kload32; kred; [lia|lia|]. replace (T - 88 + 12) with (T - 76) by lia. rewrite K2.
  apply wp_ret, (HR m8 S8).
  eapply frame_trans; [eapply frame_weaken; [|exact F5]; intros x; unfold in_range; cbn; lia|].
  eapply frame_trans; [eapply frame_weaken; [|exact F6]; intros x; unfold in_range; cbn; lia|].
  eapply frame_trans; [eapply frame_weaken; [|exact F7]; intros x; unfold in_range; cbn; lia|].
  eapply frame_weaken; [|exact F8]. intros x. unfold in_range. cbn. lia.
Qed.
End Enter.

(** A page fault of a process, with the error code [err]. *)
Definition page_fault (handler ra cr2 err : Z) : K unit :=
  int_enter handler (Some err) ;!
  segmentation_fault_handler ra cr2.

Section Stop.
Context (σ : ptable) (code : list Z) (data : gmap Z (list Z)) (j : Z) (s : kstate) (handler ra : Z).
Context (Hum : user_mode σ code data j s) (Hj : sizeof_task_struct + 88 ≤ 4 * j) (Hra : 0 ≤ ra < 2 ^ 32).
Let u : regs := k_regs s.
Let T : Z := stack_addr (task_addr (p_run σ)) j.

(** The handler is the service on the kernel stack of the process. *)
Lemma page_fault_service cr2 err :
  0 ≤ err < 2 ^ 32 →
  ∃ m, frame (in_range (T - 88) 88) (k_mem s) m ∧
    page_fault handler ra cr2 err s =
      segmentation_fault_service cr2 (eip u) err (with_mem m (with_regs (fault_regs u T (ss0 (k_tss s)) handler) s)).
Proof.
  intros Herr. pose proof (um_valid _ _ _ _ _ Hum) as Hr. pose proof (task_addr_window _ Hr) as Hwin.
  destruct (um_room _ _ _ _ _ Hum) as [_ Hr2].
  assert (Hlo : KERNEL_LO ≤ T - 88 ∧ T ≤ KERNEL_HI)
    by (unfold T, stack_addr, sizeof_task_struct, KERNEL_LO, KERNEL_START in *; lia). destruct Hlo as [Hlo Hhi].
  pose proof (um_regs _ _ _ _ _ Hum) as Hu. fold u in Hu.
  assert (Hw : wp (int_enter handler None ;! push err ;! enter ;! SAVE_ALL) s (λ _ s1, ∃ m,
    stacked m T (take 18 (fault_words u T err ra)) ∧ frame (in_range (T - 72) 72) (k_mem s) m ∧
    s1 = with_mem m (with_regs (saved_regs u T (ss0 (k_tss s)) handler) s))).
  { apply (wp_fault_save T u err ra); [done..|exact (um_esp0 _ _ _ _ _ Hum)|]. intros m S F. by exists m. }
  destruct (wp_elim _ _ _ Hw) as ([] & s1 & E1 & m & S & F & ->). clear Hw.
  set (s1 := with_mem _ _) in E1.
  assert (Hw : wp (fault_args ra) s1 (λ p s2, p = (eip u, err) ∧ ∃ m2, frame (in_range (T - 88) 16) m m2 ∧
    s2 = with_mem m2 (with_regs (fault_regs u T (ss0 (k_tss s)) handler) s))).
  { eapply (wp_fault_args T u err ra); [done..|exact S|]. intros m2 _ F2. split; [done|]. by exists m2. }
  destruct (wp_elim _ _ _ Hw) as (p & s2 & E2 & -> & m2 & F2 & ->).
  exists m2. split; [eapply frame_trans; (eapply frame_weaken; [|eassumption]); intros x; unfold in_range; lia|].
  unfold page_fault, segmentation_fault_handler, bind. rewrite int_enter_err. unfold bind in E1 |- *.
  destruct (int_enter handler None s) as [[] sa|]; [|done]. destruct (push err sa) as [[] sb|]; [|done].
  destruct (enter sb) as [[] sc|]; [|done]. destruct (SAVE_ALL sc) as [[] sd|]; [|done]. injection E1 as ->. by rewrite E2.
Qed.

(** C29. A page fault stops the machine.  When a process in user mode causes
    one, with 88 bytes of its kernel stack free, the handler passes the address
    of the faulting instruction and the processor's error code to the service.
    If the numbers fit the service's array of eight characters (as an [int],
    the error code is below 10^7 and the two addresses are below 2^28), the
    service shows who, what kind of access and where, exactly (addresses from
    2^31 on are negative and are shown as nothing); no process is changed, and
    the processor is left in the kernel with interrupts off, in the service's
    endless loop.  In every other case a numeral and its terminator overrun
    the array. *)
Theorem page_fault_stops cr2 err :
  0 ≤ err < 2 ^ 32 →
  (s32 err < 10 ^ 7 ∧ s32 (eip u) < 2 ^ 28 ∧ s32 cr2 < 2 ^ 28 →
     ∃ s', page_fault handler ra cr2 err s = Ret tt s' ∧
     k_console s' = show (fault_text cr2 (eip u) err) (k_console s) ∧ kernel_inv σ code data s' ∧
     Z.testbit (eflags (k_regs s')) 9 = false ∧ ring (cs (k_regs s')) = 0) ∧
  (10 ^ 7 ≤ s32 err ∨ 2 ^ 28 ≤ s32 (eip u) ∨ 2 ^ 28 ≤ s32 cr2 →
     page_fault handler ra cr2 err s = Fault (BufferOverflow 8)).
Proof.
  intros Herr. destruct (page_fault_service cr2 err Herr) as (m & F & E). rewrite E. clear E.
  pose proof (um_inv _ _ _ _ _ Hum) as Hinv. assert (Hco : cursor_ok (k_console s)) by apply (ki_sched _ _ _ _ Hinv).
  set (s1 := with_mem _ _).
  destruct (wp_or_elim _ _ _ _ _ (fault_service_or cr2 (eip u) err s1 (λ _ s', s' = shown (fault_text cr2 (eip u) err) s1) eq_refl))
    as [Hok Hno]. unfold report_fits in Hok, Hno. split.
  - intros (H1 & H2 & H3). destruct (wp_elim _ _ _ (Hok ltac:(lia))) as ([] & s' & -> & ->).
    exists (shown (fault_text cr2 (eip u) err) s1). split; [done|]. split; [done|]. split; [|split; [|done]].
    + destruct (um_room _ _ _ _ _ Hum).
      change (kernel_inv σ code data (with_regs (fault_regs u T (ss0 (k_tss s)) handler)
        (with_console (show (fault_text cr2 (eip u) err) (k_console s)) (with_mem m s)))).
      apply kernel_inv_regs. eapply (kernel_inv_scratch _ _ _ s m (T - 88) 88); [exact Hinv| | | |exact F|by apply show_cursor];
        unfold T, stack_addr, sizeof_task_struct in *; lia.
    + change (Z.testbit (Z.ldiff (eflags u) IF_FLAG) 9 = false). rewrite Z.ldiff_spec. change (Z.testbit IF_FLAG 9) with true.
      by rewrite andb_false_r.
  - intros H. apply Hno. lia.
Qed.
End Stop.
End Fault.
