(* ===== verification/Wrappers.v ===== *)
(** wrappers.S: the library functions a user program makes system calls with,
    from the caller's [call] to its next instruction, on the memory the
    program sees. *)

From S2P Require Import Prelude Memory CList Libc Console Frames Types Kernel Task Paging Utils Switch.
From S2P Require Import Sched Policy Space Process Sys Block Fork ForkInv Write Entry Calls.

(** ** Memory accesses of user code *)

Definition uload8 (va : Z) : K Z := λ s,
  match translate_user (k_mem s) (k_cr3 s) (u32 va) false with
  | Some pa => Ret (load8 (k_mem s) pa) s
  | None => Fault (PageFault (u32 va))
  end.

Definition ustore8 (va v : Z) : K unit := λ s,
  match translate_user (k_mem s) (k_cr3 s) (u32 va) true with
  | Some pa => Ret tt (with_mem (store8 (k_mem s) pa v) s)
  | None => Fault (PageFault (u32 va))
  end.

Definition uload32 (va : Z) : K Z :=
  let! a := uload8 va in
  let! b := uload8 (va + 1) in
  let! c := uload8 (va + 2) in
  let! d := uload8 (va + 3) in
  ret (a + Z.shiftl b 8 + Z.shiftl c 16 + Z.shiftl d 24).

Definition ustore32 (va v : Z) : K unit :=
  ustore8 va v ;!
  ustore8 (va + 1) (Z.shiftr v 8) ;!
  ustore8 (va + 2) (Z.shiftr v 16) ;!
  ustore8 (va + 3) (Z.shiftr v 24).

(** [pushl], [popl] and [ret] on the user stack *)
Definition upush (r : regs → Z) : K unit :=
  let! v := get_reg r in
  let! e := get_reg esp in
  ustore32 (u32 (e - 4)) v ;!
  upd_regs (w_esp (u32 (e - 4))).

Definition upop (w : Z → regs → regs) : K unit :=
  let! e := get_reg esp in
  let! v := uload32 e in
  upd_regs (w_esp (u32 (e + 4))) ;!
  upd_regs (w v).

Definition uret : K unit := upop w_eip.

(** [movl k(%esp), r] *)
Definition uarg (k : Z) (w : Z → regs → regs) : K unit :=
  let! e := get_reg esp in
  let! v := uload32 (u32 (e + k)) in
  upd_regs (w v).

Section Wrappers.
Context {L : Layout}.
Context (junk handler errno : Z).

(** [cmpl $0, %eax; jge out; neg %eax; movl %eax, errno; movl $-1, %eax] *)
Definition set_errno : K unit :=
  let! v := get_reg eax in
  if 0 <=? s32 v then ret tt
  else
    upd_regs (w_eax (u32 (- v))) ;!
    let! e := get_reg eax in
    ustore32 errno e ;!
    upd_regs (w_eax (u32 (-1))).

Definition write : K unit :=
  upush ebx ;!
  uarg 8 w_edx ;!
  uarg 12 w_ecx ;!
  uarg 16 w_ebx ;!
  upd_regs (w_eax 4) ;!
  int_0x80 junk handler ;!
  set_errno ;!
  upop w_ebx ;!
  uret.

Definition gettime : K unit :=
  upd_regs (w_eax 10) ;!
  int_0x80 junk handler ;!
  uret.

Definition getpid : K unit :=
  upd_regs (w_eax 20) ;!
  int_0x80 junk handler ;!
  set_errno ;!
  uret.

Definition fork : K unit :=
  upd_regs (w_eax 2) ;!
  int_0x80 junk handler ;!
  set_errno ;!
  uret.

(** In exit and block the trap may give the processor to another task; the
    rest of the wrapper is executed by the calling process, when it is back
    in user mode. *)
Definition back_in_user : K bool :=
  let! c := get_reg cs in ret (ring c =? 3).

Definition exit : K unit :=
  upd_regs (w_eax 1) ;!
  int_0x80 junk handler ;!
  let! back := back_in_user in
  when back (set_errno ;! uret).

Definition block : K unit :=
  upd_regs (w_eax 5) ;!
  int_0x80 junk handler ;!
  let! back := back_in_user in
  when back (set_errno ;! uret).

Definition unblock : K unit :=
  uarg 4 w_ebx ;!
  upd_regs (w_eax 6) ;!
  int_0x80 junk handler ;!
  set_errno ;!
  uret.

(** ** The user's view

    The machine as a process sees it: its registers, its memory by virtual
    address, and what the calls report; and what it leaves alone of the
    machine as it was in the state [s0]. *)

Context {LO : LayoutOk L}.
Context (σ : ptable) (code dat : list Z) (data : gmap Z (list Z)) (j : Z) (s0 : kstate).
Context (Hdat : data !! p_run σ = Some dat).

Definition in_user (va n : Z) : Prop := L_USER_START ≤ va ∧ va + n ≤ L_USER_START + USER_PAGES * PAGE_SIZE.
Definition in_data (va n : Z) : Prop := L_USER_START ≤ va ∧ va + n ≤ L_USER_START + NUM_PAG_DATA * PAGE_SIZE.

(** Where a virtual address of the process lies in physical memory. *)
Definition upa (va : Z) : Z :=
  nth (Z.to_nat ((va - L_USER_START) / PAGE_SIZE)) (dat ++ code) 0 * PAGE_SIZE + va mod PAGE_SIZE.

(** All a process changes while it runs and no other task does: its data pages
    and its kernel stack. *)
Definition own_bytes (a : Z) : Prop :=
  in_range (task_addr (p_run σ) + sizeof_task_struct) (PAGE_SIZE - sizeof_task_struct) a ∨
  ∃ f, f ∈ dat ∧ frame_bytes f a.

Record kept (s : kstate) : Prop := {
  kp_mem : frame own_bytes (k_mem s0) (k_mem s);
  kp_pid : k_last_pid s = k_last_pid s0;
  kp_quantum : k_quantum_ticks s = k_quantum_ticks s0;
}.

Record ustate : Type := UState {
  u_regs : regs;
  u_mem : Z → Z;
  u_console : console;
  u_ticks : Z;
  u_pid : Z;
}.

Record view (a : ustate) (s : kstate) : Prop := {
  v_mode : user_mode σ code data j s;
  v_regs : k_regs s = u_regs a;
  v_mem : ∀ va, in_user va 1 → load8 (k_mem s) (upa va) = u_mem a va;
  v_console : k_console s = u_console a;
  v_ticks : k_zeos_ticks s = u_ticks a;
  v_pid : pid_of (k_mem s) (p_run σ) = u_pid a;
  v_kept : kept s;
}.

(** Every state in user mode has a view. *)
Definition observe (s : kstate) : ustate :=
  UState (k_regs s) (λ va, load8 (k_mem s) (upa va)) (k_console s) (k_zeos_ticks s) (pid_of (k_mem s) (p_run σ)).

Lemma view_observe s : user_mode σ code data j s → kept s → view (observe s) s.
Proof. intros Hum Hk. by split. Qed.

Lemma kept_refl : kept s0.
Proof. by split; [apply frame_refl|..]. Qed.

Lemma kept_frame s s' :
  kept s → frame own_bytes (k_mem s) (k_mem s') → k_last_pid s' = k_last_pid s →
  k_quantum_ticks s' = k_quantum_ticks s → kept s'.
Proof. intros [H1 H2 H3] Hf E1 E2. split; [by eapply frame_trans|by rewrite E1|by rewrite E2]. Qed.

Definition uword (μ : Z → Z) (va : Z) : Z := μ va + 2 ^ 8 * μ (va + 1) + 2 ^ 16 * μ (va + 2) + 2 ^ 24 * μ (va + 3).

Definition uput (μ : Z → Z) (va v x : Z) : Z :=
  if bool_decide (va ≤ x < va + 4) then u8 (Z.shiftr v (8 * (x - va))) else μ x.

Lemma data_user va n : in_data va n → in_user va n.
Proof. unfold in_data, in_user, USER_PAGES, NUM_PAG_CODE, PAGE_SIZE. lia. Qed.

Lemma upa_read s va :
  user_mode σ code data j s → in_user va 1 →
  translate_user (k_mem s) (k_cr3 s) va false = Some (upa va) ∧
  translate (k_mem s) (dir_addr (p_run σ)) va = Some (upa va) ∧ KERNEL_HI ≤ upa va.
Proof.
  intros Hum Hva. pose proof (ki_mm _ _ _ _ (um_inv _ _ _ _ _ Hum)) as Hmm. rewrite (um_cr3 _ _ _ _ _ Hum).
  destruct (user_page σ code data s (p_run σ) dat va Hmm Hdat) as (f & Hf & [[Ha _] _] & E1 & E2); [unfold in_user in Hva; lia|].
  unfold upa. rewrite (nth_lookup_Some _ _ _ _ Hf). split; [done|]. split; [done|].
  unfold NUM_PAG_KERNEL, KERNEL_HI, PAGE_SIZE in *. Z.div_mod_to_equations; lia.
Qed.

Lemma upa_inj s va vb : user_mode σ code data j s → in_user va 1 → in_user vb 1 → upa va = upa vb → va = vb.
Proof.
  intros Hum Ha Hb E. pose proof (ki_mm _ _ _ _ (um_inv _ _ _ _ _ Hum)) as Hmm.
  destruct (upa_read _ _ Hum Ha) as (_ & T1 & _). destruct (upa_read _ _ Hum Hb) as (_ & T2 & _). rewrite <- E in T2.
  eapply (user_inj σ code data s (p_run σ) dat); [done|done| | |exact T1|exact T2]; unfold in_user in *; lia.
Qed.

(** The page of a data address. *)
Lemma upa_data s va :
  mm_inv σ code data s → in_data va 1 →
  ∃ (k : nat) f, dat !! k = Some f ∧ va / 4096 = 256 + Z.of_nat k ∧ upa va = f * PAGE_SIZE + va mod 4096.
Proof.
  intros Hmm Hva. pose proof (mi_len _ _ _ _ Hmm _ _ Hdat) as Hlen. unfold in_data in Hva.
  change L_USER_START with (256 * 4096) in *. change PAGE_SIZE with 4096 in *. change NUM_PAG_DATA with 20 in *.
  set (k := Z.to_nat ((va - 256 * 4096) / 4096)).
  assert (Hk : va / 4096 = 256 + Z.of_nat k ∧ (k < 20)%nat) by (subst k; Z.div_mod_to_equations; lia).
  destruct (lookup_lt_is_Some_2 dat k) as [f Hf]; [rewrite Hlen; lia|]. exists k, f. split_and!; [done|apply Hk|].
  unfold upa. change L_USER_START with (256 * 4096). change PAGE_SIZE with 4096. fold k.
  by rewrite (nth_lookup_Some _ _ _ f) by (by apply lookup_app_l_Some).
Qed.

Lemma upa_own s va : mm_inv σ code data s → in_data va 1 → own_bytes (upa va).
Proof.
  intros Hmm Hva. destruct (upa_data s va Hmm Hva) as (k & f & Hf & _ & ->). right. exists f.
  split; [by eapply list_elem_of_lookup_2|]. unfold frame_bytes, in_range, PAGE_SIZE. Z.div_mod_to_equations; lia.
Qed.

Lemma upa_write s va :
  user_mode σ code data j s → in_data va 1 → translate_user (k_mem s) (k_cr3 s) va true = Some (upa va).
Proof.
  intros Hum Hva. pose proof (ki_mm _ _ _ _ (um_inv _ _ _ _ _ Hum)) as Hmm. rewrite (um_cr3 _ _ _ _ _ Hum).
  destruct (mi_space _ _ _ _ Hmm (p_run σ) (um_valid _ _ _ _ _ Hum)) as [Hd _].
  destruct (upa_data s va Hmm Hva) as (k & f & Hf & Hk & ->).
  destruct (mi_alloc _ _ _ _ Hmm _ _ _ Hdat (list_elem_of_lookup_2 _ _ _ Hf)) as (Ha & _).
  destruct (allocatable_range f Ha) as [Hfr _]. pose proof (mi_data _ _ _ _ Hmm _ _ Hdat _ _ Hf) as He.
  unfold in_data, L_USER_START, NUM_PAG_DATA, PAGE_SIZE in Hva.
  assert (Hpg : 0 ≤ va / 4096 < 1024) by (Z.div_mod_to_equations; lia). replace va with (va / 4096 * PAGE_SIZE + va mod 4096) at 1 by (unfold PAGE_SIZE; Z.div_mod_to_equations; lia).
  rewrite (translate_user_entry _ (p_run σ) _ _ f PTE_DATA); try done.
  - exact (um_valid _ _ _ _ _ Hum).
  - unfold PAGE_SIZE. Z.div_mod_to_equations; lia.
  - rewrite Hk. exact He.
Qed.

(** ** Steps of user code *)

Lemma wp_uload8 a s va R : view a s → in_user va 1 → R (u_mem a va) s → wp (uload8 va) s R.
Proof.
  intros Hv Hva HR. destruct (upa_read _ _ (v_mode _ _ Hv) Hva) as (E & _). unfold wp, uload8.
  rewrite u32_small by (unfold in_user, L_USER_START, USER_PAGES, NUM_PAG_DATA, NUM_PAG_CODE, PAGE_SIZE in Hva; lia).
  rewrite E. by rewrite (v_mem _ _ Hv).
Qed.

Lemma wp_uload32 a s va R : view a s → in_user va 4 → R (uword (u_mem a) va) s → wp (uload32 va) s R.
Proof.
  intros Hv Hva HR. unfold uload32.
  do 4 (apply wp_bind; eapply wp_uload8; [exact Hv|unfold in_user in *; lia|]).
  apply wp_ret. rewrite !Z.shiftl_mul_pow2 by lia. unfold uword in HR.
  replace (_ + _ + _ + _) with (u_mem a va + 2 ^ 8 * u_mem a (va + 1) + 2 ^ 16 * u_mem a (va + 2) + 2 ^ 24 * u_mem a (va + 3))
    by lia. exact HR.
Qed.

(** Bytes of the user's region are not the kernel's. *)
Lemma view_store8 a s va v :
  view a s → in_data va 1 →
  view (UState (u_regs a) (λ x, if decide (x = va) then u8 v else u_mem a x) (u_console a) (u_ticks a) (u_pid a))
    (with_mem (store8 (k_mem s) (upa va) v) s).
Proof.
  intros Hv Hva. pose proof (v_mode _ _ Hv) as Hum. destruct (upa_read _ _ Hum (data_user _ _ Hva)) as (_ & _ & Hhi).
  assert (Hf : frame (λ x, x = upa va) (k_mem s) (store8 (k_mem s) (upa va) v)) by by apply frame_store8.
  assert (Hsp : spares σ (λ x, x = upa va)) by (apply spares_high; by intros x ->).
  pose proof (um_inv _ _ _ _ _ Hum) as Hinv. pose proof (proj1 (ki_sched _ _ _ _ Hinv)) as Hco.
  split; kred.
  - destruct Hum. split; try done. eapply (kernel_inv_spares _ σ); [exact Hinv|exact Hf|done..|].
    exact (sc_console _ _ Hco).
  - apply (v_regs _ _ Hv).
  - intros x Hx. cbn [u_mem]. case_decide as Hd; [subst x; apply load8_store8_eq|].
    rewrite load8_store8_ne; [by apply (v_mem _ _ Hv)|].
    intros E. apply Hd. symmetry. by apply (upa_inj s _ _ Hum (data_user _ _ Hva) Hx E).
  - apply (v_console _ _ Hv).
  - apply (v_ticks _ _ Hv).
  - cbn [u_pid]. rewrite <- (v_pid _ _ Hv). unfold pid_of, load_int. f_equal. apply (frame_load32 _ _ _ _ Hf).
    intros b Hb ->. pose proof (task_addr_window _ (um_valid _ _ _ _ _ Hum)). unfold in_range, f_PID, PAGE_SIZE in *. lia.
  - eapply kept_frame; [exact (v_kept _ _ Hv)| |done|done]. eapply frame_weaken; [|exact Hf].
    intros x ->. by apply (upa_own s); [apply Hinv|].
Qed.

Lemma wp_ustore8 a s va v R :
  view a s → in_data va 1 →
  (∀ s', view (UState (u_regs a) (λ x, if decide (x = va) then u8 v else u_mem a x) (u_console a) (u_ticks a) (u_pid a)) s' →
     R tt s') → wp (ustore8 va v) s R.
Proof.
  intros Hv Hva HR. unfold wp, ustore8.
  rewrite u32_small by (unfold in_data, L_USER_START, NUM_PAG_DATA, PAGE_SIZE in Hva; lia).
  rewrite (upa_write _ _ (v_mode _ _ Hv) Hva). by apply HR, view_store8.
Qed.

Lemma view_ext a b s :
  view a s → u_regs b = u_regs a → (∀ x, u_mem b x = u_mem a x) → u_console b = u_console a →
  u_ticks b = u_ticks a → u_pid b = u_pid a → view b s.
Proof. intros [] E1 E2 E3 E4 E5. split; try congruence. intros va Hva. rewrite E2. auto. Qed.

Lemma wp_ustore32 a s va v R :
  view a s → in_data va 4 →
  (∀ s', view (UState (u_regs a) (uput (u_mem a) va v) (u_console a) (u_ticks a) (u_pid a)) s' → R tt s') →
  wp (ustore32 va v) s R.
Proof.
  intros Hv Hva HR. unfold ustore32. unfold in_data in Hva.
  apply wp_bind. eapply wp_ustore8; [exact Hv|unfold in_data; lia|]. intros s1 H1.
  apply wp_bind. eapply wp_ustore8; [exact H1|unfold in_data; lia|]. intros s2 H2.
  apply wp_bind. eapply wp_ustore8; [exact H2|unfold in_data; lia|]. intros s3 H3.
  eapply wp_ustore8; [exact H3|unfold in_data; lia|]. intros s4 H4.
  apply HR. eapply view_ext; [exact H4|done| |done..]. intros x. cbn [u_mem]. unfold uput.
  repeat case_decide; subst; case_bool_decide; try lia; try done.
  - by replace (8 * (va + 3 - va)) with 24 by lia.
  - by replace (8 * (va + 2 - va)) with 16 by lia.
  - by replace (8 * (va + 1 - va)) with 8 by lia.
  - rewrite Z.sub_diag. by rewrite Z.shiftr_0_r.
Qed.

Definition with_u (u : regs) (a : ustate) : ustate := UState u (u_mem a) (u_console a) (u_ticks a) (u_pid a).

(** The memory of a view holds bytes. *)
Lemma uword_range a s va : view a s → in_user va 4 → 0 ≤ uword (u_mem a) va < 2 ^ 32.
Proof.
  intros Hv Hva. unfold in_user in Hva.
  assert (Hb : ∀ i, 0 ≤ i < 4 → 0 ≤ u_mem a (va + i) < 2 ^ 8).
  { intros i Hi. rewrite <- (v_mem _ _ Hv) by (unfold in_user; lia). apply load8_range. }
  pose proof (Hb 0). pose proof (Hb 1). pose proof (Hb 2). pose proof (Hb 3).
  rewrite Z.add_0_r in *. unfold uword. lia.
Qed.

Lemma view_user_ok a s : view a s → user_ok (u_regs a).
Proof. intros Hv. rewrite <- (v_regs _ _ Hv). apply (um_regs _ _ _ _ _ (v_mode _ _ Hv)). Qed.

Lemma wp_ureg_mem f a s R :
  view a s → user_ok (f (u_regs a)) →
  (∀ s', view (with_u (f (u_regs a)) a) s' → k_mem s' = k_mem s → R tt s') → wp (upd_regs f) s R.
Proof.
  intros Hv Hu HR. apply wp_modify, HR; [|done]. clear HR. pose proof (v_regs _ _ Hv) as Er. destruct Hv as [[] ? ? ? ? ? []].
  split; kred; try done; [|by rewrite Er]. split; kred; try done; [by apply kernel_inv_regs|by rewrite Er].
Qed.

Lemma wp_ureg f a s R :
  view a s → user_ok (f (u_regs a)) →
  (∀ s', view (with_u (f (u_regs a)) a) s' → R tt s') → wp (upd_regs f) s R.
Proof. intros Hv Hu HR. apply (wp_ureg_mem f a); auto. Qed.

Lemma wp_uget r a s R : view a s → R (r (u_regs a)) s → wp (get_reg r) s R.
Proof. intros Hv HR. apply wp_gets. by rewrite (v_regs _ _ Hv). Qed.

(** What the kernel leaves: its own stack of the process may have changed. *)
Lemma view_kernel a s m k u :
  view a s → frame (in_range (task_addr (p_run σ) + sizeof_task_struct) (PAGE_SIZE - sizeof_task_struct)) (k_mem s) m →
  cursor_ok k → user_ok u →
  view (UState u (u_mem a) k (u_ticks a) (u_pid a)) (with_console k (with_mem m (with_regs u s))).
Proof.
  intros Hv Hf Hk Hu. pose proof (v_mode _ _ Hv) as Hum. pose proof (um_valid _ _ _ _ _ Hum) as Hr.
  pose proof (task_addr_window _ Hr) as Hw. unfold KERNEL_START, KERNEL_HI, PAGE_SIZE in Hw.
  assert (Hinv : kernel_inv σ code data (with_console k (with_mem m (with_regs u s)))).
  { apply (kernel_inv_scratch σ code data (with_regs u s) m (task_addr (p_run σ) + sizeof_task_struct)
      (PAGE_SIZE - sizeof_task_struct)); [by apply kernel_inv_regs, Hum|unfold sizeof_task_struct, PAGE_SIZE; lia..|exact Hf|done]. }
  split; kred.
  - destruct Hum. by split.
  - done.
  - intros va Hva. cbn [u_mem]. rewrite <- (v_mem _ _ Hv) by done. apply Hf.
    destruct (upa_read _ _ Hum Hva) as (_ & _ & Hhi). unfold in_range, sizeof_task_struct, PAGE_SIZE, KERNEL_HI in *. lia.
  - done.
  - apply (v_ticks _ _ Hv).
  - cbn [u_pid]. rewrite <- (v_pid _ _ Hv). unfold pid_of, load_int. f_equal.
    eapply (stack_frame_field _ _ _ (p_run σ)); [exact Hf| |done|done|unfold data_field; solve_field].
    intros b Hb. right. unfold in_range, sizeof_task_struct in *. lia.
  - eapply kept_frame; [exact (v_kept _ _ Hv)| |done|done]. eapply frame_weaken; [|exact Hf]. by left.
Qed.

Lemma user_ok_w (w : Z → regs → regs) u v :
  (w = w_eax ∨ w = w_ebx ∨ w = w_ecx ∨ w = w_edx ∨ w = w_esp ∨ w = w_eip) →
  user_ok u → 0 ≤ v < 2 ^ 32 → user_ok (w v u).
Proof.
  intros Hw [Hws Hss Hr] Hv. rewrite !Forall_cons in Hws. rewrite !Forall_cons in Hss.
  destruct Hw as [->|[->|[->|[->|[->| ->]]]]]; (split; [| |exact Hr]); repeat (apply Forall_cons; split; [kred; tauto || lia|]); done.
Qed.

(** Below the ring-0 stack pointer there is only the kernel stack. *)
Lemma trap_area s x n :
  user_mode σ code data j s → in_range (stack_addr (task_addr (p_run σ)) j - 72 - n) (72 + n) x → 0 ≤ n →
  sizeof_task_struct + 76 + n ≤ 4 * j →
  in_range (task_addr (p_run σ) + sizeof_task_struct) (PAGE_SIZE - sizeof_task_struct) x.
Proof.
  intros Hum Hx Hn Hj. destruct (um_room _ _ _ _ _ Hum). unfold in_range, stack_addr, sizeof_task_struct, PAGE_SIZE in *. lia.
Qed.

(** A call that only computes, from the user's side. *)
Lemma wp_ucall f v a s R :
  view a s → 0 ≤ eax (u_regs a) → sys_call_table !! Z.to_nat (eax (u_regs a)) = Some f →
  (∀ m s1, frame (in_range (stack_addr (task_addr (p_run σ)) j - 72) 72) (k_mem s) m →
     s1 = with_mem m (with_regs (service_regs (u_regs a) (stack_addr (task_addr (p_run σ)) j) (ss0 (k_tss s)) handler) s) →
     f (edx (u_regs a)) (ecx (u_regs a)) (ebx (u_regs a)) s1 = Ret (Some v) s1) →
  (∀ s', view (with_u (w_eax (u32 v) (u_regs a)) a) s' → R tt s') →
  wp (int_0x80 junk handler) s R.
Proof.
  intros Hv H0 Hf Hb HR. pose proof (v_mode _ _ Hv) as Hum. destruct (um_room _ _ _ _ _ Hum) as [Hr1 _].
  rewrite <- (v_regs _ _ Hv) in *. apply (wp_pure_call σ code data j s Hum junk handler f v); [done|done|done|].
  intros m F _. apply HR.
  replace (with_mem m _) with (with_console (u_console a) (with_mem m (with_regs (w_eax (u32 v) (k_regs s)) s)))
    by (rewrite <- (v_console _ _ Hv); by destruct s).
  apply view_kernel; [done| | |].
  - eapply frame_weaken; [|exact F]. intros x Hx. apply (trap_area s x 0 Hum); [|lia|lia].
    unfold in_range in *. lia.
  - rewrite <- (v_console _ _ Hv). apply (sc_console _ _ (proj1 (ki_sched _ _ _ _ (um_inv _ _ _ _ _ Hum)))).
  - apply (user_ok_w w_eax); [tauto|apply Hum|apply u32_range].
Qed.

Lemma wp_upop w a s R :
  (w = w_eax ∨ w = w_ebx ∨ w = w_ecx ∨ w = w_edx ∨ w = w_esp ∨ w = w_eip) →
  view a s → in_user (esp (u_regs a)) 4 →
  (∀ s', view (with_u (w (uword (u_mem a) (esp (u_regs a))) (w_esp (esp (u_regs a) + 4) (u_regs a))) a) s' → R tt s') →
  wp (upop w) s R.
Proof.
  intros Hw Hv Hin HR. pose proof (uword_range _ _ _ Hv Hin) as Hr. pose proof (view_user_ok _ _ Hv) as Hu.
  assert (He : 0 ≤ esp (u_regs a) + 4 < 2 ^ 32).
  { unfold in_user, L_USER_START, USER_PAGES, NUM_PAG_DATA, NUM_PAG_CODE, PAGE_SIZE in Hin. lia. }
  unfold upop. apply wp_bind, (wp_uget _ a); [done|]. apply wp_bind, (wp_uload32 a); [done..|].
  rewrite u32_small by done. apply wp_bind, (wp_ureg _ a); [done|by apply (user_ok_w w_esp); [tauto|..]|].
  intros s1 H1. eapply wp_ureg; [exact H1| |].
  - apply user_ok_w; [done| |done]. by apply (user_ok_w w_esp); [tauto|..].
  - intros s2 H2. by apply HR.
Qed.

Lemma wp_uarg k w a s R :
  (w = w_eax ∨ w = w_ebx ∨ w = w_ecx ∨ w = w_edx ∨ w = w_esp ∨ w = w_eip) →
  view a s → in_user (esp (u_regs a) + k) 4 →
  (∀ s', view (with_u (w (uword (u_mem a) (esp (u_regs a) + k)) (u_regs a)) a) s' → R tt s') →
  wp (uarg k w) s R.
Proof.
  intros Hw Hv Hin HR. pose proof (uword_range _ _ _ Hv Hin) as Hr. pose proof (view_user_ok _ _ Hv) as Hu.
  unfold uarg. apply wp_bind, (wp_uget _ a); [done|].
  rewrite u32_small by (unfold in_user, L_USER_START, USER_PAGES, NUM_PAG_DATA, NUM_PAG_CODE, PAGE_SIZE in Hin; lia).
  apply wp_bind, (wp_uload32 a); [done..|]. apply (wp_ureg _ a); [done|by apply user_ok_w|done].
Qed.

(** The convention for results: a negative one is the opposite of the error
    number. *)
Definition errno_result (a : ustate) : ustate :=
  if 0 <=? s32 (eax (u_regs a)) then a
  else UState (w_eax (u32 (-1)) (u_regs a)) (uput (u_mem a) errno (u32 (- eax (u_regs a))))
         (u_console a) (u_ticks a) (u_pid a).

Lemma wp_set_errno a s R :
  view a s → (s32 (eax (u_regs a)) < 0 → in_data errno 4) →
  (∀ s', view (errno_result a) s' → R tt s') → wp set_errno s R.
Proof.
  intros Hv Hin HR. pose proof (view_user_ok _ _ Hv) as Hu. unfold set_errno, errno_result in *.
  apply wp_bind, (wp_uget _ a); [done|].
  destruct (Z.leb_spec 0 (s32 (eax (u_regs a)))); [by apply wp_ret, HR|].
  apply wp_bind, (wp_ureg _ a); [done|apply (user_ok_w w_eax); [tauto|done|apply u32_range]|]. intros s1 H1.
  apply wp_bind. eapply wp_uget; [exact H1|]. apply wp_bind. eapply wp_ustore32; [exact H1|by apply Hin|]. intros s2 H2.
  eapply wp_ureg; [exact H2| |].
  - apply (user_ok_w w_eax); [tauto| |done]. apply (user_ok_w w_eax); [tauto|done|apply u32_range].
  - intros s3 H3. apply HR. eapply view_ext; [exact H3|done..].
Qed.

(** The view after a wrapper has returned: the result in eax, the return
    address popped. *)
Definition returned (v : Z) (a : ustate) : ustate :=
  with_u (w_eip (uword (u_mem a) (esp (u_regs a))) (w_esp (esp (u_regs a) + 4) (w_eax v (u_regs a)))) a.

Lemma wp_uret v a b s R :
  view b s → u_regs b = w_eax v (u_regs a) → u_mem b = u_mem a → u_console b = u_console a →
  u_ticks b = u_ticks a → u_pid b = u_pid a → in_user (esp (u_regs a)) 4 →
  (∀ s', view (returned v a) s' → R tt s') → wp uret s R.
Proof.
  intros Hv E1 E2 E3 E4 E5 Hin HR. apply (wp_upop w_eip b); [tauto|done|by rewrite E1|].
  intros s' Hs'. apply HR. unfold returned, with_u in *. by rewrite E1, E2, E3, E4, E5 in Hs'.
Qed.

(** The processes' identifiers are positive ints. *)
Lemma view_pid a s : view a s → 1 ≤ u_pid a < 2 ^ 31.
Proof.
  intros Hv. pose proof (v_mode _ _ Hv) as Hum. pose proof (um_inv _ _ _ _ _ Hum) as Hinv.
  pose proof (ki_sched _ _ _ _ Hinv) as [Hco Hout]. rewrite <- (v_pid _ _ Hv). split.
  - apply (pi_pos _ _ (ki_pid _ _ _ _ Hinv)); [apply (sc_run _ _ Hco)| |apply (um_live _ _ _ _ _ Hum)].
    intros Hx. apply Hout. by apply (queued_q _ Free).
  - unfold pid_of, load_int, s32. pose proof (Z.mod_pos_bound (load32 (k_mem s) (task_addr (p_run σ) + f_PID)) (2 ^ 32)).
    destruct (_ <? _) eqn:El; lia.
Qed.

Lemma wp_getpid_int a s R :
  view a s → eax (u_regs a) = 20 →
  (∀ s', view (with_u (w_eax (u_pid a) (u_regs a)) a) s' → R tt s') → wp (int_0x80 junk handler) s R.
Proof.
  intros Hv Ha HR. pose proof (view_pid _ _ Hv) as Hp.
  eapply (wp_ucall _ (u_pid a)); [exact Hv|lia|rewrite Ha; reflexivity| |by rewrite u32_small by lia].
  intros m s1 F Es. pose proof (v_mode _ _ Hv) as Hum. unfold returns.
  assert (Hw : wp sys_getpid s1 (λ v s', v = u_pid a ∧ s' = s1)).
  { unfold sys_getpid. apply wp_bind, (wp_current (p_run σ)); [by apply (um_on_stack _ _ _ _ s Hum); rewrite Es|].
    apply wp_get_int_field; [apply (um_valid _ _ _ _ _ Hum)|solve_field..|]. split; [|done]. rewrite Es. kred.
    rewrite <- (v_pid _ _ Hv). unfold pid_of, load_int. f_equal.
    eapply (um_field _ _ _ _ _ Hum); [| | |exact F|apply (um_valid _ _ _ _ _ Hum)|unfold data_field; solve_field]; lia. }
  unfold bind. unfold wp in Hw. destruct (sys_getpid s1) as [v s'|]; [|done]. by destruct Hw as [-> ->].
Qed.

Lemma wp_getpid a s R :
  view a s → in_user (esp (u_regs a)) 4 → (∀ s', view (returned (u_pid a) a) s' → R tt s') → wp getpid s R.
Proof.
  intros Hv Hin HR. pose proof (view_user_ok _ _ Hv) as Hu. pose proof (view_pid _ _ Hv) as Hp.
  unfold getpid. apply wp_bind, (wp_ureg _ a); [done|by apply (user_ok_w w_eax); [tauto|..]|]. intros s1 H1.
  apply wp_bind. eapply wp_getpid_int; [exact H1|done|]. intros s2 H2.
  apply wp_bind. eapply wp_set_errno; [exact H2| |].
  { intros Hneg. cbn [u_regs with_u eax w_eax] in Hneg. rewrite s32_small in Hneg by (cbn [u_pid with_u]; lia).
    cbn [u_pid with_u] in Hneg. lia. }
  intros s3 H3. unfold errno_result in H3. cbn [u_regs with_u eax w_eax u_pid] in H3. rewrite s32_small in H3 by lia.
  destruct (Z.leb_spec 0 (u_pid a)); [|lia]. by eapply (wp_uret (u_pid a) a); [exact H3|done..|].
Qed.

Lemma wp_gettime a s R :
  view a s → in_user (esp (u_regs a)) 4 → (∀ s', view (returned (u32 (u_ticks a)) a) s' → R tt s') → wp gettime s R.
Proof.
  intros Hv Hin HR. pose proof (view_user_ok _ _ Hv) as Hu.
  unfold gettime. apply wp_bind, (wp_ureg _ a); [done|by apply (user_ok_w w_eax); [tauto|..]|]. intros s1 H1.
  apply wp_bind. eapply (wp_ucall _ (u_ticks a)); [exact H1|done|reflexivity| |].
  { intros m s2 F ->. unfold returns, sys_gettime, bind, gets, ret. kred. by rewrite (v_ticks _ _ H1). }
  intros s2 H2. by eapply (wp_uret (u32 (u_ticks a)) a); [exact H2|done..|].
Qed.

(** getpid and gettime as C functions.  Called with the return address on
    top of the user stack, each comes back to the caller with its result in
    eax, the stack popped, and every other register and byte of the program
    as they were. *)
Theorem getpid_gettime_return a s :
  view a s → in_user (esp (u_regs a)) 4 →
  (∃ s', getpid s = Ret tt s' ∧ view (returned (u_pid a) a) s') ∧
  (∃ s', gettime s = Ret tt s' ∧ view (returned (u32 (u_ticks a)) a) s').
Proof.
  intros Hv Hin. split.
  - destruct (wp_elim getpid s (λ _ s', view (returned (u_pid a) a) s')) as ([] & s' & E & H); [|by exists s'].
    by apply (wp_getpid a).
  - destruct (wp_elim gettime s (λ _ s', view (returned (u32 (u_ticks a)) a) s')) as ([] & s' & E & H); [|by exists s'].
    by apply (wp_gettime a).
Qed.

(** ** write *)

Definition ubytes (μ : Z → Z) (va n : Z) : list Z := (λ i, μ (va + i)) <$> seqZ 0 n.

(** What the call does, as the program sees it: the result and the console. *)
Definition uwrite (a : ustate) (fd buffer size : Z) : Z * console :=
  if negb (fd =? 1) then (-9, u_console a)
  else if (size <=? 0) || (buffer =? NULL) then (-22, u_console a)
  else if access_ok VERIFY_READ buffer size =? 0 then (-13, u_console a)
  else (size, show (ubytes (u_mem a) buffer size) (u_console a)).

(** The kernel stack has room for the array of the service, which is there
    before the arguments are checked, and a block that is not refused lies in
    the user region. *)
Definition write_fits (fd buffer size : Z) : Prop :=
  0 ≤ size ∧ sizeof_task_struct + 76 + size ≤ 4 * j ∧
  (fd = 1 → 0 < size → buffer ≠ NULL → access_ok VERIFY_READ buffer size ≠ 0 → in_user buffer size).

Lemma view_text a s m buffer size :
  view a s → frame (in_range (task_addr (p_run σ) + sizeof_task_struct) (PAGE_SIZE - sizeof_task_struct)) (k_mem s) m →
  in_user buffer size → user_text m (p_run σ) buffer size = ubytes (u_mem a) buffer size.
Proof.
  intros Hv F Hin. pose proof (v_mode _ _ Hv) as Hum.
  assert (Hv' : view (UState (k_regs s) (u_mem a) (k_console s) (u_ticks a) (u_pid a))
    (with_console (k_console s) (with_mem m (with_regs (k_regs s) s)))).
  { apply view_kernel; [done|done| |apply Hum].
    apply (sc_console _ _ (proj1 (ki_sched _ _ _ _ (um_inv _ _ _ _ _ Hum)))). }
  unfold user_text, ubytes. apply list_fmap_ext. intros i k [-> Hk]%lookup_seqZ. cbv beta.
  assert (Hb : in_user (buffer + (0 + Z.of_nat i)) 1) by (unfold in_user in *; lia).
  destruct (upa_read _ _ (v_mode _ _ Hv') Hb) as (Ht & _ & _). rewrite (um_cr3 _ _ _ _ _ (v_mode _ _ Hv')) in Ht.
  change (translate_user m (dir_addr (p_run σ)) (buffer + (0 + Z.of_nat i)) false = Some (upa (buffer + (0 + Z.of_nat i)))) in Ht.
  rewrite Ht. exact (v_mem _ _ Hv' _ Hb).
Qed.

Lemma wp_write_good a s R :
  let u := u_regs a in let size := s32 (ebx u) in
  view a s → eax u = 4 → s32 (edx u) = 1 → 0 < size → in_user (ecx u) size →
  sizeof_task_struct + 76 + size ≤ 4 * j →
  (∀ s', view (UState (w_eax (u32 size) u) (u_mem a) (show (ubytes (u_mem a) (ecx u) size) (u_console a))
                 (u_ticks a) (u_pid a)) s' → R tt s') →
  wp (int_0x80 junk handler) s R.
Proof.
  intros u size Hv Ha Hfd Hs Hin Hj HR. pose proof (v_mode _ _ Hv) as Hum. pose proof (um_inv _ _ _ _ _ Hum) as Hinv.
  pose proof (um_valid _ _ _ _ _ Hum) as Hr. destruct (um_room _ _ _ _ _ Hum) as [Hr1 Hr2].
  set (T := stack_addr (task_addr (p_run σ)) j). pose proof (v_regs _ _ Hv) as Er. fold u in Er.
  assert (Hk : cursor_ok (u_console a)).
  { rewrite <- (v_console _ _ Hv). apply (sc_console _ _ (proj1 (ki_sched _ _ _ _ Hinv))). }
  eapply (wp_int_0x80 (p_run σ) j junk handler s); [done|unfold sizeof_task_struct in *; lia|done|apply Hum|
    apply (um_esp0 _ _ _ _ _ Hum)|by rewrite Er, Ha|rewrite Er, Ha; reflexivity|].
  rewrite Er. fold T. intros m S F. set (s1 := with_mem m _).
  assert (Htop : task_addr (p_run σ) + sizeof_task_struct ≤ T - 72 - size ∧ T ≤ task_addr (p_run σ) + PAGE_SIZE)
    by (unfold T, stack_addr; lia).
  assert (Hwk : ∀ b n P Q, T - 72 - size ≤ b → 0 ≤ n → b + n ≤ T → frame (in_range b n) P Q →
    frame (in_range (task_addr (p_run σ) + sizeof_task_struct) (PAGE_SIZE - sizeof_task_struct)) P Q).
  { intros b n P Q Hb Hn Hb' Hf. eapply frame_weaken; [|exact Hf]. intros x. unfold in_range. lia. }
  pose proof (Hwk (T - 72) 72 _ _ ltac:(lia) ltac:(lia) ltac:(lia) F) as F1.
  destruct (sys_write_prints σ code data dat s1) with (buffer := ecx u) (size := size) as (m' & k' & E & Ek & F2 & _).
  - apply (kernel_inv_regs _ _ _ (with_mem m s)). apply (um_stack _ _ _ _ s Hum (T - 72) 72 m); (lia || exact F).
  - exact Hdat.
  - exact (um_cr3 _ _ _ _ _ Hum).
  - by apply (um_on_stack _ _ _ _ s Hum).
  - exact Hs.
  - apply Hin.
  - apply Hin.
  - split; [lia|]. change (esp (k_regs s1)) with (T - 72). lia.
  - change (esp (k_regs s1)) with (T - 72) in F2. change (k_mem s1) with m in *.
    eapply wp_intro; [unfold returns, bind; cbv beta; fold size; rewrite Hfd, E; reflexivity|]. split; [done|]. split.
    { kred. eapply stacked_frame; [exact S|exact F2|]. intros x Hx. change (length (service_words u)) with 18%nat in Hx.
      unfold in_range. lia. }
    intros m3 F3. cbn [default from_option id].
    assert (k' = show (ubytes (u_mem a) (ecx u) size) (u_console a)) as ->.
    { rewrite (view_text a s m _ _ Hv F1 Hin) in Ek. change (k_console s1) with (k_console s) in Ek. rewrite (v_console _ _ Hv) in Ek.
      assert (Hlen : length (ubytes (u_mem a) (ecx u) size) = Z.to_nat size) by (unfold ubytes; by rewrite length_fmap, length_seqZ).
      unfold sys_write_console, bind in Ek. rewrite write_loop_show in Ek by lia. injection Ek as <-.
      change (drop 0 ?l) with l. by rewrite take_ge by lia. }
    apply HR. set (k' := show _ _).
    replace (with_mem m3 _) with (with_console k' (with_mem m3 (with_regs (w_eax (u32 size) u) s))) by (by destruct s).
    apply view_kernel; [done| |by apply show_cursor|].
    + eapply frame_trans; [exact F1|]. eapply frame_trans; [|eapply (Hwk (T - 40) 4); [lia..|exact F3]].
      eapply (Hwk (T - 72 - size) size); [lia..|exact F2].
    + apply (user_ok_w w_eax); [tauto|exact (view_user_ok _ _ Hv)|apply u32_range].
Qed.

Definition call_result (a : ustate) (r : Z * console) : ustate :=
  UState (w_eax (u32 r.1) (u_regs a)) (u_mem a) r.2 (u_ticks a) (u_pid a).

Lemma wp_write_int a s R :
  let u := u_regs a in
  view a s → eax u = 4 → write_fits (s32 (edx u)) (ecx u) (s32 (ebx u)) →
  (∀ s', view (call_result a (uwrite a (s32 (edx u)) (ecx u) (s32 (ebx u)))) s' → R tt s') →
  wp (int_0x80 junk handler) s R.
Proof.
  intros u Hv Ha (Hf0 & Hfit & Hin) HR. pose proof (v_mode _ _ Hv) as Hum.
  assert (Herr : ∀ v, uwrite a (s32 (edx u)) (ecx u) (s32 (ebx u)) = (v, u_console a) →
    (∀ s1, on_stack s1 (p_run σ) → array_fits (p_run σ) s1 (s32 (ebx u)) →
       sys_write (s32 (edx u)) (ecx u) (s32 (ebx u)) s1 = Ret v s1) → wp (int_0x80 junk handler) s R).
  { intros v Ew Hf. rewrite Ew in HR.
    eapply (wp_ucall _ v); [exact Hv|fold u; lia|fold u; rewrite Ha; reflexivity| |done].
    intros m s1 _ Es. fold u. unfold returns, bind. rewrite Hf; [done|by apply (um_on_stack _ _ _ _ s Hum); rewrite Es|].
    split; [done|]. rewrite Es. cbn [k_regs with_mem with_regs esp service_regs w_ebp w_esp]. unfold stack_addr. lia. }
  unfold uwrite in *. destruct (Z.eqb_spec (s32 (edx u)) 1) as [Hfd|Hfd]; cbn [negb] in *.
  2:{ eapply Herr; [done|]. intros s1 H1 H2. by apply (sys_write_errors (p_run σ)). }
  destruct ((s32 (ebx u) <=? 0) || (ecx u =? NULL)) eqn:Hz.
  { apply orb_true_iff in Hz. rewrite Z.leb_le, Z.eqb_eq in Hz.
    eapply Herr; [done|]. intros s1 H1 H2. apply (sys_write_errors (p_run σ)); [done..|]. destruct Hz; [left; lia|by right]. }
  apply orb_false_iff in Hz as [Hz1%Z.leb_gt Hz2%Z.eqb_neq].
  destruct (Z.eqb_spec (access_ok VERIFY_READ (ecx u) (s32 (ebx u))) 0) as [Hac|Hac].
  { eapply Herr; [done|]. intros s1 H1 H2. by apply (sys_write_errors (p_run σ)). }
  apply (wp_write_good a); [done..|by apply Hin|done|done].
Qed.

Lemma uword_uput μ va v : 0 ≤ v < 2 ^ 32 → uword (uput μ va v) va = v.
Proof.
  intros Hv. unfold uword, uput. rewrite !bool_decide_true by lia.
  replace (8 * (va - va)) with 0 by lia. replace (8 * (va + 1 - va)) with 8 by lia.
  replace (8 * (va + 2 - va)) with 16 by lia. replace (8 * (va + 3 - va)) with 24 by lia.
  unfold u8. rewrite !Z.shiftr_div_pow2 by lia. Z.to_euclidean_division_equations. lia.
Qed.

Lemma uword_uput_ne μ va v x : x + 4 ≤ va ∨ va + 4 ≤ x → uword (uput μ va v) x = uword μ x.
Proof. intros Hx. unfold uword, uput. by rewrite !bool_decide_false by lia. Qed.

Lemma wp_upush_ebx a s R :
  view a s → in_data (esp (u_regs a) - 4) 4 →
  (∀ s', view (UState (w_esp (esp (u_regs a) - 4) (u_regs a)) (uput (u_mem a) (esp (u_regs a) - 4) (ebx (u_regs a)))
                 (u_console a) (u_ticks a) (u_pid a)) s' → R tt s') → wp (upush ebx) s R.
Proof.
  intros Hv Hin HR. unfold upush. do 2 (apply wp_bind, (wp_uget _ a); [done|]).
  rewrite u32_small by (unfold in_data, L_USER_START, NUM_PAG_DATA, PAGE_SIZE in Hin; lia).
  apply wp_bind. eapply wp_ustore32; [exact Hv|done|]. intros s1 H1. eapply wp_ureg; [exact H1| |].
  - apply (user_ok_w w_esp); [tauto|exact (view_user_ok _ _ Hv)|].
    unfold in_data, L_USER_START, NUM_PAG_DATA, PAGE_SIZE in Hin; lia.
  - intros s2 H2. by apply HR.
Qed.

Lemma uwrite_cases a fd buffer size :
  size < 2 ^ 31 → (uwrite a fd buffer size).1 ∈ [-9; -22; -13] ∨ 0 < (uwrite a fd buffer size).1 < 2 ^ 31.
Proof.
  intros Hs. unfold uwrite. destruct (negb (fd =? 1)); [left; cbn; set_solver|].
  destruct (Z.leb_spec size 0); cbn [orb]; [left; cbn; set_solver|].
  destruct (buffer =? NULL); [left; cbn; set_solver|].
  destruct (_ =? 0); [left; cbn; set_solver|right; cbn; lia].
Qed.

(** The result of a call as the C program gets it: -1 and the error number in
    errno, or the result itself. *)
Definition c_result (v : Z) : Z := if v <? 0 then 2 ^ 32 - 1 else v.
Definition c_errno (v : Z) (μ : Z → Z) : Z → Z := if v <? 0 then uput μ errno (- v) else μ.

Lemma errno_result_call a r :
  r.1 ∈ [-9; -22; -13] ∨ 0 < r.1 < 2 ^ 31 →
  errno_result (call_result a r) =
  UState (w_eax (c_result r.1) (u_regs a)) (c_errno r.1 (u_mem a)) r.2 (u_ticks a) (u_pid a).
Proof.
  intros Hr. unfold errno_result, call_result, c_result, c_errno. cbn [u_regs u_mem u_console u_ticks u_pid eax w_eax].
  rewrite s32_u32. destruct Hr as [Hr|Hr].
  - rewrite !elem_of_cons in Hr. destruct Hr as [->|[->|[->|Hr]]]; [reflexivity..|by apply not_elem_of_nil in Hr].
  - rewrite s32_small, u32_small by lia. destruct (Z.leb_spec 0 r.1), (Z.ltb_spec r.1 0); (lia || done).
Qed.

(** The registers after write: the arguments in edx and ecx, the caller's ebx. *)
Definition write_regs (a : ustate) (v : Z) : regs :=
  let u := u_regs a in
  w_eip (uword (u_mem a) (esp u)) (w_esp (esp u + 4)
    (w_eax v (w_ecx (uword (u_mem a) (esp u + 8)) (w_edx (uword (u_mem a) (esp u + 4)) u)))).

(** The view at the trap: ebx saved, the arguments in registers. *)
Definition write_trap (a : ustate) : ustate :=
  let u := u_regs a in
  UState (w_eax 4 (w_ebx (uword (u_mem a) (esp u + 12)) (w_ecx (uword (u_mem a) (esp u + 8))
            (w_edx (uword (u_mem a) (esp u + 4)) (w_esp (esp u - 4) u)))))
    (uput (u_mem a) (esp u - 4) (ebx u)) (u_console a) (u_ticks a) (u_pid a).

Lemma wp_write_args (k : K unit) a s R :
  let u := u_regs a in
  view a s → in_data (esp u - 4) 20 → (∀ s', view (write_trap a) s' → wp k s' R) →
  wp (upush ebx ;! uarg 8 w_edx ;! uarg 12 w_ecx ;! uarg 16 w_ebx ;! upd_regs (w_eax 4) ;! k) s R.
Proof.
  intros u Hv Hst Hk. unfold write_trap in Hk. fold u in Hk. set (μ := uput (u_mem a) (esp u - 4) (ebx u)) in *.
  assert (Hus : ∀ k, 0 ≤ k ≤ 12 → in_user (esp u + k) 4) by (intros ? ?; apply data_user; unfold in_data in *; lia).
  assert (Harg : ∀ k, 0 ≤ k → uword μ (esp u + k) = uword (u_mem a) (esp u + k)) by (intros; apply uword_uput_ne; lia).
  rewrite <- !Harg in Hk by lia.
  apply wp_bind, (wp_upush_ebx a); [done|fold u; unfold in_data in *; lia|]. fold u μ. intros s1 H1.
  apply wp_bind. eapply (wp_uarg 8); [tauto|exact H1| |]; cbn [u_regs u_mem u_console u_ticks u_pid esp w_esp].
  { replace (esp u - 4 + 8) with (esp u + 4) by lia. apply Hus. lia. }
  intros s2 H2. replace (esp u - 4 + 8) with (esp u + 4) in H2 by lia.
  apply wp_bind. eapply (wp_uarg 12); [tauto|exact H2| |]; cbn [u_regs with_u u_mem u_console u_ticks u_pid esp w_esp w_edx].
  { replace (esp u - 4 + 12) with (esp u + 8) by lia. apply Hus. lia. }
  intros s3 H3. replace (esp u - 4 + 12) with (esp u + 8) in H3 by lia.
  apply wp_bind. eapply (wp_uarg 16); [tauto|exact H3| |]; cbn [u_regs with_u u_mem u_console u_ticks u_pid esp w_esp w_edx w_ecx].
  { replace (esp u - 4 + 16) with (esp u + 12) by lia. apply Hus. lia. }
  intros s4 H4. replace (esp u - 4 + 16) with (esp u + 12) in H4 by lia.
  apply wp_bind. eapply (wp_ureg (w_eax 4)); [exact H4| |].
  { apply (user_ok_w w_eax); [tauto|exact (view_user_ok _ _ H4)|lia]. }
  intros s5 H5. apply Hk. exact H5.
Qed.

(** What the program finds after write: the result and errno, the console, and
    the word below its stack where ebx was saved. *)
Definition written (a : ustate) : ustate :=
  let u := u_regs a in let μ := uput (u_mem a) (esp u - 4) (ebx u) in
  let r := uwrite (UState u μ (u_console a) (u_ticks a) (u_pid a)) (s32 (uword (u_mem a) (esp u + 4)))
             (uword (u_mem a) (esp u + 8)) (s32 (uword (u_mem a) (esp u + 12))) in
  UState (write_regs a (c_result r.1)) (c_errno r.1 μ) r.2 (u_ticks a) (u_pid a).

Lemma wp_write a s R :
  let u := u_regs a in
  view a s → in_data (esp u - 4) 20 → in_data errno 4 → (errno + 4 ≤ esp u - 4 ∨ esp u + 4 ≤ errno) →
  write_fits (s32 (uword (u_mem a) (esp u + 4))) (uword (u_mem a) (esp u + 8)) (s32 (uword (u_mem a) (esp u + 12))) →
  (∀ s', view (written a) s' → R tt s') → wp write s R.
Proof.
  intros u Hv Hst Herr Hap Hfit HR. pose proof (view_user_ok _ _ Hv) as Hu. fold u in Hu. unfold written in HR. fold u in HR.
  set (μ := uput (u_mem a) (esp u - 4) (ebx u)) in *. set (fd := s32 (uword (u_mem a) (esp u + 4))) in *.
  set (buffer := uword (u_mem a) (esp u + 8)) in *. set (size := s32 (uword (u_mem a) (esp u + 12))) in *.
  set (r := uwrite _ fd buffer size) in *.
  assert (Hebx : 0 ≤ ebx u < 2 ^ 32).
  { pose proof (uo_words _ Hu) as Hw. rewrite !Forall_cons in Hw. apply Hw. }
  unfold write. apply (wp_write_args _ a); [done..|]. intros s1 H1.
  assert (Hsz : size < 2 ^ 31).
  { unfold size, s32. pose proof (Z.mod_pos_bound (uword (u_mem a) (esp u + 12)) (2 ^ 32)). destruct (_ <? _) eqn:El; lia. }
  apply wp_bind. eapply wp_write_int; [exact H1|done|exact Hfit|]. intros s2 H2.
  apply wp_bind. eapply wp_set_errno; [exact H2|done|]. intros s3 H3.
  rewrite errno_result_call in H3 by (by apply uwrite_cases).
  change (uwrite (write_trap a) _ _ _) with r in H3. change (u_mem (write_trap a)) with μ in H3.
  assert (Hkeep : ∀ x, x = esp u - 4 ∨ x = esp u → uword (c_errno r.1 μ) x = uword μ x).
  { intros x Hx. unfold c_errno. destruct (r.1 <? 0); [|done]. apply uword_uput_ne. lia. }
  assert (Eb : uword μ (esp u - 4) = ebx u) by (by apply uword_uput).
  assert (Er : uword μ (esp u) = uword (u_mem a) (esp u)) by (apply uword_uput_ne; lia).
  apply wp_bind. eapply (wp_upop w_ebx); [tauto|exact H3|apply data_user; change (in_data (esp u - 4) 4); unfold in_data in *; lia|].
  intros s4 H4. change (esp (u_regs (UState (w_eax _ (u_regs (write_trap a))) _ _ _ _))) with (esp u - 4) in H4.
  cbn [u_mem] in H4. rewrite Hkeep, Eb, Z.sub_add in H4 by tauto.
  eapply (wp_upop w_eip); [tauto|exact H4|apply data_user; change (in_data (esp u) 4); unfold in_data in *; lia|].
  intros s5 H5. cbn [u_mem u_regs with_u esp w_esp w_ebx] in H5. rewrite Hkeep, Er in H5 by tauto.
  apply HR. exact H5.
Qed.

(** C16. write as a C function, of a size that is not negative and that the
    kernel stack has room for, and of a block that, if access_ok lets it pass,
    lies in the user region (what the service does with the others is
    sys_write_correct's).  Called with its return address and arguments on the
    user stack, it comes back to the caller with the stack popped and ebx kept:
    with -1 in eax and 9, 22 or 13 in errno when the call is refused, and else
    with the size, the bytes of the buffer having been printed in order.  Of
    the program's memory only the word below the stack, where ebx was saved,
    and errno change. *)
Theorem write_returns a s :
  let u := u_regs a in let μ := uput (u_mem a) (esp u - 4) (ebx u) in
  let fd := s32 (uword (u_mem a) (esp u + 4)) in
  let buffer := uword (u_mem a) (esp u + 8) in
  let size := s32 (uword (u_mem a) (esp u + 12)) in
  let r := uwrite (UState u μ (u_console a) (u_ticks a) (u_pid a)) fd buffer size in
  view a s → in_data (esp u - 4) 20 → in_data errno 4 → (errno + 4 ≤ esp u - 4 ∨ esp u + 4 ≤ errno) →
  write_fits fd buffer size →
  ∃ s', write s = Ret tt s' ∧
    view (UState (write_regs a (c_result r.1)) (c_errno r.1 μ) r.2 (u_ticks a) (u_pid a)) s'.
Proof.
  intros u μ fd buffer size r Hv Hst Herr Hap Hfit.
  destruct (wp_elim write s (λ _ s', view (written a) s')) as ([] & s' & E & H); [|by exists s'].
  by apply (wp_write a).
Qed.

(** ** unblock *)

Lemma wp_unblock_none a s R :
  let u := u_regs a in
  view a s → eax u = 6 →
  (∀ ks i, p_kids σ !! p_run σ = Some ks → i ∈ ks → pid_of (k_mem s) i ≠ s32 (edx u)) →
  (∀ s', view (with_u (w_eax (u32 (-1)) u) a) s' → R tt s') → wp (int_0x80 junk handler) s R.
Proof.
  intros u Hv Ha Hno HR. pose proof (v_mode _ _ Hv) as Hum. pose proof (um_inv _ _ _ _ _ Hum) as Hinv.
  eapply (wp_ucall _ (-1)); [exact Hv|fold u; lia|fold u; rewrite Ha; reflexivity| |exact HR].
  fold u. intros m s1 F Es. unfold returns.
  assert (Hinv1 : kernel_inv σ code data s1).
  { rewrite Es. apply (kernel_inv_regs _ _ _ (with_mem m s)). eapply (um_stack _ _ _ _ s Hum); [| | |exact F]; lia. }
  destruct (run_kids _ _ _ _ Hinv) as [ks Hks].
  assert (Hnone : child_with (k_mem s1) ks (s32 (edx u)) = None).
  { destruct (child_with _ ks _) as [i|] eqn:Hc; [|done]. destruct (head_filter_elem _ _ _ Hc) as [Hi Ep].
    destruct (Hno ks i Hks Hi). rewrite <- Ep. unfold pid_of, load_int.
    f_equal. symmetry. rewrite Es. kred. eapply (um_field _ _ _ _ s Hum); [| | |exact F| |unfold data_field; solve_field]; try lia.
    apply (pv_kids _ (qi_valid _ _ (sc_q _ _ (proj1 (ki_sched _ _ _ _ Hinv)))) _ _ Hks). done. }
  assert (Hw : wp (sys_unblock (s32 (edx u))) s1 (λ v s', v = -1 ∧ s' = s1)).
  { apply (wp_sys_unblock σ code data s1 _ ks); [done|by apply (um_on_stack _ _ _ _ s Hum); rewrite Es|done|done|..];
      intros i m' Hw; by rewrite Hnone in Hw. }
  unfold bind. unfold wp in Hw. destruct (sys_unblock (s32 (edx u)) s1) as [v s'|]; [|done]. by destruct Hw as [-> ->].
Qed.

(** C22. The argument of unblock is lost.  The wrapper loads it into ebx, but
    the service takes the saved edx: whatever identifier the caller passes,
    even a blocked child's, the call fails with -1 and 1 in errno unless edx
    happens to hold a child's identifier; and ebx, which a C function must
    keep, comes back with the argument. *)
Theorem unblock_ignores_argument a s :
  let u := u_regs a in
  view a s → in_user (esp u) 8 → in_data errno 4 → (errno + 4 ≤ esp u ∨ esp u + 4 ≤ errno) →
  (∀ ks i, p_kids σ !! p_run σ = Some ks → i ∈ ks → pid_of (k_mem s) i ≠ s32 (edx u)) →
  ∃ s', unblock s = Ret tt s' ∧
    view (UState (w_eip (uword (u_mem a) (esp u)) (w_esp (esp u + 4) (w_eax (2 ^ 32 - 1)
                    (w_ebx (uword (u_mem a) (esp u + 4)) u))))
            (uput (u_mem a) errno 1) (u_console a) (u_ticks a) (u_pid a)) s'.
Proof.
  intros u Hv Hin Herr Hap Hno. pose proof (view_user_ok _ _ Hv) as Hu. fold u in Hu.
  assert (H8 : in_user (esp u + 4) 4 ∧ in_user (esp u) 4) by (unfold in_user in *; lia). destruct H8 as [H8 H4].
  set (b := UState (w_eip _ _) _ _ _ _).
  destruct (wp_elim unblock s (λ _ s', view b s')) as ([] & s' & E & H); [|by exists s'].
  unfold unblock, uarg. apply wp_bind, wp_bind, (wp_uget _ a); [done|]. fold u.
  rewrite u32_small by (unfold in_user, L_USER_START, USER_PAGES, NUM_PAG_DATA, NUM_PAG_CODE, PAGE_SIZE in H8; lia).
  apply wp_bind, (wp_uload32 a); [done..|]. eapply (wp_ureg_mem _ a); [done|
    by apply (user_ok_w w_ebx); [tauto|done|apply (uword_range a s)]|]. fold u. intros s1 H1 Em1.
  apply wp_bind. eapply (wp_ureg_mem (w_eax 6)); [exact H1|apply (user_ok_w w_eax); [tauto|exact (view_user_ok _ _ H1)|lia]|].
  intros s2 H2 Em2. apply wp_bind. eapply wp_unblock_none; [exact H2|done|by rewrite Em2, Em1|]. intros s3 H3.
  apply wp_bind. eapply wp_set_errno; [exact H3|done|]. intros s5 H5.
  unfold errno_result in H5. cbn [u_regs with_u eax w_eax u_mem u_console u_ticks u_pid] in H5.
  change (0 <=? s32 (u32 (-1))) with false in H5. cbv iota in H5. change (u32 (- u32 (-1))) with 1 in H5.
  eapply (wp_upop w_eip); [tauto|exact H5|exact H4|]. cbn [u_regs with_u u_mem u_console u_ticks u_pid].
  change (esp (w_eax _ _)) with (esp u). rewrite uword_uput_ne by lia. intros s6 H6. exact H6.
Qed.
End Wrappers.
