(* ===== verification/Spawn.v ===== *)
(** fork, exit and block of wrappers.S: the calls of the user library that
    create a process or give the processor away. *)

From S2P Require Import Prelude Memory CList Libc Console Frames Types Kernel Task Paging Utils Switch.
From S2P Require Import Sched Policy Space Process Sys Block Fork ForkInv Exit Write Entry Calls Wrappers.

Section Spawn.
Context {L : Layout} {LO : LayoutOk L}.
Context (junk handler errno : Z).
Context (σ : ptable) (code dat : list Z) (data : gmap Z (list Z)) (j : Z) (s0 : kstate).
Context (Hdat : data !! p_run σ = Some dat).

(** ** The memory of parent and child *)

(** A process that fork has created and that has not run yet: the stack it
    starts on, with the registers [u] of its parent, its memory [μ] and its
    identifier. *)
Record newborn (i : Z) (fs : list Z) (u : regs) (μ : Z → Z) (pid : Z) (s : kstate) : Prop := {
  nw_stack : newborn_stack j u i (k_mem s);
  nw_mem : ∀ va, in_user va 1 → load8 (k_mem s) (upa code fs va) = μ va;
  nw_pid : pid_of (k_mem s) i = pid;
}.

Section Forked.
Context (s s2 : kstate) (m m3 : memory) (a : ustate) (c : Z) (l ks fs : list Z).
Let T : Z := stack_addr (task_addr (p_run σ)) j.
Let s1 : kstate := fork_entry σ j s handler m.
Let s' : kstate := with_mem m3 (with_regs (w_eax (next_pid (k_last_pid s) c) (k_regs s)) s2).
Context (Hv : view σ code dat data j s0 a s) (Efree : p_free σ = c :: l).
Context (S : stacked m T (service_words (k_regs s))) (F : frame (in_range (T - 72) 72) (k_mem s) m).
Context (Hres : fork_result σ c dat fs (j - 18) s1 s2) (Hlen : length fs = Z.to_nat NUM_PAG_DATA).
Context (F3 : frame (in_range (T - 40) 4) (k_mem s2) m3).
Context (Hinv : kernel_inv (fork_table c l ks σ) code (<[c := fs]> data) s').

Let Hum : user_mode σ code data j s := v_mode _ _ _ _ _ _ _ _ Hv.

Lemma spawn_fresh : valid_task c ∧ p_run σ ≠ c ∧ valid_task (p_run σ).
Proof.
  destruct (forked_fresh _ _ _ _ _ _ _ Hum Efree) as [Hc Hrc]. split_and!; [done|done|].
  by eapply um_valid.
Qed.

(** Pages that are not the child's keep their contents. *)
Lemma spawn_keeps x : KERNEL_HI ≤ x → (∀ f, f ∈ fs → ¬ frame_bytes f x) → load8 m3 x = load8 (k_mem s) x.
Proof.
  intros Hx Hn. assert (Hlow : ¬ in_range (T - 72) 72 x).
  { intros Hy. destruct (trap_words_low _ _ _ _ _ _ _ Hum Efree x Hy). lia. }
  rewrite F3 by (unfold in_range in *; lia). rewrite (fr_high _ _ _ _ _ _ _ Hres) by done. by apply F.
Qed.

(** The frames of the parent and of the program are not the child's. *)
Lemma spawn_apart f g : f ∈ dat ++ code → g ∈ fs → f ≠ g.
Proof.
  intros Hf Hg ->. pose proof (ki_mm _ _ _ _ Hinv) as Hmm. destruct spawn_fresh as (_ & Hrc & _).
  apply elem_of_app in Hf as [Hf|Hf].
  - apply Hrc. eapply (mi_disj _ _ _ _ Hmm (p_run σ) dat c fs g); [by rewrite lookup_insert_ne|apply lookup_insert_eq|done|done].
  - eapply (mi_code_disj _ _ _ _ Hmm c fs g); [apply lookup_insert_eq|done|done].
Qed.

Lemma user_index va : in_user va 1 →
  (Z.to_nat ((va - L_USER_START) / PAGE_SIZE) < length (dat ++ code))%nat ∧ 0 ≤ va mod PAGE_SIZE < PAGE_SIZE.
Proof.
  intros Hva. pose proof (ki_mm _ _ _ _ (um_inv _ _ _ _ _ Hum)) as Hmm.
  rewrite length_app, (mi_len _ _ _ _ Hmm _ _ Hdat), (mi_code_len _ _ _ _ Hmm).
  unfold in_user, L_USER_START, USER_PAGES, NUM_PAG_DATA, NUM_PAG_CODE, PAGE_SIZE in *. Z.div_mod_to_equations; lia.
Qed.

Lemma spawn_parent_mem va : in_user va 1 → load8 m3 (upa code dat va) = u_mem a va.
Proof.
  intros Hva. rewrite <- (v_mem _ _ _ _ _ _ _ _ Hv va Hva).
  destruct (upa_read σ code dat data j Hdat s va Hum Hva) as (_ & _ & Hhi).
  apply spawn_keeps; [done|]. intros g Hg Hb. destruct (user_index va Hva) as [Hk Ho].
  destruct (lookup_lt_is_Some_2 _ _ Hk) as [f Hf].
  apply (spawn_apart f g); [by eapply list_elem_of_lookup_2|done|]. revert Hb. unfold upa.
  rewrite (nth_lookup_Some _ _ _ _ Hf). unfold frame_bytes, in_range, PAGE_SIZE in *. lia.
Qed.

Lemma spawn_child_mem va : in_user va 1 → load8 m3 (upa code fs va) = u_mem a va.
Proof.
  intros Hva. destruct (user_index va Hva) as [Hk Ho]. destruct (lookup_lt_is_Some_2 _ _ Hk) as [d Hd].
  set (k := Z.to_nat ((va - L_USER_START) / PAGE_SIZE)) in *. pose proof (ki_mm _ _ _ _ (um_inv _ _ _ _ _ Hum)) as Hmm.
  pose proof (mi_len _ _ _ _ Hmm _ _ Hdat) as Hld.
  destruct (decide (k < length dat)%nat) as [Hlt|Hge].
  2:{ rewrite <- (spawn_parent_mem va Hva). unfold upa. fold k. rewrite !app_nth2 by lia. by rewrite Hld, Hlen. }
  destruct (lookup_lt_is_Some_2 fs k) as [f Hf]; [lia|]. rewrite lookup_app_l in Hd by done.
  rewrite <- (v_mem _ _ _ _ _ _ _ _ Hv va Hva). unfold upa. fold k.
  rewrite (nth_lookup_Some (dat ++ code) k 0 d) by (by apply lookup_app_l_Some).
  rewrite (nth_lookup_Some (fs ++ code) k 0 f) by (by apply lookup_app_l_Some).
  assert (Hal : allocatable f).
  { eapply (mi_alloc _ _ _ _ (ki_mm _ _ _ _ Hinv) c fs); [apply lookup_insert_eq|by eapply list_elem_of_lookup_2]. }
  assert (Hold : allocatable d) by (by eapply (mi_alloc _ _ _ _ Hmm _ _ d Hdat), list_elem_of_lookup_2).
  assert (Hhi : ∀ g, allocatable g → ¬ in_range (T - 72) 72 (g * PAGE_SIZE + va mod PAGE_SIZE)).
  { intros g Hg Hx. destruct (trap_words_low _ _ _ _ _ _ _ Hum Efree _ Hx).
    pose proof (frame_bytes_high g (g * PAGE_SIZE + va mod PAGE_SIZE) Hg). unfold frame_bytes, in_range, PAGE_SIZE in *. lia. }
  rewrite F3 by (intros Hx; apply (Hhi f Hal); unfold in_range in *; lia).
  rewrite (fr_copy _ _ _ _ _ _ _ Hres k f d _ Hf Hd Ho). by apply F, Hhi.
Qed.

Lemma spawn_state : k_tss s' = k_tss s ∧ k_cr3 s' = k_cr3 s ∧ k_console s' = k_console s ∧
  k_zeos_ticks s' = k_zeos_ticks s ∧ k_quantum_ticks s' = k_quantum_ticks s.
Proof. pose proof (fr_state _ _ _ _ _ _ _ Hres) as E. unfold s'. kred. by rewrite E. Qed.

(** A word of a task structure that is not the child's. *)
Lemma spawn_parent_pid : pid_of m3 (p_run σ) = u_pid a.
Proof.
  destruct spawn_fresh as (Hc & Hrc & Hr). rewrite <- (v_pid _ _ _ _ _ _ _ _ Hv).
  destruct (um_room _ _ _ _ _ Hum) as [Hr1 Hr2].
  assert (Hst : ∀ n b, T - 72 ≤ n → in_range n 4 b ∨ in_range (T - 72) 72 b → n + 4 ≤ T → stack_bytes (p_run σ) b).
  { intros n b Hn Hb Hn'. right. unfold T, stack_addr, in_range, sizeof_task_struct in *. lia. }
  unfold pid_of, load_int. f_equal.
  rewrite (stack_frame_field _ (k_mem s2) m3 (p_run σ) (p_run σ) f_PID F3);
    [|by intros b Hb; apply (Hst (T - 40)); [lia|tauto|lia]|done|done|unfold data_field; solve_field].
  rewrite (fork_frame_field m (k_mem s2) c); [|exact (fr_mem _ _ _ _ _ _ _ Hres)|done|done|done|solve_field].
  eapply (um_field _ _ _ _ s Hum (T - 72) 72); [unfold T; lia..|exact F|done|unfold data_field; solve_field].
Qed.

Lemma spawn_child_pid : pid_of m3 c = next_pid (k_last_pid s) c.
Proof.
  rewrite <- (fr_pid _ _ _ _ _ _ _ Hres : pid_of (k_mem s2) c = next_pid (k_last_pid s) c). unfold pid_of, load_int. f_equal.
  eapply (forked_word σ code data j s s2 m3 c l Hum Efree F3); solve_field.
Qed.

Lemma spawn_view :
  0 ≤ next_pid (k_last_pid s) c < 2 ^ 32 →
  view (fork_table c l ks σ) code dat (<[c := fs]> data) j s' (with_u (w_eax (next_pid (k_last_pid s) c) (u_regs a)) a) s'.
Proof.
  intros Hp. destruct spawn_state as (E1 & E2 & E3 & E4 & _). pose proof (v_regs _ _ _ _ _ _ _ _ Hv) as Er.
  assert (Hu : user_ok (w_eax (next_pid (k_last_pid s) c) (k_regs s)))
    by (apply (user_ok_w w_eax); [tauto|apply Hum|done]).
  split.
  - split; [exact Hinv|exact Hu|rewrite E1; exact (um_esp0 _ _ _ _ _ Hum)|exact (um_room _ _ _ _ _ Hum)|
      rewrite E2; exact (um_cr3 _ _ _ _ _ Hum)|exact (um_live _ _ _ _ _ Hum)].
  - unfold s'. kred. by rewrite Er.
  - exact spawn_parent_mem.
  - rewrite E3. exact (v_console _ _ _ _ _ _ _ _ Hv).
  - rewrite E4. exact (v_ticks _ _ _ _ _ _ _ _ Hv).
  - exact spawn_parent_pid.
  - apply kept_refl.
Qed.

Lemma spawn_newborn : newborn c fs (u_regs a) (u_mem a) (next_pid (k_last_pid s) c) s'.
Proof.
  split; [|exact spawn_child_mem|exact spawn_child_pid]. rewrite <- (v_regs _ _ _ _ _ _ _ _ Hv).
  by eapply (forked_newborn σ code data j s s1 s2 m3).
Qed.
End Forked.

(** The state in which the trap comes back to the parent. *)
Record spawned (c : Z) (l ks fs : list Z) (a : ustate) (s' : kstate) : Prop := {
  sp_view : view (fork_table c l ks σ) code dat (<[c := fs]> data) j s'
    (with_u (w_eax (next_pid (k_last_pid s0) c) (u_regs a)) a) s';
  sp_child : newborn c fs (u_regs a) (u_mem a) (next_pid (k_last_pid s0) c) s';
  sp_pid : k_last_pid s' = next_pid (k_last_pid s0) c;
  sp_quantum : k_quantum_ticks s' = k_quantum_ticks s0;
}.

Lemma wp_fork_int a s c l ks R :
  view σ code dat data j s0 a s → eax (u_regs a) = 2 → p_free σ = c :: l → p_kids σ !! p_run σ = Some ks →
  0 ≤ k_last_pid s0 < 2 ^ 31 - 2 → (∀ fs s', spawned c l ks fs a s' → R tt s') → wp (int_0x80 junk handler) s R.
Proof.
  intros Hv Ha Efree Hks Hlp HR. pose proof (v_mode _ _ _ _ _ _ _ _ Hv) as Hum. destruct (v_kept _ _ _ _ _ _ _ _ Hv) as [_ Ep Eq].
  assert (Hp : 0 ≤ next_pid (k_last_pid s) c < 2 ^ 32) by (rewrite Ep; unfold next_pid; case_match; lia).
  eapply (wp_fork_call σ code data j s junk handler c l ks dat); [done..|by rewrite Ep|by rewrite (v_regs _ _ _ _ _ _ _ _ Hv)|].
  intros m fs s2 m3 S F Hres Hlen F3 s' Hinv. apply (HR fs). split; rewrite <- ?Ep.
  - by eapply spawn_view.
  - by eapply spawn_newborn.
  - exact (fr_last _ _ _ _ _ _ _ Hres).
  - rewrite <- Eq. by eapply spawn_state.
Qed.

(** ** A process that has not run yet is not disturbed *)

(** Its part of the memory: its stack, its identifier and its pages. *)
Lemma newborn_by P i fs u μ pid s1 s2 :
  sizeof_task_struct + 76 ≤ 4 * j → 4 * j ≤ PAGE_SIZE → frame P (k_mem s1) (k_mem s2) →
  (∀ x, stack_bytes i x → ¬ P x) → (∀ x, in_range (task_addr i + f_PID) 4 x → ¬ P x) →
  (∀ va, in_user va 1 → ¬ P (upa code fs va)) → newborn i fs u μ pid s1 → newborn i fs u μ pid s2.
Proof.
  intros Hj1 Hj2 Hf H1 H2 H3 [Hst Hm Hp]. split.
  - eapply newborn_frame; [done|done| |exact Hst]. intros x Hx. by apply Hf, H1.
  - intros va Hva. rewrite <- (Hm va Hva). by apply Hf, H3.
  - rewrite <- Hp. unfold pid_of, load_int. f_equal. by apply (frame_load32 _ _ _ _ Hf).
Qed.

(** The page of an address of process [i], among the frames in use. *)
Lemma upa_frame σ' data' s1 i fs va :
  mm_inv σ' code data' s1 → data' !! i = Some fs → in_user va 1 →
  ∃ g, upa code fs va = g * PAGE_SIZE + va mod PAGE_SIZE ∧ 0 ≤ va mod PAGE_SIZE < PAGE_SIZE ∧ allocatable g ∧
    (g ∈ fs ∨ g ∈ code).
Proof.
  intros Hmm Hf Hva.
  assert (Hk : (Z.to_nat ((va - L_USER_START) / PAGE_SIZE) < length (fs ++ code))%nat ∧ 0 ≤ va mod PAGE_SIZE < PAGE_SIZE).
  { rewrite length_app, (mi_len _ _ _ _ Hmm _ _ Hf), (mi_code_len _ _ _ _ Hmm).
    unfold in_user, L_USER_START, USER_PAGES, NUM_PAG_DATA, NUM_PAG_CODE, PAGE_SIZE in *. Z.div_mod_to_equations; lia. }
  destruct Hk as [Hk Ho]. destruct (lookup_lt_is_Some_2 _ _ Hk) as [g Hg].
  assert (Hgin : g ∈ fs ++ code) by (by eapply list_elem_of_lookup_2). apply elem_of_app in Hgin.
  exists g. split_and!; [unfold upa; by rewrite (nth_lookup_Some _ _ _ _ Hg)|apply Ho|apply Ho| |done].
  destruct Hgin; [by eapply (mi_alloc _ _ _ _ Hmm)|by apply (mi_code_alloc _ _ _ _ Hmm)].
Qed.

Lemma newborn_kept σ' data' i fs u μ pid s1 s2 :
  kernel_inv σ' code data' s1 → valid_task (p_run σ') → data' !! p_run σ' = Some dat → data' !! i = Some fs → i ≠ p_run σ' →
  sizeof_task_struct + 76 ≤ 4 * j → 4 * j ≤ PAGE_SIZE →
  frame (own_bytes σ' dat) (k_mem s1) (k_mem s2) → newborn i fs u μ pid s1 → newborn i fs u μ pid s2.
Proof.
  intros Hinv Hr Hd Hf Hne Hj1 Hj2 Hfr. pose proof (ki_mm _ _ _ _ Hinv) as Hmm.
  assert (Hi : valid_task i) by (apply (mi_dom _ _ _ _ Hmm); eauto).
  pose proof (task_addr_window i Hi) as Hwi. pose proof (task_addr_window (p_run σ') Hr) as Hwr.
  assert (Hpage : ∀ x, in_range (task_addr i) PAGE_SIZE x → ¬ own_bytes σ' dat x).
  { intros x Hx. pose proof (task_addr_apart i (p_run σ') Hi Hr Hne). intros [Hy|(f & Hin & Hy)].
    - unfold in_range, apart, sizeof_task_struct, PAGE_SIZE in *. lia.
    - pose proof (frame_bytes_high f x (proj1 (mi_alloc _ _ _ _ Hmm _ _ _ Hd Hin)) Hy). unfold in_range in *. lia. }
  eapply newborn_by; [done|done|exact Hfr|intros x Hx; apply Hpage..|].
  - unfold stack_bytes, in_range, f_kernel_esp, sizeof_task_struct, PAGE_SIZE in *. lia.
  - unfold in_range, f_PID, PAGE_SIZE in *. lia.
  - intros va Hva. destruct (upa_frame σ' data' s1 i fs va Hmm Hf Hva) as (g & -> & Ho & Ha & Hg).
    pose proof (frame_bytes_high g (g * PAGE_SIZE + va mod PAGE_SIZE) Ha) as Hhi. intros [Hy|(f & Hin & Hy)].
    + unfold frame_bytes, in_range, sizeof_task_struct, PAGE_SIZE in *. lia.
    + assert (f = g) as -> by (unfold frame_bytes, in_range, PAGE_SIZE in *; lia).
      destruct Hg as [Hg|Hg]; [apply Hne; by eapply (mi_disj _ _ _ _ Hmm)|by apply (mi_code_disj _ _ _ _ Hmm _ _ _ Hd Hin)].
Qed.

(** ** The child's first instructions *)

(** Task [i] has just been switched to for the first time. *)
Record first_switch (σ' : ptable) (data' : gmap Z (list Z)) (i j' : Z) (s : kstate) : Prop := {
  fs_inv : kernel_inv σ' code data' s;
  fs_run : p_run σ' = i;
  fs_live : i ≠ 0;
  fs_cr3 : k_cr3 s = dir_addr i;
  fs_esp0 : esp0 (k_tss s) = stack_addr (task_addr i) j';
  fs_room : sizeof_task_struct + 76 ≤ 4 * j' ∧ 4 * j' ≤ PAGE_SIZE;
  fs_esp : esp (k_regs s) = load32 (k_mem s) (task_addr i + f_kernel_esp) + 8;
}.

(** Through ret_from_fork it arrives in user mode where its parent was, with
    its own copy of the memory. *)
Lemma wp_newborn_runs σ' data' i fs u μ pid j' s R :
  first_switch σ' data' i j' s → data' !! i = Some fs → newborn i fs u μ pid s →
  sizeof_task_struct + 76 ≤ 4 * j → 4 * j ≤ PAGE_SIZE → user_ok u →
  (∀ s', view σ' code fs data' j' s' (UState (w_eax 0 u) μ (k_console s) (k_zeos_ticks s) pid) s' →
     k_last_pid s' = k_last_pid s → k_quantum_ticks s' = k_quantum_ticks s → R tt s') →
  wp (ret_from_fork ;! syscall_fin) s R.
Proof.
  intros [Hinv <- H0 Hc Ht [Hj1 Hj2] He] Hf [Hst Hm Hp] Hk1 Hk2 Hu HR. pose proof (ki_mm _ _ _ _ Hinv) as Hmm.
  assert (Hr : valid_task (p_run σ')) by (apply (mi_dom _ _ _ _ Hmm); eauto). pose proof (task_addr_window _ Hr) as Hw.
  rewrite (nb_esp _ _ _ _ Hst) in He.
  apply (wp_child_returns j u (p_run σ')); [done|done|done|done|apply Hst|by rewrite He; unfold stack_addr; lia|].
  intros m Fm. assert (Hu0 : user_ok (w_eax 0 u)) by (by apply (user_ok_w w_eax); [tauto|..]).
  assert (Fs : frame (in_range (task_addr (p_run σ') + sizeof_task_struct) (PAGE_SIZE - sizeof_task_struct)) (k_mem s) m).
  { eapply frame_weaken; [|exact Fm]. intros x. unfold in_range, stack_addr, sizeof_task_struct in *. lia. }
  apply HR; [|done|done]. split; kred.
  - split; kred; [|done|done|done|done|done]. apply (kernel_inv_regs _ _ _ (with_mem m s)).
    replace (with_mem m s) with (with_console (k_console s) (with_mem m s)) by (by destruct s).
    eapply kernel_inv_scratch; [exact Hinv| | | |exact Fs|apply Hinv]; unfold sizeof_task_struct, PAGE_SIZE; lia.
  - done.
  - intros va Hva. cbn [u_mem]. rewrite <- (Hm va Hva). apply Fm.
    destruct (user_page σ' code data' s (p_run σ') fs va Hmm Hf) as (f & Hfk & [[Ha _] _] & _); [unfold in_user in Hva; lia|].
    unfold upa. rewrite (nth_lookup_Some _ _ _ _ Hfk).
    unfold NUM_PAG_KERNEL, in_range, stack_addr, PAGE_SIZE, KERNEL_HI in *. Z.div_mod_to_equations; lia.
  - done.
  - done.
  - cbn [u_pid]. rewrite <- Hp. unfold pid_of, load_int. f_equal.
    eapply (stack_frame_field _ _ _ (p_run σ')); [exact Fs| |done|done|unfold data_field; solve_field].
    intros b Hb. right. exact Hb.
  - apply kept_refl.
Qed.

(** What follows the trap in the wrapper, with a result that is no error. *)
Lemma wp_fork_rest σ' dat' data' j' s1 v a s R :
  data' !! p_run σ' = Some dat' → view σ' code dat' data' j' s1 (with_u (w_eax v (u_regs a)) a) s →
  0 ≤ v < 2 ^ 31 → in_user (esp (u_regs a)) 4 →
  (∀ s', view σ' code dat' data' j' s1 (returned v a) s' → R tt s') → wp (set_errno errno ;! uret) s R.
Proof.
  intros Hd Hv Hr Hin HR. apply wp_bind. eapply (wp_set_errno errno _ _ _ _ _ _ Hd); [exact Hv| |].
  { intros Hneg. cbn [u_regs with_u eax w_eax] in Hneg. rewrite s32_small in Hneg by lia. lia. }
  intros s2 H2. unfold errno_result in H2. cbn [u_regs with_u eax w_eax] in H2. rewrite s32_small in H2 by lia.
  destruct (Z.leb_spec 0 v); [|lia]. eapply (wp_uret _ _ _ _ _ _ Hd v a); [exact H2|done..].
Qed.

Lemma wp_fork a s c l ks R :
  view σ code dat data j s0 a s → in_user (esp (u_regs a)) 4 → p_free σ = c :: l → p_kids σ !! p_run σ = Some ks →
  0 ≤ k_last_pid s0 < 2 ^ 31 - 2 →
  (∀ fs s1 s', let pid := next_pid (k_last_pid s0) c in
     view (fork_table c l ks σ) code dat (<[c := fs]> data) j s1 (returned pid a) s' →
     newborn c fs (w_eax 2 (u_regs a)) (u_mem a) pid s1 → kernel_inv (fork_table c l ks σ) code (<[c := fs]> data) s1 →
     k_last_pid s1 = pid → k_quantum_ticks s1 = k_quantum_ticks s0 → R tt s') →
  wp (fork junk handler errno) s R.
Proof.
  intros Hv Hin Efree Hks Hlp HR. pose proof (view_user_ok _ _ _ _ _ _ _ _ Hv) as Hu.
  assert (Hpid : 0 ≤ next_pid (k_last_pid s0) c < 2 ^ 31) by (unfold next_pid; case_match; lia).
  unfold fork. apply wp_bind. eapply (wp_ureg _ _ _ _ _ _ (w_eax 2) a); [exact Hv|by apply (user_ok_w w_eax); [tauto|..]|].
  intros s1 H1. apply wp_bind. eapply wp_fork_int; [exact H1|done|exact Efree|exact Hks|exact Hlp|]. intros fs s2 [H2 Hn Hp Hq].
  assert (Hd : (<[c := fs]> data : gmap Z (list Z)) !! p_run (fork_table c l ks σ) = Some dat).
  { destruct (forked_fresh _ _ _ _ _ _ _ (v_mode _ _ _ _ _ _ _ _ Hv) Efree) as [_ Hrc]. by rewrite lookup_insert_ne. }
  eapply (wp_fork_rest _ _ _ _ _ (next_pid (k_last_pid s0) c) a); [exact Hd|exact H2|done|done|]. intros s3 H3.
  eapply (HR fs s2); [exact H3|exact Hn|apply (um_inv _ _ _ _ _ (v_mode _ _ _ _ _ _ _ _ H2))|done|done].
Qed.

(** The child is still as it was when the parent has run on. *)
Lemma newborn_later a c l ks fs u μ pid s1 s' :
  p_free σ = c :: l → p_run σ ≠ c →
  view (fork_table c l ks σ) code dat (<[c := fs]> data) j s1 a s' →
  kernel_inv (fork_table c l ks σ) code (<[c := fs]> data) s1 → newborn c fs u μ pid s1 → newborn c fs u μ pid s'.
Proof.
  intros Efree Hrc Hv Hinv Hn. pose proof (v_mode _ _ _ _ _ _ _ _ Hv) as Hum.
  eapply (newborn_kept _ _ c fs); [exact Hinv|by eapply um_valid|by rewrite lookup_insert_ne|apply lookup_insert_eq|
    exact (not_eq_sym Hrc)|apply (um_room _ _ _ _ _ Hum)|apply (um_room _ _ _ _ _ Hum)|apply Hv|exact Hn].
Qed.

(** With no free task structure: -1, and 1 in errno. *)
Lemma wp_fork_none a s R :
  view σ code dat data j s0 a s → in_user (esp (u_regs a)) 4 → p_free σ = [] →
  in_data errno 4 → errno + 4 ≤ esp (u_regs a) ∨ esp (u_regs a) + 4 ≤ errno →
  (∀ s', view σ code dat data j s0 (returned (2 ^ 32 - 1)
       (UState (u_regs a) (uput (u_mem a) errno 1) (u_console a) (u_ticks a) (u_pid a))) s' → R tt s') →
  wp (fork junk handler errno) s R.
Proof.
  intros Hv Hin Efree Herr Hap HR. pose proof (view_user_ok _ _ _ _ _ _ _ _ Hv) as Hu.
  unfold fork. apply wp_bind. eapply (wp_ureg _ _ _ _ _ _ (w_eax 2) a); [exact Hv|by apply (user_ok_w w_eax); [tauto|..]|].
  intros s1 H1. apply wp_bind. eapply (wp_ucall _ _ _ _ _ _ _ _ Hdat _ (-1)); [exact H1|done|reflexivity| |].
  { intros m s2 F Es. unfold returns, bind. rewrite (sys_fork_full σ code data); [done|done|]. rewrite Es.
    apply (kernel_inv_regs _ _ _ (with_mem m s1)). pose proof (v_mode _ _ _ _ _ _ _ _ H1) as Hum1.
    eapply (um_stack _ _ _ _ s1 Hum1); [| | |exact F]; lia. }
  intros s2 H2. apply wp_bind. eapply (wp_set_errno errno _ _ _ _ _ _ Hdat); [exact H2|done|]. intros s3 H3.
  unfold errno_result in H3. cbn [u_regs with_u eax w_eax u_mem u_console u_ticks u_pid] in H3.
  change (0 <=? s32 (u32 (-1))) with false in H3. cbv iota in H3. change (u32 (- u32 (-1))) with 1 in H3.
  eapply (wp_uret _ _ _ _ _ _ Hdat (2 ^ 32 - 1) (UState (u_regs a) (uput (u_mem a) errno 1) (u_console a) (u_ticks a) (u_pid a)));
    [exact H3|done..].
Qed.

(** C4. fork as a C function.  Called with the return address on top of the
    user stack, it comes back to the parent with the stack popped and every
    other register and byte of its memory as they were: with -1 in eax and 1
    in errno when no task structure is free, and else with the identifier of a
    new process, the last of the ready queue.  When that process is first
    switched to, whenever that is, it returns from the same call with 0, on
    its own copy of the memory as it was at the call. *)
Theorem fork_function a s :
  let u := u_regs a in let pid := λ c, next_pid (k_last_pid s0) c in
  view σ code dat data j s0 a s → in_user (esp u) 4 → 0 ≤ k_last_pid s0 < 2 ^ 31 - 2 →
  in_data errno 4 → errno + 4 ≤ esp u ∨ esp u + 4 ≤ errno →
  ∃ s', fork junk handler errno s = Ret tt s' ∧
  match p_free σ with
  | [] => view σ code dat data j s0 (returned (2 ^ 32 - 1)
            (UState u (uput (u_mem a) errno 1) (u_console a) (u_ticks a) (u_pid a))) s'
  | c :: l => ∃ ks fs s1, view (fork_table c l ks σ) code dat (<[c := fs]> data) j s1 (returned (pid c) a) s' ∧
      newborn c fs (w_eax 2 u) (u_mem a) (pid c) s' ∧
      ∀ σ' data' j' s2, first_switch σ' data' c j' s2 → data' !! c = Some fs →
        newborn c fs (w_eax 2 u) (u_mem a) (pid c) s2 →
        ∃ s3 s4, ((ret_from_fork ;! syscall_fin) ;! set_errno errno ;! uret) s2 = Ret tt s4 ∧
          view σ' code fs data' j' s3 (returned 0 (UState u (u_mem a) (k_console s2) (k_zeos_ticks s2) (pid c))) s4
  end.
Proof.
  intros u pid Hv Hin Hlp Herr Hap. pose proof (v_mode _ _ _ _ _ _ _ _ Hv) as Hum. destruct (p_free σ) as [|c l] eqn:Efree.
  { destruct (wp_elim (fork junk handler errno) s (λ _ s', view σ code dat data j s0 (returned (2 ^ 32 - 1)
            (UState u (uput (u_mem a) errno 1) (u_console a) (u_ticks a) (u_pid a))) s')) as ([] & s' & E & H); [|by exists s'].
    by apply (wp_fork_none a). }
  destruct (run_kids _ _ _ _ (um_inv _ _ _ _ _ Hum)) as [ks Hks].
  destruct (wp_elim (fork junk handler errno) s (λ _ s', ∃ fs s1,
    view (fork_table c l ks σ) code dat (<[c := fs]> data) j s1 (returned (pid c) a) s' ∧
    newborn c fs (w_eax 2 u) (u_mem a) (pid c) s')) as ([] & s' & E & fs & s1 & H1 & H2).
  { apply (wp_fork a s c l ks); [done..|]. intros fs s1 s' pid' H1 H2 H3 _ _. exists fs, s1. split; [exact H1|].
    eapply newborn_later; [exact Efree| |exact H1|exact H3|exact H2].
    by destruct (forked_fresh _ _ _ _ _ _ _ Hum Efree). }
  exists s'. split; [done|]. exists ks, fs, s1. split; [exact H1|]. split; [exact H2|]. intros σ' data' j' s2 Hsw Hfs Hnb.
  destruct (wp_elim ((ret_from_fork ;! syscall_fin) ;! set_errno errno ;! uret) s2 (λ _ s4, ∃ s3,
    view σ' code fs data' j' s3 (returned 0 (UState u (u_mem a) (k_console s2) (k_zeos_ticks s2) (pid c))) s4))
    as ([] & s4 & E4 & s3 & H4); [|by exists s3, s4].
  apply wp_bind. eapply wp_newborn_runs; [exact Hsw|done|exact Hnb|apply (um_room _ _ _ _ _ Hum)|apply (um_room _ _ _ _ _ Hum)|
    by apply (user_ok_w w_eax); [tauto|exact (view_user_ok _ _ _ _ _ _ _ _ Hv)|]|].
  intros s3 H3 _ _. rewrite <- (fs_run _ _ _ _ _ Hsw) in Hfs.
  eapply (wp_fork_rest _ _ _ _ _ 0 (UState u (u_mem a) (k_console s2) (k_zeos_ticks s2) (pid c)));
    [exact Hfs|exact H3|done|exact Hin|]. intros s4 H4. by exists s3.
Qed.
End Spawn.
