(* ===== verification/Leave.v ===== *)
(** exit and block of wrappers.S: the calls after which another task has the
    processor. *)

From S2P Require Import Prelude Memory CList Libc Console Frames Types Kernel Task Paging Utils Switch.
From S2P Require Import Sched Policy Space Process Sys Tick Block Fork ForkInv Exit Write Entry Calls Interrupt Irq Wrappers.

Section Leave.
Context {L : Layout}.

(** What is left of a system call whose [void] service was switched out of. *)
Definition service_rest (junk : Z) : K unit :=
  upd_regs (w_eax (u32 junk)) ;!
  leave ;!
  retn ;!
  syscall_fin.

Context {LO : LayoutOk L}.

(** A call that left the processor to the idle task, which had never run. *)
Record falls_idle (s s' : kstate) : Prop := {
  fi_regs : kernel_ok (k_regs s');
  fi_eip : eip (k_regs s') = addr_cpu_idle;
  fi_esp : esp (k_regs s') = task_addr 0 + PAGE_SIZE;
  fi_ticks : k_zeos_ticks s' = k_zeos_ticks s;
  fi_pid : k_last_pid s' = k_last_pid s;
}.

Lemma next_valid σ code data s :
  kernel_inv σ code data s → valid_task (p_run (exit_table σ)) ∧ valid_task (p_run (block_table σ)).
Proof.
  intros [[Hc _] _ _ _]. destruct (pick_valid σ s Hc) as [Hn _]. revert Hn.
  unfold exit_table, block_table, pick. cbn. by destruct (p_ready σ).
Qed.

Context (junk handler errno : Z).
Context (Hh : handler ∉ [addr_cpu_idle; addr_ret_from_fork; addr_task_switch_ret]).
Context (σ : ptable) (code dat : list Z) (data : gmap Z (list Z)) (j : Z) (s0 : kstate).
Context (Hdat : data !! p_run σ = Some dat) (Hj : sizeof_task_struct + 108 ≤ 4 * j).
Let T : Z := stack_addr (task_addr (p_run σ)) j.

Section Service.
Context (a : ustate) (s : kstate) (m : memory) (Hv : view σ code dat data j s0 a s).
Context (S : stacked m T (service_words (u_regs a))) (F : frame (in_range (T - 72) 72) (k_mem s) m).
Let Hum : user_mode σ code data j s := v_mode _ _ _ _ _ _ _ _ Hv.
Let s1 : kstate := with_mem m (with_regs (service_regs (u_regs a) T (ss0 (k_tss s)) handler) s).

Lemma leave_inv : kernel_inv σ code data s1.
Proof.
  apply (kernel_inv_regs _ _ _ (with_mem m s)). by eapply (um_stack σ code data j s Hum (T - 72) 72); [unfold T; lia..|].
Qed.

Lemma leave_cpu : cpu_ok (p_run σ) s1.
Proof.
  split; [by eapply (isr_running σ code data j s)|]. pose proof (view_user_ok _ _ _ _ _ _ _ _ Hv) as Hu.
  destruct (isr_window _ _ _ _ _ Hum Hj) as [Hlo Hhi]. fold T in Hlo, Hhi.
  unfold s1, service_regs, trap_regs, regs_ok. kred.
  split_and!; first [by apply (user_word _ _ Hu); set_solver|unfold KERNEL_LO, KERNEL_HI in *; lia].
Qed.

Lemma leave_field i f : valid_task i → data_field f → load32 m (task_addr i + f) = load32 (k_mem s) (task_addr i + f).
Proof. intros Hi Hf. by eapply (um_field σ code data j s Hum (T - 72) 72); [unfold T; lia..| | |]. Qed.

Lemma leave_shows i : valid_task i → shows_pid s1 i = shows_pid s i.
Proof. intros Hi. unfold shows_pid, pid_of, load_int. change (k_mem s1) with m. rewrite leave_field; [done|done|]. unfold data_field. solve_field. Qed.

Lemma leave_idle_start : idle_start (k_mem s) 0 → idle_start m 0.
Proof.
  intros H0. destruct (um_room _ _ _ _ _ Hum) as [_ Hr2]. eapply idle_start_frame; [exact H0|exact F|]. intros x Hx Hy.
  apply (stack_apart 0 (p_run σ) x); [done|exact (um_valid _ _ _ _ _ Hum)|exact (not_eq_sym (um_live _ _ _ _ _ Hum))|done|].
  right. unfold T, stack_addr, in_range, sizeof_task_struct in *. lia.
Qed.

Lemma leave_idle s' : idle_entered s1 s' → falls_idle s s'.
Proof.
  clear S F. intros [H1 H2 (b & Eb & Hb) H4 H5]. split; [|done..]. rewrite Eb.
  apply service_kernel_ok; [exact (view_user_ok _ _ _ _ _ _ _ _ Hv)|done|].
  pose proof (code_window addr_cpu_idle ltac:(set_solver)). unfold KERNEL_LO, KERNEL_HI in *. lia.
Qed.
End Service.

Lemma falls_idle_view r a s s1 s' :
  view σ code dat data j s0 a s → view σ code dat data j s0 (with_u r a) s1 → falls_idle s1 s' → falls_idle s s'.
Proof.
  intros Hv H1 [I1 I2 I3 I4 I5]. split; [done..| |].
  - rewrite I4, (v_ticks _ _ _ _ _ _ _ _ H1), (v_ticks _ _ _ _ _ _ _ _ Hv). done.
  - rewrite I5, (kp_pid _ _ _ _ (v_kept _ _ _ _ _ _ _ _ H1)). by rewrite (kp_pid _ _ _ _ (v_kept _ _ _ _ _ _ _ _ Hv)).
Qed.

(** ** exit *)

(** After the trap the machine runs another task: the rest of the wrapper is
    not executed. *)
Lemma wp_exit a s R :
  view σ code dat data j s0 a s → shows_pid s (p_run (exit_table σ)) = true →
  (∀ s', kernel_inv (exit_table σ) code (delete (p_run σ) data) s' →
     k_cr3 s' = dir_addr (p_run (exit_table σ)) → ring (cs (k_regs s')) ≠ 3 →
     eip (k_regs s') ∈ [addr_cpu_idle; addr_ret_from_fork; addr_task_switch_ret] →
     (p_ready σ = [] → idle_start (k_mem s) 0 → falls_idle s s') → R tt s') →
  wp (exit junk handler errno) s R.
Proof.
  intros Hv Hlp HR. pose proof (view_user_ok _ _ _ _ _ _ _ _ Hv) as Hu.
  unfold exit. apply wp_bind. eapply (wp_ureg_mem _ _ _ _ _ _ (w_eax 1) a); [exact Hv|by apply (user_ok_w w_eax); [tauto|..]|].
  intros s1 H1 Em. pose proof (v_mode _ _ _ _ _ _ _ _ H1) as Hum. pose proof (v_regs _ _ _ _ _ _ _ _ H1) as Er.
  destruct (um_room _ _ _ _ _ Hum) as [Hr1 Hr2].
  apply wp_bind, (wp_int_0x80_any (p_run σ) j junk handler s1 (λ _ _ _, void sys_exit));
    [by eapply um_valid|unfold sizeof_task_struct in *; lia|done|exact (um_regs _ _ _ _ _ Hum)|
      exact (um_esp0 _ _ _ _ _ Hum)|by rewrite Er|by rewrite Er|].
  rewrite Er. fold T. intros m S F. apply wp_bind. eapply (wp_sys_exit σ code data).
  - by eapply leave_inv.
  - by eapply leave_cpu.
  - exact (um_live _ _ _ _ _ Hum).
  - rewrite (leave_shows _ s1 m H1 F) by apply (next_valid _ _ _ _ (um_inv _ _ _ _ _ Hum)). unfold shows_pid. by rewrite Em.
  - intros s2 Hinv2 Hex. apply wp_ret. right.
    assert (Ec : ring (cs (k_regs s2)) ≠ 3) by (rewrite (ex_cs _ _ _ _ Hex); by vm_compute).
    split; [intros E; apply Hh; rewrite <- E; apply Hex|].
    apply wp_bind, wp_bind, wp_gets, wp_ret. destruct (Z.eqb_spec (ring (cs (k_regs s2))) 3); [done|]. cbn [when].
    apply wp_ret, HR; [done|apply Hex|done|apply Hex|]. intros Hready H0. rewrite <- Em in H0.
    apply (falls_idle_view _ _ _ s1 _ Hv H1), (leave_idle _ s1 m H1), Hex; [|exact (leave_idle_start _ s1 m H1 F H0)].
    unfold exit_table, pick. cbn. by rewrite Hready.
Qed.

(** C18. exit as a C function never returns, when the identifier of the next
    task is below 100 (from there on sched_next_rr overruns an array).  The
    call ends in the first ready task, or the idle task, with the processor in the kernel, and the process
    is gone from the table: no instruction of the wrapper after the trap, and
    none of the caller's, is executed. *)
Theorem exit_never_returns a s :
  view σ code dat data j s0 a s → pid_of (k_mem s) (p_run (exit_table σ)) < 100 →
  ∃ s', exit junk handler errno s = Ret tt s' ∧
    kernel_inv (exit_table σ) code (delete (p_run σ) data) s' ∧ p_run σ ∈ p_free (exit_table σ) ∧
    k_cr3 s' = dir_addr (p_run (exit_table σ)) ∧ ring (cs (k_regs s')) ≠ 3 ∧
    eip (k_regs s') ∈ [addr_cpu_idle; addr_ret_from_fork; addr_task_switch_ret].
Proof.
  intros Hv Hlp. destruct (wp_elim (exit junk handler errno) s (λ _ s',
    kernel_inv (exit_table σ) code (delete (p_run σ) data) s' ∧ p_run σ ∈ p_free (exit_table σ) ∧
    k_cr3 s' = dir_addr (p_run (exit_table σ)) ∧ ring (cs (k_regs s')) ≠ 3 ∧
    eip (k_regs s') ∈ [addr_cpu_idle; addr_ret_from_fork; addr_task_switch_ret])) as ([] & s' & E & H); [|by exists s'].
  apply (wp_exit a); [done|by apply Z.ltb_lt|]. intros s' H1 H2 H3 H4 _. split; [done|]. split; [|done].
  unfold exit_table. cbn. destruct (pick_run (dead_table σ)) as (_ & -> & _). cbn. apply elem_of_app. right. by apply list_elem_of_singleton.
Qed.

(** ** block *)

(** A call of process [i] with the registers [u] waits for the processor:
    whenever it is switched back to, with its stack as it left it, it goes on
    after the trap with all its registers but eax, where the service, which
    has no result, left something. *)
Definition suspended_call (u : regs) (i : Z) (s' : kstate) : Prop :=
  ∀ s2, (∀ x, stack_bytes i x → load8 (k_mem s2) x = load8 (k_mem s') x) →
  let k := load32 (k_mem s2) (task_addr i + f_kernel_esp) in
  esp (k_regs s2) = k + 8 →
  load32 (k_mem s2) (k + 4) = addr_task_switch_ret ∧
  ∃ m, (task_switch_resume ;! service_rest junk) s2 = Ret tt (with_mem m (with_regs (w_eax (u32 junk) u) s2)) ∧
    frame (stack_bytes i) (k_mem s2) m.

Lemma suspended_call_intro u i c s' :
  valid_task i → 4 * j ≤ PAGE_SIZE →
  user_ok u → stacked (k_mem s') (stack_addr (task_addr i) j) (service_words u) →
  switched_out (k_mem s') i c → c_ebp c = stack_addr (task_addr i) j - 72 → suspended_call u i s'.
Proof.
  intros Hi Hj' Hu Hs Hout Hb s2 Hkeep k He. pose proof (task_addr_window i Hi) as Hw.
  set (Ti := stack_addr (task_addr i) j) in *.
  assert (Hwin : KERNEL_LO ≤ Ti - 72 ∧ Ti ≤ KERNEL_HI)
    by (unfold Ti, stack_addr, KERNEL_LO, KERNEL_START, sizeof_task_struct in *; lia).
  assert (Hf : frame (λ x, ¬ stack_bytes i x) (k_mem s') (k_mem s2)).
  { intros x Hx. apply Hkeep. by apply dec_stable. }
  assert (Hin : ∀ x, Ti - 72 ≤ x < Ti → stack_bytes i x).
  { intros x Hx. right. unfold Ti, stack_addr, in_range, sizeof_task_struct, PAGE_SIZE in *. lia. }
  assert (Hout2 : switched_out (k_mem s2) i c).
  { eapply switched_out_frame; [exact Hout|exact Hf|]. intros x Hx Hn. apply Hn. destruct Hout as (H1 & H2 & _).
    destruct Hx as [Hx|Hx]; [right|by left]. unfold in_range in *. lia. }
  assert (Hs2 : stacked (k_mem s2) Ti (service_words u)).
  { eapply stacked_frame; [exact Hs|exact Hf|]. intros x Hx Hn. apply Hn, Hin. cbn in Hx. lia. }
  assert (L17 : load32 (k_mem s2) (Ti - 72) = ebp u) by (by apply (Hs2 17%nat)).
  assert (L16 : load32 (k_mem s2) (Ti - 68) = addr_service_ret) by (by apply (Hs2 16%nat)).
  split; [by apply Hout2|].
  destruct (wp_elim (task_switch_resume ;! service_rest junk) s2 (λ _ s3, ∃ m, s3 = with_mem m (with_regs (w_eax (u32 junk) u) s2) ∧
    frame (stack_bytes i) (k_mem s2) m)) as ([] & s3 & E & m & -> & Hm); [|by exists m].
  apply wp_bind, (wp_task_switch_resume i c); [done|done|exact He|]. unfold service_rest, Entry.leave, resume_regs.
  apply wp_bind, wp_modify, wp_bind, wp_bind, wp_gets, wp_bind, wp_modify, wp_pop_reg; kred; rewrite ?Hb; [lia|lia|].
  apply wp_bind, wp_pop_reg; kred; [unfold KERNEL_LO in *; lia|lia|].
  apply (wp_syscall_fin Ti u); kred; [by eapply stacked_app|lia|done|apply u32_range|lia|lia|].
  intros m F. exists m. split; [by destruct s2|]. eapply frame_weaken; [|exact F].
  intros x Hx. apply Hin. unfold in_range in Hx. lia.
Qed.

(** The kernel has written some of its own memory, and not the page tables nor
    the identifier of the process. *)
Lemma view_low a s m u :
  view σ code dat data j s0 a s → frame (λ x, x < KERNEL_HI) (k_mem s) m → kernel_inv σ code data (with_mem m s) →
  pid_of m (p_run σ) = pid_of (k_mem s) (p_run σ) → user_ok u →
  view σ code dat data j (with_mem m (with_regs u s)) (with_u u a) (with_mem m (with_regs u s)).
Proof.
  intros Hv Hf Hinv Hp Hu. pose proof (v_mode _ _ _ _ _ _ _ _ Hv) as Hum. split; kred; [|done| | | | |apply kept_refl].
  - destruct Hum. split; [by apply (kernel_inv_regs _ _ _ (with_mem m s))|done..].
  - intros va Hva. cbn [u_mem with_u]. rewrite <- (v_mem _ _ _ _ _ _ _ _ Hv va Hva). apply Hf.
    destruct (upa_read σ code dat data j Hdat s va Hum Hva) as (_ & _ & Hhi). lia.
  - exact (v_console _ _ _ _ _ _ _ _ Hv).
  - exact (v_ticks _ _ _ _ _ _ _ _ Hv).
  - rewrite Hp. exact (v_pid _ _ _ _ _ _ _ _ Hv).
Qed.

Definition pending (s : kstate) : Z := pending_of (k_mem s) (p_run σ).

(** A pending unblock is consumed and the call comes back at once. *)
Lemma block_pending_view a s m m3 :
  let u := u_regs a in let r := task_addr (p_run σ) in
  view σ code dat data j s0 a s → frame (in_range (T - 72) 72) (k_mem s) m →
  stacked m T (service_words u) →
  let m2 := store32 m (r + f_pending_unblocks) (u32 (pending s - 1)) in
  frame (in_range (T - 40) 4) m2 m3 →
  let s' := with_mem m3 (with_regs (w_eax (u32 junk) u) s) in
  stacked m2 T (service_words u) ∧ view σ code dat data j s' (with_u (w_eax (u32 junk) u) a) s' ∧
  pending s' = s32 (pending s - 1).
Proof.
  intros u r Hv F S m2 F3 s'. pose proof (v_mode _ _ _ _ _ _ _ _ Hv) as Hum. pose proof (um_valid _ _ _ _ _ Hum) as Hr.
  destruct (um_room _ _ _ _ _ Hum) as [Hr1 Hr2]. pose proof (task_addr_window _ Hr) as Hw.
  assert (Fp : frame (in_range (r + f_pending_unblocks) 4) m m2) by (by apply frame_store32).
  assert (Hk : ∀ f, data_field f → load32 m3 (r + f) = load32 m2 (r + f)).
  { intros f Hf. eapply (stack_frame_field _ _ _ (p_run σ)); [exact F3| |done|done|done]. intros b Hb. right.
    unfold T, stack_addr, in_range, sizeof_task_struct in *. lia. }
  split_and!.
  - eapply stacked_frame; [exact S|exact Fp|]. intros x Hx. cbn in Hx.
    unfold T, r, stack_addr, in_range, f_pending_unblocks, sizeof_task_struct in *. lia.
  - apply (view_low a s m3); [done| | | |].
    + eapply frame_trans; [|eapply frame_trans; [eapply frame_weaken; [|exact Fp]|]]; (eapply frame_weaken; [|eassumption]) || idtac;
        intros x; unfold T, r, stack_addr, in_range, f_pending_unblocks, sizeof_task_struct, PAGE_SIZE in *; lia.
    + assert (Hinv2 : kernel_inv σ code data (with_mem m2 s)).
      { apply (kernel_inv_pending _ _ _ (with_mem m s)); [|done]. by eapply (um_stack σ code data j s Hum (T - 72) 72); [unfold T; lia..|]. }
      rewrite <- (with_console_same (with_mem m3 s)).
      eapply (kernel_inv_scratch _ _ _ (with_mem m2 s)); [exact Hinv2| | | |exact F3|apply Hinv2];
        unfold T, stack_addr, sizeof_task_struct in *; lia.
    + unfold pid_of, load_int. f_equal. rewrite Hk by (unfold data_field; solve_field).
      rewrite (frame_load32 _ _ _ _ Fp) by (intros b; unfold in_range, f_PID, f_pending_unblocks; lia).
      eapply leave_field; [exact Hv|exact F|done|unfold data_field; solve_field].
    + apply (user_ok_w w_eax); [tauto|exact (view_user_ok _ _ _ _ _ _ _ _ Hv)|apply u32_range].
  - unfold pending at 1, pending_of, load_int. change (k_mem s') with m3. rewrite Hk by (unfold data_field; solve_field).
    unfold m2, r. rewrite load32_store32_same by apply u32_range. apply s32_u32.
Qed.

(** The registers after [ret]. *)
Definition popped (a : ustate) : ustate :=
  with_u (w_eip (uword (u_mem a) (esp (u_regs a))) (w_esp (esp (u_regs a) + 4) (u_regs a))) a.

Lemma wp_block a s R :
  let u := u_regs a in
  view σ code dat data j s0 a s → block_fits σ s = true → in_user (esp u) 4 → in_data errno 4 →
  (pending s ≠ 0 → ∀ s1 s', view σ code dat data j s1 (popped (errno_result errno (with_u (w_eax (u32 junk) u) a))) s' →
     pending s1 = s32 (pending s - 1) → R tt s') →
  (pending s = 0 → ∀ s', kernel_inv (block_table σ) code data s' → k_cr3 s' = dir_addr (p_run (block_table σ)) →
     ring (cs (k_regs s')) ≠ 3 → suspended_call (w_eax 5 u) (p_run σ) s' →
     (p_ready σ = [] → idle_start (k_mem s) 0 → falls_idle s s') → R tt s') →
  wp (block junk handler errno) s R.
Proof.
  intros u Hv Hlp Hin Herr HR1 HR2. pose proof (view_user_ok _ _ _ _ _ _ _ _ Hv) as Hu. unfold block.
  apply wp_bind. eapply (wp_ureg_mem _ _ _ _ _ _ (w_eax 5) a); [exact Hv|by apply (user_ok_w w_eax); [tauto|..]|].
  intros s1 H1 Em. pose proof (v_mode _ _ _ _ _ _ _ _ H1) as Hum. pose proof (v_regs _ _ _ _ _ _ _ _ H1) as Er.
  cbn [u_regs with_u] in Er. fold u in Er.
  assert (Ep : pending s1 = pending s) by (unfold pending; by rewrite Em). rewrite <- Ep in HR1, HR2. clear Ep.
  pose proof (um_valid _ _ _ _ _ Hum) as Hr. destruct (um_room _ _ _ _ _ Hum) as [Hr1 Hr2].
  apply wp_bind, (wp_int_0x80_any (p_run σ) j junk handler s1 (λ _ _ _, void sys_block));
    [done|unfold sizeof_task_struct in *; lia|done|exact (um_regs _ _ _ _ _ Hum)|
      exact (um_esp0 _ _ _ _ _ Hum)|by rewrite Er|by rewrite Er|].
  rewrite Er. fold T. intros m S F. set (sb := with_mem m _).
  assert (Epm : pending_of (k_mem sb) (p_run σ) = pending s1).
  { unfold pending, pending_of, load_int. f_equal.
    eapply leave_field; [exact H1|exact F|done|unfold data_field; solve_field]. }
  apply wp_bind. eapply (wp_sys_block σ code data);
    [exact (leave_inv _ s1 m H1 F)|exact (leave_cpu _ s1 m H1 S F)|exact (um_live _ _ _ _ _ Hum)|
     |rewrite Epm; intros Hp..].
  { rewrite <- Hlp. unfold block_fits. fold sb. rewrite Epm. unfold pending. rewrite Em.
    unfold sb. rewrite (leave_shows _ s1 m H1 F) by apply (next_valid _ _ _ _ (um_inv _ _ _ _ _ Hum)).
    unfold shows_pid. by rewrite Em. }
  - apply wp_ret. unfold service_ends. rewrite Er. left. split; [reflexivity|]. split.
    { eapply (block_pending_view (with_u (w_eax 5 u) a) s1 m); [exact H1|exact F|exact S|apply frame_refl]. }
    intros m3 F3. destruct (block_pending_view (with_u (w_eax 5 u) a) s1 m m3 H1 F S F3) as (_ & H3 & Hp3).
    apply wp_bind, wp_bind, wp_gets, wp_ret.
    assert (Ering : ring (cs (w_eax (u32 junk) (w_eax 5 u))) = 3) by exact (uo_ring _ Hu).
    cbn [default from_option id]. kred. cbn [cs w_eax] in Ering. rewrite Ering. change (3 =? 3) with true. cbn [when].
    apply wp_bind. eapply (wp_set_errno errno _ _ _ _ _ _ Hdat); [exact H3|done|]. intros s4 H4.
    eapply (wp_upop _ _ _ _ _ _ Hdat w_eip); [tauto|exact H4| |].
    + unfold errno_result. by destruct (0 <=? _).
    + intros s5 H5. eapply (HR1 Hp); [exact H5|exact Hp3].
  - intros s2 Hinv2 Hsw. apply wp_ret. right.
    assert (Ec : ring (cs (k_regs s2)) ≠ 3) by (rewrite (sw_cs _ _ _ _ Hsw); by vm_compute).
    pose proof (leave_inv _ s1 m H1 F) as Hinv1. pose proof (ki_sched _ _ _ _ Hinv2) as [Hc2 Hno2].
    split.
    { intros E. apply Hh. rewrite <- E. eapply (switched_eip σ _ s2); [apply Hinv1|exact (sc_run _ _ Hc2)| | |exact Hsw].
      - intros Ex. apply Hno2. rewrite Ex. apply (queued_q _ Blocked). unfold block_table, pick. cbn.
        destruct (p_ready σ); cbn; apply elem_of_app; right; by apply list_elem_of_singleton.
      - intros Hx. apply Hno2. apply (queued_q _ Free). revert Hx. unfold block_table, pick. cbn. by destruct (p_ready σ). }
    apply wp_bind, wp_bind, wp_gets, wp_ret. destruct (Z.eqb_spec (ring (cs (k_regs s2))) 3); [done|]. cbn [when].
    apply wp_ret, (HR2 Hp); [done|apply Hsw|done| |].
    2:{ intros Hready H0. rewrite <- Em in H0. apply (falls_idle_view _ _ _ s1 _ Hv H1), (leave_idle _ s1 m H1).
        unfold block_table, pick in Hsw. cbn in Hsw. rewrite Hready in Hsw. cbn in Hsw.
        apply (switched_idle _ _ _ Hsw); [done|exact (um_live _ _ _ _ _ Hum)|exact (leave_idle_start _ s1 m H1 F H0)]. }
    eapply suspended_call_intro; [done|done|by apply (user_ok_w w_eax); [tauto|..]| |apply Hsw|done].
    eapply (isr_stack_kept σ code data j s1 Hum Hj); [exact Hsw|done|exact S|done].
Qed.

(** C19. block as a C function, when an unblock is pending or the identifier of
    the next task is below 100 (from there on sched_next_rr overruns an array).
    With an unblock pending it takes one and comes
    back to the caller at once; without, the process is the last of the
    blocked queue, the first ready task has the processor, and whenever the
    process gets it back, with its kernel stack as it was, it goes on after
    the trap with all its registers but eax.  In both cases eax is what the
    [void] service left there, and the wrapper takes it for a result: if its
    sign bit is set, the caller gets -1 and an error number nobody set. *)
Theorem block_function a s :
  let u := u_regs a in
  view σ code dat data j s0 a s → (pending s = 0 → pid_of (k_mem s) (p_run (block_table σ)) < 100) → in_user (esp u) 4 → in_data errno 4 →
  ∃ s', block junk handler errno s = Ret tt s' ∧
    (pending s ≠ 0 → ∃ s1, pending s1 = s32 (pending s - 1) ∧
       view σ code dat data j s1 (popped (errno_result errno (with_u (w_eax (u32 junk) u) a))) s') ∧
    (pending s = 0 → kernel_inv (block_table σ) code data s' ∧ p_blocked (block_table σ) = p_blocked σ ++ [p_run σ] ∧
       k_cr3 s' = dir_addr (p_run (block_table σ)) ∧ ring (cs (k_regs s')) ≠ 3 ∧
       suspended_call (w_eax 5 u) (p_run σ) s').
Proof.
  intros u Hv Hlp Hin Herr.
  assert (Eb : p_blocked (block_table σ) = p_blocked σ ++ [p_run σ]) by (unfold block_table, pick; cbn; by destruct (p_ready σ)).
  destruct (wp_elim (block junk handler errno) s (λ _ s',
    (pending s ≠ 0 → ∃ s1, pending s1 = s32 (pending s - 1) ∧
       view σ code dat data j s1 (popped (errno_result errno (with_u (w_eax (u32 junk) u) a))) s') ∧
    (pending s = 0 → kernel_inv (block_table σ) code data s' ∧ p_blocked (block_table σ) = p_blocked σ ++ [p_run σ] ∧
       k_cr3 s' = dir_addr (p_run (block_table σ)) ∧ ring (cs (k_regs s')) ≠ 3 ∧
       suspended_call (w_eax 5 u) (p_run σ) s'))) as ([] & s' & E & H); [|by exists s'].
  apply (wp_block a); [done| |done|done| |].
  { unfold block_fits, shows_pid. fold (pending s). destruct (Z.eqb_spec (pending s) 0); [|done]. apply Z.ltb_lt. auto. }
  - intros Hp s1 s' H1 H2. split; [|done]. intros _. by exists s1.
  - intros Hp s' H1 H2 H3 H4 _. split; [done|]. done.
Qed.
End Leave.
