(* ===== verification/Cdecl.v ===== *)
(** C functions on the memory of the user program: calls through the user
    stack, arrays in user memory, and the functions of libc.c called from
    there. *)

From S2P Require Import Prelude Memory CList Libc Console Frames Types Kernel Task Paging Utils Switch.
From S2P Require Import Sched Policy Space Process Sys Block Fork ForkInv Write Entry Calls Wrappers.

(** ** Calls

    The caller pushes the arguments, the last one first; [call] pushes the
    address of the next instruction, [ra]; after the return the caller takes
    the arguments off and finds the result in eax. *)

Definition upush_val (v : Z) : K unit :=
  let! e := get_reg esp in
  ustore32 (u32 (e - 4)) v ;!
  upd_regs (w_esp (u32 (e - 4))).

Fixpoint upush_all (vs : list Z) : K unit :=
  match vs with
  | [] => ret tt
  | v :: vs => upush_val v ;! upush_all vs
  end.

(** What follows the return of a call with [n] arguments. *)
Definition call_end (n : nat) : K Z :=
  upd_regs (λ r, w_esp (u32 (esp r + 4 * Z.of_nat n)) r) ;!
  get_reg eax.

Definition ccall (ra : Z) (args : list Z) (f : K unit) : K Z :=
  upush_all (rev args) ;!
  upush_val ra ;!
  f ;!
  call_end (length args).

(** The parameter at [k(%esp)] in the called function. *)
Definition uparam (k : Z) : K Z :=
  let! e := get_reg esp in uload32 (u32 (e + k)).

(** ** Arrays in user memory *)

Fixpoint uread (n : nat) (va : Z) : K (list Z) :=
  match n with
  | O => ret []
  | Datatypes.S n' =>
      let! c := uload8 va in
      let! cs := uread n' (va + 1) in
      ret (c :: cs)
  end.

Fixpoint ufill_loop (bs : list Z) (va : Z) : K unit :=
  match bs with
  | [] => ret tt
  | b :: bs => ustore8 va b ;! ufill_loop bs (va + 1)
  end.

(** A function of the library on the array of [n] bytes at [va].  Only the
    program has access to its memory, so that the bytes can be fetched before
    and put back after. *)
Definition on_ubuf {A} (va : Z) (n : nat) (f : M cbuf A) : K A :=
  let! b := uread n va in
  match f b with
  | Ret v b' => ufill_loop b' va ;! ret v
  | Fault e => fail e
  end.

(** [void itoa(int a, char *b)] and [int strlen(char *a)], on an array of [n]
    bytes. *)
Definition c_itoa (n : nat) : K unit :=
  let! a := uparam 4 in
  let! b := uparam 8 in
  on_ubuf b n (itoa (s32 a)) ;!
  uret.

Definition c_strlen (n : nat) : K unit :=
  let! a := uparam 4 in
  let! i := on_ubuf a n strlen in
  upd_regs (w_eax (u32 i)) ;!
  uret.

Section Cdecl.
Context {L : Layout} {LO : LayoutOk L}.
Context (junk handler errno : Z).
Context (σ : ptable) (code dat : list Z) (data : gmap Z (list Z)) (j : Z) (s0 : kstate).
Context (Hdat : data !! p_run σ = Some dat).

Abbreviation view := (view σ code dat data j s0).

(** ** Rules for the memory *)

Definition with_umem (μ : Z → Z) (a : ustate) : ustate :=
  UState (u_regs a) μ (u_console a) (u_ticks a) (u_pid a).

(** The memory with the bytes [bs] at [va]. *)
Definition ufill (μ : Z → Z) (va : Z) (bs : list Z) (x : Z) : Z :=
  if bool_decide (va ≤ x < va + Z.of_nat (length bs)) then u8 (nth (Z.to_nat (x - va)) bs 0) else μ x.

Lemma wp_upush_val v a s R :
  view a s → in_data (esp (u_regs a) - 4) 4 →
  (∀ s', view (UState (w_esp (esp (u_regs a) - 4) (u_regs a)) (uput (u_mem a) (esp (u_regs a) - 4) v)
                 (u_console a) (u_ticks a) (u_pid a)) s' → R tt s') → wp (upush_val v) s R.
Proof.
  intros Hv Hin HR. unfold upush_val. apply wp_bind. eapply wp_uget; [exact Hv|].
  assert (Hb : 0 ≤ esp (u_regs a) - 4 < 2 ^ 32) by (unfold in_data, L_USER_START, NUM_PAG_DATA, PAGE_SIZE in Hin; lia).
  rewrite u32_small by done. apply wp_bind. eapply (wp_ustore32 _ _ _ _ _ _ Hdat); [exact Hv|done|]. intros s1 H1.
  eapply wp_ureg; [exact H1| |].
  - by apply (user_ok_w w_esp); [tauto|exact (view_user_ok _ _ _ _ _ _ _ _ Hv)|].
  - intros s2 H2. by apply HR.
Qed.

Lemma wp_uparam k a s R :
  view a s → in_user (esp (u_regs a) + k) 4 → R (uword (u_mem a) (esp (u_regs a) + k)) s → wp (uparam k) s R.
Proof.
  intros Hv Hin HR. unfold uparam. apply wp_bind. eapply wp_uget; [exact Hv|].
  rewrite u32_small by (unfold in_user, L_USER_START, USER_PAGES, NUM_PAG_DATA, NUM_PAG_CODE, PAGE_SIZE in Hin; lia).
  by eapply (wp_uload32 _ _ _ _ _ _ Hdat); [exact Hv|..].
Qed.

Lemma ubytes_cons μ va n : ubytes μ va (Z.of_nat (S n)) = μ va :: ubytes μ (va + 1) (Z.of_nat n).
Proof.
  unfold ubytes. rewrite seqZ_cons by lia. cbn [fmap list_fmap]. rewrite Z.add_0_r. f_equal.
  replace (Z.pred (Z.of_nat (S n))) with (Z.of_nat n) by lia. change (Z.succ 0) with 1.
  apply list_eq. intros i. rewrite !list_lookup_fmap.
  destruct (decide (i < n)%nat) as [Hi|Hi].
  - rewrite !lookup_seqZ_lt by lia. cbn. f_equal. f_equal. lia.
  - rewrite !lookup_seqZ_ge by lia. done.
Qed.

Lemma ubytes_length μ va n : length (ubytes μ va n) = Z.to_nat n.
Proof. unfold ubytes. by rewrite length_fmap, length_seqZ. Qed.

Lemma wp_uread n va a s R :
  view a s → in_user va (Z.of_nat n) → R (ubytes (u_mem a) va (Z.of_nat n)) s → wp (uread n va) s R.
Proof.
  revert va R. induction n as [|n IH]; intros va R Hv Hin HR; cbn [uread]; [by apply wp_ret|].
  apply wp_bind. eapply (wp_uload8 _ _ _ _ _ _ Hdat); [exact Hv|unfold in_user in *; lia|].
  apply wp_bind, IH; [done|unfold in_user in *; lia|]. apply wp_ret. by rewrite <- ubytes_cons.
Qed.

Lemma wp_ufill_loop bs va a s R :
  view a s → in_data va (Z.of_nat (length bs)) →
  (∀ s', view (with_umem (ufill (u_mem a) va bs) a) s' → R tt s') → wp (ufill_loop bs va) s R.
Proof.
  revert va a s. induction bs as [|b bs IH]; intros va a s Hv Hin HR; cbn [ufill_loop].
  - apply wp_ret, HR. eapply view_ext; [exact Hv|done| |done..]. intros x. cbn [u_mem with_umem]. unfold ufill. cbn [length].
    by rewrite bool_decide_false by lia.
  - cbn [length] in Hin. apply wp_bind. eapply (wp_ustore8 _ _ _ _ _ _ Hdat); [exact Hv|unfold in_data in *; lia|]. intros s1 H1.
    eapply IH; [exact H1|unfold in_data in *; lia|]. intros s2 H2. apply HR.
    eapply view_ext; [exact H2|done| |done..]. intros x. cbn [u_mem with_umem]. unfold ufill. cbn [length].
    destruct (decide (x = va)) as [->|Hne].
    + rewrite bool_decide_true, bool_decide_false by lia. by rewrite Z.sub_diag.
    + case_bool_decide; [rewrite bool_decide_true by lia|by rewrite bool_decide_false by lia].
      replace (Z.to_nat (x - va)) with (S (Z.to_nat (x - (va + 1)))) by lia. done.
Qed.

Lemma wp_on_ubuf {A} va n (f : M cbuf A) v b' a s R :
  view a s → in_data va (Z.of_nat n) → f (ubytes (u_mem a) va (Z.of_nat n)) = Ret v b' → length b' = n →
  (∀ s', view (with_umem (ufill (u_mem a) va b') a) s' → R v s') → wp (on_ubuf va n f) s R.
Proof.
  intros Hv Hin E Hl HR. unfold on_ubuf. apply wp_bind, (wp_uread n va a); [done|by apply data_user|]. rewrite E.
  apply wp_bind, (wp_ufill_loop b' va a); [done|by rewrite Hl|]. intros s' Hs'. by apply wp_ret, HR.
Qed.

(** ** Rules for calls *)

(** The view [a'] after a call made in the view [a]: the stack pointer is back,
    and but for the 24 bytes below it and the addresses of [W] the memory is
    as it was. *)
Record back (W : Z → Prop) (a a' : ustate) : Prop := {
  bk_esp : esp (u_regs a') = esp (u_regs a);
  bk_mem : ∀ x, x < esp (u_regs a) - 24 ∨ esp (u_regs a) ≤ x → ¬ W x → u_mem a' x = u_mem a x;
  bk_ticks : u_ticks a' = u_ticks a;
  bk_pid : u_pid a' = u_pid a;
}.

Definition nowhere (x : Z) : Prop := False.

Lemma back_refl W a : back W a a.
Proof. by split. Qed.

Lemma back_trans W V a b c : back W a b → back V b c → back (λ x, W x ∨ V x) a c.
Proof.
  intros [E1 M1 T1 P1] [E2 M2 T2 P2]. split; [congruence| |congruence|congruence].
  intros x Hx Hn. rewrite M2, M1; [done|done|tauto|by rewrite E1|tauto].
Qed.

Lemma back_weaken W V a b : back W a b → (∀ x, W x → V x) → back V a b.
Proof. intros [E M T P] H. split; try done. intros x Hx Hn. apply M; auto. Qed.

(** A block outside the scratch words and [W] is the same in both views. *)
Lemma back_bytes W a a' va n :
  back W a a' → (∀ x, va ≤ x < va + n → x < esp (u_regs a) - 24 ∨ esp (u_regs a) ≤ x) →
  (∀ x, va ≤ x < va + n → ¬ W x) → ubytes (u_mem a') va n = ubytes (u_mem a) va n.
Proof.
  intros Hb H1 H2. unfold ubytes. apply list_fmap_ext. intros i k [-> Hk]%lookup_seqZ. apply (bk_mem _ _ _ Hb); [apply H1; lia|].
  apply H2. lia.
Qed.

Definition pushed (v : Z) (a : ustate) : ustate :=
  UState (w_esp (esp (u_regs a) - 4) (u_regs a)) (uput (u_mem a) (esp (u_regs a) - 4) v) (u_console a) (u_ticks a) (u_pid a).

Lemma wp_call_end n a s R :
  view a s → 0 ≤ esp (u_regs a) + 4 * Z.of_nat n < 2 ^ 32 →
  (∀ s', view (with_u (w_esp (esp (u_regs a) + 4 * Z.of_nat n) (u_regs a)) a) s' → R (eax (u_regs a)) s') →
  wp (call_end n) s R.
Proof.
  intros Hv Hb HR. unfold call_end. apply wp_bind. eapply (wp_ureg _ _ _ _ _ _ (λ r, w_esp (u32 (esp r + 4 * Z.of_nat n)) r));
    [exact Hv| |]; cbv beta; rewrite u32_small by done.
  - apply (user_ok_w w_esp); [tauto|exact (view_user_ok _ _ _ _ _ _ _ _ Hv)|done].
  - intros s' Hs'. eapply wp_uget; [exact Hs'|]. by apply HR.
Qed.

Lemma wp_upush_all vs a s R :
  view a s → in_data (esp (u_regs a) - 4 * Z.of_nat (length vs)) (4 * Z.of_nat (length vs)) →
  (∀ s', view (foldl (λ a v, pushed v a) a vs) s' → R tt s') → wp (upush_all vs) s R.
Proof.
  revert a s. induction vs as [|v vs IH]; intros a s Hv Hin HR; cbn [upush_all]; [by apply wp_ret, HR|].
  cbn [length] in Hin. apply wp_bind, (wp_upush_val v a); [done|unfold in_data in *; lia|]. intros s1 H1.
  eapply IH; [exact H1| |done]. cbn [u_regs esp w_esp]. unfold in_data in *. lia.
Qed.

(** Words pushed one after the other. *)
Lemma pushes_words vs a :
  Forall (λ v, 0 ≤ v < 2 ^ 32) vs →
  let e := esp (u_regs a) in let b := foldl (λ a v, pushed v a) a vs in
  u_regs b = w_esp (e - 4 * Z.of_nat (length vs)) (u_regs a) ∧
  (∀ i v, vs !! i = Some v → uword (u_mem b) (e - 4 * (Z.of_nat i + 1)) = v) ∧
  (∀ k, k < e - 4 * Z.of_nat (length vs) ∨ e ≤ k → u_mem b k = u_mem a k) ∧
  u_console b = u_console a ∧ u_ticks b = u_ticks a ∧ u_pid b = u_pid a.
Proof.
  intros Hvs e. induction vs as [|v vs IH] using rev_ind.
  { cbn [foldl length]. split_and!; try done. rewrite Z.sub_0_r. unfold e. by destruct (u_regs a). }
  apply Forall_app in Hvs as [Hvs [Hv _]%Forall_cons]. destruct (IH Hvs) as (E1 & E2 & E3 & E4 & E5 & E6). clear IH.
  rewrite foldl_app, length_app. cbv zeta in *. cbn [foldl length]. set (b := foldl _ a vs) in *.
  assert (Ee : esp (u_regs b) = e - 4 * Z.of_nat (length vs)) by (by rewrite E1).
  unfold pushed. cbn [u_regs u_mem u_console u_ticks u_pid]. rewrite Ee. split_and!; try done.
  - rewrite E1. unfold w_esp. cbn. f_equal; lia.
  - intros i w Hi. apply lookup_app_Some in Hi as [Hi|[Hl Hi]].
    + pose proof (lookup_lt_Some _ _ _ Hi). rewrite uword_uput_ne by lia. by apply E2.
    + destruct (i - length vs)%nat eqn:Ei; [|done]. injection Hi as <-.
      replace (e - 4 * (Z.of_nat i + 1)) with (e - 4 * Z.of_nat (length vs) - 4) by lia. by apply uword_uput.
  - intros k Hk. unfold uput. rewrite bool_decide_false by lia. apply E3. lia.
Qed.

(** The view [b] at the entry of a function called in the view [a]. *)
Record called (ra : Z) (args : list Z) (a b : ustate) : Prop := {
  cl_regs : u_regs b = w_esp (esp (u_regs a) - 4 * Z.of_nat (length args) - 4) (u_regs a);
  cl_ra : uword (u_mem b) (esp (u_regs b)) = ra;
  cl_args : ∀ i v, args !! i = Some v → uword (u_mem b) (esp (u_regs b) + 4 * (Z.of_nat i + 1)) = v;
  cl_mem : ∀ k, k < esp (u_regs a) - 4 * Z.of_nat (length args) - 4 ∨ esp (u_regs a) ≤ k → u_mem b k = u_mem a k;
  cl_console : u_console b = u_console a;
  cl_ticks : u_ticks b = u_ticks a;
  cl_pid : u_pid b = u_pid a;
}.

Lemma called_esp ra args a b : called ra args a b → esp (u_regs b) = esp (u_regs a) - 4 * Z.of_nat (length args) - 4.
Proof. intros Hc. by rewrite (cl_regs _ _ _ _ Hc). Qed.

Lemma wp_ccall ra args f a s R :
  let e := esp (u_regs a) in let n := Z.of_nat (length args) in
  view a s → in_data (e - 4 * n - 4) (4 * n + 4) → Forall (λ v, 0 ≤ v < 2 ^ 32) (ra :: args) →
  (∀ b s1, view b s1 → called ra args a b → wp f s1 (λ _ s2, wp (call_end (length args)) s2 R)) →
  wp (ccall ra args f) s R.
Proof.
  intros e n Hv Hin [Hra Hargs]%Forall_cons Hf. set (b := foldl (λ a v, pushed v a) a (rev args ++ [ra])).
  assert (Hws : Forall (λ v, 0 ≤ v < 2 ^ 32) (rev args ++ [ra])).
  { apply Forall_app. split; [by apply List.Forall_rev|by apply Forall_cons]. }
  destruct (pushes_words (rev args ++ [ra]) a Hws) as (E1 & E2 & E3 & E4 & E5 & E6).
  cbv zeta in *. fold e b in E1, E2, E3, E4, E5, E6. rewrite length_app, length_rev in *. cbn [length] in *.
  assert (Ee : esp (u_regs b) = e - 4 * n - 4) by (rewrite E1; kred; lia).
  unfold ccall. apply wp_bind, (wp_upush_all _ a); [done|rewrite length_rev; fold e n; unfold in_data in *; lia|]. intros s1 H1.
  assert (Hb1 : Forall (λ v, 0 ≤ v < 2 ^ 32) (rev args)) by (by apply List.Forall_rev).
  destruct (pushes_words (rev args) a Hb1) as (F1 & _). cbv zeta in F1. fold e in F1. rewrite length_rev in F1. fold n in F1.
  apply wp_bind. eapply wp_upush_val; [exact H1|rewrite F1; kred; unfold in_data in *; lia|].
  intros s2 H2. change (UState _ _ _ _ _) with (pushed ra (foldl (λ a v, pushed v a) a (rev args))) in H2.
  replace (pushed ra _) with b in H2 by (unfold b; by rewrite foldl_app).
  apply wp_bind. apply (Hf b s2 H2). split; fold e n; rewrite ?Ee; try done; [rewrite E1; f_equal; lia|..].
  - rewrite <- (E2 (length args) ra); [f_equal; unfold n; lia|].
    rewrite lookup_app_r by (rewrite length_rev; lia). by rewrite length_rev, Nat.sub_diag.
  - intros i v Hi. pose proof (lookup_lt_Some _ _ _ Hi) as Hlt. rewrite <- (E2 (length args - S i)%nat v); [f_equal; unfold n; lia|].
    rewrite lookup_app_l by (rewrite length_rev; lia). rewrite List.rev_alt. change (List.rev_append args []) with (reverse args). rewrite reverse_lookup by lia.
    by replace (length args - S (length args - S i))%nat with i by lia.
  - intros k Hk. apply E3. unfold n in *. lia.
Qed.

(** A function without arguments that returns [v]. *)
Lemma wp_call0 ra f v a s R :
  view a s → in_data (esp (u_regs a) - 4) 4 → 0 ≤ ra < 2 ^ 32 →
  (∀ b s1 Q, view b s1 → called ra [] a b → (∀ s2, view (returned v b) s2 → Q tt s2) → wp f s1 Q) →
  (∀ a' s', view a' s' → back nowhere a a' → u_console a' = u_console a → R v s') → wp (ccall ra [] f) s R.
Proof.
  intros Hv Hin Hra Hf HR. set (e := esp (u_regs a)) in *.
  assert (He : 0 ≤ e < 2 ^ 32) by (unfold in_data, L_USER_START, NUM_PAG_DATA, PAGE_SIZE in Hin; lia).
  eapply wp_ccall; [exact Hv|fold e; cbn [length]; unfold in_data in *; lia|by apply Forall_cons|].
  intros b s1 H1 Hc. pose proof (called_esp _ _ _ _ Hc) as Ee. fold e in Ee. cbn [length] in Ee.
  eapply Hf; [exact H1|exact Hc|]. intros s2 H2. eapply wp_call_end; [exact H2|cbn [u_regs returned with_u esp w_esp w_eip length]; lia|].
  cbn [u_regs returned with_u esp w_esp w_eip eax w_eax length]. intros s3 H3. eapply HR; [exact H3| |apply Hc].
  split; [cbn [u_regs with_u esp w_esp]; fold e; lia|intros x Hx _|apply Hc|apply Hc].
  apply (cl_mem _ _ _ _ Hc). cbn [length]. fold e in Hx |- *. lia.
Qed.

(** [write(1, buf, n)], for a block of the program that fits on the kernel
    stack. *)
Lemma wp_call_print ra buf n a s R :
  let e := esp (u_regs a) in
  view a s → in_data (e - 24) 24 → 0 ≤ ra < 2 ^ 32 → in_data errno 4 → errno + 4 ≤ e - 24 ∨ e ≤ errno →
  0 < n → in_user buf n → buf + n ≤ e - 24 ∨ e ≤ buf → sizeof_task_struct + 76 + n ≤ 4 * j →
  (∀ a' s', view a' s' → back nowhere a a' → u_console a' = show (ubytes (u_mem a) buf n) (u_console a) → R n s') →
  wp (ccall ra [1; buf; n] (write junk handler errno)) s R.
Proof.
  intros e Hv Hin Hra Herr Hap Hn Hbuf Hb Hj HR.
  assert (Hr : 0 ≤ e < 2 ^ 31 ∧ 0 < buf < 2 ^ 32 ∧ n < 2 ^ 31)
    by (unfold in_user, in_data, L_USER_START, USER_PAGES, NUM_PAG_DATA, NUM_PAG_CODE, PAGE_SIZE in *; lia).
  destruct Hr as (He & Hbr & Hnr).
  eapply wp_ccall; [exact Hv|fold e; cbn [length]; unfold in_data in *; lia|repeat (apply Forall_cons; split; [lia|]); done|].
  intros b s2 H2 Hc. pose proof (called_esp _ _ _ _ Hc) as E0. fold e in E0. cbn [length] in E0.
  pose proof (cl_args _ _ _ _ Hc 0%nat 1 eq_refl) as E2. pose proof (cl_args _ _ _ _ Hc 1%nat buf eq_refl) as E3.
  pose proof (cl_args _ _ _ _ Hc 2%nat n eq_refl) as E4. pose proof (cl_mem _ _ _ _ Hc) as E5. cbn [length] in E5. fold e in E5.
  change (4 * (Z.of_nat 0 + 1)) with 4 in E2. change (4 * (Z.of_nat 1 + 1)) with 8 in E3. change (4 * (Z.of_nat 2 + 1)) with 12 in E4.
  assert (Hac : access_ok VERIFY_READ buf n = 1).
  { apply access_ok_small; unfold in_user, L_USER_START, USER_PAGES, NUM_PAG_DATA, NUM_PAG_CODE, PAGE_SIZE in *; lia. }
  assert (Es : s32 1 = 1 ∧ s32 n = n) by (split; apply s32_small; lia). destruct Es as [Es1 Es2].
  eapply (wp_write junk handler errno _ _ _ _ _ _ Hdat); [exact H2|rewrite E0; unfold in_data in *; lia|done|rewrite E0; lia| |].
  { rewrite E2, E3, E4, Es1, Es2. split_and!; [lia|done|]. by intros _ _ _ _. }
  intros s3 H3. assert (Ew : written errno b = UState (write_regs b n) (uput (u_mem b) (esp (u_regs b) - 4) (ebx (u_regs b)))
      (show (ubytes (u_mem a) buf n) (u_console a)) (u_ticks b) (u_pid b)).
  { assert (Eb : ubytes (uput (u_mem b) (esp (u_regs b) - 4) (ebx (u_regs b))) buf n = ubytes (u_mem a) buf n).
    { unfold ubytes. apply list_fmap_ext. intros i k [-> Hk]%lookup_seqZ.
      unfold uput at 1. rewrite bool_decide_false by lia. apply E5. lia. }
    unfold written. rewrite E2, E3, E4, Es1, Es2. unfold uwrite. rewrite Hac. cbn [u_mem]. rewrite Eb.
    destruct (Z.leb_spec n 0); [lia|]. destruct (Z.eqb_spec buf NULL); [unfold NULL in *; lia|].
    change (1 =? 1) with true. change (1 =? 0) with false. cbn [negb orb u_console]. unfold c_result, c_errno.
    cbn [fst snd]. rewrite (cl_console _ _ _ _ Hc). by destruct (Z.ltb_spec n 0); [lia|]. }
  rewrite Ew in H3. assert (Ee : esp (write_regs b n) = e - 12) by (unfold write_regs; kred; lia).
  eapply wp_call_end; [exact H3|cbn [u_regs length]; lia|]. cbn [u_regs length]. intros s4 H4.
  eapply (HR _ s4); [exact H4| |done]. split; [cbn [u_regs with_u esp w_esp]; lia|intros x Hx _|apply Hc|apply Hc].
  cbn [u_mem with_u]. unfold uput at 1. fold e in Hx. rewrite bool_decide_false by lia. apply E5. lia.
Qed.

(** ** The library on user memory *)

Lemma ubytes_ufill μ va bs : ubytes (ufill μ va bs) va (Z.of_nat (length bs)) = map u8 bs.
Proof.
  unfold ubytes. apply list_eq. intros i. rewrite list_lookup_fmap. change (map u8 bs) with (u8 <$> bs). rewrite list_lookup_fmap.
  destruct (decide (i < length bs)%nat) as [Hi|Hi].
  - rewrite lookup_seqZ_lt by lia. cbn. unfold ufill. rewrite bool_decide_true by lia.
    replace (Z.to_nat (va + (0 + Z.of_nat i) - va)) with i by lia.
    destruct (lookup_lt_is_Some_2 bs i Hi) as [x Hx]. by rewrite (nth_lookup_Some _ _ _ _ Hx), Hx.
  - rewrite lookup_seqZ_ge by lia. rewrite (lookup_ge_None_2 bs) by lia. done.
Qed.

(** The text of a number. *)
Definition decimal (v : Z) : list Z := map (λ d, d + 48) (numeral 10 v).

Lemma decimal_chars v : Forall (λ c, 48 ≤ c < 58) (decimal v).
Proof.
  unfold decimal. apply List.Forall_map. eapply Forall_impl; [apply numeral_digits; lia|]. cbn. intros d Hd. lia.
Qed.

Lemma decimal_bytes v rest : cstr (map u8 (decimal v ++ 0 :: rest)) = decimal v.
Proof.
  rewrite map_app. cbn [map]. change (u8 0) with 0. pose proof (decimal_chars v) as Hd.
  assert (E : map u8 (decimal v) = decimal v).
  { induction Hd as [|c l Hc Hl IH]; [done|]. cbn [map]. rewrite IH. f_equal. apply Z.mod_small. lia. }
  rewrite E. apply cstr_app. eapply Forall_impl; [exact Hd|]. cbn. intros c. lia.
Qed.

Lemma wp_call_itoa ra v buf n a s R :
  let e := esp (u_regs a) in
  view a s → in_data (e - 24) 24 → 0 ≤ ra < 2 ^ 32 → 0 ≤ v < 2 ^ 31 → in_data buf (Z.of_nat n) →
  buf + Z.of_nat n ≤ e - 24 ∨ e ≤ buf → (length (decimal v) < n)%nat →
  (∀ a' s' r, view a' s' → back (in_range buf (Z.of_nat n)) a a' → u_console a' = u_console a →
     cstr (ubytes (u_mem a') buf (Z.of_nat n)) = decimal v → R r s') →
  wp (ccall ra [v; buf] (c_itoa n)) s R.
Proof.
  intros e Hv Hin Hra Hvr Hbuf Hap Hlen HR.
  assert (Hr : 0 ≤ e < 2 ^ 31 ∧ 0 ≤ buf < 2 ^ 32) by (unfold in_data, L_USER_START, NUM_PAG_DATA, PAGE_SIZE in *; lia).
  eapply wp_ccall; [exact Hv|fold e; cbn [length]; unfold in_data in *; lia|repeat (apply Forall_cons; split; [lia|]); done|].
  intros b s2 H2 Hc. pose proof (called_esp _ _ _ _ Hc) as E0. fold e in E0. cbn [length] in E0.
  assert (Hstk : ∀ k, 0 ≤ k ≤ 8 → in_user (esp (u_regs b) + k) 4).
  { intros k Hk. apply data_user. rewrite E0. unfold in_data in *. lia. }
  unfold c_itoa. apply wp_bind. eapply wp_uparam; [exact H2|apply Hstk; lia|].
  rewrite (cl_args _ _ _ _ Hc 0%nat v eq_refl : uword (u_mem b) (esp (u_regs b) + 4) = v).
  apply wp_bind. eapply wp_uparam; [exact H2|apply Hstk; lia|].
  rewrite (cl_args _ _ _ _ Hc 1%nat buf eq_refl : uword (u_mem b) (esp (u_regs b) + 8) = buf), s32_small by lia.
  set (bs := ubytes (u_mem b) buf (Z.of_nat n)).
  assert (Ei : itoa v bs = Ret tt (decimal v ++ 0 :: drop (S (length (decimal v))) bs)).
  { assert (Hl : length (numeral 10 v) = length (decimal v)) by (unfold decimal; by rewrite length_map).
    rewrite itoa_spec by lia. rewrite decide_True by (unfold bs; rewrite ubytes_length; lia). by rewrite Hl. }
  set (b' := decimal v ++ _) in Ei.
  assert (Hb' : length b' = n).
  { unfold b', bs. rewrite length_app. cbn [length]. rewrite length_drop, ubytes_length. lia. }
  apply wp_bind. eapply wp_on_ubuf; [exact H2|done|exact Ei|done|]. intros s3 H3.
  eapply (wp_upop _ _ _ _ _ _ Hdat w_eip); [tauto|exact H3|change (in_user (esp (u_regs b)) 4)|].
  { rewrite <- (Z.add_0_r (esp (u_regs b))). apply Hstk. lia. }
  intros s4 H4. eapply wp_call_end; [exact H4|cbn [u_regs with_u with_umem esp w_esp w_eip length]; lia|].
  cbn [u_regs with_u with_umem esp w_esp w_eip length]. intros s5 H5. eapply (HR _ s5); [exact H5| |apply Hc|].
  - split; [cbn [u_regs with_u esp w_esp]; fold e; lia|intros x Hx Hw|apply Hc|apply Hc].
    cbn [u_mem with_u with_umem]. unfold ufill. rewrite bool_decide_false by (rewrite Hb'; unfold in_range in Hw; lia).
    apply (cl_mem _ _ _ _ Hc). cbn [length]. fold e in Hx |- *. lia.
  - cbn [u_mem with_u with_umem]. rewrite <- Hb' at 1. rewrite ubytes_ufill. apply decimal_bytes.
Qed.

Lemma wp_call_strlen ra buf n a s R :
  let e := esp (u_regs a) in let t := ubytes (u_mem a) buf (Z.of_nat n) in
  view a s → in_data (e - 24) 24 → 0 ≤ ra < 2 ^ 32 → in_data buf (Z.of_nat n) →
  buf + Z.of_nat n ≤ e - 24 ∨ e ≤ buf → 0 ∈ t →
  (∀ a' s', view a' s' → back nowhere a a' → u_console a' = u_console a → R (Z.of_nat (length (cstr t))) s') →
  wp (ccall ra [buf] (c_strlen n)) s R.
Proof.
  intros e t Hv Hin Hra Hbuf Hap Hnul HR.
  assert (Hr : 0 ≤ e < 2 ^ 31 ∧ 0 ≤ buf < 2 ^ 32 ∧ Z.of_nat n < 2 ^ 31)
    by (unfold in_data, L_USER_START, NUM_PAG_DATA, PAGE_SIZE in *; lia).
  eapply wp_ccall; [exact Hv|fold e; cbn [length]; unfold in_data in *; lia|repeat (apply Forall_cons; split; [lia|]); done|].
  intros b s2 H2 Hc. pose proof (called_esp _ _ _ _ Hc) as E0. fold e in E0. cbn [length] in E0.
  assert (Hstk : ∀ k, 0 ≤ k ≤ 4 → in_user (esp (u_regs b) + k) 4).
  { intros k Hk. apply data_user. rewrite E0. unfold in_data in *. lia. }
  unfold c_strlen. apply wp_bind. eapply wp_uparam; [exact H2|apply Hstk; lia|].
  rewrite (cl_args _ _ _ _ Hc 0%nat buf eq_refl : uword (u_mem b) (esp (u_regs b) + 4) = buf).
  assert (Et : ubytes (u_mem b) buf (Z.of_nat n) = t).
  { apply list_fmap_ext. intros i k [-> Hk]%lookup_seqZ. apply (cl_mem _ _ _ _ Hc). cbn [length]. fold e. lia. }
  assert (Hlt : length t = n) by (unfold t; rewrite ubytes_length; lia).
  assert (Es : strlen t = Ret (Z.of_nat (length (cstr t))) t).
  { unfold strlen. pose proof (strlen_loop_spec t (S (length t)) 0) as Hs. change (drop 0 t) with t in Hs.
    change (Z.of_nat 0) with 0 in Hs. rewrite Z.add_0_l in Hs. apply Hs; [done|lia]. }
  apply wp_bind. eapply wp_on_ubuf; [exact H2|done|rewrite Et; exact Es|done|]. intros s3 H3.
  assert (Hcl : (length (cstr t) ≤ length t)%nat).
  { clear. induction t as [|c t IH]; cbn; [lia|]. destruct (c =? 0); cbn; lia. }
  apply wp_bind. eapply (wp_ureg _ _ _ _ _ _ (w_eax (u32 (Z.of_nat (length (cstr t)))))); [exact H3| |].
  { apply (user_ok_w w_eax); [tauto|exact (view_user_ok _ _ _ _ _ _ _ _ H3)|apply u32_range]. }
  intros s4 H4. rewrite u32_small in H4 by lia.
  eapply (wp_upop _ _ _ _ _ _ Hdat w_eip); [tauto|exact H4|change (in_user (esp (u_regs b)) 4)|].
  { rewrite <- (Z.add_0_r (esp (u_regs b))). apply Hstk. lia. }
  intros s5 H5. eapply wp_call_end; [exact H5|cbn [u_regs with_u with_umem esp w_esp w_eip w_eax length]; lia|].
  cbn [u_regs with_u with_umem esp w_esp w_eip w_eax eax length]. intros s6 H6. eapply (HR _ s6); [exact H6| |apply Hc].
  split; [cbn [u_regs with_u esp w_esp]; fold e; lia|intros x Hx _|apply Hc|apply Hc].
  cbn [u_mem with_u with_umem]. rewrite <- (cl_mem _ _ _ _ Hc x) by (cbn [length]; fold e in Hx |- *; lia).
  unfold ufill. case_bool_decide as Hd; [|done]. rewrite Hlt in Hd.
  rewrite <- Et. set (k := Z.to_nat (x - buf)). assert (Hk : (k < n)%nat) by (unfold k; lia).
  rewrite (nth_lookup_Some _ k 0 (u_mem b x)).
  - apply Z.mod_small. rewrite <- (v_mem _ _ _ _ _ _ _ _ H2) by (apply data_user; unfold in_data in *; lia). apply load8_range.
  - unfold ubytes. rewrite list_lookup_fmap, lookup_seqZ_lt by lia. cbn. do 2 f_equal. unfold k. lia.
Qed.
End Cdecl.

(** ** perror

    The compiler gives the function a frame of [size] bytes with the array
    [buff] at [off]; [ra] are the addresses of the instructions after its
    calls. *)

Record perror_frame : Type := {
  pf_size : Z;
  pf_off : Z;
  pf_ra : Z → Z;
}.

Section Perror.
Context {L : Layout}.
Context (junk handler errno : Z) (pf : perror_frame).

Definition perror : K unit :=
  upd_regs (λ r, w_esp (u32 (esp r - pf_size pf)) r) ;!
  let! e := get_reg esp in
  let buff := u32 (e + pf_off pf) in
  let! v := uload32 errno in
  ccall (pf_ra pf 0) [v; buff] (c_itoa 10) ;!
  let! n := ccall (pf_ra pf 1) [buff] (c_strlen 10) in
  ccall (pf_ra pf 2) [1; buff; n] (write junk handler errno) ;!
  upd_regs (λ r, w_esp (u32 (esp r + pf_size pf)) r) ;!
  uret.

Context {LO : LayoutOk L}.
Context (σ : ptable) (code dat : list Z) (data : gmap Z (list Z)) (j : Z) (s0 : kstate).
Context (Hdat : data !! p_run σ = Some dat).
Context (Hpf : 0 ≤ pf_off pf ∧ pf_off pf + 10 ≤ pf_size pf) (Hra : ∀ i, 0 ≤ pf_ra pf i < 2 ^ 32).

Lemma decimal_length v (k : nat) : 0 ≤ v < 10 ^ Z.of_nat k → (0 < k)%nat → v < 2 ^ 31 → (0 < length (decimal v) ≤ k)%nat.
Proof.
  intros Hv Hk H31. unfold decimal. rewrite length_map. split.
  - pose proof (numeral_value 10 ltac:(lia) v ltac:(lia)) as E. destruct (numeral 10 v) as [|d l] eqn:En; [|cbn; lia].
    unfold numeral in En. destruct (Z.eqb_spec v 0); [done|]. change (value_of 10 []) with 0 in E. lia.
  - apply (numeral_length 10 ltac:(lia) v k); lia.
Qed.

Lemma cstr_nul t : cstr t ≠ t → 0 ∈ t.
Proof.
  induction t as [|c t IH]; [done|]. cbn [cstr]. destruct (Z.eqb_spec c 0) as [->|Hc]; [intros _; apply list_elem_of_here|].
  intros Hne. apply list_elem_of_further, IH. congruence.
Qed.

Lemma cstr_prefix t : take (length (cstr t)) t = cstr t.
Proof. induction t as [|c t IH]; [done|]. cbn [cstr]. destruct (c =? 0); [done|]. cbn. by rewrite IH. Qed.

Lemma ubytes_take μ va n k : 0 ≤ k ≤ n → take (Z.to_nat k) (ubytes μ va n) = ubytes μ va k.
Proof.
  intros Hk. unfold ubytes. rewrite <- fmap_take. f_equal. apply list_eq. intros i.
  destruct (decide (i < Z.to_nat k)%nat) as [Hi|Hi].
  - rewrite lookup_take_lt by done. by rewrite !lookup_seqZ_lt by lia.
  - rewrite lookup_take_ge by lia. by rewrite lookup_seqZ_ge by lia.
Qed.

Lemma wp_perror a s R :
  let e := esp (u_regs a) in let v := uword (u_mem a) errno in let lo := e - pf_size pf - 24 in
  view σ code dat data j s0 a s → in_data lo (pf_size pf + 28) →
  in_data errno 4 → errno + 4 ≤ lo ∨ e + 4 ≤ errno → 0 ≤ v < 10 ^ 9 → sizeof_task_struct + 85 ≤ 4 * j →
  (∀ a' s', view σ code dat data j s0 a' s' → esp (u_regs a') = e + 4 → eip (u_regs a') = uword (u_mem a) e →
     u_console a' = show (decimal v) (u_console a) → u_ticks a' = u_ticks a → u_pid a' = u_pid a →
     (∀ x, x < lo ∨ e ≤ x → u_mem a' x = u_mem a x) → R tt s') →
  wp perror s R.
Proof.
  intros e v lo Hv Hin Herr Hap Hvr Hj HR. pose proof (view_user_ok _ _ _ _ _ _ _ _ Hv) as Hu.
  assert (Hb : 0 ≤ lo ∧ L_USER_START ≤ lo ∧ e + 4 < 2 ^ 31 ∧ 0 ≤ e)
    by (unfold in_data, L_USER_START, NUM_PAG_DATA, PAGE_SIZE in *; lia). destruct Hb as (Hlo & Hlo' & He & He0).
  assert (Hdec : (0 < length (decimal v) ≤ 9)%nat) by (apply decimal_length; lia).
  set (e1 := e - pf_size pf) in *. set (buff := e1 + pf_off pf).
  unfold perror. apply wp_bind. eapply (wp_ureg _ _ _ _ _ _ (λ r, w_esp (u32 (esp r - pf_size pf)) r)); [exact Hv|..];
    cbv beta; fold e; fold e1; rewrite u32_small by lia.
  { apply (user_ok_w w_esp); [tauto|done|lia]. }
  intros s1 H1. apply wp_bind. eapply wp_uget; [exact H1|]. cbn [u_regs with_u esp w_esp]. fold buff. rewrite u32_small by lia.
  apply wp_bind. eapply (wp_uload32 _ _ _ _ _ _ Hdat); [exact H1|by apply data_user|]. cbn [u_mem with_u]. fold v.
  set (a1 := with_u _ a) in H1. assert (E1 : esp (u_regs a1) = e1) by done.
  assert (Hst : in_data (e1 - 24) 24) by (unfold in_data, lo in *; lia).
  assert (Hbf : in_data buff 10) by (unfold in_data, buff, lo in *; lia).
  apply wp_bind. eapply (wp_call_itoa _ _ _ _ _ _ Hdat); [exact H1|done|done|lia|exact Hbf|right; rewrite E1; lia|lia|].
  intros a2 s2 _ H2 B2 C2 T2. pose proof (bk_esp _ _ _ B2) as E2. rewrite E1 in E2.
  set (t := ubytes (u_mem a2) buff 10) in *.
  assert (Hl : length t = 10%nat) by (unfold t; by rewrite ubytes_length).
  change (cstr t = decimal v) in T2.
  assert (Hnul : 0 ∈ t) by (apply cstr_nul; intros Ex; apply (f_equal length) in Ex; rewrite T2 in Ex; lia).
  apply wp_bind. eapply (wp_call_strlen _ _ _ _ _ _ Hdat); [exact H2|by rewrite E2|done|exact Hbf|right; rewrite E2; lia|done|].
  intros a3 s3 H3 B3 C3. pose proof (bk_esp _ _ _ B3) as E3. rewrite E2 in E3.
  change (ubytes (u_mem a2) buff (Z.of_nat 10)) with t. rewrite T2. set (n := Z.of_nat (length (decimal v))).
  assert (Et : ubytes (u_mem a3) buff n = decimal v).
  { rewrite <- T2, <- cstr_prefix, T2. rewrite <- (ubytes_take _ _ 10) by lia.
    rewrite (back_bytes _ _ _ _ _ B3) by (intros x Hx; rewrite ?E2; unfold nowhere; lia || tauto). fold t. f_equal. lia. }
  apply wp_bind. eapply (wp_call_print _ _ _ _ _ _ _ _ _ Hdat); [exact H3|by rewrite E3|done|done|rewrite E3; unfold lo in *; lia|lia|
    apply data_user; unfold in_data in *; lia|right; rewrite E3; lia|lia|].
  intros a4 s4 H4 B4 C4. pose proof (bk_esp _ _ _ B4) as E4. rewrite E3 in E4. rewrite Et in C4.
  apply wp_bind. eapply (wp_ureg _ _ _ _ _ _ (λ r, w_esp (u32 (esp r + pf_size pf)) r)); [exact H4|..]; cbv beta; rewrite E4;
    replace (e1 + pf_size pf) with e by lia; rewrite u32_small by lia.
  { apply (user_ok_w w_esp); [tauto|exact (view_user_ok _ _ _ _ _ _ _ _ H4)|lia]. }
  intros s5 H5. assert (Hm : ∀ x, x < lo ∨ e ≤ x → u_mem a4 x = u_mem a x).
  { intros x Hx. rewrite (bk_mem _ _ _ B4), (bk_mem _ _ _ B3), (bk_mem _ _ _ B2); rewrite ?E1, ?E2, ?E3; try done;
      unfold lo, in_range, nowhere in *; (lia || tauto). }
  eapply (wp_upop _ _ _ _ _ _ Hdat w_eip); [tauto|exact H5|apply data_user; cbn [u_regs with_u esp w_esp]; unfold in_data, lo in *; lia|].
  cbn [u_regs u_mem with_u esp w_esp]. intros s6 H6. eapply (HR _ s6); [exact H6|done| | | | |done]; cbn [u_console u_ticks u_pid with_u].
  - cbn [u_regs with_u eip w_eip]. unfold uword. by rewrite !Hm by lia.
  - rewrite C4, C3, C2. done.
  - rewrite (bk_ticks _ _ _ B4), (bk_ticks _ _ _ B3). exact (bk_ticks _ _ _ B2).
  - rewrite (bk_pid _ _ _ B4), (bk_pid _ _ _ B3). exact (bk_pid _ _ _ B2).
Qed.

(** C20. perror prints the error number in decimal and returns to its caller:
    whatever number of at most nine digits errno holds, its text appears on
    the screen, and the program's memory above the stack pointer, errno with
    it, is as it was. *)
Theorem perror_prints a s :
  let e := esp (u_regs a) in let v := uword (u_mem a) errno in let lo := e - pf_size pf - 24 in
  view σ code dat data j s0 a s → in_data lo (pf_size pf + 28) →
  in_data errno 4 → errno + 4 ≤ lo ∨ e + 4 ≤ errno → 0 ≤ v < 10 ^ 9 → sizeof_task_struct + 85 ≤ 4 * j →
  ∃ a' s', perror s = Ret tt s' ∧ view σ code dat data j s0 a' s' ∧
    esp (u_regs a') = e + 4 ∧ eip (u_regs a') = uword (u_mem a) e ∧
    u_console a' = show (decimal v) (u_console a) ∧ value_of 10 (map (λ c, c - 48) (decimal v)) = v ∧
    (∀ x, x < lo ∨ e ≤ x → u_mem a' x = u_mem a x).
Proof.
  intros e v lo Hv Hin Herr Hap Hvr Hj.
  destruct (wp_elim perror s (λ _ s', ∃ a', view σ code dat data j s0 a' s' ∧
    esp (u_regs a') = e + 4 ∧ eip (u_regs a') = uword (u_mem a) e ∧
    u_console a' = show (decimal v) (u_console a) ∧ (∀ x, x < lo ∨ e ≤ x → u_mem a' x = u_mem a x)))
    as ([] & s' & E & a' & H1 & H2 & H3 & H4 & H5).
  { apply (wp_perror a s); [done..|]. intros a' s' H1 H2 H3 H4 _ _ H5. by exists a'. }
  exists a', s'. split_and!; try done. unfold decimal. rewrite map_map.
  rewrite (map_ext _ id) by (intros d; unfold id; lia). rewrite map_id. apply numeral_value; lia.
Qed.
End Perror.
