(* ===== verification/User.v ===== *)
(** user.c: the program the image starts, from its first call to its endless
    loop, in the parent and in the child it forks. *)

From Stdlib Require Import Ascii.
From stdpp Require Import strings.
From S2P Require Import Prelude Memory CList Libc Console Frames Types Kernel Task Paging Utils Switch.
From S2P Require Import Sched Policy Space Process Sys Block Fork ForkInv Write Entry Calls Wrappers Spawn Cdecl.
#[local] Open Scope Z_scope.

(** What the linker chose for the program: the addresses of its string
    literals, of the array [buff] and of errno, and those of the instructions
    after its calls. *)
Record user_layout : Type := {
  ul_greeting : Z;  (** ["\nin user..."] *)
  ul_failed : Z;  (** ["\nfailed fork"] *)
  ul_buff : Z;  (** [char buff[24]] *)
  ul_errno : Z;  (** [int errno] *)
  ul_ra : Z → Z;
}.

Definition greeting : list Z := 10 :: removelast (literal "in user...").
Definition failed : list Z := 10 :: removelast (literal "failed fork").

Section User.
Context {L : Layout}.
Context (junk handler : Z) (U : user_layout).

(** From the return of fork, with the result [pid], to [while(1)]. *)
Definition main_after_fork (pid : Z) : K unit :=
  let! curr_pid := ccall (ul_ra U 2) [] (getpid junk handler (ul_errno U)) in
  ccall (ul_ra U 3) [curr_pid; ul_buff U] (c_itoa 24) ;!
  when (s32 pid =? -1)
    (ccall (ul_ra U 4) [1; ul_failed U; 12] (write junk handler (ul_errno U)) ;! ret tt).

Definition user_main : K unit :=
  ccall (ul_ra U 0) [1; ul_greeting U; 11] (write junk handler (ul_errno U)) ;!
  let! pid := ccall (ul_ra U 1) [] (fork junk handler (ul_errno U)) in
  main_after_fork pid.

(** What a child of the program executes: it comes back from the trap of the
    fork wrapper, returns from it to main, and goes on there. *)
Definition child_main : K unit :=
  ret_from_fork ;!
  syscall_fin ;!
  set_errno (ul_errno U) ;!
  uret ;!
  let! pid := call_end 0 in
  main_after_fork pid.

Context {LO : LayoutOk L}.

(** The parts of the program in a process whose stack pointer is [e]: the data
    outside the stack, and room for the calls. *)
Record placed (e : Z) : Prop := {
  pl_stack : in_data (e - 24) 24;
  pl_ra : ∀ i, 0 ≤ ul_ra U i < 2 ^ 32;
  pl_greeting : in_user (ul_greeting U) 11 ∧ (ul_greeting U + 11 ≤ e - 24 ∨ e ≤ ul_greeting U);
  pl_failed : in_user (ul_failed U) 12 ∧ (ul_failed U + 12 ≤ e - 24 ∨ e ≤ ul_failed U);
  pl_buff : in_data (ul_buff U) 24 ∧ (ul_buff U + 24 ≤ e - 24 ∨ e ≤ ul_buff U);
  pl_errno : in_data (ul_errno U) 4 ∧ (ul_errno U + 4 ≤ e - 24 ∨ e ≤ ul_errno U);
  pl_apart : (ul_failed U + 12 ≤ ul_buff U ∨ ul_buff U + 24 ≤ ul_failed U) ∧
             (ul_failed U + 12 ≤ ul_errno U ∨ ul_errno U + 4 ≤ ul_failed U) ∧
             (ul_errno U + 4 ≤ ul_buff U ∨ ul_buff U + 24 ≤ ul_errno U);
}.

Section Process.
Context (σ : ptable) (code dat : list Z) (data : gmap Z (list Z)) (j : Z) (s0 : kstate).
Context (Hdat : data !! p_run σ = Some dat) (Hj : sizeof_task_struct + 88 ≤ 4 * j).

(** The string in [buff]. *)
Definition buff_text (a : ustate) : list Z := cstr (ubytes (u_mem a) (ul_buff U) 24).

Lemma wp_main_after_fork pid a s R :
  view σ code dat data j s0 a s → placed (esp (u_regs a)) →
  (s32 pid = -1 → ubytes (u_mem a) (ul_failed U) 12 = failed) →
  (∀ a' s', view σ code dat data j s0 a' s' → back (in_range (ul_buff U) 24) a a' → buff_text a' = decimal (u_pid a) →
     u_console a' = (if s32 pid =? -1 then show failed (u_console a) else u_console a) → R tt s') →
  wp (main_after_fork pid) s R.
Proof.
  intros Hv Hpl Hf HR. set (e := esp (u_regs a)) in *.
  assert (Hp : 1 ≤ u_pid a < 2 ^ 31) by (by eapply view_pid). destruct Hpl as [Pst Pra _ [Pf1 Pf2] [Pb1 Pb2] [Pe1 Pe2] (A1 & _ & _)].
  unfold main_after_fork. apply wp_bind.
  eapply (wp_call0 _ _ _ _ _ _ Hdat _ _ (u_pid a)); [exact Hv|fold e; unfold in_data in *; lia|apply Pra| |].
  { intros b s1 Q H1 Hc HQ. rewrite <- (cl_pid _ _ _ _ Hc) in HQ. eapply (wp_getpid _ _ _ _ _ _ _ _ _ Hdat); [exact H1| |exact HQ].
    rewrite (called_esp _ _ _ _ Hc). cbn [length]. apply data_user. unfold in_data in *. lia. }
  intros a1 s1 H1 B1 C1. pose proof (bk_esp _ _ _ B1) as E1. fold e in E1.
  assert (Hl : (length (decimal (u_pid a)) < 24)%nat).
  { assert ((0 < length (decimal (u_pid a)) ≤ 10)%nat) by (apply decimal_length; lia). lia. }
  apply wp_bind. eapply (wp_call_itoa _ _ _ _ _ _ Hdat); [exact H1|by rewrite E1|apply Pra|lia|done|by rewrite E1|done|].
  intros a2 s2 _ H2 B2 C2 T2. pose proof (bk_esp _ _ _ B2) as E2. rewrite E1 in E2.
  pose proof (back_trans _ _ _ _ _ B1 B2) as B12.
  destruct (Z.eqb_spec (s32 pid) (-1)) as [Hm|Hm]; cbn [when].
  2:{ apply wp_ret. eapply HR; [exact H2|eapply back_weaken; [exact B12|by intros x [[]|Hx]]|exact T2|]. by rewrite C2, C1. }
  assert (Ef : ubytes (u_mem a2) (ul_failed U) 12 = failed).
  { rewrite (back_bytes _ _ _ _ _ B12); [by apply Hf|fold e; lia|]. intros x Hx [[]|Hy]. unfold in_range in Hy. lia. }
  apply wp_bind. eapply (wp_call_print _ _ _ _ _ _ _ _ _ Hdat); [exact H2|by rewrite E2|apply Pra|done|by rewrite E2|lia|done|by rewrite E2|lia|].
  intros a3 s3 H3 B3 C3. pose proof (back_trans _ _ _ _ _ B12 B3) as B. apply wp_ret. eapply HR; [exact H3| | |].
  - eapply back_weaken; [exact B|]. by intros x [[[]|Hx]|[]].
  - rewrite <- T2. unfold buff_text. f_equal. apply (back_bytes _ _ _ _ _ B3); [rewrite E2; lia|by intros x _ []].
  - by rewrite C3, Ef, C2, C1.
Qed.
End Process.

Section Parent.
Context (σ : ptable) (code dat : list Z) (data : gmap Z (list Z)) (j : Z) (s0 : kstate).
Context (Hdat : data !! p_run σ = Some dat) (Hj : sizeof_task_struct + 88 ≤ 4 * j).

(** The view [ac] of the program at the entry of fork. *)
Record at_fork (a ac : ustate) : Prop := {
  af_esp : esp (u_regs ac) = esp (u_regs a) - 4;
  af_mem : ∀ x, x < esp (u_regs a) - 24 ∨ esp (u_regs a) ≤ x → u_mem ac x = u_mem a x;
  af_regs : user_ok (u_regs ac);
}.

(** The greeting, up to the entry of fork. *)
Lemma wp_greeting (k : Z → K unit) a s R :
  view σ code dat data j s0 a s → placed (esp (u_regs a)) → ubytes (u_mem a) (ul_greeting U) 11 = greeting →
  (∀ a1 ac s1, view σ code dat data j s0 ac s1 → back nowhere a a1 → u_console a1 = show greeting (u_console a) →
     called (ul_ra U 1) [] a1 ac → at_fork a ac →
     wp (fork junk handler (ul_errno U)) s1 (λ _ s2, wp (call_end 0) s2 (λ pid s3, wp (k pid) s3 R))) →
  wp (ccall (ul_ra U 0) [1; ul_greeting U; 11] (write junk handler (ul_errno U)) ;!
      let! pid := ccall (ul_ra U 1) [] (fork junk handler (ul_errno U)) in k pid) s R.
Proof.
  intros Hv Hpl Hg HR. set (e := esp (u_regs a)) in *. destruct Hpl as [Pst Pra [Pg1 Pg2] _ _ [Pe1 Pe2] _].
  apply wp_bind. eapply (wp_call_print _ _ _ _ _ _ _ _ _ Hdat); [exact Hv|done|apply Pra|done|done|lia|done|done|lia|].
  intros a1 s1 H1 B1 C1. pose proof (bk_esp _ _ _ B1) as E1. fold e in E1. rewrite Hg in C1.
  apply wp_bind. eapply (wp_ccall _ _ _ _ _ _ Hdat); [exact H1|rewrite E1; cbn [length]; unfold in_data in *; lia|by apply Forall_cons|].
  intros ac s2 H2 Hc. eapply (HR a1 ac); [exact H2|exact B1|exact C1|exact Hc|]. pose proof (called_esp _ _ _ _ Hc) as Ec.
  rewrite E1 in Ec. cbn [length] in Ec. split; [fold e; lia|fold e; intros x Hx|exact (view_user_ok _ _ _ _ _ _ _ _ H2)].
  rewrite (cl_mem _ _ _ _ Hc) by (rewrite E1; cbn [length]; lia). apply (bk_mem _ _ _ B1); [done|by intros []].
Qed.

(** With a free task structure. *)
Lemma wp_user_main_forks a s c l ks R :
  view σ code dat data j s0 a s → placed (esp (u_regs a)) → ubytes (u_mem a) (ul_greeting U) 11 = greeting →
  p_free σ = c :: l → p_kids σ !! p_run σ = Some ks → 0 ≤ k_last_pid s0 < 2 ^ 31 - 2 →
  (∀ fs ac s1 a' s', let pid := next_pid (k_last_pid s0) c in let σ' := fork_table c l ks σ in
     view σ' code dat (<[c := fs]> data) j s1 a' s' → back (in_range (ul_buff U) 24) a a' →
     buff_text a' = decimal (u_pid a) → u_console a' = show greeting (u_console a) → at_fork a ac →
     newborn code j c fs (w_eax 2 (u_regs ac)) (u_mem ac) pid s1 → kernel_inv σ' code (<[c := fs]> data) s1 →
     k_last_pid s1 = pid → k_quantum_ticks s1 = k_quantum_ticks s0 → R tt s') →
  wp user_main s R.
Proof.
  intros Hv Hpl Hg Efree Hks Hlp HR. unfold user_main. eapply wp_greeting; [exact Hv|exact Hpl|exact Hg|]. intros a1 ac s1 H1 B1 C1 Hc Haf.
  set (e := esp (u_regs a)) in *. pose proof (pl_stack _ Hpl) as Pst.
  assert (Hpid : 0 ≤ next_pid (k_last_pid s0) c < 2 ^ 31) by (unfold next_pid; case_match; lia).
  pose proof (af_esp _ _ Haf) as Ec. fold e in Ec.
  assert (He : 24 ≤ e < 2 ^ 31) by (unfold in_data, L_USER_START, NUM_PAG_DATA, PAGE_SIZE in Pst; lia).
  destruct (forked_fresh _ _ _ _ _ _ _ (v_mode _ _ _ _ _ _ _ _ Hv) Efree) as [Hcv Hrc].
  eapply (wp_fork junk handler (ul_errno U) _ _ _ _ _ _ Hdat); [exact H1|rewrite Ec; apply data_user; unfold in_data in *; lia|exact Efree|exact Hks|exact Hlp|].
  intros fs s2 s3 pid H3 Hn Hinv Hp Hq.
  assert (Hd : (<[c := fs]> data : gmap Z (list Z)) !! p_run (fork_table c l ks σ) = Some dat) by (by rewrite lookup_insert_ne).
  eapply wp_call_end; [exact H3|cbn [u_regs returned with_u esp w_esp w_eip]; rewrite Ec; lia|].
  cbn [u_regs returned with_u esp w_esp w_eip eax w_eax]. rewrite Ec. replace (e - 4 + 4 + 4 * Z.of_nat 0) with e by lia. intros s4 H4.
  set (a4 := with_u _ _) in H4.
  assert (B4 : back nowhere a a4).
  { split; [done| |rewrite <- (bk_ticks _ _ _ B1); apply Hc|rewrite <- (bk_pid _ _ _ B1); apply Hc].
    intros x Hx _. exact (af_mem _ _ Haf x Hx). }
  assert (Hm : s32 pid ≠ -1) by (rewrite s32_small; unfold pid; lia).
  eapply (wp_main_after_fork _ _ _ _ _ _ Hd Hj); [exact H4|exact Hpl|done|]. intros a5 s5 H5 B5 T5 C5.
  eapply HR; [exact H5| | | |exact Haf|exact Hn|exact Hinv|exact Hp|exact Hq].
  - eapply back_weaken; [exact (back_trans _ _ _ _ _ B4 B5)|]. by intros x [[]|Hx].
  - by rewrite T5, (bk_pid _ _ _ B4).
  - destruct (Z.eqb_spec (s32 pid) (-1)); [done|]. rewrite C5, <- C1. apply Hc.
Qed.

(** With none: the failure is reported, and errno is 1. *)
Lemma wp_user_main_full a s R :
  view σ code dat data j s0 a s → placed (esp (u_regs a)) → ubytes (u_mem a) (ul_greeting U) 11 = greeting →
  ubytes (u_mem a) (ul_failed U) 12 = failed → p_free σ = [] →
  (∀ a' s', view σ code dat data j s0 a' s' →
     back (λ x, in_range (ul_errno U) 4 x ∨ in_range (ul_buff U) 24 x) a a' → uword (u_mem a') (ul_errno U) = 1 →
     buff_text a' = decimal (u_pid a) → u_console a' = show failed (show greeting (u_console a)) → R tt s') →
  wp user_main s R.
Proof.
  intros Hv Hpl Hg Hf Efree HR. unfold user_main. eapply wp_greeting; [exact Hv|exact Hpl|exact Hg|]. intros a1 ac s1 H1 B1 C1 Hc Haf.
  set (e := esp (u_regs a)) in *. pose proof (pl_stack _ Hpl) as Pst. destruct (pl_errno _ Hpl) as [Pe1 Pe2].
  destruct (pl_apart _ Hpl) as (_ & A2 & A3). pose proof (af_esp _ _ Haf) as Ec. fold e in Ec.
  assert (He : 24 ≤ e < 2 ^ 31) by (unfold in_data, L_USER_START, NUM_PAG_DATA, PAGE_SIZE in Pst; lia).
  eapply (wp_fork_none junk handler (ul_errno U) _ _ _ _ _ _ Hdat);
    [exact H1|rewrite Ec; apply data_user; unfold in_data in *; lia|exact Efree|done|rewrite Ec; lia|].
  intros s3 H3. eapply wp_call_end; [exact H3|cbn [u_regs returned with_u esp w_esp w_eip]; rewrite Ec; lia|].
  cbn [u_regs returned with_u esp w_esp w_eip eax w_eax]. rewrite Ec. replace (e - 4 + 4 + 4 * Z.of_nat 0) with e by lia. intros s4 H4.
  set (a4 := with_u _ _) in H4.
  assert (B4 : back (in_range (ul_errno U) 4) a a4).
  { split; [done| |rewrite <- (bk_ticks _ _ _ B1); apply Hc|rewrite <- (bk_pid _ _ _ B1); apply Hc].
    intros x Hx Hn. cbn [a4 u_mem with_u returned]. unfold uput. rewrite bool_decide_false by (unfold in_range in Hn; lia).
    exact (af_mem _ _ Haf x Hx). }
  assert (Hf4 : ubytes (u_mem a4) (ul_failed U) 12 = failed).
  { rewrite <- Hf. apply (back_bytes _ _ _ _ _ B4); [fold e; pose proof (pl_failed _ Hpl); lia|unfold in_range; lia]. }
  eapply (wp_main_after_fork _ _ _ _ _ _ Hdat Hj); [exact H4|exact Hpl|intros _; exact Hf4|]. intros a5 s5 H5 B5 T5 C5.
  eapply HR; [exact H5| | | |].
  - eapply back_weaken; [exact (back_trans _ _ _ _ _ B4 B5)|]. tauto.
  - rewrite <- (uword_uput (u_mem ac) (ul_errno U) 1) by lia. unfold uword.
    by rewrite !(bk_mem _ _ _ B5) by (change (esp (u_regs a4)) with e; unfold in_range; lia).
  - by rewrite T5, (bk_pid _ _ _ B4).
  - assert (C4 : u_console a4 = u_console ac) by done. rewrite <- C1, <- (cl_console _ _ _ _ Hc), <- C4.
    destruct (Z.eqb_spec (s32 (2 ^ 32 - 1)) (-1)) as [_|Hx]; [exact C5|by destruct Hx].
Qed.
End Parent.

(** ** The child *)

Lemma wp_child_main σ' data' code c fs j j' a ac pid s R :
  first_switch code σ' data' c j' s → data' !! c = Some fs →
  newborn code j c fs (w_eax 2 (u_regs ac)) (u_mem ac) pid s → at_fork a ac → placed (esp (u_regs a)) →
  sizeof_task_struct + 88 ≤ 4 * j → 4 * j ≤ PAGE_SIZE → sizeof_task_struct + 88 ≤ 4 * j' →
  (∀ s1 a' s', view σ' code fs data' j' s1 a' s' → back (in_range (ul_buff U) 24) a (UState (u_regs a') (u_mem a') (u_console a') (u_ticks a) (u_pid a)) →
     u_pid a' = pid → buff_text a' = decimal pid → u_console a' = k_console s → R tt s') →
  wp child_main s R.
Proof.
  intros Hsw Hfs Hnb Haf Hpl Hj Hj2 Hj' HR. set (e := esp (u_regs a)) in *. pose proof (pl_stack _ Hpl) as Pst.
  pose proof (af_esp _ _ Haf) as Ec. fold e in Ec.
  assert (He : 24 ≤ e < 2 ^ 31) by (unfold in_data, L_USER_START, NUM_PAG_DATA, PAGE_SIZE in Pst; lia).
  assert (Hw : wp (ret_from_fork ;! syscall_fin) s (λ _ s1, wp (set_errno (ul_errno U) ;! uret ;!
    let! pid := call_end 0 in main_after_fork pid) s1 R)).
  2:{ unfold child_main. unfold wp, bind in Hw |- *. destruct (ret_from_fork s) as [[] sa|]; [|done]. by destruct (syscall_fin sa). }
  eapply wp_newborn_runs; [exact Hsw|exact Hfs|exact Hnb|lia|done|by apply (user_ok_w w_eax); [tauto|apply Haf|]|].
  intros s1 H1 _ _. rewrite <- (fs_run _ _ _ _ _ _ Hsw) in Hfs.
  set (b := UState (u_regs ac) (u_mem ac) (k_console s) (k_zeos_ticks s) pid).
  assert (Hw : wp (set_errno (ul_errno U) ;! uret) s1 (λ _ s2, wp (let! pid := call_end 0 in main_after_fork pid) s2 R)).
  2:{ unfold wp, bind in Hw |- *. destruct (set_errno (ul_errno U) s1) as [[] sa|]; [|done]. by destruct (uret sa). }
  eapply (wp_fork_rest _ _ _ _ _ _ _ 0 b); [exact Hfs|exact H1|done|cbn [b u_regs]; rewrite Ec; apply data_user; unfold in_data in *; lia|].
  intros s2 H2. apply wp_bind. eapply wp_call_end; [exact H2|cbn [b u_regs returned with_u esp w_esp w_eip]; rewrite Ec; lia|].
  cbn [b u_regs returned with_u esp w_esp w_eip eax w_eax]. rewrite Ec. replace (e - 4 + 4 + 4 * Z.of_nat 0) with e by lia. intros s3 H3.
  set (a3 := with_u _ _) in H3.
  eapply (wp_main_after_fork _ _ _ _ _ _ Hfs Hj'); [exact H3|exact Hpl|done|]. intros a4 s4 H4 B4 T4 C4.
  eapply HR; [exact H4| |exact (bk_pid _ _ _ B4)|exact T4|exact C4].
  split; [exact (bk_esp _ _ _ B4)|intros x Hx Hn|done|done]. cbn [u_mem]. rewrite (bk_mem _ _ _ B4 x Hx Hn). exact (af_mem _ _ Haf x Hx).
Qed.

(** C17. The user program, from its first call to its endless loop.  It prints
    the greeting, forks, and leaves the decimal text of its own identifier in
    [buff].  When no task structure is free it reports the failed fork and
    errno is 1; else its child is ready, and whenever the child gets the
    processor for the first time it too arrives in the loop, with its own
    identifier in its own [buff] and nothing printed.  Apart from [buff],
    errno and the stack below its frame the program's memory is unchanged. *)
Theorem user_main_correct (σ : ptable) (code dat : list Z) (data : gmap Z (list Z)) (j : Z) (s0 : kstate) a s :
  data !! p_run σ = Some dat → sizeof_task_struct + 88 ≤ 4 * j → 4 * j ≤ PAGE_SIZE →
  view σ code dat data j s0 a s → placed (esp (u_regs a)) → ubytes (u_mem a) (ul_greeting U) 11 = greeting →
  ubytes (u_mem a) (ul_failed U) 12 = failed → 0 ≤ k_last_pid s0 < 2 ^ 31 - 2 →
  ∃ a' s', user_main s = Ret tt s' ∧ buff_text a' = decimal (u_pid a) ∧
    back (λ x, in_range (ul_errno U) 4 x ∨ in_range (ul_buff U) 24 x) a a' ∧
    match p_free σ with
    | [] => view σ code dat data j s0 a' s' ∧ uword (u_mem a') (ul_errno U) = 1 ∧
              u_console a' = show failed (show greeting (u_console a))
    | c :: l => let pid := next_pid (k_last_pid s0) c in
        u_console a' = show greeting (u_console a) ∧
        ∃ ks fs s1 v μ, view (fork_table c l ks σ) code dat (<[c := fs]> data) j s1 a' s' ∧ newborn code j c fs v μ pid s' ∧
          ∀ σ' data' j' s2, first_switch code σ' data' c j' s2 → data' !! c = Some fs →
            newborn code j c fs v μ pid s2 → sizeof_task_struct + 88 ≤ 4 * j' →
            ∃ s3 b s4, child_main s2 = Ret tt s4 ∧ view σ' code fs data' j' s3 b s4 ∧ u_pid b = pid ∧
              buff_text b = decimal pid ∧ u_console b = k_console s2
    end.
Proof.
  intros Hdat Hj Hj2 Hv Hpl Hg Hf Hlp. pose proof (v_mode _ _ _ _ _ _ _ _ Hv) as Hum. destruct (p_free σ) as [|c l] eqn:Efree.
  { destruct (wp_elim user_main s (λ _ s', ∃ a', view σ code dat data j s0 a' s' ∧
      back (λ x, in_range (ul_errno U) 4 x ∨ in_range (ul_buff U) 24 x) a a' ∧ uword (u_mem a') (ul_errno U) = 1 ∧
      buff_text a' = decimal (u_pid a) ∧ u_console a' = show failed (show greeting (u_console a))))
      as ([] & s' & E & a' & H1 & H2 & H3 & H4 & H5).
    - eapply (wp_user_main_full σ code dat data j s0 Hdat Hj a s); [exact Hv|exact Hpl|exact Hg|exact Hf|exact Efree|].
      intros a' s' H1 H2 H3 H4 H5. exists a'. exact (conj H1 (conj H2 (conj H3 (conj H4 H5)))).
    - exists a', s'. exact (conj E (conj H4 (conj H2 (conj H1 (conj H3 H5))))). }
  destruct (run_kids _ _ _ _ (um_inv _ _ _ _ _ Hum)) as [ks Hks].
  destruct (wp_elim user_main s (λ _ s', ∃ fs ac s1 a', view (fork_table c l ks σ) code dat (<[c := fs]> data) j s1 a' s' ∧
    back (in_range (ul_buff U) 24) a a' ∧ buff_text a' = decimal (u_pid a) ∧ u_console a' = show greeting (u_console a) ∧
    at_fork a ac ∧ newborn code j c fs (w_eax 2 (u_regs ac)) (u_mem ac) (next_pid (k_last_pid s0) c) s'))
    as ([] & s' & E & fs & ac & s1 & a' & H1 & H2 & H3 & H4 & H5 & H6).
  - eapply (wp_user_main_forks σ code dat data j s0 Hdat Hj a s c l ks); [exact Hv|exact Hpl|exact Hg|exact Efree|exact Hks|exact Hlp|].
    intros fs ac s1 a' s' pid σ' H1 H2 H3 H4 H5 H6 H7 _ _. exists fs, ac, s1, a'.
    assert (H8 : newborn code j c fs (w_eax 2 (u_regs ac)) (u_mem ac) pid s').
    { eapply newborn_later; [exact Hdat|exact Efree| |exact H1|exact H7|exact H6]. by destruct (forked_fresh _ _ _ _ _ _ _ Hum Efree). }
    exact (conj H1 (conj H2 (conj H3 (conj H4 (conj H5 H8))))).
  - exists a', s'. split; [exact E|]. split; [exact H3|]. split; [eapply back_weaken; [exact H2|by right]|].
    split; [exact H4|]. exists ks, fs, s1, (w_eax 2 (u_regs ac)), (u_mem ac). split; [exact H1|]. split; [exact H6|].
    intros σ' data' j' s2 Hsw Hfs Hnb Hj'. destruct (wp_elim child_main s2 (λ _ s4, ∃ s3 b, view σ' code fs data' j' s3 b s4 ∧
      u_pid b = next_pid (k_last_pid s0) c ∧ buff_text b = decimal (next_pid (k_last_pid s0) c) ∧ u_console b = k_console s2))
      as ([] & s4 & E4 & s3 & b & Hb); [|exists s3, b, s4; exact (conj E4 Hb)].
    eapply (wp_child_main σ' data' code c fs j j' a ac); [exact Hsw|exact Hfs|exact Hnb|exact H5|exact Hpl|exact Hj|exact Hj2|exact Hj'|].
    intros s3 b s4 K1 _ K2 K3 K4. exists s3, b. exact (conj K1 (conj K2 (conj K3 K4))).
Qed.
End User.
