(* ===== verification/Run.v ===== *)
(** The system as a whole: the image boots, the program of user.c greets and
    forks, the clock takes the processor from it, and its child runs. *)

From S2P Require Import Prelude Memory CList Libc Console Frames Types Kernel Task Paging Utils Switch.
From S2P Require Import Sched Policy Space Process Init Sys Tick Block Fork ForkInv Write Entry Calls Interrupt System Irq.
From S2P Require Import Wrappers Spawn Cdecl User.

Section Run.
Context {L : Layout}.
Context (clock_addr ra : Z) (zeos_show_clock : Z → M console unit).

(** [n] interrupts of the clock, one after the other. *)
Fixpoint clock_ticks (n : nat) : K unit :=
  match n with
  | O => ret tt
  | Datatypes.S n' => (int_enter clock_addr None ;! clock_handler ra zeos_show_clock) ;! clock_ticks n'
  end.

Context {LO : LayoutOk L}.
Context (Hra : 0 ≤ ra < 2 ^ 32) (Hclock : clock_addr ∉ [addr_cpu_idle; addr_ret_from_fork; addr_task_switch_ret]).
Context (Hclk : ∀ t k, cursor_ok k → wp (zeos_show_clock t) k (λ _ k', cursor_ok k')).

(** ** A process in its endless loop *)

Section Loop.
Context (σ : ptable) (code dat : list Z) (data : gmap Z (list Z)) (j : Z) (s0 : kstate) (u : regs).
Context (Hdat : data !! p_run σ = Some dat) (Hj : sizeof_task_struct + 108 ≤ 4 * j) (Hlp : k_last_pid s0 < 100).
Context (c : Z) (l : list Z) (Hready : p_ready σ = c :: l).

(** Since the state [s0] only interrupts have run. *)
Record looping (s : kstate) : Prop := {
  lo_mode : user_mode σ code data j s;
  lo_regs : k_regs s = u;
  lo_mem : frame (own_bytes σ dat) (k_mem s0) (k_mem s);
  lo_pid : k_last_pid s = k_last_pid s0;
}.

Lemma own_stack_bytes x :
  4 * j ≤ PAGE_SIZE → in_range (stack_addr (task_addr (p_run σ)) j - 72) 72 x → own_bytes σ dat x.
Proof. intros Hj' Hx. left. unfold in_range, stack_addr, sizeof_task_struct in *. lia. Qed.

(** While the quantum lasts the process notices nothing. *)
Lemma wp_clock_ticks n q s R :
  looping s → 0 ≤ q → q + Z.of_nat n < 2 ^ 31 → k_quantum_ticks s = q + Z.of_nat n →
  (∀ s', looping s' → k_quantum_ticks s' = q → R tt s') → wp (clock_ticks n) s R.
Proof.
  revert s. induction n as [|n IH]; intros s [Hum Hr Hm Hp] Hq0 Hqn Hq HR; cbn [clock_ticks].
  { apply wp_ret, HR; [by split|]. lia. }
  assert (Et : tick_quantum σ (k_quantum_ticks s) (quantum_of (k_mem s) (p_run σ)) = q + Z.of_nat n).
  { unfold tick_quantum. rewrite Hready, Hq. rewrite s32_small; lia. }
  apply wp_bind, (wp_clock_interrupt σ code data j s Hum Hj); [done|apply tick_fits_low; [apply (um_inv _ _ _ _ _ Hum)|by rewrite Hp]|done|done|..]; rewrite Et; [|lia].
  intros _ m k F s' Hinv. apply IH; [|done|lia|done|done]. pose proof (user_mode_acked _ _ _ _ _ Hum) as []. split; kred; [by split|done| |done].
  eapply frame_trans; [exact Hm|]. eapply frame_weaken; [|exact F]. intros x. by apply own_stack_bytes, um_room.
Qed.

(** The next one gives the processor to the first ready process, which has
    never run. *)
Lemma wp_clock_switch fs v μ pid j0 s R :
  looping s → k_quantum_ticks s = 0 → kernel_inv σ code data s0 → c ≠ 0 → data !! c = Some fs → c ≠ p_run σ →
  sizeof_task_struct + 76 ≤ 4 * j0 → 4 * j0 ≤ PAGE_SIZE → newborn code j0 c fs v μ pid s0 →
  (∀ s', first_switch code (rotate σ) data c (KERNEL_STACK_SIZE - 1) s' → newborn code j0 c fs v μ pid s' →
     eip (k_regs s') = addr_ret_from_fork → preempted u (p_run σ) s' → R tt s') →
  wp (clock_ticks 1) s R.
Proof.
  intros [Hum Hr Hm Hp] Hq Hinv0 Hc0 Hfs Hcr Hj1 Hj2 Hnb HR. pose proof (um_valid _ _ _ _ _ Hum) as Hrun.
  assert (Et : tick_quantum σ (k_quantum_ticks s) (quantum_of (k_mem s) (p_run σ)) = -1).
  { unfold tick_quantum. rewrite Hready, Hq. done. }
  destruct (rotate_ready _ _ _ Hready) as [Erun _].
  cbn [clock_ticks]. apply wp_bind, (wp_clock_interrupt σ code data j s Hum Hj); [done|apply tick_fits_low; [apply (um_inv _ _ _ _ _ Hum)|by rewrite Hp]|done|done|..]; rewrite Et; [lia|].
  intros _ m s' F Hinv Hsw _ _ Hpre. apply wp_ret. rewrite Erun in Hsw. rewrite Hr in Hpre.
  assert (Hnb1 : newborn code j0 c fs v μ pid (isr_state σ j s clock_addr m)).
  { eapply (newborn_kept code dat j0 σ data); [exact Hinv0|done|done|done|done|done|done| |exact Hnb].
    eapply frame_trans; [exact Hm|]. eapply frame_weaken; [|exact F]. intros x. by apply own_stack_bytes, (um_room _ _ _ _ _ Hum). }
  pose proof (ki_mm _ _ _ _ Hinv0) as Hmm. assert (Hc : valid_task c) by (apply (mi_dom _ _ _ _ Hmm); eauto).
  assert (Hnb2 : newborn code j0 c fs v μ pid s').
  2:{ apply HR; [|done| |done].
      - split; [done|done|done|apply Hsw|apply Hsw|split; by vm_compute|apply Hsw].
      - rewrite (sw_eip _ _ _ _ Hsw), (nb_esp _ _ _ _ (nw_stack _ _ _ _ _ _ _ _ Hnb2)).
        exact (nb_eip _ _ _ _ (nw_stack _ _ _ _ _ _ _ _ Hnb2)). }
  - eapply (newborn_by code j0 (λ x, cell_bytes kernel_cell x ∨ stack_bytes (p_run σ) x)); [done|done|exact (sw_mem _ _ _ _ Hsw)|..|exact Hnb1].
    + intros x Hx [Hy|Hy]; [by apply (cells_stack c x)|by apply (stack_apart c (p_run σ) x)].
    + intros x Hx [Hy|Hy]; [eapply (cell_not_plain c f_PID); [done|solve_field|exact Hx|exact Hy]|].
      eapply (stack_field (p_run σ) c f_PID x); [done|done|unfold data_field; solve_field|done|done].
    + intros va Hva Hy. destruct (upa_frame code σ data s0 c fs va Hmm Hfs Hva) as (g & Eg & Ho & Ha & _).
      pose proof (frame_bytes_high g (upa code fs va) Ha) as Hhi. rewrite Eg in Hhi, Hy.
      pose proof (task_addr_window (p_run σ) Hrun). destruct Hy as [(d & Hd & Hy)|Hy].
      * pose proof (cell_range _ Hd). unfold frame_bytes, in_range, PAGE_SIZE in *. lia.
      * unfold stack_bytes, frame_bytes, in_range, f_kernel_esp, sizeof_task_struct, PAGE_SIZE in *. lia.
Qed.
End Loop.

Lemma clock_ticks_app n m s R :
  wp (clock_ticks n) s (λ _ s', wp (clock_ticks m) s' R) → wp (clock_ticks (n + m)) s R.
Proof.
  revert s. induction n as [|n IH]; intros s; cbn [clock_ticks Nat.add]; [done|]. intros Hw. apply wp_bind. unfold wp, bind in Hw |- *.
  destruct (int_enter clock_addr None s) as [[] sa|]; [|done].
  destruct (clock_handler ra zeos_show_clock sa) as [[] sb|]; [|done]. by apply IH.
Qed.

(** ** From the image to the two processes *)

Context (E : idt_env) (addr_tss : Z) (Hhandlers : ∀ s, wp (set_handlers E) s (λ _ s', ∃ t, s' = with_idt t s)).
Context (junk handler : Z) (U : user_layout).

(** The user program of the image has the bytes [t] at the address [va]. *)
Record has_text (s : kstate) (va : Z) (t : list Z) : Prop := {
  ht_start : L_USER_START ≤ va;
  ht_size : va - L_USER_START + Z.of_nat (length t) ≤ usr_size_of s;
  ht_stack : va + Z.of_nat (length t) ≤ USER_ESP ∨ L_USER_START + NUM_PAG_DATA * PAGE_SIZE ≤ va;
  ht_bytes : ∀ i b, t !! i = Some b → load8 (k_mem s) (KERNEL_START + sys_size_of s + (va - L_USER_START + Z.of_nat i)) = b;
}.

Lemma text_loaded code dat s s1 va t :
  image_ok s → user_mode (boot_table boot_kids) code {[1 := dat]} KERNEL_STACK_SIZE s1 → program_loaded s s1 → has_text s va t →
  ubytes (u_mem (observe (boot_table boot_kids) code dat s1)) va (Z.of_nat (length t)) = t.
Proof.
  intros Hio Hum Hpl [H1 H2 H3 H4]. unfold ubytes. apply list_eq. intros i. rewrite list_lookup_fmap.
  destruct (decide (i < length t)%nat) as [Hi|Hi].
  2:{ rewrite lookup_seqZ_ge by lia. by rewrite lookup_ge_None_2 by lia. }
  rewrite lookup_seqZ_lt by lia. destruct (lookup_lt_is_Some_2 t i Hi) as [b Hb]. rewrite Hb. cbn [fmap option_fmap option_map].
  f_equal. rewrite Z.add_0_l. unfold observe. cbn [u_mem]. pose proof (io_user _ Hio) as Hus.
  destruct (Hpl (va - L_USER_START + Z.of_nat i)) as (pa & Ht & Hl).
  - lia.
  - unfold USER_ESP, L_USER_START, NUM_PAG_DATA, PAGE_SIZE in *. lia.
  - rewrite (H4 i b Hb) in Hl. replace (L_USER_START + (va - L_USER_START + Z.of_nat i)) with (va + Z.of_nat i) in Ht by lia.
    destruct (upa_read (boot_table boot_kids) code dat {[1 := dat]} KERNEL_STACK_SIZE (lookup_singleton_eq 1 dat) s1
      (va + Z.of_nat i) Hum) as (Eu & _); [unfold in_user, L_USER_START in *; lia|].
    rewrite (um_cr3 _ _ _ _ _ Hum) in Eu. change (dir_addr (p_run (boot_table boot_kids))) with (dir_addr 1) in Eu.
    rewrite Ht in Eu. injection Eu as <-. exact Hl.
Qed.

(** The process tables after boot and after the program's fork. *)
Definition booted_table : ptable := boot_table boot_kids.
Definition forked_table : ptable := fork_table 2 (seqZ 3 7) [] booted_table.

(** Process 1 in its loop: it has greeted, its identifier is in [buff], and
    its child is ready. *)
Record parent_loops (s1 s2 : kstate) (code dat fs : list Z) (s0 : kstate) (a0 a ac : ustate) : Prop := {
  pa_view : view forked_table code dat (<[2 := fs]> {[1 := dat]}) KERNEL_STACK_SIZE s0 a s2;
  pa_console : k_console s2 = show greeting (k_console s1);
  pa_buff : buff_text U a = decimal 1;
  pa_fork : at_fork a0 ac;
  pa_esp : esp (u_regs a0) = USER_ESP;
  pa_child : newborn code KERNEL_STACK_SIZE 2 fs (w_eax 2 (u_regs ac)) (u_mem ac) 3 s0;
  pa_inv : kernel_inv forked_table code (<[2 := fs]> {[1 := dat]}) s0;
  pa_pid : k_last_pid s0 = 3;
  pa_quantum : k_quantum_ticks s0 = 100;
}.

Lemma wp_boot_and_fork s (R : kstate → kstate → Prop) :
  image_ok s → placed U USER_ESP → has_text s (ul_greeting U) greeting →
  (∀ s1 s2 code dat fs s0 a0 a ac, parent_loops s1 s2 code dat fs s0 a0 a ac → R s1 s2) →
  wp (main E addr_tss) s (λ _ s1, wp (user_main junk handler U) s1 (λ _ s2, R s1 s2)).
Proof.
  intros Hio Hpl Htx HR. apply wp_main; [exact Hhandlers|exact Hio|].
  intros s1 code dat Hum _ _ Hesp _ _ _ Hq Hlp Hld _.
  assert (Hd : ({[1 := dat]} : gmap Z (list Z)) !! p_run (boot_table boot_kids) = Some dat) by apply lookup_singleton_eq.
  pose proof (view_observe _ _ dat _ _ s1 s1 Hum (kept_refl _ _ _)) as Hv.
  pose proof (text_loaded _ _ _ _ _ _ Hio Hum Hld Htx) as Hg. set (a0 := observe _ _ _ s1) in *.
  assert (Hlen : Z.of_nat (length greeting) = 11) by (vm_compute; reflexivity). rewrite Hlen in Hg.
  assert (Hp : u_pid a0 = 1).
  { pose proof (um_inv _ _ _ _ _ Hum) as Hinv. assert (Hv1 : valid_task 1) by done.
    assert (Hf : 1 ∉ p_free (boot_table boot_kids)) by (by apply (bool_decide_unpack _)).
    pose proof (sc_pids _ _ (proj1 (ki_sched _ _ _ _ Hinv)) 1 Hv1 Hf) as H1.
    pose proof (pi_pos _ _ (ki_pid _ _ _ _ Hinv) 1 Hv1 Hf ltac:(lia)) as H2.
    change (u_pid a0) with (pid_of (k_mem s1) 1). lia. }
  assert (Hj : sizeof_task_struct + 88 ≤ 4 * KERNEL_STACK_SIZE) by (unfold sizeof_task_struct, KERNEL_STACK_SIZE; lia).
  assert (Efree : p_free (boot_table boot_kids) = 2 :: seqZ 3 7) by reflexivity.
  assert (Hks : p_kids (boot_table boot_kids) !! p_run (boot_table boot_kids) = Some []) by reflexivity.
  apply (wp_user_main_forks junk handler U _ code dat _ _ s1 Hd Hj a0 s1 2 (seqZ 3 7) []); [exact Hv| |exact Hg|exact Efree|exact Hks|rewrite Hlp; lia|].
  { change (esp (u_regs a0)) with (esp (k_regs s1)). by rewrite Hesp. }
  rewrite Hlp. intros fs ac s2 a s3 pid σ' H3 B3 T3 C3 Haf Hnb Hinv2 Hlp2 Hq2.
  apply (HR s1 s3 code dat fs s2 a0 a ac). split.
  - exact H3.
  - rewrite (v_console _ _ _ _ _ _ _ _ H3). exact C3.
  - rewrite T3, Hp. reflexivity.
  - exact Haf.
  - exact Hesp.
  - exact Hnb.
  - exact Hinv2.
  - exact Hlp2.
  - by rewrite Hq2.
Qed.

(** The last interrupt of the quantum, and the child. *)
Lemma wp_ticks_and_child s1 s2 code dat fs s0 a0 a ac (R : kstate → kstate → Prop) :
  placed U USER_ESP → parent_loops s1 s2 code dat fs s0 a0 a ac →
  (∀ s3 s4 s5 b, eip (k_regs s3) = addr_ret_from_fork → preempted (u_regs a) 1 s3 →
     view (rotate forked_table) code fs (<[2 := fs]> {[1 := dat]}) (KERNEL_STACK_SIZE - 1) s5 b s4 →
     u_pid b = 3 → buff_text U b = decimal 3 → k_console s4 = k_console s3 → R s3 s4) →
  wp (clock_ticks 101) s2 (λ _ s3, wp (child_main junk handler U) s3 (λ _ s4, R s3 s4)).
Proof.
  intros Hpl [Hv _ _ Haf Hesp Hnb Hinv Hlp Hq] HR. pose proof (v_mode _ _ _ _ _ _ _ _ Hv) as Hum.
  destruct (v_kept _ _ _ _ _ _ _ _ Hv) as [Km Kp Kq].
  assert (Hd : (<[2 := fs]> {[1 := dat]} : gmap Z (list Z)) !! p_run forked_table = Some dat)
    by (rewrite lookup_insert_ne by done; apply lookup_singleton_eq).
  assert (Hd2 : (<[2 := fs]> {[1 := dat]} : gmap Z (list Z)) !! 2 = Some fs) by apply lookup_insert_eq.
  assert (Hready : p_ready forked_table = 2 :: []) by reflexivity.
  assert (Hj : sizeof_task_struct + 108 ≤ 4 * KERNEL_STACK_SIZE) by (unfold sizeof_task_struct, KERNEL_STACK_SIZE; lia).
  assert (Hl0 : k_last_pid s0 < 100) by (rewrite Hlp; lia).
  assert (Hloop : looping forked_table code dat (<[2 := fs]> {[1 := dat]}) KERNEL_STACK_SIZE s0 (u_regs a) s2).
  { split; [exact Hum|exact (v_regs _ _ _ _ _ _ _ _ Hv)|exact Km|exact Kp]. }
  apply (clock_ticks_app 100 1).
  apply (wp_clock_ticks forked_table code dat (<[2 := fs]> {[1 := dat]}) KERNEL_STACK_SIZE s0 (u_regs a) Hj Hl0 2 [] Hready 100 0);
    [exact Hloop|lia|lia|rewrite Kq, Hq; reflexivity|].
  intros s3 Hloop3 Hq3.
  apply (wp_clock_switch forked_table code dat (<[2 := fs]> {[1 := dat]}) KERNEL_STACK_SIZE s0 (u_regs a) Hd Hj Hl0 2 [] Hready fs (w_eax 2 (u_regs ac)) (u_mem ac) 3 KERNEL_STACK_SIZE);
    [exact Hloop3|exact Hq3|exact Hinv|lia|exact Hd2|cbn; lia|by vm_compute|by vm_compute|exact Hnb|].
  intros s4 Hfs Hnb4 Heip Hpre. rewrite <- Hesp in Hpl.
  apply (wp_child_main junk handler U (rotate forked_table) (<[2 := fs]> {[1 := dat]}) code 2 fs KERNEL_STACK_SIZE (KERNEL_STACK_SIZE - 1) a0 ac 3);
    [exact Hfs|exact Hd2|exact Hnb4|exact Haf|exact Hpl|by vm_compute..|].
  intros s5 b s6 H6 _ Hp6 T6 C6. apply (HR s4 s6 s5 b); [exact Heip|exact Hpre|exact H6|exact Hp6|exact T6|].
  by rewrite (v_console _ _ _ _ _ _ _ _ H6).
Qed.

(** C3. The whole system.  From the image in memory main boots the kernel; the
    user program then prints its greeting, forks and stores its identifier 1
    in its buffer, and loops.  After a quantum of 100 more interrupts the next
    one gives the processor to the child, which arrives in ret_from_fork,
    returns from the same fork with 0 and stores its own identifier, 3, in its
    own buffer, while the parent's state is kept for when it is resumed.  No
    step of this run faults. *)
Theorem system_runs s :
  image_ok s → placed U USER_ESP → has_text s (ul_greeting U) greeting →
  ∃ s1 s2 s3 s4 code dat fs s0 s5 a b,
    main E addr_tss s = Ret tt s1 ∧ user_main junk handler U s1 = Ret tt s2 ∧
    clock_ticks 101 s2 = Ret tt s3 ∧ child_main junk handler U s3 = Ret tt s4 ∧
    k_console s2 = show greeting (k_console s1) ∧
    view forked_table code dat (<[2 := fs]> {[1 := dat]}) KERNEL_STACK_SIZE s0 a s2 ∧ buff_text U a = decimal 1 ∧
    eip (k_regs s3) = addr_ret_from_fork ∧ preempted (k_regs s2) 1 s3 ∧
    view (rotate forked_table) code fs (<[2 := fs]> {[1 := dat]}) (KERNEL_STACK_SIZE - 1) s5 b s4 ∧
    u_pid b = 3 ∧ buff_text U b = decimal 3.
Proof.
  intros Hio Hpl Htx.
  pose proof (wp_boot_and_fork s (λ s1 s2, ∃ code dat fs s0 a0 a ac, parent_loops s1 s2 code dat fs s0 a0 a ac) Hio Hpl Htx) as H0.
  destruct (wp_elim (main E addr_tss) s _ (H0 ltac:(intros s1 s2 c d f s0 a0 a ac H; by exists c, d, f, s0, a0, a, ac)))
    as ([] & s1 & E1 & H1).
  destruct (wp_elim _ _ _ H1) as ([] & s2 & E2 & code & dat & fs & s0 & a0 & a & ac & Hpa).
  pose proof (wp_ticks_and_child s1 s2 code dat fs s0 a0 a ac (λ s3 s4, ∃ s5 b,
    eip (k_regs s3) = addr_ret_from_fork ∧ preempted (u_regs a) 1 s3 ∧
    view (rotate forked_table) code fs (<[2 := fs]> {[1 := dat]}) (KERNEL_STACK_SIZE - 1) s5 b s4 ∧
    u_pid b = 3 ∧ buff_text U b = decimal 3) Hpl Hpa) as H2.
  destruct (wp_elim (clock_ticks 101) s2 _ (H2 ltac:(intros s3 s4 s5 b ? ? ? ? ? _; by exists s5, b))) as ([] & s3 & E3 & H3).
  destruct (wp_elim _ _ _ H3) as ([] & s4 & E4 & s5 & b & H4 & H5 & H6 & H7 & H8).
  exists s1, s2, s3, s4, code, dat, fs, s0, s5, a, b. rewrite (v_regs _ _ _ _ _ _ _ _ (pa_view _ _ _ _ _ _ _ _ _ Hpa)).
  split_and!; [exact E1|exact E2|exact E3|exact E4|exact (pa_console _ _ _ _ _ _ _ _ _ Hpa)|exact (pa_view _ _ _ _ _ _ _ _ _ Hpa)|
    exact (pa_buff _ _ _ _ _ _ _ _ _ Hpa)|exact H4|exact H5|exact H6|exact H7|exact H8].
Qed.
End Run.
