(* ===== verification/Idle.v ===== *)
(** cpu_idle of sched.c: the idle task turns interrupts on and loops in the
    kernel.  The clock interrupts it there, without a change of stack. *)

From S2P Require Import Prelude Memory CList Libc Console Frames Types Kernel Task Paging Utils Switch.
From S2P Require Import Sched Policy Space Process Sys Tick Block Exit Write Entry Calls Interrupt Irq Wrappers Leave Spawn Cdecl User Run.
#[local] Open Scope Z_scope.

(** Up to [while(1)]. *)
Definition cpu_idle : K unit :=
  upd_regs (λ r, w_eflags (Z.lor (eflags r) IF_FLAG) r).

Section Idle.
Context {L : Layout}.
Context {LO : LayoutOk L}.

(** The words of an interrupt in the kernel. *)
Definition irq_words (u : regs) (ra : Z) : list Z :=
  [eflags u; cs u; eip u; gs u; fs u; es u; ds u; eax u; ebp u; edi u; esi u; ebx u; ecx u; edx u; ra; ebp u].

Definition irq_regs (u : regs) (handler : Z) : regs :=
  MkRegs (Z.lor (Z.ldiff (eax u) 0xff) 0x20) (ebx u) (ecx u) KERNEL_DS (esi u) (edi u) (esp u - 64) (esp u - 64) handler
    (Z.ldiff (eflags u) IF_FLAG) KERNEL_CS (ss u) KERNEL_DS KERNEL_DS (fs u) (gs u).

Section Frame.
Context (u : regs) (ra handler : Z) (Hra : 0 ≤ ra < 2 ^ 32) (Hu : kernel_ok u).
Context (Hlo : KERNEL_LO ≤ esp u - 64) (Hhi : esp u ≤ KERNEL_HI).
Let T : Z := esp u.

Lemma wp_irq_enter service (rest : bool → K unit) s R :
  k_regs s = u →
  (∀ m, stacked m T (irq_words u ra) → frame (in_range (T - 64) 64) (k_mem s) m →
     wp (let! here := get_reg eip in
         service ;!
         let! there := get_reg eip in
         if here =? there then leave ;! retn ;! ret true else ret false)
       (with_mem m (with_regs (irq_regs u handler) (acked s))) (λ b s', wp (rest b) s' R)) →
  wp (int_enter handler None ;! SAVE_ALL ;! EOI ;! let! b := call_isr ra service in rest b) s R.
Proof.
  intros Er HR. destruct Hu as [Hw Hs Hc].
  assert (W : ∀ r, r ∈ [gs; fs; es; ds; eax; ebp; edi; esi; ebx; ecx; edx; eip; eflags] → 0 ≤ r u < 2 ^ 32).
  { intros r Hr. repeat (apply Forall_cons in Hw as [? Hw]). repeat (apply Forall_cons in Hs as [? Hs]).
    set_unfold in Hr. destruct_or! Hr; subst r; lia. }
  unfold int_enter. apply wp_bind, wp_bind, wp_gets, wp_bind, wp_gets. rewrite Er, Hc.
  change (ring KERNEL_CS =? 3) with false. apply wp_bind, wp_ret.
  apply wp_bind, (wp_push_stacked T []); [rewrite Er; cbn; lia|apply stacked_nil|apply W; set_solver|cbn; lia|done|].
  intros m1 S1 F1. rewrite Er. cbn [app] in *.
  apply wp_bind, (wp_push_stacked T [eflags u]); kred; [done|done|by vm_compute|cbn; lia|done|]. intros m2 S2 F2. cbn [app] in *.
  apply wp_bind, (wp_push_stacked T [eflags u; KERNEL_CS]); kred; [done|done|apply W; set_solver|cbn; lia|done|].
  intros m3 S3 F3. cbn [app] in *. kred. apply wp_bind, wp_ret, wp_bind, wp_modify, wp_bind, wp_modify, wp_modify. kred.
  apply wp_bind, (wp_SAVE_ALL T [eflags u; KERNEL_CS; eip u]); kred;
    [done|done|repeat constructor; cbn; apply W; set_solver|cbn; lia|done|].
  cbv zeta. kred. intros m4 S4 F4. cbn [app] in S4.
  replace (T - 4 * Z.of_nat (length [eflags u; KERNEL_CS; eip u]) - 44) with (T - 56) in * by (cbn; lia).
  apply wp_bind, wp_out_al; [lia|]. kred. set (V := [_; _; _; _; _; _; _; _; _; _; _; _; _; _]) in S4.
  apply wp_bind. unfold call_isr. apply wp_bind, (wp_push_stacked T V); kred; [cbn; lia|done|done|cbn; lia|done|]. intros m5 S5 F5.
  unfold enter. apply wp_bind, wp_bind, wp_bind, wp_gets. kred.
  apply (wp_push_stacked T (V ++ [ra])); kred; [done|done|apply W; set_solver|cbn; lia|done|]. intros m6 S6 F6.
  apply wp_bind, wp_gets, wp_modify. kred.
  replace (T - 4 * Z.of_nat (length ((V ++ [ra]) ++ [ebp u]))) with (T - 64) by (cbn; lia).
  assert (S6' : stacked m6 T (irq_words u ra)) by (unfold irq_words; rewrite Hc; exact S6). apply (HR m6 S6').
  eapply frame_trans; [eapply frame_weaken; [|exact F1]; intros x; unfold in_range; cbn; lia|].
  eapply frame_trans; [eapply frame_weaken; [|exact F2]; intros x; unfold in_range; cbn; lia|].
  eapply frame_trans; [eapply frame_weaken; [|exact F3]; intros x; unfold in_range; cbn; lia|].
  eapply frame_trans; [eapply frame_weaken; [|exact F4]; intros x; unfold in_range; lia|].
  eapply frame_trans; (eapply frame_weaken; [|eassumption]); intros x; unfold in_range; cbn; lia.
Qed.

(** The next word is popped. *)
Ltac irq_pop T := apply wp_pop_reg; kred; [lia|lia|];
  repeat match goal with |- context [T - ?a + 4] => let b := eval vm_compute in (a - 4) in replace (T - a + 4) with (T - b) by lia end.

(** [leave], [ret], RESTORE_ALL and iret give all the registers back. *)
Lemma wp_irq_return s R :
  stacked (k_mem s) T (irq_words u ra) → k_regs s = irq_regs u handler →
  R tt (with_regs u s) → wp handler_rest s R.
Proof.
  intros Hst Er HR. destruct Hu as [_ Hs Hc]. repeat (apply Forall_cons in Hs as [? Hs]). clear Hs.
  assert (E1 : u16 (ds u) = ds u ∧ u16 (es u) = es u ∧ u16 (fs u) = fs u ∧ u16 (gs u) = gs u ∧ u16 (cs u) = cs u).
  { rewrite Hc. unfold u16. rewrite !Z.mod_small by (lia || (split; by vm_compute)). done. }
  destruct E1 as (D1 & D2 & D3 & D4 & D5).
  assert (L0 : load32 (k_mem s) (T - 4) = eflags u) by exact (Hst 0%nat _ eq_refl). assert (L1 : load32 (k_mem s) (T - 8) = cs u) by exact (Hst 1%nat _ eq_refl).
  assert (L2 : load32 (k_mem s) (T - 12) = eip u) by exact (Hst 2%nat _ eq_refl). assert (L3 : load32 (k_mem s) (T - 16) = gs u) by exact (Hst 3%nat _ eq_refl).
  assert (L4 : load32 (k_mem s) (T - 20) = fs u) by exact (Hst 4%nat _ eq_refl). assert (L5 : load32 (k_mem s) (T - 24) = es u) by exact (Hst 5%nat _ eq_refl).
  assert (L6 : load32 (k_mem s) (T - 28) = ds u) by exact (Hst 6%nat _ eq_refl). assert (L7 : load32 (k_mem s) (T - 32) = eax u) by exact (Hst 7%nat _ eq_refl).
  assert (L8 : load32 (k_mem s) (T - 36) = ebp u) by exact (Hst 8%nat _ eq_refl). assert (L9 : load32 (k_mem s) (T - 40) = edi u) by exact (Hst 9%nat _ eq_refl).
  assert (L10 : load32 (k_mem s) (T - 44) = esi u) by exact (Hst 10%nat _ eq_refl). assert (L11 : load32 (k_mem s) (T - 48) = ebx u) by exact (Hst 11%nat _ eq_refl).
  assert (L12 : load32 (k_mem s) (T - 52) = ecx u) by exact (Hst 12%nat _ eq_refl). assert (L13 : load32 (k_mem s) (T - 56) = edx u) by exact (Hst 13%nat _ eq_refl).
  assert (L15 : load32 (k_mem s) (T - 64) = ebp u) by exact (Hst 15%nat _ eq_refl).
  clear Hst Hu. fold T in Hlo, Hhi.
  unfold handler_rest, leave, retn. apply wp_bind, wp_bind, wp_gets, wp_bind, wp_modify. rewrite Er. unfold irq_regs. fold T. kred.
  irq_pop T. rewrite L15. apply wp_bind. irq_pop T. apply wp_bind. unfold RESTORE_ALL.
  apply wp_bind. irq_pop T. rewrite L13. apply wp_bind. irq_pop T. rewrite L12. apply wp_bind. irq_pop T. rewrite L11.
  apply wp_bind. irq_pop T. rewrite L10. apply wp_bind. irq_pop T. rewrite L9. apply wp_bind. irq_pop T. rewrite L8.
  apply wp_bind. irq_pop T. rewrite L7. apply wp_bind. irq_pop T. rewrite L6, D1. apply wp_bind. irq_pop T. rewrite L5, D2.
  apply wp_bind. irq_pop T. rewrite L4, D3. irq_pop T. rewrite L3, D4. unfold iret.
  apply wp_bind. irq_pop T. rewrite L2. apply wp_bind. irq_pop T. rewrite L1, D5. apply wp_bind. irq_pop T. rewrite L0.
  apply wp_bind, wp_gets. kred. rewrite Hc. change (ring KERNEL_CS =? 3) with false. apply wp_ret.
  replace (T - 0) with (esp u) by (unfold T; lia). rewrite <- Hc. by destruct u, s.
Qed.
End Frame.

(** ** Waiting *)

(** The idle task has the processor, with the registers [u], and no process is
    ready. *)
Record idling (σ : ptable) (code : list Z) (data : gmap Z (list Z)) (u : regs) (s : kstate) : Prop := {
  id_inv : kernel_inv σ code data s;
  id_run : p_run σ = 0;
  id_ready : p_ready σ = [];
  id_regs : k_regs s = u;
  id_ok : kernel_ok u;
  id_room : task_addr 0 + sizeof_task_struct + 100 ≤ esp u ≤ task_addr 0 + PAGE_SIZE;
}.

Lemma idle_window σ code data u s : idling σ code data u s → KERNEL_LO ≤ esp u - 64 ∧ esp u ≤ KERNEL_HI.
Proof.
  intros [_ _ _ _ _ Hr]. assert (H0 : valid_task 0) by done. pose proof (task_addr_window 0 H0).
  unfold sizeof_task_struct, KERNEL_LO, KERNEL_START in *. lia.
Qed.

Lemma idling_on σ code data u s : idling σ code data u s →
  idling σ code data (w_eflags (Z.lor (eflags u) IF_FLAG) u) (with_regs (w_eflags (Z.lor (eflags u) IF_FLAG) u) s).
Proof.
  intros [H1 H2 H3 H4 [Hw Hs Hc] H6]. split; [by apply kernel_inv_regs|exact H2|exact H3|done| |exact H6].
  repeat (apply Forall_cons in Hs as [? Hs]). repeat (apply Forall_cons in Hw as [? Hw]).
  split; [|repeat constructor; cbn; lia|exact Hc]. repeat constructor; cbn; try lia.
  - apply Z.lor_nonneg. unfold IF_FLAG. lia.
  - destruct (decide (Z.lor (eflags u) IF_FLAG = 0)) as [->|Hne]; [lia|].
    assert (0 ≤ Z.lor (eflags u) IF_FLAG) by (apply Z.lor_nonneg; unfold IF_FLAG; lia).
    apply Z.log2_lt_pow2; [lia|]. rewrite Z.log2_lor by (unfold IF_FLAG; lia).
    change (Z.log2 IF_FLAG) with 9. destruct (decide (eflags u = 0)) as [->|]; [by vm_compute|].
    assert (Z.log2 (eflags u) < 32) by (apply Z.log2_lt_pow2; lia). lia.
Qed.

Context (clock_addr ra : Z) (zeos_show_clock : Z → M console unit) (Hra : 0 ≤ ra < 2 ^ 32).
Context (Hclk : ∀ t k, cursor_ok k → wp (zeos_show_clock t) k (λ _ k', cursor_ok k')).

(** One interrupt of the clock. *)
Lemma wp_idle_tick σ code data u s R :
  idling σ code data u s →
  (∀ s', idling σ code data u s' → k_zeos_ticks s' = s32 (k_zeos_ticks s + 1) →
     frame (in_range (esp u - 64) 64) (k_mem s) (k_mem s') → R tt s') →
  wp (int_enter clock_addr None ;! clock_handler ra zeos_show_clock) s R.
Proof.
  intros Hid HR. destruct (idle_window _ _ _ _ _ Hid) as [Hlo Hhi]. pose proof Hid as [Hinv Hrun Hready Hr Hok Hroom].
  assert (H0 : valid_task 0) by done.
  unfold clock_handler. eapply (wp_irq_enter u ra clock_addr Hra Hok Hlo Hhi); [exact Hr|]. intros m S F.
  set (s1 := with_mem m _).
  assert (Hinv1 : kernel_inv σ code data s1).
  { unfold s1. rewrite <- (with_console_same (with_mem _ _)).
    eapply (kernel_inv_scratch _ _ _ (with_regs (irq_regs u clock_addr) (acked s))); [by apply kernel_inv_regs, kernel_inv_acked| | | |exact F|apply Hinv];
      rewrite ?Hrun; unfold sizeof_task_struct in *; lia. }
  assert (Hq : 0 ≤ tick_quantum σ (k_quantum_ticks s1) (quantum_of (k_mem s1) (p_run σ))).
  { unfold tick_quantum. rewrite Hready, Hrun. pose proof (ki_sched _ _ _ _ Hinv1) as [Hc Hno].
    pose proof (sc_quantum _ _ Hc 0 H0) as Hqu. assert (Hf : 0 ∉ p_free σ).
    { intros Hx. apply Hno. rewrite Hrun. by apply (queued_q _ Free). }
    specialize (Hqu Hf). rewrite s32_small by lia. lia. }
  assert (Hcpu : cpu_ok (p_run σ) s1).
  { rewrite Hrun. destruct Hok as [Hw _ _]. repeat (apply Forall_cons in Hw as [? Hw]). split.
    - split; [done|]. unfold s1, irq_regs. kred. unfold sizeof_task_struct in *. lia.
    - unfold s1, irq_regs, regs_ok. kred. unfold KERNEL_LO, KERNEL_HI in *. split_and!; lia. }
  apply wp_bind, wp_gets, wp_bind, (wp_clock_service zeos_show_clock σ code data); [exact Hclk|exact Hinv1|exact Hcpu| | |lia].
  { unfold tick_fits. by destruct (Z.leb_spec 0 (tick_quantum σ (k_quantum_ticks s1) (quantum_of (k_mem s1) (p_run σ)))); [|lia]. }
  intros _ k. cbv zeta. intros Hinv2. apply wp_bind, wp_gets. set (s2 := with_quantum_ticks _ _) in *.
  change (eip (k_regs s2)) with (eip (k_regs s1)). rewrite Z.eqb_refl.
  assert (Hrest : wp handler_rest s2 (λ _ s', s' = with_regs u s2)).
  { eapply (wp_irq_return u ra clock_addr Hok Hlo Hhi s2); [exact S|done|done]. }
  unfold handler_rest in Hrest. unfold wp, bind in Hrest |- *.
  destruct (leave s2) as [[] sa|]; [|done]. destruct (retn sa) as [[] sb|]; [|done]. cbn [ret when].
  destruct (RESTORE_ALL sb) as [[] sc|]; [|done]. destruct (iret sc) as [[] sd|]; [|done]. subst sd.
  apply HR; [|done|exact F]. split; [exact (kernel_inv_regs _ _ _ _ u Hinv2)|done..].
Qed.

(** Once no process is ready, cpu_idle turns the interrupts on, and after any
    number of clock interrupts the idle task is in its loop with the same
    registers: the process table has not changed, so no blocked process has
    been woken, and only the words below the idle task's stack pointer were
    written. *)
Lemma wp_idle_ticks σ code data u n s R :
  idling σ code data u s →
  (∀ s', idling σ code data u s' → s32 (k_zeos_ticks s') = s32 (k_zeos_ticks s + Z.of_nat n) →
     frame (in_range (esp u - 64) 64) (k_mem s) (k_mem s') → R tt s') →
  wp (clock_ticks clock_addr ra zeos_show_clock n) s R.
Proof.
  revert s. induction n as [|n IH]; intros s Hid HR; cbn [clock_ticks].
  - apply wp_ret, HR; [done|f_equal; lia|apply frame_refl].
  - apply wp_bind, (wp_idle_tick σ code data u); [done|]. intros s1 H1 T1 F1.
    apply IH; [done|]. intros s' H2 T2 F2. apply HR; [done| |by eapply frame_trans].
    rewrite T2, T1, s32_add. f_equal. lia.
Qed.

(** The state of the idle task after [n] interrupts. *)
Record waiting (n : nat) (σ : ptable) (code : list Z) (data : gmap Z (list Z)) (s s' : kstate) : Prop := {
  wt_idling : idling σ code data (k_regs s') s';
  wt_eip : eip (k_regs s') = addr_cpu_idle;
  wt_if : Z.testbit (eflags (k_regs s')) 9 = true;
  wt_ticks : s32 (k_zeos_ticks s') = s32 (k_zeos_ticks s + Z.of_nat n);
}.

Lemma wp_falls_idle n σ code data s s1 R :
  kernel_inv σ code data s1 → falls_idle s s1 → p_run σ = 0 → p_ready σ = [] →
  (∀ s', waiting n σ code data s s' → frame (stack_bytes 0) (k_mem s1) (k_mem s') → R tt s') →
  wp (cpu_idle ;! clock_ticks clock_addr ra zeos_show_clock n) s1 R.
Proof.
  intros Hinv [Hok Hip Hsp Ht Hp] Hrun Hready HR.
  assert (Hid : idling σ code data (k_regs s1) s1).
  { split; [done..|]. rewrite Hsp. unfold sizeof_task_struct, PAGE_SIZE. lia. }
  apply wp_bind, wp_modify. set (u := w_eflags _ _).
  apply (wp_idle_ticks σ code data u); [exact (idling_on _ _ _ _ _ Hid)|]. kred.
  intros s' H1 T1 F1. pose proof (id_regs _ _ _ _ _ H1) as Er. apply HR; [split|].
  - by rewrite Er.
  - by rewrite Er.
  - rewrite Er. unfold u. cbn [eflags w_eflags]. rewrite Z.lor_spec. change (Z.testbit IF_FLAG 9) with true. apply orb_true_r.
  - by rewrite T1, Ht.
  - eapply frame_weaken; [|exact F1]. intros x Hx. unfold u in Hx. cbn [esp w_eflags] in Hx. rewrite Hsp in Hx. right.
    unfold in_range, sizeof_task_struct, PAGE_SIZE in *. lia.
Qed.

(** ** The last process *)

Section Last.
Context (junk handler errno : Z) (Hh : handler ∉ [addr_cpu_idle; addr_ret_from_fork; addr_task_switch_ret]).
Context (σ : ptable) (code dat : list Z) (data : gmap Z (list Z)) (j : Z) (s0 : kstate).
Context (Hdat : data !! p_run σ = Some dat) (Hj : sizeof_task_struct + 108 ≤ 4 * j) (Hready : p_ready σ = []).

Lemma suspended_call_frame u i P s s' :
  suspended_call junk u i s → frame P (k_mem s) (k_mem s') → (∀ x, stack_bytes i x → ¬ P x) → suspended_call junk u i s'.
Proof. intros Hs Hf HP s2 Hk. apply Hs. intros x Hx. rewrite Hk by done. apply Hf. by apply HP. Qed.

Lemma block_table_idle :
  p_run (block_table σ) = 0 ∧ p_ready (block_table σ) = [] ∧ p_blocked (block_table σ) = p_blocked σ ++ [p_run σ].
Proof. unfold block_table, pick. cbn. by rewrite Hready. Qed.

(** C21. When nobody is left to run the system waits.  The ready queue is
    empty, the idle task has never run, and the running process, with 108
    bytes of its kernel stack free, leaves by exit, or by block with nothing
    pending.  Then the idle task starts in cpu_idle on its own stack and turns
    the interrupts on, and after any number of clock interrupts, with nothing
    else in between, it is there with the process table the call left; the
    clock has counted them (modulo 2^32).  So while only the clock interrupts,
    a process that blocks last is not woken, although it could be resumed: no
    tick puts it in the ready queue, and only a process can unblock it. *)
Theorem last_process_idles a s n :
  view σ code dat data j s0 a s → idle_start (k_mem s) 0 →
  (∃ s', (exit junk handler errno ;! cpu_idle ;! clock_ticks clock_addr ra zeos_show_clock n) s = Ret tt s' ∧
     waiting n (exit_table σ) code (delete (p_run σ) data) s s' ∧ p_run σ ∈ p_free (exit_table σ)) ∧
  (pending σ s = 0 → in_user (esp (u_regs a)) 4 → in_data errno 4 →
   ∃ s', (block junk handler errno ;! cpu_idle ;! clock_ticks clock_addr ra zeos_show_clock n) s = Ret tt s' ∧
     waiting n (block_table σ) code data s s' ∧ p_run σ ∈ p_blocked (block_table σ) ∧
     suspended_call junk (w_eax 5 (u_regs a)) (p_run σ) s').
Proof.
  intros Hv H0. pose proof (v_mode _ _ _ _ _ _ _ _ Hv) as Hum. destruct block_table_idle as (B1 & B2 & B3).
  assert (Hl : shows_pid s 0 = true).
  { unfold shows_pid. by rewrite (pi_idle _ _ (ki_pid _ _ _ _ (um_inv _ _ _ _ _ Hum))). }
  assert (Hnx : p_run (exit_table σ) = 0) by (unfold exit_table, pick; cbn; by rewrite Hready). split.
  - destruct (wp_elim (exit junk handler errno ;! cpu_idle ;! clock_ticks clock_addr ra zeos_show_clock n) s
      (λ _ s', waiting n (exit_table σ) code (delete (p_run σ) data) s s')) as ([] & s' & E & H).
    + apply wp_bind, (wp_exit junk handler errno Hh σ code dat data j s0 Hdat Hj a); [exact Hv|by rewrite Hnx|].
      intros s1 Hinv _ _ _ Hid.
      apply (wp_falls_idle n (exit_table σ) code (delete (p_run σ) data) s); [exact Hinv|by apply Hid| | |done];
        unfold exit_table, pick; cbn; by rewrite Hready.
    + exists s'. split; [exact E|]. split; [exact H|]. unfold exit_table, pick. cbn. rewrite Hready. cbn. apply elem_of_app. right. by apply list_elem_of_singleton.
  - intros Hp Hin Herr.
    destruct (wp_elim (block junk handler errno ;! cpu_idle ;! clock_ticks clock_addr ra zeos_show_clock n) s
      (λ _ s', waiting n (block_table σ) code data s s' ∧ suspended_call junk (w_eax 5 (u_regs a)) (p_run σ) s')) as ([] & s' & E & H1 & H2).
    + apply wp_bind, (wp_block junk handler errno Hh σ code dat data j s0 Hdat Hj a); [exact Hv|unfold block_fits; rewrite B1, Hl; apply orb_true_r|exact Hin|exact Herr|done|].
      intros _ s1 Hinv _ _ Hsc Hid. apply (wp_falls_idle n (block_table σ) code data s); [exact Hinv|by apply Hid|exact B1|exact B2|].
      intros s' Hw Hf. split; [exact Hw|]. eapply suspended_call_frame; [exact Hsc|exact Hf|]. intros x Hx Hy.
      by apply (stack_apart (p_run σ) 0 x); [exact (um_valid _ _ _ _ _ Hum)|done|exact (um_live _ _ _ _ _ Hum)|..].
    + exists s'. split_and!; [exact E|exact H1| |exact H2]. rewrite B3. apply elem_of_app. right. by apply list_elem_of_singleton.
Qed.
End Last.
End Idle.
