(* ===== verification/Witnesses.v ===== *)
(** Concrete instances of the theorems about the running kernel: the image of
    a small system is booted, forks once, and each theorem is applied to the
    state it is about. *)

From stdpp Require Import strings.
From S2P Require Import Prelude Memory CList Libc Console Frames Types Loader Bootsect Kernel Task Paging Utils Switch.
From S2P Require Import Sched Policy Space Process Init Sys Tick Block Fork ForkInv Exit Write Entry Calls.
From S2P Require Import Interrupt System Irq Reach Keyboard Build Disk Debug Fault Wrappers Spawn Leave Cdecl User Run Idle.

#[local] Open Scope Z_scope.
#[local] Existing Instance zeos_layout.
#[local] Existing Instance zeos_layout_ok.

(** ** Sample states *)

Definition boot_σ : ptable := boot_table boot_kids.
Definition forked_σ : ptable := fork_table 2 (seqZ 3 7) [] boot_σ.

(** The registers of a service of task 1, just entered. *)
Definition service_sample : regs :=
  w_ebp (stack_addr (task_addr 1) 1006) (w_esp (stack_addr (task_addr 1) 1006) regs_zero).

(** The registers of a user program that asks for system call [n]. *)
Definition user_sample (n : Z) : regs :=
  MkRegs n 1 2 3 4 5 6 USER_ESP usr_main 0x202 USER_CS USER_DS USER_DS USER_DS 0 0.

Record sample (σ : ptable) (data : gmap Z (list Z)) (u : regs) (s : kstate) : Prop := {
  sa_inv : ∃ code, kernel_inv σ code data s;
  sa_cr3 : k_cr3 s = dir_addr 1;
  sa_regs : k_regs s = u;
  sa_pid : 0 ≤ k_last_pid s < 10;
}.

Lemma sample_first u : ∃ s dat, sample boot_σ {[1 := dat]} u s ∧ k_last_pid s = 1 ∧ k_tss s = initial_tss ∧ idle_start (k_mem s) 0.
Proof.
  set (s0 := with_tss initial_tss (with_regs u kstate_image)).
  destruct (wp_elim init_kernel s0 (λ _ s, ∃ dat, sample boot_σ {[1 := dat]} u s ∧ k_last_pid s = 1 ∧ k_tss s = initial_tss ∧
    idle_start (k_mem s) 0)) as (_ & s & _ & dat & H); [|by exists s, dat].
  apply wp_init_kernel; [vm_compute; reflexivity|exact image_zero|by vm_compute|done|].
  intros s code dat Hinv Hcr3 _ Hlp Hregs Htss _ _ _ _ Hi. exists dat. split; [|done].
  split; [by exists code|done|done|rewrite Hlp; lia].
Qed.

Lemma sample_boot u : ∃ s dat, sample boot_σ {[1 := dat]} u s ∧ k_last_pid s = 1 ∧ k_tss s = initial_tss.
Proof. destruct (sample_first u) as (s & dat & H1 & H2 & H3 & _). by exists s, dat. Qed.

Lemma sample_room u s σ data : sample σ data u s → u = service_sample → cpu_ok 1 s ∧ on_stack s 1 ∧ has_cpu s 1.
Proof.
  intros [_ Hc Hr _] ->.
  assert (switch_room s 1) as Hroom by (unfold switch_room; rewrite Hr; by vm_compute).
  split; [|split; [by apply switch_room_on_stack|by split]].
  split; [done|]. unfold regs_ok. rewrite Hr. by vm_compute.
Qed.

(** Task 1 in a service, called from the system call handler. *)
Definition at_service (s : kstate) : kstate :=
  with_mem (store32 (k_mem s) (stack_addr (task_addr 1) 1007) addr_service_ret) (with_regs service_sample s).

Lemma sample_at_service u s dat :
  sample boot_σ {[1 := dat]} u s →
  sample boot_σ {[1 := dat]} service_sample (at_service s) ∧ service_frame (at_service s) 1 1006.
Proof.
  intros [[code Hinv] Hc Hr Hp]. unfold at_service. set (a := stack_addr (task_addr 1) 1007).
  split; [split; [|done..]|].
  - exists code. rewrite <- (with_console_same (with_mem _ _)).
    eapply (kernel_inv_scratch boot_σ code _ (with_regs service_sample s) _ a 4);
      [by apply kernel_inv_regs|by vm_compute|lia|by vm_compute| |].
    + by apply frame_store32.
    + apply (sc_console boot_σ s), Hinv.
  - split; [done|]. split_and!; [by vm_compute|by vm_compute|].
    change (stack_addr (task_addr 1) (1006 + 1)) with a. apply load32_store32_same. by vm_compute.
Qed.

Lemma sample_service : ∃ s dat, sample boot_σ {[1 := dat]} service_sample s ∧ k_last_pid s = 1 ∧ service_frame s 1 1006.
Proof.
  destruct (sample_boot regs_zero) as (s & dat & Hs & Hlp & _). destruct (sample_at_service _ _ _ Hs) as [H1 H2].
  by exists (at_service s), dat.
Qed.

(** After its first fork: task 2 is ready. *)
Lemma sample_forks s dat :
  sample boot_σ {[1 := dat]} service_sample s → k_last_pid s = 1 → service_frame s 1 1006 →
  ∃ v s' fs, sys_fork s = Ret v s' ∧ sample forked_σ (<[2 := fs]> {[1 := dat]}) service_sample s' ∧
    pid_of (k_mem s') 2 = 3.
Proof.
  intros Hs Hlp Hf. destruct (sample_room _ _ _ _ Hs eq_refl) as (_ & Hon & _). pose proof Hs as [[code Hinv] Hc Hr Hp].
  destruct (wp_elim sys_fork s (λ _ s', ∃ fs,
    sample forked_σ (<[2 := fs]> {[1 := dat]}) service_sample s' ∧ pid_of (k_mem s') 2 = 3))
    as (v & s' & E & fs & H1 & H2); [|by exists v, s', fs].
  eapply (wp_sys_fork boot_σ 2 (seqZ 3 7) [] code {[1 := dat]}); [done|done|exact Hinv|exact Hon|done|done|exact Hf|lia|].
  intros fs s' Hinv' Hres _. exists fs. split; [|rewrite (fr_pid _ _ _ _ _ _ _ Hres), Hlp; done].
  split; [by exists code|..].
  - by rewrite (fr_cr3 _ _ _ _ _ _ _ Hres).
  - by rewrite (fr_regs _ _ _ _ _ _ _ Hres).
  - rewrite (fr_last _ _ _ _ _ _ _ Hres), Hlp. by vm_compute.
Qed.

Lemma sample_fork : ∃ s dat fs, sample forked_σ (<[2 := fs]> {[1 := dat]}) service_sample s ∧ pid_of (k_mem s) 2 = 3.
Proof.
  destruct sample_service as (s & dat & Hs & Hlp & Hf). destruct (sample_forks s dat Hs Hlp Hf) as (v & s' & fs & _ & H1 & H2).
  by exists s', dat, fs.
Qed.

(** A user program of task 1 about to make system call [n]. *)
Lemma sample_user n : 0 ≤ n < 2 ^ 32 →
  ∃ s code dat, user_mode boot_σ code {[1 := dat]} KERNEL_STACK_SIZE s ∧ k_regs s = user_sample n ∧ k_last_pid s = 1.
Proof.
  intros Hn. destruct (sample_boot (user_sample n)) as (s & dat & [[code Hinv] Hc Hr _] & Hlp & Ht).
  exists s, code, dat. split; [|done]. split; [exact Hinv| |by rewrite Ht|by vm_compute|exact Hc|done].
  rewrite Hr. split; [|by repeat constructor|done]. repeat constructor; cbn; lia || by vm_compute.
Qed.

(** The same with task 2 forked and [q] ticks left. *)
Lemma sample_quantum q :
  ∃ s code dat fs, kernel_inv forked_σ code (<[2 := fs]> {[1 := dat]}) s ∧ cpu_ok 1 s ∧ has_cpu s 1 ∧ pid_of (k_mem s) 2 = 3 ∧
    k_quantum_ticks s = q.
Proof.
  destruct sample_fork as (s & dat & fs & Hs & Hpid). destruct (sample_room _ _ _ _ Hs eq_refl) as ([Hroom Hregs] & _ & Hcpu).
  destruct Hs as [[code Hinv] _ _ Hlp]. exists (with_quantum_ticks q s), code, dat, fs.
  split_and!; [by apply kernel_inv_quantum|by split|exact Hcpu|exact Hpid|done].
Qed.

(** ** Paging *)

(** A page of task 3 is mapped on frame 300, and taken away again. *)
Lemma page_tables_walk_witness :
  ∃ m m1 m2, set_ss_pag (pt_addr 3) 280 300 m = Ret tt m1 ∧ del_ss_pag (pt_addr 3) 280 m1 = Ret tt m2 ∧
    translate_user m1 (dir_addr 3) (280 * PAGE_SIZE + 5) true = Some (300 * PAGE_SIZE + 5) ∧
    translate_user m2 (dir_addr 3) (280 * PAGE_SIZE + 5) true = None.
Proof.
  destruct (sample_boot regs_zero) as (s & dat & [[code Hinv] _ _ _] & _).
  assert (Hd : ∀ j, valid_task j → dir_ok (k_mem s) j)
    by (intros j Hj; exact (proj1 (mi_space _ _ _ _ (ki_mm _ _ _ _ Hinv) j Hj))).
  destruct (page_tables_walk (k_mem s) 3 280 300) as [_ H].
  - unfold valid_task, NR_TASKS. lia.
  - unfold TOTAL_PAGES. lia.
  - lia.
  - destruct (H Hd) as (m1 & m2 & E1 & _ & E2 & _ & _ & Hw). destruct (Hw 5 true) as (_ & H1 & _ & H2); [unfold PAGE_SIZE; lia|].
    exists (k_mem s), m1, m2. split; [exact E1|]. split; [exact E2|]. split; [exact H1|exact H2].
Defined.

(** ** Scheduling *)

Lemma update_process_state_moves_witness :
  ∃ s σ1 m', qinv boot_σ (k_mem s) ∧ removed 3 boot_σ σ1 ∧
    update_process_state_rr (task_addr 3) (dest_addr (Some Ready)) s = Ret tt (with_mem m' s) ∧
    qinv (put (Some Ready) 3 σ1) m'.
Proof.
  destruct (sample_boot regs_zero) as (s & dat & [[code Hinv] _ _ _] & _).
  assert (Hq : qinv boot_σ (k_mem s)) by apply (ki_sched _ _ _ _ Hinv).
  destruct (update_process_state_moves boot_σ 3 (Some Ready) s Hq) as (σ1 & m' & H1 & H2 & H3 & _).
  - unfold valid_task, NR_TASKS. lia.
  - exists s, σ1, m'. split; [exact Hq|]. split; [exact H1|]. split; [exact H2|exact H3].
Defined.

Lemma scheduler_round_robin_witness :
  ∃ s s' code dat fs, kernel_inv forked_σ code (<[2 := fs]> {[1 := dat]}) s ∧ scheduler s = Ret tt s' ∧
    k_quantum_ticks s' = -1 ∧ kernel_inv (rotate forked_σ) code (<[2 := fs]> {[1 := dat]}) s' ∧
    p_run (rotate forked_σ) = 2.
Proof.
  destruct (sample_quantum 0) as (s & code & dat & fs & Hinv & Hcpu & _ & Hpid & Hq).
  destruct (scheduler_round_robin forked_σ code (<[2 := fs]> {[1 := dat]}) s Hinv Hcpu) as (_ & H & _).
  unfold tick_quantum in H. cbn [p_ready forked_σ fork_table boot_σ boot_table app] in H. rewrite Hq in H.
  destruct H as (s' & E & Eq & Hinv' & _).
  - reflexivity.
  - change (pid_of (k_mem s) 2 < 100). rewrite Hpid. reflexivity.
  - exists s, s', code, dat, fs. split; [exact Hinv|]. split; [exact E|]. split; [exact Eq|]. split; [exact Hinv'|reflexivity].
Defined.

(** ** System calls *)

Lemma sys_unblock_correct_witness :
  ∃ s m', sys_unblock 3 s = Ret 0 (with_mem m' s) ∧ sys_unblock 7 s = Ret (-1) s.
Proof.
  destruct sample_fork as (s & dat & fs & Hs & Hpid). destruct (sample_room _ _ _ _ Hs eq_refl) as (_ & Hon & _).
  destruct Hs as [[code Hinv] _ _ _].
  destruct (sys_unblock_correct forked_σ code (<[2 := fs]> {[1 := dat]}) s 3 Hinv Hon) as (ks & Hk & H).
  destruct (sys_unblock_correct forked_σ code (<[2 := fs]> {[1 := dat]}) s 7 Hinv Hon) as (ks' & Hk' & H').
  change (p_kids forked_σ !! p_run forked_σ) with (Some [2]) in Hk, Hk'.
  injection Hk as <-. injection Hk' as <-. unfold child_with in H, H'. rewrite filter_cons in H, H'.
  rewrite decide_True in H by exact Hpid. rewrite decide_False in H' by (rewrite Hpid; discriminate).
  destruct H as (_ & _ & m' & E & _). exists s, m'. split; [exact E|exact H'].
Defined.

Lemma sys_block_correct_witness :
  ∃ s code data, kernel_inv forked_σ code data s ∧ (∃ s', sys_block s = Ret tt s') ∧
    p_run (block_table forked_σ) = 2 ∧ p_blocked (block_table forked_σ) = [1].
Proof.
  destruct sample_fork as (s & dat & fs & Hs & Hpid). destruct (sample_room _ _ _ _ Hs eq_refl) as (Hcpu & _).
  destruct Hs as [[code Hinv] _ _ Hlp].
  destruct (sys_block_correct forked_σ code (<[2 := fs]> {[1 := dat]}) s Hinv Hcpu) as (H1 & H2 & _).
  - discriminate.
  - exists s, code, (<[2 := fs]> {[1 := dat]}). split; [exact Hinv|]. split; [|split; reflexivity].
    destruct (decide (pending_of (k_mem s) 1 = 0)) as [Hp|Hp].
    + destruct (H2 Hp) as (s' & E & _); [change (pid_of (k_mem s) 2 < 100); rewrite Hpid; reflexivity|]. exists s'. exact E.
    + destruct (H1 Hp) as [E _]. eexists. exact E.
Defined.

Lemma sys_fork_correct_witness :
  ∃ s s' code dat fs, kernel_inv boot_σ code {[1 := dat]} s ∧ sys_fork s = Ret 3 s' ∧
    kernel_inv forked_σ code (<[2 := fs]> {[1 := dat]}) s' ∧ same_data s s' 1 2.
Proof.
  destruct sample_service as (s & dat & Hs & Hlp & Hf). destruct (sample_room _ _ _ _ Hs eq_refl) as (_ & Hon & _).
  destruct Hs as [[code Hinv] Hc _ _].
  assert (H0 : p_run boot_σ ≠ 0) by discriminate.
  assert (Hl : 0 ≤ k_last_pid s < 2 ^ 31 - 2) by (rewrite Hlp; lia).
  pose proof (sys_fork_correct boot_σ code {[1 := dat]} s 1006 Hinv Hon Hc H0 Hf Hl) as H.
  change (p_free boot_σ) with (2 :: seqZ 3 7) in H. cbv iota in H.
  destruct H as (ks & dat' & fs & s' & Hk & _ & E & Hinv' & _ & Hsame & _). injection Hk as <-.
  rewrite Hlp in E. exists s, s', code, dat, fs. split; [exact Hinv|]. split; [exact E|]. split; [exact Hinv'|exact Hsame].
Defined.

Lemma sys_exit_correct_witness :
  ∃ s s' code dat fs, kernel_inv forked_σ code (<[2 := fs]> {[1 := dat]}) s ∧ sys_exit s = Ret tt s' ∧
    kernel_inv (exit_table forked_σ) code (delete 1 (<[2 := fs]> {[1 := dat]})) s' ∧ p_run (exit_table forked_σ) = 2.
Proof.
  destruct sample_fork as (s & dat & fs & Hs & Hpid). destruct (sample_room _ _ _ _ Hs eq_refl) as (Hcpu & _).
  destruct Hs as [[code Hinv] _ _ Hlp].
  destruct (sys_exit_correct forked_σ code (<[2 := fs]> {[1 := dat]}) s dat Hinv Hcpu) as [H _].
  - discriminate.
  - reflexivity.
  - destruct H as (s' & E & Hinv' & _ & Hr & _); [change (pid_of (k_mem s) 2 < 100); rewrite Hpid; reflexivity|].
    exists s, s', code, dat, fs. split; [exact Hinv|]. split; [exact E|]. split; [exact Hinv'|exact Hr].
Defined.

Lemma sys_write_correct_witness :
  ∃ s m' k', sys_write 1 L_USER_START 5 s = Ret 5 (with_console k' (with_mem m' s)) ∧
    sys_write 0 L_USER_START 5 s = Ret (-9) s ∧ sys_write 1 L_USER_START 5000 s = Fault (StackOverflow 5000).
Proof.
  destruct (sample_boot service_sample) as (s & dat & Hs & _). destruct (sample_room _ _ _ _ Hs eq_refl) as (_ & Hon & _).
  destruct Hs as [[code Hinv] Hc Hr _].
  assert (Hb : 0 ≤ L_USER_START < 2 ^ 32) by (unfold L_USER_START; lia).
  assert (Hf : array_fits 1 s 5) by (unfold array_fits; rewrite Hr; split; vm_compute; discriminate).
  assert (Hn : ¬ array_fits 1 s 5000) by (unfold array_fits; rewrite Hr; intros [_ H]; vm_compute in H; by apply H).
  destruct (sys_write_correct boot_σ code {[1 := dat]} dat s Hinv eq_refl Hc Hon 0 L_USER_START 5 Hb) as (_ & H0 & _).
  destruct (sys_write_correct boot_σ code {[1 := dat]} dat s Hinv eq_refl Hc Hon 1 L_USER_START 5000 Hb) as (Hov & _).
  destruct (sys_write_correct boot_σ code {[1 := dat]} dat s Hinv eq_refl Hc Hon 1 L_USER_START 5 Hb) as (_ & _ & _ & _ & H & _).
  destruct (H Hf) as (m' & k' & E & _).
  - reflexivity.
  - lia.
  - lia.
  - vm_compute. discriminate.
  - exists s, m', k'. split; [exact E|]. split; [apply (H0 Hf); discriminate|exact (Hov Hn)].
Defined.

Lemma identification_calls_witness :
  ∃ s code dat m, kernel_inv boot_σ code {[1 := dat]} s ∧ int_0x80 0 0x10a00 s =
    Ret tt (with_mem m (with_regs (w_eax (u32 (pid_of (k_mem s) 1)) (k_regs s)) s)).
Proof.
  destruct (sample_user 20) as (s & code & dat & Hum & Hr & _); [lia|].
  destruct (identification_calls boot_σ code {[1 := dat]} KERNEL_STACK_SIZE s Hum 0 0x10a00) as [H _].
  destruct H as (m & E & _); [rewrite Hr; reflexivity|].
  exists s, code, dat, m. split; [exact (um_inv _ _ _ _ _ Hum)|exact E].
Defined.

Lemma unknown_calls_witness :
  ∃ s m, eax (k_regs s) = 99 ∧ int_0x80 0 0x10a00 s =
    Ret tt (with_mem m (with_regs (w_eax (u32 (-38)) (k_regs s)) s)).
Proof.
  destruct (sample_user 99) as (s & code & dat & Hum & Hr & _); [lia|].
  destruct (unknown_calls boot_σ code {[1 := dat]} KERNEL_STACK_SIZE s Hum 0 0x10a00) as [H _].
  destruct H as (m & E & _); [right; rewrite Hr; reflexivity|].
  exists s, m. split; [rewrite Hr; reflexivity|exact E].
Defined.

Lemma fork_returns_twice_witness :
  ∃ s s', eax (k_regs s) = 2 ∧ int_0x80 0 0x10a00 s = Ret tt s' ∧ k_regs s' = w_eax 3 (k_regs s) ∧
    child_resumes (k_regs s) 2 s'.
Proof.
  destruct (sample_user 2) as (s & code & dat & Hum & Hr & Hlp); [lia|].
  destruct (fork_returns_twice boot_σ code {[1 := dat]} KERNEL_STACK_SIZE s 0 0x10a00 2 (seqZ 3 7) Hum)
    as (ks & fs & s' & E & Er & _ & _ & Hch).
  - rewrite Hr. reflexivity.
  - reflexivity.
  - rewrite Hlp. lia.
  - exists s, s'. split; [rewrite Hr; reflexivity|]. split; [exact E|]. split; [|exact Hch].
    rewrite Er, Hlp. reflexivity.
Defined.

(** ** The interrupt table and boot *)

Definition env_sample : idt_env := {|
  addr_idt := 0x14000; addr_keyboard_handler := 0x10a00; addr_clock_handler := 0x10b00;
  addr_segmentation_fault_handler := 0x10c00; addr_system_call_handler := 0x10d00; set_handlers := ret tt;
|}.

Lemma setIdt_installs_handlers_witness :
  ∃ s', setIdt env_sample kstate_image = Ret tt s' ∧ idtr (k_hw s') = MkRegister 2047 0x14000 ∧
    ∃ g, k_idt s' !! 128%nat = Some g ∧ gate_target g = 0x10d00 ∧ gate_dpl g = 3.
Proof.
  destruct (setIdt_installs_handlers env_sample kstate_image) as (s' & E & Hr & _ & H).
  - reflexivity.
  - intros s0 Hl. split; [exact Hl|reflexivity].
  - intros a Ha. set_unfold in Ha. cbn in Ha. lia.
  - exists s'. split; [exact E|]. split; [exact Hr|].
    destruct (H 128%nat 0x10d00 3) as (g & H1 & H2 & H3 & _); [set_solver|].
    exists g. split; [exact H1|]. split; [exact H2|exact H3].
Defined.

(** An image with a user program of eight bytes after 192 KB of kernel. *)
Definition image_mem : memory :=
  store32 (store32 (store32 (store32 ∅ 0x40000 0x00c3c889) 0x10008 0x7E6A) 0x10004 8) 0x10000 0x30000.
Definition image_sample : kstate := with_mem image_mem kstate_image.

(** Any memory with a user program of [n] bytes at that place and zeros where
    the kernel's data are. *)
Lemma sample_image_ok m n :
  (∀ a, 0x1000c ≤ a → a + 4 ≤ 0x40000 → load32 m a = 0) → load32 m 0x10000 = 0x30000 → load32 m 0x10004 = n →
  0 ≤ n ≤ 0x1000 → image_ok (with_mem m kstate_image).
Proof.
  intros Hz E1 E2 Hn.
  assert (Hs : sys_size_of (with_mem m kstate_image) = 0x30000 ∧ usr_size_of (with_mem m kstate_image) = n) by done.
  destruct Hs as [Hs1 Hs2]. split; try done.
  - split.
    + intros i Hi. unfold parent_of. pose proof (task_addr_window i Hi) as Hw.
      assert (task_addr i + PAGE_SIZE ≤ 0x40000 ∧ 0x1000c ≤ task_addr i).
      { clear Hw. unfold valid_task, NR_TASKS, task_addr, sizeof_task_union, KERNEL_STACK_SIZE, PAGE_SIZE in *. cbn. lia. }
      unfold anchor_of, f_anchor, f_parent, PAGE_SIZE in *. cbn [k_mem with_mem]. by rewrite !Hz by lia.
    + intros i Hi d Hd. apply Hz; unfold valid_task, NR_TASKS, dir_addr, PAGE_SIZE in *; cbn; lia.
  - cbn. lia.
  - intros r Hr. set_unfold in Hr. destruct_or! Hr; subst r; cbn; lia.
  - rewrite Hs1, Hs2. unfold KERNEL_START, KERNEL_HI. lia.
  - rewrite Hs2. unfold USER_PAGES, NUM_PAG_DATA, NUM_PAG_CODE, PAGE_SIZE. lia.
  - rewrite Hs1, Hs2. intros a Ha Hw.
    assert (Ha' : 0x10000 ≤ a < 0x1000c ∨ 0x40000 ≤ a < 0x41000).
    { destruct Ha as [Ha|Ha]; [left; exact Ha|right]. unfold in_range, KERNEL_START in Ha. lia. }
    clear Ha. destruct Hw as [Hw|[Hw|[(c & Hc & Hw)|[Hw|Hw]]]].
    + unfold tables_bytes, in_range, NR_TASKS, PAGE_SIZE in Hw. cbn in Hw. lia.
    + unfold dirs_bytes, in_range, NR_TASKS, PAGE_SIZE in Hw. cbn in Hw. lia.
    + assert (0x16000 ≤ c ∧ c + 8 ≤ 0x22000); [|unfold in_range in Hw; lia].
      destruct Hc as [Hq|(i & Hi & Hc)].
      * unfold queue_head in Hq. cbn in Hq. lia.
      * unfold anchor_of, child_anchor_of, childs_of, f_anchor, f_child_anchor, f_childs, valid_task, NR_TASKS,
          task_addr, sizeof_task_union, KERNEL_STACK_SIZE in *. cbn in *. lia.
    + unfold in_range, task_addr, sizeof_task_union, KERNEL_STACK_SIZE, PAGE_SIZE in Hw. cbn in Hw. lia.
    + unfold in_range, task_addr, sizeof_task_union, KERNEL_STACK_SIZE, PAGE_SIZE in Hw. cbn in Hw. lia.
Qed.

Lemma image_sample_ok : image_ok image_sample.
Proof.
  apply (sample_image_ok _ 8); [|by vm_compute|by vm_compute|lia].
  intros a H1 H2. unfold image_mem. rewrite !load32_store32_ne by lia. apply load32_empty.
Qed.

Lemma main_enters_user_mode_witness :
  ∃ s' code dat, main env_sample 0x15000 image_sample = Ret tt s' ∧
    user_mode boot_σ code {[1 := dat]} KERNEL_STACK_SIZE s' ∧ eip (k_regs s') = usr_main ∧
    program_loaded image_sample s'.
Proof.
  destruct (main_enters_user_mode env_sample 0x15000) with (s := image_sample)
    as (s' & code & dat & E & Hum & Hip & _ & _ & _ & _ & _ & _ & Hl).
  - intros s. exists (k_idt s). destruct s. reflexivity.
  - exact image_sample_ok.
  - exists s', code, dat. split; [exact E|]. split; [exact Hum|]. split; [exact Hip|exact Hl].
Defined.

(** The files that image is built from. *)
Definition boot_file : list Z := hdr ++ replicate 459 0 ++ sector_end SYSSIZE.
Definition system_file : list Z := replicate (Z.to_nat 0x30000) 0.
Definition user_file : list Z := [0x89; 0xc8; 0xc3; 0; 0; 0; 0; 0].

Definition files_sample (name : String.string) : option (list Z) :=
  if String.eqb name "bootsect"%string then Some boot_file else
  if String.eqb name "system"%string then Some system_file else
  if String.eqb name "user"%string then Some user_file else None.

Definition argv_sample : list String.string := ["build"; "bootsect"; "system"; "user"]%string.

Lemma system_length : length system_file = Z.to_nat 0x30000.
Proof. apply length_replicate. Qed.

Lemma files_cut : cut system_file = system_file ∧ cut user_file = user_file.
Proof. split; apply cut_small; [rewrite system_length|]; vm_compute; reflexivity. Qed.

Lemma named_sample : named files_sample argv_sample boot_file system_file user_file.
Proof. exists "build"%string, "bootsect"%string, "system"%string, "user"%string. by split_and!. Qed.

(** No system call goes wrong. *)
Definition all_work (n : nat) : answer := Works.

Lemma build_main_correct_witness :
  ∃ st, build_main files_sample all_work argv_sample build_start = Ret 0 st ∧ b_out st = image boot_file system_file user_file.
Proof.
  destruct (build_main_correct files_sample all_work argv_sample) as [H1 H2].
  destruct (proj2 (H2 (λ n, eq_refl))) as [st E].
  - exists boot_file, system_file, user_file. split; [exact named_sample|reflexivity].
  - exists st. split; [exact E|]. destruct H1 as [[msg H1]|(st' & b & s & u & E' & Hn & _ & _ & Ho)]; [rewrite E in H1; discriminate H1|].
    rewrite E in E'. injection E' as <-. destruct (named_unique _ _ _ _ _ _ _ _ Hn named_sample) as (-> & -> & ->).
    destruct files_cut as [C1 C2]. rewrite C1, C2 in Ho. apply Ho. rewrite system_length. lia.
Defined.

Lemma loaded_sample : loaded (image boot_file system_file user_file) (length system_file + length user_file) image_mem.
Proof.
  intros i Hi. rewrite image_programs by reflexivity. rewrite system_length in *.
  change (length user_file) with 8%nat in *. change (Z.of_nat 8) with 8. rewrite Z2Nat.id by lia.
  assert (Hc : i < 12 ∨ 12 ≤ i < 0x30000 ∨ 0x30000 ≤ i < 0x30008) by lia. destruct Hc as [Hc|[Hc|Hc]].
  - rewrite app_assoc, app_assoc, app_nth1 by (cbn; lia).
    apply Z.eqb_eq. revert i Hi Hc. enough (Hall : forallb (λ j, load8 image_mem (KERNEL_START + j) =?
      nth (Z.to_nat j) ((size_bytes 0x30000 ++ size_bytes 8) ++ size_bytes 0x7E6A) 0) (seqZ 0 12) = true).
    { rewrite forallb_forall in Hall. intros i Hi Hc. apply Hall, list_elem_of_In, elem_of_seqZ. lia. }
    vm_compute. reflexivity.
  - unfold image_mem, KERNEL_START. rewrite !load8_store32_out by lia. rewrite !app_nth2 by (cbn [length size_bytes]; lia).
    rewrite app_nth1 by (rewrite length_drop, system_length; cbn [length size_bytes]; lia). unfold system_file.
    rewrite drop_replicate, nth_lookup, lookup_replicate_2 by (cbn [length size_bytes]; lia). reflexivity.
  - rewrite !app_nth2 by (rewrite ?length_drop, ?system_length; cbn [length size_bytes]; lia).
    rewrite length_drop, system_length. cbn [length size_bytes].
    assert (Hall : forallb (λ j, load8 image_mem (KERNEL_START + 0x30000 + j) =? nth (Z.to_nat j) user_file 0)
      (seqZ 0 8) = true) by (vm_compute; reflexivity).
    rewrite forallb_forall in Hall. pose proof (Hall (i - 0x30000)) as H.
    rewrite <- list_elem_of_In, elem_of_seqZ, Z.eqb_eq in H.
    replace (KERNEL_START + i) with (KERNEL_START + 0x30000 + (i - 0x30000)) by lia.
    rewrite H by lia. f_equal. lia.
Qed.

(** A disk with that image, and zeros after it. *)
Definition disk_sample (x : Z) : Z := nth (Z.to_nat x) (image boot_file system_file user_file) 0.

Lemma disk_sample_bytes x : 0 ≤ disk_sample x < 2 ^ 8.
Proof.
  assert (Hall : Forall (λ b, 0 ≤ b < 2 ^ 8) (image boot_file system_file user_file)).
  { unfold image. rewrite system_length, Z2Nat.id by lia. change (Z.of_nat (length user_file)) with 8. rewrite !Forall_app.
    assert (Hs : Forall (λ b, 0 ≤ b < 2 ^ 8) (drop 12 system_file))
      by (unfold system_file; rewrite drop_replicate; apply Forall_replicate; lia).
    split_and!; [..|exact Hs|]; apply (bool_decide_unpack _); vm_compute; exact I. }
  unfold disk_sample. set (l := image _ _ _) in *. clearbody l.
  destruct (decide (Z.to_nat x < length l)%nat) as [Hx|Hx].
  - rewrite Forall_forall in Hall. apply Hall, list_elem_of_In, nth_In. exact Hx.
  - rewrite nth_overflow by lia. lia.
Qed.

Lemma disk_image_ok m :
  loaded (image boot_file system_file user_file) (length system_file + length user_file) m → image_ok (with_mem m kstate_image).
Proof.
  intros Hl. assert (Hm : ∀ a, 0x10000 ≤ a < 0x40008 → load8 m a = load8 image_mem a).
  { intros a Ha. pose proof (Hl (a - KERNEL_START)) as H1. pose proof (loaded_sample (a - KERNEL_START)) as H2.
    rewrite system_length in H1, H2. change (length user_file) with 8%nat in H1, H2. unfold KERNEL_START in H1, H2.
    replace (0x10000 + (a - 0x10000)) with a in H1, H2 by lia. rewrite H1, H2 by lia. reflexivity. }
  assert (Hw : ∀ a, 0x10000 ≤ a → a + 4 ≤ 0x40008 → load32 m a = load32 image_mem a).
  { intros a H1 H2. apply load32_bytes. intros i Hi. apply Hm. lia. }
  apply (sample_image_ok m 8); [|rewrite Hw by lia; by vm_compute|rewrite Hw by lia; by vm_compute|lia].
  intros a H1 H2. rewrite Hw by lia. unfold image_mem. rewrite !load32_store32_ne by lia. apply load32_empty.
Qed.

Definition bios_state : rstate :=
  RState (RRegs 0 0 0 0 0 0 0 0 0 0 BOOTSEG 0 0 0 0) (copy_disk disk_sample 512 0 0x7c00 ∅) true 0 (MkRegister 0 0) (MkRegister 0 0) 0 [] 0 [] [].

Lemma sample_image :
  ∃ st, build_main files_sample all_work argv_sample build_start = Ret 0 st ∧ b_out st = image boot_file system_file user_file.
Proof.
  destruct (build_main_works files_sample all_work argv_sample _ _ _ (λ n, eq_refl) named_sample eq_refl) as (st & Hb & Ho).
  destruct files_cut as [C1 C2]. rewrite C1, C2 in Ho. exists st. split; [exact Hb|]. apply Ho. rewrite system_length. lia.
Qed.

Lemma disk_boots_witness :
  ∃ st b s s' code dat, build_main files_sample all_work argv_sample build_start = Ret 0 st ∧
    bootsect (bios_of disk_sample) id (λ _ _, 0) (λ i, 2 <=? i)%nat 0x180 (Z.to_nat 0xFFFFFF) bios_state = Ret tt b ∧ k_mem s = bs_mem b ∧
    main env_sample 0x15000 s = Ret tt s' ∧
    user_mode boot_σ code {[1 := dat]} KERNEL_STACK_SIZE s' ∧ eip (k_regs s') = usr_main ∧
    ∃ pa, translate_user (k_mem s') (dir_addr 1) (L_USER_START + 2) false = Some pa ∧ load8 (k_mem s') pa = 0xc3.
Proof.
  destruct sample_image as (st & Hb & Ho).
  destruct (disk_boots files_sample all_work env_sample 0x15000) with (bios := bios_of disk_sample) (disk := disk_sample)
    (video := λ r : rregs, r) (ports := λ (_ : Z) (_ : nat), 0) (a20 := λ i, (2 <=? i)%nat) (k := 2%nat) (msg1 := 0x180) (fuel := Z.to_nat 0xFFFFFF)
    (argv := argv_sample) (boot := boot_file) (sys := system_file) (usr := user_file) (st := st)
    (b := bios_state) as (b & Eb & _ & _ & _ & _ & _ & Hl & H).
  - intros s. exists (k_idt s). destruct s. reflexivity.
  - exact (bios_of_reads disk_sample disk_sample_bytes).
  - intros r. repeat split.
  - intros i Hi. apply Nat.leb_le. exact Hi.
  - rewrite Z2Nat.id by lia. lia.
  - lia.
  - exact Hb.
  - exact named_sample.
  - intros i Hi. unfold boot_file. rewrite app_assoc, app_nth2 by (change (length (hdr ++ replicate 459 0)) with 467%nat; lia).
    change (length (hdr ++ replicate 459 0)) with 467%nat. f_equal. lia.
  - rewrite system_length. lia.
  - rewrite system_length. change (length user_file) with 8%nat. lia.
  - rewrite Ho. intros i Hi. unfold disk_sample. rewrite Nat2Z.id. reflexivity.
  - intros i Hi. unfold bios_state. cbn [bs_mem]. rewrite (load8_copy_disk _ _ _ _ _ _ disk_sample_bytes).
    rewrite bool_decide_true by lia. f_equal. lia.
  - rewrite Ho in Hl. destruct (H (with_mem (bs_mem b) kstate_image) eq_refl (disk_image_ok _ Hl)) as (s' & code & dat & E & Hum & Hip & Hu).
    exists st, b, (with_mem (bs_mem b) kstate_image), s', code, dat. split; [exact Hb|]. split; [exact Eb|]. split; [reflexivity|].
    split; [exact E|]. split; [exact Hum|]. split; [exact Hip|].
    apply (Hu 2); [cbn; lia|left; unfold NUM_PAG_DATA, PAGE_SIZE; lia].
Defined.

(** ** Interrupts and runs *)

(** A clock that draws nothing. *)
Definition blank_clock (t : Z) : M console unit := ret tt.

Lemma blank_clock_ok t k : cursor_ok k → wp (blank_clock t) k (λ _ k', cursor_ok k').
Proof. done. Qed.

Lemma clock_interrupt_transparent_witness :
  ∃ s s', (int_enter 0x10b00 None ;! clock_handler 0x10b20 blank_clock) s = Ret tt s' ∧
    k_zeos_ticks s' = s32 (k_zeos_ticks s + 1) ∧ k_regs s' = k_regs s.
Proof.
  destruct (sample_user 0) as (s & code & dat & Hum & Hr & Hlp); [lia|].
  assert (Hq : 0 ≤ tick_quantum boot_σ (k_quantum_ticks s) (quantum_of (k_mem s) (p_run boot_σ))).
  { unfold tick_quantum. cbn [p_ready boot_σ boot_table]. pose proof (ki_sched _ _ _ _ (um_inv _ _ _ _ _ Hum)) as [Hc _].
    assert (Hq : 0 ≤ quantum_of (k_mem s) 1 < 2 ^ 31).
    { apply (sc_quantum _ _ Hc); [unfold valid_task, NR_TASKS; lia|]. by apply (bool_decide_unpack _). }
    rewrite s32_small by (cbn [p_run boot_σ boot_table]; lia). apply Hq. }
  destruct (clock_interrupt_transparent boot_σ code {[1 := dat]} KERNEL_STACK_SIZE s 0x10b00 0x10b20 blank_clock Hum)
    as (s' & E & Et & _ & _ & H & _).
  - vm_compute. discriminate.
  - lia.
  - lia.
  - set_unfold. cbn. lia.
  - exact blank_clock_ok.
  - exists s, s'. split; [exact E|]. split; [exact Et|]. apply H. exact Hq.
Defined.

Lemma kernel_refines_table_witness :
  ∃ s s' σ', implements boot_σ s ∧ kstep blank_clock EvFork s s' ∧ table_step boot_σ σ' ∧ implements σ' s'.
Proof.
  destruct sample_service as (s & dat & Hs & Hlp & Hf). destruct (sample_room _ _ _ _ Hs eq_refl) as (_ & Hon & Hcpu).
  destruct Hs as [[code Hinv] Hc _ _].
  assert (Him : implements boot_σ s) by (exists code, {[1 := dat]}; split; [exact Hinv|exact Hc]).
  assert (Hl : 0 ≤ k_last_pid s < 2 ^ 31 - 2) by (rewrite Hlp; lia).
  destruct (wp_elim sys_fork s _ (sim_fork boot_σ s 1 1006 Him Hcpu ltac:(discriminate) Hon Hf Hl)) as (v & s' & E & _).
  assert (Hst : kstep blank_clock EvFork s s')
    by (apply (step_fork blank_clock s s' 1 1006 v Hcpu ltac:(discriminate) Hon Hf Hl E)).
  destruct (kernel_refines_table blank_clock blank_clock_ok boot_σ s s' EvFork Him Hst) as (σ' & H1 & H2).
  exists s, s', σ'. split; [exact Him|]. split; [exact Hst|]. split; [exact H1|exact H2].
Defined.

Lemma image_bootable : bootable kstate_image.
Proof.
  split; [vm_compute; reflexivity|]. split; [exact image_zero|]. split; [|reflexivity].
  vm_compute. repeat split; discriminate.
Qed.

(** Boot, some steps of process 1 up to the service of a fork, and the fork. *)
Lemma sample_reachable :
  ∃ s dat fs, reachable blank_clock kstate_image s ∧ sample forked_σ (<[2 := fs]> {[1 := dat]}) service_sample s.
Proof.
  destruct image_bootable as (Hpm & Hz & Hcon & Hp).
  destruct (wp_elim init_kernel kstate_image (λ _ s', ∃ dat, sample boot_σ {[1 := dat]} regs_zero s' ∧ k_last_pid s' = 1))
    as ([] & s1 & E & dat & Hs & Hlp).
  { apply wp_init_kernel; [exact Hpm|exact Hz|exact Hcon|exact Hp|]. intros s' code dat H1 H2 _ H4 H5 _ _ _ _ _ _.
    exists dat. split; [|done]. split; [by exists code|done|done|rewrite H4; lia]. }
  destruct (sample_at_service _ _ _ Hs) as [H2 Hf]. destruct (sample_room _ _ _ _ H2 eq_refl) as (_ & Hon & Hi2).
  destruct (sample_forks (at_service s1) dat H2 Hlp Hf) as (v & s3 & fs & E3 & H3 & _).
  exists s3, dat, fs. split; [|exact H3]. exists s1. split; [exact E|].
  apply (rtc_l _ _ (at_service s1)).
  - assert (Hi1 : has_cpu s1 1) by (split; [unfold valid_task, NR_TASKS; lia|apply (sa_cr3 _ _ _ _ Hs)]).
    exists EvProcess. unfold at_service. refine (step_process blank_clock s1 1 service_sample _ Hi1 _). apply frame_store32.
    intros b Hb. right. unfold own_stack, in_range, sizeof_task_struct, PAGE_SIZE, stack_addr in *. lia.
  - apply rtc_once. exists EvFork. refine (step_fork blank_clock (at_service s1) s3 1 1006 v Hi2 _ Hon Hf _ E3); [done|].
    change (k_last_pid (at_service s1)) with (k_last_pid s1). rewrite Hlp. lia.
Qed.

Lemma reachable_states_implement_witness :
  ∃ s σ, reachable blank_clock kstate_image s ∧ rtc table_step (boot_table boot_kids) σ ∧ implements σ s.
Proof.
  destruct sample_reachable as (s & dat & fs & Hr & _).
  destruct (reachable_states_implement blank_clock blank_clock_ok kstate_image s image_bootable Hr) as (σ & H1 & H2).
  exists s, σ. split; [exact Hr|]. split; [exact H1|exact H2].
Defined.

(** The first user page of a live process. *)
Lemma sample_page σ code data s i fs :
  mm_inv σ code data s → data !! i = Some fs →
  ∃ f, translate_user (k_mem s) (dir_addr i) L_USER_START true = Some (f * PAGE_SIZE + 0).
Proof.
  intros Hmm Hl. destruct (lookup_lt_is_Some_2 fs 0) as [f Hf].
  - rewrite (mi_len _ _ _ _ Hmm _ _ Hl). by vm_compute; lia.
  - exists f. by apply (data_page _ _ _ _ i fs 0 f 0 Hmm Hl Hf).
Qed.

Lemma process_isolation_witness :
  ∃ s pa pb, reachable blank_clock kstate_image s ∧
    translate_user (k_mem s) (dir_addr 1) L_USER_START true = Some pa ∧
    translate_user (k_mem s) (dir_addr 2) L_USER_START true = Some pb ∧ pa ≠ pb.
Proof.
  destruct sample_reachable as (s & dat & fs & Hr & [[code Hinv] Hc _ _]).
  pose proof (ki_mm _ _ _ _ Hinv) as Hmm.
  destruct (sample_page _ _ _ _ 1 dat Hmm eq_refl) as [f E1]. destruct (sample_page _ _ _ _ 2 fs Hmm eq_refl) as [g E2].
  assert (Him : implements forked_σ s) by (exists code, (<[2 := fs]> {[1 := dat]}); split; [exact Hinv|exact Hc]).
  destruct (process_isolation blank_clock blank_clock_ok kstate_image s 1 2 L_USER_START L_USER_START true
    (f * PAGE_SIZE + 0) (g * PAGE_SIZE + 0) image_bootable Hr) as (_ & _ & H).
  - unfold valid_task, NR_TASKS. lia.
  - unfold valid_task, NR_TASKS. lia.
  - discriminate.
  - discriminate.
  - discriminate.
  - rewrite (implements_free _ _ 1 Him). change (p_free forked_σ) with (seqZ 3 7). rewrite elem_of_seqZ. lia.
  - rewrite (implements_free _ _ 2 Him). change (p_free forked_σ) with (seqZ 3 7). rewrite elem_of_seqZ. lia.
  - unfold L_USER_START. lia.
  - unfold L_USER_START. lia.
  - exact E1.
  - exact E2.
  - exists s, (f * PAGE_SIZE + 0), (g * PAGE_SIZE + 0). split; [exact Hr|]. split; [exact E1|]. split; [exact E2|exact H].
Defined.

Lemma services_fault_exactly_when_witness :
  ∃ s, implements forked_σ s ∧ (∃ s', sys_exit s = Ret tt s') ∧ ¬ (∃ v s', sys_write 0 0 (-1) s = Ret v s').
Proof.
  destruct sample_fork as (s & dat & fs & Hs & Hpid).
  destruct (sample_room _ _ _ _ Hs eq_refl) as (Hcpu & _ & Hi). destruct Hs as [[code Hinv] Hc _ _].
  assert (Him : implements forked_σ s) by (exists code, (<[2 := fs]> {[1 := dat]}); split; [exact Hinv|exact Hc]).
  destruct (services_fault_exactly_when blank_clock blank_clock_ok forked_σ s 1 Him Hi Hcpu) as (_ & _ & H).
  destruct H as (He & _ & _ & Hw); [discriminate|]. exists s. split; [exact Him|]. split.
  - apply He. change (pid_of (k_mem s) 2 < 100). rewrite Hpid. reflexivity.
  - intros Hx. apply (Hw 0 0 (-1)) in Hx as [[Hx _] _]; [vm_compute in Hx; by apply Hx|lia].
Defined.

(** Task 2 waits for a tick of the five that task 1 has left. *)
Lemma ready_task_gets_the_processor_witness :
  ∃ s s', implements forked_σ s ∧ waits blank_clock 2 1 s s' ∧ 1 ≤ Z.max 0 (k_quantum_ticks s) + 0.
Proof.
  destruct (sample_quantum 5) as (s & code & dat & fs & Hinv & Hcpu & Hi & _ & Hq).
  assert (Him : implements forked_σ s) by (exists code, (<[2 := fs]> {[1 := dat]}); split; [exact Hinv|exact (proj2 Hi)]).
  assert (Et : tick_quantum forked_σ (k_quantum_ticks s) (quantum_of (k_mem s) (p_run forked_σ)) = 4).
  { unfold tick_quantum. cbn [p_ready forked_σ fork_table boot_σ boot_table app]. rewrite Hq. reflexivity. }
  destruct (wp_elim (clock_service blank_clock) s (λ _ s', k_cr3 s' = dir_addr 1)) as ([] & s' & E & Hc).
  { apply (wp_clock_service blank_clock forked_σ code (<[2 := fs]> {[1 := dat]})); [exact blank_clock_ok|exact Hinv|exact Hcpu|
      unfold tick_fits; rewrite Et; reflexivity|..]; rewrite Et; [|lia].
    intros _ k s' _. exact (proj2 Hi). }
  assert (Hw : waits blank_clock 2 1 s s').
  { apply (waits_step blank_clock 2 0 EvClock s s s'); [apply waits_here|by apply (step_clock blank_clock s s' 1)|];
      rewrite ?Hc, ?(proj2 Hi); vm_compute; discriminate. }
  exists s, s'. split; [exact Him|]. split; [exact Hw|].
  apply (ready_task_gets_the_processor blank_clock blank_clock_ok forked_σ s s' 0 1 2 Him eq_refl); [rewrite Hq; lia|exact Hw].
Defined.

Lemma process_table_sound_witness :
  ∃ s run ready free waiting, reachable blank_clock kstate_image s ∧ k_cr3 s = dir_addr run ∧
    dlist (k_mem s) readyq (anchor_of <$> ready) ∧ NoDup (run :: ready ++ free ++ waiting) ∧ pid_of (k_mem s) 0 = 0.
Proof.
  destruct sample_reachable as (s & dat & fs & Hr & _).
  destruct (process_table_sound blank_clock blank_clock_ok kstate_image s image_bootable Hr)
    as (run & ready & free & waiting & H1 & H2 & _ & _ & H3 & _ & _ & _ & _ & H4 & _).
  exists s, run, ready, free, waiting. split; [exact Hr|]. split; [exact H1|]. split; [exact H2|]. split; [exact H3|exact H4].
Defined.

(** ** Reports *)

Lemma print_queue_lists_witness :
  ∃ s, print_queue (head_of Ready) s = Ret tt (shown (queue_text (k_mem s) [2]) s) ∧ pid_of (k_mem s) 2 = 3.
Proof.
  destruct sample_fork as (s & dat & fs & [[code Hinv] _ _ _] & Hp). exists s. split; [|exact Hp].
  apply (print_queue_lists forked_σ Ready).
  - exact (sc_q _ _ (proj1 (ki_sched _ _ _ _ Hinv))).
  - intros i Hi. change (i ∈ [2]) in Hi. apply list_elem_of_singleton in Hi as ->. rewrite Hp. lia.
Defined.

Lemma print_stack_shows_witness :
  ∃ s, print_stack (task_addr 1) s = Ret tt (shown (stack_text (k_mem s) 17 17 (stack_base_of 1)) s).
Proof.
  destruct sample_service as (s & dat & Hs & _). destruct (sample_room _ _ _ _ Hs eq_refl) as (_ & Hon & _).
  pose proof (sa_regs _ _ _ _ Hs) as Hr. exists s.
  assert (Et : stack_top_of s 1 1 = esp service_sample) by (unfold stack_top_of; rewrite Hr; reflexivity).
  assert (En : (stack_base_of 1 - esp service_sample) / 4 = 17) by reflexivity.
  assert (Eb : (stack_base_of 1 <? esp service_sample) = false) by reflexivity.
  assert (Hlo : task_addr 1 ≤ esp service_sample) by (vm_compute; discriminate).
  pose proof (print_stack_shows s 1 1 Hon (proj1 Hon)) as H. rewrite Et in H. specialize (H Hlo). cbv zeta in H.
  rewrite Eb, En in H. exact H.
Defined.

Lemma debug_stack_shows_witness :
  ∃ s, debug_stack s = Ret tt (shown (debug_text (pid_of (k_mem s) 1) (esp service_sample - 4) (task_addr 1)) s).
Proof.
  destruct sample_service as (s & dat & Hs & Hlp & _). destruct (sample_room _ _ _ _ Hs eq_refl) as (_ & Hon & _).
  pose proof Hs as [[code Hinv] _ Hr _]. exists s. rewrite <- Hr. apply (debug_stack_shows s 1 Hon).
  - pose proof (sc_pids _ _ (proj1 (ki_sched _ _ _ _ Hinv)) 1) as Hp. rewrite Hlp in Hp.
    assert (Hv : valid_task 1) by done. assert (Hf : 1 ∉ p_free boot_σ) by (vm_compute; set_solver).
    specialize (Hp Hv Hf). lia.
  - rewrite Hr. vm_compute. discriminate.
Defined.

(** ** The wrappers *)

(** A user program that has called write(1, L_USER_START, 3). *)
Lemma sample_write : ∃ s0 s code dat a,
  view boot_σ code dat {[1 := dat]} KERNEL_STACK_SIZE s0 a s ∧ k_last_pid s0 = 1 ∧ u_regs a = user_sample 3 ∧
  uword (u_mem a) (USER_ESP + 4) = 1 ∧ uword (u_mem a) (USER_ESP + 8) = L_USER_START ∧ uword (u_mem a) (USER_ESP + 12) = 3.
Proof.
  destruct (sample_user 3) as (s0 & code & dat & Hum & Hr & Hlp); [lia|].
  pose proof (view_observe boot_σ code dat {[1 := dat]} KERNEL_STACK_SIZE s0 s0 Hum (kept_refl _ _ _)) as H0.
  assert (Hd : ({[1 := dat]} : gmap Z (list Z)) !! p_run boot_σ = Some dat) by apply lookup_singleton_eq.
  set (a0 := observe _ _ _ _) in H0.
  destruct (wp_elim (ustore32 (USER_ESP + 4) 1 ;! ustore32 (USER_ESP + 8) L_USER_START ;! ustore32 (USER_ESP + 12) 3) s0
    (λ _ s, view boot_σ code dat {[1 := dat]} KERNEL_STACK_SIZE s0
      (UState (u_regs a0) (uput (uput (uput (u_mem a0) (USER_ESP + 4) 1) (USER_ESP + 8) L_USER_START) (USER_ESP + 12) 3)
         (u_console a0) (u_ticks a0) (u_pid a0)) s)) as (_ & s & _ & Hv).
  - apply wp_bind. eapply (wp_ustore32 boot_σ code dat _ _ s0 Hd); [exact H0|split; vm_compute; discriminate|]. intros s1 H1.
    apply wp_bind. eapply (wp_ustore32 boot_σ code dat _ _ s0 Hd); [exact H1|split; vm_compute; discriminate|]. intros s2 H2.
    eapply (wp_ustore32 boot_σ code dat _ _ s0 Hd); [exact H2|split; vm_compute; discriminate|]. intros s3 H3. exact H3.
  - exists s0, s, code, dat. eexists. split; [exact Hv|]. split; [exact Hlp|]. split; [exact Hr|]. cbn [u_mem].
    rewrite !uword_uput_ne, !uword_uput by (unfold L_USER_START; lia). split; [done|]. split; [|done].
    rewrite uword_uput_ne by lia. by apply uword_uput.
Qed.

Lemma write_returns_witness :
  ∃ a s s', write 0 0x10a00 0x101000 s = Ret tt s' ∧ u_regs a = user_sample 3 ∧
    k_console s' = show (ubytes (uput (u_mem a) (USER_ESP - 4) 1) L_USER_START 3) (u_console a) ∧ eax (k_regs s') = 3.
Proof.
  destruct sample_write as (s0 & s & code & dat & a & Hv & _ & Hr & H1 & H2 & H3).
  assert (Hd : ({[1 := dat]} : gmap Z (list Z)) !! p_run boot_σ = Some dat) by apply lookup_singleton_eq.
  pose proof (write_returns 0 0x10a00 0x101000 boot_σ code dat {[1 := dat]} KERNEL_STACK_SIZE s0 Hd a s) as H.
  cbv zeta in H. rewrite Hr in H. change (esp (user_sample 3)) with USER_ESP in H. rewrite H1, H2, H3 in H.
  destruct H as (s' & E & Hv').
  - exact Hv.
  - split; vm_compute; discriminate.
  - split; vm_compute; discriminate.
  - left. vm_compute. discriminate.
  - split; [vm_compute; discriminate|]. split; [vm_compute; discriminate|]. intros _ _ _ _. split; vm_compute; discriminate.
  - exists a, s, s'. split; [exact E|]. split; [exact Hr|].
    rewrite (v_console _ _ _ _ _ _ _ _ Hv'), (v_regs _ _ _ _ _ _ _ _ Hv'). split; reflexivity.
Defined.

Lemma getpid_gettime_return_witness :
  ∃ a s s', getpid 0 0x10a00 0x101000 s = Ret tt s' ∧ u_regs a = user_sample 3 ∧ eax (k_regs s') = u_pid a.
Proof.
  destruct sample_write as (s0 & s & code & dat & a & Hv & _ & Hr & _).
  assert (Hd : ({[1 := dat]} : gmap Z (list Z)) !! p_run boot_σ = Some dat) by apply lookup_singleton_eq.
  destruct (getpid_gettime_return 0 0x10a00 0x101000 boot_σ code dat {[1 := dat]} KERNEL_STACK_SIZE s0 Hd a s Hv)
    as [(s' & E & Hv') _].
  - rewrite Hr. split; vm_compute; discriminate.
  - exists a, s, s'. split; [exact E|]. split; [exact Hr|]. rewrite (v_regs _ _ _ _ _ _ _ _ Hv'). reflexivity.
Defined.

Lemma unblock_ignores_argument_witness :
  ∃ a s s', unblock 0 0x10a00 0x101000 s = Ret tt s' ∧ u_regs a = user_sample 3 ∧ eax (k_regs s') = 2 ^ 32 - 1.
Proof.
  destruct sample_write as (s0 & s & code & dat & a & Hv & _ & Hr & _).
  assert (Hd : ({[1 := dat]} : gmap Z (list Z)) !! p_run boot_σ = Some dat) by apply lookup_singleton_eq.
  pose proof (unblock_ignores_argument 0 0x10a00 0x101000 boot_σ code dat {[1 := dat]} KERNEL_STACK_SIZE s0 Hd a s) as H.
  cbv zeta in H. rewrite Hr in H. destruct H as (s' & E & Hv').
  - exact Hv.
  - split; vm_compute; discriminate.
  - split; vm_compute; discriminate.
  - left. vm_compute. discriminate.
  - intros ks i Hk Hi. assert (ks = []) as -> by (by injection Hk). by apply not_elem_of_nil in Hi.
  - exists a, s, s'. split; [exact E|]. split; [exact Hr|]. rewrite (v_regs _ _ _ _ _ _ _ _ Hv'). reflexivity.
Defined.

(** fork, exit and block, called by the same program. *)

Lemma fork_function_witness :
  ∃ s s' a, fork 0 0x10a00 0x101000 s = Ret tt s' ∧ u_regs a = user_sample 3 ∧ eax (k_regs s') = 3.
Proof.
  destruct sample_write as (s0 & s & code & dat & a & Hv & Hlp & Hr & _).
  assert (Hd : ({[1 := dat]} : gmap Z (list Z)) !! p_run boot_σ = Some dat) by apply lookup_singleton_eq.
  pose proof (fork_function 0 0x10a00 0x101000 boot_σ code dat {[1 := dat]} KERNEL_STACK_SIZE s0 Hd a s Hv) as H.
  cbv zeta in H. rewrite Hr, Hlp in H. destruct H as (s' & E & ks & fs & s1 & Hv' & _).
  - split; vm_compute; discriminate.
  - lia.
  - split; vm_compute; discriminate.
  - left. vm_compute. discriminate.
  - exists s, s', a. split; [exact E|]. split; [exact Hr|]. rewrite (v_regs _ _ _ _ _ _ _ _ Hv'). reflexivity.
Defined.

Lemma exit_never_returns_witness :
  ∃ s s', exit 0 0x10a00 0x101000 s = Ret tt s' ∧ p_run (exit_table boot_σ) = 0 ∧ k_cr3 s' = dir_addr 0.
Proof.
  destruct sample_write as (s0 & s & code & dat & a & Hv & Hlp & Hr & _).
  assert (Hd : ({[1 := dat]} : gmap Z (list Z)) !! p_run boot_σ = Some dat) by apply lookup_singleton_eq.
  assert (Hh : 0x10a00 ∉ [addr_cpu_idle; addr_ret_from_fork; addr_task_switch_ret]) by (set_unfold; cbn; lia).
  assert (Hj : sizeof_task_struct + 108 ≤ 4 * KERNEL_STACK_SIZE) by (vm_compute; discriminate).
  destruct (exit_never_returns 0 0x10a00 0x101000 Hh boot_σ code dat {[1 := dat]} KERNEL_STACK_SIZE s0 Hd Hj a s Hv)
    as (s' & E & _ & _ & Hc & _).
  - change (pid_of (k_mem s) 0 < 100). rewrite (pi_idle _ _ (ki_pid _ _ _ _ (um_inv _ _ _ _ _ (v_mode _ _ _ _ _ _ _ _ Hv)))). reflexivity.
  - exists s, s'. split; [exact E|]. split; [reflexivity|exact Hc].
Defined.

(** With no unblock pending. *)
Lemma sample_no_pending : ∃ s code dat a,
  view boot_σ code dat {[1 := dat]} KERNEL_STACK_SIZE s a s ∧ k_last_pid s = 1 ∧ u_regs a = user_sample 3 ∧ pending boot_σ s = 0.
Proof.
  destruct sample_write as (s0 & s & code & dat & a & Hv & Hlp & Hr & _).
  assert (Hd : ({[1 := dat]} : gmap Z (list Z)) !! p_run boot_σ = Some dat) by apply lookup_singleton_eq.
  set (m := store32 (k_mem s) (task_addr 1 + f_pending_unblocks) 0).
  assert (F : frame (in_range (task_addr 1 + f_pending_unblocks) 4) (k_mem s) m) by (by apply frame_store32).
  exists (with_mem m (with_regs (u_regs a) s)), code, dat, (with_u (u_regs a) a). split; [|split; [|split]].
  - eapply (view_low boot_σ code dat {[1 := dat]} KERNEL_STACK_SIZE s0 Hd a s m); [exact Hv| | | |].
    + eapply frame_weaken; [|exact F]. intros x Hx. unfold in_range in Hx. change (task_addr 1 + f_pending_unblocks) with
        (0x19000 + f_pending_unblocks) in Hx. unfold f_pending_unblocks, KERNEL_HI in *. lia.
    + apply kernel_inv_pending; [exact (um_inv _ _ _ _ _ (v_mode _ _ _ _ _ _ _ _ Hv))|done].
    + unfold pid_of, load_int. f_equal. apply (frame_load32 _ _ _ _ F). change (p_run boot_σ) with 1.
      intros b. unfold in_range, f_PID, f_pending_unblocks. lia.
    + exact (view_user_ok _ _ _ _ _ _ _ _ Hv).
  - change (k_last_pid s = 1). rewrite (kp_pid _ _ _ _ (v_kept _ _ _ _ _ _ _ _ Hv)). exact Hlp.
  - exact Hr.
  - unfold pending, pending_of, load_int. cbn [k_mem with_mem]. unfold m. rewrite load32_store32_same by lia. reflexivity.
Qed.

Lemma block_function_witness :
  ∃ s s' a, u_regs a = user_sample 3 ∧ block 0 0x10a00 0x101000 s = Ret tt s' ∧ k_cr3 s' = dir_addr 0 ∧
    suspended_call 0 (w_eax 5 (user_sample 3)) 1 s'.
Proof.
  destruct sample_no_pending as (s & code & dat & a & Hv & Hlp & Hr & Hp).
  assert (Hd : ({[1 := dat]} : gmap Z (list Z)) !! p_run boot_σ = Some dat) by apply lookup_singleton_eq.
  assert (Hh : 0x10a00 ∉ [addr_cpu_idle; addr_ret_from_fork; addr_task_switch_ret]) by (set_unfold; cbn; lia).
  assert (Hj : sizeof_task_struct + 108 ≤ 4 * KERNEL_STACK_SIZE) by (vm_compute; discriminate).
  pose proof (block_function 0 0x10a00 0x101000 Hh boot_σ code dat {[1 := dat]} KERNEL_STACK_SIZE s Hd Hj a s) as H.
  cbv zeta in H. rewrite Hr in H. destruct H as (s' & E & _ & H).
  - exact Hv.
  - intros _. change (pid_of (k_mem s) 0 < 100). rewrite (pi_idle _ _ (ki_pid _ _ _ _ (um_inv _ _ _ _ _ (v_mode _ _ _ _ _ _ _ _ Hv)))). reflexivity.
  - split; vm_compute; discriminate.
  - split; vm_compute; discriminate.
  - destruct (H Hp) as (_ & _ & Hc & _ & Hs). exists s, s', a. split; [exact Hr|]. split; [exact E|]. split; [exact Hc|exact Hs].
Defined.

(** ** The user program *)

Definition perror_sample : perror_frame := {| pf_size := 0x20; pf_off := 8; pf_ra := λ _, usr_main |}.

(** A program whose errno is 13. *)
Lemma perror_prints_witness :
  ∃ a a' s s', perror 0 0x10a00 0x101000 perror_sample s = Ret tt s' ∧ u_regs a = user_sample 3 ∧
    u_console a' = show [49; 51] (u_console a) ∧ esp (u_regs a') = USER_ESP + 4.
Proof.
  destruct sample_write as (s0 & s1 & code & dat & a1 & Hv1 & _ & Hr & _).
  assert (Hd : ({[1 := dat]} : gmap Z (list Z)) !! p_run boot_σ = Some dat) by apply lookup_singleton_eq.
  set (a := UState (u_regs a1) (uput (u_mem a1) 0x101000 13) (u_console a1) (u_ticks a1) (u_pid a1)).
  destruct (wp_elim (ustore32 0x101000 13) s1 (λ _ s, view boot_σ code dat {[1 := dat]} KERNEL_STACK_SIZE s0 a s)) as (_ & s & _ & Hv).
  { eapply (wp_ustore32 boot_σ code dat _ _ s0 Hd); [exact Hv1|split; vm_compute; discriminate|]. intros s2 H2. exact H2. }
  pose proof (perror_prints 0 0x10a00 0x101000 perror_sample boot_σ code dat {[1 := dat]} KERNEL_STACK_SIZE s0 Hd) as H.
  assert (Ev : uword (u_mem a) 0x101000 = 13) by (apply uword_uput; lia).
  assert (Hra : ∀ i, 0 ≤ pf_ra perror_sample i < 2 ^ 32) by (intros i; split; vm_compute; [discriminate|reflexivity]).
  assert (Hpf : 0 ≤ pf_off perror_sample ∧ pf_off perror_sample + 10 ≤ pf_size perror_sample) by (split; vm_compute; discriminate).
  specialize (H Hpf Hra a s). cbv zeta in H. rewrite Ev in H. change (u_regs a) with (u_regs a1) in H. rewrite Hr in H.
  destruct H as (a' & s' & E & _ & H1 & _ & H2 & _).
  - exact Hv.
  - split; vm_compute; discriminate.
  - split; vm_compute; discriminate.
  - left. vm_compute. discriminate.
  - lia.
  - vm_compute. discriminate.
  - exists a, a', s, s'. split; [exact E|]. split; [exact Hr|]. split; [exact H2|exact H1].
Defined.

(** An image with the strings of user.c in the 64 bytes of its user program. *)
Fixpoint put_bytes (m : memory) (a : Z) (l : list Z) : memory :=
  match l with [] => m | b :: l' => put_bytes (store8 m a b) (a + 1) l' end.

Definition run_mem : memory :=
  store32 (store32 (put_bytes (put_bytes ∅ 0x40010 greeting) 0x40020 failed) 0x10004 0x40) 0x10000 0x30000.
Definition run_image : kstate := with_mem run_mem kstate_image.

Definition user_layout_sample : user_layout := {|
  ul_greeting := L_USER_START + 0x10; ul_failed := L_USER_START + 0x20; ul_buff := L_USER_START + 0x40;
  ul_errno := L_USER_START + 0x60; ul_ra := λ _, usr_main;
|}.

Lemma load8_put_bytes l : ∀ m a x, x < a → load8 (put_bytes m a l) x = load8 m x.
Proof. induction l as [|b l IH]; intros m a x Hx; cbn [put_bytes]; [done|]. rewrite IH by lia. apply load8_store8_ne. lia. Qed.

Lemma run_image_ok : image_ok run_image.
Proof.
  apply (sample_image_ok _ 0x40); [|by vm_compute|by vm_compute|lia].
  intros a H1 H2. unfold run_mem. rewrite !load32_store32_ne by lia. rewrite <- (load32_empty a).
  apply load32_bytes. intros i Hi. by rewrite !load8_put_bytes by lia.
Qed.

Lemma run_placed : placed user_layout_sample USER_ESP.
Proof.
  assert (Hra : ∀ i, 0 ≤ ul_ra user_layout_sample i < 2 ^ 32) by (intros i; split; vm_compute; [discriminate|reflexivity]).
  split; [|exact Hra|..]; unfold in_data, in_user; cbn [ul_greeting ul_failed ul_buff ul_errno user_layout_sample];
    unfold USER_ESP, L_USER_START, USER_PAGES, NUM_PAG_DATA, NUM_PAG_CODE, PAGE_SIZE; lia.
Qed.

Lemma run_text va t :
  (∀ i b, t !! i = Some b → load8 run_mem (0x40000 + (va - L_USER_START + Z.of_nat i)) = b) →
  L_USER_START ≤ va → va - L_USER_START + Z.of_nat (length t) ≤ 0x40 → has_text run_image va t.
Proof.
  intros Hb H1 H2. split; [exact H1|exact H2| |exact Hb].
  left. unfold USER_ESP, L_USER_START, NUM_PAG_DATA, PAGE_SIZE in *. lia.
Qed.

Lemma run_greeting : has_text run_image (L_USER_START + 0x10) greeting.
Proof.
  apply run_text; [|lia|by vm_compute]. intros i b H. assert (Hl : (i < 11)%nat) by exact (lookup_lt_Some _ _ _ H).
  do 11 (destruct i as [|i]; [vm_compute in H |- *; congruence|]). lia.
Qed.

Lemma run_failed : has_text run_image (L_USER_START + 0x20) failed.
Proof.
  apply run_text; [|lia|by vm_compute]. intros i b H. assert (Hl : (i < 12)%nat) by exact (lookup_lt_Some _ _ _ H).
  do 12 (destruct i as [|i]; [vm_compute in H |- *; congruence|]). lia.
Qed.

Lemma system_runs_witness :
  ∃ s1 s2 s3 s4 a b, main env_sample 0x15000 run_image = Ret tt s1 ∧ user_main 0 0x10a00 user_layout_sample s1 = Ret tt s2 ∧
    clock_ticks 0x10b00 0x10b20 blank_clock 101 s2 = Ret tt s3 ∧ child_main 0 0x10a00 user_layout_sample s3 = Ret tt s4 ∧
    k_console s2 = show greeting (k_console s1) ∧
    buff_text user_layout_sample a = [49] ∧ buff_text user_layout_sample b = [51].
Proof.
  assert (Hra : 0 ≤ 0x10b20 < 2 ^ 32) by lia.
  assert (Hc : 0x10b00 ∉ [addr_cpu_idle; addr_ret_from_fork; addr_task_switch_ret]) by (set_unfold; cbn; lia).
  assert (Hset : ∀ s, wp (set_handlers env_sample) s (λ _ s', ∃ t, s' = with_idt t s)).
  { intros s. exists (k_idt s). destruct s. reflexivity. }
  destruct (system_runs 0x10b00 0x10b20 blank_clock Hra Hc blank_clock_ok env_sample 0x15000 Hset 0 0x10a00 user_layout_sample
    run_image run_image_ok run_placed run_greeting)
    as (s1 & s2 & s3 & s4 & code & dat & fs & s0 & s5 & a & b & E1 & E2 & E3 & E4 & C & _ & T1 & _ & _ & _ & _ & T2).
  exists s1, s2, s3, s4, a, b. split; [exact E1|]. split; [exact E2|]. split; [exact E3|]. split; [exact E4|].
  split; [exact C|]. split; [exact T1|exact T2].
Defined.

(** That program when it starts. *)
Lemma run_user : ∃ s code dat a,
  view boot_σ code dat {[1 := dat]} KERNEL_STACK_SIZE s a s ∧ k_last_pid s = 1 ∧ esp (u_regs a) = USER_ESP ∧
  ubytes (u_mem a) (L_USER_START + 0x10) 11 = greeting ∧ ubytes (u_mem a) (L_USER_START + 0x20) 12 = failed.
Proof.
  destruct (wp_elim (main env_sample 0x15000) run_image (λ _ s, ∃ code dat,
    user_mode boot_σ code {[1 := dat]} KERNEL_STACK_SIZE s ∧ k_last_pid s = 1 ∧ esp (k_regs s) = USER_ESP ∧ program_loaded run_image s))
    as ([] & s & _ & code & dat & Hum & Hlp & He & Hpl).
  { apply wp_main; [intros s; exists (k_idt s); by destruct s|exact run_image_ok|].
    intros s code dat H1 _ _ H2 _ _ _ _ H3 H4 _. exists code, dat. exact (conj H1 (conj H3 (conj H2 H4))). }
  exists s, code, dat, (observe boot_σ code dat s).
  split; [exact (view_observe boot_σ code dat {[1 := dat]} KERNEL_STACK_SIZE s s Hum (kept_refl _ _ _))|].
  split; [exact Hlp|]. split; [exact He|]. split.
  - exact (text_loaded code dat run_image s _ _ run_image_ok Hum Hpl run_greeting).
  - exact (text_loaded code dat run_image s _ _ run_image_ok Hum Hpl run_failed).
Qed.

Lemma user_main_correct_witness :
  ∃ a a' s s', user_main 0 0x10a00 user_layout_sample s = Ret tt s' ∧
    buff_text user_layout_sample a' = decimal (u_pid a) ∧ u_console a' = show greeting (u_console a).
Proof.
  destruct run_user as (s & code & dat & a & Hv & Hlp & He & Hg & Hf).
  assert (Hd : ({[1 := dat]} : gmap Z (list Z)) !! p_run boot_σ = Some dat) by apply lookup_singleton_eq.
  destruct (user_main_correct 0 0x10a00 user_layout_sample boot_σ code dat {[1 := dat]} KERNEL_STACK_SIZE s a s Hd)
    as (a' & s' & E & T & _ & C & _).
  - vm_compute. discriminate.
  - vm_compute. discriminate.
  - exact Hv.
  - rewrite He. exact run_placed.
  - exact Hg.
  - exact Hf.
  - rewrite Hlp. lia.
  - exists a, a', s, s'. split; [exact E|]. split; [exact T|exact C].
Defined.

(** ** A page fault *)

Lemma page_fault_stops_witness :
  ∃ s s', page_fault 0x10c00 0x10c20 0x200000 6 s = Ret tt s' ∧ k_regs s = user_sample 0 ∧
    k_console s' = show (fault_text 0x200000 usr_main 6) (k_console s) ∧ Z.testbit (eflags (k_regs s')) 9 = false ∧
    page_fault 0x10c00 0x10c20 0x40000000 4 s = Fault (BufferOverflow 8).
Proof.
  destruct (sample_user 0) as (s & code & dat & Hum & Hr & _); [lia|].
  assert (Hj : sizeof_task_struct + 88 ≤ 4 * KERNEL_STACK_SIZE) by (vm_compute; discriminate).
  destruct (page_fault_stops boot_σ code {[1 := dat]} KERNEL_STACK_SIZE s 0x10c00 0x10c20 Hum Hj ltac:(lia) 0x200000 6 ltac:(lia)) as [H _].
  destruct (page_fault_stops boot_σ code {[1 := dat]} KERNEL_STACK_SIZE s 0x10c00 0x10c20 Hum Hj ltac:(lia) 0x40000000 4 ltac:(lia)) as [_ Ho].
  rewrite Hr in H. destruct H as (s' & E & Hc & _ & Hf & _).
  - split; [reflexivity|split; reflexivity].
  - exists s, s'. split; [exact E|]. split; [exact Hr|]. split; [exact Hc|]. split; [exact Hf|].
    apply Ho. right. right. vm_compute. discriminate.
Defined.

(** ** The idle task *)

(** The first process, alone, with no unblock pending. *)
Lemma sample_alone : ∃ s code dat,
  user_mode boot_σ code {[1 := dat]} KERNEL_STACK_SIZE s ∧ k_regs s = user_sample 3 ∧ k_last_pid s = 1 ∧
  k_zeos_ticks s = 0 ∧ pending boot_σ s = 0 ∧ idle_start (k_mem s) 0.
Proof.
  destruct (sample_first (user_sample 3)) as (s & dat & [[code Hinv] Hc Hr _] & Hlp & Ht & Hi).
  set (m := store32 (k_mem s) (task_addr 1 + f_pending_unblocks) 0).
  exists (with_console (k_console s) (with_zeos_ticks 0 (with_mem m s))), code, dat. split_and!; [split| | | | |].
  - apply kernel_inv_ticks; [by apply kernel_inv_pending|apply Hinv].
  - kred. rewrite Hr. split; [|by repeat constructor|done]. repeat constructor; cbn; lia || by vm_compute.
  - kred. by rewrite Ht.
  - by vm_compute.
  - exact Hc.
  - done.
  - exact Hr.
  - exact Hlp.
  - reflexivity.
  - unfold pending, pending_of, load_int. cbn [k_mem with_mem with_console with_zeos_ticks]. unfold m.
    rewrite load32_store32_same by lia. reflexivity.
  - apply (idle_start_frame (in_range (task_addr 1 + f_pending_unblocks) 4) (k_mem s)); [exact Hi|by apply frame_store32|].
    intros x Hx%stack_bytes_page Hy. unfold in_range in *. change (task_addr 0) with 0x18000 in Hx. change (task_addr 1) with 0x19000 in Hy.
    unfold f_pending_unblocks, PAGE_SIZE in *. lia.
Qed.

Lemma last_process_idles_witness :
  ∃ s, (∃ s', (exit 0 0x10a00 0x101000 ;! cpu_idle ;! clock_ticks 0x10b00 0x10b20 blank_clock 1000) s = Ret tt s' ∧
      s32 (k_zeos_ticks s') = 1000 ∧ eip (k_regs s') = addr_cpu_idle) ∧
    ∃ s', (block 0 0x10a00 0x101000 ;! cpu_idle ;! clock_ticks 0x10b00 0x10b20 blank_clock 1000) s = Ret tt s' ∧
      s32 (k_zeos_ticks s') = 1000 ∧ suspended_call 0 (w_eax 5 (user_sample 3)) 1 s'.
Proof.
  destruct sample_alone as (s & code & dat & Hum & Hr & Hlp & Ht & Hp & Hi).
  assert (Hra : 0 ≤ 0x10b20 < 2 ^ 32) by lia.
  assert (Hd : ({[1 := dat]} : gmap Z (list Z)) !! p_run boot_σ = Some dat) by apply lookup_singleton_eq.
  assert (Hh : 0x10a00 ∉ [addr_cpu_idle; addr_ret_from_fork; addr_task_switch_ret]) by (set_unfold; cbn; lia).
  assert (Hj : sizeof_task_struct + 108 ≤ 4 * KERNEL_STACK_SIZE) by (vm_compute; discriminate).
  destruct (last_process_idles 0x10b00 0x10b20 blank_clock Hra blank_clock_ok 0 0x10a00 0x101000 Hh boot_σ code dat {[1 := dat]}
    KERNEL_STACK_SIZE s Hd Hj eq_refl (observe boot_σ code dat s) s 1000) as [(s1 & E1 & W1 & _) H2].
  - exact (view_observe _ _ dat _ _ s s Hum (kept_refl _ _ _)).
  - exact Hi.
  - unfold observe in H2. cbn [u_regs] in H2. rewrite Hr in H2. destruct H2 as (s2 & E2 & W2 & _ & S2).
    + exact Hp.
    + split; vm_compute; discriminate.
    + split; vm_compute; discriminate.
    + exists s. split.
      * exists s1. split; [exact E1|]. split; [rewrite (wt_ticks _ _ _ _ _ _ W1), Ht; reflexivity|exact (wt_eip _ _ _ _ _ _ W1)].
      * exists s2. split; [exact E2|]. split; [rewrite (wt_ticks _ _ _ _ _ _ W2), Ht; reflexivity|exact S2].
Defined.

(** ** The keyboard *)

